(* ===== verification/_CoqProject ===== *)
-Q . S2P
Prelude.v
Alloc.v
Buffer.v
Time.v
Double.v
TimeFp.v
Bits.v
CLib.v
TestsTime.v
Types.v
TypesFp.v
Text.v
DList.v
Sys.v
Live.v
Clock.v
Fd.v
Serial.v
SerialSession.v
Ev.v
Layout.v
Logger.v
LogStamp.v
LogLine.v
LogDump.v
LogTree.v
LogMacros.v
LogSession.v
Netlink.v
NetlinkIo.v
NetlinkRun.v
ReceiverLife.v
BufferLegacy.v
Stream.v
StreamRun.v
StreamLife.v
Pipe.v
Tcp.v
TcpLife.v
ServerLife.v
