(* ===== verification/Prelude.v ===== *)
(** * sancus-core in Rocq

    sancus-core is a small C framework for network servers: wrappers of the
    POSIX calls that retry and clean up, a few data structures, and on top of
    them buffered streams, TCP connections and servers, a netlink receiver and
    a logger, driven by the callbacks of an event loop.  This development
    models the sources under include/sancus, src/sancus and src/netlink as
    functions, with their undefined behaviour and the answers of the kernel
    made explicit, and proves what they do, in the places where they are wrong
    too.  A definition that models code names the symbol and its lines in the
    comment in front of it.

    ** The model

    [Prelude] (this file) has what everything shares.  A computation is an
    [outcome]: a value, undefined behaviour (an access outside its object, a
    signed overflow, a null dereference), a failed [assert], or too little
    fuel.  Integers are [Z] with the wrapping of their C type written out, on
    LP64.  An object is a list of bytes and a pointer into it an index; [load]
    and [store] are undefined outside.  A C string is its bytes and a NUL
    ([cstr]).  [Sys] adds the operating system: a [world] holds the answers the
    kernel is going to give, what was asked and answered so far, and [errno];
    the monad [io] threads it.  Theorems quantify over the answers, so they
    hold for every kernel that meets the stated condition.  Callbacks of the
    user are arguments.  What hands out descriptors promises its clients, as an
    instance of the class [Sys.Opens], to leak none: [Fd] proves it of [openat]
    and [socket], and [Serial], [Tcp] and [NetlinkIo] rely on nothing else.
    What transmits bytes promises [Sys.Delivers], a prefix and all of it without
    an error: [Fd] proves it of [write] and [writev], [LogSession] of a logged
    line, and [Pipe] relies on nothing else of a writer.
    [Live] replays a trace to see which descriptors are held, and says what it
    is to own one among a program that opens others ([Live.keeps], [Live.run]).
    The numbers of the events are the class [Ev.EvFlags]: what holds for all
    of them is proved so, and the stub header of the repository, in which
    reading is 0, is one instance, with theorems of its own.  The rest of the
    event library is the stub's: its watchers are never active.

    ** The files

    - [Buffer]: buffer.h, buffer.c and buffer_local.h.  [buffer] is the struct
      with the array it points to.  The abstract specification is [bstr], a
      bounded byte string; [represents] relates the two.
    - [Alloc]: alloc.h and alloc.c over any function that does what is
      documented of [realloc], the class [Alloc.Realloc].
    - [Time]: time.h and time.c.  The value of a canonical duration is a
      number of nanoseconds.  [Double]: the C type [double], executable, with
      the accuracy of its operations; [TimeFp]: the conversions of time.h that
      use it.  [TestsTime]: the text of a duration, and the whole test program
      tests/time.c run on the model.
    - [Bits]: bit.h.  [Types]: types.h, its macros over the class [Types.CNum]
      of numeric types, those nothing instantiates too, and their instances; [TypesFp]: those for [double] and [long double].
      [CLib]: [strtol], [strtoul] and the integer conversions of [printf] as
      far as the sources use them.  [Text]: string.h and fmt_cstr.c.
    - [DList]: list.h.  The nodes live in a heap; [dll] says that a ring of
      pointers represents a sequence, the specification the operations refine.
    - [Clock]: clock.h and clock.c.  [Fd]: fd.h, fd.c and socket.h.
      [Serial]: serial.h and sancus_serial.c; [SerialSession]: a port from its
      opening to its closing.  [Ev]: ev.h, a watcher with the stubs of the
      header.  [Layout]: [container_of] and [ARRAY_SIZE] of common.h, with
      structs at addresses.
    - [Logger]: logger.h and logger.c.  Loggers live in a store and point to
      their parents; [chain] is the path a walk takes.  The state of the file
      ([lstate]) is passed along.  It uses [Buffer], [Time], [Fd] and [Clock].
      [LogStamp] proves what a timestamp shows, [LogLine] what becomes of a
      printed call, [LogDump] of the dumps, [LogTree] that setting loggers up
      keeps them in trees.  [LogMacros] are the macros that programs log with,
      one definition for each, and the branch hints of common.h;
      [LogSession]: a program that logs with them.
    - [Netlink]: netlink.h, netlink_msg.c and netlink_attr.c on a byte array.
      [NetlinkIo]: netlink_io.c, the receiver, on top of it.  [NetlinkRun]: that
      taking a datagram apart ends, and both sides together, from the operations
      that build a message to the callback that is shown it.  [ReceiverLife]:
      the receiver's socket over any number of steps.
    - [BufferLegacy]: buffer_legacy.h and buffer_legacy.c, with a step relation
      for what a client may do with the read buffer.  [Stream]: stream.h and
      stream.c, which reads into it; [StreamRun]: whole runs of read events;
      [StreamLife]: what a stream owns, its descriptor and its array.  [Pipe]: a
      writer and a stream at the two ends of a connection.
    - [Tcp]: tcp_conn.h, tcp_conn.c, tcp_server.h and tcp_server.c.
      [TcpLife]: the life of a connection as a step relation, against an
      automaton of phases; [ServerLife]: that of a server.  What callbacks
      promise is the classes [TcpLife.Polite], [ServerLife.ServerPolite],
      [ReceiverLife.ReceiverPolite] and [StreamLife.StreamPolite].

    ** What the theorems show

    Refinements: any sequence of calls on a buffer returns and leaves what the
    bounded string does, and any sequence of list operations what the sequence
    does; between any two moments of its life a connection goes from phase to
    phase as its automaton does, never back, and owns its socket until it is
    closed. Ownership: over any run a server and a netlink receiver hold their
    socket and nothing else, whatever the kernel answers, with callbacks that
    keep the promises of the classes above; a stream keeps to its descriptor,
    which is given back when it is closed, and its array; a session with a
    serial port leaves the descriptors and the attributes of the line as they
    were. Types: loggers that are put under parents only while they have no
    children of their own are trees with [unsigned] masks, so every question
    about them has an answer. Round trips: netlink
    attributes that were put into a message are those that parsing shows, and
    those that the callback of a receiver finds in the datagram;
    escaped bytes and dumped data read back; a duration survives the way
    through [double] to the nanosecond; memory is as before after [free].
    Safety: parsing untrusted netlink bytes reads nothing outside a buffer that
    has room for the message's aligned length, and ends; a loop may free the
    elements it takes out of a list; opening and connecting never leak a
    descriptor, and an address that cannot be read opens none. Termination: a
    receiver gets through a datagram with a result, if the headers it looks
    for lie in its array and no length of 2^31 or more is aligned to nothing.
    Whole transfers: [write] and [writev] deliver a prefix in order, all of it
    or the error of the call that failed; the read buffer is a queue, and a
    run of a stream is equivalent to one; every branch of a read event, the
    full buffer's too, closes the stream exactly if the callback asks for it;
    what is written at one end of a connection is read at the other, and a
    reader that uses what it is shown catches up; a program that logs writes
    the lines that are not filtered, in order, each behind its timestamp.
    Exactness: the duration
    arithmetic, the conversions, the copies and the levels, prefixes and lines
    of the logger do what their statements say, on the inputs the statements
    single out.

    Where the code is wrong the theorem says how: a netlink header of 2^31
    bytes hangs the receiver, and as [SANCUS_EV_READ] is 0 the first writable
    event establishes any connection and no callback ever reads. Theorems and lemmas that are not in
    the list of properties record the others:
    [Buffer.truncate_full_writes_past_end],
    [LogLine.prefix_exact_fit_overflows], [Fd.writev_short_write_overruns],
    [DList.swap_loses_elements], [LogDump.dump_long_count_fails],
    [Tcp.refused_connect_reported_as_connected], [TimeFp.negative_fp_wrong],
    [Alloc.free_null_leaks], [StreamRun.full_with_space_in_front],
    [Fd.plain_socket_always_fails], [Fd.writev_empty_parts_hang],
    [Netlink.attr_parse_reads_padding], [LogStamp.step_back_shown],
    [LogDump.wide_row_is_cut],
    [Netlink.attr_put_stores_pointer], [Netlink.put_check_overflow],
    [Time.time_cmp_orders], [NetlinkIo.second_message_overruns],
    [NetlinkIo.control_message_closes], [Time.time_fix_exact],
    [Time.is_gt_zero_exact] and [Time.ms_roundtrip].

    ** Fuel and bounds

    Loops that walk over an array recurse on the number of elements left.
    Loops that ask the kernel get one step for each answer it still has
    ([patience]); when they run out the call is still waiting.  Walks up the
    parents of a logger get the size of the store, which a chain without a
    cycle cannot exceed ([LogLine.chain_size]); list loops get the size of the
    heap.  [Netlink.parse_fuel] is more than the attributes a message of 16
    bits of length can hold, and the loop over the messages of a datagram needs
    one round for every four bytes ([NetlinkRun.extract_terminates]).  Dumps recurse on the bytes left, as each block
    takes one at least.  Twenty digits ([CLib.fmt_u]) write every 64-bit
    number.

    ** What is not modelled

    The compiler attributes of common.h, which have no behaviour; threads, so the mutex of the fd backend has no state; the
    libev loop, which is not in the repository; [inet_pton], [cfsetispeed],
    [cfsetospeed], [strtod] and [strtold], which are parameters. A [va_list] is the text
    it prints. Cyclic parents of a logger make its walks [OutOfFuel]
    ([LogTree.own_parent_never_answers]).  An
    [abort] is [Aborted] and keeps nothing of the world, so what was written
    before it is not part of the result.  Of undefined behaviour, pointers that
    are formed outside their object but not used, and addresses that are not
    aligned for their type, are not counted. *)

From Stdlib Require Strings.Byte.
From Stdlib Require String.
From Stdlib Require Export ZArith Lia Bool.
From stdpp Require Export base tactics option numbers list.

Declare Scope sancus_scope.
Delimit Scope sancus_scope with sancus.
#[global] Open Scope Z_scope.

(** ** Results of a C computation

    [Undef] is undefined behaviour (out-of-bounds access, null dereference,
    signed overflow), [Aborted] a failed [assert], [OutOfFuel] a loop that was
    given too few iterations. *)

Inductive outcome (A : Type) : Type :=
  | Ret (a : A)
  | Undef
  | Aborted
  | OutOfFuel.
Arguments Ret {A} a.
Arguments Undef {A}.
Arguments Aborted {A}.
Arguments OutOfFuel {A}.

#[export] Instance outcome_ret : MRet outcome := fun A a => Ret a.

#[export] Instance outcome_bind : MBind outcome := fun A B f m =>
  match m with
  | Ret a => f a
  | Undef => Undef
  | Aborted => Aborted
  | OutOfFuel => OutOfFuel
  end.

#[export] Instance outcome_fmap : FMap outcome := fun A B f m =>
  match m with
  | Ret a => Ret (f a)
  | Undef => Undef
  | Aborted => Aborted
  | OutOfFuel => OutOfFuel
  end.

#[export] Instance outcome_eq_dec `{EqDecision A} : EqDecision (outcome A).
Proof. solve_decision. Defined.

(** [ub_unless b]: the access is defined only when [b] holds. *)
Definition ub_unless (b : bool) : outcome unit := if b then Ret tt else Undef.

(** [c_assert b]: the C [assert] macro, in a build without [NDEBUG]. *)
Definition c_assert (b : bool) : outcome unit := if b then Ret tt else Aborted.

(** [deref p]: the object a pointer designates; [None] is [NULL]. *)
Definition deref {A} (p : option A) : outcome A :=
  match p with Some a => Ret a | None => Undef end.

(** The computation neither aborts nor has undefined behaviour and returns. *)
Definition returns {A} (m : outcome A) : Prop := exists a, m = Ret a.

Section OutcomeLemmas.
Context {A B C : Type}.

Lemma bind_ret (a : A) (f : A -> outcome B) : (Ret a ≫= f) = f a.
Proof. reflexivity. Qed.

Lemma bind_undef (f : A -> outcome B) : (Undef ≫= f) = Undef.
Proof. reflexivity. Qed.

Lemma bind_aborted (f : A -> outcome B) : (Aborted ≫= f) = Aborted.
Proof. reflexivity. Qed.

Lemma bind_assoc (m : outcome A) (f : A -> outcome B) (g : B -> outcome C) :
  ((m ≫= f) ≫= g) = (m ≫= fun a => f a ≫= g).
Proof. by destruct m. Qed.

Lemma bind_ret_inv (m : outcome A) (f : A -> outcome B) b :
  (m ≫= f) = Ret b -> exists a, m = Ret a /\ f a = Ret b.
Proof. destruct m; simpl; try discriminate; eauto. Qed.
End OutcomeLemmas.

Lemma ub_unless_true b : b = true -> ub_unless b = Ret tt.
Proof. by intros ->. Qed.

Lemma ub_unless_false b : b = false -> ub_unless b = Undef.
Proof. by intros ->. Qed.

Lemma ub_unless_ret b u : ub_unless b = Ret u <-> b = true.
Proof. destruct b, u; simpl; split; congruence. Qed.

Lemma c_assert_true b : b = true -> c_assert b = Ret tt.
Proof. by intros ->. Qed.

Lemma c_assert_ret b u : c_assert b = Ret u <-> b = true.
Proof. destruct b, u; simpl; split; congruence. Qed.

(** [mret] of the outcome monad is [Ret]. *)
Lemma mret_ret {A} (a : A) : (mret a : outcome A) = Ret a.
Proof. reflexivity. Qed.

Create Rewrite HintDb outcome.
#[export] Hint Rewrite @bind_ret @bind_undef @bind_aborted @mret_ret : outcome.

(** Evaluate the binds whose first part is known. *)
Ltac run := repeat (progress (rewrite ?bind_ret, ?bind_undef, ?bind_aborted, ?mret_ret; cbv beta iota)).

(** Decompose a hypothesis [m ≫= f = Ret v]. *)
Ltac inv_bind H :=
  let a := fresh "v" in
  let H1 := fresh "Hb" in
  apply bind_ret_inv in H as (a & H1 & H).

(** ** Machine integers (the LP64 model of x86-64 Linux)

    [int] has 32 bits, [long], [size_t], [ssize_t] and [uint_fast16_t] have
    64.  Unsigned arithmetic and conversions wrap; signed overflow is
    undefined, so a signed operation is written with [ck_s64] or [ck_s32]. *)

Definition uwrap (w z : Z) : Z := z mod 2 ^ w.
Definition swrap (w z : Z) : Z := (z + 2 ^ (w - 1)) mod 2 ^ w - 2 ^ (w - 1).

Abbreviation u8 := (uwrap 8).
Abbreviation u16 := (uwrap 16).
Abbreviation u32 := (uwrap 32).
Abbreviation u64 := (uwrap 64).
Abbreviation s32 := (swrap 32).
Abbreviation s64 := (swrap 64).

Definition INT_MIN : Z := - 2 ^ 31.
Definition INT_MAX : Z := 2 ^ 31 - 1.
Definition UINT_MAX : Z := 2 ^ 32 - 1.
Definition LONG_MIN : Z := - 2 ^ 63.
Definition LONG_MAX : Z := 2 ^ 63 - 1.
Definition ULONG_MAX : Z := 2 ^ 64 - 1.

(** [z] is a value of a [w]-bit signed (unsigned) type. *)
Definition in_s (w z : Z) : bool := (- 2 ^ (w - 1) <=? z) && (z <=? 2 ^ (w - 1) - 1).
Definition in_u (w z : Z) : bool := (0 <=? z) && (z <=? 2 ^ w - 1).

Definition ck_s64 (z : Z) : outcome Z := if in_s 64 z then Ret z else Undef.
Definition ck_s32 (z : Z) : outcome Z := if in_s 32 z then Ret z else Undef.

Lemma pow2_pos w : 0 <= w -> 0 < 2 ^ w.
Proof. intros. apply Z.pow_pos_nonneg; lia. Qed.

Lemma uwrap_range w z : 0 <= w -> 0 <= uwrap w z < 2 ^ w.
Proof. intros. apply Z.mod_pos_bound, pow2_pos; lia. Qed.

Lemma uwrap_id w z : 0 <= z < 2 ^ w -> uwrap w z = z.
Proof. apply Z.mod_small. Qed.

Lemma uwrap_idem w z : 0 <= w -> uwrap w (uwrap w z) = uwrap w z.
Proof. intros. apply uwrap_id, uwrap_range; lia. Qed.

Lemma swrap_id w z : 0 < w -> - 2 ^ (w - 1) <= z < 2 ^ (w - 1) -> swrap w z = z.
Proof.
  intros Hw Hz. unfold swrap.
  assert (2 ^ w = 2 * 2 ^ (w - 1)) by (rewrite <- Z.pow_succ_r by lia; f_equal; lia).
  rewrite Z.mod_small; lia.
Qed.

Lemma swrap_range w z : 0 < w -> - 2 ^ (w - 1) <= swrap w z < 2 ^ (w - 1).
Proof.
  intros Hw. unfold swrap.
  assert (2 ^ w = 2 * 2 ^ (w - 1)) by (rewrite <- Z.pow_succ_r by lia; f_equal; lia).
  pose proof (Z.mod_pos_bound (z + 2 ^ (w - 1)) (2 ^ w) ltac:(apply pow2_pos; lia)). lia.
Qed.

Lemma in_s64_spec z : in_s 64 z = true <-> LONG_MIN <= z <= LONG_MAX.
Proof. unfold in_s, LONG_MIN, LONG_MAX. rewrite andb_true_iff, !Z.leb_le. simpl. lia. Qed.

Lemma ck_s64_ok z : LONG_MIN <= z <= LONG_MAX -> ck_s64 z = Ret z.
Proof. intros H%in_s64_spec. unfold ck_s64. by rewrite H. Qed.

Lemma ck_s64_bad z : z < LONG_MIN \/ LONG_MAX < z -> ck_s64 z = Undef.
Proof.
  intros H. unfold ck_s64. destruct (in_s 64 z) eqn:E; [|done].
  apply in_s64_spec in E. lia.
Qed.

(** Reduce the powers of two of the integer bounds to numerals for [lia]. *)
Ltac cbv_bounds :=
  unfold INT_MIN, INT_MAX, UINT_MAX, LONG_MIN, LONG_MAX, ULONG_MAX in *;
  repeat match goal with
  | |- context [2 ^ ?n] => let v := eval vm_compute in (2 ^ n) in change (2 ^ n) with v in *
  | H : context [2 ^ ?n] |- _ => let v := eval vm_compute in (2 ^ n) in change (2 ^ n) with v in *
  end.

Ltac bounds := cbv_bounds; lia.

(** ** Bytes *)

Abbreviation byte := Byte.byte.

#[export] Instance byte_eq_dec : EqDecision byte := Byte.byte_eq_dec.

Definition b2z (b : byte) : Z := Z.of_N (Byte.to_N b).

(** Conversion to an 8-bit type keeps the low byte. *)
Definition z2b (z : Z) : byte :=
  match Byte.of_N (Z.to_N (u8 z)) with Some b => b | None => Byte.x00 end.

Lemma b2z_range b : 0 <= b2z b < 256.
Proof. unfold b2z. pose proof (Byte.to_N_bounded b). lia. Qed.

Lemma b2z_inj a b : b2z a = b2z b -> a = b.
Proof.
  unfold b2z. intros H%N2Z.inj.
  pose proof (Byte.of_to_N a) as Ha. pose proof (Byte.of_to_N b). congruence.
Qed.

Lemma z2b_b2z b : z2b (b2z b) = b.
Proof.
  unfold z2b. rewrite uwrap_id by (pose proof (b2z_range b); simpl; lia).
  unfold b2z. by rewrite N2Z.id, Byte.of_to_N.
Qed.

Lemma b2z_z2b z : b2z (z2b z) = z mod 256.
Proof.
  unfold z2b, uwrap. change (2 ^ 8) with 256.
  pose proof (Z.mod_pos_bound z 256 ltac:(lia)).
  destruct (Byte.of_N (Z.to_N (z mod 256))) as [b|] eqn:E.
  - apply Byte.to_of_N in E. unfold b2z. rewrite E. lia.
  - apply Byte.of_N_None_iff in E. lia.
Qed.

(** The bytes of a string literal, without a terminator. *)
Definition lit (s : String.string) : list byte := String.list_byte_of_string s.
Export String.StringSyntax.
Delimit Scope string_scope with string.
Arguments lit s%_string.

(** [lit] with the terminating NUL: the array a C string literal denotes. *)
Definition cstr (s : list byte) : list byte := s ++ [Byte.x00].

(** ** Byte arrays

    An object of [n] bytes is a [list byte] of that length, an address inside
    it an index.  Reading or writing outside the object is [Undef]. *)

Definition zlen {A} (l : list A) : Z := Z.of_nat (length l).

(** The [n] elements of [l] from index [i] on (as many as there are). *)
Definition sub {A} (l : list A) (i n : Z) : list A :=
  take (Z.to_nat n) (drop (Z.to_nat i) l).

(** [l] with [x] written over it from index [i] on. *)
Definition splice {A} (l : list A) (i : Z) (x : list A) : list A :=
  take (Z.to_nat i) l ++ x ++ drop (Z.to_nat i + length x) l.

Definition in_bounds {A} (l : list A) (i n : Z) : bool :=
  (0 <=? i) && (0 <=? n) && (i + n <=? zlen l).

Definition load (m : list byte) (i n : Z) : outcome (list byte) :=
  if in_bounds m i n then Ret (sub m i n) else Undef.

Definition store (m : list byte) (i : Z) (x : list byte) : outcome (list byte) :=
  if in_bounds m i (zlen x) then Ret (splice m i x) else Undef.

(** One byte. *)
Definition load1 (m : list byte) (i : Z) : outcome byte :=
  if 0 <=? i then deref (m !! Z.to_nat i) else Undef.

Definition store1 (m : list byte) (i : Z) (b : byte) : outcome (list byte) :=
  store m i [b].

Section SliceLemmas.
Context {A : Type}.
Implicit Types (l x y : list A).

Lemma zlen_nonneg l : 0 <= zlen l.
Proof. unfold zlen. lia. Qed.

Lemma zlen_nil : zlen (@nil A) = 0.
Proof. reflexivity. Qed.

Lemma zlen_cons a l : zlen (a :: l) = 1 + zlen l.
Proof. unfold zlen. simpl length. lia. Qed.

Lemma zlen_app l x : zlen (l ++ x) = zlen l + zlen x.
Proof. unfold zlen. rewrite length_app. lia. Qed.

Lemma zlen_zero l : zlen l = 0 -> l = [].
Proof. destruct l; [done|]. rewrite zlen_cons. pose proof (zlen_nonneg l). lia. Qed.

Lemma in_bounds_spec l i n :
  in_bounds l i n = true <-> 0 <= i /\ 0 <= n /\ i + n <= zlen l.
Proof. unfold in_bounds. rewrite !andb_true_iff, !Z.leb_le. lia. Qed.

Lemma zlen_sub l i n : 0 <= i -> 0 <= n -> i + n <= zlen l -> zlen (sub l i n) = n.
Proof. unfold zlen, sub. intros. rewrite length_take, length_drop. lia. Qed.

Lemma zlen_splice l i x :
  0 <= i -> i + zlen x <= zlen l -> zlen (splice l i x) = zlen l.
Proof.
  unfold zlen, splice. intros.
  rewrite !length_app, length_take, length_drop. lia.
Qed.

Lemma lookup_sub l i n k :
  0 <= i -> 0 <= n ->
  sub l i n !! k = if decide (Z.of_nat k < n) then l !! (Z.to_nat i + k)%nat else None.
Proof.
  intros. unfold sub. case_decide.
  - rewrite lookup_take_lt by lia. apply lookup_drop.
  - apply lookup_take_ge. lia.
Qed.

Lemma lookup_splice l i x k :
  0 <= i -> i + zlen x <= zlen l ->
  splice l i x !! k =
    if decide (i <= Z.of_nat k < i + zlen x) then x !! (k - Z.to_nat i)%nat else l !! k.
Proof.
  unfold zlen, splice. intros. case_decide.
  - rewrite lookup_app_r by (rewrite length_take; lia).
    rewrite length_take, lookup_app_l by lia. f_equal; lia.
  - destruct (decide (Z.of_nat k < i)).
    + rewrite lookup_app_l by (rewrite length_take; lia). apply lookup_take_lt. lia.
    + rewrite lookup_app_r by (rewrite length_take; lia).
      rewrite lookup_app_r by (rewrite length_take; lia).
      rewrite lookup_drop, length_take. f_equal. lia.
Qed.
End SliceLemmas.

(** Equality of lists built from slices: compare them index by index. *)
Ltac slice_len :=
  repeat first
    [ rewrite zlen_app | rewrite zlen_cons | rewrite zlen_nil
    | rewrite zlen_splice by slice_side | rewrite zlen_sub by slice_side ]
with slice_side := solve [ lia | slice_len; lia ].

Ltac slice_ext :=
  apply list_eq; intros ?k;
  repeat first
    [ rewrite lookup_sub by slice_side
    | rewrite lookup_splice by slice_side
    | case_decide ];
  try solve [ reflexivity | exfalso; lia | f_equal; lia ].

Section SliceAlgebra.
Context {A : Type}.
Implicit Types (l x y : list A).

Lemma sub_all l : sub l 0 (zlen l) = l.
Proof. unfold sub, zlen. rewrite drop_0, Nat2Z.id. apply take_ge. lia. Qed.

Lemma sub_nil l i n : n <= 0 -> sub l i n = [].
Proof. intros. unfold sub. replace (Z.to_nat n) with 0%nat by lia. apply take_0. Qed.

Lemma sub_app_add l i n k :
  0 <= i -> 0 <= n -> 0 <= k -> sub l i (n + k) = sub l i n ++ sub l (i + n) k.
Proof.
  intros. unfold sub. rewrite !Z2Nat.inj_add by lia.
  by rewrite <- drop_drop, take_take_drop.
Qed.

Lemma sub_sub l i n j k :
  0 <= i -> 0 <= j -> 0 <= k -> j + k <= n -> sub (sub l i n) j k = sub l (i + j) k.
Proof. intros. slice_ext. Qed.

Lemma sub_splice_same l i x :
  0 <= i -> i + zlen x <= zlen l -> sub (splice l i x) i (zlen x) = x.
Proof.
  intros. pose proof (zlen_nonneg x). slice_ext.
  symmetry. apply lookup_ge_None_2. unfold zlen in *. lia.
Qed.

Lemma sub_splice_disjoint l i x j n :
  0 <= i -> i + zlen x <= zlen l -> 0 <= j -> 0 <= n -> j + n <= i \/ i + zlen x <= j ->
  sub (splice l i x) j n = sub l j n.
Proof. intros. pose proof (zlen_nonneg x). slice_ext. Qed.

Lemma splice_nil l i : 0 <= i <= zlen l -> splice l i [] = l.
Proof.
  intros. unfold splice. rewrite app_nil_l. simpl. rewrite Nat.add_0_r. apply take_drop.
Qed.

Lemma sub_app_l l x i n : 0 <= i -> i + n <= zlen l -> sub (l ++ x) i n = sub l i n.
Proof.
  intros. destruct (decide (0 <= n)); [|by rewrite !sub_nil by lia].
  apply list_eq. intros k. rewrite !lookup_sub by lia. case_decide; [|done].
  apply lookup_app_l. unfold zlen in *. lia.
Qed.

Lemma sub_app_r l x i n :
  zlen l <= i -> sub (l ++ x) i n = sub x (i - zlen l) n.
Proof.
  intros. unfold sub, zlen in *. rewrite drop_app_ge by lia. do 2 f_equal. lia.
Qed.
End SliceAlgebra.

Section MemoryLemmas.
Implicit Types (m x : list byte).

Lemma load_ok m i n : 0 <= i -> 0 <= n -> i + n <= zlen m -> load m i n = Ret (sub m i n).
Proof. intros. unfold load. by rewrite (proj2 (in_bounds_spec m i n)). Qed.

Lemma store_ok m i x : 0 <= i -> i + zlen x <= zlen m -> store m i x = Ret (splice m i x).
Proof.
  intros. pose proof (zlen_nonneg x). unfold store.
  by rewrite (proj2 (in_bounds_spec m i (zlen x))).
Qed.

Lemma store_oob m i x : zlen m < i + zlen x -> store m i x = Undef.
Proof.
  intros. unfold store. destruct (in_bounds m i (zlen x)) eqn:E; [|done].
  apply in_bounds_spec in E. lia.
Qed.

Lemma store_ret_inv m i x m' :
  store m i x = Ret m' -> 0 <= i /\ i + zlen x <= zlen m /\ m' = splice m i x.
Proof.
  unfold store. destruct (in_bounds m i (zlen x)) eqn:E; [|discriminate].
  apply in_bounds_spec in E. intros [= <-]. split_and!; by try lia.
Qed.

Lemma load_ret_inv m i n x :
  load m i n = Ret x -> 0 <= i /\ 0 <= n /\ i + n <= zlen m /\ x = sub m i n.
Proof.
  unfold load. destruct (in_bounds m i n) eqn:E; [|discriminate].
  apply in_bounds_spec in E. intros [= <-]. split_and!; by try lia.
Qed.

Lemma load1_lookup m i b : 0 <= i -> m !! Z.to_nat i = Some b -> load1 m i = Ret b.
Proof. intros Hi Hb. unfold load1. rewrite (proj2 (Z.leb_le 0 i) Hi). by rewrite Hb. Qed.

Lemma load1_ok m i : 0 <= i < zlen m -> exists b, load1 m i = Ret b /\ m !! Z.to_nat i = Some b.
Proof.
  intros. destruct (lookup_lt_is_Some_2 m (Z.to_nat i)) as [b Hb]; [unfold zlen in *; lia|].
  exists b. split; [apply load1_lookup; [lia|done]|done].
Qed.

Lemma load1_oob m i : i < 0 \/ zlen m <= i -> load1 m i = Undef.
Proof.
  intros H. unfold load1. destruct (Z.leb_spec 0 i); [|done].
  rewrite lookup_ge_None_2; [done|]. unfold zlen in H. lia.
Qed.
End MemoryLemmas.

(** ** Little-endian integers in memory *)

Fixpoint le_bytes (n : nat) (z : Z) : list byte :=
  match n with
  | O => []
  | S n => z2b z :: le_bytes n (z / 256)
  end.

Fixpoint le_val (bs : list byte) : Z :=
  match bs with
  | [] => 0
  | b :: bs => b2z b + 256 * le_val bs
  end.

Lemma length_le_bytes n z : length (le_bytes n z) = n.
Proof. revert z. induction n; intros; simpl; auto. Qed.

Lemma zlen_le_bytes n z : zlen (le_bytes n z) = Z.of_nat n.
Proof. unfold zlen. by rewrite length_le_bytes. Qed.

Lemma le_val_bytes n z : le_val (le_bytes n z) = z mod 256 ^ Z.of_nat n.
Proof.
  revert z. induction n as [|n IH]; intros z; cbn [le_bytes le_val].
  - by rewrite Z.mod_1_r.
  - rewrite IH, b2z_z2b, Nat2Z.inj_succ, Z.pow_succ_r by lia.
    pose proof (Z.pow_pos_nonneg 256 (Z.of_nat n) ltac:(lia) ltac:(lia)).
    by rewrite Z.rem_mul_r by lia.
Qed.

Lemma le_val_range bs : 0 <= le_val bs < 256 ^ zlen bs.
Proof.
  induction bs as [|b bs IH]; [by unfold zlen|].
  rewrite zlen_cons, Z.add_1_l, Z.pow_succ_r by apply zlen_nonneg.
  cbn [le_val]. pose proof (b2z_range b). lia.
Qed.

Lemma le_bytes_val bs : le_bytes (length bs) (le_val bs) = bs.
Proof.
  induction bs as [|b bs IH]; cbn [le_bytes le_val length]; [done|]. f_equal.
  - apply b2z_inj. rewrite b2z_z2b. pose proof (b2z_range b).
    rewrite (Z.mul_comm 256), Z.mod_add by lia. apply Z.mod_small. lia.
  - pose proof (b2z_range b).
    by rewrite (Z.mul_comm 256), Z.div_add, (Z.div_small (b2z b)) by lia.
Qed.

(** Loads and stores of unsigned [n]-byte integers. *)
Definition load_le (m : list byte) (i : Z) (n : nat) : outcome Z :=
  bs ← load m i (Z.of_nat n); mret (le_val bs).

Definition store_le (m : list byte) (i : Z) (n : nat) (z : Z) : outcome (list byte) :=
  store m i (le_bytes n z).

(** ** Strings *)

(** C's [strlen]: the index of the first NUL of the array [s] starts. *)
Fixpoint c_strlen (s : list byte) : outcome Z :=
  match s with
  | [] => Undef
  | b :: s => if decide (b = Byte.x00) then Ret 0 else n ← c_strlen s; mret (1 + n)
  end.

(** No NUL inside. *)
Definition no_nul (s : list byte) : Prop := Byte.x00 ∉ s.

(** [no_nul] of a literal. *)
Ltac no_nul_lit :=
  let H := fresh in intros H;
  repeat (apply elem_of_cons in H as [H|H]; [discriminate|]); by apply elem_of_nil in H.

Lemma c_strlen_cstr s t : no_nul s -> c_strlen (cstr s ++ t) = Ret (zlen s).
Proof.
  unfold no_nul, cstr. induction s as [|b s IH]; intros Hs; [done|].
  apply not_elem_of_cons in Hs as [Hb Hs]. simpl.
  rewrite decide_False by congruence. rewrite (IH Hs). run. rewrite zlen_cons. done.
Qed.

Lemma c_strlen_plain s : no_nul s -> c_strlen (cstr s) = Ret (zlen s).
Proof. intros Hs. pose proof (c_strlen_cstr s [] Hs) as H. by rewrite app_nil_r in H. Qed.

Lemma c_strlen_inv s n :
  c_strlen s = Ret n -> exists t r, s = cstr t ++ r /\ no_nul t /\ n = zlen t.
Proof.
  revert n. induction s as [|b s IH]; intros n; simpl; [discriminate|].
  case_decide as Hb.
  - intros [= <-]. exists [], s. subst b. repeat split. apply not_elem_of_nil.
  - intros H. inv_bind H. destruct (IH _ Hb0) as (t & r & -> & Ht & ->).
    injection H as <-. exists (b :: t), r. unfold no_nul. rewrite zlen_cons.
    repeat split. apply not_elem_of_cons. split; congruence.
Qed.

(** ** Error numbers the code returns (Linux values) *)

Definition EINTR : Z := 4.
Definition EAGAIN : Z := 11.
Definition EINVAL : Z := 22.
Definition ENOSPC : Z := 28.
Definition ERANGE : Z := 34.
Definition EOPNOTSUPP : Z := 95.
Definition ENOBUFS : Z := 105.
Definition EINPROGRESS : Z := 115.
Definition ESRCH : Z := 3.

(** ** Relating two computations

    Both have the same kind of result, and results that return are related. *)

Definition outcome_rel {A B} (R : A -> B -> Prop) (m : outcome A) (n : outcome B) : Prop :=
  match m, n with
  | Ret a, Ret b => R a b
  | Undef, Undef => True
  | Aborted, Aborted => True
  | OutOfFuel, OutOfFuel => True
  | _, _ => False
  end.

Lemma outcome_rel_bind {A B C D} (R : A -> B -> Prop) (Q : C -> D -> Prop) m n f g :
  outcome_rel R m n -> (forall a b, R a b -> outcome_rel Q (f a) (g b)) ->
  outcome_rel Q (m ≫= f) (n ≫= g).
Proof. destruct m, n; simpl; auto; contradiction. Qed.

Lemma outcome_rel_mono {A B} (R Q : A -> B -> Prop) m n :
  outcome_rel R m n -> (forall a b, R a b -> Q a b) -> outcome_rel Q m n.
Proof. destruct m, n; simpl; auto. Qed.

(** ** Slices, one element at a time *)

Lemma sub_snoc {A} (l : list A) i n x :
  0 <= i -> 0 <= n -> l !! Z.to_nat (i + n) = Some x -> sub l i (n + 1) = sub l i n ++ [x].
Proof.
  intros Hi Hn Hx. rewrite sub_app_add by lia. f_equal.
  unfold sub. apply drop_S in Hx. rewrite Hx. by simpl.
Qed.

Lemma sub_cons {A} (l : list A) i n x :
  0 <= i -> 0 < n -> l !! Z.to_nat i = Some x -> sub l i n = x :: sub l (i + 1) (n - 1).
Proof.
  intros Hi Hn Hx. unfold sub. apply drop_S in Hx. rewrite Hx.
  replace (Z.to_nat n) with (S (Z.to_nat (n - 1))) by lia. simpl. do 3 f_equal. lia.
Qed.

Lemma sub_lookup_ext {A} (l l' : list A) i n :
  0 <= i -> (forall k, i <= Z.of_nat k < i + n -> l !! k = l' !! k) -> sub l i n = sub l' i n.
Proof.
  intros Hi H. destruct (decide (0 <= n)); [|by rewrite !sub_nil by lia].
  apply list_eq. intros k. rewrite !lookup_sub by lia. case_decide; [|done].
  apply H. lia.
Qed.

(** Drop the trailing elements that satisfy [p]. *)
Fixpoint rstrip {A} (p : A -> bool) (l : list A) : list A :=
  match l with
  | [] => []
  | x :: l => match rstrip p l with
              | [] => if p x then [] else [x]
              | r => x :: r
              end
  end.

(** Drop the last element if it satisfies [p]. *)
Definition rstrip1 {A} (p : A -> bool) (l : list A) : list A :=
  match last l with
  | Some x => if p x then take (length l - 1) l else l
  | None => l
  end.

Lemma rstrip_snoc {A} (p : A -> bool) l x :
  rstrip p (l ++ [x]) = if p x then rstrip p l else l ++ [x].
Proof.
  induction l as [|y l IH]; simpl; [done|]. rewrite IH. destruct (p x); [done|].
  by destruct l.
Qed.

Lemma rstrip1_snoc {A} (p : A -> bool) l x :
  rstrip1 p (l ++ [x]) = if p x then l else l ++ [x].
Proof.
  unfold rstrip1. rewrite last_snoc. destruct (p x); [|done].
  rewrite length_app. simpl. replace (length l + 1 - 1)%nat with (length l) by lia.
  apply take_app_length.
Qed.

Lemma rstrip_prefix {A} (p : A -> bool) l : exists r, l = rstrip p l ++ r /\ Forall (fun x => p x = true) r.
Proof.
  induction l as [|x l IH] using rev_ind; [by exists []|].
  rewrite rstrip_snoc. destruct (p x) eqn:Hx; [|by exists []; rewrite app_nil_r].
  destruct IH as (r & Hr & HF). exists (r ++ [x]). split; [by rewrite app_assoc, <- Hr|].
  apply Forall_app; auto.
Qed.

(** Writing the byte that is already there changes nothing. *)
Lemma splice_lookup_id {A} (l : list A) i x :
  0 <= i -> l !! Z.to_nat i = Some x -> splice l i [x] = l.
Proof.
  intros Hi Hx. apply list_eq. intros k. pose proof (lookup_lt_Some _ _ _ Hx).
  rewrite lookup_splice by (unfold zlen; simpl length; lia).
  change (zlen [x]) with 1. case_decide; [|done].
  replace k with (Z.to_nat i) by lia. by rewrite Nat.sub_diag.
Qed.

Lemma sub_whole {A} (l : list A) n : zlen l <= n -> sub l 0 n = l.
Proof. intros. unfold sub. rewrite drop_0. apply take_ge. unfold zlen in *. lia. Qed.

Lemma zlen_sub_min {A} (l : list A) n : 0 <= n -> zlen (sub l 0 n) = Z.min (zlen l) n.
Proof. intros. unfold sub, zlen. rewrite drop_0, length_take. lia. Qed.

(** Decide the integer comparisons of the goal. *)
Ltac crush_cond :=
  repeat match goal with
  | |- context [?a <? ?b] => destruct (Z.ltb_spec a b); try lia
  | |- context [?a <=? ?b] => destruct (Z.leb_spec a b); try lia
  | |- context [?a >? ?b] => rewrite (Z.gtb_ltb a b)
  | |- context [?a >=? ?b] => rewrite (Z.geb_leb a b)
  | |- context [?a =? ?b] => destruct (Z.eqb_spec a b); try lia
  end.

Lemma suffix_sub {A} (s d : list A) :
  zlen s <= zlen d -> s `suffix_of` d <-> sub d (zlen d - zlen s) (zlen s) = s.
Proof.
  intros Hle. split.
  - intros [r ->]. rewrite zlen_app, sub_app_r by lia.
    replace (_ - _ - _) with 0 by lia. apply sub_all.
  - intros H. exists (sub d 0 (zlen d - zlen s)). rewrite <- H at 2.
    rewrite <- (sub_app_add d 0) by (pose proof (zlen_nonneg s); lia).
    rewrite <- sub_all at 1. f_equal. lia.
Qed.

(** Two writes next to each other are one. *)
Lemma splice_app {A} (l x y : list A) i :
  0 <= i -> i + zlen x + zlen y <= zlen l ->
  splice (splice l i x) (i + zlen x) y = splice l i (x ++ y).
Proof.
  intros. pose proof (zlen_nonneg x). pose proof (zlen_nonneg y).
  apply list_eq; intros k.
  rewrite !lookup_splice by (slice_len; lia). rewrite zlen_app.
  repeat case_decide; try lia; try done.
  - rewrite lookup_app_r by (unfold zlen in *; lia). f_equal. unfold zlen in *. lia.
  - rewrite lookup_app_l by (unfold zlen in *; lia). done.
Qed.

(** Writes that do not overlap commute. *)
Lemma splice_comm {A} (l x y : list A) i j :
  0 <= i -> i + zlen x <= j -> j + zlen y <= zlen l ->
  splice (splice l j y) i x = splice (splice l i x) j y.
Proof.
  intros. pose proof (zlen_nonneg x). pose proof (zlen_nonneg y). slice_ext.
Qed.
