(* ===== verification/Alloc.v ===== *)
(** * Alloc

    The replaceable allocator of include/sancus/alloc.h and
    src/sancus/alloc.c.  The function behind it, [realloc] unless the program
    sets another, belongs to the C library or the program: it is a parameter,
    with what the C standard says of [realloc] as the class [Realloc]. *)

From stdpp Require Import gmap.
From S2P Require Import Prelude.
#[local] Open Scope Z_scope.

(** The blocks of memory that are allocated, by address. *)
Abbreviation blocks := (gmap Z (list byte)).

(** A function like [realloc]: undefined for a block that is not allocated. *)
Definition realloc_fn : Type := blocks -> option Z -> Z -> outcome (option Z * blocks).

(** [_sancus_realloc] @ include/sancus/alloc.h:32-32. The function pointer, and
    the memory it works on. *)
Record alloc_state := AllocState { _sancus_realloc : realloc_fn; mem : blocks }.

(** [_sancus_realloc, initialised] @ src/sancus/alloc.c:34-34. *)
Definition initial_state (realloc : realloc_fn) (m : blocks) : alloc_state := AllocState realloc m.

Definition call_realloc (s : alloc_state) (p : option Z) (n : Z) : outcome (option Z * alloc_state) :=
  '(q, m) ← _sancus_realloc s (mem s) p n; Ret (q, AllocState (_sancus_realloc s) m).

(** [sancus_alloc] @ include/sancus/alloc.h:36-36. *)
Definition sancus_alloc (s : alloc_state) (size : Z) : outcome (option Z * alloc_state) :=
  call_realloc s None size.

(** [sancus_realloc] @ include/sancus/alloc.h:40-40. *)
Definition sancus_realloc (s : alloc_state) (p : option Z) (size : Z) : outcome (option Z * alloc_state) :=
  call_realloc s p size.

(** [memset] of the C library. *)
Definition c_memset (m : blocks) (p : Z) (c : byte) (n : Z) : outcome blocks :=
  b ← deref (m !! p);
  b ← store b 0 (replicate (Z.to_nat n) c);
  Ret (<[p := b]> m).

(** [sancus_zalloc] @ include/sancus/alloc.h:44-50. *)
Definition sancus_zalloc (s : alloc_state) (size : Z) : outcome (option Z * alloc_state) :=
  '(ptr, s) ← sancus_alloc s size;
  match ptr with
  | Some p =>
      m ← c_memset (mem s) p Byte.x00 size;
      Ret (Some p, AllocState (_sancus_realloc s) m)
  | None => Ret (None, s)
  end.

(** [sancus_free] @ include/sancus/alloc.h:54-54. The pointer variable is set
    to [NULL]: it is returned. *)
Definition sancus_free (s : alloc_state) (p : option Z) : outcome (option Z * alloc_state) :=
  '(_, s) ← call_realloc s p 0; Ret (None, s).

(** [sancus_set_realloc] @ include/sancus/alloc.h:58-61. *)
Definition sancus_set_realloc (s : alloc_state) (f : realloc_fn) : alloc_state := AllocState f (mem s).

(** ** What is documented of [realloc] *)

Definition fresh (m : blocks) (p : Z) : Prop := m !! p = None.

Class Realloc (f : realloc_fn) : Prop := {
  (** A new block, with any content, or [NULL] and nothing changed. *)
  realloc_new : forall m n, 0 <= n ->
    f m None n = Ret (None, m) \/
    exists p b, f m None n = Ret (Some p, <[p := b]> m) /\ fresh m p /\ zlen b = n;
  (** Size zero frees (glibc; the C standard leaves it open). *)
  realloc_zero : forall m p, is_Some (m !! p) -> f m (Some p) 0 = Ret (None, delete p m);
  (** Another size: the block moves or stays and keeps its beginning; or the
      call fails and the block is untouched. *)
  realloc_resize : forall m p b n, m !! p = Some b -> 0 < n ->
    f m (Some p) n = Ret (None, m) \/
    exists q b', f m (Some p) n = Ret (Some q, <[q := b']> (delete p m)) /\
      fresh (delete p m) q /\ zlen b' = n /\
      sub b' 0 (Z.min n (zlen b)) = sub b 0 (Z.min n (zlen b))
}.

Section Allocator.
Context (f : realloc_fn) `{Hf : !Realloc f}.

Lemma alloc_cases m n :
  0 <= n ->
  sancus_alloc (AllocState f m) n = Ret (None, AllocState f m) \/
  exists p b, sancus_alloc (AllocState f m) n = Ret (Some p, AllocState f (<[p := b]> m)) /\
    fresh m p /\ zlen b = n.
Proof.
  intros Hn. unfold sancus_alloc, call_realloc. cbn [_sancus_realloc mem].
  destruct (realloc_new m n Hn) as [->|(p & b & -> & Hp & Hb)]; [by left|].
  right. by exists p, b.
Qed.

Lemma zalloc_cases m n :
  0 <= n ->
  sancus_zalloc (AllocState f m) n = Ret (None, AllocState f m) \/
  exists p, sancus_zalloc (AllocState f m) n =
      Ret (Some p, AllocState f (<[p := replicate (Z.to_nat n) Byte.x00]> m)) /\ fresh m p.
Proof.
  intros Hn. unfold sancus_zalloc.
  destruct (alloc_cases m n Hn) as [->|(p & b & -> & Hp & Hb)]; [by left|]. right. exists p.
  split; [|done]. run. unfold c_memset. cbn [mem _sancus_realloc]. rewrite lookup_insert_eq. cbn [deref]. run.
  assert (Hl : zlen (replicate (Z.to_nat n) Byte.x00) = n) by (unfold zlen; rewrite length_replicate; lia).
  rewrite store_ok by lia. run. rewrite insert_insert_eq. do 4 f_equal.
  unfold splice. change (Z.to_nat 0) with 0%nat. rewrite take_0, length_replicate.
  by rewrite drop_ge, app_nil_r by (unfold zlen in Hb; lia).
Qed.

Lemma free_ok m p : is_Some (m !! p) ->
  sancus_free (AllocState f m) (Some p) = Ret (None, AllocState f (delete p m)).
Proof. intros Hp. unfold sancus_free, call_realloc. cbn. by rewrite realloc_zero. Qed.
End Allocator.

(** C31. Over any function with the documented behaviour of [realloc]:
    [sancus_zalloc] hands out a block that nobody has, all zeros and as large
    as asked, and leaves every other block alone, or returns [NULL] and changes
    nothing; and [sancus_free] of what an allocation returned sets the pointer
    to [NULL] and leaves the memory exactly as it was before.  (That a size of
    zero frees the block and returns [NULL] is documented by glibc, not by the
    C standard.) *)
Theorem zalloc_free_roundtrip (f : realloc_fn) (Hf : Realloc f) (m : blocks) (n : Z) (Hn : 0 <= n) :
  sancus_zalloc (AllocState f m) n = Ret (None, AllocState f m) \/
  exists p s, sancus_zalloc (AllocState f m) n = Ret (Some p, s) /\ fresh m p /\
    mem s !! p = Some (replicate (Z.to_nat n) Byte.x00) /\
    (forall q, q <> p -> mem s !! q = m !! q) /\
    sancus_free s (Some p) = Ret (None, AllocState f m).
Proof.
  destruct (zalloc_cases f m n Hn) as [->|(p & -> & Hp)]; [by left|]. right.
  eexists p, _. split; [done|]. split; [done|]. cbn [mem].
  rewrite lookup_insert_eq. split; [done|]. split; [intros q Hq; by rewrite lookup_insert_ne|].
  rewrite (free_ok f) by (rewrite lookup_insert_eq; by eexists). by rewrite delete_insert_id.
Qed.

(** A simple allocator: addresses go up, nothing ever fails, and a size of
    zero gives a block too, as glibc does. *)
Definition next_addr (m : blocks) : Z := foldr Z.max 0 (map_to_list m).*1 + 16.

Definition bump : realloc_fn := fun m p n =>
  match p with
  | None => Ret (Some (next_addr m), <[next_addr m := replicate (Z.to_nat n) Byte.xff]> m)
  | Some p =>
      b ← deref (m !! p);
      if n =? 0 then Ret (None, delete p m)
      else
        Ret (Some p, <[p := sub b 0 (Z.min n (zlen b)) ++
                            replicate (Z.to_nat (n - Z.min n (zlen b))) Byte.xff]> (delete p m))
  end.

Lemma foldr_max_ge l x : x ∈ l -> x <= foldr Z.max 0 l.
Proof. induction l as [|y l IH]; [by intros ?%not_elem_of_nil|]. intros [->|H]%elem_of_cons; cbn; [lia|]. specialize (IH H). lia. Qed.

Lemma next_fresh m : fresh m (next_addr m).
Proof.
  unfold fresh. destruct (m !! next_addr m) as [b|] eqn:E; [|done]. exfalso.
  apply elem_of_map_to_list in E. apply (list_elem_of_fmap_2 fst) in E. cbn in E.
  apply foldr_max_ge in E. unfold next_addr in E at 1. lia.
Qed.

#[export] Instance bump_realloc : Realloc bump.
Proof.
  split.
  - intros m n Hn. right. eexists _, _. split; [done|]. split; [apply next_fresh|].
    unfold zlen. rewrite length_replicate. lia.
  - intros m p [b Hb]. unfold bump. rewrite Hb. done.
  - intros m p b n Hb Hn. right. unfold bump. rewrite Hb. cbn [deref]. run.
    rewrite (proj2 (Z.eqb_neq n 0)) by lia. eexists _, _. split; [done|].
    pose proof (zlen_nonneg b). set (k := Z.min n (zlen b)).
    assert (Hk : zlen (sub b 0 k) = k) by (apply zlen_sub; lia).
    split; [apply lookup_delete_eq|]. split.
    + rewrite zlen_app, Hk. unfold zlen at 1. rewrite length_replicate. lia.
    + rewrite sub_app_l by lia. by rewrite sub_sub by lia.
Qed.

Lemma zalloc_free_roundtrip_witness :
  sancus_zalloc (AllocState bump ∅) 3 = Ret (None, AllocState bump ∅) \/
  exists p s, sancus_zalloc (AllocState bump ∅) 3 = Ret (Some p, s) /\ fresh ∅ p /\
    mem s !! p = Some (replicate (Z.to_nat 3) Byte.x00) /\
    (forall q, q <> p -> mem s !! q = (∅ : blocks) !! q) /\
    sancus_free s (Some p) = Ret (None, AllocState bump ∅).
Proof. apply (zalloc_free_roundtrip bump _ ∅ 3). lia. Defined.

(** [sancus_free] of [NULL] is not [free(NULL)]: it asks [realloc] for a new
    block of no size.  Where the C library returns one, as glibc does, freeing
    a pointer twice, or one that was never set, loses memory. *)
Lemma free_null_leaks m :
  sancus_free (AllocState bump m) None = Ret (None, AllocState bump (<[next_addr m := []]> m)) /\
  fresh m (next_addr m).
Proof. split; [done|apply next_fresh]. Qed.
