(* ===== verification/Buffer.v ===== *)
(** * Buffer

    [struct sancus_buffer] of include/sancus/buffer.h and src/sancus/buffer.c:
    a window [base .. base+len) of a byte array, grown at its tail, with the
    stripping, truncating, appending and formatting operations. *)

From S2P Require Import Prelude.

(** ** Data *)

(** [struct sancus_buffer] @ include/sancus/buffer.h:10-13. The array [buf]
    points to, and the three [uint_fast16_t] fields. *)
Record buffer : Type := mk_buffer {
  b_buf : list byte;
  b_base : Z;
  b_len : Z;
  b_size : Z
}.

#[export] Instance buffer_eq_dec : EqDecision buffer.
Proof. solve_decision. Defined.

Definition set_buf (b : buffer) (m : list byte) : buffer :=
  mk_buffer m (b_base b) (b_len b) (b_size b).
Definition set_len (b : buffer) (n : Z) : buffer :=
  mk_buffer (b_buf b) (b_base b) n (b_size b).
Definition set_base (b : buffer) (n : Z) : buffer :=
  mk_buffer (b_buf b) n (b_len b) (b_size b).

(** ** Accessors

    The argument is a [struct sancus_buffer *]; [None] is [NULL].  A
    [char *] into the array is its index. *)

(** [sancus_buffer_base] @ include/sancus/buffer.h:32-32. *)
Definition sancus_buffer_base (b : option buffer) : Z :=
  match b with Some b => b_base b | None => 0 end.

(** [sancus_buffer_len] @ include/sancus/buffer.h:33-33. *)
Definition sancus_buffer_len (b : option buffer) : Z :=
  match b with Some b => b_len b | None => 0 end.

(** [sancus_buffer_size] @ include/sancus/buffer.h:34-34. *)
Definition sancus_buffer_size (b : option buffer) : Z :=
  match b with Some b => b_size b | None => 0 end.

(** [sancus_buffer_ptr] @ include/sancus/buffer.h:35-35. *)
Definition sancus_buffer_ptr (b : option buffer) : option Z :=
  match b with Some b => Some (b_base b) | None => None end.

(** [sancus_buffer_tail_size] @ include/sancus/buffer.h:37-37. *)
Definition sancus_buffer_tail_size (b : option buffer) : Z :=
  match b with Some b => u64 (u64 (b_size b - b_base b) - b_len b) | None => 0 end.

(** [sancus_buffer_tail_ptr] @ include/sancus/buffer.h:38-38. *)
Definition sancus_buffer_tail_ptr (b : option buffer) : option Z :=
  match b with Some b => Some (b_base b + b_len b) | None => None end.

(** [sancus_buffer_is_empty] @ include/sancus/buffer.h:40-40. *)
Definition sancus_buffer_is_empty (b : option buffer) : bool :=
  sancus_buffer_len b =? 0.

(** [sancus_buffer_is_off] @ include/sancus/buffer.h:41-41. *)
Definition sancus_buffer_is_off (b : option buffer) : bool :=
  negb (sancus_buffer_base b =? 0).

(** [sancus_buffer_init] @ include/sancus/buffer.h:15-27. [size] is an
    [unsigned]; the fields that the initialiser leaves out are zero. *)
Definition sancus_buffer_init (b : option buffer) (buf : option (list byte)) (size : Z)
    : Z * option buffer :=
  match b, buf with
  | Some _, Some m =>
      if size =? 0 then (- EINVAL, b) else (0, Some (mk_buffer m 0 0 size))
  | _, _ => (- EINVAL, b)
  end.

(** ** Stripping *)

(** The inner loop over the characters to match [*p] with.
    [sancus_buffer__stripchar] @ src/sancus/buffer.c:34-37. *)
Fixpoint stripchar_match (m chars : list byte) (p q : Z) (n : nat) : outcome bool :=
  match n with
  | O => Ret false
  | S n =>
      x ← load1 m p;
      y ← load1 chars q;
      if decide (x = y) then Ret true else stripchar_match m chars p (q + 1) n
  end.

(** The outer loop [while (p > pe)]; [fuel] bounds its iterations.
    [sancus_buffer__stripchar] @ src/sancus/buffer.c:32-46. *)
Fixpoint stripchar_loop (fuel : nat) (m chars : list byte) (many : bool)
    (l p pe count : Z) : outcome Z :=
  if p >? pe then
    match fuel with
    | O => OutOfFuel
    | S fuel =>
        found ← stripchar_match m chars p 0 (Z.to_nat l);
        if found : bool then
          let count := u64 (count + 1) in
          if negb many then Ret count
          else stripchar_loop fuel m chars many l (p - 1) pe count
        else Ret count
    end
  else Ret count.

(** [sancus_buffer__stripchar] @ src/sancus/buffer.c:12-53.  Pointers are
    offsets in the array, and only reading and writing outside it is undefined:
    [buffer.c:30] forms the pointer before the array when the data starts at
    its first byte, which C does not allow either but which is not counted
    here. *)
Definition sancus_buffer__stripchar (b : option buffer) (many : bool)
    (chars : option (list byte)) (l : Z) : outcome (Z * option buffer) :=
  match b with
  | None => Ret (- EINVAL, None)
  | Some b0 =>
      if bool_decide (chars = None) && (l >? 0) then Ret (- EINVAL, b) else
      l ← (if l <? 0 then
             match chars with Some s => n ← c_strlen s; mret (s64 n) | None => Ret 0 end
           else Ret l);
      count ← (if l >? 0 then
                 s ← deref chars;
                 let p := b_base b0 + b_len b0 - 1 in
                 let pe := b_base b0 - 1 in
                 stripchar_loop (Z.to_nat (b_len b0)) (b_buf b0) s many l p pe 0
               else Ret 0);
      let b1 := if negb (count =? 0) then set_len b0 (u64 (b_len b0 - count)) else b0 in
      Ret (s64 count, Some b1)
  end.

(** [sancus_buffer_striponce] @ include/sancus/buffer.h:62-62. *)
Definition sancus_buffer_striponce (b : option buffer) (s : option (list byte)) :=
  sancus_buffer__stripchar b false s (-1).

(** [sancus_buffer_stripany] @ include/sancus/buffer.h:63-63. *)
Definition sancus_buffer_stripany (b : option buffer) (s : option (list byte)) :=
  sancus_buffer__stripchar b true s (-1).

(** [sancus_buffer_strip] @ src/sancus/buffer.c:55-81. *)
Definition sancus_buffer_strip (b : option buffer) (s : option (list byte)) (l : Z)
    : outcome (Z * option buffer) :=
  let bl := sancus_buffer_len b in
  let k (l : Z) :=
    if (l >? 0) && (bl >=? l) then
      b0 ← deref b;
      s0 ← deref s;
      let p := b_base b0 + (bl - l) in
      x ← load (b_buf b0) p l;
      y ← load s0 0 l;
      if decide (x = y) then
        m ← store1 (b_buf b0) p Byte.x00;
        Ret (l, Some (set_buf (set_len b0 (u64 (b_len b0 - l))) m))
      else Ret (0, b)
    else Ret (0, b) in
  match s with
  | Some s0 => if l <? 0 then n ← c_strlen s0; k (s64 n) else k l
  | None => if l >? 0 then Ret (- EINVAL, b) else k l
  end.

(** [sancus_buffer_stripz] @ include/sancus/buffer.h:50-57. *)
Definition sancus_buffer_stripz (b : option buffer) (s : option (list byte))
    : outcome (Z * option buffer) :=
  match s with
  | Some s0 => l ← c_strlen s0; sancus_buffer_strip b s (s64 l)
  | None => Ret (0, b)
  end.

(** [sancus_buffer_truncate] @ src/sancus/buffer.c:83-93. *)
Definition sancus_buffer_truncate (b : option buffer) (n : Z) : outcome (Z * option buffer) :=
  b ← deref b;
  let b := if n <? b_len b then set_len b n else b in
  let b := if b_len b =? 0 then set_base b 0 else b in
  m ← store1 (b_buf b) (b_base b + b_len b) Byte.x00;
  Ret (s64 (b_len b), Some (set_buf b m)).

(** [sancus_buffer_stripn] @ src/sancus/buffer.c:95-104. *)
Definition sancus_buffer_stripn (b : option buffer) (n : Z) : outcome (Z * option buffer) :=
  b ← deref b;
  let b := if n <? b_len b then set_len b (u64 (b_len b - n))
           else set_base (set_len b 0) 0 in
  m ← store1 (b_buf b) (b_base b + b_len b) Byte.x00;
  Ret (s64 (b_len b), Some (set_buf b m)).

(** [sancus_buffer_pop] @ include/sancus/buffer.h:65-65. *)
Definition sancus_buffer_pop (b : option buffer) (n : Z) := sancus_buffer_stripn b n.

(** [sancus_buffer_reset] @ include/sancus/buffer.h:66-66. *)
Definition sancus_buffer_reset (b : option buffer) := sancus_buffer_truncate b 0.

(** ** Appending *)

(** [sancus_buffer_sparse] @ include/sancus/buffer.h:71-78. *)
Definition sancus_buffer_sparse (b : option buffer) (n : Z) : outcome (Z * option buffer) :=
  if sancus_buffer_tail_size b <? n then Ret (- EINVAL, b)
  else b0 ← deref b; Ret (s64 n, Some (set_len b0 (u64 (b_len b0 + n)))).

(** [sancus_buffer__append] @ src/sancus/buffer.c:109-139. *)
Definition sancus_buffer__append (b : option buffer) (truncate : bool)
    (s : option (list byte)) (l : Z) : outcome (Z * option buffer) :=
  let buf := sancus_buffer_tail_ptr b in
  let buf_size := s64 (sancus_buffer_tail_size b) in
  let k (l : Z) :=
    let l := if bool_decide (buf = None) then - EINVAL
             else if l <=? buf_size then l
             else if truncate then buf_size
             else - ENOBUFS in
    if l >? 0 then
      b0 ← deref b;
      off ← deref buf;
      s0 ← deref s;
      x ← load s0 0 l;
      m ← store (b_buf b0) off x;
      Ret (l, Some (set_buf (set_len b0 (u64 (b_len b0 + l))) m))
    else Ret (l, b) in
  match s with
  | Some s0 => if l <? 0 then n ← c_strlen s0; k (s64 n) else k l
  | None => if l >? 0 then Ret (- EINVAL, b) else k l
  end.

(** [sancus_buffer_append] @ include/sancus/buffer.h:97-97. *)
Definition sancus_buffer_append (b : option buffer) (s : option (list byte)) (l : Z) :=
  sancus_buffer__append b false s l.

(** [sancus_buffer__appendz] @ include/sancus/buffer.h:82-89. *)
Definition sancus_buffer__appendz (b : option buffer) (truncate : bool)
    (s : option (list byte)) : outcome (Z * option buffer) :=
  match s with
  | Some s0 => l ← c_strlen s0; sancus_buffer__append b truncate s (s64 l)
  | None => Ret (0, b)
  end.

(** [sancus_buffer_appendz] @ include/sancus/buffer.h:98-98. *)
Definition sancus_buffer_appendz (b : option buffer) (s : option (list byte)) :=
  sancus_buffer__appendz b false s.

(** C's [vsnprintf (buf + off, n, fmt, ap)] with [n > 0].  [out] is the text
    that [fmt] and its arguments denote, [None] an output error.  At most
    [n - 1] bytes of it are stored, followed by NUL; the return value is the
    length of the whole text, or -1. *)
Definition c_vsnprintf (m : list byte) (off n : Z) (out : option (list byte))
    : outcome (Z * list byte) :=
  match out with
  | None => Ret (-1, m)
  | Some t =>
      if zlen t >? INT_MAX then Ret (-1, m) else
      m ← store m off (cstr (sub t 0 (n - 1)));
      Ret (zlen t, m)
  end.

(** [sancus_buffer__appendv] @ src/sancus/buffer.c:141-165, and its variadic
    wrapper [sancus_buffer__appendf], lines 167-178. *)
Definition sancus_buffer__appendv (b : option buffer) (truncate : bool)
    (out : option (list byte)) : outcome (Z * option buffer) :=
  let l := s64 (sancus_buffer_tail_size b) in
  let buf := sancus_buffer_tail_ptr b in
  if l >? 0 then
    b0 ← deref b;
    off ← deref buf;
    '(n, m) ← c_vsnprintf (b_buf b0) off l out;
    '(n, m) ← (if (n <=? 0) || (l >? n) then Ret (n, m)
               else if truncate then
                 m ← store1 m (off + (l - 1)) Byte.x00; Ret (l - 1, m)
               else Ret (- ENOBUFS, m));
    let b1 := set_buf b0 m in
    Ret (n, Some (if n >? 0 then set_len b1 (u64 (b_len b1 + n)) else b1))
  else Ret (- ENOBUFS, b).

(** [sancus_buffer__appendf] @ src/sancus/buffer.c:167-178. *)
Definition sancus_buffer__appendf (b : option buffer) (truncate : bool)
    (out : option (list byte)) : outcome (Z * option buffer) :=
  sancus_buffer__appendv b truncate out.

(** [sancus_buffer_appendv] @ include/sancus/buffer.h:99-99. *)
Definition sancus_buffer_appendv (b : option buffer) (out : option (list byte)) :=
  sancus_buffer__appendv b false out.

(** [sancus_buffer_appendf] @ include/sancus/buffer.h:100-100. *)
Definition sancus_buffer_appendf (b : option buffer) (out : option (list byte)) :=
  sancus_buffer__appendf b false out.

(** [DECL_SANCUS_LBUFFER] @ include/sancus/buffer_local.h:6-12. A buffer on
    the stack over [char buf[S]].  The initialiser names only the other member,
    so the array starts as zeroes. *)
Definition DECL_SANCUS_LBUFFER (S : Z) : buffer :=
  mk_buffer (replicate (Z.to_nat S) Byte.x00) 0 0 S.

(** [sancus_lbuffer_to_buffer] @ include/sancus/buffer_local.h:17-17.  The
    address of a member is never [NULL]. *)
Definition sancus_lbuffer_to_buffer (B : buffer) : option buffer := Some B.
(** [sancus_lbuffer_ptr] @ include/sancus/buffer_local.h:19-19. *)
Definition sancus_lbuffer_ptr (B : buffer) := sancus_buffer_ptr (sancus_lbuffer_to_buffer B).
(** [sancus_lbuffer_len] @ include/sancus/buffer_local.h:20-20. *)
Definition sancus_lbuffer_len (B : buffer) := sancus_buffer_len (sancus_lbuffer_to_buffer B).
(** [sancus_lbuffer_pop] @ include/sancus/buffer_local.h:22-22. *)
Definition sancus_lbuffer_pop (B : buffer) (N : Z) := sancus_buffer_pop (sancus_lbuffer_to_buffer B) N.
(** [sancus_lbuffer_append] @ include/sancus/buffer_local.h:27-27. *)
Definition sancus_lbuffer_append (B : buffer) (S : option (list byte)) (N : Z) :=
  sancus_buffer_append (sancus_lbuffer_to_buffer B) S N.
(** [sancus_lbuffer_appendz] @ include/sancus/buffer_local.h:28-28. *)
Definition sancus_lbuffer_appendz (B : buffer) (S : option (list byte)) :=
  sancus_buffer_appendz (sancus_lbuffer_to_buffer B) S.
(** [sancus_lbuffer_appendf] @ include/sancus/buffer_local.h:29-29. *)
Definition sancus_lbuffer_appendf (B : buffer) (out : option (list byte)) :=
  sancus_buffer_appendf (sancus_lbuffer_to_buffer B) out.
(** [sancus_lbuffer_appendv] @ include/sancus/buffer_local.h:30-30. *)
Definition sancus_lbuffer_appendv (B : buffer) (out : option (list byte)) :=
  sancus_buffer_appendv (sancus_lbuffer_to_buffer B) out.

(** ** The representation invariant *)

(** The window lies inside the array, whose size a [ssize_t] can hold. *)
Definition buffer_wf (b : buffer) : Prop :=
  0 <= b_base b /\ 0 <= b_len b /\ b_base b + b_len b <= b_size b /\
  b_size b <= zlen (b_buf b) /\ zlen (b_buf b) <= LONG_MAX.

(** The bytes of the window. *)
Definition content (b : buffer) : list byte := sub (b_buf b) (b_base b) (b_len b).

(** ** Abstract specification: a bounded byte string

    [s_data] are the bytes held, [s_off] the unused bytes in front of them,
    [s_cap] the declared size and [s_store] the size of the storage, which
    decides whether a terminating NUL still fits behind the data. *)
Record bstr : Type := mk_bstr {
  s_data : list byte;
  s_off : Z;
  s_cap : Z;
  s_store : Z
}.

Definition s_room (a : bstr) : Z := s_cap a - s_off a - zlen (s_data a).

Definition with_data (a : bstr) (d : list byte) : bstr :=
  mk_bstr d (s_off a) (s_cap a) (s_store a).

Record represents (b : buffer) (a : bstr) : Prop := mk_represents {
  rep_wf : buffer_wf b;
  rep_data : content b = s_data a;
  rep_off : b_base b = s_off a;
  rep_cap : b_size b = s_cap a;
  rep_store : zlen (b_buf b) = s_store a
}.

(** Setting the length (and dropping the offset when nothing is left), then
    writing a NUL behind the data, which needs a byte of storage. *)
Definition spec_shrink (a : bstr) (d : list byte) : outcome (Z * bstr) :=
  let off := if decide (d = []) then 0 else s_off a in
  if off + zlen d <? s_store a
  then Ret (zlen d, mk_bstr d off (s_cap a) (s_store a)) else Undef.

Definition spec_append (t : bool) (s : list byte) (a : bstr) : Z * bstr :=
  if zlen s <=? s_room a then (zlen s, with_data a (s_data a ++ s))
  else if t then (s_room a, with_data a (s_data a ++ sub s 0 (s_room a)))
  else (- ENOBUFS, a).

(** Formatted output keeps one byte for the NUL that [vsnprintf] writes. *)
Definition spec_format (t : bool) (out : option (list byte)) (a : bstr) : Z * bstr :=
  if s_room a <=? 0 then (- ENOBUFS, a) else
  match out with
  | None => (-1, a)
  | Some s =>
      if zlen s >? INT_MAX then (-1, a)
      else if zlen s <? s_room a then (zlen s, with_data a (s_data a ++ s))
      else if t then (s_room a - 1, with_data a (s_data a ++ sub s 0 (s_room a - 1)))
      else (- ENOBUFS, a)
  end.

Definition spec_strip (s : list byte) (a : bstr) : Z * bstr :=
  if decide (s <> [] /\ s `suffix_of` s_data a)
  then (zlen s, with_data a (sub (s_data a) 0 (zlen (s_data a) - zlen s)))
  else (0, a).

(** What is left of [d] when the trailing bytes (or only the last one) that
    are among [cs] are dropped. *)
Definition stripped (many : bool) (cs d : list byte) : list byte :=
  (if many then rstrip else rstrip1) (fun c => bool_decide (c ∈ cs)) d.

Definition spec_stripchars (many : bool) (cs : list byte) (a : bstr) : Z * bstr :=
  let d := stripped many cs (s_data a) in
  (zlen (s_data a) - zlen d, with_data a d).

(** The operations of the component, as a client calls them. *)
Inductive op : Type :=
  | Append (t : bool) (s : list byte)
  | AppendZ (t : bool) (s : list byte)
  | Format (t : bool) (out : option (list byte))
  | Strip (s : list byte)
  | StripZ (s : list byte)
  | StripChars (many : bool) (cs : list byte)
  | Truncate (n : Z)
  | StripN (n : Z).

(** Arguments the C types admit: arrays shorter than [SSIZE_MAX], C strings
    without an inner NUL, [size_t] counts. *)
Definition op_ok (o : op) : Prop :=
  match o with
  | Append _ s | Strip s => zlen s <= LONG_MAX
  | AppendZ _ s | StripZ s | StripChars _ s => no_nul s /\ zlen s <= LONG_MAX
  | Format _ _ => True
  | Truncate n | StripN n => 0 <= n <= ULONG_MAX
  end.

Definition run_op (o : op) (b : buffer) : outcome (Z * option buffer) :=
  match o with
  | Append t s => sancus_buffer__append (Some b) t (Some s) (zlen s)
  | AppendZ t s => sancus_buffer__appendz (Some b) t (Some (cstr s))
  | Format t out => sancus_buffer__appendf (Some b) t out
  | Strip s => sancus_buffer_strip (Some b) (Some s) (zlen s)
  | StripZ s => sancus_buffer_stripz (Some b) (Some (cstr s))
  | StripChars many cs => sancus_buffer__stripchar (Some b) many (Some (cstr cs)) (-1)
  | Truncate n => sancus_buffer_truncate (Some b) n
  | StripN n => sancus_buffer_stripn (Some b) n
  end.

Definition spec_op (o : op) (a : bstr) : outcome (Z * bstr) :=
  match o with
  | Append t s | AppendZ t s => Ret (spec_append t s a)
  | Format t out => Ret (spec_format t out a)
  | Strip s | StripZ s => Ret (spec_strip s a)
  | StripChars many cs => Ret (spec_stripchars many cs a)
  | Truncate n => spec_shrink a (sub (s_data a) 0 n)
  | StripN n => spec_shrink a (sub (s_data a) 0 (zlen (s_data a) - n))
  end.

(** Same return value, and a buffer that represents the new string. *)
Definition same_result (r : Z * option buffer) (q : Z * bstr) : Prop :=
  exists b, r = (fst q, Some b) /\ represents b (snd q).

(** ** Lemmas of the component *)

Lemma room_tail b a :
  represents b a -> sancus_buffer_tail_size (Some b) = s_room a /\ 0 <= s_room a <= LONG_MAX.
Proof.
  intros [Hwf Hd Ho Hc Hs]. unfold buffer_wf in Hwf. unfold s_room.
  rewrite <- Hd, <- Ho, <- Hc. unfold content, sancus_buffer_tail_size.
  rewrite zlen_sub by lia. rewrite (uwrap_id 64 (b_size b - b_base b)) by bounds.
  rewrite uwrap_id by bounds. lia.
Qed.

Lemma content_len b : buffer_wf b -> zlen (content b) = b_len b.
Proof. intros Hwf. unfold buffer_wf in Hwf. unfold content. apply zlen_sub; lia. Qed.

Lemma rep_len b a : represents b a -> b_len b = zlen (s_data a).
Proof. intros H. rewrite <- (rep_data _ _ H). symmetry. apply content_len, H. Qed.

(** The bytes of the window survive a write behind it. *)
Lemma content_splice_tail b x i :
  buffer_wf b -> b_base b + b_len b <= i -> i + zlen x <= zlen (b_buf b) ->
  sub (splice (b_buf b) i x) (b_base b) (b_len b) = content b.
Proof. intros Hwf ? ?. unfold buffer_wf in Hwf. apply sub_splice_disjoint; lia. Qed.

Lemma represents_splice_tail b a x i :
  represents b a -> b_base b + b_len b <= i -> i + zlen x <= zlen (b_buf b) ->
  represents (set_buf b (splice (b_buf b) i x)) a.
Proof.
  intros [Hwf Hd Ho Hc Hs] Hi Hx. pose proof Hwf as Hwf'. unfold buffer_wf in Hwf'.
  pose proof (zlen_nonneg x).
  constructor; cbn; try done.
  - unfold buffer_wf; cbn. rewrite zlen_splice by lia. lia.
  - unfold content at 1; cbn. by rewrite content_splice_tail.
  - rewrite zlen_splice by lia. done.
Qed.

(** Writing [x] at the tail and growing the window by (a prefix of) it. *)
Lemma represents_grow b a x n :
  represents b a -> 0 <= n <= zlen x -> n <= s_room a ->
  b_base b + b_len b + zlen x <= zlen (b_buf b) ->
  represents (set_len (set_buf b (splice (b_buf b) (b_base b + b_len b) x)) (u64 (b_len b + n)))
             (with_data a (s_data a ++ sub x 0 n)).
Proof.
  intros Hrep Hn Hroom Hx. pose proof (rep_len _ _ Hrep) as Hlen.
  destruct Hrep as [Hwf Hd Ho Hc Hs]. pose proof Hwf as Hwf'. unfold buffer_wf in Hwf'.
  unfold s_room in Hroom. rewrite <- Hlen in Hroom.
  rewrite uwrap_id by bounds.
  assert (Hz : zlen (splice (b_buf b) (b_base b + b_len b) x) = zlen (b_buf b))
    by (apply zlen_splice; lia).
  constructor; cbn; try done.
  - unfold buffer_wf; cbn. lia.
  - unfold content; cbn. rewrite sub_app_add by lia. f_equal.
    + rewrite <- Hd. by apply content_splice_tail; [|lia..].
    + rewrite <- (sub_splice_same (b_buf b) (b_base b + b_len b) x) at 2 by lia.
      by rewrite sub_sub, Z.add_0_r by lia.
  - by rewrite Hz.
Qed.

(** Shrinking the window to its first [n] bytes. *)
Lemma represents_take b a n :
  represents b a -> 0 <= n <= b_len b ->
  represents (set_len b n) (with_data a (sub (s_data a) 0 n)).
Proof.
  intros [Hwf Hd Ho Hc Hs] Hn. pose proof Hwf as Hwf'. unfold buffer_wf in Hwf'.
  constructor; cbn; try done; [unfold buffer_wf; cbn; lia|].
  rewrite <- Hd. unfold content; cbn. by rewrite sub_sub, Z.add_0_r by lia.
Qed.

Lemma append_refines t s b a :
  represents b a -> zlen s <= LONG_MAX ->
  exists b', sancus_buffer__append (Some b) t (Some s) (zlen s)
             = Ret (fst (spec_append t s a), Some b') /\ represents b' (snd (spec_append t s a)).
Proof.
  intros Hrep Hs. destruct (room_tail _ _ Hrep) as [Htail Hroom].
  pose proof (zlen_nonneg s). pose proof (rep_wf _ _ Hrep) as Hwf. unfold buffer_wf in Hwf.
  assert (Hin : forall n, n <= s_room a -> b_base b + b_len b + n <= zlen (b_buf b)).
  { intros n. unfold s_room. rewrite <- (rep_len _ _ Hrep), <- (rep_off _ _ Hrep),
      <- (rep_cap _ _ Hrep). lia. }
  unfold sancus_buffer__append, spec_append. rewrite Htail, swrap_id by bounds.
  rewrite (proj2 (Z.ltb_ge (zlen s) 0)) by lia. cbn [sancus_buffer_tail_ptr bool_decide].
  rewrite bool_decide_false by done.
  set (k := if zlen s <=? s_room a then zlen s else if t then s_room a else - ENOBUFS).
  destruct (Z.ltb_spec 0 k) as [Hk|Hk]; rewrite (Z.gtb_ltb k 0).
  - assert (Hkr : k <= s_room a /\ k <= zlen s)
      by (subst k; unfold ENOBUFS in *; destruct t; crush_cond).
    rewrite (proj2 (Z.ltb_lt 0 k) Hk). cbn [deref]. run.
    rewrite load_ok by lia. run.
    rewrite store_ok by (rewrite ?zlen_sub by lia; specialize (Hin k); lia). run.
    eexists. split.
    { do 2 f_equal. subst k. by destruct (zlen s <=? s_room a), t. }
    pose proof (represents_grow b a (sub s 0 k) k Hrep) as Hg.
    rewrite zlen_sub in Hg by lia. rewrite sub_sub in Hg by lia.
    replace (snd _) with (with_data a (s_data a ++ sub s (0 + 0) k));
      [apply Hg; [lia|lia|apply Hin; lia]|].
    subst k.
    destruct (Z.leb_spec (zlen s) (s_room a)); [|destruct t]; cbn; [by rewrite sub_whole|done|].
    unfold ENOBUFS in *. lia.
  - rewrite (proj2 (Z.ltb_ge 0 k) Hk). exists b. subst k.
    destruct (Z.leb_spec (zlen s) (s_room a)); [|destruct t]; cbn.
    + split; [done|]. rewrite (zlen_zero s), app_nil_r by lia. by destruct a.
    + split; [done|]. rewrite sub_nil, app_nil_r by lia. by destruct a.
    + done.
Qed.

Lemma appendz_refines t s b a :
  represents b a -> no_nul s -> zlen s <= LONG_MAX ->
  exists b', sancus_buffer__appendz (Some b) t (Some (cstr s))
             = Ret (fst (spec_append t s a), Some b') /\ represents b' (snd (spec_append t s a)).
Proof.
  intros Hrep Hs Hlen. unfold sancus_buffer__appendz.
  pose proof (c_strlen_cstr s [] Hs) as Hl. rewrite app_nil_r in Hl. rewrite Hl. run.
  pose proof (zlen_nonneg s). rewrite swrap_id by bounds.
  destruct (append_refines t s b a Hrep Hlen) as (b' & Hb' & Hrep').
  exists b'. split; [|done]. rewrite <- Hb'.
  unfold sancus_buffer__append. rewrite (proj2 (Z.ltb_ge (zlen s) 0)) by lia.
  cbn [sancus_buffer_tail_ptr]. rewrite bool_decide_false by done.
  set (k := if zlen s <=? _ then _ else _).
  destruct (Z.gtb_spec k 0); [|done]. cbn [deref]. run.
  assert (k <= zlen s).
  { subst k. destruct t; crush_cond; unfold ENOBUFS; lia. }
  rewrite !load_ok by (unfold cstr; rewrite ?zlen_app; pose proof (zlen_nonneg [Byte.x00]); lia).
  run. unfold cstr. by rewrite sub_app_l by lia.
Qed.

Lemma set_buf_id b : set_buf b (b_buf b) = b.
Proof. by destruct b. Qed.

(** What [vsnprintf] stores: as much of the text as fits, then NUL. *)
Lemma c_vsnprintf_text m off n o :
  0 <= off -> 0 < n -> off + n <= zlen m -> zlen o <= INT_MAX ->
  let x := cstr (sub o 0 (n - 1)) in
  let k := Z.min (zlen o) (n - 1) in
  c_vsnprintf m off n (Some o) = Ret (zlen o, splice m off x) /\
  zlen x = 1 + k /\ (forall j, j <= k -> sub x 0 j = sub o 0 j) /\
  splice m off x !! Z.to_nat (off + k) = Some Byte.x00.
Proof.
  intros Hoff Hn Hm Ho x k.
  pose proof (zlen_nonneg o). pose proof (zlen_sub_min o (n - 1) ltac:(lia)) as Hz.
  assert (Hx : zlen x = 1 + k).
  { subst x. unfold cstr. rewrite zlen_app, Hz. change (zlen [Byte.x00]) with 1. lia. }
  split_and!; [| done | |].
  - unfold c_vsnprintf. destruct (Z.gtb_spec (zlen o) INT_MAX); [lia|].
    fold x. by rewrite store_ok by lia.
  - intros j Hj. subst x. unfold cstr. rewrite sub_app_l by lia.
    destruct (Z.leb_spec 0 j); [by rewrite sub_sub by lia|by rewrite !sub_nil by lia].
  - rewrite lookup_splice, decide_True by lia. subst x. unfold cstr.
    unfold zlen at 1 in Hz. rewrite lookup_app_r by lia.
    by replace (_ - _)%nat with 0%nat by lia.
Qed.

Lemma format_refines t out b a :
  represents b a ->
  exists b', sancus_buffer__appendf (Some b) t out
             = Ret (fst (spec_format t out a), Some b') /\ represents b' (snd (spec_format t out a)).
Proof.
  intros Hrep. destruct (room_tail _ _ Hrep) as [Htail Hroom].
  pose proof (rep_wf _ _ Hrep) as Hwf. unfold buffer_wf in Hwf.
  assert (Hin : b_base b + b_len b + s_room a <= zlen (b_buf b)).
  { unfold s_room. rewrite <- (rep_len _ _ Hrep), <- (rep_off _ _ Hrep),
      <- (rep_cap _ _ Hrep). lia. }
  unfold sancus_buffer__appendf, sancus_buffer__appendv, spec_format.
  rewrite Htail, swrap_id by bounds. rewrite Z.gtb_ltb, Z.ltb_antisym.
  destruct (Z.leb_spec (s_room a) 0); [by exists b|]. cbn [negb deref sancus_buffer_tail_ptr]. run.
  destruct out as [o|]; [|exists b; simpl; by rewrite set_buf_id].
  destruct (Z.gtb_spec (zlen o) INT_MAX) as [Hbig|Hsmall].
  { exists b. unfold c_vsnprintf. rewrite (proj2 (Z.gtb_lt _ _) Hbig). simpl.
    by rewrite set_buf_id. }
  pose proof (zlen_nonneg o).
  destruct (c_vsnprintf_text (b_buf b) (b_base b + b_len b) (s_room a) o)
    as (-> & Hx & Hpre & Hnul); [lia..|].
  set (x := cstr (sub o 0 (s_room a - 1))) in *. run.
  pose proof (represents_splice_tail b a x (b_base b + b_len b) Hrep ltac:(lia) ltac:(lia)) as Hb1.
  pose proof (represents_grow b a x) as Hgrow. specialize (fun n => Hgrow n Hrep).
  rewrite !Z.gtb_ltb. destruct (Z.leb_spec (zlen o) 0) as [Hz|Hz]; cbn [orb].
  - run. rewrite Z.gtb_ltb, (proj2 (Z.ltb_lt (zlen o) (s_room a))) by lia.
    rewrite (proj2 (Z.ltb_ge 0 (zlen o))) by lia. eexists. split; [done|].
    cbn. rewrite (zlen_zero o), app_nil_r by lia. by destruct a.
  - destruct (Z.ltb_spec (zlen o) (s_room a)); [|destruct t]; run; rewrite ?Z.gtb_ltb.
    + rewrite (proj2 (Z.ltb_lt 0 (zlen o))) by lia. eexists. split; [done|].
      cbn. rewrite <- (sub_whole o (zlen o)) at 2 by lia. rewrite <- Hpre by lia.
      apply Hgrow; lia.
    + unfold store1. rewrite store_ok
        by (rewrite ?zlen_splice by lia; change (zlen [Byte.x00]) with 1; lia). run.
      replace (Z.min _ _) with (s_room a - 1) in Hnul by lia.
      rewrite splice_lookup_id by (done || lia). rewrite Z.gtb_ltb.
      destruct (Z.ltb_spec 0 (s_room a - 1)); eexists; (split; [done|]); cbn.
      * rewrite <- Hpre by lia. apply Hgrow; lia.
      * rewrite sub_nil, app_nil_r by lia. by destruct a.
    + by eexists.
Qed.

Lemma strip_refines s b a :
  represents b a -> zlen s <= LONG_MAX ->
  exists b', sancus_buffer_strip (Some b) (Some s) (zlen s)
             = Ret (fst (spec_strip s a), Some b') /\ represents b' (snd (spec_strip s a)).
Proof.
  intros Hrep Hs. pose proof (zlen_nonneg s). pose proof (rep_wf _ _ Hrep) as Hwf.
  pose proof (rep_data _ _ Hrep) as Hd. pose proof (content_len _ Hwf) as Hcl.
  unfold buffer_wf in Hwf. unfold sancus_buffer_strip, spec_strip. cbn [sancus_buffer_len deref].
  rewrite (proj2 (Z.ltb_ge (zlen s) 0)) by lia.
  rewrite <- Hd, Hcl.
  destruct (Z.gtb_spec (zlen s) 0) as [Hpos|Hnil].
  2:{ exists b. rewrite decide_False by (intros [Hne _]; apply Hne, zlen_zero; lia). done. }
  rewrite Z.geb_leb. destruct (Z.leb_spec (zlen s) (b_len b)) as [Hfit|Hno]; cbn [andb].
  2:{ exists b. rewrite decide_False; [done|]. intros [_ [r Hr]].
      apply (f_equal zlen) in Hr. rewrite zlen_app in Hr. pose proof (zlen_nonneg r). lia. }
  run. rewrite !load_ok by lia. run.
  assert (Hsuf : sub (b_buf b) (b_base b + (b_len b - zlen s)) (zlen s) = sub s 0 (zlen s)
                 <-> s <> [] /\ s `suffix_of` content b).
  { rewrite sub_all, suffix_sub, Hcl by lia. unfold content. rewrite sub_sub by lia.
    split; [|by intros [_ ?]]. split; [|done]. intros E. rewrite E in Hpos. done. }
  case_decide as Hc; apply Hsuf in Hc || rewrite Hsuf in Hc.
  - rewrite decide_True by done. unfold store1.
    rewrite store_ok by (change (zlen [Byte.x00]) with 1; lia). run.
    eexists. split; [done|]. rewrite uwrap_id by bounds.
    pose proof (represents_take b a (b_len b - zlen s) Hrep ltac:(lia)) as Ht.
    apply represents_splice_tail with (i := b_base b + (b_len b - zlen s))
      (x := [Byte.x00]) in Ht; cbn; [|lia|change (zlen [Byte.x00]) with 1; lia].
    by rewrite Hd.
  - rewrite decide_False by done. by exists b.
Qed.

Lemma strip_cstr s b :
  zlen s <= LONG_MAX ->
  sancus_buffer_strip (Some b) (Some (cstr s)) (zlen s)
  = sancus_buffer_strip (Some b) (Some s) (zlen s).
Proof.
  intros Hs. unfold sancus_buffer_strip. pose proof (zlen_nonneg s).
  rewrite (proj2 (Z.ltb_ge (zlen s) 0)) by lia.
  destruct (_ && _); [|done]. cbn [deref]. run.
  destruct (load (b_buf b) _ _) as [x| | |]; [|done..]. run.
  rewrite !load_ok by (unfold cstr; rewrite ?zlen_app; pose proof (zlen_nonneg [Byte.x00]); lia).
  run. unfold cstr. by rewrite sub_app_l by lia.
Qed.

Lemma stripz_refines s b a :
  represents b a -> no_nul s -> zlen s <= LONG_MAX ->
  exists b', sancus_buffer_stripz (Some b) (Some (cstr s))
             = Ret (fst (spec_strip s a), Some b') /\ represents b' (snd (spec_strip s a)).
Proof.
  intros Hrep Hs Hlen. unfold sancus_buffer_stripz.
  pose proof (c_strlen_cstr s [] Hs) as Hl. rewrite app_nil_r in Hl. rewrite Hl. run.
  pose proof (zlen_nonneg s). rewrite swrap_id, strip_cstr by bounds. by apply strip_refines.
Qed.

(** Shrinking operations end by writing a NUL behind what is left. *)
Lemma shrink_refines b a n :
  represents b a -> 0 <= n <= b_len b ->
  let b1 := if n =? 0 then set_base (set_len b n) 0 else set_len b n in
  outcome_rel same_result
    (m ← store1 (b_buf b1) (b_base b1 + b_len b1) Byte.x00;
     Ret (s64 (b_len b1), Some (set_buf b1 m)))
    (spec_shrink a (sub (s_data a) 0 n)).
Proof.
  intros Hrep Hn b1. pose proof (rep_len _ _ Hrep) as Hlen.
  pose proof (represents_take b a n Hrep Hn) as Ht.
  assert (Hz : zlen (sub (s_data a) 0 n) = n) by (apply zlen_sub; lia).
  set (d := sub (s_data a) 0 n) in *.
  set (a1 := mk_bstr d (if decide (d = []) then 0 else s_off a) (s_cap a) (s_store a)).
  assert (H1 : represents b1 a1 /\ b_len b1 = n).
  { subst b1 a1. destruct (Z.eqb_spec n 0) as [->|Hne].
    - rewrite decide_True by (by apply zlen_zero). split; [|done].
      destruct Ht as [Hwf Hd Ho Hc Hs]; unfold buffer_wf in Hwf; cbn in *.
      constructor; cbn; try done. unfold buffer_wf; cbn; lia.
    - rewrite decide_False by (intros E; apply Hne; by rewrite <- Hz, E). by split. }
  destruct H1 as [H1 Hbl]. pose proof (rep_off _ _ H1) as Ho. pose proof (rep_store _ _ H1) as Hst.
  pose proof (rep_wf _ _ H1) as Hwf1. unfold buffer_wf in Hwf1. cbn in Ho, Hst.
  unfold spec_shrink. rewrite <- Ho, Hz, <- Hst, Hbl. unfold store1.
  destruct (Z.ltb_spec (b_base b1 + n) (zlen (b_buf b1))).
  - rewrite store_ok by (change (zlen [Byte.x00]) with 1; lia). run.
    rewrite swrap_id by bounds. eexists. split; [done|]. cbn [snd].
    replace (mk_bstr d _ _ _) with a1 by (unfold a1; f_equal; congruence).
    apply represents_splice_tail with (x := [Byte.x00]); [done|lia|].
    change (zlen [Byte.x00]) with 1. lia.
  - by rewrite store_oob by (change (zlen [Byte.x00]) with 1; lia).
Qed.

Lemma truncate_refines b a n :
  represents b a -> 0 <= n ->
  outcome_rel same_result (sancus_buffer_truncate (Some b) n)
    (spec_shrink a (sub (s_data a) 0 n)).
Proof.
  intros Hrep Hn. pose proof (rep_len _ _ Hrep) as Hlen.
  pose proof (rep_wf _ _ Hrep) as Hwf. unfold buffer_wf in Hwf.
  unfold sancus_buffer_truncate. cbn [deref]. run. destruct (Z.ltb_spec n (b_len b)).
  - cbn [b_len set_len]. pose proof (shrink_refines b a n Hrep ltac:(lia)) as H0. exact H0.
  - rewrite (sub_whole (s_data a) n) by lia.
    pose proof (shrink_refines b a (b_len b) Hrep ltac:(lia)) as H0.
    rewrite (sub_whole (s_data a)) in H0 by lia.
    replace (set_len b (b_len b)) with b in H0 by (by destruct b). exact H0.
Qed.

Lemma stripn_refines b a n :
  represents b a -> 0 <= n ->
  outcome_rel same_result (sancus_buffer_stripn (Some b) n)
    (spec_shrink a (sub (s_data a) 0 (zlen (s_data a) - n))).
Proof.
  intros Hrep Hn. pose proof (rep_len _ _ Hrep) as Hlen.
  pose proof (rep_wf _ _ Hrep) as Hwf. unfold buffer_wf in Hwf. rewrite <- Hlen.
  unfold sancus_buffer_stripn. cbn [deref]. run. destruct (Z.ltb_spec n (b_len b)).
  - rewrite uwrap_id by bounds.
    pose proof (shrink_refines b a (b_len b - n) Hrep ltac:(lia)) as H0.
    rewrite (proj2 (Z.eqb_neq (b_len b - n) 0)) in H0 by lia. exact H0.
  - pose proof (shrink_refines b a 0 Hrep ltac:(lia)) as H0.
    rewrite sub_nil in H0 |- * by lia. exact H0.
Qed.

Lemma stripchar_match_spec m chars p q n x :
  load1 m p = Ret x -> 0 <= q -> q + Z.of_nat n <= zlen chars ->
  stripchar_match m chars p q n = Ret (bool_decide (x ∈ sub chars q (Z.of_nat n))).
Proof.
  intros Hx. revert q. induction n as [|n IH]; intros q Hq Hle.
  - cbn [stripchar_match]. rewrite sub_nil by lia. by rewrite bool_decide_false by apply not_elem_of_nil.
  - cbn [stripchar_match]. rewrite Hx. run.
    destruct (load1_ok chars q) as (y & Hy & Hl); [lia|]. rewrite Hy. run.
    rewrite (sub_cons _ _ _ y) by (done || lia).
    replace (Z.of_nat (S n) - 1) with (Z.of_nat n) by lia.
    case_decide as Hxy.
    + rewrite bool_decide_true; [done|]. subst. apply elem_of_cons. by left.
    + rewrite IH by lia. f_equal. apply bool_decide_ext. rewrite elem_of_cons. by intuition.
Qed.

Lemma stripped_snoc many cs d x :
  stripped many cs (d ++ [x]) =
    if bool_decide (x ∈ cs) then (if many then stripped many cs d else d) else d ++ [x].
Proof. unfold stripped. destruct many; [by rewrite rstrip_snoc|by rewrite rstrip1_snoc]. Qed.

Lemma stripped_prefix many cs d :
  exists n, 0 <= n <= zlen d /\ stripped many cs d = sub d 0 n.
Proof.
  induction d as [|x d IH] using rev_ind.
  - exists 0. split; [done|]. by destruct many.
  - destruct IH as (n & Hn & IH). rewrite stripped_snoc, zlen_app. change (zlen [x]) with 1.
    destruct (bool_decide _); [destruct many|].
    + exists n. split; [lia|]. by rewrite IH, sub_app_l by lia.
    + exists (zlen d). split; [lia|]. by rewrite sub_app_l, sub_all by lia.
    + exists (zlen d + 1). split; [lia|]. rewrite sub_whole; [done|]. rewrite zlen_app.
      change (zlen [x]) with 1. lia.
Qed.

Lemma stripchar_loop_spec m chars many l pe count k :
  0 <= pe + 1 -> pe + 1 + Z.of_nat k <= zlen m -> 0 <= l <= zlen chars ->
  0 <= count -> count + Z.of_nat k <= ULONG_MAX ->
  let d := sub m (pe + 1) (Z.of_nat k) in
  stripchar_loop k m chars many l (pe + Z.of_nat k) pe count
  = Ret (count + (Z.of_nat k - zlen (stripped many (sub chars 0 l) d))).
Proof.
  intros Hpe Hm Hl. revert count. induction k as [|k IH]; intros count Hc Hk; cbn zeta.
  - rewrite (sub_nil m) by lia. replace (zlen (stripped _ _ [])) with 0 by (by destruct many).
    cbn [stripchar_loop]. destruct (Z.gtb_spec (pe + Z.of_nat 0) pe); [lia|]. f_equal. lia.
  - cbn [stripchar_loop]. destruct (Z.gtb_spec (pe + Z.of_nat (S k)) pe); [|lia].
    destruct (load1_ok m (pe + Z.of_nat (S k))) as (x & Hx & Hl'); [lia|].
    rewrite (stripchar_match_spec _ _ _ _ _ x Hx) by lia. run.
    rewrite Z2Nat.id by lia.
    replace (Z.of_nat (S k)) with (Z.of_nat k + 1) in * by lia.
    rewrite (sub_snoc m _ _ x) by (lia || (rewrite <- Hl'; f_equal; lia)).
    assert (Hzd : zlen (sub m (pe + 1) (Z.of_nat k)) = Z.of_nat k) by (apply zlen_sub; lia).
    rewrite stripped_snoc. destruct (bool_decide _).
    + rewrite uwrap_id by bounds. destruct many; cbn [negb].
      * replace (pe + (Z.of_nat k + 1) - 1) with (pe + Z.of_nat k) by lia.
        rewrite IH by lia. cbn zeta. f_equal. lia.
      * rewrite Hzd. f_equal. lia.
    + rewrite zlen_app, Hzd. change (zlen [x]) with 1. f_equal. lia.
Qed.

Lemma stripchar_window many cs b :
  buffer_wf b ->
  stripchar_loop (Z.to_nat (b_len b)) (b_buf b) (cstr cs) many (zlen cs)
    (b_base b + b_len b - 1) (b_base b - 1) 0
  = Ret (b_len b - zlen (stripped many cs (content b))).
Proof.
  intros Hwf. unfold buffer_wf in Hwf. pose proof (zlen_nonneg cs).
  pose proof (stripchar_loop_spec (b_buf b) (cstr cs) many (zlen cs) (b_base b - 1) 0
    (Z.to_nat (b_len b))) as Hloop.
  rewrite Z2Nat.id in Hloop by lia.
  replace (b_base b - 1 + b_len b) with (b_base b + b_len b - 1) in Hloop by lia.
  rewrite Hloop; unfold cstr; rewrite ?zlen_app; change (zlen [Byte.x00]) with 1; try bounds.
  rewrite sub_app_l, sub_all by lia. f_equal.
  by replace (b_base b - 1 + 1) with (b_base b) by lia.
Qed.

Lemma stripped_none many d : stripped many [] d = d.
Proof.
  destruct d as [|x d _] using rev_ind; [by destruct many|].
  by rewrite stripped_snoc, bool_decide_false by apply not_elem_of_nil.
Qed.

Lemma stripchars_refines many cs b a :
  represents b a -> no_nul cs -> zlen cs <= LONG_MAX ->
  exists b', sancus_buffer__stripchar (Some b) many (Some (cstr cs)) (-1)
             = Ret (fst (spec_stripchars many cs a), Some b') /\
             represents b' (snd (spec_stripchars many cs a)).
Proof.
  intros Hrep Hnn Hcs. pose proof (rep_wf _ _ Hrep) as Hwf. pose proof (rep_data _ _ Hrep) as Hd.
  pose proof (zlen_nonneg cs). pose proof (content_len _ Hwf) as Hcl.
  unfold sancus_buffer__stripchar. rewrite bool_decide_false by done. cbn [andb Z.ltb Z.compare].
  pose proof (c_strlen_cstr cs [] Hnn) as Hl. rewrite app_nil_r in Hl. rewrite Hl. run.
  rewrite swrap_id by bounds. cbn [deref]. run. cbn zeta. rewrite stripchar_window by done.
  unfold spec_stripchars. cbn [fst snd]. rewrite <- Hd, Hcl.
  destruct (stripped_prefix many cs (content b)) as (n & Hn & Hst). rewrite Hst.
  rewrite zlen_sub by lia.
  pose proof (represents_take b a n Hrep ltac:(lia)) as Ht. rewrite <- Hd in Ht.
  assert (Hskip : zlen cs <= 0 -> n = b_len b).
  { intros H0. rewrite (zlen_zero cs), stripped_none in Hst by lia.
    apply (f_equal zlen) in Hst. rewrite zlen_sub in Hst by lia. lia. }
  unfold buffer_wf in Hwf.
  assert (Hn0 : set_len b (b_len b) = b) by (by destruct b).
  destruct (Z.gtb_spec (zlen cs) 0) as [Hpos|Hz]; run; cbn zeta.
  - destruct (Z.eqb_spec (b_len b - n) 0) as [Hc|Hc]; cbn [negb]; eexists;
      (split; [rewrite swrap_id by bounds; done|]).
    + replace n with (b_len b) in * by lia. by rewrite Hn0 in Ht.
    + rewrite uwrap_id by bounds. by replace (b_len b - (b_len b - n)) with n by lia.
  - rewrite (Hskip Hz) in Ht |- *. rewrite Hn0 in Ht. eexists.
    split; [|exact Ht]. cbn. by rewrite Z.sub_diag.
Qed.

(** ** Refinement *)

Lemma same_result_intro m r a :
  (exists b', m = Ret (fst (r : Z * bstr), Some b') /\ represents b' (snd r)) ->
  a = Ret r -> outcome_rel same_result m a.
Proof. intros (b' & -> & Hrep) ->. by exists b'. Qed.

Lemma run_op_refines o b a :
  op_ok o -> represents b a -> outcome_rel same_result (run_op o b) (spec_op o a).
Proof.
  intros Hok Hrep. destruct o; cbn [run_op spec_op op_ok] in *.
  - eapply same_result_intro; [|done]. by apply append_refines.
  - destruct Hok. eapply same_result_intro; [|done]. by apply appendz_refines.
  - eapply same_result_intro; [|done]. by apply format_refines.
  - eapply same_result_intro; [|done]. by apply strip_refines.
  - destruct Hok. eapply same_result_intro; [|done]. by apply stripz_refines.
  - destruct Hok. eapply same_result_intro; [|done]. by apply stripchars_refines.
  - apply truncate_refines; [done|lia].
  - apply stripn_refines; [done|lia].
Qed.

(** A client's sequence of calls: the values they return and the buffer left. *)
Fixpoint run_ops (os : list op) (b : buffer) : outcome (list Z * buffer) :=
  match os with
  | [] => Ret ([], b)
  | o :: os =>
      '(r, b) ← run_op o b;
      b ← deref b;
      '(rs, b) ← run_ops os b;
      Ret (r :: rs, b)
  end.

Fixpoint spec_ops (os : list op) (a : bstr) : outcome (list Z * bstr) :=
  match os with
  | [] => Ret ([], a)
  | o :: os =>
      '(r, a) ← spec_op o a;
      '(rs, a) ← spec_ops os a;
      Ret (r :: rs, a)
  end.

Definition same_trace (r : list Z * buffer) (q : list Z * bstr) : Prop :=
  fst r = fst q /\ represents (snd r) (snd q).

Lemma run_ops_refines os b a :
  Forall op_ok os -> represents b a -> outcome_rel same_trace (run_ops os b) (spec_ops os a).
Proof.
  revert b a. induction os as [|o os IH]; intros b a Hok Hrep; [by split|].
  apply Forall_cons in Hok as [Ho Hos]. cbn [run_ops spec_ops].
  eapply outcome_rel_bind; [by apply run_op_refines|].
  intros [r ob] [q a'] (b' & [= -> ->] & Hrep'). cbn [fst snd deref] in *. run.
  eapply outcome_rel_bind; [by apply IH|].
  intros [rs b1] [qs a1] [Hrs Hr1]. cbn in *. split; cbn; congruence.
Qed.

Lemma init_represents b0 m n :
  0 < n <= zlen m -> zlen m <= LONG_MAX ->
  exists b, sancus_buffer_init (Some b0) (Some m) n = (0, Some b) /\
            represents b (mk_bstr [] 0 n (zlen m)).
Proof.
  intros Hn Hm. unfold sancus_buffer_init. rewrite (proj2 (Z.eqb_neq n 0)) by lia.
  eexists. split; [done|]. constructor; cbn; try done. unfold buffer_wf; cbn; lia.
Qed.

(** ** Properties *)

(** C1. A buffer initialised over storage that is large enough behaves, for
    every sequence of append, format, strip, truncate and pop calls, exactly
    as the bounded byte string: the same return values (including [-ENOBUFS]
    and truncation), the same bytes held, the invariant kept, and undefined
    behaviour precisely when the specification says so (a shrinking call that
    has no byte of storage left for its terminating NUL). *)
Theorem buffer_refines_bounded_string b0 m n os :
  0 < n <= zlen m -> zlen m <= LONG_MAX -> Forall op_ok os ->
  exists b, sancus_buffer_init (Some b0) (Some m) n = (0, Some b) /\
    outcome_rel same_trace (run_ops os b) (spec_ops os (mk_bstr [] 0 n (zlen m))).
Proof.
  intros Hn Hm Hos. destruct (init_represents b0 m n Hn Hm) as (b & Hb & Hrep).
  exists b. split; [done|]. by apply run_ops_refines.
Qed.

Definition sample_storage : list byte := replicate 16 Byte.xff.
Definition sample_ops : list op :=
  [Append false (lit "hello"); AppendZ true (lit " world and more"); StripChars true (lit "onw ");
   Format false (Some (lit "%d")); Strip (lit "%d"); StripN 3; Truncate 4].

Lemma buffer_refines_bounded_string_witness :
  exists b, sancus_buffer_init (Some (mk_buffer [] 0 0 0)) (Some sample_storage) 12 = (0, Some b) /\
    outcome_rel same_trace (run_ops sample_ops b) (spec_ops sample_ops (mk_bstr [] 0 12 16)).
Proof.
  apply (buffer_refines_bounded_string (mk_buffer [] 0 0 0) sample_storage 12 sample_ops).
  - split; [reflexivity|vm_compute; discriminate].
  - vm_compute; discriminate.
  - repeat constructor; cbn [op_ok]; try split; try (vm_compute; discriminate);
      unfold no_nul; apply (bool_decide_unpack _); vm_compute; exact I.
Defined.

Example sample_run :
  match sancus_buffer_init (Some (mk_buffer [] 0 0 0)) (Some sample_storage) 12 with
  | (_, Some b) =>
      '(rs, b) ← run_ops sample_ops b; Ret (rs, content b)
  | _ => Undef
  end = Ret ([5; 7; 1; - ENOBUFS; 0; 8; 4], lit "hell").
Proof. vm_compute. reflexivity. Qed.

(** Appending a byte string that fits and then stripping it gives back the
    bytes that were there, and both calls return its length. *)
Theorem append_strip_roundtrip b a s :
  represents b a -> zlen s <= LONG_MAX -> s <> [] -> zlen s <= s_room a ->
  exists b1 b2,
    sancus_buffer_append (Some b) (Some s) (zlen s) = Ret (zlen s, Some b1) /\
    sancus_buffer_strip (Some b1) (Some s) (zlen s) = Ret (zlen s, Some b2) /\
    content b1 = content b ++ s /\ content b2 = content b.
Proof.
  intros Hrep Hlen Hne Hroom.
  destruct (append_refines false s b a Hrep Hlen) as (b1 & H1 & R1).
  unfold spec_append in H1, R1. rewrite (proj2 (Z.leb_le _ _) Hroom) in H1, R1. cbn in H1, R1.
  destruct (strip_refines s b1 _ R1 Hlen) as (b2 & H2 & R2). unfold spec_strip in H2, R2. cbn in H2, R2.
  rewrite decide_True in H2, R2 by (split; [done|by eexists]).
  exists b1, b2. rewrite (rep_data _ _ Hrep), (rep_data _ _ R1), (rep_data _ _ R2). cbn.
  split_and!; try done. rewrite zlen_app. replace (_ + _ - _) with (zlen (s_data a)) by lia.
  by rewrite sub_app_l, sub_all by lia.
Qed.

(** A fresh buffer on the stack is the empty bounded string. *)
Lemma lbuffer_represents n :
  0 < n <= LONG_MAX -> represents (DECL_SANCUS_LBUFFER n) (mk_bstr [] 0 n n).
Proof.
  intros Hn. assert (zlen (replicate (Z.to_nat n) Byte.x00) = n) as Hz
    by (unfold zlen; rewrite length_replicate; lia).
  constructor; cbn; try done. unfold buffer_wf; cbn. lia.
Qed.

Lemma sample_represents : represents (DECL_SANCUS_LBUFFER 16) (mk_bstr [] 0 16 16).
Proof. apply lbuffer_represents. bounds. Defined.

Lemma append_strip_roundtrip_witness :
  exists b1 b2,
    sancus_buffer_append (Some (DECL_SANCUS_LBUFFER 16)) (Some (lit "ab")) 2
      = Ret (2, Some b1) /\
    sancus_buffer_strip (Some b1) (Some (lit "ab")) 2 = Ret (2, Some b2) /\
    content b1 = content (DECL_SANCUS_LBUFFER 16) ++ lit "ab" /\
    content b2 = content (DECL_SANCUS_LBUFFER 16).
Proof.
  apply (append_strip_roundtrip _ (mk_bstr [] 0 16 16) (lit "ab")).
  - exact sample_represents.
  - vm_compute; discriminate.
  - discriminate.
  - vm_compute; discriminate.
Defined.

(** The terminating NUL of [sancus_buffer_truncate] is out of bounds when
    the buffer is full: appending as many bytes as a buffer on the stack holds
    succeeds, and a [truncate] that keeps them all then writes behind the
    array.  (Every shorter [truncate] is fine.) *)
Theorem truncate_full_writes_past_end s n :
  s <> [] -> zlen s <= LONG_MAX -> 0 <= n ->
  exists b,
    sancus_buffer_append (Some (DECL_SANCUS_LBUFFER (zlen s))) (Some s) (zlen s) = Ret (zlen s, Some b) /\
    (sancus_buffer_truncate (Some b) n = Undef <-> zlen s <= n).
Proof.
  intros Hne Hs Hn.
  assert (0 < zlen s) as Hpos.
  { pose proof (zlen_nonneg s). destruct (decide (zlen s = 0)) as [E|]; [by apply zlen_zero in E|lia]. }
  pose proof (lbuffer_represents (zlen s) ltac:(lia)) as Hrep.
  destruct (append_refines false s _ _ Hrep ltac:(lia)) as (b & H1 & R1).
  assert (Hroom : s_room (mk_bstr [] 0 (zlen s) (zlen s)) = zlen s).
  { unfold s_room; cbn [s_cap s_off s_data]. rewrite (@zlen_nil byte). lia. }
  unfold spec_append in H1, R1. rewrite Hroom, (proj2 (Z.leb_le _ _)) in H1, R1 by lia.
  exists b. split; [done|].
  pose proof (truncate_refines b _ n R1 Hn) as Ht. unfold spec_shrink in Ht.
  cbn [snd with_data s_data s_off s_cap s_store app] in Ht.
  pose proof (zlen_sub_min s n Hn) as Hz.
  destruct (Z.leb_spec (zlen s) n).
  - rewrite sub_whole, decide_False in Ht by done.
    rewrite (proj2 (Z.ltb_ge _ _)) in Ht by lia.
    by destruct (sancus_buffer_truncate _ _).
  - rewrite (proj2 (Z.ltb_lt _ _)) in Ht by (case_decide; lia). split; [|lia].
    intros E. by rewrite E in Ht.
Qed.

Lemma truncate_full_writes_past_end_witness :
  exists b,
    sancus_buffer_append (Some (DECL_SANCUS_LBUFFER 4)) (Some (lit "abcd")) 4
      = Ret (4, Some b) /\
    (sancus_buffer_truncate (Some b) 4 = Undef <-> 4 <= 4).
Proof.
  apply (truncate_full_writes_past_end (lit "abcd") 4).
  - discriminate.
  - vm_compute; discriminate.
  - lia.
Defined.
