(* ===== verification/Time.v ===== *)
(** * Time

    Durations as [struct timespec]: include/sancus/time.h (conversions,
    comparison, elapsed and left) and src/sancus/time.c (normalisation,
    addition, subtraction).  A negative duration of at least a second has a
    negative [tv_sec] and a non-negative [tv_nsec] that counts away from zero;
    one shorter than a second has [tv_sec = 0] and a negative [tv_nsec].
    The conversions from and to [double] are in [TimeFp]. *)

From S2P Require Import Prelude.

(** ** Data *)

(** [struct timespec] of the C library: two [long]s. *)
Record timespec : Type := mk_ts { tv_sec : Z; tv_nsec : Z }.

#[export] Instance timespec_eq_dec : EqDecision timespec.
Proof. solve_decision. Defined.

(** ** Unit conversions

    The multiplications are on [long]; their callers below check the results
    for overflow. *)

(** [SEC_TO_MS] @ include/sancus/time.h:9-9. *)
Definition SEC_TO_MS (s : Z) : Z := 1000 * s.
(** [SEC_TO_US] @ include/sancus/time.h:8-8. *)
Definition SEC_TO_US (s : Z) : Z := 1000 * SEC_TO_MS s.
(** [SEC_TO_NS] @ include/sancus/time.h:7-7. *)
Definition SEC_TO_NS (s : Z) : Z := 1000 * SEC_TO_US s.
(** [MS_TO_US] @ include/sancus/time.h:12-12. *)
Definition MS_TO_US (ms : Z) : Z := 1000 * ms.
(** [MS_TO_NS] @ include/sancus/time.h:11-11. *)
Definition MS_TO_NS (ms : Z) : Z := 1000 * MS_TO_US ms.
(** [MS_TO_SEC] @ include/sancus/time.h:13-13. *)
Definition MS_TO_SEC (ms : Z) : Z := ms ÷ SEC_TO_MS 1.
(** [US_TO_NS] @ include/sancus/time.h:15-15. *)
Definition US_TO_NS (us : Z) : Z := 1000 * us.
(** [US_TO_MS] @ include/sancus/time.h:16-16. *)
Definition US_TO_MS (us : Z) : Z := us ÷ MS_TO_US 1.
(** [US_TO_SEC] @ include/sancus/time.h:17-17. *)
Definition US_TO_SEC (us : Z) : Z := us ÷ SEC_TO_US 1.
(** [NS_TO_MS] @ include/sancus/time.h:19-19. *)
Definition NS_TO_MS (ns : Z) : Z := ns ÷ MS_TO_NS 1.
(** [NS_TO_US] @ include/sancus/time.h:20-20. *)
Definition NS_TO_US (ns : Z) : Z := ns ÷ MS_TO_US 1.
(** [NS_TO_SEC] @ include/sancus/time.h:21-21. *)
Definition NS_TO_SEC (ns : Z) : Z := ns ÷ SEC_TO_NS 1.
(** [NS_TO_MS_ROUNDED] @ include/sancus/time.h:23-23. *)
Definition NS_TO_MS_ROUNDED (ns : Z) : outcome Z :=
  n ← ck_s64 (ns + MS_TO_NS 1 ÷ 2); Ret (n ÷ MS_TO_NS 1).

(** [TIMESPEC_INIT] @ include/sancus/time.h:25-25. *)
Definition TIMESPEC_INIT (s ns : Z) : timespec := mk_ts s ns.
(** [TIMESPEC_INIT_MS] @ include/sancus/time.h:26-26. *)
Definition TIMESPEC_INIT_MS (s ms : Z) : outcome timespec :=
  ns ← ck_s64 (MS_TO_NS ms); Ret (TIMESPEC_INIT s ns).

(** ** Normalisation, addition, subtraction *)

(** [sancus_time_fix] @ src/sancus/time.c:4-26. *)
Definition sancus_time_fix (ts : timespec) : outcome (timespec * Z) :=
  let d := tv_nsec ts ÷ SEC_TO_NS 1 in
  ts ← (if d >? 0 then
          sec ← ck_s64 (tv_sec ts + d);
          ns ← ck_s64 (tv_nsec ts - SEC_TO_NS d);
          Ret (mk_ts sec ns)
        else if tv_nsec ts <? 0 then
          let d := - d + 1 in
          if negb (d =? 1) || negb (tv_sec ts =? 0) then
            sec ← ck_s64 (tv_sec ts - d);
            dn ← ck_s64 (SEC_TO_NS d);
            ns ← ck_s64 (tv_nsec ts + dn);
            Ret (mk_ts sec ns)
          else Ret ts
        else Ret ts);
  Ret (ts, if (tv_sec ts <? 0) || (tv_nsec ts <? 0) then -1
           else if (tv_sec ts =? 0) && (tv_nsec ts =? 0) then 0 else 1).

(** [time_add] @ src/sancus/time.c:28-55. *)
Definition time_add (a b : timespec) : outcome (timespec * Z) :=
  a ← (if xorb (tv_sec a <? 0) (tv_sec b <? 0) then
         sec ← ck_s64 (tv_sec a + tv_sec b);
         ns ← ck_s64 (tv_nsec a - tv_nsec b);
         if ns <? 0 then
           let d := 1 - ns ÷ SEC_TO_NS 1 in
           dn ← ck_s64 (SEC_TO_NS d);
           ns ← ck_s64 (ns + dn);
           if sec =? - d then
             ns ← ck_s64 (ns * -1);
             Ret (mk_ts 0 ns)
           else if sec >=? d then
             sec ← ck_s64 (sec - d);
             Ret (mk_ts sec ns)
           else
             sec ← ck_s64 (sec + d);
             Ret (mk_ts sec ns)
         else Ret (mk_ts sec ns)
       else
         sec ← ck_s64 (tv_sec a + tv_sec b);
         ns ← ck_s64 (tv_nsec a + tv_nsec b);
         Ret (mk_ts sec ns));
  sancus_time_fix a.

(** [sancus_time_add] @ src/sancus/time.c:57-60. *)
Definition sancus_time_add (a b : timespec) : outcome (timespec * Z) := time_add a b.

(** [sancus_time_neg] @ include/sancus/time.h:107-115. *)
Definition sancus_time_neg (a : timespec) : outcome timespec :=
  if tv_sec a =? 0
  then ns ← ck_s64 (- tv_nsec a); Ret (mk_ts (tv_sec a) ns)
  else sec ← ck_s64 (- tv_sec a); Ret (mk_ts sec (tv_nsec a)).

(** [sancus_time_sub] @ src/sancus/time.c:62-66. *)
Definition sancus_time_sub (a b : timespec) : outcome (timespec * Z) :=
  nb ← sancus_time_neg b; time_add a nb.

(** [sancus_time_add2] @ src/sancus/time.c:68-73. *)
Definition sancus_time_add2 (a b : timespec) : outcome timespec :=
  '(ts, _) ← time_add a b; Ret ts.

(** [sancus_time_sub2] @ src/sancus/time.c:75-80. *)
Definition sancus_time_sub2 (a b : timespec) : outcome timespec :=
  nb ← sancus_time_neg b; '(ts, _) ← time_add a nb; Ret ts.

(** [sancus_time_new] @ include/sancus/time.h:171-176. *)
Definition sancus_time_new (sec ns : Z) : outcome timespec :=
  '(ts, _) ← sancus_time_fix (mk_ts sec ns); Ret ts.

(** [sancus_time_new_ms] @ include/sancus/time.h:179-184. *)
Definition sancus_time_new_ms (ms : Z) : outcome timespec :=
  ts ← TIMESPEC_INIT_MS 0 ms; '(ts, _) ← sancus_time_fix ts; Ret ts.

(** [sancus_time_add_ms] @ include/sancus/time.h:190-194. *)
Definition sancus_time_add_ms (a : timespec) (ms : Z) : outcome (timespec * Z) :=
  b ← sancus_time_new_ms ms; sancus_time_add a b.

(** ** Comparison *)

(** [sancus_time_cmp] @ include/sancus/time.h:117-127. The [long] difference
    is returned as an [int]. *)
Definition sancus_time_cmp (a b : timespec) : outcome Z :=
  ret ← ck_s64 (tv_sec a - tv_sec b);
  ret ← (if ret =? 0 then
           if tv_sec a <? 0 then ck_s64 (tv_nsec b - tv_nsec a)
           else ck_s64 (tv_nsec a - tv_nsec b)
         else Ret ret);
  Ret (s32 ret).

(** [sancus_time_is_eq] @ include/sancus/time.h:130-133. *)
Definition sancus_time_is_eq (a b : timespec) : bool :=
  (tv_sec a =? tv_sec b) && (tv_nsec a =? tv_nsec b).

(** [sancus_time_is_zero] @ include/sancus/time.h:136-139. *)
Definition sancus_time_is_zero (a : timespec) : bool :=
  (tv_sec a =? 0) && (tv_nsec a =? 0).

(** [sancus_time_is_lt] @ include/sancus/time.h:142-145. *)
Definition sancus_time_is_lt (a b : timespec) : outcome bool :=
  c ← sancus_time_cmp a b; Ret (c <? 0).

(** [sancus_time_is_lt_zero] @ include/sancus/time.h:148-151. *)
Definition sancus_time_is_lt_zero (a : timespec) : bool :=
  (tv_sec a <? 0) || (tv_nsec a <? 0).

(** [sancus_time_is_gt] @ include/sancus/time.h:154-157. *)
Definition sancus_time_is_gt (a b : timespec) : outcome bool :=
  c ← sancus_time_cmp a b; Ret (c >? 0).

(** [sancus_time_is_gt_zero] @ include/sancus/time.h:160-163. *)
Definition sancus_time_is_gt_zero (a : timespec) : bool :=
  (tv_sec a >? 0) && (tv_nsec a >? 0).

(** [sancus_time_elapsed] @ include/sancus/time.h:213-220. *)
Definition sancus_time_elapsed (now since : timespec) : outcome timespec :=
  gt ← sancus_time_is_gt now since;
  if gt : bool then sancus_time_sub2 now since else Ret (TIMESPEC_INIT 0 0).

(** [sancus_time_left] @ include/sancus/time.h:224-231. *)
Definition sancus_time_left (now until : timespec) : outcome timespec :=
  gt ← sancus_time_is_gt until now;
  if gt : bool then sancus_time_sub2 until now else Ret (TIMESPEC_INIT 0 0).

(** [sancus_time_ts_to_ms] @ include/sancus/time.h:70-83. *)
Definition sancus_time_ts_to_ms (ts : timespec) : outcome Z :=
  if tv_sec ts <=? LONG_MIN ÷ SEC_TO_MS 1 then Ret LONG_MIN
  else if tv_sec ts >=? LONG_MAX ÷ SEC_TO_MS 1 then Ret LONG_MAX
  else if tv_sec ts <? 0 then
    s ← ck_s64 (SEC_TO_MS (tv_sec ts)); n ← NS_TO_MS_ROUNDED (tv_nsec ts); ck_s64 (s - n)
  else
    s ← ck_s64 (SEC_TO_MS (tv_sec ts)); n ← NS_TO_MS_ROUNDED (tv_nsec ts); ck_s64 (s + n).

(** ** The upstream test vectors (src/tests/time.c) *)

Definition T (s ms : Z) : timespec := mk_ts s (MS_TO_NS ms).

Example vectors_fix :
  map (fun t => '(t, _) ← sancus_time_fix t; Ret t)
    [T 0 0; T 1 10; T 1 999; T 1 1000; T 1 1001; T 1 (-1)]
  = map Ret [T 0 0; T 1 10; T 1 999; T 2 0; T 2 1; T 0 999].
Proof. vm_compute. reflexivity. Qed.

Example vectors_neg :
  map sancus_time_neg [T 0 0; T 0 1; T 0 (-1); T 1 0; T (-1) 0; T 1 2; T (-1) 2]
  = map Ret [T 0 0; T 0 (-1); T 0 1; T (-1) 0; T 1 0; T (-1) 2; T 1 2].
Proof. vm_compute. reflexivity. Qed.

Example vectors_gt :
  map (fun '(a, b) => sancus_time_is_gt a b)
    [(T 0 2, T 0 1); (T 1 0, T 0 999); (T 1 0, T 1 0); (T (-1) 0, T (-2) 0);
     (T (-1) 100, T (-1) 200); (T 0 (-100), T 0 (-200)); (T 0 (-200), T 0 (-100));
     (T 0 (-100), T 0 (-100))]
  = map Ret [true; true; false; true; true; true; false; false].
Proof. vm_compute. reflexivity. Qed.

Example vectors_add :
  map (fun '(a, b) => sancus_time_add2 a b)
    [(T 0 2, T 1 997); (T 0 2, T 1 998); (T 0 2, T 1 999); (T 0 (-2), T 1 1);
     (T 0 (-2), T 0 1); (T 0 (-2), T 0 3); (T (-1) 200, T 0 300)]
  = map Ret [T 1 999; T 2 0; T 2 1; T 0 999; T 0 (-1); T 0 1; T 0 (-900)].
Proof. vm_compute. reflexivity. Qed.

Example vectors_sub :
  map (fun '(a, b) => sancus_time_sub2 a b)
    [(T 0 2, T 0 1); (T 0 2, T 0 2); (T 0 2, T 0 3); (T (-1) 200, T 0 300); (T 2 100, T 1 500)]
  = map Ret [T 0 1; T 0 0; T 0 (-1); T (-1) 500; T 0 600].
Proof. vm_compute. reflexivity. Qed.

Example vectors_left_elapsed :
  map (fun '(a, b) => sancus_time_left a b)
    [(T 0 800, T 1 100); (T 1 100, T 1 100); (T 1 400, T 1 100)]
  = map Ret [T 0 300; T 0 0; T 0 0] /\
  map (fun '(a, b) => sancus_time_elapsed a b)
    [(T 0 800, T 1 100); (T 1 100, T 1 100); (T 1 400, T 1 100)]
  = map Ret [T 0 0; T 0 0; T 0 300].
Proof. vm_compute. split; reflexivity. Qed.

(** ** Meaning: a signed number of nanoseconds *)

Definition NSEC : Z := 1000000000.

Definition ns_of (t : timespec) : Z :=
  if tv_sec t <? 0 then tv_sec t * NSEC - tv_nsec t else tv_sec t * NSEC + tv_nsec t.

(** The canonical form that the library documents and returns. *)
Definition canonical (t : timespec) : Prop :=
  0 <= tv_nsec t < NSEC \/ (tv_sec t = 0 /\ - NSEC < tv_nsec t < 0).

(** Far enough from the ends of [long] for no sum or difference to overflow. *)
Definition moderate (t : timespec) : Prop := - 2 ^ 62 < tv_sec t < 2 ^ 62.

#[export] Instance canonical_dec t : Decision (canonical t).
Proof. unfold canonical. apply _. Defined.

Lemma SEC_TO_NS_eq s : SEC_TO_NS s = s * NSEC.
Proof. unfold SEC_TO_NS, SEC_TO_US, SEC_TO_MS, NSEC. lia. Qed.

Lemma MS_TO_NS_eq ms : MS_TO_NS ms = ms * 1000000.
Proof. unfold MS_TO_NS, MS_TO_US. lia. Qed.

(** Linear arithmetic with truncated division. *)
Ltac qlia := cbv_bounds; Z.to_euclidean_division_equations; lia.

(** Overflow checks that succeed, and the conditionals they leave. *)
Ltac ck := repeat (rewrite ck_s64_ok by (unfold NSEC in *; qlia); run); run.

(** A quotient by a second that is known from the range of its argument. *)
Lemma quot_small n : - NSEC < n < NSEC -> n ÷ NSEC = 0.
Proof. unfold NSEC. intros. Z.to_euclidean_division_equations. lia. Qed.

Lemma quot_one n : NSEC <= n < 2 * NSEC -> n ÷ NSEC = 1.
Proof. unfold NSEC. intros. Z.to_euclidean_division_equations. lia. Qed.

Lemma quot_minus_one n : - 2 * NSEC < n <= - NSEC -> n ÷ NSEC = -1.
Proof. unfold NSEC. intros. Z.to_euclidean_division_equations. lia. Qed.

(** [sancus_time_fix] on what a sum of two canonical durations can hold. *)
Lemma fix_small s n :
  - 2 ^ 63 + 2 <= s <= 2 ^ 63 - 2 -> - 2 * NSEC < n < 2 * NSEC ->
  sancus_time_fix (mk_ts s n) =
    let t := if NSEC <=? n then mk_ts (s + 1) (n - NSEC)
             else if 0 <=? n then mk_ts s n
             else if - NSEC <? n then
               if s =? 0 then mk_ts s n else mk_ts (s - 1) (n + NSEC)
             else mk_ts (s - 2) (n + 2 * NSEC) in
    Ret (t, if (tv_sec t <? 0) || (tv_nsec t <? 0) then -1
            else if (tv_sec t =? 0) && (tv_nsec t =? 0) then 0 else 1).
Proof.
  intros Hs Hn. unfold sancus_time_fix. rewrite SEC_TO_NS_eq, Z.mul_1_l. cbn [tv_sec tv_nsec].
  destruct (Z.leb_spec NSEC n); [|destruct (Z.leb_spec 0 n); [|destruct (Z.ltb_spec (- NSEC) n)]].
  - rewrite quot_one by lia. cbn [Z.gtb Z.compare]. rewrite SEC_TO_NS_eq. ck. done.
  - rewrite quot_small by lia. cbn [Z.gtb Z.compare].
    rewrite (proj2 (Z.ltb_ge n 0)) by lia. done.
  - rewrite quot_small by lia. cbn [Z.gtb Z.compare].
    rewrite (proj2 (Z.ltb_lt n 0)) by lia. change (- 0 + 1) with 1.
    destruct (Z.eqb_spec s 0); cbn [Z.eqb Pos.eqb negb orb]; [done|].
    change (SEC_TO_NS 1) with NSEC. by ck.
  - rewrite quot_minus_one by lia. cbn [Z.gtb Z.compare].
    rewrite (proj2 (Z.ltb_lt n 0)) by lia. change (- -1 + 1) with 2.
    cbn [Z.eqb Pos.eqb negb orb]. change (SEC_TO_NS 2) with (2 * NSEC). by ck.
Qed.

(** The sign that the operations return. *)
Lemma fix_sign t :
  canonical t ->
  (if (tv_sec t <? 0) || (tv_nsec t <? 0) then -1
   else if (tv_sec t =? 0) && (tv_nsec t =? 0) then 0 else 1) = Z.sgn (ns_of t).
Proof.
  unfold canonical, ns_of, NSEC. destruct t as [s n]; cbn. intros H.
  destruct (Z.ltb_spec s 0), (Z.ltb_spec n 0), (Z.eqb_spec s 0), (Z.eqb_spec n 0); cbn; lia.
Qed.

Lemma ns_of_pos s n : 0 <= s -> ns_of (mk_ts s n) = s * NSEC + n.
Proof. intros. unfold ns_of; cbn. by rewrite (proj2 (Z.ltb_ge s 0)). Qed.

Lemma ns_of_neg s n : s < 0 -> ns_of (mk_ts s n) = s * NSEC - n.
Proof. intros. unfold ns_of; cbn. by rewrite (proj2 (Z.ltb_lt s 0)). Qed.

Lemma ns_of_cases s n :
  (0 <= s /\ ns_of (mk_ts s n) = s * NSEC + n) \/ (s < 0 /\ ns_of (mk_ts s n) = s * NSEC - n).
Proof. destruct (Z.ltb_spec s 0); [right; by rewrite ns_of_neg|left; by rewrite ns_of_pos]. Qed.

(** On a sum below a second [sancus_time_fix] only borrows. *)
Lemma fix_between s n :
  - 2 ^ 63 + 2 <= s <= 2 ^ 63 - 2 -> - NSEC < n < NSEC ->
  let t := if (0 <=? n) || (s =? 0) then mk_ts s n else mk_ts (s - 1) (n + NSEC) in
  sancus_time_fix (mk_ts s n) = Ret (t, Z.sgn (ns_of t)) /\ canonical t.
Proof.
  intros Hs Hn t.
  assert (Ht : canonical t).
  { subst t. unfold canonical.
    destruct (Z.leb_spec 0 n), (Z.eqb_spec s 0); cbn [orb tv_sec tv_nsec]; lia. }
  split; [|done]. rewrite <- (fix_sign t Ht), fix_small by (unfold NSEC in *; lia). cbn zeta.
  rewrite (proj2 (Z.leb_gt NSEC n)), (proj2 (Z.ltb_lt (- NSEC) n)) by lia.
  subst t. by destruct (0 <=? n), (s =? 0).
Qed.

(** A non-negative canonical duration: what clocks return. *)
Definition nonneg (t : timespec) : Prop := 0 <= tv_sec t /\ 0 <= tv_nsec t < NSEC.

(** Case analysis on the comparisons in a goal about [ns_of]. *)
Ltac ts_cases :=
  unfold ns_of, canonical, NSEC in *; cbn [tv_sec tv_nsec fst snd] in *;
  repeat match goal with
  | |- context [?a <? ?b] => destruct (Z.ltb_spec a b)
  | |- context [?a <=? ?b] => destruct (Z.leb_spec a b)
  | |- context [?a =? ?b] => destruct (Z.eqb_spec a b)
  | H : context [?a <? ?b] |- _ => destruct (Z.ltb_spec a b)
  end; cbn [tv_sec tv_nsec] in *; try lia.

(** Two durations with [tv_sec >= 0]: the plain branch of [time_add]. *)
Lemma time_add_same_sign a b :
  canonical a -> canonical b -> 0 <= tv_sec a < 2 ^ 62 -> 0 <= tv_sec b < 2 ^ 62 ->
  time_add a b = sancus_time_fix (mk_ts (tv_sec a + tv_sec b) (tv_nsec a + tv_nsec b)).
Proof.
  intros Ha Hb Hsa Hsb. unfold time_add.
  rewrite !(proj2 (Z.ltb_ge _ 0)) by lia. cbn [xorb].
  unfold canonical in *. by ck.
Qed.

(** A non-negative duration plus one below minus a second. *)
Lemma time_add_mixed sa na sb nb :
  0 <= sa < 2 ^ 62 -> 0 <= na < NSEC -> 0 < sb < 2 ^ 62 -> 0 <= nb < NSEC ->
  time_add (mk_ts sa na) (mk_ts (- sb) nb) =
    let n := na - nb in
    sancus_time_fix
      (if 0 <=? n then mk_ts (sa - sb) n
       else if sa - sb =? -1 then mk_ts 0 (- (n + NSEC))
       else if 1 <=? sa - sb then mk_ts (sa - sb - 1) (n + NSEC)
       else mk_ts (sa - sb + 1) (n + NSEC)).
Proof.
  intros Hsa Hna Hsb Hnb. unfold time_add. cbn [tv_sec tv_nsec].
  rewrite (proj2 (Z.ltb_ge sa 0)), (proj2 (Z.ltb_lt (- sb) 0)) by lia. cbn [xorb].
  ck. rewrite Z.add_opp_r. destruct (Z.leb_spec 0 (na - nb)).
  - rewrite (proj2 (Z.ltb_ge (na - nb) 0)) by lia. done.
  - rewrite (proj2 (Z.ltb_lt (na - nb) 0)) by lia.
    rewrite !SEC_TO_NS_eq, Z.mul_1_l, quot_small, Z.sub_0_r, Z.mul_1_l by lia. ck.
    rewrite Z.geb_leb. change (- (1)) with (-1).
    destruct (Z.eqb_spec (sa - sb) (-1)), (Z.leb_spec 1 (sa - sb)); run; do 2 f_equal; lia.
Qed.

Lemma neg_nonneg b :
  nonneg b -> tv_sec b < 2 ^ 62 ->
  sancus_time_neg b =
    Ret (if tv_sec b =? 0 then mk_ts 0 (- tv_nsec b) else mk_ts (- tv_sec b) (tv_nsec b)).
Proof.
  intros [Hs Hn] Hb. unfold sancus_time_neg. destruct (Z.eqb_spec (tv_sec b) 0) as [->|]; by ck.
Qed.

(** ** Properties *)

(** C23. Adding two canonical durations with [tv_sec >= 0] (so also those
    between minus one second and zero) returns the canonical form of their
    exact sum and its sign, without overflow, if and only if the sum is above
    minus one second.  In particular the sum of two non-negative durations is
    always right, while two negative fractions of a second whose sum reaches a
    second are not. *)
Theorem time_add_exact a b :
  canonical a -> canonical b -> 0 <= tv_sec a < 2 ^ 62 -> 0 <= tv_sec b < 2 ^ 62 ->
  exists r c, sancus_time_add a b = Ret (r, c) /\
    (ns_of r = ns_of a + ns_of b <-> - NSEC < ns_of a + ns_of b) /\
    (- NSEC < ns_of a + ns_of b -> canonical r /\ c = Z.sgn (ns_of a + ns_of b)).
Proof.
  intros Ha Hb Hsa Hsb. unfold sancus_time_add. rewrite time_add_same_sign by done.
  rewrite fix_small by (unfold canonical, NSEC in *; bounds). cbn zeta.
  eexists _, _. split; [done|]. split.
  - destruct a as [sa na], b as [sb nb]. ts_cases.
  - intros Hsum. set (t := if NSEC <=? _ then _ else _).
    assert (Ht : canonical t /\ ns_of t = ns_of a + ns_of b).
    { destruct a as [sa na], b as [sb nb]. subst t. ts_cases. }
    destruct Ht as [Hc <-]. split; [done|]. by apply fix_sign.
Qed.

Lemma time_add_exact_witness :
  exists r c, sancus_time_add (T 1 800) (T 2 300) = Ret (r, c) /\
    (ns_of r = ns_of (T 1 800) + ns_of (T 2 300) <-> - NSEC < ns_of (T 1 800) + ns_of (T 2 300)) /\
    (- NSEC < ns_of (T 1 800) + ns_of (T 2 300) ->
     canonical r /\ c = Z.sgn (ns_of (T 1 800) + ns_of (T 2 300))).
Proof.
  apply (time_add_exact (T 1 800) (T 2 300)).
  - apply (bool_decide_unpack _); vm_compute; exact I.
  - apply (bool_decide_unpack _); vm_compute; exact I.
  - split; [vm_compute; discriminate|reflexivity].
  - split; [vm_compute; discriminate|reflexivity].
Defined.

Lemma time_sub_spec a b :
  nonneg a -> nonneg b -> tv_sec a < 2 ^ 62 -> tv_sec b < 2 ^ 62 ->
  exists r c, sancus_time_sub a b = Ret (r, c) /\
    (ns_of r = ns_of a - ns_of b <->
     ns_of b <= ns_of a \/ tv_sec b = 0 \/ tv_nsec a = tv_nsec b) /\
    (ns_of b <= ns_of a -> nonneg r /\ c = Z.sgn (ns_of a - ns_of b)).
Proof.
  intros Ha Hb Hsa Hsb. unfold sancus_time_sub. rewrite neg_nonneg by done.
  destruct a as [sa na], b as [sb nb]. unfold nonneg in *. cbn [tv_sec tv_nsec] in *.
  run. destruct (Z.eqb_spec sb 0) as [->|Hsb0].
  - rewrite time_add_same_sign by (unfold canonical; cbn; lia). cbn [tv_sec tv_nsec].
    rewrite fix_small by (unfold NSEC in *; bounds). cbn zeta. eexists _, _. split; [done|].
    split; [ts_cases|]. intros Hle. ts_cases; cbn; split; try lia.
  - rewrite time_add_mixed by lia. cbn zeta. rewrite !ns_of_pos by lia.
    destruct (Z.leb_spec 0 (na - nb)); [|destruct (Z.eqb_spec (sa - sb) (-1));
      [|destruct (Z.leb_spec 1 (sa - sb))]];
    match goal with |- context [sancus_time_fix (mk_ts ?s ?n)] =>
      destruct (fix_between s n) as [-> _]; [bounds|lia|];
      rewrite ?(proj2 (Z.leb_le 0 n)), ?(proj2 (Z.leb_gt 0 n)) by lia; cbn [orb];
      eexists _, _; split; [done|];
      destruct (ns_of_cases s n) as [[? Hv]|[? Hv]]; cbn [Z.eqb];
      rewrite Hv; cbn [tv_sec tv_nsec]; unfold NSEC in *; lia
    end.
Qed.

(** C24. Subtracting two non-negative canonical durations never overflows, and
    it gives the exact difference if and only if the subtrahend is not the
    longer one, or is shorter than a second, or has the same nanosecond part:
    [1.001s - 1.002s] is [+1.999s]. *)
Theorem time_sub_exact a b :
  nonneg a -> nonneg b -> tv_sec a < 2 ^ 62 -> tv_sec b < 2 ^ 62 ->
  exists r c, sancus_time_sub a b = Ret (r, c) /\
    (ns_of r = ns_of a - ns_of b <->
     ns_of b <= ns_of a \/ tv_sec b = 0 \/ tv_nsec a = tv_nsec b) /\
    (ns_of b <= ns_of a -> nonneg r /\ c = Z.sgn (ns_of a - ns_of b)).
Proof. apply time_sub_spec. Qed.

Lemma time_sub_exact_witness :
  exists r c, sancus_time_sub (T 5 100) (T 3 900) = Ret (r, c) /\
    (ns_of r = ns_of (T 5 100) - ns_of (T 3 900) <->
     ns_of (T 3 900) <= ns_of (T 5 100) \/ tv_sec (T 3 900) = 0 \/
     tv_nsec (T 5 100) = tv_nsec (T 3 900)) /\
    (ns_of (T 3 900) <= ns_of (T 5 100) ->
     nonneg r /\ c = Z.sgn (ns_of (T 5 100) - ns_of (T 3 900))).
Proof.
  apply (time_sub_exact (T 5 100) (T 3 900)); try reflexivity;
    vm_compute; intuition discriminate.
Defined.

Example sub_same_second_wrong : sancus_time_sub2 (T 1 1) (T 1 2) = Ret (T 1 999).
Proof. vm_compute. reflexivity. Qed.

(** The three-way comparison of durations whose seconds fit an [int] apart. *)
Lemma cmp_sign a b :
  canonical a -> canonical b -> moderate a -> moderate b ->
  - 2 ^ 31 <= tv_sec a - tv_sec b < 2 ^ 31 ->
  exists c, sancus_time_cmp a b = Ret c /\ Z.sgn c = Z.sgn (ns_of a - ns_of b).
Proof.
  destruct a as [sa na], b as [sb nb]. unfold canonical, moderate; cbn [tv_sec tv_nsec].
  intros Ha Hb Hma Hmb Hd. unfold sancus_time_cmp; cbn [tv_sec tv_nsec]. ck.
  assert (Hz : forall k, - 2 ^ 31 <= k < 2 ^ 31 -> s32 k = k) by (intros; by apply swrap_id).
  destruct (Z.eqb_spec (sa - sb) 0).
  - replace sb with sa in * by lia.
    destruct (Z.ltb_spec sa 0); ck; rewrite Hz by (unfold NSEC in *; bounds);
      eexists; (split; [done|]); rewrite ?ns_of_neg, ?ns_of_pos by lia; f_equal; lia.
  - run. rewrite Hz by done. eexists; split; [done|].
    destruct (ns_of_cases sa na) as [[? ->]|[? ->]], (ns_of_cases sb nb) as [[? ->]|[? ->]];
      unfold NSEC in *; lia.
Qed.

(** [sancus_time_cmp], and with it [is_lt] and [is_gt], orders canonical
    durations by their value as long as their seconds are less than [2^31]
    apart.  Beyond that the [long] difference is cut to an [int]: durations
    [2^32] seconds apart compare as equal. *)
Theorem time_cmp_orders :
  (forall a b, canonical a -> canonical b -> moderate a -> moderate b ->
    - 2 ^ 31 <= tv_sec a - tv_sec b < 2 ^ 31 ->
    sancus_time_is_lt a b = Ret (bool_decide (ns_of a < ns_of b)) /\
    sancus_time_is_gt a b = Ret (bool_decide (ns_of b < ns_of a))) /\
  (forall s n, - 2 ^ 61 < s < 2 ^ 61 -> sancus_time_cmp (mk_ts (s + 2 ^ 32) n) (mk_ts s n) = Ret 0).
Proof.
  split.
  - intros a b Ha Hb Hma Hmb Hd. destruct (cmp_sign a b) as (c & Hc & Hs); try done.
    unfold sancus_time_is_lt, sancus_time_is_gt. rewrite Hc. run.
    split; f_equal; case_bool_decide; rewrite ?Z.gtb_ltb;
      [apply Z.ltb_lt|apply Z.ltb_ge|apply Z.ltb_lt|apply Z.ltb_ge]; lia.
  - intros s n Hs. unfold sancus_time_cmp; cbn [tv_sec tv_nsec]. ck.
    by replace (s + 2 ^ 32 - s) with (2 ^ 32) by lia.
Qed.

(** For non-negative canonical times less than [2^31] seconds apart,
    [sancus_time_elapsed] is the time passed since [since] and
    [sancus_time_left] the time to go until [until], each a canonical
    duration, zero when there is none. *)
Theorem elapsed_left_exact now t :
  nonneg now -> nonneg t -> moderate now -> moderate t ->
  - 2 ^ 31 < tv_sec now - tv_sec t < 2 ^ 31 ->
  exists e l,
    sancus_time_elapsed now t = Ret e /\ nonneg e /\ ns_of e = Z.max 0 (ns_of now - ns_of t) /\
    sancus_time_left now t = Ret l /\ nonneg l /\ ns_of l = Z.max 0 (ns_of t - ns_of now).
Proof.
  assert (H : forall a b, nonneg a -> nonneg b -> moderate a -> moderate b ->
    - 2 ^ 31 < tv_sec a - tv_sec b < 2 ^ 31 ->
    exists e, sancus_time_elapsed a b = Ret e /\ nonneg e /\
              ns_of e = Z.max 0 (ns_of a - ns_of b)).
  { intros a b Ha Hb Hma Hmb Hd. pose proof (proj2 Ha). pose proof (proj2 Hb).
    destruct (cmp_sign a b) as (c & Hc & Hs); try done; [by left|by left|lia|].
    unfold sancus_time_elapsed, sancus_time_is_gt. rewrite Hc. run.
    destruct (Z.gtb_spec c 0) as [Hgt|Hle].
    - destruct (time_sub_spec a b) as (r & s & Hr & Hv & Hnn); try done; [apply Hma|apply Hmb|].
      exists r. unfold sancus_time_sub2. unfold sancus_time_sub in Hr.
      inv_bind Hr. rewrite Hb0. run. rewrite Hr. run. split; [done|].
      split; [apply Hnn; lia|]. rewrite (proj2 Hv) by (left; lia). lia.
    - exists (TIMESPEC_INIT 0 0). split; [done|]. split; [done|]. cbn. lia. }
  intros Hn Ht Hmn Hmt Hd.
  destruct (H now t) as (e & ? & ? & ?); try done.
  destruct (H t now) as (l & ? & ? & ?); try done; [lia|].
  by exists e, l.
Qed.

Lemma elapsed_left_exact_witness :
  exists e l,
    sancus_time_elapsed (T 7 250) (T 5 900) = Ret e /\ nonneg e /\
      ns_of e = Z.max 0 (ns_of (T 7 250) - ns_of (T 5 900)) /\
    sancus_time_left (T 7 250) (T 5 900) = Ret l /\ nonneg l /\
      ns_of l = Z.max 0 (ns_of (T 5 900) - ns_of (T 7 250)).
Proof.
  apply (elapsed_left_exact (T 7 250) (T 5 900)); vm_compute; intuition discriminate.
Defined.

(** [NS_TO_MS_ROUNDED] on a fraction of a second. *)
Lemma ms_rounded n :
  - NSEC < n < NSEC -> NS_TO_MS_ROUNDED n = Ret ((n + 500000) ÷ 1000000).
Proof.
  intros Hn. unfold NS_TO_MS_ROUNDED. change (MS_TO_NS 1) with 1000000.
  change (1000000 ÷ 2) with 500000. by ck.
Qed.

(** [sancus_time_ts_to_ms] where it does not saturate. *)
Lemma ts_to_ms_mid s n :
  Z.abs s < 9223372036854775 -> - NSEC < n < NSEC ->
  sancus_time_ts_to_ms (mk_ts s n) =
    Ret (if s <? 0 then s * 1000 - (n + 500000) ÷ 1000000
         else s * 1000 + (n + 500000) ÷ 1000000).
Proof.
  intros Hs Hn. unfold sancus_time_ts_to_ms. cbn [tv_sec tv_nsec].
  change (LONG_MIN ÷ SEC_TO_MS 1) with (-9223372036854775).
  change (LONG_MAX ÷ SEC_TO_MS 1) with 9223372036854775.
  rewrite Z.geb_leb, (proj2 (Z.leb_gt s _)), (proj2 (Z.leb_gt _ s)) by lia.
  rewrite ms_rounded by lia. unfold SEC_TO_MS.
  destruct (Z.ltb_spec s 0); ck; f_equal; lia.
Qed.

(** [sancus_time_ts_to_ms] never overflows on a duration whose nanoseconds
    are in [0, 1s): it saturates at the ends of [long] when the seconds are at
    least [LONG_MAX / 1000] (or at most [LONG_MIN / 1000]), and otherwise it is
    the value rounded to the nearest millisecond, halves away from zero. *)
Theorem ts_to_ms_rounds t :
  LONG_MIN <= tv_sec t <= LONG_MAX -> 0 <= tv_nsec t < NSEC ->
  exists ms, sancus_time_ts_to_ms t = Ret ms /\
    (LONG_MAX / 1000 <= tv_sec t -> ms = LONG_MAX) /\
    (tv_sec t <= - (LONG_MAX / 1000) -> ms = LONG_MIN) /\
    (Z.abs (tv_sec t) < LONG_MAX / 1000 ->
     2 * Z.abs (ms * 1000000 - ns_of t) <= 1000000 /\
     (2 * Z.abs (ms * 1000000 - ns_of t) = 1000000 -> Z.abs (ns_of t) <= Z.abs (ms * 1000000))).
Proof.
  destruct t as [s n]; cbn [tv_sec tv_nsec]. intros Hs Hn.
  change (LONG_MAX / 1000) with 9223372036854775.
  destruct (Z.ltb_spec (Z.abs s) 9223372036854775).
  - rewrite ts_to_ms_mid by lia. eexists; split; [done|]. split_and!; [lia..|]. intros _.
    destruct (Z.ltb_spec s 0); rewrite ?ns_of_neg, ?ns_of_pos by lia; unfold NSEC in *;
      Z.to_euclidean_division_equations; lia.
  - unfold sancus_time_ts_to_ms. cbn [tv_sec tv_nsec].
    change (LONG_MIN ÷ SEC_TO_MS 1) with (-9223372036854775).
    change (LONG_MAX ÷ SEC_TO_MS 1) with 9223372036854775. rewrite Z.geb_leb.
    destruct (Z.leb_spec s (-9223372036854775)), (Z.leb_spec 9223372036854775 s);
      try lia; (eexists; split; [done|]; split_and!; [done || lia|done || lia|lia]).
Qed.

Lemma ts_to_ms_rounds_witness :
  exists ms, sancus_time_ts_to_ms (mk_ts (-3) 1500000) = Ret ms /\
    (LONG_MAX / 1000 <= tv_sec (mk_ts (-3) 1500000) -> ms = LONG_MAX) /\
    (tv_sec (mk_ts (-3) 1500000) <= - (LONG_MAX / 1000) -> ms = LONG_MIN) /\
    (Z.abs (tv_sec (mk_ts (-3) 1500000)) < LONG_MAX / 1000 ->
     2 * Z.abs (ms * 1000000 - ns_of (mk_ts (-3) 1500000)) <= 1000000 /\
     (2 * Z.abs (ms * 1000000 - ns_of (mk_ts (-3) 1500000)) = 1000000 ->
      Z.abs (ns_of (mk_ts (-3) 1500000)) <= Z.abs (ms * 1000000))).
Proof.
  apply (ts_to_ms_rounds (mk_ts (-3) 1500000)); vm_compute; split; discriminate || reflexivity.
Defined.

(** [sancus_time_new_ms] of a number that is not negative. *)
Lemma new_ms_nonneg ms :
  0 <= ms <= 9223372036854 ->
  sancus_time_new_ms ms = Ret (mk_ts (ms / 1000) (ms mod 1000 * 1000000)).
Proof.
  intros Hms. unfold sancus_time_new_ms, TIMESPEC_INIT_MS, TIMESPEC_INIT. rewrite MS_TO_NS_eq. ck.
  unfold sancus_time_fix. cbn [tv_sec tv_nsec]. rewrite !SEC_TO_NS_eq.
  replace ((ms * 1000000) ÷ (1 * NSEC)) with (ms / 1000)
    by (unfold NSEC; Z.to_euclidean_division_equations; lia).
  destruct (Z.gtb_spec (ms / 1000) 0).
  - ck. do 2 f_equal. unfold NSEC. Z.to_euclidean_division_equations; lia.
  - rewrite (proj2 (Z.ltb_ge _ 0)) by lia. run.
    do 2 f_equal; Z.to_euclidean_division_equations; lia.
Qed.

(** Milliseconds survive the way through [sancus_time_new_ms] and back when
    they are not negative; between minus one second and zero they come back
    one millisecond too long, and minus one second comes back as minus three. *)
Theorem ms_roundtrip :
  (forall ms, 0 <= ms <= LONG_MAX / 1000000 ->
     exists t, sancus_time_new_ms ms = Ret t /\ nonneg t /\ sancus_time_ts_to_ms t = Ret ms) /\
  (forall ms, -1000 < ms < 0 ->
     exists t, sancus_time_new_ms ms = Ret t /\ sancus_time_ts_to_ms t = Ret (ms + 1)) /\
  (exists t, sancus_time_new_ms (-1000) = Ret t /\ sancus_time_ts_to_ms t = Ret (-3000)).
Proof.
  split_and!.
  - change (LONG_MAX / 1000000) with 9223372036854. intros ms Hms.
    rewrite new_ms_nonneg by lia. eexists. split; [done|].
    assert (0 <= ms / 1000 <= 9223372036 /\ 0 <= ms mod 1000 * 1000000 < NSEC)
      by (unfold NSEC; Z.to_euclidean_division_equations; lia).
    split; [unfold nonneg; cbn; lia|].
    rewrite ts_to_ms_mid, (proj2 (Z.ltb_ge (ms / 1000) 0)) by lia.
    f_equal. Z.to_euclidean_division_equations; lia.
  - intros ms Hms. unfold sancus_time_new_ms, TIMESPEC_INIT_MS, TIMESPEC_INIT.
    rewrite MS_TO_NS_eq. ck. rewrite fix_small by (unfold NSEC; bounds). cbn zeta.
    rewrite (proj2 (Z.leb_gt NSEC _)), (proj2 (Z.leb_gt 0 _)), (proj2 (Z.ltb_lt (- NSEC) _))
      by (unfold NSEC; lia).
    cbn [Z.eqb]. run. eexists. split; [done|]. rewrite ts_to_ms_mid by (unfold NSEC; lia).
    cbn [Z.ltb Z.compare]. f_equal. Z.to_euclidean_division_equations; lia.
  - exists (mk_ts (-2) 1000000000). split; vm_compute; reflexivity.
Qed.

(** [sancus_time_fix] on non-negative seconds and any nanoseconds whose sum
    is not negative gives the canonical form of that sum, except that negative
    nanoseconds that are whole seconds come out as [tv_nsec = 1000000000].  On
    negative seconds it carries the wrong way: one second too many nanoseconds
    makes the result two seconds too large. *)
Theorem time_fix_exact :
  (forall s n, 0 <= s < 2 ^ 62 -> - 2 ^ 62 < n < 2 ^ 62 -> 0 <= s * NSEC + n ->
     exists r c, sancus_time_fix (mk_ts s n) = Ret (r, c) /\
       (canonical r /\ ns_of r = s * NSEC + n <-> 0 <= n \/ n mod NSEC <> 0) /\
       (n < 0 -> n mod NSEC = 0 -> tv_nsec r = NSEC)) /\
  (forall s n, - 2 ^ 62 < s < -1 -> NSEC <= n < 2 * NSEC ->
     exists r c, sancus_time_fix (mk_ts s n) = Ret (r, c) /\
       ns_of r = ns_of (mk_ts s n) + 2 * NSEC).
Proof.
  split.
  - intros s n Hs Hn Hv.
    assert (Hfix : exists r c, sancus_time_fix (mk_ts s n) = Ret (r, c) /\
      r = if 0 <=? n then mk_ts (s + n ÷ NSEC) (n - n ÷ NSEC * NSEC)
          else if s =? 0 then mk_ts s n
          else mk_ts (s - (1 - n ÷ NSEC)) (n + (1 - n ÷ NSEC) * NSEC)).
    { unfold sancus_time_fix. rewrite !SEC_TO_NS_eq, Z.mul_1_l. cbn [tv_sec tv_nsec].
      destruct (Z.leb_spec 0 n).
      - destruct (Z.gtb_spec (n ÷ NSEC) 0).
        + ck. by eexists _, _.
        + rewrite (proj2 (Z.ltb_ge n 0)) by lia. run. eexists _, _. split; [done|].
          f_equal; unfold NSEC in *; Z.to_euclidean_division_equations; lia.
      - rewrite Z.gtb_ltb, (proj2 (Z.ltb_ge 0 (n ÷ NSEC)))
          by (unfold NSEC; Z.to_euclidean_division_equations; lia).
        rewrite (proj2 (Z.ltb_lt n 0)), (proj2 (Z.eqb_neq s 0)) by (unfold NSEC in *; lia).
        rewrite orb_true_r. replace (- (n ÷ NSEC) + 1) with (1 - n ÷ NSEC) by lia.
        ck. by eexists _, _. }
    destruct Hfix as (r & c & -> & ->). exists (if 0 <=? n then mk_ts (s + n ÷ NSEC) (n - n ÷ NSEC * NSEC)
          else if s =? 0 then mk_ts s n
          else mk_ts (s - (1 - n ÷ NSEC)) (n + (1 - n ÷ NSEC) * NSEC)), c. split; [done|].
    destruct (Z.leb_spec 0 n).
    + assert (0 <= n ÷ NSEC) by (unfold NSEC; Z.to_euclidean_division_equations; lia).
      rewrite ns_of_pos by lia. split; [|lia]. split; [by left|]. intros _. split; [left|]; cbn;
        unfold NSEC; Z.to_euclidean_division_equations; lia.
    + rewrite (proj2 (Z.eqb_neq s 0)) by (unfold NSEC in *; lia).
      unfold canonical. cbn [tv_sec tv_nsec].
      destruct (ns_of_cases (s - (1 - n ÷ NSEC)) (n + (1 - n ÷ NSEC) * NSEC)) as [[? ->]|[? ->]];
        unfold NSEC in *; Z.to_euclidean_division_equations; lia.
  - intros s n Hs Hn. rewrite fix_small by (unfold NSEC in *; bounds). cbn zeta.
    rewrite (proj2 (Z.leb_le NSEC n)) by lia. eexists _, _. split; [done|].
    rewrite !ns_of_neg by lia. lia.
Qed.

(** [sancus_time_is_gt_zero] rejects every whole number of seconds and
    every duration below a second: on non-negative canonical durations it
    differs from [0 < t] exactly there. *)
Theorem is_gt_zero_exact t :
  nonneg t ->
  sancus_time_is_gt_zero t = bool_decide (0 < ns_of t) <->
  (0 < tv_sec t /\ 0 < tv_nsec t) \/ (tv_sec t = 0 /\ tv_nsec t = 0).
Proof.
  destruct t as [s n]. unfold nonneg; cbn [tv_sec tv_nsec]. intros [Hs Hn].
  rewrite ns_of_pos by lia. unfold sancus_time_is_gt_zero; cbn [tv_sec tv_nsec].
  case_bool_decide as H; unfold NSEC in *;
    destruct (Z.gtb_spec s 0), (Z.gtb_spec n 0); cbn; split; intros; try done; try lia.
Qed.

Lemma is_gt_zero_exact_witness :
  sancus_time_is_gt_zero (T 1 0) = bool_decide (0 < ns_of (T 1 0)) <->
  (0 < tv_sec (T 1 0) /\ 0 < tv_nsec (T 1 0)) \/ (tv_sec (T 1 0) = 0 /\ tv_nsec (T 1 0) = 0).
Proof. apply (is_gt_zero_exact (T 1 0)). vm_compute. intuition discriminate. Defined.
