(* ===== verification/Double.v ===== *)
(** * Double

    The C type [double] as the sources use it: IEEE 754 binary64 with the
    default rounding to nearest even, by the Standard Library's executable
    specification of floating point.  The second half is the accuracy of the
    operations: within the normal range each returns its exact result, if that
    has 53 bits, and otherwise something within a relative error of [2^-53]. *)

From Stdlib Require Import SpecFloat QArith Qpower Lqa.
From S2P Require Import Prelude.
#[local] Open Scope Z_scope.

(** ** The operations *)

Abbreviation double := spec_float.

Definition d_add : double -> double -> double := SFadd 53 1024.
Definition d_sub : double -> double -> double := SFsub 53 1024.
Definition d_mul : double -> double -> double := SFmul 53 1024.
Definition d_div : double -> double -> double := SFdiv 53 1024.
Definition d_opp : double -> double := SFopp.
Definition d_lt : double -> double -> bool := SFltb.

(** An integer as a [double]: the cast, and the constants [1000.] and the like. *)
Definition d_of_Z (z : Z) : double := binary_normalize 53 1024 z 0 false.

(** The constant [.5]. *)
Definition d_half : double := S754_finite false 4503599627370496 (-53).

(** What is in front of the point. *)
Definition d_trunc (x : double) : option Z :=
  match x with
  | S754_zero _ => Some 0
  | S754_finite s m e => Some (cond_Zopp s (Z.shiftl (Zpos m) e))
  | S754_infinity _ | S754_nan => None
  end.

(** The cast to [long], undefined where the value does not fit. *)
Definition d_to_long (x : double) : outcome Z := z ← deref (d_trunc x); ck_s64 z.

(** ** Powers of two as rational numbers *)

Definition p2 (e : Z) : Q := Qpower (2 # 1) e.

Lemma two_neq_0 : ~ (2 # 1 == 0)%Q.
Proof. discriminate. Qed.

Lemma p2_add a b : (p2 (a + b) == p2 a * p2 b)%Q.
Proof. apply Qpower_plus, two_neq_0. Qed.

Lemma p2_pos e : (0 < p2 e)%Q.
Proof. by apply Qpower_0_lt. Qed.

Lemma p2_Z e : 0 <= e -> (p2 e == inject_Z (2 ^ e))%Q.
Proof. intros He. unfold p2. by rewrite Zpower_Qpower. Qed.

Lemma p2_half e : (p2 (e - 1) == p2 e * (1 # 2))%Q.
Proof. unfold Z.sub. rewrite p2_add. reflexivity. Qed.

Lemma p2_inv e : (p2 e * p2 (- e) == 1)%Q.
Proof. rewrite <- p2_add. by replace (e + - e) with 0 by lia. Qed.

Lemma p2_le a b : a <= b -> (p2 a <= p2 b)%Q.
Proof.
  intros H. replace b with (a + (b - a)) by lia. rewrite p2_add, (p2_Z (b - a)) by lia.
  pose proof (p2_pos a). assert (1 <= inject_Z (2 ^ (b - a)))%Q.
  { change 1%Q with (inject_Z 1). rewrite <- Zle_Qle. pose proof (pow2_pos (b - a)). lia. }
  nra.
Qed.

Lemma inj_le a b : (inject_Z a <= inject_Z b)%Q <-> a <= b.
Proof. by rewrite Zle_Qle. Qed.
Lemma inj_lt a b : (inject_Z a < inject_Z b)%Q <-> a < b.
Proof. by rewrite Zlt_Qlt. Qed.
Lemma inj_S a : (inject_Z (a + 1) == inject_Z a + 1)%Q.
Proof. by rewrite inject_Z_plus. Qed.

(** ** Shifting with a rounding location *)

(** The record stands for its integer and a fraction: none, below, at or above
    one half. *)
Definition located (r : shr_record) (q : Q) : Prop :=
  (match shr_r r, shr_s r with
   | false, false => q == inject_Z (shr_m r)
   | false, true => inject_Z (shr_m r) < q /\ q < inject_Z (shr_m r) + (1 # 2)
   | true, false => q == inject_Z (shr_m r) + (1 # 2)
   | true, true => inject_Z (shr_m r) + (1 # 2) < q /\ q < inject_Z (shr_m r) + 1
   end)%Q.

Lemma located_proper r q q' : (q == q')%Q -> located r q -> located r q'.
Proof. unfold located. intros E. destruct (shr_r r), (shr_s r); lra. Qed.

Lemma located_floor r q :
  located r q -> (inject_Z (shr_m r) <= q /\ q < inject_Z (shr_m r) + 1)%Q.
Proof. unfold located. destruct (shr_r r), (shr_s r); lra. Qed.

Lemma shr_1_located r q :
  0 <= shr_m r -> located r q -> located (shr_1 r) (q * (1 # 2))%Q /\ 0 <= shr_m (shr_1 r).
Proof.
  destruct r as [m r s]. cbn [shr_m]. intros Hm.
  assert (Hx : forall p, (inject_Z (Zpos p~0) == 2 * inject_Z (Zpos p))%Q)
    by (intros; change (Zpos p~0) with (2 * Zpos p); by rewrite inject_Z_mult).
  assert (Hy : forall p, (inject_Z (Zpos p~1) == 2 * inject_Z (Zpos p) + 1)%Q)
    by (intros; change (Zpos p~1) with (2 * Zpos p + 1); by rewrite inj_S, inject_Z_mult).
  change (inject_Z 0) with 0%Q.
  destruct m as [|[p|p|]|p]; [| | | |lia]; destruct r, s; unfold located; cbn [shr_1 shr_m shr_r shr_s orb];
    rewrite ?Hx, ?Hy; change (inject_Z 0) with 0%Q; change (inject_Z 1) with 1%Q;
    intros; (split; [lra|lia]).
Qed.

Lemma iter_shr_located p r q :
  0 <= shr_m r -> located r q ->
  located (SpecFloat.iter_pos shr_1 p r) (q * p2 (- Zpos p))%Q /\ 0 <= shr_m (SpecFloat.iter_pos shr_1 p r).
Proof.
  revert r q. induction p as [p IH|p IH|]; intros r q Hm Hq; cbn [SpecFloat.iter_pos].
  - destruct (shr_1_located r q Hm Hq) as [Hq1 Hm1].
    destruct (IH _ _ Hm1 Hq1) as [Hq2 Hm2]. destruct (IH _ _ Hm2 Hq2) as [Hq3 Hm3].
    split; [|done]. eapply located_proper, Hq3.
    replace (- Zpos p~1) with (- Zpos p + - Zpos p - 1) by lia. rewrite p2_half, p2_add. ring.
  - destruct (IH _ _ Hm Hq) as [Hq2 Hm2]. destruct (IH _ _ Hm2 Hq2) as [Hq3 Hm3].
    split; [|done]. eapply located_proper, Hq3.
    replace (- Zpos p~0) with (- Zpos p + - Zpos p) by lia. rewrite p2_add. ring.
  - by apply shr_1_located.
Qed.

Lemma shr_located r q e n :
  0 <= n -> 0 <= shr_m r -> located r q ->
  exists r', shr r e n = (r', e + n) /\ located r' (q * p2 (- n))%Q /\ 0 <= shr_m r'.
Proof.
  intros Hn Hm Hq. destruct n as [|p|p]; [| |lia]; cbn [shr].
  - exists r. rewrite Z.add_0_r. split; [done|]. split; [|done].
    eapply located_proper, Hq. change (p2 (- 0)) with 1%Q. ring.
  - destruct (iter_shr_located p r q Hm Hq). by eexists.
Qed.

Lemma round_half r q :
  located r q ->
  let n := round_nearest_even (shr_m r) (loc_of_shr_record r) in
  (- (1 # 2) <= inject_Z n - q <= 1 # 2)%Q /\ shr_m r <= n <= shr_m r + 1.
Proof.
  destruct r as [m [] []]; unfold located;
    cbn [shr_m shr_r shr_s loc_of_shr_record round_nearest_even];
    [| destruct (Z.even m)| |]; intros; rewrite ?inj_S; (split; [lra|lia]).
Qed.

(** The number of binary digits. *)
Lemma digits_bounds p :
  2 ^ (Zpos (digits2_pos p) - 1) <= Zpos p < 2 ^ Zpos (digits2_pos p).
Proof.
  induction p as [p IH|p IH|]; cbn [digits2_pos]; rewrite ?Pos2Z.inj_succ;
    [| |done];
    replace (Z.succ (Zpos (digits2_pos p)) - 1) with (Zpos (digits2_pos p) - 1 + 1) by lia;
    rewrite Z.pow_succ_r, Z.pow_add_r by lia; lia.
Qed.

Lemma digits_unique p d : 2 ^ (d - 1) <= Zpos p < 2 ^ d -> Zpos (digits2_pos p) = d.
Proof.
  intros H. pose proof (digits_bounds p) as B. set (k := Zpos (digits2_pos p)) in *.
  assert (0 < d) by (destruct (Z.ltb_spec 0 d); [done|];
    rewrite (Z.pow_neg_r 2 (d - 1)) in H by lia;
    destruct (decide (d = 0)) as [->|]; [cbn in H|rewrite Z.pow_neg_r in H]; lia).
  destruct (Z.lt_trichotomy k d) as [L|[E|G]]; [|done|].
  - pose proof (Z.pow_le_mono_r 2 k (d - 1)). lia.
  - pose proof (Z.pow_le_mono_r 2 d (k - 1)). lia.
Qed.

(** ** Rounding to 53 bits *)

(** The unit roundoff, [2^-53]. *)
Definition u : Q := 1 # 9007199254740992.

(** A value that 53 bits can hold. *)
Definition representable (v : Q) : Prop :=
  exists k j, - 2 ^ 53 <= k <= 2 ^ 53 /\ (v == inject_Z k * p2 j)%Q.

(** [z] is what [v] is rounded to: itself where it can be, and otherwise it is
    within a relative error of [u]. *)
Definition rounds (z v : Q) : Prop :=
  (forall B, - B <= v -> v <= B -> - (B * u) <= z - v /\ z - v <= B * u)%Q /\
  (representable v -> (z == v)%Q).

(** Neither overflowing nor denormal. *)
Definition tame (v : Q) : Prop :=
  (v == 0 \/ p2 (-200) <= v /\ v <= p2 200 \/ p2 (-200) <= - v /\ - v <= p2 200)%Q.

Lemma representable_proper v w : (v == w)%Q -> representable v -> representable w.
Proof. intros E (k & j & Hk & Hv). exists k, j. split; [done|]. by rewrite <- E. Qed.

Lemma representable_opp v : representable v -> representable (- v)%Q.
Proof.
  intros (k & j & Hk & Hv). exists (- k), j. split; [lia|]. rewrite Hv, inject_Z_opp. ring.
Qed.

Lemma rounds_proper z v w : (v == w)%Q -> rounds z v -> rounds z w.
Proof.
  intros E [Hr Hx]. split.
  - intros B Hl Hu. destruct (Hr B); lra.
  - intros R. rewrite Hx; [done|]. by apply (representable_proper w).
Qed.

Lemma rounds_opp z v : rounds z v -> rounds (- z)%Q (- v)%Q.
Proof.
  intros [Hr Hx]. split.
  - intros B Hl Hu. destruct (Hr B); lra.
  - intros R. apply representable_opp in R. rewrite Hx; [done|].
    by eapply representable_proper, R; ring_simplify.
Qed.

Lemma rounds_exact z v : (z == v)%Q -> rounds z v.
Proof. intros E. split; [|done]. intros B Hl Hu. unfold u. lra. Qed.

(** An integer with 53 bits is one's nearest integer, where the other can be
    held in 53 bits. *)
Lemma nearest_representable n q e :
  (inject_Z (2 ^ 52) <= q)%Q -> (- (1 # 2) <= inject_Z n - q)%Q -> (inject_Z n - q <= 1 # 2)%Q ->
  representable (q * p2 e) -> (inject_Z n == q)%Q.
Proof.
  intros Hq Hl Hu (k & j & Hk & Hv).
  assert (E : (q == inject_Z k * p2 (j - e))%Q).
  { pose proof (p2_inv e). unfold Z.sub. rewrite p2_add.
    transitivity (q * p2 e * p2 (- e))%Q; [rewrite <- Qmult_assoc, H; ring|]. rewrite Hv. ring. }
  assert (Hint : forall z, (q == inject_Z z)%Q -> (inject_Z n == q)%Q).
  { intros z Ez. rewrite Ez in *. replace n with z; [done|].
    assert (inject_Z z < inject_Z (n + 1))%Q by (rewrite inj_S; lra).
    assert (inject_Z n < inject_Z (z + 1))%Q by (rewrite inj_S; lra).
    rewrite inj_lt in *. lia. }
  destruct (Z.leb_spec e j).
  - apply (Hint (k * 2 ^ (j - e))). by rewrite inject_Z_mult, <- p2_Z by lia.
  - apply (Hint (2 ^ 52)). apply Qle_antisym; [|done].
    assert (p2 (j - e) <= p2 (-1))%Q by (apply p2_le; lia). pose proof (p2_pos (j - e)).
    assert (inject_Z k <= inject_Z (2 ^ 53))%Q by (rewrite inj_le; lia).
    assert (0 <= inject_Z k)%Q.
    { destruct (Qlt_le_dec (inject_Z k) 0); [|done].
      change (inject_Z (2 ^ 52)) with (4503599627370496 # 1)%Q in *. nra. }
    change (inject_Z (2 ^ 53)) with (9007199254740992 # 1)%Q in *.
    change (inject_Z (2 ^ 52)) with (4503599627370496 # 1)%Q in *.
    change (p2 (-1)) with (1 # 2)%Q in *. rewrite E. nra.
Qed.

Lemma fexp_normal e : -1021 <= e -> fexp 53 1024 e = e - 53.
Proof. unfold fexp, emin. lia. Qed.

(** The exponents of a value that is a number of [d] digits with its exponent. *)
Lemma tame_exponent d e q :
  (inject_Z (2 ^ (d - 1)) <= q)%Q -> (q < inject_Z (2 ^ d))%Q -> 1 <= d ->
  tame (q * p2 e) -> -200 <= d + e <= 202.
Proof.
  intros Hl Hu Hd Ht. pose proof (p2_pos e). rewrite <- p2_Z in Hl, Hu by lia.
  pose proof (p2_pos (d - 1)).
  destruct Ht as [Ht|[[Hm HM]|[Hm HM]]]; [nra| |pose proof (p2_pos (-200)); nra].
  assert (p2 (d - 1 + e) <= p2 200)%Q by (rewrite p2_add; nra).
  assert (p2 (-200) <= p2 (d + e))%Q by (rewrite p2_add; nra).
  assert (d - 1 + e <= 200) by (eapply Qpower_le_compat_l_inv; [eassumption|done]).
  assert (-200 <= d + e) by (eapply Qpower_le_compat_l_inv; [eassumption|done]).
  lia.
Qed.

Lemma shr_m_of_loc m l : shr_m (shr_record_of_loc m l) = m.
Proof. by destruct l as [|[]]. Qed.

(** A located number of [d] digits lies between powers of two. *)
Lemma located_digits m l q :
  located (shr_record_of_loc (Zpos m) l) q ->
  let d := Zpos (digits2_pos m) in (inject_Z (2 ^ (d - 1)) <= q)%Q /\ (q < inject_Z (2 ^ d))%Q.
Proof.
  intros Hq d. apply located_floor in Hq. rewrite shr_m_of_loc, <- inj_S in Hq.
  pose proof (digits_bounds m) as B. fold d in B.
  assert (inject_Z (2 ^ (d - 1)) <= inject_Z (Zpos m))%Q by (rewrite inj_le; lia).
  assert (inject_Z (Zpos m + 1) <= inject_Z (2 ^ d))%Q by (rewrite inj_le; lia).
  lra.
Qed.

Lemma shr_fexp_located m e l q :
  let d := Zpos (digits2_pos m) in
  53 <= d -> -900 <= d + e -> located (shr_record_of_loc (Zpos m) l) q ->
  exists r, shr_fexp 53 1024 (Zpos m) e l = (r, d + e - 53) /\
    located r (q * p2 (53 - d))%Q /\
    (inject_Z (2 ^ 52) <= q * p2 (53 - d))%Q /\ 2 ^ 52 <= shr_m r < 2 ^ 53.
Proof.
  intros d Hd He Hq. unfold shr_fexp. cbn [Zdigits2]. fold d. rewrite fexp_normal by lia.
  destruct (shr_located (shr_record_of_loc (Zpos m) l) q e (d + e - 53 - e)) as (r & -> & Hr & Hm);
    [lia|by rewrite shr_m_of_loc|done|].
  exists r. replace (e + (d + e - 53 - e)) with (d + e - 53) by lia.
  replace (- (d + e - 53 - e)) with (53 - d) in Hr by lia.
  destruct (located_digits m l q Hq) as [Hl Hu]. fold d in Hl, Hu. pose proof (p2_pos (53 - d)).
  assert (E1 : (inject_Z (2 ^ 52) == inject_Z (2 ^ (d - 1)) * p2 (53 - d))%Q).
  { rewrite <- !p2_Z, <- p2_add by lia. by replace (d - 1 + (53 - d)) with 52 by lia. }
  assert (E2 : (inject_Z (2 ^ 53) == inject_Z (2 ^ d) * p2 (53 - d))%Q).
  { rewrite <- !p2_Z, <- p2_add by lia. by replace (d + (53 - d)) with 53 by lia. }
  assert (Hlo : (inject_Z (2 ^ 52) <= q * p2 (53 - d))%Q) by (rewrite E1; nra).
  assert (Hhi : (q * p2 (53 - d) < inject_Z (2 ^ 53))%Q) by (rewrite E2; nra).
  split; [done|]. split; [done|]. split; [done|].
  destruct (located_floor _ _ Hr) as [Hf Hc]. rewrite <- inj_S in Hc.
  assert (inject_Z (2 ^ 52) < inject_Z (shr_m r + 1))%Q by lra.
  assert (inject_Z (shr_m r) < inject_Z (2 ^ 53))%Q by lra.
  rewrite inj_lt in *. lia.
Qed.

(** The value of a mantissa with its sign and exponent. *)
Definition sval (s : bool) (m e : Z) : Q := (inject_Z (cond_Zopp s m) * p2 e)%Q.

(** [x] is a normal number, or zero, and its value is [v]. *)
Definition isd (x : double) (v : Q) : Prop :=
  match x with
  | S754_zero _ => (v == 0)%Q
  | S754_finite s m e =>
      2 ^ 52 <= Zpos m < 2 ^ 53 /\ -300 <= e <= 300 /\ (v == sval s (Zpos m) e)%Q
  | _ => False
  end.

(** Rounding the second time only takes care of a carry. *)
Lemma round_carry n e :
  2 ^ 52 <= n <= 2 ^ 53 -> -300 <= e < 300 ->
  exists m k, 
    (let '(r, e2) := shr_fexp 53 1024 n e loc_Exact in (shr_m r, e2)) = (Zpos m, k) /\
    2 ^ 52 <= Zpos m < 2 ^ 53 /\ -300 <= k <= 300 /\ (inject_Z (Zpos m) * p2 k == inject_Z n * p2 e)%Q.
Proof.
  intros Hn He. destruct (decide (n = 2 ^ 53)) as [->|Hne].
  - exists (Z.to_pos (2 ^ 52)), (e + 1). unfold shr_fexp.
    change (Zdigits2 (2 ^ 53)) with 54. rewrite fexp_normal by lia.
    replace (54 + e - 53 - e) with 1 by lia. cbn [shr]. split; [done|]. split; [by vm_compute|].
    split; [lia|]. rewrite p2_add. change (p2 1) with (2 # 1)%Q.
    change (inject_Z (2 ^ 53)) with (9007199254740992 # 1)%Q.
    change (inject_Z (Zpos (Z.to_pos (2 ^ 52)))) with (4503599627370496 # 1)%Q. ring.
  - destruct n as [|m|m]; [cbn in Hn; lia| |lia]. exists m, e.
    assert (E : Zpos (digits2_pos m) = 53) by (apply digits_unique; lia).
    unfold shr_fexp. cbn [Zdigits2]. rewrite E, fexp_normal by lia.
    replace (53 + e - 53 - e) with 0 by lia. cbn [shr shr_m shr_record_of_loc].
    split; [done|]. split; [lia|]. split; [lia|done].
Qed.

(** The rounding of a positive value given by its leading digits. *)
Lemma round_aux s m e l q :
  let d := Zpos (digits2_pos m) in
  53 <= d -> tame (q * p2 e) -> located (shr_record_of_loc (Zpos m) l) q ->
  exists z, isd (binary_round_aux 53 1024 s (Zpos m) e l) (if s then - z else z)%Q /\
            rounds z (q * p2 e)%Q.
Proof.
  intros d Hd Ht Hq. destruct (located_digits m l q Hq) as [Hl Hu]. fold d in Hl, Hu.
  pose proof (tame_exponent d e q Hl Hu ltac:(lia) Ht) as He.
  destruct (shr_fexp_located m e l q) as (r & Es & Hr & Hlo & Hm); [done|fold d; lia|done|].
  fold d in Es, Hr, Hlo. destruct (round_half r _ Hr) as [[Hh1 Hh2] Hn].
  unfold binary_round_aux. rewrite Es.
  set (n := round_nearest_even (shr_m r) (loc_of_shr_record r)) in *.
  destruct (round_carry n (d + e - 53)) as (m' & k & Ec & Hm' & Hk & Ev); [lia|lia|].
  destruct (shr_fexp 53 1024 n (d + e - 53) loc_Exact) as [r2 e2].
  injection Ec as -> ->. rewrite (proj2 (Z.leb_le k (1024 - 53))) by lia.
  exists (inject_Z n * p2 (d + e - 53))%Q.
  assert (Eq : (q * p2 e == q * p2 (53 - d) * p2 (d + e - 53))%Q).
  { rewrite <- Qmult_assoc, <- p2_add. by replace (53 - d + (d + e - 53)) with e by lia. }
  split.
  - cbn [isd]. split; [done|]. split; [done|]. unfold sval. destruct s; cbn [cond_Zopp].
    + change (- Zpos m') with (Zneg m'). rewrite <- Ev. change (Zneg m') with (- Zpos m').
      rewrite inject_Z_opp. ring.
    + by rewrite Ev.
  - eapply rounds_proper; [symmetry; exact Eq|]. set (y := (q * p2 (53 - d))%Q) in *.
    set (t := p2 (d + e - 53)). pose proof (p2_pos (d + e - 53)) as Hp. fold t in Hp. split.
    + intros B _ HB. change (inject_Z (2 ^ 52)) with (4503599627370496 # 1)%Q in Hlo.
      assert (t * (4503599627370496 # 1) <= B)%Q by nra. unfold u. split; nra.
    + intros R. rewrite (nearest_representable n y (d + e - 53)); done.
Qed.

(** ** Each operation *)

Lemma iter_xO m d : Zpos (Pos.iter xO m d) = Zpos m * 2 ^ Zpos d.
Proof.
  induction d as [|d IH] using Pos.peano_ind; [cbn; lia|].
  rewrite Pos.iter_succ, Pos2Z.inj_succ, Z.pow_succ_r by lia.
  change (Zpos (Pos.iter xO m d)~0) with (2 * Zpos (Pos.iter xO m d)). lia.
Qed.

Lemma digits_shift m d : Zpos (digits2_pos (Pos.iter xO m d)) = Zpos (digits2_pos m) + Zpos d.
Proof.
  pose proof (digits_bounds m). apply digits_unique. rewrite iter_xO.
  replace (Zpos (digits2_pos m) + Zpos d - 1) with (Zpos (digits2_pos m) - 1 + Zpos d) by lia.
  rewrite !Z.pow_add_r by lia. pose proof (pow2_pos (Zpos d)). nia.
Qed.

(** Aligning keeps the value. *)
Lemma shl_align_value m e e' :
  e' <= e ->
  let '(m', k) := shl_align m e e' in
  k = e' /\ (inject_Z (Zpos m') * p2 k == inject_Z (Zpos m) * p2 e)%Q /\
  Zpos (digits2_pos m') = Zpos (digits2_pos m) + (e - e').
Proof.
  intros H. unfold shl_align. destruct (e' - e) as [|d|d] eqn:E; [|lia|].
  - replace e' with e by lia. split; [done|]. split; [done|lia].
  - split; [done|]. rewrite digits_shift. split; [|lia].
    rewrite iter_xO, inject_Z_mult, <- p2_Z by lia. replace e with (Zpos d + e') by lia.
    rewrite p2_add. ring.
Qed.

Lemma located_exact m : located (shr_record_of_loc m loc_Exact) (inject_Z m).
Proof. done. Qed.

Lemma binary_round_rounds s m e :
  tame (inject_Z (Zpos m) * p2 e)%Q ->
  exists z, isd (binary_round 53 1024 s m e) (if s then - z else z)%Q /\
            rounds z (inject_Z (Zpos m) * p2 e)%Q.
Proof.
  intros Ht. pose proof (located_digits m loc_Exact _ (located_exact _)) as [Hl Hu].
  set (d := Zpos (digits2_pos m)) in *. pose proof (tame_exponent d e _ Hl Hu ltac:(lia) Ht).
  unfold binary_round. fold d. rewrite fexp_normal by lia.
  assert (exists m' k, shl_align m e (d + e - 53) = (m', k) /\ 53 <= Zpos (digits2_pos m') /\
    (inject_Z (Zpos m') * p2 k == inject_Z (Zpos m) * p2 e)%Q) as (m' & k & -> & Hd & Ev).
  { destruct (Z.leb_spec (d + e - 53) e).
    - pose proof (shl_align_value m e (d + e - 53) ltac:(done)) as Ha.
      destruct (shl_align m e (d + e - 53)) as [m' k]. destruct Ha as (-> & Ev & Hd).
      exists m', (d + e - 53). split; [done|]. split; [fold d in Hd; lia|done].
    - exists m, e. unfold shl_align. destruct (d + e - 53 - e) eqn:E; [lia| |lia].
      split; [done|]. split; [fold d; lia|done]. }
  destruct (round_aux s m' k loc_Exact (inject_Z (Zpos m')) Hd) as (z & Hz & Hr).
  - by unfold tame in *; rewrite Ev.
  - apply located_exact.
  - exists z. split; [done|]. by eapply rounds_proper, Hr.
Qed.

Lemma tame_opp v : tame v -> tame (- v)%Q.
Proof. unfold tame. intros [H|[H|H]]; [left; lra|right; right; lra|right; left; lra]. Qed.

Lemma tame_proper v w : (v == w)%Q -> tame v -> tame w.
Proof. unfold tame. intros ->. done. Qed.

(** An integer times a power of two, rounded. *)
Lemma normalize_rounds m e :
  tame (inject_Z m * p2 e)%Q ->
  exists z, isd (binary_normalize 53 1024 m e false) z /\ rounds z (inject_Z m * p2 e)%Q.
Proof.
  intros Ht. destruct m as [|m|m]; cbn [binary_normalize].
  - exists 0%Q. split; [done|]. apply rounds_exact. change (inject_Z 0) with 0%Q. ring.
  - apply (binary_round_rounds false m e Ht).
  - assert (E : (- (inject_Z (Zpos m) * p2 e) == inject_Z (Zneg m) * p2 e)%Q)
      by (change (Zneg m) with (- Zpos m); rewrite inject_Z_opp; ring).
    destruct (binary_round_rounds true m e) as (z & Hz & Hr).
    + eapply tame_proper; [|apply tame_opp, Ht]. rewrite <- E. ring.
    + exists (- z)%Q. split; [done|]. eapply rounds_proper; [exact E|]. by apply rounds_opp.
Qed.

Lemma d_of_Z_rounds z :
  tame (inject_Z z) -> exists v, isd (d_of_Z z) v /\ rounds v (inject_Z z).
Proof.
  intros Ht. assert (E : (inject_Z z * p2 0 == inject_Z z)%Q) by (change (p2 0) with 1%Q; ring).
  destruct (normalize_rounds z 0) as (v & Hv & Hr); [by eapply tame_proper, Ht|].
  exists v. split; [done|]. by eapply rounds_proper, Hr.
Qed.

Lemma sval_xorb s t m n e f :
  (sval (xorb s t) (m * n) (e + f) == sval s m e * sval t n f)%Q.
Proof.
  unfold sval. rewrite p2_add.
  destruct s, t; cbn [xorb cond_Zopp]; rewrite ?inject_Z_opp, inject_Z_mult; ring.
Qed.

Lemma isd_proper x v w : (v == w)%Q -> isd x v -> isd x w.
Proof. intros E. destruct x; cbn [isd]; try done; rewrite E; done. Qed.

Lemma d_opp_value x v : isd x v -> isd (d_opp x) (- v)%Q.
Proof.
  destruct x as [s| | |s m e]; cbn [isd d_opp SFopp]; try done.
  - intros ->. done.
  - intros (Hm & He & ->). split; [done|]. split; [done|]. unfold sval.
    destruct s; cbn [negb cond_Zopp]; rewrite inject_Z_opp; ring.
Qed.

(** A sign on a rounded value. *)
Lemma signed_rounds (s : bool) x z v w :
  isd x (if s then - z else z)%Q -> rounds z v -> ((if s then - v else v) == w)%Q ->
  exists z', isd x z' /\ rounds z' w.
Proof.
  intros Hx Hr E. eexists. split; [exact Hx|]. eapply rounds_proper; [exact E|].
  destruct s; [by apply rounds_opp|done].
Qed.

Lemma d_mul_rounds x y v w :
  isd x v -> isd y w -> tame (v * w)%Q -> exists z, isd (d_mul x y) z /\ rounds z (v * w)%Q.
Proof.
  intros Hx Hy Ht.
  assert (Hzero : (v * w == 0)%Q -> exists z, (z == 0)%Q /\ rounds z (v * w)%Q)
    by (exists 0%Q; split; [done|]; apply rounds_exact; by symmetry).
  destruct x as [sx| | |sx mx ex], y as [sy| | |sy my ey]; try done; cbn [d_mul SFmul isd] in *;
    try (apply Hzero; rewrite ?Hx, ?Hy; ring).
  destruct Hx as (Hmx & Hex & Ex), Hy as (Hmy & Hey & Ey).
  pose proof (digits_bounds (mx * my)) as B.
  assert (53 <= Zpos (digits2_pos (mx * my))).
  { destruct (Z.leb_spec 53 (Zpos (digits2_pos (mx * my)))); [done|].
    pose proof (Z.pow_le_mono_r 2 (Zpos (digits2_pos (mx * my))) 52). nia. }
  assert (E : ((if xorb sx sy then - (inject_Z (Zpos (mx * my)) * p2 (ex + ey))
               else inject_Z (Zpos (mx * my)) * p2 (ex + ey)) == v * w)%Q).
  { rewrite Ex, Ey, <- sval_xorb. change (Zpos mx * Zpos my) with (Zpos (mx * my)). unfold sval.
    destruct (xorb sx sy); cbn [cond_Zopp]; rewrite ?inject_Z_opp; ring. }
  destruct (round_aux (xorb sx sy) (mx * my) (ex + ey) loc_Exact (inject_Z (Zpos (mx * my))))
    as (z & Hz & Hr); [done| |apply located_exact|by eapply signed_rounds].
  destruct (xorb sx sy); [|by eapply tame_proper; [symmetry; exact E|]].
  eapply tame_proper; [|apply tame_opp, Ht]. rewrite <- E. ring.
Qed.

Lemma aligned_value s m e k :
  k <= e ->
  (inject_Z (cond_Zopp s (Zpos (fst (shl_align m e k)))) * p2 k == sval s (Zpos m) e)%Q.
Proof.
  intros H. pose proof (shl_align_value m e k H) as Ha. destruct (shl_align m e k) as [m' k'].
  destruct Ha as (-> & Ev & _). cbn [fst]. unfold sval.
  destruct s; cbn [cond_Zopp]; rewrite ?inject_Z_opp; lra.
Qed.

Lemma d_add_rounds x y v w :
  isd x v -> isd y w -> tame (v + w)%Q -> exists z, isd (d_add x y) z /\ rounds z (v + w)%Q.
Proof.
  intros Hx Hy Ht.
  destruct x as [sx| | |sx mx ex], y as [sy| | |sy my ey]; try done; cbn [d_add SFadd isd] in *.
  - exists 0%Q. split; [by destruct sx, sy|]. apply rounds_exact. lra.
  - exists w. split; [done|]. apply rounds_exact. lra.
  - exists v. split; [done|]. apply rounds_exact. lra.
  - destruct Hx as (_ & _ & Ex), Hy as (_ & _ & Ey). cbv zeta.
    set (k := Z.min ex ey).
    set (n := cond_Zopp sx (Zpos (fst (shl_align mx ex k))) +
              cond_Zopp sy (Zpos (fst (shl_align my ey k)))).
    assert (E : (inject_Z n * p2 k == v + w)%Q).
    { unfold n. rewrite inject_Z_plus, Qmult_plus_distr_l, !aligned_value by (unfold k; lia).
      by rewrite <- Ex, <- Ey. }
    destruct (normalize_rounds n k) as (z & Hz & Hr); [by eapply tame_proper; [symmetry|]|].
    exists z. split; [done|]. by eapply rounds_proper.
Qed.

(** Subtracting adds the opposite. *)
Lemma d_sub_add x y : d_sub x y = d_add x (d_opp y).
Proof.
  destruct x as [[]|[]| |sx mx ex], y as [[]|[]| |sy my ey]; try done.
  unfold d_sub, d_add, d_opp, SFsub, SFadd, SFopp. cbv zeta. f_equal.
  destruct sy; cbn [negb cond_Zopp]; lia.
Qed.

Lemma d_sub_rounds x y v w :
  isd x v -> isd y w -> tame (v - w)%Q -> exists z, isd (d_sub x y) z /\ rounds z (v - w)%Q.
Proof. intros Hx Hy Ht. rewrite d_sub_add. apply d_add_rounds; [done|by apply d_opp_value|done]. Qed.

(** The remainder of a division locates the quotient. *)
Lemma new_location_located a b q r :
  0 < b -> a = b * q + r -> 0 <= r < b ->
  located (shr_record_of_loc q (new_location b r)) (inject_Z a / inject_Z b)%Q.
Proof.
  intros Hb Ha Hr. assert (Hb' : (0 < inject_Z b)%Q) by (change 0%Q with (inject_Z 0); by rewrite inj_lt).
  set (f := (inject_Z r / inject_Z b)%Q).
  assert (E : (inject_Z a / inject_Z b == inject_Z q + f)%Q).
  { unfold f. rewrite Ha, inject_Z_plus, inject_Z_mult. field. lra. }
  eapply located_proper; [symmetry; exact E|].
  assert (Ef : (inject_Z r == f * inject_Z b)%Q) by (unfold f; field; lra).
  clearbody f.
  assert (Hc : forall k, (2 * r < k * b -> (f < inject_Z k * (1 # 2))%Q) /\
                         (k * b < 2 * r -> (inject_Z k * (1 # 2) < f)%Q) /\
                         (2 * r = k * b -> (f == inject_Z k * (1 # 2))%Q)).
  { intros k. split_and!; intros Hk;
      [rewrite <- inj_lt in Hk|rewrite <- inj_lt in Hk|
       assert (inject_Z (2 * r) == inject_Z (k * b))%Q as Hq by (by rewrite Hk); clear Hk; rename Hq into Hk];
      rewrite !inject_Z_mult, Ef in Hk; change (inject_Z 2) with (2 # 1)%Q in Hk; [nra|nra|].
    apply (Qmult_inj_l _ _ (inject_Z b)); [lra|]. lra. }
  destruct (Hc 0) as (_ & Hc0 & He0), (Hc 1) as (Hl & Hg & He), (Hc 2) as (Hl2 & _ & _).
  change (inject_Z 0) with 0%Q in *. change (inject_Z 1) with 1%Q in *.
  change (inject_Z 2) with (2 # 1)%Q in *.
  unfold new_location, new_location_even, new_location_odd.
  destruct (Z.eqb_spec r 0) as [->|].
  { destruct (Z.even b); cbn [Z.eqb]; unfold located; cbn [shr_record_of_loc shr_r shr_s shr_m];
    pose proof (He0 ltac:(lia)); lra. }
  destruct (Z.even b) eqn:Ev; rewrite (proj2 (Z.eqb_neq r 0)) by done.
  - destruct (Z.compare_spec (2 * r) b); unfold located; cbn [shr_record_of_loc shr_r shr_s shr_m].
    + pose proof (He ltac:(lia)). lra.
    + pose proof (Hl ltac:(lia)). pose proof (Hc0 ltac:(lia)). lra.
    + pose proof (Hg ltac:(lia)). pose proof (Hl2 ltac:(lia)). lra.
  - assert (2 * r <> b) by (intros <-; by rewrite Z.even_mul in Ev).
    destruct (Z.compare_spec (2 * r + 1) b); unfold located; cbn [shr_record_of_loc shr_r shr_s shr_m].
    + pose proof (Hl ltac:(lia)). pose proof (Hc0 ltac:(lia)). lra.
    + pose proof (Hl ltac:(lia)). pose proof (Hc0 ltac:(lia)). lra.
    + pose proof (Hg ltac:(lia)). pose proof (Hl2 ltac:(lia)). lra.
Qed.

Lemma d_div_rounds x y v w :
  isd x v -> isd y w -> ~ (w == 0)%Q -> tame (v / w)%Q ->
  exists z, isd (d_div x y) z /\ rounds z (v / w)%Q.
Proof.
  intros Hx Hy Hw Ht.
  destruct x as [sx| | |sx mx ex], y as [sy| | |sy my ey]; try done; cbn [d_div SFdiv isd] in *;
    try (exists 0%Q; split; [done|]; apply rounds_exact; rewrite Hx; by field).
  destruct Hx as (Hmx & Hex & Ex), Hy as (Hmy & Hey & Ey).
  assert (Hdx : Zpos (digits2_pos mx) = 53) by (apply digits_unique; lia).
  assert (Hdy : Zpos (digits2_pos my) = 53) by (apply digits_unique; lia).
  unfold SFdiv_core_binary. cbn [Zdigits2]. rewrite Hdx, Hdy, fexp_normal by lia.
  replace (Z.min (53 + ex - (53 + ey) - 53) (ex - ey)) with (ex - ey - 53) by lia.
  replace (ex - ey - (ex - ey - 53)) with 53 by lia. cbv zeta iota.
  rewrite Z.shiftl_mul_pow2 by lia. set (a := Zpos mx * 2 ^ 53).
  pose proof (Z_div_mod a (Zpos my) eq_refl) as Hqr.
  destruct (Z.div_eucl a (Zpos my)) as [q r]. destruct Hqr as [Hqr Hr].
  assert (Hq : 2 ^ 52 <= q) by (unfold a in Hqr; nia).
  destruct q as [|q|q]; [lia| |lia].
  assert (53 <= Zpos (digits2_pos q)).
  { pose proof (digits_bounds q). destruct (Z.leb_spec 53 (Zpos (digits2_pos q))); [done|].
    pose proof (Z.pow_le_mono_r 2 (Zpos (digits2_pos q)) 52). lia. }
  pose proof (new_location_located a (Zpos my) (Zpos q) r eq_refl Hqr Hr) as Hl.
  assert (E : ((if xorb sx sy then - (inject_Z a / inject_Z (Zpos my) * p2 (ex - ey - 53))
                else inject_Z a / inject_Z (Zpos my) * p2 (ex - ey - 53)) == v / w)%Q).
  { pose proof (p2_pos ey). rewrite Ex, Ey.
    assert (Ep : (p2 ex == inject_Z (2 ^ 53) * p2 (ex - ey - 53) * p2 ey)%Q).
    { rewrite <- p2_Z, <- !p2_add by lia. by replace (53 + (ex - ey - 53) + ey) with ex by lia. }
    assert (Ea : (inject_Z a == inject_Z (Zpos mx) * inject_Z (2 ^ 53))%Q)
      by (unfold a; by rewrite inject_Z_mult).
    assert (0 < inject_Z (Zpos my))%Q by (change 0%Q with (inject_Z 0); by rewrite inj_lt).
    unfold sval. destruct sx, sy; cbn [xorb cond_Zopp];
      rewrite ?inject_Z_opp, Ea, Ep; field; lra. }
  destruct (round_aux (xorb sx sy) q (ex - ey - 53) (new_location (Zpos my) r)
    (inject_Z a / inject_Z (Zpos my))%Q H) as (z & Hz & Hr');
    [|exact Hl|by eapply signed_rounds].
  destruct (xorb sx sy); [|by eapply tame_proper; [symmetry; exact E|]].
  eapply tame_proper; [|apply tame_opp, Ht]. rewrite <- E. ring.
Qed.

(** Truncation goes towards zero. *)
Lemma d_trunc_value x v :
  isd x v ->
  exists t, d_trunc x = Some t /\
    ((0 <= v -> inject_Z t <= v /\ v < inject_Z t + 1) /\
     (v <= 0 -> inject_Z t - 1 < v /\ v <= inject_Z t))%Q.
Proof.
  destruct x as [s| | |s m e]; cbn [isd d_trunc]; try done.
  - intros Hv. exists 0. split; [done|]. change (inject_Z 0) with 0%Q. lra.
  - intros (_ & _ & Ev). eexists. split; [done|].
    assert (Hf : (inject_Z (Z.shiftl (Zpos m) e) <= inject_Z (Zpos m) * p2 e /\
                  inject_Z (Zpos m) * p2 e < inject_Z (Z.shiftl (Zpos m) e) + 1)%Q).
    { destruct (Z.leb_spec 0 e).
      - rewrite Z.shiftl_mul_pow2, inject_Z_mult, p2_Z by lia. lra.
      - rewrite <- (Z.opp_involutive e), Z.shiftl_opp_r, Z.shiftr_div_pow2 by lia.
        set (k := - e). pose proof (pow2_pos k ltac:(lia)) as Hk.
        pose proof (Z.div_mod (Zpos m) (2 ^ k) ltac:(lia)) as Hd.
        pose proof (Z.mod_pos_bound (Zpos m) (2 ^ k) ltac:(lia)) as Hm.
        set (t := Zpos m / 2 ^ k) in *. pose proof (p2_inv k) as Hi. rewrite p2_Z in Hi by lia.
        pose proof (p2_pos (- k)).
        assert (inject_Z (2 ^ k) * inject_Z t <= inject_Z (Zpos m))%Q
          by (rewrite <- inject_Z_mult, inj_le; lia).
        assert (inject_Z (Zpos m) < inject_Z (2 ^ k) * (inject_Z t + 1))%Q
          by (rewrite <- inj_S, <- inject_Z_mult, inj_lt; lia).
        assert (inject_Z t == inject_Z (2 ^ k) * inject_Z t * p2 (- k))%Q as Et
          by (rewrite (Qmult_comm (inject_Z (2 ^ k))), <- Qmult_assoc, Hi; ring).
        assert (1 + inject_Z t == inject_Z (2 ^ k) * (inject_Z t + 1) * p2 (- k))%Q as Et'
          by (rewrite (Qmult_comm (inject_Z (2 ^ k))), <- Qmult_assoc, Hi; ring).
        split; nra. }
    set (t := Z.shiftl (Zpos m) e) in *. pose proof (p2_pos e).
    assert (0 < inject_Z (Zpos m))%Q by (change 0%Q with (inject_Z 0); by rewrite inj_lt).
    unfold sval in Ev. destruct s; cbn [cond_Zopp] in *; rewrite inject_Z_opp in * || idtac; nra.
Qed.

(** The comparison with zero. *)
Lemma d_lt_0 x v :
  isd x v ->
  ((v < 0)%Q -> d_lt x (d_of_Z 0) = true) /\ ((0 <= v)%Q -> d_lt x (d_of_Z 0) = false).
Proof.
  destruct x as [s| | |s m e]; cbn [isd]; try done.
  - intros Hv. split; [lra|done].
  - intros (_ & _ & Ev). pose proof (p2_pos e).
    assert (0 < inject_Z (Zpos m))%Q by (change 0%Q with (inject_Z 0); by rewrite inj_lt).
    assert (d_lt (S754_finite s m e) (d_of_Z 0) = s) as -> by (by destruct s). unfold sval in Ev.
    destruct s; cbn [cond_Zopp] in Ev; [rewrite inject_Z_opp in Ev|]; split; (done || nra).
Qed.

(** Values between ten to the power of minus thirty and of forty are tame. *)
Lemma tame_range v :
  (v == 0 \/ 1 # 1000000000000000000000000000000 <= v \/
   1 # 1000000000000000000000000000000 <= - v)%Q ->
  (- (10000000000000000000000000000000000000000 # 1) <= v)%Q ->
  (v <= 10000000000000000000000000000000000000000 # 1)%Q -> tame v.
Proof.
  assert (p2 (-200) <= 1 # 1000000000000000000000000000000)%Q by (vm_compute; discriminate).
  assert (10000000000000000000000000000000000000000 # 1 <= p2 200)%Q by (vm_compute; discriminate).
  unfold tame. intros [E|[L|L]] Hl Hu; [left; done|right; left|right; right]; lra.
Qed.

(** Integers of 53 bits are held. *)
Lemma representable_Z z : - 2 ^ 53 <= z <= 2 ^ 53 -> representable (inject_Z z).
Proof. intros H. exists z, 0. split; [done|]. change (p2 0) with 1%Q. ring. Qed.

Lemma tame_Z z : - 2 ^ 64 <= z <= 2 ^ 64 -> tame (inject_Z z).
Proof.
  intros H.
  assert (inject_Z (- 2 ^ 64) <= inject_Z z)%Q by (rewrite inj_le; lia).
  assert (inject_Z z <= inject_Z (2 ^ 64))%Q by (rewrite inj_le; lia).
  change (inject_Z (- 2 ^ 64)) with (-18446744073709551616 # 1)%Q in *.
  change (inject_Z (2 ^ 64)) with (18446744073709551616 # 1)%Q in *.
  apply tame_range; [|lra|lra].
  destruct (Z.lt_trichotomy z 0) as [L|[->|G]]; [right; right|by left|right; left].
  - assert (inject_Z z <= inject_Z (-1))%Q by (rewrite inj_le; lia).
    change (inject_Z (-1)) with (-1 # 1)%Q in *. lra.
  - assert (inject_Z 1 <= inject_Z z)%Q by (rewrite inj_le; lia).
    change (inject_Z 1) with 1%Q in *. lra.
Qed.

(** An integer of at most 53 bits is cast exactly. *)
Lemma d_of_Z_exact z : - 2 ^ 53 <= z <= 2 ^ 53 -> isd (d_of_Z z) (inject_Z z).
Proof.
  intros H. destruct (d_of_Z_rounds z) as (v & Hv & _ & Hx); [apply tame_Z; lia|].
  eapply isd_proper, Hv. by apply Hx, representable_Z.
Qed.
