(* ===== verification/TimeFp.v ===== *)
(** * TimeFp

    The conversions of durations from and to [double] of
    include/sancus/time.h, with [long] and [double] kept apart as in the code:
    a cast rounds to 53 bits, a cast back truncates and is undefined for what
    no [long] holds. *)

From Stdlib Require Import SpecFloat QArith Lqa.
From S2P Require Import Prelude Time Double.
#[local] Open Scope Z_scope.

(** ** The conversions *)

(** [sancus_time_fp_to_ts] @ include/sancus/time.h:42-56. *)
Definition sancus_time_fp_to_ts (d : double) : outcome timespec :=
  sec ← d_to_long d;
  let d := d_sub d (d_of_Z sec) in
  let d := d_mul d (d_of_Z 1000000000) in
  let d := d_add d d_half in
  nsec ← d_to_long d;
  Ret (mk_ts sec nsec).

(** [sancus_time_fp_to_ms] @ include/sancus/time.h:59-67. *)
Definition sancus_time_fp_to_ms (d : double) : outcome Z :=
  let d := d_mul d (d_of_Z 1000) in
  let d := if d_lt d (d_of_Z 0) then d_sub d d_half else d_add d d_half in
  d_to_long d.

(** [sancus_time_ts_to_fp] @ include/sancus/time.h:86-92. *)
Definition sancus_time_ts_to_fp (t : timespec) : double :=
  let d := d_of_Z (tv_nsec t) in
  let d := d_div d (d_of_Z 1000000000) in
  d_add d (d_of_Z (tv_sec t)).

(** [sancus_time_ms_to_fp] @ include/sancus/time.h:95-104. The argument is an
    [int]. *)
Definition sancus_time_ms_to_fp (ms : Z) : outcome double :=
  x ← (if ms <? 0 then ck_s32 (- ms) else Ret ms);
  let d := d_of_Z (x ÷ SEC_TO_MS 1) in
  let x := Z.rem x (SEC_TO_MS 1) in
  let d := d_add d (d_div (d_of_Z x) (d_of_Z 1000)) in
  Ret (if ms <? 0 then d_opp d else d).

(** [sancus_time_add_fp] @ include/sancus/time.h:197-201. *)
Definition sancus_time_add_fp (a : timespec) (sec : double) : outcome (timespec * Z) :=
  b ← sancus_time_fp_to_ts sec; sancus_time_add a b.

(** ** One operation at a time *)

Lemma inj_bounds a b z : a <= z <= b -> (inject_Z a <= inject_Z z /\ inject_Z z <= inject_Z b)%Q.
Proof. rewrite !inj_le. lia. Qed.

Lemma isd_half : isd d_half (1 # 2).
Proof. cbn [isd d_half]. split; [done|]. split; [done|]. reflexivity. Qed.

(** Truncation of a value between two integers, as a [long]. *)
Lemma to_long_pos x v t :
  isd x v -> (inject_Z t <= v)%Q -> (v < inject_Z t + 1)%Q -> 0 <= t <= LONG_MAX ->
  d_to_long x = Ret t.
Proof.
  intros Hx Hl Hu Ht. destruct (d_trunc_value x v Hx) as (t' & E & Hp & _).
  destruct (inj_bounds 0 LONG_MAX t Ht) as [H0 _]. change (inject_Z 0) with 0%Q in H0.
  destruct Hp as [Hl' Hu']; [lra|]. unfold d_to_long. rewrite E. cbn [deref]. run.
  assert (t' = t) as ->.
  { rewrite <- inj_S in Hu, Hu'.
    assert (inject_Z t < inject_Z (t' + 1))%Q by lra.
    assert (inject_Z t' < inject_Z (t + 1))%Q by lra. rewrite inj_lt in *. lia. }
  apply ck_s64_ok. bounds.
Qed.

Lemma to_long_neg x v t :
  isd x v -> (inject_Z t - 1 < v)%Q -> (v <= inject_Z t)%Q -> LONG_MIN <= t <= 0 ->
  d_to_long x = Ret t.
Proof.
  intros Hx Hl Hu Ht. destruct (d_trunc_value x v Hx) as (t' & E & _ & Hn).
  destruct (inj_bounds LONG_MIN 0 t Ht) as [_ H0]. change (inject_Z 0) with 0%Q in H0.
  destruct Hn as [Hl' Hu']; [lra|]. unfold d_to_long. rewrite E. cbn [deref]. run.
  assert (t' = t) as ->.
  { assert (inject_Z t < inject_Z (t' + 1))%Q by (rewrite inj_S; lra).
    assert (inject_Z t' < inject_Z (t + 1))%Q by (rewrite inj_S; lra). rewrite inj_lt in *. lia. }
  apply ck_s64_ok. bounds.
Qed.

(** What a rounding of a value within [B] gives. *)
Ltac round_within H B :=
  let Hb := fresh "Hb" in
  pose proof (proj1 H B) as Hb; unfold u in Hb;
  let L := fresh in let U := fresh in
  destruct Hb as [L U]; [lra|lra|].

Ltac tame := apply tame_range; lra.

(** [sancus_time_fp_to_ms] finds the nearest millisecond. *)
Lemma fp_to_ms_near d v k :
  isd d v -> - 2 ^ 40 <= k <= 2 ^ 40 ->
  (v == 0 \/ 1 # 10000 <= v \/ 1 # 10000 <= - v)%Q ->
  (- (49 # 100) <= v * (1000 # 1) - inject_Z k)%Q ->
  (v * (1000 # 1) - inject_Z k <= 49 # 100)%Q ->
  sancus_time_fp_to_ms d = Ret k.
Proof.
  intros Hd Hk Hv Hl Hu. unfold sancus_time_fp_to_ms.
  destruct (inj_bounds _ _ k Hk) as [Kl Ku].
  change (inject_Z (- 2 ^ 40)) with (-1099511627776 # 1)%Q in Kl.
  change (inject_Z (2 ^ 40)) with (1099511627776 # 1)%Q in Ku.
  assert (Hm : isd (d_of_Z 1000) (1000 # 1)) by (apply (d_of_Z_exact 1000); lia).
  destruct (d_mul_rounds _ _ _ _ Hd Hm) as (z & Hz & Rz); [tame|].
  round_within Rz (1099511627778 # 1)%Q.
  destruct (d_lt_0 _ _ Hz) as [Hneg Hpos].
  destruct (Qlt_le_dec z 0) as [L|G].
  - rewrite Hneg by done.
    destruct (d_sub_rounds _ _ _ _ Hz isd_half) as (y & Hy & Ry); [tame|].
    round_within Ry (1099511627779 # 1)%Q.
    apply (to_long_neg _ y); [done|lra|lra|split; [bounds|]].
    assert (inject_Z k < inject_Z 1)%Q by (change (inject_Z 1) with 1%Q; lra).
    rewrite inj_lt in *. lia.
  - rewrite Hpos by done.
    destruct (d_add_rounds _ _ _ _ Hz isd_half) as (y & Hy & Ry); [tame|].
    round_within Ry (1099511627779 # 1)%Q.
    apply (to_long_pos _ y); [done|lra|lra|split; [|bounds]].
    assert (inject_Z (-1) < inject_Z k)%Q by (change (inject_Z (-1)) with (-1 # 1)%Q; lra).
    rewrite inj_lt in *. lia.
Qed.

(** [sancus_time_fp_to_ts] of a value near a duration [sec] and [n]
    nanoseconds, whole seconds agreeing. *)
Lemma fp_to_ts_near d v sec n :
  isd d v -> 0 <= sec <= 2 ^ 50 -> 0 <= n < NSEC ->
  (inject_Z sec <= v)%Q -> (v < inject_Z sec + 1)%Q ->
  (v == inject_Z sec \/ 1 # 10000000000 <= v - inject_Z sec)%Q ->
  (- (49 # 100000000000) <= v - inject_Z sec - inject_Z n * (1 # 1000000000))%Q ->
  (v - inject_Z sec - inject_Z n * (1 # 1000000000) <= 49 # 100000000000)%Q ->
  sancus_time_fp_to_ts d = Ret (mk_ts sec n).
Proof.
  intros Hd Hs Hn Hl Hu Hz Hel Heu. unfold sancus_time_fp_to_ts.
  rewrite (to_long_pos d v sec) by (done || bounds). run. cbv zeta.
  destruct (inj_bounds 0 (NSEC - 1) n ltac:(lia)) as [N0 N1].
  change (inject_Z 0) with 0%Q in N0. change (inject_Z (NSEC - 1)) with (999999999 # 1)%Q in N1.
  assert (Hb : isd (d_of_Z 1000000000) (1000000000 # 1)) by (apply (d_of_Z_exact 1000000000); lia).
  destruct (d_sub_rounds d (d_of_Z sec) v (inject_Z sec)) as (x & Hx & Rx);
    [done|apply d_of_Z_exact; lia|tame|].
  assert (Hxs : (x == 0 \/ 1 # 20000000000 <= x)%Q).
  { destruct Hz as [E|E]; [left; round_within Rx 0%Q; lra|right; round_within Rx (v - inject_Z sec)%Q; lra]. }
  round_within Rx 1%Q.
  destruct (d_mul_rounds _ _ _ _ Hx Hb) as (y & Hy & Ry); [tame|].
  assert (Hys : (0 <= y)%Q) by (round_within Ry (x * (1000000000 # 1))%Q; lra).
  round_within Ry (1000000001 # 1)%Q.
  destruct (d_add_rounds _ _ _ _ Hy isd_half) as (z & Hz' & Rz); [tame|].
  round_within Rz (1000000002 # 1)%Q.
  by rewrite (to_long_pos _ z n) by (done || lra || (unfold NSEC in *; bounds)).
Qed.

(** The same below zero: the nanoseconds come out negative and one short. *)
Lemma fp_to_ts_neg d v sec n :
  isd d v -> 0 <= sec <= 2 ^ 50 -> 1 <= n < NSEC ->
  (- inject_Z sec - 1 < v)%Q -> (v <= - inject_Z sec - (1 # 10000000000))%Q ->
  (- (49 # 100000000000) <= v + inject_Z sec + inject_Z n * (1 # 1000000000))%Q ->
  (v + inject_Z sec + inject_Z n * (1 # 1000000000) <= 49 # 100000000000)%Q ->
  sancus_time_fp_to_ts d = Ret (mk_ts (- sec) (1 - n)).
Proof.
  intros Hd Hs Hn Hl Hu Hel Heu. unfold sancus_time_fp_to_ts.
  assert (Es : (inject_Z (- sec) == - inject_Z sec)%Q) by (by rewrite inject_Z_opp).
  rewrite (to_long_neg d v (- sec)) by (done || lra || bounds). run. cbv zeta.
  destruct (inj_bounds 1 (NSEC - 1) n ltac:(lia)) as [N0 N1].
  change (inject_Z 1) with 1%Q in N0. change (inject_Z (NSEC - 1)) with (999999999 # 1)%Q in N1.
  assert (Hb : isd (d_of_Z 1000000000) (1000000000 # 1)) by (apply (d_of_Z_exact 1000000000); lia).
  destruct (d_sub_rounds d (d_of_Z (- sec)) v (inject_Z (- sec))) as (x & Hx & Rx);
    [done|apply d_of_Z_exact; lia|tame|].
  round_within Rx 1%Q.
  destruct (d_mul_rounds _ _ _ _ Hx Hb) as (y & Hy & Ry); [tame|].
  round_within Ry (1000000001 # 1)%Q.
  destruct (d_add_rounds _ _ _ _ Hy isd_half) as (z & Hz' & Rz); [tame|].
  round_within Rz (1000000002 # 1)%Q.
  assert (En : (inject_Z (1 - n) == 1 - inject_Z n)%Q) by (unfold Z.sub; rewrite inject_Z_plus, inject_Z_opp; reflexivity).
  by rewrite (to_long_neg _ z (1 - n)) by (done || lra || (unfold NSEC in *; bounds)).
Qed.

(** Seconds and milliseconds as a [double]: at most [2^-31] off. *)
Lemma ms_parts q r :
  0 <= q <= 2147484 -> 0 <= r < 1000 ->
  exists v, isd (d_add (d_of_Z q) (d_div (d_of_Z r) (d_of_Z 1000))) v /\
    (v - inject_Z q - inject_Z r * (1 # 1000) <= 1 # 4000000000)%Q /\
    (- (1 # 4000000000) <= v - inject_Z q - inject_Z r * (1 # 1000))%Q /\
    (r = 0 -> (v == inject_Z q)%Q).
Proof.
  intros Hq Hr.
  destruct (inj_bounds 0 2147484 q Hq) as [Q0 Q1]. change (inject_Z 0) with 0%Q in *.
  change (inject_Z 2147484) with (2147484 # 1)%Q in *.
  destruct (inj_bounds 0 999 r ltac:(lia)) as [R0 R1]. change (inject_Z 0) with 0%Q in *.
  change (inject_Z 999) with (999 # 1)%Q in *.
  assert (Hdr : isd (d_of_Z r) (inject_Z r)) by (apply d_of_Z_exact; lia).
  assert (Hm : isd (d_of_Z 1000) (1000 # 1)) by (apply (d_of_Z_exact 1000); lia).
  assert (Er : (inject_Z r / (1000 # 1) == inject_Z r * (1 # 1000))%Q) by reflexivity.
  assert (Hcase : r = 0 \/ (1 <= inject_Z r)%Q)
    by (destruct (decide (r = 0)); [by left|right; change 1%Q with (inject_Z 1); rewrite inj_le; lia]).
  destruct (d_div_rounds _ _ _ _ Hdr Hm) as (x & Hx & Rx); [lra| |].
  { eapply tame_proper; [symmetry; exact Er|].
    apply tame_range; [|lra|lra]. destruct Hcase as [->|]; [by left|right; left; lra]. }
  apply (rounds_proper _ _ _ Er) in Rx.
  assert (Hx0 : r = 0 -> (x == 0)%Q).
  { intros ->. change (inject_Z 0) with 0%Q in *. round_within Rx 0%Q. lra. }
  round_within Rx 1%Q.
  destruct (d_add_rounds (d_of_Z q) _ (inject_Z q) x (d_of_Z_exact q ltac:(lia)) Hx)
    as (v & Hv & Rv).
  { assert (Hq' : q = 0 \/ (1 <= inject_Z q)%Q)
      by (destruct (decide (q = 0)); [by left|right; change 1%Q with (inject_Z 1); rewrite inj_le; lia]).
    apply tame_range; [|lra|lra].
    destruct Hcase as [E|]; [specialize (Hx0 E)|right; left; lra].
    destruct Hq' as [->|]; [left; change (inject_Z 0) with 0%Q; lra|right; left; lra]. }
  exists v. split; [done|].
  assert (Hex : r = 0 -> (v == inject_Z q)%Q).
  { intros E. specialize (Hx0 E). rewrite (proj2 Rv); [lra|].
    eapply representable_proper; [|apply (representable_Z q); lia]. lra. }
  round_within Rv (2147486 # 1)%Q. split; [lra|]. split; [lra|done].
Qed.

(** A [double] for every number of milliseconds, and its value. *)
Lemma ms_to_fp_value ms :
  INT_MIN < ms <= INT_MAX ->
  let q := Z.abs ms / 1000 in let r := Z.abs ms mod 1000 in
  exists d v, sancus_time_ms_to_fp ms = Ret d /\ isd d (if ms <? 0 then (- v)%Q else v) /\
    (v - inject_Z q - inject_Z r * (1 # 1000) <= 1 # 4000000000)%Q /\
    (- (1 # 4000000000) <= v - inject_Z q - inject_Z r * (1 # 1000))%Q /\
    (r = 0 -> (v == inject_Z q)%Q).
Proof.
  intros Hms q r. unfold sancus_time_ms_to_fp.
  assert (Ex : (if ms <? 0 then ck_s32 (- ms) else Ret ms) = Ret (Z.abs ms)).
  { destruct (Z.ltb_spec ms 0); [|f_equal; lia]. unfold ck_s32.
    replace (in_s 32 (- ms)) with true; [f_equal; lia|]. symmetry. unfold in_s. cbv_bounds. lia. }
  rewrite Ex. run. change (SEC_TO_MS 1) with 1000.
  rewrite Z.quot_div_nonneg, Z.rem_mod_nonneg by lia. fold q r.
  destruct (ms_parts q r) as (v & Hv & Hu & Hl & H0);
    [cbv_bounds; unfold q; Z.to_euclidean_division_equations; lia|
     unfold r; Z.to_euclidean_division_equations; lia|].
  eexists _, v. split; [done|]. split; [|done].
  destruct (ms <? 0); [by apply d_opp_value|done].
Qed.

(** The two parts of a number of milliseconds. *)
Lemma ms_split ms :
  INT_MIN < ms <= INT_MAX ->
  let q := Z.abs ms / 1000 in let r := Z.abs ms mod 1000 in
  0 <= q <= 2147483 /\ 0 <= r <= 999 /\
  (inject_Z (Z.abs ms) == inject_Z q * (1000 # 1) + inject_Z r)%Q.
Proof.
  intros H q r. assert (E : Z.abs ms = q * 1000 + r)
    by (unfold q, r; Z.to_euclidean_division_equations; lia).
  split; [unfold q; cbv_bounds; Z.to_euclidean_division_equations; lia|].
  split; [unfold r; Z.to_euclidean_division_equations; lia|].
  replace (inject_Z (Z.abs ms)) with (inject_Z (q * 1000 + r)) by (f_equal; lia).
  by rewrite inject_Z_plus, inject_Z_mult.
Qed.

(** Milliseconds survive the way through a [double], whatever their sign. *)
Lemma ms_fp_ms ms :
  INT_MIN < ms <= INT_MAX ->
  exists d, sancus_time_ms_to_fp ms = Ret d /\ sancus_time_fp_to_ms d = Ret ms.
Proof.
  intros H. destruct (ms_to_fp_value ms H) as (d & v & E & Hd & Hu & Hl & H0).
  destruct (ms_split ms H) as (Hq & Hr & Hs).
  set (q := Z.abs ms / 1000) in *. set (r := Z.abs ms mod 1000) in *.
  exists d. split; [done|].
  destruct (inj_bounds _ _ _ Hq) as [Q0 Q1], (inj_bounds _ _ _ Hr) as [R0 R1].
  change (inject_Z 0) with 0%Q in *.
  assert (Hcase : v == 0 \/ (1 # 10000 <= v)%Q).
  { destruct (decide (r = 0)) as [Er|Er].
    - specialize (H0 Er). destruct (decide (q = 0)) as [Eq|Eq].
      + left. rewrite H0, Eq. done.
      + right. assert (1 <= inject_Z q)%Q by (change 1%Q with (inject_Z 1); rewrite inj_le; lia). lra.
    - right. assert (1 <= inject_Z r)%Q by (change 1%Q with (inject_Z 1); rewrite inj_le; lia). lra. }
  destruct (Z.ltb_spec ms 0) as [L|G].
  - assert (Em : (inject_Z ms == - inject_Z (Z.abs ms))%Q)
      by (rewrite <- inject_Z_opp; by replace (- Z.abs ms) with ms by lia).
    apply (fp_to_ms_near d _ ms Hd); [cbv_bounds; lia| |lra|lra].
    destruct Hcase; [left|right; right]; lra.
  - rewrite (Z.abs_eq ms G) in Hs.
    apply (fp_to_ms_near d _ _ Hd); [cbv_bounds; lia| |lra|lra].
    destruct Hcase; [by left|right; by left].
Qed.

(** ** Properties *)

(** C25. Milliseconds are represented faithfully by a [double]: the way to one
    and back is the identity on every [int] but the least, whose negation
    overflows.  For a number that is not negative the [double] also converts to
    the same [struct timespec] that [sancus_time_new_ms] makes without floating
    point.  *)
Theorem fp_ms_equivalence ms :
  INT_MIN < ms <= INT_MAX ->
  sancus_time_ms_to_fp INT_MIN = Undef /\
  exists d, sancus_time_ms_to_fp ms = Ret d /\ sancus_time_fp_to_ms d = Ret ms /\
    (0 <= ms -> sancus_time_fp_to_ts d = sancus_time_new_ms ms).
Proof.
  intros H. split; [done|]. destruct (ms_fp_ms ms H) as (d & E & Eb). exists d.
  split; [done|]. split; [done|]. intros Hp.
  destruct (ms_to_fp_value ms H) as (d' & v & E' & Hd & Hu & Hl & H0).
  rewrite E in E'. injection E' as <-. destruct (ms_split ms H) as (Hq & Hr & Hs).
  rewrite (Z.abs_eq ms) in * by done. rewrite (proj2 (Z.ltb_ge ms 0)) in Hd by done.
  set (q := ms / 1000) in *. set (r := ms mod 1000) in *.
  destruct (inj_bounds _ _ _ Hq) as [Q0 Q1], (inj_bounds _ _ _ Hr) as [R0 R1].
  change (inject_Z 0) with 0%Q in *. change (inject_Z 999) with (999 # 1)%Q in *.
  assert (En : sancus_time_new_ms ms = Ret (mk_ts q (r * 1000000))).
  { unfold q, r. cbv_bounds. apply new_ms_nonneg. lia. }
  rewrite En. apply (fp_to_ts_near d v); [done|lia|unfold NSEC; lia| | | | |];
    rewrite ?inject_Z_mult; change (inject_Z 1000000) with (1000000 # 1)%Q;
    try (destruct (decide (r = 0)) as [Er|Er];
      [specialize (H0 Er); rewrite Er in *; change (inject_Z 0) with 0%Q in *; lra
      |assert (1 <= inject_Z r)%Q by (change 1%Q with (inject_Z 1); rewrite inj_le; lia); lra]).
Qed.

Lemma fp_ms_equivalence_witness :
  sancus_time_ms_to_fp INT_MIN = Undef /\
  exists d, sancus_time_ms_to_fp (-1234567) = Ret d /\ sancus_time_fp_to_ms d = Ret (-1234567) /\
    (0 <= -1234567 -> sancus_time_fp_to_ts d = sancus_time_new_ms (-1234567)).
Proof. apply (fp_ms_equivalence (-1234567)). vm_compute. split; [reflexivity|discriminate]. Defined.

(** The value of the [double] made from seconds and nanoseconds. *)
Lemma ts_to_fp_value s n B :
  - 2 ^ 40 <= s <= 2 ^ 40 -> 0 <= n < NSEC ->
  (- B <= inject_Z s - 1)%Q -> (inject_Z s + 2 <= B)%Q ->
  exists v, isd (sancus_time_ts_to_fp (mk_ts s n)) v /\
    (v - inject_Z s - inject_Z n * (1 # 1000000000) <= (B + 1) * u)%Q /\
    (- ((B + 1) * u) <= v - inject_Z s - inject_Z n * (1 # 1000000000))%Q /\
    (n = 0 -> (v == inject_Z s)%Q).
Proof.
  intros Hs Hn Bl Bu. unfold sancus_time_ts_to_fp. cbn [tv_sec tv_nsec].
  destruct (inj_bounds _ _ s Hs) as [S0 S1].
  change (inject_Z (- 2 ^ 40)) with (-1099511627776 # 1)%Q in S0.
  change (inject_Z (2 ^ 40)) with (1099511627776 # 1)%Q in S1.
  destruct (inj_bounds 0 999999999 n ltac:(unfold NSEC in *; lia)) as [N0 N1].
  change (inject_Z 0) with 0%Q in N0. change (inject_Z 999999999) with (999999999 # 1)%Q in N1.
  assert (Hdn : isd (d_of_Z n) (inject_Z n)) by (apply d_of_Z_exact; unfold NSEC in *; lia).
  assert (Hb : isd (d_of_Z 1000000000) (1000000000 # 1)) by (apply (d_of_Z_exact 1000000000); lia).
  assert (En : (inject_Z n / (1000000000 # 1) == inject_Z n * (1 # 1000000000))%Q) by reflexivity.
  assert (Hcase : n = 0 \/ (1 <= inject_Z n)%Q)
    by (destruct (decide (n = 0)); [by left|right; change 1%Q with (inject_Z 1); rewrite inj_le; lia]).
  destruct (d_div_rounds _ _ _ _ Hdn Hb) as (x & Hx & Rx); [lra| |].
  { eapply tame_proper; [symmetry; exact En|].
    apply tame_range; [|lra|lra]. destruct Hcase as [->|]; [by left|right; left; lra]. }
  apply (rounds_proper _ _ _ En) in Rx.
  assert (Hx0 : n = 0 -> (x == 0)%Q).
  { intros ->. change (inject_Z 0) with 0%Q in *. round_within Rx 0%Q. lra. }
  round_within Rx 1%Q.
  destruct (d_add_rounds _ (d_of_Z s) x (inject_Z s) Hx (d_of_Z_exact s ltac:(lia)))
    as (v & Hv & Rv).
  { assert (Hs' : s = 0 \/ (1 <= inject_Z s)%Q \/ (inject_Z s <= -1 # 1)%Q).
    { destruct (Z.lt_trichotomy s 0) as [|[|]];
        [right; right; change (-1 # 1)%Q with (inject_Z (-1))|by left|right; left; change 1%Q with (inject_Z 1)];
        rewrite inj_le; lia. }
    apply tame_range; [|lra|lra].
    destruct Hs' as [->|[|]]; change (inject_Z 0) with 0%Q in *; [|right; left|right; right; lra];
      (destruct Hcase as [E|]; [specialize (Hx0 E)|]); [by left; lra|right; left; lra|lra|lra]. }
  exists v. split; [done|].
  assert (Hex : n = 0 -> (v == inject_Z s)%Q).
  { intros E. specialize (Hx0 E). rewrite (proj2 Rv); [lra|].
    eapply representable_proper; [|apply (representable_Z s); lia]. lra. }
  destruct (proj1 Rv B) as [L1 U1]; [lra|lra|]. unfold u in *. split; [lra|]. split; [lra|done].
Qed.

(** C26. A non-negative canonical duration of less than [2^22] seconds, about
    48 days, survives the way through a [double] and back to the nanosecond.
    A time of day does not: at [1600000000s] a nanosecond is below the
    precision. *)
Theorem timespec_fp_roundtrip t :
  nonneg t -> tv_sec t < 2 ^ 22 ->
  sancus_time_fp_to_ts (sancus_time_ts_to_fp t) = Ret t /\
  sancus_time_fp_to_ts (sancus_time_ts_to_fp (mk_ts 1600000000 1)) = Ret (mk_ts 1600000000 0).
Proof.
  intros [Hs0 Hn] Hs. split; [|vm_compute; reflexivity]. destruct t as [s n]. cbn [tv_sec tv_nsec] in *.
  destruct (inj_bounds 0 4194303 s ltac:(lia)) as [S0 S1].
  change (inject_Z 0) with 0%Q in S0. change (inject_Z 4194303) with (4194303 # 1)%Q in S1.
  destruct (inj_bounds 0 999999999 n ltac:(unfold NSEC in *; lia)) as [N0 N1].
  change (inject_Z 0) with 0%Q in N0. change (inject_Z 999999999) with (999999999 # 1)%Q in N1.
  destruct (ts_to_fp_value s n (4194305 # 1)) as (v & Hv & U & L & H0); [lia|done|lra|lra|].
  unfold Double.u in *.
  assert (Hcase : n = 0 \/ (1 <= inject_Z n)%Q)
    by (destruct (decide (n = 0)); [by left|right; change 1%Q with (inject_Z 1); rewrite inj_le; lia]).
  destruct Hcase as [->|Hn1].
  - specialize (H0 eq_refl). change (inject_Z 0) with 0%Q in *.
    apply (fp_to_ts_near _ v); [done|lia|done|lra|lra|by left|..];
      change (inject_Z 0) with 0%Q; lra.
  - apply (fp_to_ts_near _ v); [done|lia|done|lra|lra|right; lra|lra|lra].
Qed.

Lemma timespec_fp_roundtrip_witness :
  sancus_time_fp_to_ts (sancus_time_ts_to_fp (T 86400 125)) = Ret (T 86400 125) /\
  sancus_time_fp_to_ts (sancus_time_ts_to_fp (mk_ts 1600000000 1)) = Ret (mk_ts 1600000000 0).
Proof. apply (timespec_fp_roundtrip (T 86400 125)); vm_compute; intuition discriminate. Defined.

(** Below minus one second neither direction is right.  The [double] made
    of a canonical duration of [s < 0] seconds and [n] nanoseconds lies within
    a nanosecond of [s + n] and not of its value [s - n]; and
    the duration made from the [double] of [-(s + r/1000)] seconds has two
    negative parts, one nanosecond short, and is not canonical. *)
Theorem negative_fp_wrong :
  (forall s n, - 2 ^ 22 < s < 0 -> 0 <= n < NSEC ->
     exists v, isd (sancus_time_ts_to_fp (mk_ts s n)) v /\
       let w := inject_Z (ns_of (mk_ts s n) + 2 * n) in
       (w - 1 < v * inject_Z NSEC)%Q /\ (v * inject_Z NSEC < w + 1)%Q) /\
  (forall s r, 1 <= s <= 2147482 -> 1 <= r <= 999 ->
     exists d, sancus_time_ms_to_fp (- (s * 1000 + r)) = Ret d /\
       sancus_time_fp_to_ts d = Ret (mk_ts (- s) (1 - r * 1000000)) /\
       ~ canonical (mk_ts (- s) (1 - r * 1000000))).
Proof.
  split.
  - intros s n Hs Hn.
    destruct (inj_bounds (-4194303) (-1) s ltac:(lia)) as [S0 S1].
    change (inject_Z (-4194303)) with (-4194303 # 1)%Q in S0.
    change (inject_Z (-1)) with (-1 # 1)%Q in S1.
    destruct (ts_to_fp_value s n (4194305 # 1)) as (v & Hv & U & L & _); [lia|done|lra|lra|].
    unfold Double.u in *. exists v. split; [done|]. rewrite ns_of_neg by lia.
    replace (s * NSEC - n + 2 * n) with (s * NSEC + n) by lia. cbv zeta.
    rewrite inject_Z_plus, inject_Z_mult. change (inject_Z NSEC) with (1000000000 # 1)%Q. lra.
  - intros s r Hs Hr. set (ms := - (s * 1000 + r)).
    assert (Hms : INT_MIN < ms <= INT_MAX) by (unfold ms; cbv_bounds; lia).
    destruct (ms_to_fp_value ms Hms) as (d & v & E & Hd & Hu & Hl & H0).
    replace (Z.abs ms / 1000) with s in * by (unfold ms; Z.to_euclidean_division_equations; lia).
    replace (Z.abs ms mod 1000) with r in * by (unfold ms; Z.to_euclidean_division_equations; lia).
    rewrite (proj2 (Z.ltb_lt ms 0)) in Hd by (unfold ms; lia).
    destruct (inj_bounds 1 999 r Hr) as [R0 R1].
    change (inject_Z 1) with 1%Q in *. change (inject_Z 999) with (999 # 1)%Q in *.
    exists d. split; [done|]. split; [|unfold canonical, NSEC; cbn; lia].
    apply (fp_to_ts_neg d (- v)); [done|lia|unfold NSEC; lia|lra|lra|..];
      rewrite inject_Z_mult; change (inject_Z 1000000) with (1000000 # 1)%Q; lra.
Qed.
