(* ===== verification/Bits.v ===== *)
(** * Bits

    The mask helpers of include/sancus/bit.h on [unsigned long].  Shifting by
    the width of the type or more is undefined. *)

From S2P Require Import Prelude.

(** [value << n] and [value >> n] on [unsigned long]. *)
Definition shl_ul (v n : Z) : outcome Z :=
  if (0 <=? n) && (n <? 64) then Ret (u64 (Z.shiftl v n)) else Undef.

Definition shr_ul (v n : Z) : outcome Z :=
  if (0 <=? n) && (n <? 64) then Ret (Z.shiftr v n) else Undef.

(** [~v] on [unsigned long]. *)
Definition not_ul (v : Z) : Z := u64 (Z.lnot v).

(** [BIT] @ include/sancus/bit.h:4-6. *)
Definition BIT (n : Z) : outcome Z := shl_ul 1 n.

(** [sancus_bit_cms] @ include/sancus/bit.h:9-17. *)
Definition sancus_bit_cms (old value mask shift : Z) : outcome Z :=
  m ← shl_ul mask shift;
  let old := Z.land old (not_ul m) in
  value ← shl_ul (Z.land value mask) shift;
  Ret (Z.lor value old).

(** [sancus_bit_unmask] @ include/sancus/bit.h:20-25. *)
Definition sancus_bit_unmask (value mask shift : Z) : outcome Z :=
  v ← shr_ul value shift; Ret (Z.land v mask).

(** [sancus_bit_has_bit] @ include/sancus/bit.h:27-30. *)
Definition sancus_bit_has_bit (mask bit : Z) : outcome Z :=
  b ← BIT bit; Ret (Z.b2z (negb (Z.land mask b =? 0))).

(** [sancus_bit_has_flag] @ include/sancus/bit.h:32-35. *)
Definition sancus_bit_has_flag (flags flag : Z) : Z :=
  Z.b2z (Z.land flags flag =? flag).

(** ** Lemmas *)

Lemma testbit_u64 v i : Z.testbit (u64 v) i = (i <? 64) && Z.testbit v i.
Proof.
  unfold uwrap. destruct (Z.ltb_spec i 64).
  - by rewrite Z.mod_pow2_bits_low.
  - rewrite Z.mod_pow2_bits_high; [done|lia].
Qed.

Lemma testbit_range v i : 0 <= v < 2 ^ 64 -> 64 <= i -> Z.testbit v i = false.
Proof.
  intros Hv Hi. rewrite <- (uwrap_id 64 v) by done. rewrite testbit_u64.
  by rewrite (proj2 (Z.ltb_ge i 64)).
Qed.

Lemma shl_ul_ok v n : 0 <= n < 64 -> shl_ul v n = Ret (u64 (Z.shiftl v n)).
Proof.
  intros. unfold shl_ul. by rewrite (proj2 (Z.leb_le 0 n)), (proj2 (Z.ltb_lt n 64)) by lia.
Qed.

Lemma shr_ul_ok v n : 0 <= n < 64 -> shr_ul v n = Ret (Z.shiftr v n).
Proof.
  intros. unfold shr_ul. by rewrite (proj2 (Z.leb_le 0 n)), (proj2 (Z.ltb_lt n 64)) by lia.
Qed.

Lemma bits_bound v :
  0 <= v -> (forall i, 64 <= i -> Z.testbit v i = false) -> v < 2 ^ 64.
Proof.
  intros Hv Hb. destruct (Z.ltb_spec v (2 ^ 64)); [done|].
  assert (64 <= Z.log2 v) by (apply Z.log2_le_pow2; lia).
  specialize (Hb (Z.log2 v) ltac:(done)). rewrite Z.bit_log2 in Hb by lia. done.
Qed.

(** Bit [i] of the result of [sancus_bit_cms]. *)
Lemma cms_testbit old value mask shift :
  0 <= old < 2 ^ 64 -> 0 <= shift < 64 ->
  exists r, sancus_bit_cms old value mask shift = Ret r /\ 0 <= r < 2 ^ 64 /\
    forall i, 0 <= i < 64 ->
      Z.testbit r i = if (shift <=? i) && Z.testbit mask (i - shift)
                      then Z.testbit value (i - shift) else Z.testbit old i.
Proof.
  intros Hold Hs. unfold sancus_bit_cms. rewrite !shl_ul_ok by done. run.
  eexists. split; [done|].
  assert (Hbits : forall i, 0 <= i -> Z.testbit
    (Z.lor (u64 (Z.shiftl (Z.land value mask) shift))
       (Z.land old (not_ul (u64 (Z.shiftl mask shift))))) i =
    (i <? 64) && if (shift <=? i) && Z.testbit mask (i - shift)
                 then Z.testbit value (i - shift) else Z.testbit old i).
  { intros i Hi. unfold not_ul.
    rewrite Z.lor_spec, Z.land_spec, !testbit_u64, Z.lnot_spec, testbit_u64 by done.
    destruct (Z.ltb_spec i 64); cbn [andb].
    - destruct (Z.leb_spec shift i); cbn [andb].
      + rewrite !Z.shiftl_spec, Z.land_spec by lia.
        by destruct (Z.testbit mask _), (Z.testbit value _), (Z.testbit old _).
      + rewrite !Z.shiftl_spec_low by lia. by rewrite andb_true_r.
    - by rewrite andb_false_r. }
  split.
  - assert (0 <= Z.lor (u64 (Z.shiftl (Z.land value mask) shift))
       (Z.land old (not_ul (u64 (Z.shiftl mask shift))))).
    { apply Z.lor_nonneg. split; [apply uwrap_range; lia|]. apply Z.land_nonneg. lia. }
    split; [done|]. apply bits_bound; [done|]. intros i Hi. rewrite Hbits by lia.
    by rewrite (proj2 (Z.ltb_ge i 64)).
  - intros i Hi. rewrite Hbits by lia. by rewrite (proj2 (Z.ltb_lt i 64)) by lia.
Qed.

(** ** Properties *)

(** [sancus_bit_cms] replaces exactly the bits of the field [mask << shift]
    by those of [value] and keeps all the others, and [sancus_bit_unmask] reads
    the field back: the round trip gives [value & mask] for every 32-bit mask
    that the shift does not push out of the word. *)
Theorem cms_unmask_roundtrip old value mask shift :
  0 <= old < 2 ^ 64 -> 0 <= value < 2 ^ 64 -> 0 <= shift < 64 ->
  0 <= mask < 2 ^ 32 -> mask * 2 ^ shift < 2 ^ 64 ->
  exists r, sancus_bit_cms old value mask shift = Ret r /\ 0 <= r < 2 ^ 64 /\
    (forall i, 0 <= i < 64 ->
       Z.testbit r i = if (shift <=? i) && Z.testbit mask (i - shift)
                       then Z.testbit value (i - shift) else Z.testbit old i) /\
    sancus_bit_unmask r mask shift = Ret (Z.land value mask).
Proof.
  intros Hold Hval Hs Hm Hfit.
  destruct (cms_testbit old value mask shift) as (r & Hr & Hb & Hbits); try done.
  exists r. do 3 (split; [done|]). unfold sancus_bit_unmask. rewrite shr_ul_ok by done. run.
  f_equal. apply Z.bits_inj'. intros i Hi. rewrite !Z.land_spec, Z.shiftr_spec by done.
  destruct (Z.testbit mask i) eqn:Hmi; [|by rewrite !andb_false_r].
  assert (i + shift < 64).
  { destruct (Z.ltb_spec (i + shift) 64); [done|].
    assert (Z.testbit (Z.shiftl mask shift) (i + shift) = false).
    { apply testbit_range; [|done]. rewrite Z.shiftl_mul_pow2 by lia.
      pose proof (pow2_pos shift). nia. }
    rewrite Z.shiftl_spec in H0 by lia. replace (i + shift - shift) with i in H0 by lia.
    congruence. }
  rewrite Hbits by lia. replace (i + shift - shift) with i by lia.
  by rewrite (proj2 (Z.leb_le _ _)), Hmi by lia.
Qed.

Lemma cms_unmask_roundtrip_witness :
  exists r, sancus_bit_cms 255 5 7 4 = Ret r /\ 0 <= r < 2 ^ 64 /\
    (forall i, 0 <= i < 64 ->
       Z.testbit r i = if (4 <=? i) && Z.testbit 7 (i - 4)
                       then Z.testbit 5 (i - 4) else Z.testbit 255 i) /\
    sancus_bit_unmask r 7 4 = Ret (Z.land 5 7).
Proof. apply (cms_unmask_roundtrip 255 5 7 4); vm_compute; try split; discriminate || reflexivity. Defined.

Example cms_sample : sancus_bit_cms 255 5 7 4 = Ret 223.
Proof. reflexivity. Qed.
