(* ===== verification/CLib.v ===== *)
(** * CLib

    What the sources use of the C library's number conversions: [strtol] and
    [strtoul] in base 10, and the [printf] conversions for integers. *)

From S2P Require Import Prelude.

(** ** Reading decimal numbers *)

(** [isspace] in the C locale. *)
Definition is_space (b : byte) : bool :=
  (b2z b =? 32) || ((9 <=? b2z b) && (b2z b <=? 13)).

Definition is_digit (b : byte) : bool := (48 <=? b2z b) && (b2z b <=? 57).

Definition digit_val (b : byte) : Z := b2z b - 48.

(** The value of a sequence of digits. *)
Definition dec_val (ds : list byte) : Z := foldl (fun acc b => acc * 10 + digit_val b) 0 ds.

(** Length of the longest prefix of the array that satisfies [p].  The scan
    reads one byte more; running off the array is undefined. *)
Fixpoint span_len (p : byte -> bool) (s : list byte) : outcome Z :=
  match s with
  | [] => Undef
  | b :: s => if p b then (n ← span_len p s; Ret (1 + n)) else Ret 0
  end.

(** The parts [strtol] sees in the string [s]: blanks, sign and digits, as
    (negative?, first digit, number of digits). *)
Definition scan_number (s : list byte) : outcome (bool * Z * Z) :=
  w ← span_len is_space s;
  c ← load1 s w;
  let neg := bool_decide (c = Byte.x2d) in
  let i := if neg || bool_decide (c = Byte.x2b) then w + 1 else w in
  n ← span_len is_digit (drop (Z.to_nat i) s);
  Ret (neg, i, n).

(** [strtol (s, &end, 10)]: the value, clamped to [long], and the index [end].
    Without a digit nothing is converted and [end] is [s]. *)
Definition c_strtol (s : list byte) : outcome (Z * Z) :=
  '(neg, i, n) ← scan_number s;
  if n =? 0 then Ret (0, 0) else
  let m := dec_val (sub s i n) in
  Ret (Z.max LONG_MIN (Z.min LONG_MAX (if (neg : bool) then - m else m)), i + n).

(** [strtoul]: a minus sign negates modulo [2^64]; too large is [ULONG_MAX]. *)
Definition c_strtoul (s : list byte) : outcome (Z * Z) :=
  '(neg, i, n) ← scan_number s;
  if n =? 0 then Ret (0, 0) else
  let m := dec_val (sub s i n) in
  Ret (if m >? ULONG_MAX then ULONG_MAX else if (neg : bool) then u64 (- m) else m, i + n).

(** ** Writing numbers *)

Definition digit (z : Z) : byte := z2b (48 + z).

(** The decimal digits of [z], at most [fuel] of them. *)
Fixpoint dec_digits (fuel : nat) (z : Z) : list byte :=
  match fuel with
  | O => []
  | S fuel => if z <? 10 then [digit z] else dec_digits fuel (z / 10) ++ [digit (z mod 10)]
  end.

(** [%u], [%zu]: twenty digits are enough for 64 bits. *)
Definition fmt_u (z : Z) : list byte := dec_digits 20 z.

(** [%d], [%ld]. *)
Definition fmt_d (z : Z) : list byte := if z <? 0 then lit "-" ++ fmt_u (- z) else fmt_u z.

(** Zero padding on the left to [w] characters. *)
Definition pad0 (w : nat) (s : list byte) : list byte :=
  replicate (w - length s) Byte.x30 ++ s.

(** [%0<w>ld] of a number that is not negative. *)
Definition fmt_0d (w : nat) (z : Z) : list byte := pad0 w (fmt_u z).

(** A lower-case hexadecimal digit. *)
Definition hex_digit (z : Z) : byte :=
  if z <? 10 then z2b (48 + z) else z2b (87 + z).

(** The last [n] hexadecimal digits of [z]. *)
Fixpoint hex_fixed (n : nat) (z : Z) : list byte :=
  match n with
  | O => []
  | S n => hex_fixed n (z / 16) ++ [hex_digit (z mod 16)]
  end.

(** [%08x] of an [unsigned], [%02x] of a value below 256. *)
Definition fmt_08x (z : Z) : list byte := hex_fixed 8 z.
Definition fmt_02x (z : Z) : list byte := hex_fixed 2 z.

(** ** Lemmas *)

Lemma length_hex_fixed n z : length (hex_fixed n z) = n.
Proof. revert z. induction n; intros; simpl; [done|]. rewrite length_app, IHn. simpl. lia. Qed.

Lemma is_digit_digit z : 0 <= z < 10 -> is_digit (digit z) = true /\ digit_val (digit z) = z.
Proof.
  intros. unfold is_digit, digit_val, digit. rewrite b2z_z2b, Z.mod_small by lia.
  rewrite andb_true_iff, !Z.leb_le. lia.
Qed.

Lemma dec_val_snoc ds b : dec_val (ds ++ [b]) = dec_val ds * 10 + digit_val b.
Proof. unfold dec_val. by rewrite foldl_snoc. Qed.

Lemma dec_digits_spec fuel z :
  0 <= z < 10 ^ Z.of_nat fuel ->
  dec_val (dec_digits fuel z) = z /\ Forall (fun b => is_digit b = true) (dec_digits fuel z) /\
  (fuel <> O -> dec_digits fuel z <> []).
Proof.
  revert z. induction fuel as [|fuel IH]; intros z Hz; cbn [dec_digits].
  { replace z with 0 by (simpl in Hz; lia). done. }
  rewrite Nat2Z.inj_succ, Z.pow_succ_r in Hz by lia.
  destruct (Z.ltb_spec z 10).
  - destruct (is_digit_digit z) as [H1 H2]; [lia|]. split_and!; [|by repeat constructor|done].
    change [digit z] with ([] ++ [digit z]). rewrite dec_val_snoc, H2. unfold dec_val; simpl. lia.
  - pose proof (Z.mod_pos_bound z 10 ltac:(lia)).
    destruct (is_digit_digit (z mod 10)) as [H1 H2]; [lia|].
    destruct (IH (z / 10)) as (Hv & Hd & _).
    { split; [apply Z.div_pos; lia|]. apply Z.div_lt_upper_bound; lia. }
    split_and!.
    + rewrite dec_val_snoc, Hv, H2. pose proof (Z.div_mod z 10). lia.
    + apply Forall_app; split; [done|]. by repeat constructor.
    + intros _ E. by apply app_nil in E as [_ ?].
Qed.

Lemma fmt_u_spec z :
  0 <= z <= ULONG_MAX ->
  dec_val (fmt_u z) = z /\ Forall (fun b => is_digit b = true) (fmt_u z) /\ fmt_u z <> [].
Proof.
  intros. unfold fmt_u. destruct (dec_digits_spec 20 z) as (? & ? & Hne).
  - change (10 ^ Z.of_nat 20) with 100000000000000000000. bounds.
  - split_and!; try done. by apply Hne.
Qed.

Lemma length_dec_digits fuel n z :
  0 <= z < 10 ^ Z.of_nat n -> (1 <= n)%nat -> (length (dec_digits fuel z) <= n)%nat.
Proof.
  revert n z. induction fuel as [|fuel IH]; intros n z Hz Hn; cbn [dec_digits]; [simpl; lia|].
  destruct (Z.ltb_spec z 10); [simpl; lia|].
  destruct n as [|n]; [lia|]. rewrite Nat2Z.inj_succ, Z.pow_succ_r in Hz by lia.
  destruct n as [|n]; [simpl in Hz; lia|].
  rewrite length_app. simpl. enough (length (dec_digits fuel (z / 10)) <= S n)%nat by lia.
  apply IH; [|lia]. split; [apply Z.div_pos; lia|]. apply Z.div_lt_upper_bound; lia.
Qed.

Lemma span_len_app p a c t :
  Forall (fun b => p b = true) a -> p c = false -> span_len p (a ++ c :: t) = Ret (zlen a).
Proof.
  intros Ha Hc. induction Ha as [|b a Hb Ha IH]; simpl; [by rewrite Hc|].
  rewrite Hb, IH. run. by rewrite zlen_cons.
Qed.

Lemma span_len_inv p s n :
  span_len p s = Ret n ->
  exists a c t, s = a ++ c :: t /\ n = zlen a /\ Forall (fun b => p b = true) a /\ p c = false.
Proof.
  revert n. induction s as [|b s IH]; intros n; simpl; [discriminate|].
  destruct (p b) eqn:Hb.
  - intros H. inv_bind H. injection H as <-. apply IH in Hb0 as (a & c & t & -> & -> & Ha & Hc).
    exists (b :: a), c, t. rewrite zlen_cons. repeat split; [|done]. by constructor.
  - intros [= <-]. exists [], b, s. by repeat split.
Qed.

Lemma is_space_not_digit b : is_digit b = true -> is_space b = false.
Proof.
  unfold is_digit, is_space. rewrite andb_true_iff, !Z.leb_le. intros.
  apply orb_false_iff. split; [by apply Z.eqb_neq; lia|].
  apply andb_false_iff. right. apply Z.leb_gt. lia.
Qed.

Lemma is_digit_range b : is_digit b = true <-> 48 <= b2z b <= 57.
Proof. unfold is_digit. by rewrite andb_true_iff, !Z.leb_le. Qed.

Lemma fmt_u_cons z : 0 <= z <= ULONG_MAX ->
  exists d ds, fmt_u z = d :: ds /\ is_digit d = true.
Proof.
  intros Hz. destruct (fmt_u_spec z Hz) as (_ & Hd & Hne).
  destruct (fmt_u z) as [|d ds]; [done|]. exists d, ds. by inversion Hd.
Qed.

(** What [strtol] sees in a plain decimal string. *)
Lemma scan_number_u ds :
  Forall (fun b => is_digit b = true) ds -> ds <> [] ->
  scan_number (cstr ds) = Ret (false, 0, zlen ds).
Proof.
  intros Hd Hne. destruct ds as [|d ds]; [done|]. unfold scan_number, cstr.
  assert (is_digit d = true) as Hd0 by by inversion Hd.
  cbn [app span_len]. rewrite is_space_not_digit by done. run.
  change (load1 (d :: ds ++ [Byte.x00]) 0) with (Ret d). run.
  assert (48 <= b2z d) by (apply is_digit_range in Hd0; lia).
  rewrite !bool_decide_false by (intros ->; by cbv in H). cbn [orb].
  change (drop (Z.to_nat 0) (d :: ds ++ [Byte.x00])) with ((d :: ds) ++ Byte.x00 :: []).
  rewrite span_len_app by done. by run.
Qed.

Lemma scan_number_minus ds :
  Forall (fun b => is_digit b = true) ds ->
  scan_number (cstr (lit "-" ++ ds)) = Ret (true, 1, zlen ds).
Proof.
  intros Hd. unfold scan_number. pose proof (span_len_app is_digit ds Byte.x00 [] Hd eq_refl) as H.
  change (cstr (lit "-" ++ ds)) with (Byte.x2d :: ds ++ [Byte.x00]).
  change (span_len is_space (Byte.x2d :: ds ++ [Byte.x00])) with (Ret 0). run.
  change (load1 (Byte.x2d :: ds ++ [Byte.x00]) 0) with (Ret Byte.x2d). run. cbn [orb].
  rewrite (bool_decide_true (Byte.x2d = Byte.x2d)) by done.
  change (drop (Z.to_nat (if true || bool_decide (Byte.x2d = Byte.x2b) then 0 + 1 else 0))
    (Byte.x2d :: ds ++ [Byte.x00])) with (ds ++ Byte.x00 :: []). rewrite H. by run.
Qed.

(** [strtol] reads back what [%ld] prints. *)
Lemma strtol_fmt_d z :
  LONG_MIN <= z <= LONG_MAX -> c_strtol (cstr (fmt_d z)) = Ret (z, zlen (fmt_d z)).
Proof.
  intros Hz. unfold c_strtol, fmt_d. destruct (Z.ltb_spec z 0).
  - destruct (fmt_u_spec (- z)) as (Hv & Hd & Hne); [bounds|].
    rewrite scan_number_minus by done. run.
    destruct (Z.eqb_spec (zlen (fmt_u (- z))) 0) as [E|_]; [by apply zlen_zero in E|].
    change (cstr (lit "-" ++ fmt_u (- z))) with (Byte.x2d :: cstr (fmt_u (- z))).
    change (sub (Byte.x2d :: cstr (fmt_u (- z))) 1) with (sub (cstr (fmt_u (- z))) 0).
    unfold cstr. rewrite sub_app_l by lia. rewrite sub_all, Hv, zlen_app.
    change (zlen (lit "-")) with 1. do 2 f_equal. bounds.
  - destruct (fmt_u_spec z) as (Hv & Hd & Hne); [bounds|].
    rewrite scan_number_u by done. run.
    destruct (Z.eqb_spec (zlen (fmt_u z)) 0) as [E|_]; [by apply zlen_zero in E|].
    unfold cstr. rewrite sub_app_l, sub_all, Hv by lia. do 2 f_equal. bounds.
Qed.

Lemma strtoul_fmt_u z :
  0 <= z <= ULONG_MAX -> c_strtoul (cstr (fmt_u z)) = Ret (z, zlen (fmt_u z)).
Proof.
  intros Hz. unfold c_strtoul. destruct (fmt_u_spec z) as (Hv & Hd & Hne); [done|].
  rewrite scan_number_u by done. run.
  destruct (Z.eqb_spec (zlen (fmt_u z)) 0) as [E|_]; [by apply zlen_zero in E|].
  unfold cstr. rewrite sub_app_l, sub_all, Hv by lia.
  destruct (Z.gtb_spec z ULONG_MAX); [lia|]. done.
Qed.

Lemma digits_no_nul ds : Forall (fun b => is_digit b = true) ds -> no_nul ds.
Proof.
  intros H Hin. eapply Forall_forall in H; [|exact Hin]. by cbv in H.
Qed.
