(* ===== verification/TestsTime.v ===== *)
(** * TestsTime

    The text of a duration ([TIMESPEC_FMT] and [TIMESPEC_SPLIT] of
    include/sancus/time.h) and the program that tests the durations with it,
    src/tests/time.c, run on the definitions of [Time]. *)

From S2P Require Import Prelude Time CLib.

(** ** The text of a duration *)

(** [TIMESPEC_FMT, TIMESPEC_SPLIT] @ include/sancus/time.h:28-34. The text
    [%s%ld.%09ld]. *)
Definition timespec_text (t : timespec) : outcome (list byte) :=
  n ← (if tv_nsec t <? 0 then ck_s64 (- tv_nsec t) else Ret (tv_nsec t));
  Ret ((if tv_nsec t <? 0 then lit "-" else []) ++ fmt_d (tv_sec t) ++ lit "." ++ fmt_0d 9 n).

Lemma dec_val_pad0 w s : dec_val (pad0 w s) = dec_val s.
Proof.
  unfold pad0. induction (w - length s)%nat as [|k IH]; [done|]. cbn [replicate app]. exact IH.
Qed.

Lemma fmt_0d_spec w z :
  0 <= z < 10 ^ Z.of_nat w -> (1 <= w <= 19)%nat ->
  length (fmt_0d w z) = w /\ Forall (fun b => is_digit b = true) (fmt_0d w z) /\
  dec_val (fmt_0d w z) = z.
Proof.
  intros Hz Hw.
  assert (Hu : z <= ULONG_MAX).
  { pose proof (Z.pow_le_mono_r 10 (Z.of_nat w) 19 ltac:(lia) ltac:(lia)). bounds. }
  destruct (fmt_u_spec z ltac:(lia)) as (Hv & Hd & _). unfold fmt_0d.
  pose proof (length_dec_digits 20 w z Hz ltac:(lia)) as Hl. fold (fmt_u z) in Hl.
  rewrite dec_val_pad0. split_and!; [| |done].
  - unfold pad0. rewrite length_app, length_replicate. lia.
  - unfold pad0. apply Forall_app; split; [|done]. apply Forall_replicate. done.
Qed.

(** The text of a canonical duration is its value in decimal: a minus
    sign exactly when it is negative, the digits of the seconds, a point and
    nine digits that together are the magnitude in nanoseconds. *)
Theorem timespec_text_exact t :
  canonical t -> LONG_MIN < tv_sec t <= LONG_MAX ->
  exists s n, timespec_text t = Ret ((if ns_of t <? 0 then lit "-" else []) ++ s ++ lit "." ++ n) /\
    Forall (fun b => is_digit b = true) (s ++ n) /\ s <> [] /\ length n = 9%nat /\
    dec_val s * NSEC + dec_val n = Z.abs (ns_of t).
Proof.
  intros Hc Hs. destruct t as [sec ns]. unfold canonical, NSEC in Hc. cbn [tv_sec tv_nsec] in *.
  exists (fmt_u (Z.abs sec)), (fmt_0d 9 (Z.abs ns)).
  destruct (fmt_u_spec (Z.abs sec)) as (Hv & Hd & Hne); [bounds|].
  destruct (fmt_0d_spec 9 (Z.abs ns)) as (Hl & Hd' & Hv');
    [change (10 ^ Z.of_nat 9) with 1000000000; lia|lia|].
  split.
  - unfold timespec_text, fmt_d. cbn [tv_sec tv_nsec].
    destruct (Z.ltb_spec ns 0); [rewrite ck_s64_ok by bounds|]; run; f_equal;
      destruct (Z.ltb_spec sec 0); unfold ns_of, NSEC; cbn [tv_sec tv_nsec];
      rewrite ?(proj2 (Z.ltb_lt sec 0)), ?(proj2 (Z.ltb_ge sec 0)) by lia;
      try lia;
      [rewrite (proj2 (Z.ltb_lt _ 0)) by lia|rewrite (proj2 (Z.ltb_lt _ 0)) by lia
      |rewrite (proj2 (Z.ltb_ge _ 0)) by lia];
      rewrite ?app_nil_l, <- ?app_assoc; repeat (f_equal; try lia).
  - split_and!; [by apply Forall_app|done|done|]. rewrite Hv, Hv'.
    destruct (ns_of_cases sec ns) as [[? ->]|[? ->]]; unfold NSEC; lia.
Qed.

Lemma timespec_text_exact_witness :
  exists s n, timespec_text (T (-3) 250) =
      Ret ((if ns_of (T (-3) 250) <? 0 then lit "-" else []) ++ s ++ lit "." ++ n) /\
    Forall (fun b => is_digit b = true) (s ++ n) /\ s <> [] /\ length n = 9%nat /\
    dec_val s * NSEC + dec_val n = Z.abs (ns_of (T (-3) 250)).
Proof.
  apply (timespec_text_exact (T (-3) 250)).
  - apply (bool_decide_unpack _). vm_compute. exact I.
  - vm_compute. split; [reflexivity|discriminate].
Defined.

(** ** The test program

    A check prints a line, on [stdout] when it passes and on [stderr] when it
    does not, and counts a failure. *)

Inductive stream_of := Stdout | Stderr.

Definition printed : Type := list (stream_of * list byte).

Definition check : Type := outcome (Z * printed).

Definition line (parts : list (list byte)) : list byte := concat parts ++ [Byte.x0a].

(** [test_eq__long] @ src/tests/time.c:14-25. *)
Definition test_eq__long (fn : list byte) (v0 v1 v2 : Z) : check :=
  if v1 =? v2 then
    Ret (0, [(Stdout, line [fn; lit "("; fmt_d v0; lit ") -> "; fmt_d v1])])
  else
    Ret (1, [(Stderr, line [fn; lit "("; fmt_d v0; lit ") -> "; fmt_d v1;
                            lit " expected:"; fmt_d v2])]).

(** [test_eq_long] @ src/tests/time.c:26-26. The function under its name. *)
Definition test_eq_long (F : list byte * (Z -> Z)) (X Y : Z) : check :=
  test_eq__long F.1 X (F.2 X) Y.

(** The two texts of a result, printed for a value [fn(arguments)]. *)
Definition test_time (fn : list byte) (args : list (list byte)) (v1 v2 : timespec) : check :=
  s1 ← timespec_text v1;
  if sancus_time_is_eq v1 v2 then
    Ret (0, [(Stdout, line ([fn; lit "("] ++ args ++ [lit ") -> "; s1]))])
  else
    s2 ← timespec_text v2;
    Ret (1, [(Stderr, line ([fn; lit "("] ++ args ++ [lit ") -> "; s1; lit " expected:"; s2]))]).

(** [test_eq__time] @ src/tests/time.c:28-46. *)
Definition test_eq__time (fn : list byte) (v0 v1 v2 : timespec) : check :=
  test_time fn [fmt_d (tv_sec v0); lit ","; fmt_d (tv_nsec v0)] v1 v2.

(** [test_eq_time] @ src/tests/time.c:47-49. *)
Definition test_eq_time (F : list byte * (Z -> Z -> outcome timespec)) (A0 B0 A1 B1 : Z) : check :=
  v1 ← F.2 A0 B0; test_eq__time F.1 (mk_ts A0 B0) v1 (mk_ts A1 B1).

(** [test_time_new] @ src/tests/time.c:51-72. *)
Definition test_time_new (v0 v2 : outcome timespec) : check :=
  v0 ← v0; v2 ← v2;
  '(v1, _) ← sancus_time_fix v0;
  test_time (lit "sancus_time_fix") [fmt_d (tv_sec v0); lit ","; fmt_d (tv_nsec v0)] v1 v2.

(** [test__t0] @ src/tests/time.c:77-93. *)
Definition test__t0 (fn : list byte) (v0 v1 v2 : timespec) : check :=
  s0 ← timespec_text v0; test_time fn [s0] v1 v2.

(** [test_t0] @ src/tests/time.c:95-95. *)
Definition test_t0 (F : list byte * (timespec -> outcome timespec)) (T0 T2 : outcome timespec) : check :=
  t0 ← T0; t2 ← T2; v1 ← F.2 t0; test__t0 (lit "sancus_time_" ++ F.1) t0 v1 t2.

(** [test__t1] @ src/tests/time.c:100-117. *)
Definition test__t1 (fn : list byte) (a b : timespec) (r0 r1 : Z) : check :=
  sa ← timespec_text a; sb ← timespec_text b;
  if r0 =? r1 then
    Ret (0, [(Stdout, line [fn; lit "("; sa; lit ", "; sb; lit ") -> "; fmt_d r0])])
  else
    Ret (1, [(Stderr, line [fn; lit "("; sa; lit ", "; sb; lit ") -> "; fmt_d r0;
                            lit " expected:"; fmt_d r1])]).

(** [test_t1] @ src/tests/time.c:119-119. A comparison as the [int] it is. *)
Definition test_t1 (F : list byte * (timespec -> timespec -> outcome bool))
    (A B : outcome timespec) (RC : Z) : check :=
  a ← A; b ← B; r ← F.2 a b; test__t1 F.1 a b (Z.b2z r) RC.

(** [test_time__add] @ src/tests/time.c:124-128. *)
Definition test_time__add (a b : timespec) : outcome timespec :=
  '(a, _) ← sancus_time_add a b; Ret a.

(** [test_time__sub] @ src/tests/time.c:130-134. *)
Definition test_time__sub (a b : timespec) : outcome timespec :=
  '(a, _) ← sancus_time_sub a b; Ret a.

(** [test_time__elapsed] @ src/tests/time.c:136-139. *)
Definition test_time__elapsed (a b : timespec) : outcome timespec := sancus_time_elapsed a b.

(** [test_time__left] @ src/tests/time.c:141-144. *)
Definition test_time__left (a b : timespec) : outcome timespec := sancus_time_left a b.

(** [test__t2] @ src/tests/time.c:146-164. *)
Definition test__t2 (fn : list byte) (a b c d : timespec) : check :=
  sa ← timespec_text a; sb ← timespec_text b; test_time fn [sa; lit ", "; sb] c d.

(** [test_t2] @ src/tests/time.c:166-166. *)
Definition test_t2 (F : list byte * (timespec -> timespec -> outcome timespec))
    (A B C : outcome timespec) : check :=
  a ← A; b ← B; d ← C; c ← F.2 a b; test__t2 (lit "sancus_time_" ++ F.1) a b c d.

(** [T] @ src/tests/time.c:170-170. *)
Definition T (S MS : Z) : outcome timespec := TIMESPEC_INIT_MS S MS.

(** [main, the checks] @ src/tests/time.c:176-263. In order. *)
Definition checks : list check :=
  [
   (* conversions *)
   test_eq_time (lit "TIMESPEC_INIT", fun s n => Ret (TIMESPEC_INIT s n)) 1 0 1 0;
   test_eq_time (lit "TIMESPEC_INIT", fun s n => Ret (TIMESPEC_INIT s n)) 1 2 1 2;
   test_eq_time (lit "TIMESPEC_INIT", fun s n => Ret (TIMESPEC_INIT s n)) 1 2000 1 2000;
   test_eq_time (lit "TIMESPEC_INIT_MS", TIMESPEC_INIT_MS) 1 0 1 0;
   test_eq_time (lit "TIMESPEC_INIT_MS", TIMESPEC_INIT_MS) 1 2 1 2000000;
   test_eq_long (lit "SEC_TO_NS", SEC_TO_NS) 1 1000000000;
   test_eq_long (lit "SEC_TO_US", SEC_TO_US) 1 1000000;
   test_eq_long (lit "SEC_TO_MS", SEC_TO_MS) 1 1000;
   test_eq_long (lit "MS_TO_NS", MS_TO_NS) 1 1000000;
   test_eq_long (lit "MS_TO_US", MS_TO_US) 1 1000;
   test_eq_long (lit "MS_TO_SEC", MS_TO_SEC) 1 0;
   test_eq_long (lit "MS_TO_SEC", MS_TO_SEC) 999 0;
   test_eq_long (lit "MS_TO_SEC", MS_TO_SEC) 1000 1;
   test_eq_long (lit "US_TO_NS", US_TO_NS) 1 1000;
   test_eq_long (lit "US_TO_MS", US_TO_MS) 1 0;
   test_eq_long (lit "US_TO_MS", US_TO_MS) 999 0;
   test_eq_long (lit "US_TO_MS", US_TO_MS) 1000 1;
   test_eq_long (lit "US_TO_SEC", US_TO_SEC) 1 0;
   test_eq_long (lit "US_TO_SEC", US_TO_SEC) 999 0;
   test_eq_long (lit "US_TO_SEC", US_TO_SEC) 999999 0;
   test_eq_long (lit "US_TO_SEC", US_TO_SEC) 1000000 1;
   test_eq_long (lit "NS_TO_US", NS_TO_US) 1 0;
   test_eq_long (lit "NS_TO_US", NS_TO_US) 999 0;
   test_eq_long (lit "NS_TO_US", NS_TO_US) 1000 1;
   test_eq_long (lit "NS_TO_MS", NS_TO_MS) 1 0;
   test_eq_long (lit "NS_TO_MS", NS_TO_MS) 999 0;
   test_eq_long (lit "NS_TO_MS", NS_TO_MS) 999999 0;
   test_eq_long (lit "NS_TO_MS", NS_TO_MS) 1000000 1;
   test_eq_long (lit "NS_TO_SEC", NS_TO_SEC) 1 0;
   test_eq_long (lit "NS_TO_SEC", NS_TO_SEC) 999 0;
   test_eq_long (lit "NS_TO_SEC", NS_TO_SEC) 999999 0;
   test_eq_long (lit "NS_TO_SEC", NS_TO_SEC) 999999999 0;
   test_eq_long (lit "NS_TO_SEC", NS_TO_SEC) 1000000000 1;
   (* struct sanitisation *)
   test_time_new (T 0 0) (T 0 0);
   test_time_new (T 1 10) (T 1 10);
   test_time_new (T 1 999) (T 1 999);
   test_time_new (T 1 1000) (T 2 0);
   test_time_new (T 1 1001) (T 2 1);
   test_time_new (T 1 (-1)) (T 0 999);
   (* negative *)
   test_t0 (lit "neg", sancus_time_neg) (T 0 0) (T 0 0);
   test_t0 (lit "neg", sancus_time_neg) (T 0 1) (T 0 (-1));
   test_t0 (lit "neg", sancus_time_neg) (T 0 (-1)) (T 0 1);
   test_t0 (lit "neg", sancus_time_neg) (T 1 0) (T (-1) 0);
   test_t0 (lit "neg", sancus_time_neg) (T (-1) 0) (T 1 0);
   test_t0 (lit "neg", sancus_time_neg) (T 1 2) (T (-1) 2);
   test_t0 (lit "neg", sancus_time_neg) (T (-1) 2) (T 1 2);
   (* timespec compare *)
   test_t1 (lit "sancus_time_is_gt", sancus_time_is_gt) (T 0 2) (T 0 1) 1;
   test_t1 (lit "sancus_time_is_gt", sancus_time_is_gt) (T 1 0) (T 0 999) 1;
   test_t1 (lit "sancus_time_is_gt", sancus_time_is_gt) (T 1 0) (T 1 0) 0;
   test_t1 (lit "sancus_time_is_gt", sancus_time_is_gt) (T (-1) 0) (T (-2) 0) 1;
   test_t1 (lit "sancus_time_is_gt", sancus_time_is_gt) (T (-1) 100) (T (-1) 200) 1;
   test_t1 (lit "sancus_time_is_gt", sancus_time_is_gt) (T 0 (-100)) (T 0 (-200)) 1;
   test_t1 (lit "sancus_time_is_gt", sancus_time_is_gt) (T 0 (-200)) (T 0 (-100)) 0;
   test_t1 (lit "sancus_time_is_gt", sancus_time_is_gt) (T 0 (-100)) (T 0 (-100)) 0;
   (* addition *)
   test_t2 (lit "add", test_time__add) (T 0 2) (T 1 997) (T 1 999);
   test_t2 (lit "add", test_time__add) (T 0 2) (T 1 998) (T 2 0);
   test_t2 (lit "add", test_time__add) (T 0 2) (T 1 999) (T 2 1);
   test_t2 (lit "add", test_time__add) (T 0 (-2)) (T 1 1) (T 0 999);
   test_t2 (lit "add", test_time__add) (T 0 (-2)) (T 0 1) (T 0 (-1));
   test_t2 (lit "add", test_time__add) (T 0 (-2)) (T 0 3) (T 0 1);
   test_t2 (lit "add", test_time__add) (T (-1) 200) (T 0 300) (T 0 (-900));
   (* subtraction *)
   test_t2 (lit "sub", test_time__sub) (T 0 2) (T 0 1) (T 0 1);
   test_t2 (lit "sub", test_time__sub) (T 0 2) (T 0 2) (T 0 0);
   test_t2 (lit "sub", test_time__sub) (T 0 2) (T 0 3) (T 0 (-1));
   test_t2 (lit "sub", test_time__sub) (T (-1) 200) (T 0 300) (T (-1) 500);
   test_t2 (lit "sub", test_time__sub) (T 2 100) (T 1 500) (T 0 600);
   test_t2 (lit "left", test_time__left) (T 0 800) (T 1 100) (T 0 300);
   test_t2 (lit "left", test_time__left) (T 1 100) (T 1 100) (T 0 0);
   test_t2 (lit "left", test_time__left) (T 1 400) (T 1 100) (T 0 0);
   test_t2 (lit "elapsed", test_time__elapsed) (T 0 800) (T 1 100) (T 0 0);
   test_t2 (lit "elapsed", test_time__elapsed) (T 1 100) (T 1 100) (T 0 0);
   test_t2 (lit "elapsed", test_time__elapsed) (T 1 400) (T 1 100) (T 0 300)
  ].

(** [main] @ src/tests/time.c:172-266. The exit status and what was printed:
    the failures of the checks, one after the other, are counted. *)
Definition main : outcome (Z * printed) :=
  '(err, out) ← foldl (fun acc c => '(err, out) ← acc; '(e, o) ← c; Ret (err + e, out ++ o))
                      (Ret (0, [])) checks;
  Ret (if err =? 0 then 0 else 1, out).

(** The program exits with success, and every one of its 72 checks prints a
    line on [stdout]. *)
Lemma tests_pass :
  exists out, main = Ret (0, out) /\ map fst out = replicate 72 Stdout.
Proof. eexists. split; [vm_compute; reflexivity|reflexivity]. Qed.
