(* ===== verification/Types.v ===== *)
(** * Types

    The checked numeric conversions of [include/sancus/types.h].  The header
    generates them with macros; a macro is a definition with the macro's
    parameters as arguments, and each instance a definition that applies it.
    An integer is its value and a cast a function; what the macros need of the
    source type, its zero and its comparisons, is the class [CNum].  The
    instances whose source or target is [double] are in [TypesFp]. *)

From S2P Require Import Prelude CLib.

(** ** The macros *)

(** A type of C with [0], [>=] and [<=]. *)
Class CNum (T : Type) := { c_zero : T; c_ge : T -> T -> bool; c_le : T -> T -> bool }.

(** The integers compare as their values. *)
#[export] Instance Z_num : CNum Z := { c_zero := 0; c_ge := Z.geb; c_le := Z.leb }.

(** [sancus_##N of DECL_SANCUS_GET_CONVERTED] @ include/sancus/types.h:21-26. *)
Definition converted {T1} (test : bool) (fn : T1) : outcome T1 :=
  _ ← c_assert test; Ret fn.

(** [sancus_get_##N of DECL_SANCUS_GET_CONVERTED] @ include/sancus/types.h:27-35.
    [out] is a pointer to an object or [NULL]; its content after the call is
    part of the result. *)
Definition get_converted {T1} (test : bool) (fn : T1) (out : option T1) : bool * option T1 :=
  if test then (true, match out with Some _ => Some fn | None => None end)
  else (false, out).

Section Macros.
Context {T0 T1 : Type} `{CNum T0} (cast : T0 -> T1).

(** [sancus_##N of DECL_SANCUS_NUMERIC_CMP2_CAST] @ include/sancus/types.h:47-48.
    [CA] and [CB] are the comparisons. *)
Definition cmp2_cast (CA CB : T0 -> T0 -> bool) (v a b : T0) : outcome T1 :=
  converted (CA v a && CB v b) (cast v).

(** [sancus_get_##N of DECL_SANCUS_NUMERIC_CMP2_CAST] @ include/sancus/types.h:47-48. *)
Definition get_cmp2_cast (CA CB : T0 -> T0 -> bool) (v a b : T0) (out : option T1) : bool * option T1 :=
  get_converted (CA v a && CB v b) (cast v) out.

(** [sancus_##N of DECL_SANCUS_NUMERIC_GELE_CAST, DECL_SANCUS_NUMERIC_GELE_CAST_K] @ include/sancus/types.h:54-61. *)
Definition gele_cast : T0 -> T0 -> T0 -> outcome T1 := cmp2_cast c_ge c_le.

(** [sancus_get_##N of DECL_SANCUS_NUMERIC_GELE_CAST, DECL_SANCUS_NUMERIC_GELE_CAST_K] @ include/sancus/types.h:54-61. *)
Definition get_gele_cast : T0 -> T0 -> T0 -> option T1 -> bool * option T1 := get_cmp2_cast c_ge c_le.

(** [DECL_SANCUS_NUMERIC_CMP1_CAST_K] @ include/sancus/types.h:44-45.
    The only comparison it is used with is [<=]. *)
Definition cmp1_cast_k (A v : T0) : outcome T1 := converted (c_le v A) (cast v).

(** [DECL_SANCUS_NUMERIC_CMP1_CAST_K] @ include/sancus/types.h:44-45. *)
Definition get_cmp1_cast_k (A v : T0) (out : option T1) : bool * option T1 :=
  get_converted (c_le v A) (cast v) out.

(** [DECL_SANCUS_GELE_STRTO_K] @ include/sancus/types.h:100-111. *)
Definition gele_strto_k
    (F0 : option (list byte) -> option T0 -> outcome (bool * option T0)) (A B : T0)
    (s : option (list byte)) (out : option T1) : outcome (bool * option T1) :=
  '(ok, v) ← F0 s (Some c_zero);
  match ok, v with
  | true, Some v =>
      if c_ge v A && c_le v B
      then Ret (true, match out with Some _ => Some (cast v) | None => None end)
      else Ret (false, out)
  | _, _ => Ret (false, out)
  end.
End Macros.

(** The templates that the header offers and does not use itself.  [CA] and
    [CB] are comparisons, [F] the function that [FN] applies, [land] the [&] of
    the source type. *)
Section Templates.
Context {T0 T1 : Type} (cast F : T0 -> T1) (land : T0 -> T0 -> T0) (CA CB : T0 -> T0 -> bool).

(** [sancus_##N of DECL_SANCUS_NUMERIC_CMP1_F] @ include/sancus/types.h:41-42. *)
Definition cmp1_f (v a : T0) : outcome T1 := converted (CA v a) (F v).

(** [sancus_get_##N of DECL_SANCUS_NUMERIC_CMP1_F] @ include/sancus/types.h:41-42. *)
Definition get_cmp1_f (v a : T0) (out : option T1) : bool * option T1 := get_converted (CA v a) (F v) out.

(** [sancus_##N of DECL_SANCUS_NUMERIC_CMP2_F] @ include/sancus/types.h:51-52. *)
Definition cmp2_f (v a b : T0) : outcome T1 := converted (CA v a && CB v b) (F v).

(** [sancus_get_##N of DECL_SANCUS_NUMERIC_CMP2_F] @ include/sancus/types.h:51-52. *)
Definition get_cmp2_f (v a b : T0) (out : option T1) : bool * option T1 :=
  get_converted (CA v a && CB v b) (F v) out.

(** [sancus_##N of DECL_SANCUS_NUMERIC_CMP1_CAST] @ include/sancus/types.h:37-38. *)
Definition cmp1_cast (v a : T0) : outcome T1 := converted (CA v a) (cast v).

(** [sancus_get_##N of DECL_SANCUS_NUMERIC_CMP1_CAST] @ include/sancus/types.h:37-38. *)
Definition get_cmp1_cast (v a : T0) (out : option T1) : bool * option T1 := get_converted (CA v a) (cast v) out.

(** [sancus_##N of DECL_SANCUS_NUMERIC_CMP1_MASK] @ include/sancus/types.h:39-40. *)
Definition cmp1_mask (M v a : T0) : outcome T1 := converted (CA v a) (cast (land v M)).

(** [sancus_get_##N of DECL_SANCUS_NUMERIC_CMP1_MASK] @ include/sancus/types.h:39-40. *)
Definition get_cmp1_mask (M v a : T0) (out : option T1) : bool * option T1 :=
  get_converted (CA v a) (cast (land v M)) out.

(** [sancus_##N of DECL_SANCUS_NUMERIC_CMP2_MASK] @ include/sancus/types.h:49-50. *)
Definition cmp2_mask (M v a b : T0) : outcome T1 := converted (CA v a && CB v b) (cast (land v M)).

(** [sancus_get_##N of DECL_SANCUS_NUMERIC_CMP2_MASK] @ include/sancus/types.h:49-50. *)
Definition get_cmp2_mask (M v a b : T0) (out : option T1) : bool * option T1 :=
  get_converted (CA v a && CB v b) (cast (land v M)) out.

(** The two forms agree: the checked one aborts exactly where the other
    fails, and otherwise they give the same value. *)
Lemma converted_agrees (test : bool) (fn o : T1) :
  converted test fn = match get_converted test fn (Some o) with (true, Some v) => Ret v | _ => Aborted end.
Proof. by destruct test. Qed.
End Templates.

(** [DECL_SANCUS_STRTO] @ include/sancus/types.h:64-81.
    [F] returns the value and the index of [end] in [s]. *)
Definition strto {T} `{CNum T} (F : list byte -> outcome (T * Z)) (s : option (list byte)) (out : option T)
    : outcome (bool * option T) :=
  '(v, ret) ← match s with
    | None => Ret (c_zero, false)
    | Some s =>
        c ← load1 s 0;
        if bool_decide (c = Byte.x00) then Ret (c_zero, false)
        else
          '(v, iend) ← F s;
          e ← load1 s iend;
          Ret (v, bool_decide (e = Byte.x00))
    end;
  Ret (ret, match out with Some _ => Some v | None => None end).

(** [DECL_SANCUS_GELE_STRTO] @ include/sancus/types.h:90-98.  The local [v] is
    set before it is used; its first value is arbitrary. *)
Definition gele_strto {T0 T1} `{CNum T0}
    (F0 : option (list byte) -> option T0 -> outcome (bool * option T0))
    (F1 : T0 -> T0 -> T0 -> option T1 -> bool * option T1)
    (s : option (list byte)) (a b : T0) (out : option T1) : outcome (bool * option T1) :=
  '(ok, v) ← F0 s (Some c_zero);
  match ok, v with
  | true, Some v => Ret (F1 v a b out)
  | _, _ => Ret (false, out)
  end.

(** ** The instances *)

(** [sancus_get_ls] @ include/sancus/types.h:83-83. *)
Definition sancus_get_ls := strto c_strtol.
(** [sancus_get_lls] @ include/sancus/types.h:84-84. *)
Definition sancus_get_lls := strto c_strtol.
(** [sancus_get_uls] @ include/sancus/types.h:85-85. *)
Definition sancus_get_uls := strto c_strtoul.
(** [sancus_get_ulls] @ include/sancus/types.h:86-86. *)
Definition sancus_get_ulls := strto c_strtoul.

(** [sancus_urll, sancus_urzu, sancus_urzd] @ include/sancus/types.h:116-118. *)
Definition sancus_ur (v a b : Z) : outcome Z := gele_cast u32 v a b.
(** [sancus_get_urll, sancus_get_urzu, sancus_get_urzd] @ include/sancus/types.h:113-118. *)
Definition sancus_get_ur (v a b : Z) (out : option Z) : bool * option Z := get_gele_cast u32 v a b out.
(** [sancus_get_urlls] @ include/sancus/types.h:120-120. *)
Definition sancus_get_urlls := gele_strto sancus_get_lls sancus_get_ur.

(** [sancus_drl, sancus_drll, sancus_drzu, sancus_drzd] @ include/sancus/types.h:125-128. *)
Definition sancus_dr (v a b : Z) : outcome Z := gele_cast s32 v a b.
(** [sancus_get_drl, sancus_get_drll, sancus_get_drzu, sancus_get_drzd] @ include/sancus/types.h:122-128. *)
Definition sancus_get_dr (v a b : Z) (out : option Z) : bool * option Z := get_gele_cast s32 v a b out.
(** [sancus_get_drls] @ include/sancus/types.h:130-130. *)
Definition sancus_get_drls := gele_strto sancus_get_ls sancus_get_dr.
(** [sancus_get_drlls] @ include/sancus/types.h:131-131. *)
Definition sancus_get_drlls := gele_strto sancus_get_lls sancus_get_dr.
(** [sancus_get_ds] @ include/sancus/types.h:133-133. *)
Definition sancus_get_ds := gele_strto_k s32 sancus_get_ls INT_MIN INT_MAX.

(** [MASK8, MASK16, MASK32] @ include/sancus/types.h:14-16. *)
Definition MASK (B : Z) : Z := 2 ^ B - 1.

(** [DECL_SANCUS_uint] @ include/sancus/types.h:150-163.  [B] is 8, 16 or 32;
    the argument has a signed 64-bit type. *)
Definition sancus_u (B v : Z) : outcome Z := gele_cast (uwrap B) v 0 (MASK B).
(** [DECL_SANCUS_uint] @ include/sancus/types.h:150-163. *)
Definition sancus_get_u (B v : Z) (out : option Z) : bool * option Z :=
  get_gele_cast (uwrap B) v 0 (MASK B) out.
(** [DECL_SANCUS_uintu] @ include/sancus/types.h:151-167.  The argument is a [size_t]. *)
Definition sancus_uzu (B v : Z) : outcome Z := cmp1_cast_k (uwrap B) (MASK B) v.
(** [DECL_SANCUS_uintu] @ include/sancus/types.h:151-167. *)
Definition sancus_get_uzu (B v : Z) (out : option Z) : bool * option Z :=
  get_cmp1_cast_k (uwrap B) (MASK B) v out.

(** ** The text [sancus_get_ls] accepts *)

(** Blanks, an optional sign and at least one digit, and nothing after. *)
Inductive decimal : list byte -> Z -> Prop :=
  | decimal_intro ws sg ds :
      Forall (fun b => is_space b = true) ws ->
      sg = [] \/ sg = lit "+" \/ sg = lit "-" ->
      Forall (fun b => is_digit b = true) ds -> ds <> [] ->
      decimal (ws ++ sg ++ ds) (if bool_decide (sg = lit "-") then - dec_val ds else dec_val ds).

(** The nearest [long]. *)
Definition clamp_long (v : Z) : Z := Z.max LONG_MIN (Z.min LONG_MAX v).

Lemma load1_app (a : list byte) c r : load1 (a ++ c :: r) (zlen a) = Ret c.
Proof.
  apply load1_lookup; [apply zlen_nonneg|].
  unfold zlen. rewrite Nat2Z.id. apply list_lookup_middle. done.
Qed.

Lemma sign_len w sg :
  sg = [] \/ sg = lit "+" \/ sg = lit "-" ->
  (if bool_decide (sg = lit "-") || bool_decide (sg = lit "+") then w + 1 else w) = w + zlen sg.
Proof.
  intros [->|[->| ->]]; repeat case_bool_decide; try discriminate; try done; unfold zlen; simpl; lia.
Qed.

(** Scanning a whole number ends at its terminator. *)
Lemma scan_number_decimal ws sg ds t :
  Forall (fun b => is_space b = true) ws ->
  sg = [] \/ sg = lit "+" \/ sg = lit "-" ->
  Forall (fun b => is_digit b = true) ds -> ds <> [] ->
  scan_number (ws ++ sg ++ ds ++ Byte.x00 :: t) =
    Ret (bool_decide (sg = lit "-"), zlen ws + zlen sg, zlen ds).
Proof.
  intros Hw Hs Hd Hne. unfold scan_number.
  destruct ds as [|d ds]; [done|]. assert (is_digit d = true) as Hd0 by by inversion Hd.
  assert (exists c r, sg ++ (d :: ds) ++ Byte.x00 :: t = c :: r /\ is_space c = false /\
    bool_decide (c = Byte.x2d) = bool_decide (sg = lit "-") /\
    bool_decide (c = Byte.x2b) = bool_decide (sg = lit "+")) as (c & r & E & Hc & Hm & Hp).
  { pose proof (proj1 (is_digit_range d) Hd0).
    destruct Hs as [->|[->| ->]]; eexists _, _; split_and!; try reflexivity.
    - by apply is_space_not_digit.
    - rewrite !bool_decide_false; [done|done|intros ->; by cbv in H].
    - rewrite !bool_decide_false; [done|done|intros ->; by cbv in H]. }
  rewrite E, (span_len_app is_space ws c r) by done. run.
  rewrite load1_app. run. rewrite Hm, Hp.
  rewrite sign_len by done.
  rewrite <- E. rewrite app_assoc, drop_app_ge by (rewrite length_app; unfold zlen; lia).
  replace (Z.to_nat (zlen ws + zlen sg) - length (ws ++ sg))%nat with 0%nat
    by (rewrite length_app; unfold zlen; lia).
  rewrite drop_0, (span_len_app is_digit (d :: ds) Byte.x00 t) by done. by run.
Qed.

Lemma span_len_cstr p s :
  p Byte.x00 = false ->
  exists a r, s = a ++ r /\ span_len p (cstr s) = Ret (zlen a) /\
    Forall (fun b => p b = true) a /\ (forall c t, r = c :: t -> p c = false).
Proof.
  intros Hp. unfold cstr. induction s as [|b s IH]; simpl.
  { exists [], []. rewrite Hp. by repeat split. }
  destruct (p b) eqn:Hb.
  - destruct IH as (a & r & -> & E & Ha & Hr). exists (b :: a), r. rewrite E. run.
    rewrite zlen_cons. repeat split; [|done]. by constructor.
  - exists [], (b :: s). repeat split; [done|]. by intros c t [= -> _].
Qed.

(** Every string is blanks, a sign, digits and a rest, and the scan finds them. *)
Lemma scan_number_total s :
  exists ws sg ds r, s = ws ++ sg ++ ds ++ r /\
    Forall (fun b => is_space b = true) ws /\
    (sg = [] \/ sg = lit "+" \/ sg = lit "-") /\
    Forall (fun b => is_digit b = true) ds /\
    scan_number (cstr s) = Ret (bool_decide (sg = lit "-"), zlen ws + zlen sg, zlen ds).
Proof.
  destruct (span_len_cstr is_space s eq_refl) as (ws & r0 & -> & Ew & Hw & _).
  unfold scan_number. rewrite Ew. run. clear Ew.
  assert (exists c t, cstr r0 = c :: t) as (c & t & Ec) by (destruct r0; eexists _, _; reflexivity).
  assert (cstr (ws ++ r0) = ws ++ c :: t) as E by (unfold cstr in *; by rewrite <- app_assoc, Ec).
  rewrite E, load1_app. run.
  set (sg := if bool_decide (c = Byte.x2d) then lit "-" else
             if bool_decide (c = Byte.x2b) then lit "+" else []).
  assert (exists r1, r0 = sg ++ r1) as [r1 ->].
  { subst sg. repeat case_bool_decide; [| |by exists r0];
      (destruct r0 as [|b r0]; injection Ec as <- <-; [discriminate|subst b; by exists r0]). }
  destruct (span_len_cstr is_digit r1 eq_refl) as (ds & r & -> & Ed & Hd & _).
  exists ws, sg, ds, r. assert (sg = [] \/ sg = lit "+" \/ sg = lit "-") as Hsg
    by (subst sg; repeat case_bool_decide; auto).
  split_and!; [done..|].
  assert (drop (Z.to_nat (zlen ws + zlen sg)) (ws ++ c :: t) = cstr (ds ++ r)) as Edrop.
  { rewrite <- E. replace (cstr (ws ++ sg ++ ds ++ r)) with ((ws ++ sg) ++ cstr (ds ++ r))
      by (unfold cstr; by rewrite <- !app_assoc).
    rewrite drop_app_ge by (rewrite length_app; unfold zlen; lia).
    replace (Z.to_nat (zlen ws + zlen sg) - length (ws ++ sg))%nat with 0%nat
      by (rewrite length_app; unfold zlen; lia). done. }
  assert (bool_decide (c = Byte.x2d) = bool_decide (sg = lit "-") /\
          bool_decide (c = Byte.x2b) = bool_decide (sg = lit "+")) as [Em Ep].
  { clear. subst sg. destruct (decide (c = Byte.x2d)) as [->|].
    { by vm_compute. }
    rewrite (bool_decide_false (c = Byte.x2d)) by done.
    destruct (decide (c = Byte.x2b)) as [->|]; [by vm_compute|].
    rewrite (bool_decide_false (c = Byte.x2b)) by done. by vm_compute. }
  rewrite Em, Ep, sign_len, Edrop, Ed by done. by run.
Qed.

Lemma load1_cstr_end (s : list byte) : load1 (cstr s) (zlen s) = Ret Byte.x00.
Proof. apply load1_app. Qed.

Lemma load1_cstr_in s i c :
  no_nul s -> 0 <= i < zlen s -> load1 (cstr s) i = Ret c -> c <> Byte.x00.
Proof.
  intros Hs Hi H ->. apply Hs. destruct (load1_ok (cstr s) i) as (b & Hb & Hl).
  { unfold cstr. rewrite zlen_app. change (zlen [Byte.x00]) with 1. lia. }
  rewrite Hb in H. injection H as ->. unfold cstr in Hl.
  rewrite lookup_app_l in Hl by (unfold zlen in Hi; lia). by apply list_elem_of_lookup_2 in Hl.
Qed.

(** A conversion of a whole string succeeds when it ends at the terminator. *)
Lemma strto_cstr {T} `{CNum T} (F : list byte -> outcome (T * Z)) s o v i :
  no_nul s -> s <> [] -> F (cstr s) = Ret (v, i) -> 0 <= i <= zlen s ->
  strto F (Some (cstr s)) (Some o) = Ret (bool_decide (i = zlen s), Some v).
Proof.
  intros Hs Hne HF Hi. unfold strto.
  assert (0 < zlen s) by (pose proof (zlen_nonneg s); destruct (decide (zlen s = 0)); [|lia];
    by destruct Hne; apply zlen_zero).
  assert (forall j, 0 <= j <= zlen s -> exists c, load1 (cstr s) j = Ret c) as Hl.
  { intros j Hj. destruct (load1_ok (cstr s) j) as (c & E & _); [|by exists c].
    unfold cstr. rewrite zlen_app. change (zlen [Byte.x00]) with 1. lia. }
  destruct (Hl 0) as [c Hc]; [lia|]. rewrite Hc. run.
  rewrite bool_decide_false by (eapply load1_cstr_in; [done| |exact Hc]; lia).
  rewrite HF. run. destruct (decide (i = zlen s)) as [->|Hi'].
  { rewrite load1_cstr_end. run. by rewrite !bool_decide_true. }
  destruct (Hl i Hi) as [e He]. rewrite He. run.
  rewrite (bool_decide_false (i = zlen s)) by done.
  rewrite bool_decide_false; [done|]. eapply load1_cstr_in; [done| |exact He]. lia.
Qed.

(** What the scan says of a decimal text. *)
Lemma decimal_scan s n :
  decimal s n -> exists neg i k, scan_number (cstr s) = Ret (neg, i, k) /\
    0 < k /\ 0 <= i /\ i + k = zlen s /\
    n = (if neg then - dec_val (sub (cstr s) i k) else dec_val (sub (cstr s) i k)).
Proof.
  intros [ws sg ds Hw Hs Hd Hne].
  exists (bool_decide (sg = lit "-")), (zlen ws + zlen sg), (zlen ds).
  assert (cstr (ws ++ sg ++ ds) = ws ++ sg ++ ds ++ [Byte.x00]) as -> by (unfold cstr; by rewrite <- !app_assoc).
  rewrite scan_number_decimal by done.
  pose proof (zlen_nonneg ws). pose proof (zlen_nonneg sg). pose proof (zlen_nonneg ds).
  assert (sub (ws ++ sg ++ ds ++ [Byte.x00]) (zlen ws + zlen sg) (zlen ds) = ds) as ->.
  { rewrite !sub_app_r by lia. replace (_ - _ - _) with 0 by lia. by rewrite sub_app_l, sub_all by lia. }
  split_and!; [done| |lia|rewrite !zlen_app; lia|done].
  destruct (decide (zlen ds = 0)) as [E|]; [by apply zlen_zero in E|lia].
Qed.

(** *)
Lemma scan_decimal s :
  exists neg i k, scan_number (cstr s) = Ret (neg, i, k) /\ 0 <= i /\ 0 <= k /\ i + k <= zlen s /\
    (0 < k -> i + k = zlen s -> exists n, decimal s n).
Proof.
  destruct (scan_number_total s) as (ws & sg & ds & r & -> & Hw & Hs & Hd & ->).
  eexists _, _, _. split; [done|].
  pose proof (zlen_nonneg ws). pose proof (zlen_nonneg sg). pose proof (zlen_nonneg ds).
  pose proof (zlen_nonneg r). rewrite !zlen_app. split_and!; try lia.
  intros Hk He. rewrite (zlen_zero r) by lia. rewrite app_nil_r. eexists. constructor; try done.
  intros ->. cbv in Hk; discriminate.
Qed.

(** ** Correctness *)

(** The reading of a [long], for every C string. *)
Lemma get_ls_reads (s : list byte) (o : Z) (Hs : no_nul s) :
  exists ok v, sancus_get_ls (Some (cstr s)) (Some o) = Ret (ok, Some v) /\
    (ok = true <-> exists n, decimal s n) /\
    (forall n, decimal s n -> v = clamp_long n).
Proof.
  unfold sancus_get_ls, strto.
  destruct (load1_ok (cstr s) 0) as (c & Hc & _).
  { unfold cstr. rewrite zlen_app. pose proof (zlen_nonneg s). change (zlen [Byte.x00]) with 1. lia. }
  rewrite Hc. run. destruct (scan_decimal s) as (neg & i & k & Hk & Hi & Hk0 & Hik & Hdec).
  assert (forall n, decimal s n -> 0 < k /\ i + k = zlen s /\
    n = (if neg then - dec_val (sub (cstr s) i k) else dec_val (sub (cstr s) i k))) as Hinv.
  { intros n (neg' & i' & k' & E & ? & ? & ? & Hn)%decimal_scan.
    rewrite Hk in E. injection E as <- <- <-. auto. }
  case_bool_decide as Hc0.
  { exists false, 0. run. split; [done|].
    assert (zlen s = 0) by (destruct (decide (zlen s = 0)); [done|];
      edestruct (load1_cstr_in s 0); [done|pose proof (zlen_nonneg s); lia|exact Hc|done]).
    split; [split; [done|]|]; [intros [n Hn%Hinv]|intros n Hn%Hinv]; lia. }
  unfold c_strtol. rewrite Hk. run. destruct (Z.eqb_spec k 0) as [->|].
  { run. rewrite Hc. run. rewrite bool_decide_false by done. exists false, 0. split; [done|].
    split; [split; [done|]|]; [intros [n Hn%Hinv]|intros n Hn%Hinv]; lia. }
  destruct (load1_ok (cstr s) (i + k)) as (e & He & _).
  { unfold cstr. rewrite zlen_app. change (zlen [Byte.x00]) with 1. lia. }
  run. rewrite He. run. eexists _, _. split; [done|]. split.
  - rewrite bool_decide_eq_true. split.
    + intros ->. apply Hdec; [lia|]. destruct (decide (i + k = zlen s)); [done|].
      edestruct (load1_cstr_in s (i + k)); [done|lia|exact He|done].
    + intros [m (_ & E & _)%Hinv]. rewrite E, load1_cstr_end in He. by injection He.
  - intros m Hm. by destruct (Hinv m Hm) as (_ & _ & ->).
Qed.

(** C27. [sancus_get_ls] reads any C string without leaving it.  It succeeds
    exactly on blanks, a sign and digits up to the end of the string, and the
    value it stores is the number, clamped to [long]: a text out of range is
    accepted, because [errno] is not looked at. *)
Theorem get_ls_parses (s : list byte) (o : Z) (Hs : no_nul s) :
  exists ok v, sancus_get_ls (Some (cstr s)) (Some o) = Ret (ok, Some v) /\
    (ok = true <-> exists n, decimal s n) /\
    (forall n, decimal s n -> v = clamp_long n).
Proof. by apply get_ls_reads. Qed.

Lemma get_ls_parses_witness :
  exists ok v, sancus_get_ls (Some (cstr (lit "  -42"))) (Some 7) = Ret (ok, Some v) /\
    (ok = true <-> exists n, decimal (lit "  -42") n) /\
    (forall n, decimal (lit "  -42") n -> v = clamp_long n).
Proof.
  apply (get_ls_parses (lit "  -42") 7).
  no_nul_lit.
Defined.

Lemma get_ls_fmt_d z o :
  LONG_MIN <= z <= LONG_MAX -> sancus_get_ls (Some (cstr (fmt_d z))) (Some o) = Ret (true, Some z).
Proof.
  intros Hz. unfold sancus_get_ls, strto.
  destruct (load1_ok (cstr (fmt_d z)) 0) as (c & Hc & _).
  { unfold cstr. rewrite zlen_app. pose proof (zlen_nonneg (fmt_d z)). change (zlen [Byte.x00]) with 1. lia. }
  assert (c <> Byte.x00) as Hne.
  { revert Hc. unfold fmt_d. destruct (Z.ltb_spec z 0); [intros [= <-]; discriminate|].
    destruct (fmt_u_cons z ltac:(bounds)) as (d & ds & -> & Hd).
    intros [= ->] ->. by vm_compute in Hd. }
  rewrite Hc. run. rewrite bool_decide_false, strtol_fmt_d by done.
  run. rewrite load1_cstr_end. by run.
Qed.

(** [sancus_get_ds] reads back what [%ld] prints when the number fits an
    [int], and otherwise fails and leaves the output alone. *)
Theorem get_ds_roundtrip (z o : Z) (Hz : LONG_MIN <= z <= LONG_MAX) :
  sancus_get_ds (Some (cstr (fmt_d z))) (Some o) =
    Ret (if in_s 32 z then (true, Some z) else (false, Some o)).
Proof.
  unfold sancus_get_ds, gele_strto_k. simpl c_zero. rewrite get_ls_fmt_d by done. run.
  simpl c_ge; simpl c_le.
  assert ((z >=? INT_MIN) && (z <=? INT_MAX) = in_s 32 z) as -> by
    (unfold in_s; rewrite Z.geb_leb; unfold INT_MIN, INT_MAX; done).
  destruct (in_s 32 z) eqn:E; [|done]. unfold in_s in E. rewrite andb_true_iff, !Z.leb_le in E.
  rewrite swrap_id; [done|lia|lia].
Qed.

Lemma get_ds_roundtrip_witness :
  sancus_get_ds (Some (cstr (fmt_d (-2147483648)))) (Some 5) =
    Ret (if in_s 32 (-2147483648) then (true, Some (-2147483648)) else (false, Some 5)).
Proof. apply (get_ds_roundtrip (-2147483648) 5). vm_compute; by split. Defined.


Lemma MASK_test B v : (v >=? 0) && (v <=? MASK B) = in_u B v.
Proof. unfold in_u, MASK. by rewrite Z.geb_leb. Qed.

Lemma uwrap_in_u B v : in_u B v = true -> uwrap B v = v.
Proof. unfold in_u. rewrite andb_true_iff, !Z.leb_le. intros. apply uwrap_id. lia. Qed.

(** The [uintN_t] conversions are exact: they return the number when it
    fits, abort (the [get] form: fail, with the output untouched) when it does
    not, and never wrap, for signed and for [size_t] arguments. *)
Theorem uint_conversions_exact (B v o : Z) :
  sancus_u B v = (if in_u B v then Ret v else Aborted) /\
  sancus_get_u B v (Some o) = (if in_u B v then (true, Some v) else (false, Some o)) /\
  (0 <= v -> sancus_uzu B v = (if in_u B v then Ret v else Aborted) /\
    sancus_get_uzu B v (Some o) = (if in_u B v then (true, Some v) else (false, Some o))).
Proof.
  unfold sancus_u, sancus_get_u, sancus_uzu, sancus_get_uzu, gele_cast, get_gele_cast,
    cmp2_cast, get_cmp2_cast,
    cmp1_cast_k, get_cmp1_cast_k, converted, get_converted; simpl c_ge; simpl c_le.
  rewrite MASK_test. pose proof (uwrap_in_u B v) as Hw.
  split_and!; [destruct (in_u B v); simpl; [by rewrite Hw|done]..|].
  intros Hv. assert ((v <=? MASK B) = in_u B v) as ->
    by (rewrite <- MASK_test; by rewrite (proj2 (Z.geb_le v 0) Hv)).
  destruct (in_u B v); simpl; by rewrite ?Hw.
Qed.

Lemma uint_conversions_exact_witness :
  sancus_uzu 8 256 = (if in_u 8 256 then Ret 256 else Aborted).
Proof. apply (uint_conversions_exact 8 256 0). lia. Defined.

(** To mask with the largest number of the target type is to cast, for both
    signs. *)
Lemma cmp_mask_is_cast B CA CB v a b :
  0 < B ->
  cmp1_mask (uwrap B) Z.land CA (MASK B) v a = cmp1_cast (uwrap B) CA v a /\
  cmp2_mask (uwrap B) Z.land CA CB (MASK B) v a b = cmp2_cast (uwrap B) CA CB v a b.
Proof.
  intros HB. unfold cmp1_mask, cmp1_cast, cmp2_mask, cmp2_cast.
  assert (uwrap B (Z.land v (MASK B)) = uwrap B v) as ->; [|done].
  unfold MASK, uwrap. rewrite Z.sub_1_r, <- Z.ones_equiv, Z.land_ones, Z.mod_mod by (try apply Z.pow_nonzero; lia). done.
Qed.

(** The ranged conversions to [int] and [unsigned] are exact when the bounds
    are values of the target type. *)
Lemma sancus_get_dr_exact v a b o :
  in_s 32 a = true -> in_s 32 b = true ->
  sancus_get_dr v a b (Some o) = (if (a <=? v) && (v <=? b) then (true, Some v) else (false, Some o)).
Proof.
  unfold in_s. rewrite !andb_true_iff, !Z.leb_le. intros Ha Hb.
  unfold sancus_get_dr, get_gele_cast, get_cmp2_cast, get_converted; simpl c_ge; simpl c_le. rewrite Z.geb_leb.
  destruct ((a <=? v) && (v <=? b)) eqn:E; [|done]. rewrite andb_true_iff, !Z.leb_le in E.
  rewrite swrap_id; [done|lia|lia].
Qed.

Example get_drls_percent :
  sancus_get_drls (Some (cstr (lit "150"))) 0 100 (Some 1) = Ret (false, Some 1) /\
  sancus_get_drls (Some (cstr (lit "99"))) 0 100 (Some 1) = Ret (true, Some 99) /\
  sancus_get_drls None 0 100 (Some 1) = Ret (false, Some 1) /\
  sancus_get_ls (Some (cstr (lit "99999999999999999999"))) (Some 1) = Ret (true, Some LONG_MAX) /\
  sancus_get_ls (Some (cstr (lit "12x"))) (Some 1) = Ret (false, Some 12).
Proof. by vm_compute. Qed.
