(* ===== verification/TypesFp.v ===== *)
(** * TypesFp

    The conversions of [include/sancus/types.h] that read or return a [double],
    by the macros of [Types].  [strtod] and [strtold] of the C library are
    parameters.  A [long double] is the extended format of x86-64, with 64 bits
    of mantissa. *)

From Stdlib Require Import SpecFloat QArith.
From S2P Require Import Prelude CLib Double Types.
#[local] Open Scope Z_scope.

(** Comparisons with a NaN are false. *)
#[export] Instance double_num : CNum double :=
  { c_zero := S754_zero false; c_ge := fun x y => SFleb y x; c_le := SFleb }.

(** A finite [long double] has a mantissa of 64 bits, or the smallest exponent. *)
Abbreviation ldouble := spec_float.

(** The cast of a [long double] to [double] rounds; what is too large becomes
    infinite. *)
Definition d_of_ld (x : ldouble) : double :=
  match x with S754_finite s m e => binary_round 53 1024 s m e | _ => x end.

(** ** The conversions *)

(** [sancus_frll, sancus_frzd] @ include/sancus/types.h:138-139. *)
Definition sancus_fr (v a b : Z) : outcome double := gele_cast d_of_Z v a b.
(** [sancus_get_frll, sancus_get_frzd] @ include/sancus/types.h:138-139. *)
Definition sancus_get_fr (v a b : Z) (out : option double) : bool * option double :=
  get_gele_cast d_of_Z v a b out.
(** [sancus_frf] @ include/sancus/types.h:140-140. *)
Definition sancus_frf (v a b : double) : outcome double := gele_cast id v a b.
(** [sancus_get_frf] @ include/sancus/types.h:140-140. *)
Definition sancus_get_frf (v a b : double) (out : option double) : bool * option double :=
  get_gele_cast id v a b out.
(** [sancus_frff] @ include/sancus/types.h:141-141. *)
Definition sancus_frff (v a b : ldouble) : outcome double := gele_cast d_of_ld v a b.
(** [sancus_get_frff] @ include/sancus/types.h:141-141. *)
Definition sancus_get_frff (v a b : ldouble) (out : option double) : bool * option double :=
  get_gele_cast d_of_ld v a b out.
(** [sancus_get_frlls] @ include/sancus/types.h:143-143. *)
Definition sancus_get_frlls := gele_strto sancus_get_lls sancus_get_fr.

Section Strtod.
(** [strtod (s, &end)]: the value and the index of [end]. *)
Context (strtod : list byte -> outcome (double * Z)).

(** [sancus_get_fs] @ include/sancus/types.h:87-87. *)
Definition sancus_get_fs := strto strtod.
(** [sancus_get_frfs] @ include/sancus/types.h:144-144. *)
Definition sancus_get_frfs := gele_strto sancus_get_fs sancus_get_frf.
End Strtod.

Section Strtold.
(** [strtold (s, &end)]. *)
Context (strtold : list byte -> outcome (ldouble * Z)).

(** [sancus_get_ffs] @ include/sancus/types.h:88-88. *)
Definition sancus_get_ffs := strto strtold.
(** [sancus_get_frffs] @ include/sancus/types.h:145-145. *)
Definition sancus_get_frffs := gele_strto sancus_get_ffs sancus_get_frff.
End Strtold.

(** ** Integers as [double] *)

Lemma d_of_long_nearest z :
  LONG_MIN <= z <= LONG_MAX -> exists v, isd (d_of_Z z) v /\ rounds v (inject_Z z).
Proof. intros Hz. apply d_of_Z_rounds, tame_Z. unfold LONG_MIN, LONG_MAX in Hz. lia. Qed.

(** C35. [sancus_get_frlls] of a text: a decimal number whose [long] lies
    between the bounds is stored as the [double] it rounds to, the number
    itself when 53 bits hold it; one outside fails, as does a text that is no
    number, and leaves the output alone.  (Rounding is stated as a relative
    error of at most [u = 2^-53], and exactness where 53 bits hold the number.)
    *)
Theorem get_frlls_nearest (s : list byte) (a b : Z) (o : double) (Hs : no_nul s) :
  (forall n, decimal s n ->
     let c := clamp_long n in
     if (a <=? c) && (c <=? b)
     then exists x v, sancus_get_frlls (Some (cstr s)) a b (Some o) = Ret (true, Some x) /\
            isd x v /\ rounds v (inject_Z c)
     else sancus_get_frlls (Some (cstr s)) a b (Some o) = Ret (false, Some o)) /\
  ((forall n, ~ decimal s n) ->
     sancus_get_frlls (Some (cstr s)) a b (Some o) = Ret (false, Some o)).
Proof.
  destruct (get_ls_reads s c_zero Hs) as (ok & w & E & Hok & Hv).
  unfold sancus_get_frlls, gele_strto. change sancus_get_lls with sancus_get_ls. rewrite E. run.
  split.
  - intros n Hn. rewrite (proj2 Hok) by eauto. rewrite (Hv n Hn).
    unfold sancus_get_fr, get_gele_cast, get_cmp2_cast, get_converted. simpl c_ge; simpl c_le.
    rewrite Z.geb_leb. cbn zeta. destruct ((a <=? clamp_long n) && (clamp_long n <=? b)); [|done].
    destruct (d_of_long_nearest (clamp_long n)) as (v & Hd & Hr); [unfold clamp_long; bounds|].
    eauto 6.
  - intros Hno. destruct ok; [|done]. destruct (proj1 Hok eq_refl) as [n Hn]. by destruct (Hno n).
Qed.

Lemma get_frlls_nearest_witness :
  exists x v, sancus_get_frlls (Some (cstr (lit "9007199254740993"))) 0 LONG_MAX (Some c_zero) =
      Ret (true, Some x) /\ isd x v /\ rounds v (inject_Z 9007199254740993).
Proof.
  assert (no_nul (lit "9007199254740993")) as Hs by no_nul_lit.
  apply (proj1 (get_frlls_nearest _ 0 LONG_MAX c_zero Hs) 9007199254740993).
  apply (decimal_intro [] [] (lit "9007199254740993")); [constructor|by left| |done].
  repeat constructor.
Defined.

(** ** Texts of a [double] *)

Section StrtodSpec.
Context (strtod : list byte -> outcome (double * Z)).

(** What [strtod] documents: it reads a string, stops inside it, and without a
    conversion at its start. *)
Definition strtod_ok : Prop :=
  forall s, no_nul s -> exists v i, strtod (cstr s) = Ret (v, i) /\ 0 <= i <= zlen s.

(** [sancus_get_frfs] stores a [double] exactly when [strtod] converts the
    whole of a string that is not empty and the value is between the bounds.
    It never stores a NaN, whatever the bounds, and [sancus_frf] aborts on it. *)
Theorem get_frfs_in_range (Hd : strtod_ok) (s : list byte) (a b o : double) (Hs : no_nul s) :
  exists v i, strtod (cstr s) = Ret (v, i) /\
    (s <> [] -> sancus_get_frfs strtod (Some (cstr s)) a b (Some o) =
       Ret (if bool_decide (i = zlen s) && SFleb a v && SFleb v b then (true, Some v) else (false, Some o))) /\
    sancus_get_frfs strtod (Some (cstr [])) a b (Some o) = Ret (false, Some o) /\
    sancus_get_frf S754_nan a b (Some o) = (false, Some o) /\ sancus_frf S754_nan a b = Aborted.
Proof.
  destruct (Hd s Hs) as (v & i & E & Hi). exists v, i. split; [done|].
  assert (SFleb a S754_nan = false) as Hnan by (by destruct a).
  split_and!.
  - intros Hne. unfold sancus_get_frfs, gele_strto, sancus_get_fs.
    rewrite (strto_cstr strtod s c_zero v i Hs Hne E Hi). run.
    unfold sancus_get_frf, get_gele_cast, get_cmp2_cast, get_converted. simpl c_ge; simpl c_le.
    case_bool_decide; simpl; [|done]. by destruct (SFleb a v && SFleb v b).
  - done.
  - unfold sancus_get_frf, get_gele_cast, get_cmp2_cast, get_converted. simpl c_ge. by rewrite Hnan.
  - unfold sancus_frf, gele_cast, cmp2_cast, converted. simpl c_ge. by rewrite Hnan.
Qed.
End StrtodSpec.

(** A [strtod] for the witness: it reads integers. *)
Definition strtod_int (s : list byte) : outcome (double * Z) :=
  '(v, i) ← c_strtol s; Ret (d_of_Z v, i).

Lemma strtod_int_ok : strtod_ok strtod_int.
Proof.
  intros s Hs. destruct (scan_decimal s) as (neg & i & k & E & Hi & Hk & Hik & _).
  unfold strtod_int, c_strtol. rewrite E. run. pose proof (zlen_nonneg s).
  destruct (Z.eqb_spec k 0); run; eexists _, _; (split; [done|lia]).
Qed.

Lemma get_frfs_in_range_witness :
  sancus_get_frfs strtod_int (Some (cstr (lit "7"))) (d_of_Z 0) (d_of_Z 9) (Some c_zero) =
    Ret (true, Some (d_of_Z 7)).
Proof.
  assert (no_nul (lit "7")) as Hs by no_nul_lit.
  destruct (get_frfs_in_range strtod_int strtod_int_ok (lit "7") (d_of_Z 0) (d_of_Z 9) c_zero Hs)
    as (v & i & E & H & _).
  rewrite H by done. vm_compute in E. injection E as <- <-. by vm_compute.
Defined.

(** ** Texts of a [long double] *)

(** The value of a normal [long double], or zero. *)
Definition isld (x : ldouble) (v : Q) : Prop :=
  match x with
  | S754_zero _ => (v == 0)%Q
  | S754_finite s m e => 2 ^ 63 <= Zpos m < 2 ^ 64 /\ (v == sval s (Zpos m) e)%Q
  | _ => False
  end.

Lemma d_of_ld_rounds x v : isld x v -> tame v -> exists z, isd (d_of_ld x) z /\ rounds z v.
Proof.
  destruct x as [s| | |s m e]; cbn [isld d_of_ld]; try done.
  - intros Ev _. exists v. split; [done|by apply rounds_exact].
  - intros [_ Ev] Ht. destruct (binary_round_rounds s m e) as (z & Hz & Hr).
    { destruct s; unfold sval in Ev; cbn [cond_Zopp] in Ev.
      - eapply tame_proper; [|apply tame_opp, Ht]. rewrite Ev, inject_Z_opp. ring.
      - by eapply tame_proper. }
    exists (if s then - z else z)%Q. split; [done|].
    destruct s; unfold sval in Ev; cbn [cond_Zopp] in Ev.
    + eapply rounds_proper; [|by apply rounds_opp]. rewrite Ev, inject_Z_opp. ring.
    + by eapply rounds_proper; [symmetry|].
Qed.

Section StrtoldSpec.
Context (strtold : list byte -> outcome (ldouble * Z)).

(** What [strtold] documents: it reads a string, stops inside it, and without a
    conversion at its start. *)
Definition strtold_ok : Prop :=
  forall s, no_nul s -> exists v i, strtold (cstr s) = Ret (v, i) /\ 0 <= i <= zlen s.

(** [sancus_get_frffs] compares the [long double] with the bounds, and stores
    the [double] that it rounds to. *)
Theorem get_frffs_rounds (Hd : strtold_ok) (s : list byte) (a b : ldouble) (o : double)
    (Hs : no_nul s) (Hne : s <> []) :
  exists v i, strtold (cstr s) = Ret (v, i) /\
    sancus_get_frffs strtold (Some (cstr s)) a b (Some o) =
      Ret (if bool_decide (i = zlen s) && SFleb a v && SFleb v b then (true, Some (d_of_ld v)) else (false, Some o)) /\
    (forall q, isld v q -> tame q -> exists z, isd (d_of_ld v) z /\ rounds z q).
Proof.
  destruct (Hd s Hs) as (v & i & E & Hi). exists v, i. split_and!; [done| |by apply d_of_ld_rounds].
  unfold sancus_get_frffs, gele_strto, sancus_get_ffs.
  rewrite (strto_cstr strtold s c_zero v i Hs Hne E Hi). run.
  unfold sancus_get_frff, get_gele_cast, get_cmp2_cast, get_converted. simpl c_ge; simpl c_le.
  case_bool_decide; simpl; [|done]. by destruct (SFleb a v && SFleb v b).
Qed.
End StrtoldSpec.

(** The bounds hold for the [long double], not for what is stored: of 1 + 2^-63,
    between itself and itself, 1 is stored. *)
Example frff_leaves_range :
  let v := S754_finite false (Z.to_pos (2 ^ 63 + 1)) (-63) in
  isld v (1 + (1 # 9223372036854775808)) /\ sancus_frff v v v = Ret (d_of_Z 1).
Proof. split; [split; [by vm_compute|by vm_compute]|by vm_compute]. Qed.
