(* ===== verification/Text.v ===== *)
(** * Text

    The bounded copies of [include/sancus/string.h] and the C-string escaping
    of [src/sancus/fmt_cstr.c].  A [char *] is the array it points into,
    read or written from its first byte. *)

From S2P Require Import Prelude.

(** ** [string.h] *)

(** [memcpy (dest, src, n)], the destination afterwards. *)
Definition c_memcpy (dest src : list byte) (n : Z) : outcome (list byte) :=
  x ← load src 0 n; store dest 0 x.

(** [sancus_memcpy] @ include/sancus/string.h:6-20. *)
Definition sancus_memcpy (dest : list byte) (dest_size : Z) (src : list byte) (n : Z)
    : outcome (Z * list byte) :=
  let '(n, ret) :=
    if s64 n >? dest_size then (u64 dest_size, - ENOBUFS) else (n, s64 n) in
  if n >? 0 then (dest' ← c_memcpy dest src n; Ret (ret, dest')) else Ret (ret, dest).

(** [sancus_strncpy] @ include/sancus/string.h:22-40.
    [src] may be [NULL] when no byte of it is read. *)
Definition sancus_strncpy (dest : list byte) (dest_size : Z) (src : option (list byte)) (n : Z)
    : outcome (Z * list byte) :=
  let ret := - ENOBUFS in
  if dest_size >? 0 then
    let sz := u64 dest_size in
    let '(ret, n) := if n <? sz then (s64 n, n) else (ret, sz - 1) in
    dest ← (if n >? 0 then (s ← deref src; c_memcpy dest s n) else Ret dest);
    dest ← store1 dest n Byte.x00;
    Ret (ret, dest)
  else Ret (ret, dest).

(** [sancus_strcpy] @ include/sancus/string.h:42-52. *)
Definition sancus_strcpy (dest : list byte) (dest_size : Z) (src : option (list byte))
    : outcome (Z * list byte) :=
  n ← match src with
      | None => Ret 0
      | Some s =>
          c ← load1 s 0;
          if bool_decide (c <> Byte.x00) then c_strlen s else Ret 0
      end;
  sancus_strncpy dest dest_size src n.

Lemma c_memcpy_ok dest src n :
  0 <= n <= zlen src -> n <= zlen dest -> c_memcpy dest src n = Ret (splice dest 0 (sub src 0 n)).
Proof. intros. unfold c_memcpy. rewrite load_ok by lia. run. rewrite store_ok by (slice_len; lia). done. Qed.

Lemma strncpy_ok dest dest_size src n :
  0 < dest_size <= zlen dest -> dest_size <= LONG_MAX -> 0 <= n <= LONG_MAX -> n <= zlen (default [] src) ->
  sancus_strncpy dest dest_size src n =
    Ret (if n <? dest_size then n else - ENOBUFS,
         splice dest 0 (sub (default [] src) 0 (Z.min n (dest_size - 1)) ++ [Byte.x00])).
Proof.
  intros Hd Hm Hn Hs. unfold sancus_strncpy.
  rewrite (uwrap_id 64 dest_size), (swrap_id 64 n) by bounds.
  assert ((if n <? dest_size then (n, n) else (- ENOBUFS, dest_size - 1))
          = ((if n <? dest_size then n else - ENOBUFS), Z.min n (dest_size - 1))) as ->
    by (crush_cond; f_equal; lia).
  rewrite (proj2 (Z.gtb_lt dest_size 0)) by lia.
  set (m := Z.min n (dest_size - 1)). assert (0 <= m < dest_size /\ m <= n) as Hm' by lia.
  assert ((if m >? 0 then s ← deref src; c_memcpy dest s m else Ret dest)
          = Ret (splice dest 0 (sub (default [] src) 0 m))) as ->.
  { rewrite Z.gtb_ltb. destruct (Z.ltb_spec 0 m).
    - destruct src as [s|]; [|simpl in Hs; unfold zlen in Hs; simpl in Hs; lia].
      simpl in *. apply c_memcpy_ok; lia.
    - rewrite sub_nil, splice_nil by lia. done. }
  run. unfold store1. assert (zlen (sub (default [] src) 0 m) = m) as Hl by (apply zlen_sub; lia).
  rewrite store_ok by (slice_len; change (zlen [Byte.x00]) with 1; lia). run.
  do 2 f_equal. rewrite <- splice_app; rewrite ?Hl; change (zlen [Byte.x00]) with 1; try lia.
  by rewrite Z.add_0_l.
Qed.

(** C38. [sancus_strcpy] of a C string [s] never writes outside the [dest_size]
    bytes it is given, always leaves a terminated string there, the longest
    prefix of [s] that fits, changes nothing behind the terminator, and returns
    the length exactly when nothing was cut. *)
Theorem strcpy_longest_prefix (dest s t : list byte) (dest_size : Z)
    (Hs : no_nul s) (Hlen : zlen s <= LONG_MAX)
    (Hd : 0 < dest_size <= zlen dest) (Hm : dest_size <= LONG_MAX) :
  exists r, sancus_strcpy dest dest_size (Some (cstr s ++ t)) = Ret (r, splice dest 0 (cstr (sub s 0 (dest_size - 1)))) /\
    zlen (cstr (sub s 0 (dest_size - 1))) <= dest_size /\
    (zlen s < dest_size -> r = zlen s /\ sub s 0 (dest_size - 1) = s) /\
    (dest_size <= zlen s -> r = - ENOBUFS).
Proof.
  pose proof (zlen_nonneg s). exists (if zlen s <? dest_size then zlen s else - ENOBUFS).
  split_and!; [|unfold cstr; rewrite zlen_app, zlen_sub_min by lia; change (zlen [Byte.x00]) with 1; lia
    |intros; crush_cond; split; [done|apply sub_whole; lia]|intros; crush_cond; done].
  unfold sancus_strcpy. destruct (load1_ok (cstr s ++ t) 0) as (c & Hc & Hc').
  { unfold cstr. rewrite !zlen_app. change (zlen [Byte.x00]) with 1. pose proof (zlen_nonneg t). lia. }
  rewrite Hc. run.
  assert ((if bool_decide (c <> Byte.x00) then c_strlen (cstr s ++ t) else Ret 0) = Ret (zlen s)) as ->.
  { rewrite (c_strlen_cstr s t Hs). case_bool_decide as Hc0; [done|]. subst c.
    destruct s as [|b s]; [done|]. injection Hc' as ->. exfalso. apply Hs. by left. }
  run. rewrite strncpy_ok; simpl default; try lia.
  - do 3 f_equal. unfold cstr. f_equal. rewrite <- app_assoc, sub_app_l by lia.
    destruct (decide (zlen s <= dest_size - 1)).
    + rewrite Z.min_l by lia. rewrite !sub_whole by lia. done.
    + rewrite Z.min_r by lia. done.
  - unfold cstr. rewrite !zlen_app. pose proof (zlen_nonneg t). change (zlen [Byte.x00]) with 1. lia.
Qed.

Lemma strcpy_longest_prefix_witness :
  exists r, sancus_strcpy (replicate 4 Byte.xff) 4 (Some (cstr (lit "abcd") ++ []))
    = Ret (r, splice (replicate 4 Byte.xff) 0 (cstr (sub (lit "abcd") 0 (4 - 1)))) /\
    zlen (cstr (sub (lit "abcd") 0 (4 - 1))) <= 4 /\
    (zlen (lit "abcd") < 4 -> r = zlen (lit "abcd") /\ sub (lit "abcd") 0 (4 - 1) = lit "abcd") /\
    (4 <= zlen (lit "abcd") -> r = - ENOBUFS).
Proof.
  apply (strcpy_longest_prefix (replicate 4 Byte.xff) (lit "abcd") [] 4); try (vm_compute; by try split).
  no_nul_lit.
Defined.

(** A negative size is an error for [sancus_strncpy], but [sancus_memcpy] turns
    it into a copy of nearly [2^64] bytes. *)
Lemma negative_dest_size dest src n dest_size :
  LONG_MIN <= dest_size < 0 -> 0 <= n <= LONG_MAX -> zlen src <= LONG_MAX ->
  sancus_strncpy dest dest_size (Some src) n = Ret (- ENOBUFS, dest) /\
  sancus_memcpy dest dest_size src n = Undef.
Proof.
  intros Hd Hn Hs. unfold sancus_strncpy, sancus_memcpy. split.
  - rewrite Z.gtb_ltb. by crush_cond.
  - rewrite (swrap_id 64 n) by bounds. rewrite !Z.gtb_ltb. crush_cond; [|].
    + unfold c_memcpy, load. destruct (in_bounds src 0 (u64 dest_size)) eqn:E; [|done].
      apply in_bounds_spec in E. exfalso. revert E. unfold uwrap.
      replace dest_size with (dest_size + 2 ^ 64 + (-1) * 2 ^ 64) by lia.
      rewrite Z.mod_add, Z.mod_small by bounds. bounds.
    + exfalso. revert H0. unfold uwrap.
      replace dest_size with (dest_size + 2 ^ 64 + (-1) * 2 ^ 64) by lia.
      rewrite Z.mod_add, Z.mod_small by bounds. bounds.
Qed.

(** [sancus_memcpy] with a proper size: the bytes that fit, and [-ENOBUFS] when
    some did not. *)
Lemma memcpy_ok dest dest_size src n :
  0 <= dest_size <= zlen dest -> dest_size <= LONG_MAX -> 0 <= n <= zlen src -> n <= LONG_MAX ->
  sancus_memcpy dest dest_size src n =
    Ret (if n <=? dest_size then n else - ENOBUFS, splice dest 0 (sub src 0 (Z.min n dest_size))).
Proof.
  intros. unfold sancus_memcpy. rewrite (swrap_id 64 n), (uwrap_id 64 dest_size) by bounds.
  rewrite !Z.gtb_ltb. destruct (Z.ltb_spec dest_size n).
  - rewrite (proj2 (Z.leb_gt n dest_size)), Z.min_r, Z.gtb_ltb by lia. crush_cond.
    + rewrite c_memcpy_ok by lia. by run.
    + rewrite sub_nil, splice_nil by lia. done.
  - rewrite (proj2 (Z.leb_le n dest_size)), Z.min_l, Z.gtb_ltb by lia. crush_cond.
    + rewrite c_memcpy_ok by lia. by run.
    + rewrite sub_nil, splice_nil by lia. done.
Qed.

(** ** [fmt_cstr.c] *)

(** [hexa] @ src/sancus/fmt_cstr.c:35-35. *)
Definition hexa : list byte := lit "0123456789abcdef".

(** [ascii] @ src/sancus/fmt_cstr.c:37-46.  The letter or character after which
    a byte is written; NUL for the bytes that have none. *)
Definition ascii : list byte :=
  let z n := replicate n Byte.x00 in
  [Byte.x30] ++ z 6%nat ++ lit "abtnvfr" ++ z 2%nat ++
  z 16%nat ++
  lit " !" ++ [Byte.x22] ++ lit "#$%&'()*+,-./" ++
  lit "0123456789:;<=>?" ++
  lit "@ABCDEFGHIJKLMNO" ++
  lit "PQRSTUVWXYZ[\]^_" ++
  lit "`abcdefghijklmno" ++
  lit "pqrstuvwxyz{|}~" ++ z 1%nat.

(** The indices 8 to 14 are [b] to [r] and 7 is [a]. *)
Example ascii_128 : zlen ascii = 128 /\ ascii !! 10%nat = Some Byte.x6e /\ ascii !! 92%nat = Some Byte.x5c.
Proof. by vm_compute. Qed.

(** [sancus_fmt_ascii_cstr, the letter e of a byte] @ src/sancus/fmt_cstr.c:57-58. *)
Definition fmt_e (c : byte) : outcome byte :=
  if Z.land (b2z c) 0x80 =? 0 then load1 ascii (b2z c) else Ret Byte.x00.

(** [sancus_fmt_ascii_cstr, the length l] @ src/sancus/fmt_cstr.c:60-65. *)
Definition fmt_l (c e : byte) : Z :=
  if bool_decide (e = Byte.x00) then 4
  else if (b2z c <? 32) || bool_decide (e = Byte.x22) || bool_decide (e = Byte.x5c) then 2
  else 1.

(** [sancus_fmt_ascii_cstr, the switch] @ src/sancus/fmt_cstr.c:73-87.
    Returns the output and the position behind what was written. *)
Definition fmt_put (buf : list byte) (p : Z) (c e : byte) (l : Z) : outcome (list byte * Z) :=
  let one buf p := buf ← store1 buf p e; Ret (buf, p + 1) in
  if l =? 2 then
    buf ← store1 buf p Byte.x5c;
    one buf (p + 1)
  else if l =? 1 then one buf p
  else if l =? 4 then
    h ← load1 hexa (Z.shiftr (Z.land (b2z c) 0xf0) 4);
    k ← load1 hexa (Z.land (b2z c) 0x0f);
    buf ← store1 buf p Byte.x5c;
    buf ← store1 buf (p + 1) Byte.x78;
    buf ← store1 buf (p + 2) h;
    buf ← store1 buf (p + 3) k;
    Ret (buf, p + 4)
  else Ret (buf, p).

(** [sancus_fmt_ascii_cstr, the loop] @ src/sancus/fmt_cstr.c:55-88.  [p] is
    the position of [buf], [dp] the one of [data]; the loop ends by itself
    when [size] is used up. *)
Fixpoint fmt_loop (size : nat) (data : list byte) (dp : Z) (buf : list byte) (p buf_len len : Z)
    : outcome (list byte * Z * Z) :=
  match size with
  | O => Ret (buf, p, len)
  | S size =>
      c ← load1 data dp;
      e ← fmt_e c;
      let l := fmt_l c e in
      if buf_len <=? l then Ret (buf, p, len)
      else
        r ← fmt_put buf p c e l;
        let '(buf, p) := (r : list byte * Z) in
        fmt_loop size data (dp + 1) buf p (u64 (buf_len - l)) (u64 (len + l))
  end.

(** [sancus_fmt_ascii_cstr] @ src/sancus/fmt_cstr.c:48-91. *)
Definition sancus_fmt_ascii_cstr (buf : option (list byte)) (buf_len : Z) (data : option (list byte)) (size : Z)
    : outcome (list byte * Z) :=
  _ ← c_assert (bool_decide (is_Some buf) && (buf_len >? 0));
  _ ← c_assert (bool_decide (is_Some data) && (size >? 0));
  buf ← deref buf;
  data ← deref data;
  r ← fmt_loop (Z.to_nat size) data 0 buf 0 buf_len 0;
  let '(buf, p, len) := (r : list byte * Z * Z) in
  buf ← store1 buf p Byte.x00;
  Ret (buf, len).

(** ** What it should write *)

(** The C escape of a byte: itself when it is printable and not a quote or a
    backslash, one of the letter escapes, or [\x] and two hexadecimal digits. *)
Definition escape (c : byte) : list byte :=
  let n := b2z c in
  let hex k := if k <? 10 then z2b (48 + k) else z2b (87 + k) in
  if n =? 0 then lit "\0" else
  if n =? 7 then lit "\a" else if n =? 8 then lit "\b" else if n =? 9 then lit "\t" else
  if n =? 10 then lit "\n" else if n =? 11 then lit "\v" else if n =? 12 then lit "\f" else
  if n =? 13 then lit "\r" else
  if (n =? 34) || (n =? 92) then [Byte.x5c; c] else
  if (32 <=? n) && (n <? 127) then [c] else
  lit "\x" ++ [hex (n / 16); hex (n mod 16)].

(** The longest prefix of [s] whose escapes are shorter than [room]. *)
Fixpoint escape_fit (room : Z) (s : list byte) : list byte :=
  match s with
  | [] => []
  | c :: s => if room <=? zlen (escape c) then [] else c :: escape_fit (room - zlen (escape c)) s
  end.

Definition escape_all (s : list byte) : list byte := s ≫= escape.

Definition unhex (b : byte) : Z := if b2z b <? 58 then b2z b - 48 else b2z b - 87.

Definition unletter (e : byte) : byte :=
  match e with
  | Byte.x30 => Byte.x00 | Byte.x61 => Byte.x07 | Byte.x62 => Byte.x08 | Byte.x74 => Byte.x09
  | Byte.x6e => Byte.x0a | Byte.x76 => Byte.x0b | Byte.x66 => Byte.x0c | Byte.x72 => Byte.x0d
  | _ => e
  end.

(** Reading the escapes back. *)
Fixpoint unescape (s : list byte) : list byte :=
  match s with
  | [] => []
  | Byte.x5c :: r =>
      match r with
      | Byte.x78 :: h :: k :: r => z2b (16 * unhex h + unhex k) :: unescape r
      | e :: r => unletter e :: unescape r
      | [] => [Byte.x5c]
      end
  | c :: r => c :: unescape r
  end.

Lemma unescape_escape c r : unescape (escape c ++ r) = c :: unescape r.
Proof. destruct c; reflexivity. Qed.

Lemma unescape_all s : unescape (escape_all s) = s.
Proof.
  unfold escape_all. induction s as [|c s IH]; [done|].
  change ((c :: s) ≫= escape) with (escape c ++ (s ≫= escape)).
  by rewrite unescape_escape, IH.
Qed.

Lemma escape_no_nul s : no_nul (escape_all s).
Proof.
  intros (c & Hc & _)%list_elem_of_bind. revert Hc. 
  destruct c; cbv; intros H; repeat (apply elem_of_cons in H as [H|H]; [discriminate|]);
    by apply elem_of_nil in H.
Qed.

Lemma escape_nonempty c : 1 <= zlen (escape c) <= 4.
Proof. destruct c; vm_compute; split; discriminate. Qed.

(** The code's per-byte decisions produce the escape. *)
Lemma fmt_cases c :
  exists e, fmt_e c = Ret e /\
    ((fmt_l c e = 2 /\ escape c = [Byte.x5c; e]) \/
     (fmt_l c e = 1 /\ escape c = [e]) \/
     (fmt_l c e = 4 /\ exists h k,
        load1 hexa (Z.shiftr (Z.land (b2z c) 0xf0) 4) = Ret h /\
        load1 hexa (Z.land (b2z c) 0x0f) = Ret k /\
        escape c = [Byte.x5c; Byte.x78; h; k])).
Proof.
  destruct c; (eexists; split; [reflexivity|]);
    first [ left; split; reflexivity | right; left; split; reflexivity
          | right; right; split; [reflexivity|]; eexists _, _; split_and!; reflexivity ].
Qed.

Lemma store1_ok buf p b : 0 <= p < zlen buf -> store1 buf p b = Ret (splice buf p [b]).
Proof. intros. apply store_ok; [lia|]. change (zlen [b]) with 1. lia. Qed.

(** Append the next single write to a splice. *)
Lemma splice_put {A} (l x : list A) p q b :
  0 <= p -> q = p + zlen x -> p + zlen x + 1 <= zlen l ->
  splice (splice l p x) q [b] = splice l p (x ++ [b]).
Proof. intros ? -> ?. apply splice_app; [lia|]. change (zlen [b]) with 1. lia. Qed.

(** Side conditions on writes of literal lists. *)
Ltac zl := rewrite ?zlen_splice by (unfold zlen in *; simpl length; lia);
  unfold zlen in *; simpl length in *; lia.

Lemma fmt_put_ok buf p c e :
  fmt_e c = Ret e -> 0 <= p -> p + zlen (escape c) <= zlen buf ->
  fmt_l c e = zlen (escape c) /\
  fmt_put buf p c e (fmt_l c e) = Ret (splice buf p (escape c), p + zlen (escape c)).
Proof.
  intros He Hp Hroom. destruct (fmt_cases c) as (e' & He' & Hc).
  rewrite He in He'. injection He' as <-.
  destruct Hc as [[-> E]|[[-> E]|[-> (h & k & Hh & Hk & E)]]]; rewrite E in Hroom |- *;
    unfold zlen in Hroom; simpl length in Hroom; (split; [done|]); unfold fmt_put; simpl Z.eqb; cbv iota.
  - rewrite store1_ok by zl. run. rewrite store1_ok by zl. run. rewrite splice_put by zl.
    unfold zlen. simpl. do 2 f_equal. lia.
  - rewrite store1_ok by zl. by run.
  - rewrite Hh. run. rewrite Hk. run.
    do 4 (rewrite store1_ok by zl; run; rewrite ?splice_put by zl; cbn [app]). done.
Qed.

Lemma escape_all_cons c s : escape_all (c :: s) = escape c ++ escape_all s.
Proof. reflexivity. Qed.

Lemma escape_fit_lt room s : 0 < room -> zlen (escape_all (escape_fit room s)) < room.
Proof.
  revert room. induction s as [|c s IH]; intros room Hr; simpl escape_fit.
  { unfold zlen. simpl. lia. }
  destruct (Z.leb_spec room (zlen (escape c))); [unfold zlen; simpl; lia|].
  rewrite escape_all_cons, zlen_app. pose proof (IH (room - zlen (escape c)) ltac:(lia)). lia.
Qed.

(** [escape_fit] is a prefix, and the next byte would not have fitted. *)
Lemma escape_fit_longest room s :
  exists r, s = escape_fit room s ++ r /\
    forall c t, r = c :: t -> room <= zlen (escape_all (escape_fit room s)) + zlen (escape c).
Proof.
  revert room. induction s as [|c s IH]; intros room; simpl escape_fit; [by exists []|].
  destruct (Z.leb_spec room (zlen (escape c))).
  - exists (c :: s). split; [done|]. intros ? ? [= <- <-]. unfold escape_all. simpl.
    change (zlen []) with 0. lia.
  - destruct (IH (room - zlen (escape c))) as (r & Hr & Hn). exists r. split; [simpl; by f_equal|].
    intros d t Ht. apply Hn in Ht. rewrite escape_all_cons, zlen_app. lia.
Qed.

Lemma fmt_loop_ok n data dp buf p room len :
  0 <= dp -> dp + Z.of_nat n <= zlen data -> 0 <= p -> 0 < room -> p + room <= zlen buf ->
  0 <= len -> len + room <= ULONG_MAX ->
  let out := escape_all (escape_fit room (sub data dp (Z.of_nat n))) in
  fmt_loop n data dp buf p room len = Ret (splice buf p out, p + zlen out, len + zlen out).
Proof.
  revert dp buf p room len. induction n as [|n IH]; intros dp buf p room len Hdp Hd Hp Hr Hb Hl Hm;
    cbv zeta.
  - rewrite sub_nil by lia. simpl. rewrite splice_nil, !Z.add_0_r by lia. done.
  - destruct (load1_ok data dp) as (c & Hc & Hlk); [lia|].
    cbn [fmt_loop]. rewrite Hc. run. destruct (fmt_cases c) as (e & He & _). rewrite He. run. cbv zeta.
    rewrite (sub_cons _ _ _ c), Nat2Z.inj_succ by (lia || done).
    replace (Z.succ (Z.of_nat n) - 1) with (Z.of_nat n) by lia.
    destruct (decide (p + zlen (escape c) <= zlen buf)) as [Hfit|Hfit].
    + destruct (fmt_put_ok buf p c e He Hp Hfit) as [El Ep]. rewrite El in *. simpl escape_fit.
      destruct (Z.leb_spec room (zlen (escape c))).
      { change (escape_all []) with (@nil byte). rewrite splice_nil by lia.
        change (zlen []) with 0. by rewrite !Z.add_0_r. }
      rewrite Ep. run. pose proof (escape_nonempty c).
      rewrite !uwrap_id by bounds. rewrite IH by (rewrite ?zlen_splice by lia; bounds). cbv zeta.
      rewrite escape_all_cons, zlen_app. rewrite splice_app.
      * f_equal; f_equal; [f_equal|]; lia.
      * lia.
      * pose proof (escape_fit_lt (room - zlen (escape c)) (sub data (dp + 1) (Z.of_nat n)) ltac:(lia)). lia.
    + assert (fmt_l c e = zlen (escape c)) as El.
      { destruct (fmt_cases c) as (e' & He' & Hcs). rewrite He in He'. injection He' as <-.
        destruct Hcs as [[-> ->]|[[-> ->]|[-> (h & k & _ & _ & ->)]]]; done. }
      rewrite El. simpl escape_fit. rewrite (proj2 (Z.leb_le room (zlen (escape c)))) by lia.
      change (escape_all []) with (@nil byte). rewrite splice_nil by lia.
      change (zlen []) with 0. by rewrite !Z.add_0_r.
Qed.

Lemma fmt_ascii_cstr_ok buf data buf_len size :
  0 < buf_len <= zlen buf -> buf_len <= ULONG_MAX -> 0 < size <= zlen data ->
  let kept := escape_fit buf_len (sub data 0 size) in
  sancus_fmt_ascii_cstr (Some buf) buf_len (Some data) size =
    Ret (splice buf 0 (cstr (escape_all kept)), zlen (escape_all kept)).
Proof.
  intros Hb Hm Hs. cbv zeta. pose proof (escape_fit_lt buf_len (sub data 0 size) ltac:(lia)) as Hlt.
  pose proof (zlen_nonneg (escape_all (escape_fit buf_len (sub data 0 size)))).
  unfold sancus_fmt_ascii_cstr.
  rewrite !bool_decide_true, !Z.gtb_ltb, !(proj2 (Z.ltb_lt _ _)) by (by eexists || lia). simpl c_assert. run.
  simpl deref. run. rewrite fmt_loop_ok by lia. cbv zeta. rewrite !Z2Nat.id by lia. run.
  rewrite store1_ok by (rewrite zlen_splice; lia). run. rewrite splice_put by lia. done.
Qed.

(** [sancus_fmt_ascii_cstr] never writes outside the [buf_len] bytes of
    its buffer; it leaves there the terminated C escapes of the longest prefix
    of the data that fits, touches nothing behind them, and returns their
    length. *)
Theorem fmt_ascii_cstr_spec (buf data : list byte) (buf_len size : Z)
    (Hb : 0 < buf_len <= zlen buf) (Hm : buf_len <= ULONG_MAX) (Hs : 0 < size <= zlen data) :
  let kept := escape_fit buf_len (sub data 0 size) in
  sancus_fmt_ascii_cstr (Some buf) buf_len (Some data) size =
    Ret (splice buf 0 (cstr (escape_all kept)), zlen (escape_all kept)) /\
  zlen (cstr (escape_all kept)) <= buf_len /\
  (exists r, sub data 0 size = kept ++ r /\
     forall c t, r = c :: t -> buf_len <= zlen (escape_all kept) + zlen (escape c)).
Proof.
  cbv zeta. split_and!; [by apply fmt_ascii_cstr_ok| |apply escape_fit_longest].
  pose proof (escape_fit_lt buf_len (sub data 0 size) ltac:(lia)).
  unfold cstr. rewrite zlen_app. change (zlen [Byte.x00]) with 1. lia.
Qed.

Lemma fmt_ascii_cstr_spec_witness :
  let kept := escape_fit 6 (sub (lit "a" ++ [Byte.xff] ++ lit "bc") 0 4) in
  sancus_fmt_ascii_cstr (Some (replicate 8 Byte.x2a)) 6 (Some (lit "a" ++ [Byte.xff] ++ lit "bc")) 4 =
    Ret (splice (replicate 8 Byte.x2a) 0 (cstr (escape_all kept)), zlen (escape_all kept)) /\
  zlen (cstr (escape_all kept)) <= 6 /\
  (exists r, sub (lit "a" ++ [Byte.xff] ++ lit "bc") 0 4 = kept ++ r /\
     forall c t, r = c :: t -> 6 <= zlen (escape_all kept) + zlen (escape c)).
Proof.
  apply (fmt_ascii_cstr_spec (replicate 8 Byte.x2a) (lit "a" ++ [Byte.xff] ++ lit "bc") 6 4);
    vm_compute; by try split.
Defined.

(** C22. Nothing is lost: reading the escapes of the string
    [sancus_fmt_ascii_cstr] wrote gives back the data, when the buffer has four
    bytes for each byte of it and one more. *)
Theorem fmt_ascii_cstr_roundtrip (buf data : list byte)
    (Hd : data <> []) (Hb : 4 * zlen data < zlen buf <= ULONG_MAX) :
  exists buf' len, sancus_fmt_ascii_cstr (Some buf) (zlen buf) (Some data) (zlen data) = Ret (buf', len) /\
    c_strlen buf' = Ret len /\ unescape (sub buf' 0 len) = data.
Proof.
  assert (0 < zlen data) as Hpos.
  { pose proof (zlen_nonneg data). destruct (decide (zlen data = 0)) as [E|]; [|lia].
    by apply zlen_zero in E. }
  rewrite fmt_ascii_cstr_ok, sub_all by lia. eexists _, _. split; [done|].
  assert (forall s room, 4 * zlen s < room -> escape_fit room s = s) as Hall.
  { induction s as [|c s IH]; intros room Hr; [done|]. simpl. rewrite zlen_cons in Hr.
    pose proof (zlen_nonneg s). pose proof (escape_nonempty c).
    destruct (Z.leb_spec room (zlen (escape c))); [lia|]. by rewrite IH by lia. }
  rewrite Hall by lia. pose proof (escape_fit_lt (zlen buf) data ltac:(lia)) as Hle.
  rewrite Hall in Hle by lia. split.
  - unfold splice, cstr. rewrite take_0. simpl. rewrite <- app_assoc.
    rewrite (app_assoc (escape_all data)). apply c_strlen_cstr, escape_no_nul.
  - pose proof (zlen_nonneg (escape_all data)).
    unfold cstr. rewrite <- splice_app; [|lia|change (zlen [Byte.x00]) with 1; lia].
    rewrite sub_splice_disjoint by (rewrite ?zlen_splice; change (zlen [Byte.x00]) with 1; lia).
    rewrite sub_splice_same by lia. apply unescape_all.
Qed.

Lemma fmt_ascii_cstr_roundtrip_witness :
  exists buf' len, sancus_fmt_ascii_cstr (Some (replicate 9 Byte.xff)) (zlen (replicate 9 Byte.xff))
      (Some [Byte.x00; Byte.x81]) (zlen [Byte.x00; Byte.x81]) = Ret (buf', len) /\
    c_strlen buf' = Ret len /\ unescape (sub buf' 0 len) = [Byte.x00; Byte.x81].
Proof.
  apply (fmt_ascii_cstr_roundtrip (replicate 9 Byte.xff) [Byte.x00; Byte.x81]);
    [discriminate|vm_compute; by split].
Defined.
