(* ===== verification/DList.v ===== *)
(** * DList

    The intrusive doubly linked list of [include/sancus/list.h].  The elements
    live in a heap, a finite map from addresses to their two pointers; an
    operation takes the heap and returns it changed, and is undefined when it
    follows a pointer to no element.  A list with head [head] and elements
    [xs] in order is the ring the pointers form. *)

From stdpp Require Import gmap.
From S2P Require Import Prelude.

(** Addresses; [NULL] is [None] where it can occur. *)
Abbreviation loc := Z.

(** [struct sancus_list] @ include/sancus/list.h:35-38. *)
Record node := Node { prev : loc; next : loc }.

Abbreviation heap := (gmap loc node).

Implicit Types (h : heap) (xs ys : list loc).

(** ** Operations *)

Definition rd_prev h (p : loc) : outcome loc := n ← deref (h !! p); Ret (prev n).
Definition rd_next h (p : loc) : outcome loc := n ← deref (h !! p); Ret (next n).

Definition wr h (p : loc) (n : node) : outcome heap :=
  _ ← deref (h !! p); Ret (<[p := n]> h).
Definition wr_prev h (p v : loc) : outcome heap :=
  n ← deref (h !! p); Ret (<[p := Node v (next n)]> h).
Definition wr_next h (p v : loc) : outcome heap :=
  n ← deref (h !! p); Ret (<[p := Node (prev n) v]> h).

(** [sancus_list_init, DECL_SANCUS_LIST] @ include/sancus/list.h:40-48. *)
Definition sancus_list_init (self : loc) h : outcome heap := wr h self (Node self self).

(** [sancus_list__inject] @ include/sancus/list.h:53-60. *)
Definition sancus_list__inject (self prev next : loc) h : outcome heap :=
  h ← wr h self (Node prev next);
  h ← wr_next h prev self;
  wr_prev h next self.

(** [sancus_list_insert_before] @ include/sancus/list.h:65-65. *)
Definition sancus_list_insert_before (i n : loc) h : outcome heap :=
  p ← rd_prev h n; sancus_list__inject i p n h.

(** [sancus_list_insert] @ include/sancus/list.h:69-69. *)
Definition sancus_list_insert (head i : loc) h : outcome heap :=
  n ← rd_next h head; sancus_list__inject i head n h.

(** [sancus_list_append] @ include/sancus/list.h:74-74. *)
Definition sancus_list_append (head i : loc) h : outcome heap :=
  p ← rd_prev h head; sancus_list__inject i p head h.

(** [sancus_list__del] @ include/sancus/list.h:79-84. *)
Definition sancus_list__del (prev next : loc) h : outcome heap :=
  h ← wr_prev h next prev;
  wr_next h prev next.

(** [sancus_list_del] @ include/sancus/list.h:85-85. *)
Definition sancus_list_del (s : loc) h : outcome heap :=
  p ← rd_prev h s; n ← rd_next h s; sancus_list__del p n h.

(** [sancus_list_swap] @ include/sancus/list.h:90-96. *)
Definition sancus_list_swap (a b : loc) h : outcome heap :=
  na ← deref (h !! a);
  nb ← deref (h !! b);
  h ← wr h a (Node (prev nb) (next nb));
  wr h b (Node (prev na) (next na)).

(** [sancus_list_foreach, sancus_list_foreach_back] @ include/sancus/list.h:102-112.
    The loop over a fixed heap with a body that updates [st] or leaves the
    loop with a result; [step] is [rd_next h] or [rd_prev h]. *)
Fixpoint foreach {S R} (fuel : nat) (step : loc -> outcome loc) (head item : loc)
    (body : loc -> S -> R + S) (st : S) : outcome (R + S) :=
  match fuel with
  | O => OutOfFuel
  | Datatypes.S fuel =>
      if bool_decide (item = head) then Ret (inr st)
      else match body item st with
           | inl r => Ret (inl r)
           | inr st => i ← step item; foreach fuel step head i body st
           end
  end.

(** [sancus_list_foreach2, sancus_list_foreach_back2] @ include/sancus/list.h:107-117.
    The body may change the heap. *)
Fixpoint foreach2 (fuel : nat) (step : heap -> loc -> outcome loc) (head item n : loc)
    (body : loc -> heap -> outcome heap) h : outcome heap :=
  match fuel with
  | O => OutOfFuel
  | Datatypes.S fuel =>
      if bool_decide (item = head) then Ret h
      else
        h ← body item h;
        n' ← step h n;
        foreach2 fuel step head n n' body h
  end.

Definition sancus_list_foreach2 (fuel : nat) (head : loc) (body : loc -> heap -> outcome heap) h : outcome heap :=
  i ← rd_next h head; n ← rd_next h i; foreach2 fuel rd_next head i n body h.

(** [sancus_list_get] @ include/sancus/list.h:122-136. *)
Definition sancus_list_get (fuel : nat) (head : loc) (n : Z) h : outcome (option loc) :=
  r ← (if n <? 0 then
         i ← rd_prev h head;
         foreach fuel (rd_prev h) head i
           (fun item n => let n := n + 1 in if n =? 0 then inl item else inr n) n
       else
         i ← rd_next h head;
         foreach fuel (rd_next h) head i
           (fun item n => if n =? 0 then inl item else inr (n - 1)) n);
  Ret (match r with inl item => Some item | inr _ => None end).

(** [sancus_list_size] @ include/sancus/list.h:141-149. *)
Definition sancus_list_size (fuel : nat) (head : loc) h : outcome Z :=
  i ← rd_next h head;
  r ← foreach fuel (rd_next h) head i (fun _ i => (inr (u64 (i + 1)) : Empty_set + Z)) 0;
  Ret (match r with inl r => match (r : Empty_set) with end | inr i => i end).

(** [sancus_list_is_empty] @ include/sancus/list.h:154-154. *)
Definition sancus_list_is_empty (head : loc) h : outcome bool :=
  n ← rd_next h head; Ret (bool_decide (n = head)).

(** [sancus_list_first] @ include/sancus/list.h:159-159. *)
Definition sancus_list_first (head : loc) h : outcome (option loc) :=
  b ← sancus_list_is_empty head h;
  if (b : bool) then Ret None else n ← rd_next h head; Ret (Some n).

(** [sancus_list_last] @ include/sancus/list.h:164-164. *)
Definition sancus_list_last (head : loc) h : outcome (option loc) :=
  b ← sancus_list_is_empty head h;
  if (b : bool) then Ret None else p ← rd_prev h head; Ret (Some p).

(** [sancus_list_next] @ include/sancus/list.h:169-169. *)
Definition sancus_list_next (head e : option loc) h : outcome (option loc) :=
  match head, e with
  | Some head, Some e =>
      n ← rd_next h e; Ret (if bool_decide (n = head) then None else Some n)
  | _, _ => Ret None
  end.

(** The elements a forward loop visits. *)
Definition elements (fuel : nat) (head : loc) h : outcome (list loc) :=
  i ← rd_next h head;
  r ← foreach fuel (rd_next h) head i (fun i l => (inr (l ++ [i]) : Empty_set + list loc)) [];
  Ret (match r with inl r => match (r : Empty_set) with end | inr l => l end).

(** ** Rings *)

Definition nx h (p : loc) : option loc := next <$> h !! p.
Definition pv h (p : loc) : option loc := prev <$> h !! p.

Definition linked h (a b : loc) : Prop := nx h a = Some b /\ pv h b = Some a.

(** [a] and then [xs], each linked to the one after it. *)
Fixpoint seg h (a : loc) (xs : list loc) : Prop :=
  match xs with
  | [] => True
  | x :: xs => linked h a x /\ seg h x xs
  end.

(** The list [head] heads has the elements [xs]. *)
Definition dll h (head : loc) (xs : list loc) : Prop :=
  NoDup (head :: xs) /\ seg h head (xs ++ [head]).

(** The last of [a :: xs], and all before it. *)
Definition end_of (a : loc) (xs : list loc) : loc := default a (last xs).
Definition front (a : loc) (xs : list loc) : list loc := removelast (a :: xs).

Lemma front_end a xs : a :: xs = front a xs ++ [end_of a xs].
Proof.
  unfold front, end_of. revert a. induction xs as [|x xs IH]; intros a; [done|].
  change (removelast (a :: x :: xs)) with (a :: removelast (x :: xs)).
  rewrite last_cons. simpl app. f_equal. rewrite (IH x) at 1. by destruct (last xs).
Qed.

Lemma end_of_cons a x xs : end_of a (x :: xs) = end_of x xs.
Proof. unfold end_of. rewrite last_cons. by destruct (last xs). Qed.

Lemma end_of_app a xs x ys : end_of a (xs ++ x :: ys) = end_of x ys.
Proof. unfold end_of. rewrite last_app_cons. rewrite last_cons. by destruct (last ys). Qed.

Lemma end_of_in a xs : end_of a xs ∈ a :: xs.
Proof. rewrite (front_end a xs). apply elem_of_app. right. by apply list_elem_of_singleton. Qed.

Lemma front_sub a xs y : y ∈ front a xs -> y ∈ a :: xs.
Proof. intros. rewrite (front_end a xs). apply elem_of_app. by left. Qed.

Lemma front_nodup a xs y : NoDup (a :: xs) -> y ∈ front a xs -> y <> end_of a xs.
Proof.
  rewrite front_end at 1. intros (_ & H & _)%NoDup_app Hy ->. apply (H _ Hy).
  by apply list_elem_of_singleton.
Qed.

Lemma seg_app h a xs ys : seg h a (xs ++ ys) <-> seg h a xs /\ seg h (end_of a xs) ys.
Proof.
  revert a. induction xs as [|x xs IH]; intros a; simpl app; [unfold end_of; simpl; tauto|].
  cbn [seg]. rewrite IH, end_of_cons. tauto.
Qed.

(** A segment depends on the forward pointers of all but its last element and
    the backward pointers of all but its first. *)
Lemma seg_frame h h' a xs :
  (forall y, y ∈ front a xs -> nx h' y = nx h y) ->
  (forall y, y ∈ xs -> pv h' y = pv h y) ->
  seg h a xs -> seg h' a xs.
Proof.
  revert a. induction xs as [|x xs IH]; intros a Hn Hp; [done|]. simpl.
  intros [[Ha Hx] Hs]. assert (front a (x :: xs) = a :: front x xs) as E by done. rewrite E in Hn.
  split; [split|].
  - rewrite Hn; [done|by left].
  - rewrite Hp; [done|by left].
  - apply IH; [| |done]; intros; [apply Hn|apply Hp]; by right.
Qed.

Lemma dll_dom h head xs y : dll h head xs -> y ∈ head :: xs -> is_Some (h !! y).
Proof.
  intros [_ Hs]. assert (forall a l, seg h a l -> forall y, y ∈ l -> is_Some (h !! y)) as H.
  { intros a l. revert a. induction l as [|x l IH]; intros a Hl z Hz; [by apply elem_of_nil in Hz|].
    destruct Hl as [[_ Hx] Hl]. apply elem_of_cons in Hz as [->|Hz]; [|by eapply IH].
    unfold pv in Hx. destruct (h !! x); [by eexists|discriminate]. }
  intros Hy. eapply H; [exact Hs|]. apply elem_of_app. apply elem_of_cons in Hy as [->|]; [right; by left|by left].
Qed.

(** The effect of the writes on the two pointers. *)
Lemma wr_ok h p n : is_Some (h !! p) -> wr h p n = Ret (<[p := n]> h).
Proof. intros [m E]. unfold wr. rewrite E. by run. Qed.

Lemma wr_next_ok h p v : is_Some (h !! p) -> exists h', wr_next h p v = Ret h' /\
  (forall y, nx h' y = if decide (y = p) then Some v else nx h y) /\
  (forall y, pv h' y = pv h y) /\ (forall y, is_Some (h' !! y) <-> is_Some (h !! y)).
Proof.
  intros [n E]. unfold wr_next. rewrite E. simpl. run. eexists; split; [done|].
  unfold nx, pv. split_and!; intros y.
  - case_decide; [subst; by rewrite lookup_insert_eq|by rewrite lookup_insert_ne].
  - destruct (decide (y = p)); [subst; by rewrite lookup_insert_eq, E|by rewrite lookup_insert_ne].
  - destruct (decide (y = p)); [subst; rewrite lookup_insert_eq, E; split; by eexists|by rewrite lookup_insert_ne].
Qed.

Lemma wr_prev_ok h p v : is_Some (h !! p) -> exists h', wr_prev h p v = Ret h' /\
  (forall y, pv h' y = if decide (y = p) then Some v else pv h y) /\
  (forall y, nx h' y = nx h y) /\ (forall y, is_Some (h' !! y) <-> is_Some (h !! y)).
Proof.
  intros [n E]. unfold wr_prev. rewrite E. simpl. run. eexists; split; [done|].
  unfold nx, pv. split_and!; intros y.
  - case_decide; [subst; by rewrite lookup_insert_eq|by rewrite lookup_insert_ne].
  - destruct (decide (y = p)); [subst; by rewrite lookup_insert_eq, E|by rewrite lookup_insert_ne].
  - destruct (decide (y = p)); [subst; rewrite lookup_insert_eq, E; split; by eexists|by rewrite lookup_insert_ne].
Qed.

Lemma rd_next_ok h a v : nx h a = Some v -> rd_next h a = Ret v.
Proof. unfold nx, rd_next. destruct (h !! a); [|discriminate]. intros [= <-]. by run. Qed.

Lemma rd_prev_ok h a v : pv h a = Some v -> rd_prev h a = Ret v.
Proof. unfold pv, rd_prev. destruct (h !! a); [|discriminate]. intros [= <-]. by run. Qed.

(** The ring cut between [xs1] and [xs2]. *)
Lemma ring_cut head xs1 xs2 :
  NoDup (head :: xs1 ++ xs2) ->
  exists q ys, xs2 ++ [head] = q :: ys /\ q = hd head xs2 /\ front q ys = xs2 /\
    (q ∉ xs1) /\ (q ∉ ys) /\ (end_of head xs1 ∉ xs2) /\
    (forall y, y ∈ front head xs1 -> y <> end_of head xs1).
Proof.
  intros Hnd. assert (exists q ys, xs2 ++ [head] = q :: ys) as (q & ys & E)
    by (destruct xs2; eexists _, _; done).
  exists q, ys. pose proof Hnd as (Hh & Hnd')%NoDup_cons.
  apply NoDup_app in Hnd' as (H1 & H12 & H2).
  assert (NoDup (q :: ys)) as Hq.
  { rewrite <- E. apply NoDup_app. split_and!; [done| |apply NoDup_singleton].
    intros y Hy ->%list_elem_of_singleton. apply Hh, elem_of_app. by right. }
  split_and!; try done.
  - destruct xs2; simpl in E; by injection E.
  - unfold front. rewrite <- E. apply removelast_last.
  - intros Hin. destruct xs2 as [|x xs2]; injection E as <- _.
    + apply Hh, elem_of_app. by left.
    + apply (H12 x Hin). by left.
  - by apply NoDup_cons in Hq as [? _].
  - intros Hin. destruct (proj1 (elem_of_cons _ _ _) (end_of_in head xs1)) as [Hp|Hp].
    + rewrite Hp in Hin. apply Hh, elem_of_app. by right.
    + by apply (H12 _ Hp).
  - intros y Hy. eapply front_nodup; [|done]. apply NoDup_cons. split; [|done].
    intros ?. apply Hh, elem_of_app. by left.
Qed.

Lemma dll_split h head xs1 xs2 q ys :
  xs2 ++ [head] = q :: ys ->
  dll h head (xs1 ++ xs2) <-> NoDup (head :: xs1 ++ xs2) /\
    seg h head xs1 /\ linked h (end_of head xs1) q /\ seg h q ys.
Proof. intros E. unfold dll. rewrite <- app_assoc, seg_app, E. simpl. tauto. Qed.

(** The pointers after [sancus_list__inject] and [sancus_list__del]. *)
Lemma inject_ok h i p q :
  is_Some (h !! i) -> is_Some (h !! p) -> is_Some (h !! q) -> p <> i -> q <> i ->
  exists h', sancus_list__inject i p q h = Ret h' /\
    (forall y, nx h' y = if decide (y = p) then Some i else if decide (y = i) then Some q else nx h y) /\
    (forall y, pv h' y = if decide (y = q) then Some i else if decide (y = i) then Some p else pv h y) /\
    (forall y, is_Some (h' !! y) <-> is_Some (h !! y)).
Proof.
  intros Hi Hp Hq Hpi Hqi. unfold sancus_list__inject. rewrite wr_ok by done. run.
  set (h1 := <[i := Node p q]> h).
  assert (forall y, is_Some (h1 !! y) <-> is_Some (h !! y)) as D1.
  { intros y. unfold h1. destruct (decide (y = i)) as [->|];
      [rewrite lookup_insert_eq; split; [done|by eexists]|by rewrite lookup_insert_ne]. }
  destruct (wr_next_ok h1 p i) as (h2 & -> & N2 & P2 & D2); [by apply D1|]. run.
  destruct (wr_prev_ok h2 q i) as (h3 & -> & P3 & N3 & D3); [by apply D2, D1|].
  exists h3. split; [done|]. split_and!; intros y; [..|by rewrite D3, D2, D1].
  - rewrite N3, N2. case_decide; [done|]. unfold nx, h1.
    case_decide; [subst; by rewrite lookup_insert_eq|by rewrite lookup_insert_ne].
  - rewrite P3. case_decide; [done|]. rewrite P2. unfold pv, h1.
    case_decide; [subst; by rewrite lookup_insert_eq|by rewrite lookup_insert_ne].
Qed.

Lemma del_ok h p q :
  is_Some (h !! p) -> is_Some (h !! q) ->
  exists h', sancus_list__del p q h = Ret h' /\
    (forall y, nx h' y = if decide (y = p) then Some q else nx h y) /\
    (forall y, pv h' y = if decide (y = q) then Some p else pv h y) /\
    (forall y, is_Some (h' !! y) <-> is_Some (h !! y)).
Proof.
  intros Hp Hq. unfold sancus_list__del.
  destruct (wr_prev_ok h q p) as (h1 & -> & P1 & N1 & D1); [done|]. run.
  destruct (wr_next_ok h1 p q) as (h2 & -> & N2 & P2 & D2); [by apply D1|].
  exists h2. split; [done|]. split_and!; intros y; [by rewrite N2, N1|by rewrite P2, P1|by rewrite D2, D1].
Qed.

Lemma end_of_ring head xs1 xs2 : end_of head xs1 ∈ head :: xs1 ++ xs2.
Proof.
  destruct (proj1 (elem_of_cons _ _ _) (end_of_in head xs1)) as [->|Hp]; [by left|].
  right. apply elem_of_app. by left.
Qed.

Lemma hd_ring head xs1 xs2 : hd head xs2 ∈ head :: xs1 ++ xs2.
Proof. destruct xs2; simpl; [by left|]. right. apply elem_of_app. right. by left. Qed.

(** Putting a new element between [xs1] and [xs2]. *)
Lemma inject_dll h head xs1 xs2 i :
  dll h head (xs1 ++ xs2) -> is_Some (h !! i) -> i ∉ head :: xs1 ++ xs2 ->
  exists h', sancus_list__inject i (end_of head xs1) (hd head xs2) h = Ret h' /\
    dll h' head (xs1 ++ i :: xs2) /\ (forall y, is_Some (h' !! y) <-> is_Some (h !! y)).
Proof.
  intros Hd Hi Hfresh. pose proof Hd as [Hnd _].
  assert (forall y, y ∈ head :: xs1 ++ xs2 -> y <> i) as Hne by (intros y Hy ->; done).
  destruct (inject_ok h i (end_of head xs1) (hd head xs2)) as (h' & -> & N & P & D);
    [done|eapply dll_dom; [done|]; auto using end_of_ring, hd_ring..
    |apply Hne, end_of_ring|apply Hne, hd_ring|].
  exists h'. split; [done|]. split; [|done].
  destruct (ring_cut head xs1 xs2 Hnd) as (q & ys & E & Eq & Hf & Hq1 & Hqy & Hp2 & Hpf).
  rewrite <- Eq in *. apply (dll_split _ _ _ _ _ _ E) in Hd as (_ & Hs1 & _ & Hs2).
  pose proof (Hne _ (end_of_ring head xs1 xs2)). assert (q <> i) by (rewrite Eq; apply Hne, hd_ring).
  apply (dll_split _ _ _ (i :: xs2) i (q :: ys)); [by rewrite <- E|]. split_and!.
  - assert (head :: xs1 ++ i :: xs2 ≡ₚ i :: head :: xs1 ++ xs2) as ->
      by (rewrite <- Permutation_middle; constructor). by constructor.
  - eapply seg_frame; [..|exact Hs1]; intros y Hy.
    + rewrite N, !decide_False; [done| |by apply Hpf].
      apply Hne. apply front_sub, elem_of_cons in Hy as [->|Hy]; [by left|]. right. apply elem_of_app. by left.
    + rewrite P, !decide_False; [done| |by intros ->].
      apply Hne. right. apply elem_of_app. by left.
  - split; [by rewrite N, decide_True|]. by rewrite P, decide_False, decide_True.
  - split; [split; [by rewrite N, decide_False, decide_True|by rewrite P, decide_True]|].
    eapply seg_frame; [..|exact Hs2]; intros y Hy.
    + rewrite Hf in Hy. rewrite N, !decide_False; [done| |by intros ->].
      apply Hne. right. apply elem_of_app. by right.
    + rewrite P, !decide_False; [done| |by intros ->]. apply Hne.
      assert (y ∈ xs2 ++ [head]) as [?| ->%list_elem_of_singleton]%elem_of_app by (rewrite E; by right); [|by left].
      right. apply elem_of_app. by right.
Qed.

(** Taking out the element after [xs1]. *)
Lemma del_dll h head xs1 xs2 i :
  dll h head (xs1 ++ i :: xs2) ->
  exists h', sancus_list_del i h = Ret h' /\
    dll h' head (xs1 ++ xs2) /\ (i ∉ head :: xs1 ++ xs2) /\ (forall y, is_Some (h' !! y) <-> is_Some (h !! y)).
Proof.
  intros Hd. pose proof Hd as [Hnd _].
  assert (head :: xs1 ++ i :: xs2 ≡ₚ i :: head :: xs1 ++ xs2) as Eperm
    by (rewrite <- Permutation_middle; constructor).
  pose proof Hnd as Hnd0. rewrite Eperm in Hnd0. apply NoDup_cons in Hnd0 as [Hi Hnd1].
  assert (forall y, y ∈ head :: xs1 ++ xs2 -> y <> i) as Hne by (intros y Hy ->; done).
  assert (forall y, y ∈ head :: xs1 ++ xs2 -> is_Some (h !! y)) as Hdom.
  { intros y Hy. eapply dll_dom; [exact Hd|]. rewrite Eperm. by right. }
  destruct (ring_cut head xs1 xs2 Hnd1) as (q & ys & E & Eq & Hf & Hq1 & Hqy & Hp2 & Hpf).
  apply (dll_split _ _ _ (i :: xs2) i (q :: ys)) in Hd as (_ & Hs1 & [Hl1 Hl2] & [Hn1 Hn2] & Hs2); [|by rewrite <- E].
  destruct (del_ok h (end_of head xs1) q) as (h' & Edel & N & P & D);
    [apply Hdom, end_of_ring|rewrite Eq; apply Hdom, hd_ring|].
  exists h'. split_and!; [| |done|done].
  { unfold sancus_list_del. rewrite (rd_prev_ok _ _ _ Hl2). run. by rewrite (rd_next_ok _ _ _ Hn1). }
  apply (dll_split _ _ _ xs2 q ys E). split_and!; [done|..].
  - eapply seg_frame; [..|exact Hs1]; intros y Hy.
    + rewrite N, !decide_False; [done|by apply Hpf].
    + rewrite P, !decide_False; [done|by intros ->].
  - split; [by rewrite N, decide_True|]. by rewrite P, decide_True.
  - eapply seg_frame; [..|exact Hs2]; intros y Hy.
    + rewrite Hf in Hy. rewrite N, !decide_False; [done|by intros ->].
    + rewrite P, !decide_False; [done|by intros ->].
Qed.

(** ** Loops over a ring *)

(** Following [step] from [item] visits [xs] and then reaches [head]. *)
Fixpoint steps (step : loc -> outcome loc) (item : loc) (xs : list loc) (head : loc) : Prop :=
  match xs with
  | [] => item = head
  | x :: xs => item = x /\ exists n, step x = Ret n /\ steps step n xs head
  end.

(** What the loop computes. *)
Fixpoint fold_body {S R} (body : loc -> S -> R + S) (xs : list loc) (st : S) : R + S :=
  match xs with
  | [] => inr st
  | x :: xs => match body x st with inl r => inl r | inr st => fold_body body xs st end
  end.

Lemma foreach_steps {S R} fuel step head item xs (body : loc -> S -> R + S) st :
  steps step item xs head -> head ∉ xs -> (length xs < fuel)%nat ->
  foreach fuel step head item body st = Ret (fold_body body xs st).
Proof.
  revert item st xs. induction fuel as [|fuel IH]; intros item st xs Hs Hh Hf; [lia|].
  destruct xs as [|x xs]; cbn [foreach fold_body].
  - simpl in Hs. by rewrite bool_decide_true.
  - destruct Hs as (-> & n & Hn & Hs). apply not_elem_of_cons in Hh as [Hx Hh].
    rewrite bool_decide_false by congruence. destruct (body x st); [done|].
    rewrite Hn. run. apply IH; [done..|]. simpl in Hf. lia.
Qed.

Lemma dll_steps_next h head xs :
  dll h head xs -> exists i, rd_next h head = Ret i /\ steps (rd_next h) i xs head.
Proof.
  intros [_ Hs]. assert (forall a l, seg h a (l ++ [head]) ->
    exists i, rd_next h a = Ret i /\ steps (rd_next h) i l head) as H; [|by apply H].
  intros a l. revert a. induction l as [|x l IH]; intros a [[Hn _] Hl]; eexists;
    (split; [by apply rd_next_ok|]); [done|].
  split; [done|]. by apply IH.
Qed.

Lemma dll_steps_prev h head xs :
  dll h head xs -> exists i, rd_prev h head = Ret i /\ steps (rd_prev h) i (reverse xs) head.
Proof.
  intros [_ Hs]. assert (forall l b, seg h head (l ++ [b]) ->
    exists i, rd_prev h b = Ret i /\ steps (rd_prev h) i (reverse l) head) as H; [|by apply H].
  induction l as [|x l IH] using rev_ind; intros b Hl.
  - destruct Hl as [[_ Hp] _]. eexists; split; [by apply rd_prev_ok|done].
  - apply seg_app in Hl as [Hl [[_ Hp] _]]. rewrite end_of_app in Hp. unfold end_of in Hp; simpl in Hp.
    eexists; split; [by apply rd_prev_ok|]. rewrite reverse_snoc. split; [done|]. by apply IH.
Qed.

(** A ring has fewer elements than the heap. *)
Lemma dll_size h head xs : dll h head xs -> (length xs < size h)%nat.
Proof.
  intros Hd. pose proof Hd as [Hnd _].
  assert (length (head :: xs) <= size h)%nat; [|simpl in *; lia].
  rewrite <- (size_list_to_set (C := gset loc) (head :: xs) Hnd), <- size_dom.
  apply subseteq_size. intros y Hy%elem_of_list_to_set. apply elem_of_dom. by eapply dll_dom.
Qed.

Lemma dll_head_notin h head xs : dll h head xs -> head ∉ xs.
Proof. by intros [[? _]%NoDup_cons _]. Qed.

Lemma fold_get_fwd xs n :
  0 <= n -> fold_body (fun item n => if n =? 0 then inl item else inr (n - 1)) xs n =
    match xs !! Z.to_nat n with Some x => inl x | None => inr (n - zlen xs) end.
Proof.
  revert n. induction xs as [|x xs IH]; intros n Hn; simpl; [by rewrite Z.sub_0_r|].
  destruct (Z.eqb_spec n 0) as [->|]; [done|]. rewrite IH by lia.
  replace (Z.to_nat n) with (S (Z.to_nat (n - 1))) by lia. simpl.
  destruct (xs !! _); [done|]. rewrite zlen_cons. f_equal. lia.
Qed.

Lemma fold_get_bwd xs n :
  n < 0 -> fold_body (fun item n => let n := n + 1 in if n =? 0 then inl item else inr n) xs n =
    match xs !! Z.to_nat (- n - 1) with Some x => inl x | None => inr (n + zlen xs) end.
Proof.
  revert n. induction xs as [|x xs IH]; intros n Hn; simpl; [by rewrite Z.add_0_r|].
  destruct (Z.eqb_spec (n + 1) 0) as [|]; [by replace (Z.to_nat (- n - 1)) with O by lia|].
  rewrite IH by lia. replace (Z.to_nat (- n - 1)) with (S (Z.to_nat (- (n + 1) - 1))) by lia. simpl.
  destruct (xs !! _); [done|]. rewrite zlen_cons. f_equal. lia.
Qed.

Lemma fold_count {R} xs i :
  fold_body (fun _ i => (inr (u64 (i + 1)) : R + Z)) xs (u64 i) = inr (u64 (i + zlen xs)).
Proof.
  revert i. induction xs as [|x xs IH]; intros i; simpl; [by rewrite Z.add_0_r|].
  assert (u64 (u64 i + 1) = u64 (i + 1)) as -> by (unfold uwrap; by rewrite Zplus_mod_idemp_l).
  rewrite IH, zlen_cons. do 2 f_equal. lia.
Qed.

Lemma fold_collect {R} xs l :
  fold_body (fun i l => (inr (l ++ [i]) : R + list loc)) xs l = inr (l ++ xs).
Proof.
  revert l. induction xs as [|x xs IH]; intros l; simpl; [by rewrite app_nil_r|].
  by rewrite IH, <- app_assoc.
Qed.

(** ** The list as a sequence *)

Inductive op :=
  | Insert (i : loc) | Append (i : loc) | InsertBefore (i n : loc) | Del (s : loc)
  | Get (n : Z) | Size | First | Last | IsEmpty | Next (e : loc) | Elements.

Inductive result :=
  | Done | RLoc (p : option loc) | RNum (n : Z) | RBool (b : bool) | RList (xs : list loc).

(** The operations on the heap. *)
Definition run_op (head : loc) (o : op) h : outcome (heap * result) :=
  match o with
  | Insert i => h ← sancus_list_insert head i h; Ret (h, Done)
  | Append i => h ← sancus_list_append head i h; Ret (h, Done)
  | InsertBefore i n => h ← sancus_list_insert_before i n h; Ret (h, Done)
  | Del s => h ← sancus_list_del s h; Ret (h, Done)
  | Get n => p ← sancus_list_get (size h) head n h; Ret (h, RLoc p)
  | Size => n ← sancus_list_size (size h) head h; Ret (h, RNum n)
  | First => p ← sancus_list_first head h; Ret (h, RLoc p)
  | Last => p ← sancus_list_last head h; Ret (h, RLoc p)
  | IsEmpty => b ← sancus_list_is_empty head h; Ret (h, RBool b)
  | Next e => p ← sancus_list_next (Some head) (Some e) h; Ret (h, RLoc p)
  | Elements => l ← elements (size h) head h; Ret (h, RList l)
  end.

Fixpoint insert_before_spec (i n : loc) (xs : list loc) : list loc :=
  match xs with
  | [] => [i]
  | x :: xs => if decide (x = n) then i :: x :: xs else x :: insert_before_spec i n xs
  end.

Definition get_spec (n : Z) (xs : list loc) : option loc :=
  if n <? 0 then reverse xs !! Z.to_nat (- n - 1) else xs !! Z.to_nat n.

Fixpoint next_spec (e : loc) (xs : list loc) : option loc :=
  match xs with
  | [] => None
  | x :: xs => if decide (x = e) then head xs else next_spec e xs
  end.

(** The operations on the sequence. *)
Definition spec_op (o : op) (xs : list loc) : list loc * result :=
  match o with
  | Insert i => (i :: xs, Done)
  | Append i => (xs ++ [i], Done)
  | InsertBefore i n => (insert_before_spec i n xs, Done)
  | Del s => (filter (fun x => x <> s) xs, Done)
  | Get n => (xs, RLoc (get_spec n xs))
  | Size => (xs, RNum (u64 (zlen xs)))
  | First => (xs, RLoc (head xs))
  | Last => (xs, RLoc (last xs))
  | IsEmpty => (xs, RBool (bool_decide (xs = [])))
  | Next e => (xs, RLoc (next_spec e xs))
  | Elements => (xs, RList xs)
  end.

(** What the caller has to see to: what is put in is an element of the heap
    outside the list, what is taken out or named is in the list. *)
Definition op_pre (D : loc -> Prop) (hd : loc) (o : op) (xs : list loc) : Prop :=
  match o with
  | Insert i | Append i => D i /\ i ∉ hd :: xs
  | InsertBefore i n => D i /\ (i ∉ hd :: xs) /\ n ∈ hd :: xs
  | Del s => s ∈ xs
  | Next e => e ∈ xs
  | _ => True
  end.

Lemma linked_at h hd0 xs1 x xs2 :
  dll h hd0 (xs1 ++ x :: xs2) -> rd_prev h x = Ret (end_of hd0 xs1) /\ rd_next h x = Ret (hd hd0 xs2).
Proof.
  intros [_ Hs]. rewrite <- app_assoc in Hs. apply seg_app in Hs as [_ [[_ Hp] Hn]].
  split; [by apply rd_prev_ok|]. apply rd_next_ok. by destruct xs2; destruct Hn as [[? _] _].
Qed.

Lemma linked_head h hd0 xs :
  dll h hd0 xs -> rd_prev h hd0 = Ret (end_of hd0 xs) /\ rd_next h hd0 = Ret (hd hd0 xs).
Proof.
  intros [_ Hs]. split.
  - apply seg_app in Hs as [_ [[_ Hp] _]]. by apply rd_prev_ok.
  - apply rd_next_ok. by destruct xs; destruct Hs as [[? _] _].
Qed.

Lemma end_of_last hd0 xs : xs <> [] -> last xs = Some (end_of hd0 xs).
Proof. unfold end_of. destruct (last xs) eqn:E; [done|]. by apply last_None in E. Qed.

Lemma insert_before_split i n xs1 xs2 :
  n ∉ xs1 -> insert_before_spec i n (xs1 ++ n :: xs2) = xs1 ++ i :: n :: xs2.
Proof.
  induction xs1 as [|x xs1 IH]; intros Hn; simpl; [by rewrite decide_True|].
  apply not_elem_of_cons in Hn as [? ?]. rewrite decide_False by done. by rewrite IH.
Qed.

Lemma insert_before_end i n xs : n ∉ xs -> insert_before_spec i n xs = xs ++ [i].
Proof.
  induction xs as [|x xs IH]; intros Hn; simpl; [done|].
  apply not_elem_of_cons in Hn as [? ?]. rewrite decide_False by done. by rewrite IH.
Qed.

Lemma filter_out s xs : s ∉ xs -> filter (fun x => x <> s) xs = xs.
Proof.
  induction xs as [|x xs IH]; intros Hn; [done|].
  apply not_elem_of_cons in Hn as [? ?]. rewrite filter_cons, decide_True by done. by rewrite IH.
Qed.

Lemma next_spec_split e xs1 xs2 : e ∉ xs1 -> next_spec e (xs1 ++ e :: xs2) = head xs2.
Proof.
  induction xs1 as [|x xs1 IH]; intros Hn; simpl; [by rewrite decide_True|].
  apply not_elem_of_cons in Hn as [? ?]. rewrite decide_False by done. by rewrite IH.
Qed.

(** An element splits its list, and is not in front of itself. *)
Lemma ring_elem h hd0 xs x :
  dll h hd0 xs -> x ∈ xs -> exists xs1 xs2, xs = xs1 ++ x :: xs2 /\ (x ∉ xs1) /\ x ∉ xs2.
Proof.
  intros [[_ Hnd]%NoDup_cons _] (xs1 & xs2 & ->)%list_elem_of_split.
  exists xs1, xs2. split; [done|]. apply NoDup_app in Hnd as (_ & H & [? _]%NoDup_cons).
  split; [|done]. intros Hx. apply (H x Hx). by left.
Qed.

(** The operations that change the list. *)
Lemma insert_ok h hd0 xs i :
  dll h hd0 xs -> is_Some (h !! i) -> i ∉ hd0 :: xs ->
  exists h', sancus_list_insert hd0 i h = Ret h' /\ dll h' hd0 (i :: xs) /\
    (forall y, is_Some (h' !! y) <-> is_Some (h !! y)).
Proof.
  intros Hd Hi Hf. unfold sancus_list_insert.
  rewrite (proj2 (linked_head _ _ _ Hd)). run. by apply (inject_dll h hd0 [] xs i).
Qed.

Lemma append_ok h hd0 xs i :
  dll h hd0 xs -> is_Some (h !! i) -> i ∉ hd0 :: xs ->
  exists h', sancus_list_append hd0 i h = Ret h' /\ dll h' hd0 (xs ++ [i]) /\
    (forall y, is_Some (h' !! y) <-> is_Some (h !! y)).
Proof.
  intros Hd Hi Hf. unfold sancus_list_append.
  rewrite (proj1 (linked_head _ _ _ Hd)). run.
  apply (inject_dll h hd0 xs [] i); by rewrite ?app_nil_r.
Qed.

Lemma insert_before_ok h hd0 xs i n :
  dll h hd0 xs -> is_Some (h !! i) -> i ∉ hd0 :: xs -> n ∈ hd0 :: xs ->
  exists h', sancus_list_insert_before i n h = Ret h' /\ dll h' hd0 (insert_before_spec i n xs) /\
    (forall y, is_Some (h' !! y) <-> is_Some (h !! y)).
Proof.
  intros Hd Hi Hf [->|Hn]%elem_of_cons.
  - rewrite insert_before_end by by eapply dll_head_notin. by apply append_ok.
  - destruct (ring_elem _ _ _ _ Hd Hn) as (xs1 & xs2 & -> & H1 & H2).
    rewrite insert_before_split by done. unfold sancus_list_insert_before.
    rewrite (proj1 (linked_at _ _ _ _ _ Hd)). run. by apply (inject_dll h hd0 xs1 (n :: xs2) i).
Qed.

Lemma del_op_ok h hd0 xs s :
  dll h hd0 xs -> s ∈ xs ->
  exists h', sancus_list_del s h = Ret h' /\ dll h' hd0 (filter (fun x => x <> s) xs) /\
    (forall y, is_Some (h' !! y) <-> is_Some (h !! y)).
Proof.
  intros Hd Hs. destruct (ring_elem _ _ _ _ Hd Hs) as (xs1 & xs2 & -> & H1 & H2).
  rewrite filter_app, filter_cons, decide_False, !filter_out by (done || intros []; done).
  destruct (del_dll _ _ _ _ _ Hd) as (h' & ? & ? & _ & ?). by exists h'.
Qed.

(** The operations that only look. *)
Lemma get_ok h hd0 xs n : dll h hd0 xs -> sancus_list_get (size h) hd0 n h = Ret (get_spec n xs).
Proof.
  intros Hd. pose proof (dll_size _ _ _ Hd). pose proof (dll_head_notin _ _ _ Hd).
  unfold sancus_list_get, get_spec. destruct (Z.ltb_spec n 0).
  - destruct (dll_steps_prev _ _ _ Hd) as (i & -> & Hs). run.
    rewrite (foreach_steps _ _ _ _ (reverse xs)), fold_get_bwd
      by (done || rewrite ?elem_of_reverse, ?length_reverse; done). run.
    by destruct (reverse xs !! _).
  - destruct (dll_steps_next _ _ _ Hd) as (i & -> & Hs). run.
    rewrite (foreach_steps _ _ _ _ xs), fold_get_fwd by done. run. by destruct (xs !! _).
Qed.

Lemma size_ok h hd0 xs : dll h hd0 xs -> sancus_list_size (size h) hd0 h = Ret (u64 (zlen xs)).
Proof.
  intros Hd. unfold sancus_list_size. destruct (dll_steps_next _ _ _ Hd) as (i & -> & Hs). run.
  rewrite (foreach_steps _ _ _ _ xs) by (done || by eapply dll_head_notin || by eapply dll_size).
  change (fold_body _ xs 0) with (fold_body (fun _ i => (inr (u64 (i + 1)) : Empty_set + Z)) xs (u64 0)).
  rewrite fold_count. by run.
Qed.

Lemma elements_ok h hd0 xs : dll h hd0 xs -> elements (size h) hd0 h = Ret xs.
Proof.
  intros Hd. unfold elements. destruct (dll_steps_next _ _ _ Hd) as (i & -> & Hs). run.
  rewrite (foreach_steps _ _ _ _ xs) by (done || by eapply dll_head_notin || by eapply dll_size).
  rewrite fold_collect. by run.
Qed.

Lemma is_empty_ok h hd0 xs : dll h hd0 xs -> sancus_list_is_empty hd0 h = Ret (bool_decide (xs = [])).
Proof.
  intros Hd. unfold sancus_list_is_empty. rewrite (proj2 (linked_head _ _ _ Hd)). run. f_equal.
  apply bool_decide_ext. destruct xs as [|x xs]; [done|]. simpl. split; [|done].
  intros ->. apply dll_head_notin in Hd as []. by left.
Qed.

Lemma first_ok h hd0 xs : dll h hd0 xs -> sancus_list_first hd0 h = Ret (head xs).
Proof.
  intros Hd. unfold sancus_list_first. rewrite (is_empty_ok _ _ _ Hd), (proj2 (linked_head _ _ _ Hd)).
  by destruct xs.
Qed.

Lemma last_ok h hd0 xs : dll h hd0 xs -> sancus_list_last hd0 h = Ret (last xs).
Proof.
  intros Hd. unfold sancus_list_last. rewrite (is_empty_ok _ _ _ Hd), (proj1 (linked_head _ _ _ Hd)).
  run. case_bool_decide; [by subst|]. run. by rewrite (end_of_last hd0).
Qed.

Lemma next_ok h hd0 xs e :
  dll h hd0 xs -> e ∈ xs -> sancus_list_next (Some hd0) (Some e) h = Ret (next_spec e xs).
Proof.
  intros Hd He. destruct (ring_elem _ _ _ _ Hd He) as (xs1 & xs2 & -> & H1 & H2).
  rewrite next_spec_split by done. unfold sancus_list_next.
  rewrite (proj2 (linked_at _ _ _ _ _ Hd)). run. destruct xs2 as [|x xs2]; simpl.
  - by rewrite bool_decide_true.
  - rewrite bool_decide_false; [done|]. intros ->. apply dll_head_notin in Hd as [].
    apply elem_of_app. right. right. by left.
Qed.

(** ** Refinement *)

Fixpoint run_ops (hd0 : loc) (os : list op) h : outcome (heap * list result) :=
  match os with
  | [] => Ret (h, [])
  | o :: os =>
      '(h, r) ← run_op hd0 o h;
      '(h, rs) ← run_ops hd0 os h;
      Ret (h, r :: rs)
  end.

Fixpoint spec_ops (os : list op) xs : list loc * list result :=
  match os with
  | [] => (xs, [])
  | o :: os => let '(xs, r) := spec_op o xs in let '(xs, rs) := spec_ops os xs in (xs, r :: rs)
  end.

Fixpoint ops_pre (D : loc -> Prop) (hd0 : loc) (os : list op) xs : Prop :=
  match os with
  | [] => True
  | o :: os => op_pre D hd0 o xs /\ ops_pre D hd0 os (fst (spec_op o xs))
  end.

Lemma run_op_ok h hd0 xs o :
  dll h hd0 xs -> op_pre (fun y => is_Some (h !! y)) hd0 o xs ->
  exists h', run_op hd0 o h = Ret (h', snd (spec_op o xs)) /\ dll h' hd0 (fst (spec_op o xs)) /\
    (forall y, is_Some (h' !! y) <-> is_Some (h !! y)).
Proof.
  intros Hd Hp. destruct o as [i|i|i n|s|n| | | | |e| ]; cbn [run_op spec_op fst snd op_pre] in *.
  - destruct (insert_ok h hd0 xs i) as (h' & -> & ? & ?); [done|by destruct Hp..|]. by exists h'.
  - destruct (append_ok h hd0 xs i) as (h' & -> & ? & ?); [done|by destruct Hp..|]. by exists h'.
  - destruct Hp as (? & ? & ?).
    destruct (insert_before_ok h hd0 xs i n) as (h' & -> & ? & ?); [done..|]. by exists h'.
  - destruct (del_op_ok h hd0 xs s) as (h' & -> & ? & ?); [done..|]. by exists h'.
  - exists h. by rewrite (get_ok _ _ _ n Hd).
  - exists h. by rewrite (size_ok _ _ _ Hd).
  - exists h. by rewrite (first_ok _ _ _ Hd).
  - exists h. by rewrite (last_ok _ _ _ Hd).
  - exists h. by rewrite (is_empty_ok _ _ _ Hd).
  - exists h. by rewrite (next_ok _ _ _ _ Hd Hp).
  - exists h. by rewrite (elements_ok _ _ _ Hd).
Qed.

Lemma op_pre_ext (D D' : loc -> Prop) hd0 o xs :
  (forall y, D y <-> D' y) -> op_pre D hd0 o xs -> op_pre D' hd0 o xs.
Proof. intros H. destruct o; simpl; rewrite <- ?H; done. Qed.

Lemma ops_pre_ext (D D' : loc -> Prop) hd0 os xs :
  (forall y, D y <-> D' y) -> ops_pre D hd0 os xs -> ops_pre D' hd0 os xs.
Proof.
  intros H. revert xs. induction os as [|o os IH]; intros xs; simpl; [done|].
  intros [Ho Hos]. split; [by eapply op_pre_ext|by apply IH].
Qed.

(** C2. The pointer operations implement a sequence: from a ring that
    represents [xs], any run of insert, append, insert_before, del, get, size,
    first, last, next, is_empty and foreach whose arguments are as required
    is defined, ends in a ring that represents what the same operations make
    of the sequence, and returns the same results. *)
Theorem list_refines_sequence h (hd0 : loc) xs (os : list op)
    (Hd : dll h hd0 xs) (Hpre : ops_pre (fun y => is_Some (h !! y)) hd0 os xs) :
  exists h', run_ops hd0 os h = Ret (h', snd (spec_ops os xs)) /\ dll h' hd0 (fst (spec_ops os xs)).
Proof.
  revert h xs Hd Hpre. induction os as [|o os IH]; intros h xs Hd Hpre; [by exists h|].
  destruct Hpre as [Ho Hos]. cbn [run_ops spec_ops].
  destruct (run_op_ok _ _ _ _ Hd Ho) as (h1 & -> & Hd1 & HD). run.
  destruct (spec_op o xs) as [xs1 r] eqn:E. cbn [fst snd] in *.
  destruct (IH h1 xs1) as (h2 & -> & Hd2); [done| |].
  - eapply ops_pre_ext; [|exact Hos]. intros y. by rewrite HD.
  - exists h2. run. by destruct (spec_ops os xs1).
Qed.

(** A heap with the list heads and elements 1 to 5, the head 1 initialised. *)
Definition sample : heap :=
  list_to_map ((fun p => (p, Node 1 1)) <$> [1; 2; 3; 4; 5]).

Definition sample_ops : list op :=
  [Append 2; Append 3; Insert 4; InsertBefore 5 3; Elements; Get (-1); Get 1; Del 2; Size; First; Last; Next 5; Elements].

Lemma dll_init h self : h !! self = Some (Node self self) -> dll h self [].
Proof.
  intros E. split; [by apply NoDup_singleton|]. simpl. unfold linked, nx, pv. by rewrite E.
Qed.

Lemma list_refines_sequence_witness :
  exists h', run_ops 1 sample_ops sample = Ret (h', snd (spec_ops sample_ops [])) /\
    dll h' 1 (fst (spec_ops sample_ops [])).
Proof.
  apply (list_refines_sequence sample 1 [] sample_ops).
  - by apply dll_init.
  - assert (forall (y : loc) (l : list loc), bool_decide (y ∈ l) = true -> y ∈ l) as Hin
      by (intros y l; apply bool_decide_eq_true).
    assert (forall (y : loc) (l : list loc), bool_decide (y ∈ l) = false -> y ∉ l) as Hout
      by (intros y l; apply bool_decide_eq_false).
    cbv [sample_ops ops_pre].
    repeat split; simpl; try (by eexists); first [by apply Hout|by apply Hin].
Defined.

Example sample_results :
  snd (spec_ops sample_ops []) =
    [Done; Done; Done; Done; RList [4; 2; 5; 3]; RLoc (Some 3); RLoc (Some 2); Done; RNum 3;
     RLoc (Some 4); RLoc (Some 3); RLoc (Some 3); RList [4; 5; 3]].
Proof. by vm_compute. Qed.

(** ** Removing elements while iterating *)

(** [free]: the element leaves the heap. *)
Definition remove_if (p : loc -> bool) (i : loc) h : outcome heap :=
  if p i then h ← sancus_list_del i h; Ret (delete i h) else Ret h.

Lemma dll_free h hd0 xs i : dll h hd0 xs -> i ∉ hd0 :: xs -> dll (delete i h) hd0 xs.
Proof.
  intros [Hnd Hs] Hi. split; [done|].
  assert (forall y, y ∈ hd0 :: xs -> y <> i) as Hne by (intros y Hy ->; done).
  eapply seg_frame; [..|exact Hs]; intros y Hy; unfold nx, pv; rewrite lookup_delete_ne; try done.
  - unfold front in Hy. rewrite app_comm_cons, removelast_last in Hy. intros ->. by apply (Hne y).
  - apply elem_of_app in Hy as [Hy|Hy%list_elem_of_singleton]; intros ->;
      eapply Hne; [by right| |by left|]; auto.
Qed.

(** What [N] holds when [xs2] is left to visit. *)
Definition after h (hd0 : loc) xs : loc :=
  match xs with
  | [] => match rd_next h hd0 with Ret n => n | _ => hd0 end
  | _ :: xs => hd hd0 xs
  end.

Lemma rd_after h hd0 xs1 xs2 :
  dll h hd0 (xs1 ++ xs2) -> rd_next h (hd hd0 xs2) = Ret (after h hd0 xs2).
Proof.
  intros Hd. destruct xs2 as [|x xs2]; simpl.
  - by rewrite (proj2 (linked_head _ _ _ Hd)).
  - by apply (linked_at _ _ _ _ _ Hd).
Qed.

Lemma foreach2_remove p fuel h hd0 xs1 xs2 :
  dll h hd0 (xs1 ++ xs2) -> (length xs2 < fuel)%nat ->
  exists h', foreach2 fuel rd_next hd0 (hd hd0 xs2) (after h hd0 xs2) (remove_if p) h = Ret h' /\
    dll h' hd0 (xs1 ++ filter (fun x => p x = false) xs2) /\
    (forall y, is_Some (h' !! y) <-> is_Some (h !! y) /\ ~ (y ∈ xs2 /\ p y = true)).
Proof.
  revert h xs1 xs2. induction fuel as [|fuel IH]; intros h xs1 xs2 Hd Hf; [lia|].
  destruct xs2 as [|x xs2]; cbn [foreach2 hd].
  { rewrite bool_decide_true by done. exists h. split_and!; [done|done|].
    intros y. split; [|tauto]. intros; split; [done|]. by intros [?%elem_of_nil _]. }
  assert (x <> hd0) as Hx.
  { intros ->. apply dll_head_notin in Hd as []. apply elem_of_app. right. by left. }
  rewrite bool_decide_false by done. simpl in Hf.
  change (remove_if p x h) with (if p x then h ← sancus_list_del x h; Ret (delete x h) else Ret h).
  rewrite filter_cons.
  destruct (p x) eqn:Hp; cbn [after].
  - destruct (del_dll _ _ _ _ _ Hd) as (h1 & -> & Hd1 & Hout & HD). run.
    apply (dll_free _ _ _ x) in Hd1; [|done]. rewrite (rd_after _ _ _ _ Hd1). run.
    destruct (IH _ _ _ Hd1) as (h' & -> & Hd' & HD'); [lia|]. exists h'.
    rewrite decide_False by done. split_and!; [done|done|].
    intros y. rewrite HD', elem_of_cons, lookup_delete_is_Some, HD. split; [|naive_solver].
    intros [[? ?] Hn]. split; [done|]. intros [[->|?] ?]; [done|by apply Hn].
  - replace (xs1 ++ x :: xs2) with ((xs1 ++ [x]) ++ xs2) in Hd by by rewrite <- app_assoc.
    run. rewrite (rd_after _ _ _ _ Hd). run.
    destruct (IH _ _ _ Hd) as (h' & -> & Hd' & HD'); [lia|]. exists h'.
    rewrite decide_True by done. rewrite <- app_assoc in Hd'. split_and!; [done|done|].
    intros y. rewrite HD', elem_of_cons. split; [|naive_solver].
    intros [? Hn]. split; [done|]. intros [[->|?] ?]; [congruence|by apply Hn].
Qed.

(** C34. [sancus_list_foreach2] is safe against its body: a loop that takes
    the elements it likes out of the list and frees them visits every element,
    stays defined, and ends, leaving the ring of the others in order and
    exactly the chosen elements freed. *)
Theorem foreach2_remove_safe (p : loc -> bool) h (hd0 : loc) xs (Hd : dll h hd0 xs) :
  exists h', sancus_list_foreach2 (size h) hd0 (remove_if p) h = Ret h' /\
    dll h' hd0 (filter (fun x => p x = false) xs) /\
    (forall y, is_Some (h' !! y) <-> is_Some (h !! y) /\ ~ (y ∈ xs /\ p y = true)).
Proof.
  unfold sancus_list_foreach2. rewrite (proj2 (linked_head _ _ _ Hd)). run.
  rewrite (rd_after h hd0 [] xs Hd). run.
  apply (foreach2_remove p (size h) h hd0 [] xs Hd). by eapply dll_size.
Qed.

(** The list 2, 3 with head 1. *)
Definition ring3 : heap := list_to_map [(1, Node 3 2); (2, Node 1 3); (3, Node 2 1)].

Lemma ring3_dll : dll ring3 1 [2; 3].
Proof.
  split; [|by repeat split].
  apply (bool_decide_eq_true (NoDup [1; 2; 3])). by vm_compute.
Qed.

Lemma foreach2_remove_safe_witness :
  exists h', sancus_list_foreach2 (size ring3) 1 (remove_if (Z.eqb 2)) ring3 = Ret h' /\
    dll h' 1 (filter (fun x => Z.eqb 2 x = false) [2; 3]) /\
    (forall y, is_Some (h' !! y) <-> is_Some (ring3 !! y) /\ ~ (y ∈ [2; 3] /\ Z.eqb 2 y = true)).
Proof. apply (foreach2_remove_safe (Z.eqb 2) ring3 1 [2; 3]). apply ring3_dll. Defined.

(** The same body in the loop that reads [I->next] after it would follow a
    freed element. *)
Example foreach_after_free :
  (h ← remove_if (Z.eqb 2) 2 ring3; rd_next h 2) = Undef.
Proof. by vm_compute. Qed.

(** ** Swapping *)

(** Forward links only. *)
Fixpoint nseg h (a : loc) (xs : list loc) : Prop :=
  match xs with
  | [] => True
  | x :: xs => nx h a = Some x /\ nseg h x xs
  end.

Lemma seg_nseg h a xs : seg h a xs -> nseg h a xs.
Proof. revert a. induction xs as [|x xs IH]; intros a; simpl; [done|]. intros [[? _] ?]. auto. Qed.

Lemma nseg_app h a xs ys : nseg h a (xs ++ ys) <-> nseg h a xs /\ nseg h (end_of a xs) ys.
Proof.
  revert a. induction xs as [|x xs IH]; intros a; simpl app; [unfold end_of; simpl; tauto|].
  cbn [nseg]. rewrite IH, end_of_cons. tauto.
Qed.

Lemma nseg_frame h h' a xs :
  (forall y, y ∈ front a xs -> nx h' y = nx h y) -> nseg h a xs -> nseg h' a xs.
Proof.
  revert a. induction xs as [|x xs IH]; intros a Hn; [done|]. simpl. intros [Ha Hs].
  assert (front a (x :: xs) = a :: front x xs) as E by done. rewrite E in Hn.
  split; [rewrite Hn; [done|by left]|]. apply IH; [|done]. intros. apply Hn. by right.
Qed.

Lemma nseg_elements h hd0 xs fuel :
  nseg h hd0 (xs ++ [hd0]) -> hd0 ∉ xs -> (length xs < fuel)%nat -> elements fuel hd0 h = Ret xs.
Proof.
  intros Hs Hh Hf. unfold elements.
  assert (forall a l, nseg h a (l ++ [hd0]) ->
    exists i, rd_next h a = Ret i /\ steps (rd_next h) i l hd0) as H.
  { intros a l. revert a. induction l as [|x l IH]; intros a [Hn Hl]; eexists;
      (split; [by apply rd_next_ok|]); [done|]. split; [done|]. by apply IH. }
  destruct (H _ _ Hs) as (i & -> & Hi). run. rewrite (foreach_steps _ _ _ _ xs) by done.
  rewrite fold_collect. by run.
Qed.

(** Two elements of a list are swapped: what a forward loop sees. *)
Lemma swap_elements h hd0 xs1 a xs2 b xs3 :
  dll h hd0 (xs1 ++ a :: xs2 ++ b :: xs3) ->
  exists h', sancus_list_swap a b h = Ret h' /\ elements (size h') hd0 h' = Ret (xs1 ++ a :: xs3).
Proof.
  intros Hd. pose proof (dll_size _ _ _ Hd) as Hsz. pose proof Hd as [Hnd Hs].
  assert (a ∈ hd0 :: xs1 ++ a :: xs2 ++ b :: xs3) as Ha
    by (right; apply elem_of_app; right; by left).
  assert (b ∈ hd0 :: xs1 ++ a :: xs2 ++ b :: xs3) as Hb
    by (right; apply elem_of_app; right; right; apply elem_of_app; right; by left).
  destruct (dll_dom _ _ _ _ Hd Ha) as [na Ea]. destruct (dll_dom _ _ _ _ Hd Hb) as [nb Eb].
  apply NoDup_cons in Hnd as [Hh Hnd]. rewrite NoDup_app, NoDup_cons, NoDup_app, NoDup_cons in Hnd.
  destruct Hnd as (_ & H1 & Ha2 & _ & H2 & Hb3 & _).
  rewrite !not_elem_of_app, !not_elem_of_cons, not_elem_of_app, not_elem_of_cons in Hh.
  destruct Hh as (Hh1 & Hha & Hh2 & Hhb & Hh3).
  rewrite not_elem_of_app, not_elem_of_cons in Ha2. destruct Ha2 as (Ha2 & Hab & Ha3).
  unfold sancus_list_swap. rewrite Ea, Eb. simpl. run.
  rewrite wr_ok by (by eexists). run. rewrite wr_ok by (rewrite lookup_insert_is_Some; right; split; [done|by eexists]).
  eexists; split; [done|]. set (h' := <[b := _]> _).
  assert (forall y, y <> a -> y <> b -> nx h' y = nx h y) as Hn
    by (intros; unfold nx, h'; by rewrite !lookup_insert_ne).
  assert (nx h' a = nx h b) as Hna
    by (unfold nx, h'; rewrite lookup_insert_ne, lookup_insert_eq, Eb by done; done).
  apply seg_nseg in Hs. rewrite <- app_assoc in Hs. cbn [app] in Hs. rewrite <- app_assoc in Hs. cbn [app] in Hs.
  apply nseg_app in Hs as [Hs1 [Hpa Hs2]]. apply nseg_app in Hs2 as [_ [_ Hs3]].
  assert (forall y, y ∈ hd0 :: xs1 -> y <> a /\ y <> b) as Hne1.
  { intros y Hy. apply elem_of_cons in Hy as [->|Hy]; [done|]. specialize (H1 y Hy).
    rewrite not_elem_of_cons, not_elem_of_app, not_elem_of_cons in H1. tauto. }
  apply nseg_elements.
  - rewrite <- app_assoc. apply nseg_app. split; [|split].
    + eapply nseg_frame; [|exact Hs1]. intros y Hy%front_sub%Hne1. apply Hn; tauto.
    + rewrite Hn; [done|apply Hne1..]; apply end_of_in.
    + change (nseg h' a (xs3 ++ [hd0])). destruct (xs3 ++ [hd0]) as [|z zs] eqn:Ez; [done|].
      destruct Hs3 as [Hz Hs3]. split; [by rewrite Hna|].
      eapply nseg_frame; [|exact Hs3]. intros y Hy. unfold front in Hy.
      rewrite <- Ez, removelast_last in Hy. apply Hn; by intros ->.
  - rewrite not_elem_of_app, not_elem_of_cons. done.
  - assert (size h' = size h) as ->.
    { unfold h'. rewrite !map_size_insert_Some; [done|by eexists|]. rewrite lookup_insert_ne by done. by eexists. }
    rewrite !length_app in *. simpl in *. rewrite length_app in Hsz. simpl in Hsz. lia.
Qed.

(** [sancus_list_swap] exchanges the pointers of the two elements but not
    those of their neighbours, so it does not swap them: a forward loop then
    sees the first still in its place and no longer the second or anything
    that was between them. *)
Theorem swap_loses_elements h (hd0 : loc) xs1 (a : loc) xs2 (b : loc) xs3
    (Hd : dll h hd0 (xs1 ++ a :: xs2 ++ b :: xs3)) :
  exists h', sancus_list_swap a b h = Ret h' /\
    elements (size h') hd0 h' = Ret (xs1 ++ a :: xs3) /\
    ~ dll h' hd0 (xs1 ++ b :: xs2 ++ a :: xs3).
Proof.
  destruct (swap_elements _ _ _ _ _ _ _ Hd) as (h' & Hsw & Hel). exists h'. split_and!; [done..|].
  intros Hd'. apply elements_ok in Hd'. rewrite Hel in Hd'. injection Hd' as E.
  apply (f_equal length) in E. rewrite !length_app in E. simpl in E. rewrite length_app in E. simpl in E. lia.
Qed.

Lemma swap_loses_elements_witness :
  exists h', sancus_list_swap 2 3 ring3 = Ret h' /\
    elements (size h') 1 h' = Ret ([] ++ 2 :: []) /\
    ~ dll h' 1 ([] ++ 3 :: [] ++ 2 :: []).
Proof. apply (swap_loses_elements ring3 1 [] 2 [] 3 []). apply ring3_dll. Defined.
