(* ===== verification/Sys.v ===== *)
(** * Sys

    The operating system as the sources see it.  A world holds the answers the
    kernel is going to give, in order, what was asked and answered so far, and
    [errno].  A system call takes the next answer.  A computation that needs
    more answers than there are is [OutOfFuel]: it is still waiting. *)

From S2P Require Import Prelude.

(** The system calls the sources make, with what they pass in. *)
Inductive call :=
  | SysClose (fd : Z)
  | SysRead (fd count : Z)
  | SysWrite (fd : Z) (bs : list byte)
  | SysWritev (fd : Z) (bss : list (list byte))
  | SysOpenat (dirfd : Z) (path : list byte) (flags mode : Z)
  | SysGetfl (fd : Z)
  | SysSetfl (fd v : Z)
  | SysSocket (family type protocol : Z)
  | SysAccept (fd : Z)
  | SysConnect (fd : Z) (sa : list byte)
  | SysBind (fd : Z) (sa : list byte)
  | SysListen (fd backlog : Z)
  | SysSetsockopt (fd level opt : Z)
  | SysGetsockerr (fd : Z)
  | SysUnlink (path : list byte)
  | SysTcgetattr (fd : Z)
  | SysTcsetattr (fd : Z) (tio : list byte)
  | SysSend (fd : Z) (bs : list byte)
  | SysRecv (fd size : Z)
  | SysBindNetlink (fd pid groups : Z)
  | SysGettime
  | SysPtraceTraceme
  | SysRaise (sig : Z).

(** An answer: the return value, [errno] when it is negative, the bytes the
    kernel stored in the caller's buffer and the numbers it stored elsewhere. *)
Record answer := Answer { ret : Z; err : Z; data : list byte; outs : list Z }.

(** Short forms for witnesses. *)
Definition ok (n : Z) : answer := Answer n 0 [] [].
Definition fails (e : Z) : answer := Answer (-1) e [] [].
Definition gives (bs : list byte) : answer := Answer (zlen bs) 0 bs [].

Definition event : Type := call * answer.

Record world := World { script : list answer; trace : list event; errno : Z }.

Definition io (A : Type) : Type := world -> outcome (A * world).

#[export] Instance io_ret : MRet io := fun A a w => Ret (a, w).
#[export] Instance io_bind : MBind io := fun A B f m w =>
  match m w with
  | Ret (a, w) => f a w
  | Undef => Undef
  | Aborted => Aborted
  | OutOfFuel => OutOfFuel
  end.

Definition lift {A} (m : outcome A) : io A := fun w => a ← m; Ret (a, w).

Definition sys (c : call) : io answer := fun w =>
  match script w with
  | [] => OutOfFuel
  | r :: rs =>
      Ret (r, World rs (trace w ++ [(c, r)]) (if ret r <? 0 then err r else errno w))
  end.

Definition get_errno : io Z := fun w => Ret (errno w, w).
Definition set_errno (e : Z) : io unit := fun w => Ret (tt, World (script w) (trace w) e).

(** Enough iterations for a loop that asks the kernel each time round. *)
Definition patience {A} (f : nat -> io A) : io A := fun w => f (S (length (script w))) w.

Definition is_eintr (r : answer) : bool := (ret r <? 0) && (err r =? EINTR).

Lemma io_bind_ret {A B} (a : A) (f : A -> io B) w : ((mret a : io A) ≫= f) w = f a w.
Proof. reflexivity. Qed.

Lemma io_mret {A} (a : A) w : (mret a : io A) w = Ret (a, w).
Proof. reflexivity. Qed.

Lemma io_bind_eq {A B} (m : io A) (f : A -> io B) w a w' : m w = Ret (a, w') -> (m ≫= f) w = f a w'.
Proof. intros E. unfold mbind, io_bind. by rewrite E. Qed.

Lemma io_bind_inv {A B} (m : io A) (f : A -> io B) w b w2 :
  (m ≫= f) w = Ret (b, w2) -> exists a w1, m w = Ret (a, w1) /\ f a w1 = Ret (b, w2).
Proof. unfold mbind, io_bind. destruct (m w) as [[a w1]| | |]; try discriminate. eauto. Qed.

Lemma io_bind_assoc {A B C} (m : io A) (f : A -> io B) (g : B -> io C) w :
  ((m ≫= f) ≫= g) w = (m ≫= fun a => f a ≫= g) w.
Proof. unfold mbind, io_bind. by destruct (m w) as [[a w1]| | |]. Qed.

(** Two computations that start alike and go on alike. *)
Lemma io_bind_ext {A B} (m1 m2 : io A) (f g : A -> io B) w :
  m1 w = m2 w -> (forall a w', m1 w = Ret (a, w') -> f a w' = g a w') -> (m1 ≫= f) w = (m2 ≫= g) w.
Proof. unfold mbind, io_bind. intros <-. destruct (m1 w) as [[a w']| | |]; auto. Qed.

(** Take the next answer. *)
Lemma sys_bind {B} c (f : answer -> io B) r rs t e :
  (sys c ≫= f) (World (r :: rs) t e) =
    f r (World rs (t ++ [(c, r)]) (if ret r <? 0 then err r else e)).
Proof. reflexivity. Qed.

Lemma sys_bind_nil {B} c (f : answer -> io B) t e : (sys c ≫= f) (World [] t e) = OutOfFuel.
Proof. reflexivity. Qed.

Lemma get_errno_bind {B} (f : Z -> io B) w : (get_errno ≫= f) w = f (errno w) w.
Proof. reflexivity. Qed.

Lemma set_errno_bind {B} e (f : unit -> io B) w :
  (set_errno e ≫= f) w = f tt (World (script w) (trace w) e).
Proof. reflexivity. Qed.

Lemma lift_bind {A B} (m : outcome A) a (f : A -> io B) w : m = Ret a -> (lift m ≫= f) w = f a w.
Proof. by intros ->. Qed.

Lemma lift_inv {A B} (m : outcome A) (f : A -> io B) w b w' :
  (lift m ≫= f) w = Ret (b, w') -> exists a, m = Ret a /\ f a w = Ret (b, w').
Proof.
  intros (a & w1 & Hm & H)%io_bind_inv. unfold lift in Hm.
  destruct m as [x| | |]; try discriminate. injection Hm as -> <-. by exists a.
Qed.

(** Evaluate an [io] computation as far as its script is known. *)
Ltac io_run :=
  repeat first
    [ rewrite sys_bind | rewrite sys_bind_nil | rewrite io_bind_ret | rewrite io_mret
    | rewrite get_errno_bind | rewrite set_errno_bind
    | progress cbn [ret err data outs script trace errno ok fails negb] | progress cbv beta iota ].

(** What happened between two worlds. *)
Definition happened (w w' : world) (evs : list event) : Prop := trace w' = trace w ++ evs.

(** The bytes the kernel took from the writes of a trace, in order. *)
Definition taken (ev : event) : list byte :=
  match ev with
  | (SysWrite _ bs, r) => sub bs 0 (ret r)
  | (SysWritev _ bss, r) => sub (concat bss) 0 (ret r)
  | _ => []
  end.

Definition accepted (evs : list event) : list byte := evs ≫= taken.

Lemma accepted_app a b : accepted (a ++ b) = accepted a ++ accepted b.
Proof. apply bind_app. Qed.

Lemma accepted_cons ev evs : accepted (ev :: evs) = taken ev ++ accepted evs.
Proof. reflexivity. Qed.

(** Descriptors closed in a trace. *)
Definition closes (evs : list event) : list Z :=
  omap (fun ev : event => match ev with (SysClose fd, _) => Some fd | _ => None end) evs.

(** Descriptors the kernel handed out in a trace. *)
Definition opened (evs : list event) : list Z :=
  omap (fun ev : event =>
    match ev with
    | (SysOpenat _ _ _ _, r) | (SysSocket _ _ _, r) | (SysAccept _, r) =>
        if 0 <=? ret r then Some (ret r) else None
    | _ => None
    end) evs.

Lemma opened_app a b : opened (a ++ b) = opened a ++ opened b.
Proof. apply omap_app. Qed.
Lemma closes_app a b : closes (a ++ b) = closes a ++ closes b.
Proof. apply omap_app. Qed.

(** A failing call sets [errno]; error numbers are positive. *)
Definition answer_ok (r : answer) : Prop := ret r < 0 -> 0 < err r.

Definition kernel_ok (w : world) : Prop := Forall answer_ok (script w) /\ 0 <= errno w.

(** Taking a run apart: a run of [sys] followed by something. *)
Lemma sys_inv {B} c (f : answer -> io B) w x :
  (sys c ≫= f) w = Ret x ->
  exists r rs, script w = r :: rs /\
    f r (World rs (trace w ++ [(c, r)]) (if ret r <? 0 then err r else errno w)) = Ret x.
Proof. destruct w as [[|r rs] t e]; [discriminate|]. rewrite sys_bind. eauto. Qed.

Lemma kernel_ok_step r rs t e t' :
  kernel_ok (World (r :: rs) t e) -> kernel_ok (World rs t' (if ret r <? 0 then err r else e)).
Proof.
  intros [[Hr Hrs]%Forall_cons He]. split; [done|]. simpl in *.
  destruct (Z.ltb_spec (ret r) 0); [|done]. specialize (Hr ltac:(done)). lia.
Qed.

(** The result of a run that opened or failed: a descriptor, with nothing
    closed, or an error with nothing left open. *)
Definition owns_or_closed (v : Z) (evs : list event) : Prop :=
  (0 <= v /\ opened evs = [v] /\ closes evs = []) \/
  (v < 0 /\ forall fd, fd ∈ opened evs -> fd ∈ closes evs).

(** The promise of whatever hands out descriptors, to those who build on it:
    a run that starts where [pre] holds leaks none. *)
Class Opens (pre : world -> Prop) (m : io Z) : Prop :=
  opens_safely : forall w v w', pre w -> m w = Ret (v, w') ->
    exists evs, trace w' = trace w ++ evs /\ owns_or_closed v evs.

(** What a call that transmits [bs] did when it returned [n]: the kernel took
    a prefix, all of it when [n] is the length, and otherwise [n] is an error. *)
Definition delivered (w : world) (n : Z) (w' : world) (bs : list byte) : Prop :=
  exists evs k, trace w' = trace w ++ evs /\ accepted evs = sub bs 0 k /\ 0 <= k <= zlen bs /\
    ((n = zlen bs /\ k = zlen bs) \/ (n < 0 /\ k < zlen bs)).

(** The promise of whatever transmits bytes, where [pre] holds. *)
Class Delivers (pre : world -> Prop) (m : io Z) (bs : list byte) : Prop :=
  delivers_bytes : forall w n w', pre w -> m w = Ret (n, w') -> delivered w n w' bs.
