(* ===== verification/Live.v ===== *)
(** * Live

    Which descriptors a program holds.  [Sys.opened] and [Sys.closes] forget
    the order of events; here a trace is replayed, so a number that the kernel
    hands out again after it was closed counts as held again.  A kernel never
    hands out a number that is held: [fresh]. *)

From stdpp Require Import gmap.
From S2P Require Import Prelude Sys.
#[local] Open Scope Z_scope.

(** The descriptor a system call hands out, and the one it gives back. *)
Definition opens (ev : event) : option Z :=
  match ev with
  | (SysOpenat _ _ _ _, r) | (SysSocket _ _ _, r) | (SysAccept _, r) =>
      if 0 <=? ret r then Some (ret r) else None
  | _ => None
  end.

Definition gives_back (ev : event) : option Z :=
  match ev with (SysClose fd, _) => Some fd | _ => None end.

(** The descriptors held after a trace, when those of [l] were before. *)
Definition live_step (l : gset Z) (ev : event) : gset Z :=
  match opens ev, gives_back ev with
  | Some fd, _ => {[fd]} ∪ l
  | None, Some fd => l ∖ {[fd]}
  | None, None => l
  end.

Definition live (l : gset Z) (evs : list event) : gset Z := foldl live_step l evs.

(** Nothing is handed out that is held. *)
Fixpoint fresh (l : gset Z) (evs : list event) : Prop :=
  match evs with
  | [] => True
  | ev :: evs => (forall fd, opens ev = Some fd -> fd ∉ l) /\ fresh (live_step l ev) evs
  end.

Lemma opened_omap evs : opened evs = omap opens evs.
Proof. reflexivity. Qed.

Lemma closes_omap evs : closes evs = omap gives_back evs.
Proof. reflexivity. Qed.

Lemma opened_cons ev evs : opened (ev :: evs) = opened [ev] ++ opened evs.
Proof. apply (opened_app [ev]). Qed.

Lemma closes_cons ev evs : closes (ev :: evs) = closes [ev] ++ closes evs.
Proof. apply (closes_app [ev]). Qed.

(** An event opens, gives back, or does neither. *)
Lemma event_cases ev l :
  (exists fd, opens ev = Some fd /\ opened [ev] = [fd] /\ closes [ev] = [] /\ live_step l ev = {[fd]} ∪ l) \/
  (exists fd, opens ev = None /\ opened [ev] = [] /\ closes [ev] = [fd] /\ live_step l ev = l ∖ {[fd]}) \/
  (opens ev = None /\ opened [ev] = [] /\ closes [ev] = [] /\ live_step l ev = l).
Proof.
  unfold live_step. rewrite opened_omap, closes_omap.
  destruct ev as [[] r]; cbn; try (right; right; by split_and!); try (right; left; eexists; by split_and!);
    (destruct (0 <=? ret r); [left; eexists; by split_and!|right; right; by split_and!]).
Qed.

Lemma live_app l a b : live l (a ++ b) = live (live l a) b.
Proof. apply foldl_app. Qed.

Lemma fresh_app l a b : fresh l (a ++ b) <-> fresh l a /\ fresh (live l a) b.
Proof.
  revert l. induction a as [|ev a IH]; intros l; cbn [app fresh live foldl]; [tauto|].
  rewrite IH. unfold live. tauto.
Qed.

(** What is held afterwards was held before or has been handed out. *)
Lemma live_bound l evs : live l evs ⊆ l ∪ list_to_set (opened evs).
Proof.
  revert l. induction evs as [|ev evs IH]; intros l; [set_solver|].
  change (live l (ev :: evs)) with (live (live_step l ev) evs). etrans; [apply IH|].
  rewrite opened_cons, list_to_set_app_L.
  destruct (event_cases ev l) as [(fd & _ & -> & _ & ->)|[(fd & _ & -> & _ & ->)|(_ & -> & _ & ->)]]; set_solver.
Qed.

(** What is not given back is still held. *)
Lemma live_keeps l evs fd : fd ∈ l -> fd ∉ closes evs -> fd ∈ live l evs.
Proof.
  revert l. induction evs as [|ev evs IH]; intros l Hl Hc; [done|].
  change (live l (ev :: evs)) with (live (live_step l ev) evs).
  rewrite closes_cons, not_elem_of_app in Hc. destruct Hc as [Hc1 Hc2]. apply IH; [|done].
  destruct (event_cases ev l) as [(x & _ & _ & _ & ->)|[(x & _ & _ & E & ->)|(_ & _ & _ & ->)]];
    [set_solver| |done].
  rewrite E in Hc1. apply not_elem_of_cons in Hc1 as [? _]. set_solver.
Qed.

Lemma live_opened l evs fd : fd ∈ opened evs -> fd ∉ closes evs -> fd ∈ live l evs.
Proof.
  revert l. induction evs as [|ev evs IH]; intros l Ho Hc; [by apply not_elem_of_nil in Ho|].
  change (live l (ev :: evs)) with (live (live_step l ev) evs).
  rewrite closes_cons, not_elem_of_app in Hc. destruct Hc as [_ Hc2].
  rewrite opened_cons, elem_of_app in Ho. destruct Ho as [Ho|Ho]; [|by apply IH].
  apply live_keeps; [|done].
  destruct (event_cases ev l) as [(x & _ & E & _ & ->)|[(x & _ & E & _ & _)|(_ & E & _ & _)]]; rewrite E in Ho;
    [|by apply not_elem_of_nil in Ho..].
  apply list_elem_of_singleton in Ho as ->. set_solver.
Qed.

(** Without openings a trace takes away what it gives back. *)
Lemma live_quiet l evs : opened evs = [] -> live l evs = l ∖ list_to_set (closes evs).
Proof.
  revert l. induction evs as [|ev evs IH]; intros l Ho; [set_solver|].
  rewrite opened_cons in Ho. apply app_nil in Ho as [Ho1 Ho2].
  change (live l (ev :: evs)) with (live (live_step l ev) evs). rewrite IH by done.
  rewrite closes_cons, list_to_set_app_L.
  destruct (event_cases ev l) as [(x & _ & E & _)|[(x & _ & _ & -> & ->)|(_ & _ & -> & ->)]];
    [congruence|set_solver|set_solver].
Qed.

(** A fresh descriptor was not held. *)
Lemma fresh_opened l evs fd : fresh l evs -> opened evs = [fd] -> closes evs = [] -> fd ∉ l.
Proof.
  revert l. induction evs as [|ev evs IH]; intros l Hf Ho Hc; [done|].
  rewrite opened_cons in Ho. rewrite closes_cons in Hc. apply app_nil in Hc as [Hc1 Hc2].
  destruct Hf as [Hf1 Hf2].
  destruct (event_cases ev l) as [(x & Ex & E & _ & _)|[(x & _ & _ & E & _)|(_ & E & _ & El)]].
  - rewrite E in Ho. injection Ho as -> _. by apply Hf1.
  - congruence.
  - rewrite E in Ho. rewrite El in Hf2. by apply IH.
Qed.

(** ** The owner of a descriptor

    A component that holds one descriptor, or a negative number once it is
    closed, among a program that does other things. *)

Section Owner.
Context {S : Type} (fd_of : S -> Z).

(** A stretch that opens nothing, and in which the owner's descriptor stays or
    is given back for good. *)
Definition keeps (s s' : S) (evs : list event) : Prop :=
  opened evs = [] /\
  ((fd_of s' = fd_of s /\ fd_of s ∉ closes evs) \/ (fd_of s' < 0 /\ fd_of s ∈ closes evs)).

(** A stretch in which others open descriptors, or take them over: [T]. *)
Definition holds_on (s s' : S) (T : gset Z) (evs : list event) : Prop :=
  forall l, fresh l evs -> (0 <= fd_of s -> fd_of s ∈ l) ->
    live l evs ⊆ l ∪ T /\
    (fd_of s' = fd_of s \/ fd_of s' < 0 /\ fd_of s ∉ live l evs) /\
    (0 <= fd_of s' -> fd_of s' ∈ live l evs).

(** The descriptor an owner holds. *)
Definition held_by (s : S) : gset Z := if 0 <=? fd_of s then {[fd_of s]} else ∅.

Lemma keeps_nothing s evs : opened evs = [] -> closes evs = [] -> keeps s s evs.
Proof. intros ? Hc. split; [done|]. left. rewrite Hc. split; [done|apply not_elem_of_nil]. Qed.

Lemma keeps_trans s1 s2 s3 evs1 evs2 : keeps s1 s2 evs1 -> keeps s2 s3 evs2 -> keeps s1 s3 (evs1 ++ evs2).
Proof.
  intros [Ho1 H1] [Ho2 H2]. split; [by rewrite opened_app, Ho1, Ho2|]. rewrite closes_app, elem_of_app.
  destruct H1 as [[E1 H1]|[E1 H1]], H2 as [[E2 H2]|[E2 H2]]; rewrite ?E1 in *.
  - left. tauto.
  - right. tauto.
  - right. split; [lia|tauto].
  - right. split; [lia|tauto].
Qed.

(** The same between two worlds. *)
Definition kept (s s' : S) (w w' : world) : Prop :=
  exists evs, trace w' = trace w ++ evs /\ keeps s s' evs.

Lemma kept_quiet s w w' evs : trace w' = trace w ++ evs -> opened evs = [] -> closes evs = [] -> kept s s w w'.
Proof. intros. exists evs. split; [done|by apply keeps_nothing]. Qed.

Lemma kept_refl s w : kept s s w w.
Proof. apply (kept_quiet s w w []); [by rewrite app_nil_r|done..]. Qed.

Lemma kept_trans s1 s2 s3 w1 w2 w3 : kept s1 s2 w1 w2 -> kept s2 s3 w2 w3 -> kept s1 s3 w1 w3.
Proof.
  intros (evs1 & E1 & H1) (evs2 & E2 & H2). exists (evs1 ++ evs2).
  split; [by rewrite E2, E1, app_assoc|by eapply keeps_trans].
Qed.

Lemma keeps_holds s s' T evs : keeps s s' evs -> holds_on s s' T evs.
Proof.
  intros [Ho Hk] l _ Hs. rewrite live_quiet by done. split; [set_solver|].
  destruct Hk as [[-> Hk]|[Hneg Hk]]; (split; [|intros]); [by left|set_solver|right; set_solver|lia].
Qed.

(** Others open what they like, as long as they leave the owner's alone. *)
Lemma others_hold s evs : fd_of s ∉ closes evs -> holds_on s s (list_to_set (opened evs)) evs.
Proof. intros Hc l _ Hs. split; [apply live_bound|]. split; [by left|]. intros Hfd. apply live_keeps; auto. Qed.

(** An owner that has just opened its descriptor. *)
Lemma opened_held s evs l :
  0 <= fd_of s -> opened evs = [fd_of s] -> closes evs = [] ->
  live l evs ⊆ l ∪ held_by s /\ fd_of s ∈ live l evs.
Proof.
  intros Hfd Ho Hc. split.
  - etrans; [apply live_bound|]. unfold held_by. rewrite Ho, (proj2 (Z.leb_le 0 _)) by done. set_solver.
  - apply live_opened; rewrite ?Ho, ?Hc; [by left|apply not_elem_of_nil].
Qed.

(** The steps of a program around an owner, with what others open or take
    over in each. *)
Context (step : S * world -> gset Z -> S * world -> Prop).

Inductive run : S * world -> gset Z -> S * world -> Prop :=
  | run_none x : run x ∅ x
  | run_more x T y T' z : run x T y -> step y T' z -> run x (T ∪ T') z.

Hypothesis step_holds : forall x T y,
  step x T y -> exists evs, trace y.2 = trace x.2 ++ evs /\ holds_on x.1 y.1 T evs.

(** Over any number of steps nothing is held but the [rest] that was held
    before, the owner's descriptor and what the others have opened. *)
Lemma run_holds x T y :
  run x T y -> forall rest l0 t0 evs0, trace x.2 = t0 ++ evs0 ->
  live l0 evs0 ⊆ rest ∪ held_by x.1 -> (0 <= fd_of x.1 -> fd_of x.1 ∈ live l0 evs0) ->
  exists evs, trace y.2 = t0 ++ evs /\
    (fresh l0 evs -> live l0 evs ⊆ rest ∪ T ∪ held_by y.1 /\ (0 <= fd_of y.1 -> fd_of y.1 ∈ live l0 evs)).
Proof.
  induction 1 as [x|x T y T' z _ IH Hs]; intros rest l0 t0 evs0 E Hl Hin.
  - exists evs0. split; [done|]. intros _. split; [set_solver|done].
  - destruct (IH _ _ _ _ E Hl Hin) as (evs & Ey & Hy). apply step_holds in Hs as (evs1 & Ez & Hz).
    exists (evs ++ evs1). split; [by rewrite Ez, Ey, app_assoc|].
    intros [Hf1 Hf2]%fresh_app. destruct (Hy Hf1) as [Hy1 Hy2].
    destruct (Hz _ Hf2 Hy2) as (Hz1 & Hz2 & Hz3). rewrite live_app. split; [|done].
    unfold held_by in *. destruct Hz2 as [Ee|[Hneg Hout]].
    + rewrite Ee. clear -Hy1 Hz1. set_solver.
    + rewrite (proj2 (Z.leb_gt 0 (fd_of z.1))) by lia.
      clear -Hy1 Hz1 Hout. destruct (0 <=? fd_of y.1); set_solver.
Qed.
End Owner.
