(* ===== verification/Clock.v ===== *)
(** * Clock

    The clock behind [sancus_now]: include/sancus/clock.h and
    src/sancus/clock.c.  An installed clock is a function of the program. *)

From Stdlib Require Import SpecFloat QArith Lqa.
From S2P Require Import Prelude Time Double TimeFp Sys.
#[local] Open Scope Z_scope.

(** [struct sancus_clock] @ include/sancus/clock.h:7-10. The function [f]
    closed over its [data]; it may leave the time it is given as it was. *)
Record sancus_clock := Clock { clk_f : option (option timespec -> io (Z * option timespec)) }.

(** [sancus_gettime] @ include/sancus/clock.h:29-32. *)
Definition sancus_gettime (ts : option timespec) : io (Z * option timespec) :=
  match ts with
  | None => mret (0, None)
  | Some t =>
      r ← sys SysGettime;
      mret (ret r, Some (match outs r with
                         | [s; ns] => if ret r <? 0 then t else mk_ts s ns
                         | _ => t
                         end))
  end.

(** [sancus_clock_gettime] @ include/sancus/clock.h:34-47. *)
Definition sancus_clock_gettime (clk : option sancus_clock) (ts : option timespec)
    : io (Z * option timespec) :=
  r ← match clk with
      | Some (Clock (Some f)) => f ts
      | _ => sancus_gettime ts
      end;
  let '(err, ts) := (r : Z * option timespec) in
  mret (err, if negb (err =? 0) && bool_decide (is_Some ts) then Some (mk_ts 0 0) else ts).

(** [sancus_set_now_clock] @ src/sancus/clock.c:6-9. The new [backend]. *)
Definition sancus_set_now_clock (clk : option sancus_clock) : option sancus_clock :=
  match clk with Some c => Some c | None => None end.

(** [sancus_now] @ src/sancus/clock.c:11-14. *)
Definition sancus_now (backend : option sancus_clock) (ts : option timespec)
    : io (Z * option timespec) :=
  sancus_clock_gettime backend ts.

(** [sancus_now_ts] @ include/sancus/clock.h:15-20. The local variable starts
    with an indeterminate value, [ts0], that a clock may leave in it. *)
Definition sancus_now_ts (backend : option sancus_clock) (ts0 : timespec) : io timespec :=
  r ← sancus_now backend (Some ts0);
  lift (deref r.2).

(** [sancus_now_fp] @ include/sancus/clock.h:22-27. *)
Definition sancus_now_fp (backend : option sancus_clock) (ts0 : timespec) : io double :=
  r ← sancus_now backend (Some ts0);
  ts ← lift (deref r.2);
  mret (sancus_time_ts_to_fp ts).

(** Whatever the clock does, an error leaves the time at zero. *)
Lemma now_error_is_zero backend t w e ts w' :
  sancus_now backend (Some t) w = Ret ((e, Some ts), w') -> e <> 0 -> ts = mk_ts 0 0.
Proof.
  intros H He. unfold sancus_now, sancus_clock_gettime in H.
  apply io_bind_inv in H as ([e' ts'] & w1 & _ & H). injection H as -> H ->.
  rewrite (proj2 (Z.eqb_neq e 0) He) in H. cbn [negb andb] in H.
  case_bool_decide as Hs; [congruence|]. subst ts'. destruct Hs. by eexists.
Qed.

(** The system clock's answer is the time. *)
Lemma now_system r rs t e ts s ns :
  ret r = 0 -> outs r = [s; ns] ->
  sancus_now None (Some ts) (World (r :: rs) t e) =
    Ret ((0, Some (mk_ts s ns)), World rs (t ++ [(SysGettime, r)]) e).
Proof.
  intros Hr Ho. unfold sancus_now, sancus_clock_gettime, sancus_gettime.
  unfold mbind at 1, io_bind at 1. rewrite sys_bind, io_mret, Ho, Hr. reflexivity.
Qed.

(** As a [double] the system time before 2038 is at most 250 nanoseconds off,
    whatever the variable held. *)
Lemma now_fp_accuracy r rs t e ts0 s ns :
  ret r = 0 -> outs r = [s; ns] -> 0 <= s < 2 ^ 31 -> 0 <= ns < NSEC ->
  exists d v,
    sancus_now_fp None ts0 (World (r :: rs) t e) = Ret (d, World rs (t ++ [(SysGettime, r)]) e) /\
    isd d v /\
    (v - inject_Z s - inject_Z ns * (1 # 1000000000) <= 1 # 4000000)%Q /\
    (- (1 # 4000000) <= v - inject_Z s - inject_Z ns * (1 # 1000000000))%Q.
Proof.
  intros Hr Ho Hs Hn. destruct (inj_bounds 0 2147483647 s ltac:(lia)) as [S0 S1].
  change (inject_Z 0) with 0%Q in S0. change (inject_Z 2147483647) with (2147483647 # 1)%Q in S1.
  destruct (ts_to_fp_value s ns (2147483649 # 1)) as (v & Hv & U & L & _); [lia|done|lra|lra|].
  exists (sancus_time_ts_to_fp (mk_ts s ns)), v. split.
  - unfold sancus_now_fp. by rewrite (io_bind_eq _ _ _ _ _ (now_system r rs t e ts0 s ns Hr Ho)).
  - unfold Double.u in *. split; [done|]. lra.
Qed.
