(* ===== verification/Fd.v ===== *)
(** * Fd

    The retrying wrappers of [include/sancus/fd.h], [src/sancus/fd.c] and
    [include/sancus/socket.h]. *)

From S2P Require Import Prelude Sys.

(** ** [fd.h] *)

(** [sancus_close] @ include/sancus/fd.h:51-59. *)
Fixpoint close_loop (fuel : nat) (fd : Z) : io Z :=
  match fuel with
  | O => fun _ => OutOfFuel
  | S fuel =>
      r ← sys (SysClose fd);
      if ret r =? 0 then mret 0
      else
        e ← get_errno;
        if negb (e =? EINTR) then mret (- e) else close_loop fuel fd
  end.

(** [sancus_close] @ include/sancus/fd.h:51-59. *)
Definition sancus_close (fd : Z) : io Z := patience (fun fuel => close_loop fuel fd).

(** [sancus_close2] @ include/sancus/fd.h:61-69.  [fd] is the object pointed
    to; its value afterwards is part of the result. *)
Definition sancus_close2 (fd : option Z) : io (Z * option Z) :=
  match fd with
  | None => mret (0, None)
  | Some n => rc ← sancus_close n; mret (rc, Some (-1))
  end.

(** [sancus_read] @ include/sancus/fd.h:74-83.  Returns the bytes read with
    the result. *)
Fixpoint read_loop (fuel : nat) (fd count : Z) : io (Z * list byte) :=
  match fuel with
  | O => fun _ => OutOfFuel
  | S fuel =>
      r ← sys (SysRead fd count);
      if ret r >=? 0 then mret (ret r, data r)
      else
        e ← get_errno;
        if negb (e =? EINTR) then mret (- e, []) else read_loop fuel fd count
  end.

(** [sancus_read] @ include/sancus/fd.h:74-83. *)
Definition sancus_read (fd count : Z) : io (Z * list byte) :=
  patience (fun fuel => read_loop fuel fd count).

(** [sancus_write, the loop] @ include/sancus/fd.h:92-104.  [p] is the position
    of [data] in the object it points into. *)
Fixpoint write_loop (fuel : nat) (fd : Z) (bs : list byte) (p count wt : Z) : io Z :=
  match fuel with
  | O => fun _ => OutOfFuel
  | S fuel =>
      if count =? 0 then mret wt
      else
        x ← lift (load bs p count);
        r ← sys (SysWrite fd x);
        let wc := ret r in
        if wc >? 0 then write_loop fuel fd bs (p + wc) (u64 (count - wc)) (wt + wc)
        else
          e ← get_errno;
          if (wc <? 0) && negb (e =? EINTR) then mret (- e)
          else write_loop fuel fd bs p count wt
  end.

(** [sancus_write] @ include/sancus/fd.h:88-105. *)
Definition sancus_write (fd : Z) (bs : list byte) (count : Z) : io Z :=
  patience (fun fuel => write_loop fuel fd bs 0 count 0).

(** ** [fd.c] *)

(** [struct iovec]: [iov_base] is a position in an object. *)
Record iovec := Iovec { iov_obj : list byte; iov_base : Z; iov_len : Z }.

(** What the kernel reads. *)
Definition iov_bytes (v : iovec) : outcome (list byte) := load (iov_obj v) (iov_base v) (iov_len v).

Fixpoint gather (vs : list iovec) : outcome (list (list byte)) :=
  match vs with
  | [] => Ret []
  | v :: vs => x ← iov_bytes v; xs ← gather vs; Ret (x :: xs)
  end.

(** [sancus_writev, consume accordingly] @ src/sancus/fd.c:70-82.  The vector
    is what is left of it; an empty one with bytes to consume is read past
    its end. *)
Fixpoint consume (n wc : Z) (vs : list iovec) : outcome (list iovec) :=
  if n =? 0 then Ret vs else
  match vs with
  | [] => Undef
  | v :: vs =>
      if n >=? iov_len v then consume (n - iov_len v) wc vs
      else Ret (Iovec (iov_obj v) (iov_base v + wc) (iov_len v - n) :: vs)
  end.

(** [sancus_writev, the loop] @ src/sancus/fd.c:63-88. *)
Fixpoint writev_loop (fuel : nat) (fd : Z) (vs : list iovec) (wt : Z) : io Z :=
  match fuel with
  | O => fun _ => OutOfFuel
  | S fuel =>
      match vs with
      | [] => mret wt
      | _ =>
          xs ← lift (gather vs);
          r ← sys (SysWritev fd xs);
          let wc := ret r in
          if wc >? 0 then
            vs ← lift (consume wc wc vs);
            writev_loop fuel fd vs (wt + wc)
          else
            e ← get_errno;
            if (wc <? 0) && negb (e =? EINTR) then mret (- e)
            else writev_loop fuel fd vs wt
      end
  end.

(** [sancus_writev] @ src/sancus/fd.c:56-89.  [iovcnt] is the length of the
    vector, or negative. *)
Definition sancus_writev (fd : Z) (vs : list iovec) (iovcnt : Z) : io Z :=
  if iovcnt <? 0 then mret (- EINVAL)
  else patience (fun fuel => writev_loop fuel fd vs 0).

Definition O_CLOEXEC : Z := 0x80000.
Definition O_NONBLOCK : Z := 0x800.
Definition FD_CLOEXEC : Z := 1.
Definition SOCK_CLOEXEC : Z := 0x80000.
Definition SOCK_NONBLOCK : Z := 0x800.
Definition AT_FDCWD : Z := -100.

(** [sancus__openat, open_retry] @ src/sancus/fd.c:17-23. *)
Fixpoint open_retry (fuel : nat) (dirfd : Z) (path : list byte) (flags mode : Z) : io Z :=
  match fuel with
  | O => fun _ => OutOfFuel
  | S fuel =>
      r ← sys (SysOpenat dirfd path flags mode);
      if ret r <? 0 then
        e ← get_errno;
        if e =? EINTR then open_retry fuel dirfd path flags mode else mret (ret r)
      else mret (ret r)
  end.

(** [sancus__openat, open_failed] @ src/sancus/fd.c:37-41. *)
Definition open_failed (fd : Z) : io Z :=
  e ← get_errno;
  _ ← sancus_close fd;
  _ ← set_errno e;
  mret (- e).

(** [sancus__openat] @ src/sancus/fd.c:6-44. *)
Definition sancus__openat (dirfd : Z) (path : list byte) (flags : Z) (cloexec : bool) (mode : Z) : io Z :=
  let flags := if cloexec then Z.lor flags O_CLOEXEC else Z.ldiff flags O_CLOEXEC in
  fd ← patience (fun fuel => open_retry fuel dirfd path flags mode);
  if fd <? 0 then mret fd
  else if cloexec then
    fl ← sys (SysGetfl fd);
    if ret fl <? 0 then open_failed fd
    else if Z.land (ret fl) FD_CLOEXEC =? 0 then
      r ← sys (SysSetfl fd (Z.lor (ret fl) FD_CLOEXEC));
      if ret r <? 0 then open_failed fd else mret fd
    else mret fd
  else mret fd.

(** [sancus_openat] @ src/sancus/fd.c:46-49. *)
Definition sancus_openat := sancus__openat.

(** [sancus_open] @ src/sancus/fd.c:51-54. *)
Definition sancus_open (path : list byte) (flags : Z) (cloexec : bool) (mode : Z) : io Z :=
  sancus__openat AT_FDCWD path flags cloexec mode.

(** ** [socket.h] *)

(** [sancus_socket, socket_failed] @ include/sancus/socket.h:68-72. *)
Definition socket_failed (fd : Z) : io Z := _ ← sys (SysClose fd); mret (-1).

(** [sancus_socket] @ include/sancus/socket.h:35-73. *)
Definition sancus_socket (family type protocol : Z) (cloexec nonblock : bool) : io Z :=
  let type := if cloexec then Z.lor type SOCK_CLOEXEC else Z.ldiff type SOCK_CLOEXEC in
  let type := if nonblock then Z.lor type SOCK_NONBLOCK else Z.ldiff type SOCK_NONBLOCK in
  r ← sys (SysSocket family type protocol);
  let fd := ret r in
  if fd <? 0 then mret fd
  else if cloexec || nonblock then
    f ← sys (SysGetfl fd);
    let fl := ret f in
    if fl <? 0 then socket_failed fd
    else
      let fl2 := if cloexec then Z.lor fl FD_CLOEXEC else fl in
      let fl2 := if nonblock then Z.lor fl2 O_NONBLOCK else fl2 in
      if negb (fl =? fl2) then
        s ← sys (SysSetfl fd fl2);
        if ret s <? 0 then socket_failed fd else mret fd
      else mret fd
  else socket_failed fd.

(** [sancus_accept] @ include/sancus/socket.h:78-86. *)
Fixpoint accept_retry (fuel : nat) (fd : Z) : io (Z * list byte) :=
  match fuel with
  | O => fun _ => OutOfFuel
  | S fuel =>
      r ← sys (SysAccept fd);
      e ← get_errno;
      if (ret r <? 0) && (e =? EINTR) then accept_retry fuel fd
      else mret (ret r, data r)
  end.

(** [sancus_accept] @ include/sancus/socket.h:78-86. *)
Definition sancus_accept (fd : Z) : io (Z * list byte) := patience (fun fuel => accept_retry fuel fd).

(** ** Retrying *)

(** [EINTR] answers are asked again, and the first other answer decides. *)
Lemma close_loop_retry fuel fd es r rs t e :
  Forall (fun a => is_eintr a = true) es -> ret r = 0 \/ ret r < 0 /\ err r <> EINTR ->
  (length es < fuel)%nat ->
  exists t' e', close_loop fuel fd (World (es ++ r :: rs) t e) =
      Ret (if ret r <? 0 then - err r else 0, World rs t' e') /\
    t' = t ++ map (fun a => (SysClose fd, a)) (es ++ [r]).
Proof.
  intros Hes Hr. revert fuel t e. induction Hes as [|a es Ha Hes IH]; intros [|fuel] t e Hf;
    try (simpl in Hf; lia); cbn [close_loop app map]; io_run.
  - destruct Hr as [->|[Hr He]]; [by eexists _, _|].
    rewrite (proj2 (Z.eqb_neq (ret r) 0)), !(proj2 (Z.ltb_lt (ret r) 0)) by lia.
    io_run. rewrite (proj2 (Z.eqb_neq _ _) He). io_run. by eexists _, _.
  - unfold is_eintr in Ha. apply andb_true_iff in Ha as [Ha1 Ha2].
    rewrite (proj2 (Z.eqb_neq (ret a) 0)), Ha1 by lia.
    io_run. rewrite Ha2. io_run.
    destruct (IH fuel (t ++ [(SysClose fd, a)]) (err a)) as (t' & e' & -> & ->); [simpl in Hf; lia|].
    eexists _, _. split; [done|]. by rewrite <- app_assoc.
Qed.

Lemma read_loop_retry fuel fd count es r rs t e :
  Forall (fun a => is_eintr a = true) es -> is_eintr r = false -> (length es < fuel)%nat ->
  exists t' e', read_loop fuel fd count (World (es ++ r :: rs) t e) =
      Ret (if ret r <? 0 then (- err r, []) else (ret r, data r), World rs t' e') /\
    t' = t ++ map (fun a => (SysRead fd count, a)) (es ++ [r]).
Proof.
  intros Hes Hr. revert fuel t e. induction Hes as [|a es Ha Hes IH]; intros [|fuel] t e Hf;
    try (simpl in Hf; lia); cbn [read_loop app map]; io_run.
  - rewrite Z.geb_leb. unfold is_eintr in Hr.
    destruct (Z.leb_spec 0 (ret r)), (Z.ltb_spec (ret r) 0); try lia; [by eexists _, _|].
    io_run. simpl in Hr. rewrite Hr. io_run. by eexists _, _.
  - unfold is_eintr in Ha. apply andb_true_iff in Ha as [Ha1 Ha2].
    rewrite Z.geb_leb, (proj2 (Z.leb_gt 0 (ret a))), Ha1 by lia.
    io_run. rewrite Ha2. io_run.
    destruct (IH fuel (t ++ [(SysRead fd count, a)]) (err a)) as (t' & e' & -> & ->); [simpl in Hf; lia|].
    eexists _, _. split; [done|]. by rewrite <- app_assoc.
Qed.

(** [sancus_close] and [sancus_read] ask again after [EINTR], however
    often, and only then; the first other answer decides: success is passed
    on, an error becomes [-errno], and later answers are left for others. *)
Theorem eintr_retried (fd count : Z) (es : list answer) (r : answer) (rs : list answer) (t : list event) (e : Z)
    (Hes : Forall (fun a => is_eintr a = true) es) (Hr : is_eintr r = false) :
  (ret r <= 0 -> exists e', sancus_close fd (World (es ++ r :: rs) t e) =
     Ret (if ret r <? 0 then - err r else 0,
          World rs (t ++ map (fun a => (SysClose fd, a)) (es ++ [r])) e')) /\
  (exists e', sancus_read fd count (World (es ++ r :: rs) t e) =
     Ret (if ret r <? 0 then (- err r, []) else (ret r, data r),
          World rs (t ++ map (fun a => (SysRead fd count, a)) (es ++ [r])) e')).
Proof.
  unfold sancus_close, sancus_read, patience. cbn [script]. rewrite length_app. simpl length. split.
  - intros Hle. edestruct (close_loop_retry (S (length es + S (length rs))) fd es r rs t e)
      as (t' & e' & E & ->); [done| |lia|by eexists].
    unfold is_eintr in Hr. destruct (Z.ltb_spec (ret r) 0); [right|left; lia].
    simpl in Hr. apply Z.eqb_neq in Hr. by split.
  - edestruct (read_loop_retry (S (length es + S (length rs))) fd count es r rs t e)
      as (t' & e' & E & ->); [done..|lia|by eexists].
Qed.

Lemma eintr_retried_witness :
  exists e', sancus_close 3 (World ([fails EINTR; fails EINTR] ++ fails 5 :: [ok 0]) [] 0) =
     Ret (if ret (fails 5) <? 0 then - err (fails 5) else 0,
          World [ok 0] ([] ++ map (fun a => (SysClose 3, a)) ([fails EINTR; fails EINTR] ++ [fails 5])) e').
Proof.
  apply (eintr_retried 3 0 [fails EINTR; fails EINTR] (fails 5) [ok 0] [] 0); [|done|done].
  repeat constructor.
Defined.

(** ** Writing everything *)

(** The kernel takes no more than it is offered. *)
Fixpoint write_ok (count : Z) (rs : list answer) : Prop :=
  match rs with
  | [] => True
  | r :: rs => ret r <= count /\ write_ok (if ret r >? 0 then count - ret r else count) rs
  end.

(** Answers that took something. *)
Definition progress (rs : list answer) : Z := zlen (filter (fun r => 0 < ret r) rs).

Definition no_error (rs : list answer) : Prop := Forall (fun r => 0 <= ret r \/ is_eintr r = true) rs.

Lemma progress_cons r rs : progress (r :: rs) = (if 0 <? ret r then 1 else 0) + progress rs.
Proof.
  unfold progress. rewrite filter_cons. case_decide.
  - rewrite zlen_cons, (proj2 (Z.ltb_lt 0 (ret r))) by lia. done.
  - by rewrite (proj2 (Z.ltb_ge 0 (ret r))) by lia.
Qed.

(** A run that ended with an error: the last answer is one of the kernel's
    errors, no [EINTR], and the result is that error. *)
Definition failed_with (evs : list event) (rs : list answer) (n : Z) : Prop :=
  exists evs' c r, evs = evs' ++ [(c, r)] /\ r ∈ rs /\ ret r < 0 /\ err r <> EINTR /\ n = - err r.

Lemma failed_with_cons ev r evs rs n : failed_with evs rs n -> failed_with (ev :: evs) (r :: rs) n.
Proof.
  intros (evs' & c & r' & -> & Hin & ? & ? & ?). exists (ev :: evs'), c, r'. split_and!; try done. by right.
Qed.

(** What a writing loop over [all] has to do, with [wt] bytes counted so far. *)
Definition write_result (all : list byte) (wt : Z) (rs : list answer) (t : list event) (m : outcome (Z * world)) : Prop :=
  match m with
  | Ret (n, w') => exists evs k, trace w' = t ++ evs /\ accepted evs = sub all 0 k /\
      0 <= k <= zlen all /\
      ((k = zlen all /\ n = wt + k) \/
       (k < zlen all /\ failed_with evs rs n))
  | OutOfFuel => progress rs < zlen all /\ no_error rs
  | _ => False
  end.

(** One answer that took [n] bytes. *)
Lemma write_result_step all wt r rs t m c n :
  ret r = n -> 0 < n <= zlen all -> taken (c, r) = sub all 0 n ->
  write_result (sub all n (zlen all - n)) (wt + n) rs (t ++ [(c, r)]) m ->
  write_result all wt (r :: rs) t m.
Proof.
  intros Hr Hn Ht. assert (zlen (sub all n (zlen all - n)) = zlen all - n) as Hl by (apply zlen_sub; lia).
  destruct m as [[v w']| | |]; simpl; try done.
  - intros (evs & k & Hev & Hac & Hk & Hres). rewrite Hl in *.
    exists ((c, r) :: evs), (n + k). split_and!.
    + by rewrite Hev, <- app_assoc.
    + rewrite accepted_cons, Ht, Hac, sub_sub, sub_app_add by lia. by rewrite Z.add_0_l, Z.add_0_r.
    + lia.
    + lia.
    + destruct Hres as [[? ->]|[? ?]]; [left; lia|right; split; [lia|by apply failed_with_cons]].
  - rewrite Hl, progress_cons, (proj2 (Z.ltb_lt 0 (ret r))) by lia. intros [? ?].
    split; [lia|]. constructor; [left; lia|done].
Qed.

(** One answer that took nothing and does not end the loop. *)
Lemma write_result_skip all wt r rs t m c :
  ret r <= 0 -> ret r = 0 \/ is_eintr r = true -> taken (c, r) = [] ->
  write_result all wt rs (t ++ [(c, r)]) m -> write_result all wt (r :: rs) t m.
Proof.
  intros Hle Hr Ht. destruct m as [[v w']| | |]; simpl; try done.
  - intros (evs & k & Hev & Hac & Hk & Hres). exists ((c, r) :: evs), k.
    split_and!; [by rewrite Hev, <- app_assoc|by rewrite accepted_cons, Ht|lia..|].
    destruct Hres as [?|[? ?]]; [by left|right; split; [done|by apply failed_with_cons]].
  - rewrite progress_cons, (proj2 (Z.ltb_ge 0 (ret r))) by lia. intros [? ?].
    split; [lia|]. constructor; [destruct Hr; [left; lia|by right]|done].
Qed.

Lemma write_loop_spec fuel fd bs p wt rs t e :
  (length rs < fuel)%nat -> 0 <= p <= zlen bs -> zlen bs <= ULONG_MAX -> write_ok (zlen bs - p) rs ->
  write_result (sub bs p (zlen bs - p)) wt rs t (write_loop fuel fd bs p (zlen bs - p) wt (World rs t e)).
Proof.
  revert p wt rs t e. induction fuel as [|fuel IH]; intros p wt rs t e Hf Hp Hm Hok; [lia|].
  cbn [write_loop]. assert (zlen (sub bs p (zlen bs - p)) = zlen bs - p) as Hl by (apply zlen_sub; lia).
  destruct (Z.eqb_spec (zlen bs - p) 0) as [E|].
  { rewrite E, sub_nil by lia. io_run. exists [], 0. rewrite app_nil_r, (@zlen_nil byte).
    split_and!; [done|done|lia|lia|left; split; [done|lia]]. }
  rewrite (lift_bind _ (sub bs p (zlen bs - p))) by (apply load_ok; lia).
  destruct rs as [|r rs].
  { rewrite sys_bind_nil. split; [|constructor]. rewrite Hl. unfold progress. change (zlen (filter _ [])) with 0. lia. }
  io_run. destruct Hok as [Hle Hok]. simpl in Hf. rewrite Z.gtb_ltb in *. destruct (Z.ltb_spec 0 (ret r)).
  - rewrite uwrap_id by bounds. apply (write_result_step _ _ _ _ _ _ (SysWrite fd (sub bs p (zlen bs - p))) (ret r)); [done|lia| |].
    + done.
    + rewrite Hl, sub_sub by lia. replace (zlen bs - p - ret r) with (zlen bs - (p + ret r)) in * by lia.
      apply IH; [lia..|done].
  - io_run. destruct (Z.ltb_spec (ret r) 0); simpl andb.
    + destruct (Z.eqb_spec (err r) EINTR) as [Ee|Ee]; simpl negb; cbv iota.
      * apply (write_result_skip _ _ _ _ _ _ (SysWrite fd (sub bs p (zlen bs - p)))); [lia| | |apply IH; [lia..|done]].
        -- right. unfold is_eintr. by rewrite (proj2 (Z.ltb_lt (ret r) 0)), Ee by lia.
        -- cbn [taken]. by rewrite sub_nil by lia.
      * io_run. exists [(SysWrite fd (sub bs p (zlen bs - p)), r)], 0. split_and!; [done| |lia|lia|].
        -- rewrite accepted_cons. cbn [taken]. by rewrite !sub_nil by lia.
        -- right. split; [lia|]. eexists [], _, r. split_and!; [done|by left|done..].
    + apply (write_result_skip _ _ _ _ _ _ (SysWrite fd (sub bs p (zlen bs - p)))); [lia|left; lia| |apply IH; [lia..|done]].
      cbn [taken]. by rewrite sub_nil by lia.
Qed.

(** What the interface promises. *)
Lemma write_result_delivers all rs t e n w' m :
  write_result all 0 rs t m -> Forall answer_ok rs -> m = Ret (n, w') ->
  delivered (World rs t e) n w' all.
Proof.
  intros W Hok ->. destruct W as (evs & k & Hev & Hac & Hk & Hres). exists evs, k. split_and!; [done|done|lia|lia|].
  destruct Hres as [[-> ->]|(? & _ & _ & r & _ & Hin & Hr & _ & ->)]; [left; lia|right].
  rewrite Forall_forall in Hok. specialize (Hok r Hin Hr). lia.
Qed.

(** [sancus_write], with a kernel that takes no more than it is offered. *)
#[export] Instance write_delivers fd bs :
  Delivers (fun w => zlen bs <= ULONG_MAX /\ write_ok (zlen bs) (script w) /\ Forall answer_ok (script w))
    (sancus_write fd bs (zlen bs)) bs.
Proof.
  intros [rs t e] n w' (Hm & Hok & Hans) E. cbn [script] in *.
  pose proof (zlen_nonneg bs).
  pose proof (write_loop_spec (S (length rs)) fd bs 0 0 rs t e) as W. rewrite Z.sub_0_r, sub_all in W.
  eapply write_result_delivers; [apply W; [lia..|done]|done|exact E].
Qed.

(** C6. [sancus_write] writes everything or reports an error: whatever a
    kernel answers that takes no more than it is offered, short writes, zeros
    and [EINTR] included, the bytes taken are a prefix of the data, in order
    and each once; the result is the full length if all of it was taken, and
    otherwise [-errno] of the last answer, an error other than [EINTR].  It only goes on waiting while
    fewer answers than bytes took something and none was an error. *)
Theorem write_all_or_error (fd : Z) (bs : list byte) (rs : list answer) (t : list event) (e : Z)
    (Hm : zlen bs <= ULONG_MAX) (Hok : write_ok (zlen bs) rs) :
  match sancus_write fd bs (zlen bs) (World rs t e) with
  | Ret (n, w') => exists evs k, trace w' = t ++ evs /\ accepted evs = sub bs 0 k /\
      0 <= k <= zlen bs /\
      ((k = zlen bs /\ n = k) \/ (k < zlen bs /\ failed_with evs rs n))
  | OutOfFuel => progress rs < zlen bs /\ no_error rs
  | _ => False
  end.
Proof.
  pose proof (zlen_nonneg bs).
  pose proof (write_loop_spec (S (length rs)) fd bs 0 0 rs t e) as W.
  rewrite Z.sub_0_r, sub_all in W. apply W; [lia..|done].
Qed.

Lemma write_all_or_error_witness :
  match sancus_write 1 (lit "hello") (zlen (lit "hello")) (World [ok 2; fails EINTR; ok 3] [] 0) with
  | Ret (n, w') => exists evs k, trace w' = [] ++ evs /\ accepted evs = sub (lit "hello") 0 k /\
      0 <= k <= zlen (lit "hello") /\
      ((k = zlen (lit "hello") /\ n = k) \/ (k < zlen (lit "hello") /\ failed_with evs [ok 2; fails EINTR; ok 3] n))
  | OutOfFuel => progress [ok 2; fails EINTR; ok 3] < zlen (lit "hello") /\ no_error [ok 2; fails EINTR; ok 3]
  | _ => False
  end.
Proof.
  apply (write_all_or_error 1 (lit "hello") [ok 2; fails EINTR; ok 3] [] 0); vm_compute; repeat split; discriminate.
Defined.

(** ** Vectors *)

Definition iov_wf (v : iovec) : Prop :=
  0 <= iov_base v /\ 0 < iov_len v /\ iov_base v + iov_len v <= zlen (iov_obj v).

Definition iov_view (v : iovec) : list byte := sub (iov_obj v) (iov_base v) (iov_len v).

(** What the vector stands for. *)
Definition iov_all (vs : list iovec) : list byte := vs ≫= iov_view.

(** [n] bytes end where an entry ends. *)
Fixpoint at_boundary (n : Z) (vs : list iovec) : bool :=
  (n =? 0) || match vs with [] => false | v :: vs => (iov_len v <=? n) && at_boundary (n - iov_len v) vs end.

Definition in_first (n : Z) (vs : list iovec) : bool :=
  match vs with [] => false | v :: _ => n <? iov_len v end.

(** Answers that stop at the end of an entry or inside the first. *)
Fixpoint writev_ok (vs : list iovec) (rs : list answer) : Prop :=
  match rs with
  | [] => True
  | r :: rs =>
      if 0 <? ret r then
        at_boundary (ret r) vs || in_first (ret r) vs = true /\
        match consume (ret r) (ret r) vs with Ret vs => writev_ok vs rs | _ => False end
      else writev_ok vs rs
  end.

Lemma zlen_view v : iov_wf v -> zlen (iov_view v) = iov_len v.
Proof. intros (? & ? & ?). unfold iov_view. apply zlen_sub; lia. Qed.

Lemma iov_all_cons v vs : iov_all (v :: vs) = iov_view v ++ iov_all vs.
Proof. reflexivity. Qed.

Lemma gather_ok vs : Forall iov_wf vs -> exists xs, gather vs = Ret xs /\ concat xs = iov_all vs.
Proof.
  induction 1 as [|v vs (? & ? & ?) Hvs (xs & E & Hx)]; [by exists []|].
  cbn [gather]. unfold iov_bytes. rewrite load_ok by lia. run. rewrite E. run.
  eexists; split; [done|]. simpl. rewrite Hx. done.
Qed.

Lemma iov_all_pos vs : Forall iov_wf vs -> zlen (iov_all vs) <= 0 -> vs = [].
Proof.
  intros [|v vs' Hv _] Hz; [done|]. rewrite iov_all_cons, zlen_app, zlen_view in Hz by done.
  destruct Hv as (? & ? & ?). pose proof (zlen_nonneg (iov_all vs')). lia.
Qed.

(** Consuming a whole number of entries. *)
Lemma consume_boundary n wc vs :
  Forall iov_wf vs -> at_boundary n vs = true -> 0 <= n ->
  exists vs', consume n wc vs = Ret vs' /\ Forall iov_wf vs' /\ n <= zlen (iov_all vs) /\
    iov_all vs' = sub (iov_all vs) n (zlen (iov_all vs) - n).
Proof.
  intros Hwf. revert n. induction Hwf as [|v vs Hv Hvs IH]; intros n Hb Hn; cbn [consume].
  - cbn [at_boundary] in Hb. rewrite orb_false_r in Hb. rewrite Hb. apply Z.eqb_eq in Hb. subst n. by exists [].
  - cbn [at_boundary] in Hb. destruct (Z.eqb_spec n 0) as [Hn0|Hn0].
    { subst n. exists (v :: vs). split_and!; [done|by constructor|apply zlen_nonneg|]. by rewrite Z.sub_0_r, sub_all. }
    cbn [orb] in Hb. apply andb_true_iff in Hb as [Hle Hb]. rewrite Z.geb_leb, Hle. apply Z.leb_le in Hle.
    destruct (IH _ Hb) as (vs' & -> & Hwf' & Hn' & E); [lia|]. exists vs'.
    rewrite iov_all_cons, zlen_app, zlen_view by done. split_and!; [done|done|lia|].
    rewrite E, sub_app_r, zlen_view by (rewrite ?zlen_view by done; done || lia). f_equal. lia.
Qed.

(** Consuming less than the first entry. *)
Lemma consume_first n vs :
  Forall iov_wf vs -> in_first n vs = true -> 0 < n ->
  exists vs', consume n n vs = Ret vs' /\ Forall iov_wf vs' /\ n <= zlen (iov_all vs) /\
    iov_all vs' = sub (iov_all vs) n (zlen (iov_all vs) - n).
Proof.
  intros [|v vs' Hv Hvs] Hin Hn; [done|]. cbn [in_first] in Hin. apply Z.ltb_lt in Hin.
  cbn [consume]. rewrite (proj2 (Z.eqb_neq n 0)), Z.geb_leb, (proj2 (Z.leb_gt _ _)) by lia.
  destruct Hv as (? & ? & ?). pose proof (zlen_nonneg (iov_all vs')).
  assert (zlen (iov_view v) = iov_len v) as Hl by (apply zlen_sub; lia).
  eexists; split_and!; [done|constructor; [split_and!; simpl; lia|done]|rewrite iov_all_cons, zlen_app; lia|].
  rewrite !iov_all_cons, zlen_app, Hl. unfold iov_view at 1. cbn [iov_obj iov_base iov_len].
  replace (iov_len v + zlen (iov_all vs') - n) with ((iov_len v - n) + zlen (iov_all vs')) by lia.
  rewrite sub_app_add by lia. f_equal.
  - rewrite sub_app_l by lia. unfold iov_view. rewrite sub_sub by lia. done.
  - rewrite sub_app_r by lia. replace (n + (iov_len v - n) - zlen (iov_view v)) with 0 by lia.
    by rewrite sub_all.
Qed.

Lemma writev_loop_spec fuel fd vs wt rs t e :
  (length rs < fuel)%nat -> Forall iov_wf vs -> writev_ok vs rs ->
  write_result (iov_all vs) wt rs t (writev_loop fuel fd vs wt (World rs t e)).
Proof.
  revert vs wt rs t e. induction fuel as [|fuel IH]; intros vs wt rs t e Hf Hwf Hok; [lia|].
  cbn [writev_loop]. destruct (decide (vs = [])) as [->|Hne].
  { io_run. exists [], 0. rewrite app_nil_r. change (zlen (iov_all [])) with 0.
    split_and!; [done..|left; split; [done|lia]]. }
  assert (0 < zlen (iov_all vs)) as Hpos
    by (destruct (Z.ltb_spec 0 (zlen (iov_all vs))); [done|by apply iov_all_pos in Hwf]).
  destruct (gather_ok vs Hwf) as (xs & Hg & Hx). destruct vs as [|v vs]; [done|].
  rewrite (lift_bind _ xs) by done. destruct rs as [|r rs].
  { rewrite sys_bind_nil. split; [|constructor]. unfold progress. change (zlen (filter _ [])) with 0. lia. }
  io_run. simpl in Hf. cbn [writev_ok] in Hok. rewrite Z.gtb_ltb. destruct (Z.ltb_spec 0 (ret r)).
  - destruct Hok as [Hst Hok].
    assert (exists vs', consume (ret r) (ret r) (v :: vs) = Ret vs' /\ Forall iov_wf vs' /\
      ret r <= zlen (iov_all (v :: vs)) /\
      iov_all vs' = sub (iov_all (v :: vs)) (ret r) (zlen (iov_all (v :: vs)) - ret r)) as (vs' & E & Hwf' & Hle & Ha).
    { apply orb_true_iff in Hst as [Hb|Hi]; [apply consume_boundary; by try lia|by apply consume_first]. }
    rewrite (lift_bind _ vs') by done. rewrite E in Hok.
    apply (write_result_step _ _ _ _ _ _ (SysWritev fd xs) (ret r)); [done|lia| |].
    + cbn [taken]. by rewrite Hx.
    + rewrite <- Ha. apply IH; [lia|done|done].
  - assert (taken (SysWritev fd xs, r) = []) as Ht by (cbn [taken]; by rewrite sub_nil by lia).
    io_run. destruct (Z.ltb_spec (ret r) 0); simpl andb.
    + destruct (Z.eqb_spec (err r) EINTR) as [Ee|Ee]; simpl negb; cbv iota.
      * apply (write_result_skip _ _ _ _ _ _ (SysWritev fd xs)); [lia| |done|apply IH; [lia|done..]].
        right. unfold is_eintr. by rewrite (proj2 (Z.ltb_lt (ret r) 0)), Ee by lia.
      * io_run. exists [(SysWritev fd xs, r)], 0. split_and!; [done| |lia|lia|].
        -- rewrite accepted_cons, Ht. by rewrite sub_nil by lia.
        -- right. split; [lia|]. eexists [], _, r. split_and!; [done|by left|done..].
    + apply (write_result_skip _ _ _ _ _ _ (SysWritev fd xs)); [lia|left; lia|done|apply IH; [lia|done..]].
Qed.

(** [sancus_writev], with non-empty parts and short writes at their ends. *)
Lemma writev_delivers fd vs :
  Forall iov_wf vs ->
  Delivers (fun w => writev_ok vs (script w) /\ Forall answer_ok (script w)) (sancus_writev fd vs (zlen vs)) (iov_all vs).
Proof.
  intros Hwf [rs t e] n w' [Hok Hans] E. cbn [script] in *.
  unfold sancus_writev in E. rewrite (proj2 (Z.ltb_ge (zlen vs) 0)) in E by apply zlen_nonneg.
  eapply write_result_delivers; [apply (writev_loop_spec (S (length rs)) fd vs 0 rs t e); [lia|done..]|done|exact E].
Qed.

(** C36. [sancus_writev] writes a vector of non-empty parts completely, or
    reports an error, like [sancus_write], as long as every short write of
    the kernel stops at the end of a part or inside the first one left: the bytes
    taken are a prefix of the vector in order; the result is the full length if
    all of it was taken, and otherwise [-errno] of the last answer, an error
    other than [EINTR]. *)
Theorem writev_all_or_error (fd : Z) (vs : list iovec) (rs : list answer) (t : list event) (e : Z)
    (Hwf : Forall iov_wf vs) (Hok : writev_ok vs rs) :
  match sancus_writev fd vs (zlen vs) (World rs t e) with
  | Ret (n, w') => exists evs k, trace w' = t ++ evs /\ accepted evs = sub (iov_all vs) 0 k /\
      0 <= k <= zlen (iov_all vs) /\
      ((k = zlen (iov_all vs) /\ n = k) \/ (k < zlen (iov_all vs) /\ failed_with evs rs n))
  | OutOfFuel => progress rs < zlen (iov_all vs) /\ no_error rs
  | _ => False
  end.
Proof.
  unfold sancus_writev. rewrite (proj2 (Z.ltb_ge (zlen vs) 0)) by apply zlen_nonneg.
  apply (writev_loop_spec (S (length rs)) fd vs 0 rs t e); [lia|done..].
Qed.

Definition whole (s : list byte) : iovec := Iovec s 0 (zlen s).

Lemma writev_all_or_error_witness :
  match sancus_writev 1 [whole (lit "ab"); whole (lit "cde")] (zlen [whole (lit "ab"); whole (lit "cde")])
      (World [ok 1; ok 1; ok 3] [] 0) with
  | Ret (n, w') => exists evs k, trace w' = [] ++ evs /\
      accepted evs = sub (iov_all [whole (lit "ab"); whole (lit "cde")]) 0 k /\
      0 <= k <= zlen (iov_all [whole (lit "ab"); whole (lit "cde")]) /\
      ((k = zlen (iov_all [whole (lit "ab"); whole (lit "cde")]) /\ n = k) \/
       (k < zlen (iov_all [whole (lit "ab"); whole (lit "cde")]) /\ failed_with evs [ok 1; ok 1; ok 3] n))
  | OutOfFuel => progress [ok 1; ok 1; ok 3] < zlen (iov_all [whole (lit "ab"); whole (lit "cde")]) /\
      no_error [ok 1; ok 1; ok 3]
  | _ => False
  end.
Proof.
  apply (writev_all_or_error 1 [whole (lit "ab"); whole (lit "cde")] [ok 1; ok 1; ok 3] [] 0).
  - repeat constructor; vm_compute; discriminate.
  - vm_compute; repeat split.
Defined.

(** ** What a short write across parts does *)

(** A short write that ends inside the second part makes
    [sancus_writev] advance that part by the whole count instead of the rest
    of it: the next call reads behind the end of the part. *)
Theorem writev_short_write_overruns (fd : Z) (a b : list byte) (r : answer) (rs : list answer) (t : list event) (e : Z)
    (Ha : a <> []) (Hr : zlen a < ret r < zlen a + zlen b) :
  sancus_writev fd [whole a; whole b] 2 (World (r :: rs) t e) = Undef.
Proof.
  assert (0 < zlen a).
  { pose proof (zlen_nonneg a). destruct (decide (zlen a = 0)) as [E|]; [by apply zlen_zero in E|lia]. }
  unfold sancus_writev, patience. cbn [script length Z.ltb Z.compare writev_loop].
  rewrite (lift_bind _ [a; b]).
  2:{ cbn [gather]. unfold iov_bytes, whole; cbn [iov_obj iov_base iov_len].
      rewrite !load_ok, !sub_all by (pose proof (zlen_nonneg b); lia). done. }
  io_run. rewrite Z.gtb_ltb, (proj2 (Z.ltb_lt _ _)) by lia.
  rewrite (lift_bind _ [Iovec b (ret r) (zlen b - (ret r - zlen a))]).
  2:{ cbn [consume whole iov_len iov_base iov_obj]. rewrite !Z.geb_leb.
      rewrite (proj2 (Z.eqb_neq (ret r) 0)), (proj2 (Z.leb_le (zlen a) (ret r))) by lia.
      rewrite (proj2 (Z.eqb_neq (ret r - zlen a) 0)), (proj2 (Z.leb_gt _ _)) by lia.
      by rewrite Z.add_0_l. }
  cbn [writev_loop gather]. unfold iov_bytes. cbn [iov_obj iov_base iov_len].
  unfold load. destruct (in_bounds b (ret r) (zlen b - (ret r - zlen a))) eqn:E; [|done].
  apply in_bounds_spec in E. lia.
Qed.

Lemma writev_short_write_overruns_witness :
  sancus_writev 1 [whole (lit "ab"); whole (lit "cdef")] 2 (World [ok 3] [] 0) = Undef.
Proof. apply (writev_short_write_overruns 1 (lit "ab") (lit "cdef") (ok 3) [] [] 0); [done|vm_compute; by split]. Defined.

(** With nothing left but empty parts [sancus_writev] never returns:
    the kernel answers 0 for them, or [EINTR], and the loop asks again. *)
Theorem writev_empty_parts_hang (fd : Z) (vs : list iovec) (rs : list answer) (t : list event) (e : Z)
    (Hne : vs <> []) (Hvs : Forall (fun v => iov_len v = 0 /\ 0 <= iov_base v <= zlen (iov_obj v)) vs)
    (Hrs : Forall (fun r => ret r = 0 \/ is_eintr r = true) rs) :
  sancus_writev fd vs (zlen vs) (World rs t e) = OutOfFuel.
Proof.
  unfold sancus_writev, patience. rewrite (proj2 (Z.ltb_ge (zlen vs) 0)) by apply zlen_nonneg.
  cbn [script]. generalize (S (length rs)). intros fuel. revert t e rs Hrs.
  assert (exists xs, gather vs = Ret xs) as [xs Hx].
  { clear Hne. induction Hvs as [|v vs [Hv Hb] _ [xs IH]]; [by exists []|]. cbn [gather].
    unfold iov_bytes. rewrite load_ok, IH by lia. run. by eexists. }
  induction fuel as [|fuel IH]; intros t e rs Hrs; [done|]. cbn [writev_loop].
  destruct vs as [|v vs]; [done|]. rewrite (lift_bind _ xs) by done.
  destruct Hrs as [|r rs Hr Hrs]; [by rewrite sys_bind_nil|]. io_run. unfold is_eintr in Hr.
  rewrite Z.gtb_ltb, (proj2 (Z.ltb_ge 0 (ret r))) by
    (destruct Hr as [|[Hr%Z.ltb_lt _]%andb_true_iff]; lia).
  io_run. destruct (Z.ltb_spec (ret r) 0); [|by apply IH].
  destruct Hr as [|[_ Hr]%andb_true_iff]; [lia|]. rewrite Hr. by apply IH.
Qed.

Lemma writev_empty_parts_hang_witness :
  sancus_writev 1 [whole []] (zlen [whole []]) (World [ok 0; fails EINTR; ok 0] [] 0) = OutOfFuel.
Proof.
  apply (writev_empty_parts_hang 1 [whole []] [ok 0; fails EINTR; ok 0] [] 0); [done|..].
  - by repeat constructor.
  - repeat constructor; by auto.
Defined.

(** ** Opening *)

Lemma close_loop_inv fuel fd w v w' :
  close_loop fuel fd w = Ret (v, w') ->
  (kernel_ok w -> kernel_ok w') /\ exists evs, trace w' = trace w ++ evs /\ opened evs = [] /\
    (forall x, x ∈ closes evs <-> x = fd).
Proof.
  revert w. induction fuel as [|fuel IH]; intros [rs t e]; [discriminate|]. cbn [close_loop].
  intros (r & rs' & E & H)%sys_inv. cbn [script trace errno] in *. subst rs.
  assert (forall x, x ∈ [fd] <-> x = fd) as Hfd by (intros; apply list_elem_of_singleton).
  pose proof (kernel_ok_step r rs' t e (t ++ [(SysClose fd, r)])) as Hk'.
  destruct (ret r =? 0).
  - injection H as <- <-. split; [done|]. by eexists.
  - rewrite get_errno_bind in H. cbn [errno] in H. destruct (negb _).
    + injection H as <- <-. split; [done|]. by eexists.
    + apply IH in H as (Hk2 & evs & -> & Ho & Hc). split; [auto|].
      exists ((SysClose fd, r) :: evs). cbn [trace]. rewrite <- app_assoc. split_and!; [done|done|].
      intros x. change (closes ((SysClose fd, r) :: evs)) with (fd :: closes evs).
      rewrite elem_of_cons, Hc. tauto.
Qed.

Lemma sancus_close_inv fd w v w' :
  sancus_close fd w = Ret (v, w') ->
  (kernel_ok w -> kernel_ok w') /\ exists evs, trace w' = trace w ++ evs /\ opened evs = [] /\
    (forall x, x ∈ closes evs <-> x = fd).
Proof. apply close_loop_inv. Qed.

Lemma sancus_close2_inv fd w v w' :
  sancus_close2 (Some fd) w = Ret (v, w') ->
  v.2 = Some (-1) /\ exists evs, trace w' = trace w ++ evs /\ opened evs = [] /\
    (forall x, x ∈ closes evs <-> x = fd).
Proof.
  cbn [sancus_close2]. intros (rc & w1 & H & E)%io_bind_inv. injection E as <- <-.
  split; [done|]. by apply sancus_close_inv in H as [_ H].
Qed.

(** Closing asks for nothing else, once at least. *)
Lemma close_loop_events fuel fd w v w' :
  close_loop fuel fd w = Ret (v, w') ->
  exists cs, cs <> [] /\ trace w' = trace w ++ map (pair (SysClose fd)) cs.
Proof.
  revert w. induction fuel as [|fuel IH]; intros [rs t e]; [discriminate|]. cbn [close_loop].
  intros (r & rs' & E & H)%sys_inv. cbn [script trace errno] in *. subst rs.
  destruct (ret r =? 0); [injection H as <- <-; by exists [r]|].
  rewrite get_errno_bind in H. cbn [errno] in H. destruct (negb _); [injection H as <- <-; by exists [r]|].
  apply IH in H as (cs & _ & E). exists (r :: cs). split; [done|]. rewrite E. cbn [trace map]. by rewrite <- app_assoc.
Qed.

Lemma close2_events fd w v w' :
  sancus_close2 (Some fd) w = Ret (v, w') ->
  exists cs, cs <> [] /\ trace w' = trace w ++ map (pair (SysClose fd)) cs.
Proof. cbn [sancus_close2]. intros (rc & w1 & H & E)%io_bind_inv. injection E as <- <-. by eapply close_loop_events. Qed.

Lemma open_retry_inv fuel dirfd path flags mode w v w' :
  open_retry fuel dirfd path flags mode w = Ret (v, w') -> kernel_ok w ->
  kernel_ok w' /\ exists evs, trace w' = trace w ++ evs /\ closes evs = [] /\
    opened evs = (if 0 <=? v then [v] else []).
Proof.
  revert w. induction fuel as [|fuel IH]; intros [rs t e]; [discriminate|]. cbn [open_retry].
  intros (r & rs' & E & H)%sys_inv Hk. cbn [script trace errno] in *. subst rs.
  pose proof (kernel_ok_step _ _ _ _ (t ++ [(SysOpenat dirfd path flags mode, r)]) Hk) as Hk'.
  assert (opened [(SysOpenat dirfd path flags mode, r)] = if 0 <=? ret r then [ret r] else []) as Hop
    by (unfold opened; simpl; by destruct (0 <=? ret r)).
  destruct (Z.ltb_spec (ret r) 0).
  - rewrite get_errno_bind in H. cbn [errno] in H. destruct (err r =? EINTR).
    + apply IH in H as (Hk2 & evs & -> & Hc & Ho); [|done]. split; [done|].
      exists ((SysOpenat dirfd path flags mode, r) :: evs). cbn [trace]. rewrite <- app_assoc.
      split_and!; [done|done|]. change (_ :: evs) with ([(SysOpenat dirfd path flags mode, r)] ++ evs).
      rewrite opened_app, Hop, (proj2 (Z.leb_gt 0 (ret r))) by lia. done.
    + injection H as <- <-. split; [done|]. by eexists.
  - injection H as <- <-. split; [done|]. by eexists.
Qed.

Lemma open_failed_inv fd w v w' :
  open_failed fd w = Ret (v, w') -> kernel_ok w -> 0 < errno w ->
  v < 0 /\ exists evs, trace w' = trace w ++ evs /\ opened evs = [] /\ fd ∈ closes evs.
Proof.
  unfold open_failed. rewrite get_errno_bind. intros (rc & w1 & Hc & H)%io_bind_inv Hk He.
  apply sancus_close_inv in Hc as (_ & evs & E & Ho & Hcl).
  rewrite set_errno_bind in H. injection H as <- <-. split; [lia|]. exists evs.
  split_and!; [done|done|by apply Hcl].
Qed.

(** A run that has opened [fd] and then fails in a way that closes it. *)
Lemma owns_then_closed fd v evs1 evs2 :
  opened evs1 = [fd] -> opened evs2 = [] -> fd ∈ closes evs2 -> v < 0 -> owns_or_closed v (evs1 ++ evs2).
Proof.
  intros H1 H2 Hc Hv. right. split; [done|]. rewrite opened_app, closes_app, H1, H2.
  intros x Hx%list_elem_of_singleton. subst x. apply elem_of_app. by right.
Qed.

Lemma owns_quiet fd evs1 evs2 :
  0 <= fd -> opened evs1 = [fd] -> closes evs1 = [] -> opened evs2 = [] -> closes evs2 = [] ->
  owns_or_closed fd (evs1 ++ evs2).
Proof.
  intros ? H1 H2 H3 H4. left. by rewrite opened_app, closes_app, H1, H2, H3, H4.
Qed.

#[export] Instance openat_opens dirfd path flags cloexec mode :
  Opens kernel_ok (sancus__openat dirfd path flags cloexec mode).
Proof.
  intros w v w' Hk H.
  unfold sancus__openat in H. cbv zeta in H.
  apply io_bind_inv in H as (fd & w1 & Ho & H).
  apply open_retry_inv in Ho as (Hk1 & evs1 & E1 & Hc1 & Ho1); [|done].
  destruct (Z.ltb_spec fd 0) as [Hneg|Hpos].
  { injection H as <- <-. exists evs1. split; [done|]. right. split; [done|].
    rewrite Ho1, (proj2 (Z.leb_gt 0 fd)) by lia. by intros ? ?%elem_of_nil. }
  rewrite (proj2 (Z.leb_le 0 fd)) in Ho1 by lia. destruct cloexec.
  2:{ injection H as <- <-. exists (evs1 ++ []). rewrite app_nil_r at 1. by split; [|apply owns_quiet]. }
  apply sys_inv in H as (r & rs & Es & H). destruct w1 as [s1 t1 e1]. cbn [script trace errno] in *. subst s1 t1.
  pose proof (kernel_ok_step _ _ _ _ ((trace w ++ evs1) ++ [(SysGetfl fd, r)]) Hk1) as Hk2.
  destruct (Z.ltb_spec (ret r) 0).
  { apply open_failed_inv in H as (Hv & evs2 & E2 & Ho2 & Hc2); [|done|].
    - exists (evs1 ++ (SysGetfl fd, r) :: evs2). cbn [trace] in E2.
      split; [by rewrite E2, <- !app_assoc|by apply (owns_then_closed fd)].
    - destruct Hk1 as [[Hr _]%Forall_cons _]. cbn [errno]. by apply Hr. }
  destruct (Z.land (ret r) FD_CLOEXEC =? 0).
  2:{ injection H as <- <-. exists (evs1 ++ [(SysGetfl fd, r)]).
      split; [by rewrite app_assoc|by apply owns_quiet]. }
  apply sys_inv in H as (r2 & rs2 & Es & H). cbn [script trace errno] in *. subst rs.
  pose proof (kernel_ok_step _ _ _ _ (((trace w ++ evs1) ++ [(SysGetfl fd, r)]) ++ [(SysSetfl fd (Z.lor (ret r) FD_CLOEXEC), r2)]) Hk2) as Hk3.
  destruct (Z.ltb_spec (ret r2) 0).
  - apply open_failed_inv in H as (Hv & evs2 & E2 & Ho2 & Hc2); [|done|].
    + exists (evs1 ++ (SysGetfl fd, r) :: (SysSetfl fd (Z.lor (ret r) FD_CLOEXEC), r2) :: evs2). cbn [trace] in E2.
      split; [by rewrite E2, <- !app_assoc|by apply (owns_then_closed fd)].
    + destruct Hk2 as [[Hr _]%Forall_cons _]. cbn [errno]. by apply Hr.
  - injection H as <- <-. exists (evs1 ++ [(SysGetfl fd, r); (SysSetfl fd (Z.lor (ret r) FD_CLOEXEC), r2)]).
    split; [by rewrite <- !app_assoc|by apply owns_quiet].
Qed.

(** C32. [sancus_open] and [sancus_openat] leak no descriptor: however the
    kernel answers, either the result is the descriptor it opened, still open,
    or it is negative and whatever was opened on the way has been closed. *)
Theorem openat_no_leak (dirfd : Z) (path : list byte) (flags : Z) (cloexec : bool) (mode v : Z) (w w' : world)
    (Hk : kernel_ok w) (H : sancus_openat dirfd path flags cloexec mode w = Ret (v, w')) :
  exists evs, trace w' = trace w ++ evs /\ owns_or_closed v evs.
Proof. by apply (opens_safely (m := sancus__openat dirfd path flags cloexec mode)). Qed.

Lemma openat_no_leak_witness :
  exists evs, trace (World [] [(SysOpenat 4 (lit "f") O_CLOEXEC 0, ok 7); (SysGetfl 7, fails 9); (SysClose 7, ok 0)] 9) = [] ++ evs /\
    owns_or_closed (-9) evs.
Proof.
  apply (openat_no_leak 4 (lit "f") 0 true 0 (-9) (World [ok 7; fails 9; ok 0] [] 0)).
  - split; [|done]. repeat constructor; intros H; vm_compute in H |- *; done.
  - by vm_compute.
Defined.

Lemma socket_failed_inv fd w v w' :
  socket_failed fd w = Ret (v, w') ->
  v = -1 /\ exists evs, trace w' = trace w ++ evs /\ opened evs = [] /\ fd ∈ closes evs.
Proof.
  unfold socket_failed. intros (r & rs & Es & H)%sys_inv. injection H as <- <-. split; [done|].
  eexists. split_and!; [done|done|]. cbn. by left.
Qed.

(** [sancus_socket] leaks no descriptor either. *)
#[export] Instance socket_opens family type protocol cloexec nonblock :
  Opens (fun _ => True) (sancus_socket family type protocol cloexec nonblock).
Proof.
  intros w v w' _. unfold sancus_socket. cbv zeta. set (ty := if nonblock then _ else _).
  intros (r & rs & Es & H)%sys_inv.
  assert (opened [(SysSocket family ty protocol, r)] = if 0 <=? ret r then [ret r] else []) as Ho1
    by (unfold opened; simpl; by destruct (0 <=? ret r)).
  destruct (Z.ltb_spec (ret r) 0) as [Hneg|Hpos].
  { injection H as <- <-. eexists; split; [done|]. right. split; [done|].
    rewrite Ho1, (proj2 (Z.leb_gt 0 (ret r))) by lia. by intros ? ?%elem_of_nil. }
  rewrite (proj2 (Z.leb_le 0 (ret r))) in Ho1 by lia.
  assert (forall w1 evs2 v w', trace w1 = trace w ++ [(SysSocket family ty protocol, r)] ++ evs2 -> opened evs2 = [] ->
    socket_failed (ret r) w1 = Ret (v, w') ->
    exists evs, trace w' = trace w ++ evs /\ owns_or_closed v evs) as Hfail.
  { intros w1 evs2 v' w2 E2 Ho2 (-> & evs3 & E3 & Ho3 & Hc3)%socket_failed_inv.
    exists ([(SysSocket family ty protocol, r)] ++ (evs2 ++ evs3)). rewrite E3, E2, <- !app_assoc. split; [done|].
    apply (owns_then_closed (ret r)); [done|by rewrite opened_app, Ho2, Ho3| |done].
    rewrite closes_app. apply elem_of_app. by right. }
  destruct (cloexec || nonblock).
  2:{ eapply (Hfail _ []); [|done|exact H]. by rewrite app_nil_r. }
  apply sys_inv in H as (r2 & rs2 & Es2 & H). cbn [script trace errno] in *.
  destruct (ret r2 <? 0).
  { eapply (Hfail _ [_]); [| |exact H]; [cbn [trace]; by rewrite <- app_assoc|done]. }
  set (fl2 := if nonblock then _ else _) in H.
  destruct (negb (ret r2 =? fl2)).
  - apply sys_inv in H as (r3 & rs3 & Es3 & H). cbn [script trace errno] in *.
    destruct (ret r3 <? 0).
    + eapply (Hfail _ [_; _]); [| |exact H]; [cbn [trace]; by rewrite <- !app_assoc|done].
    + injection H as <- <-. eexists ([_] ++ [_; _]). rewrite <- !app_assoc. split; [done|]. by apply owns_quiet.
  - injection H as <- <-. eexists ([_] ++ [_]). rewrite <- app_assoc. split; [done|]. by apply owns_quiet.
Qed.

(** Asked for neither close-on-exec nor non-blocking, [sancus_socket]
    closes the socket it has just opened and reports failure, whatever the
    kernel answers: the code falls through into its error path. *)
Theorem plain_socket_always_fails (family type protocol : Z) (r c : answer) (rs : list answer) (t : list event) (e : Z)
    (Hr : 0 <= ret r) :
  exists w', sancus_socket family type protocol false false (World (r :: c :: rs) t e) = Ret (-1, w') /\
    exists ty, trace w' = t ++ [(SysSocket family ty protocol, r); (SysClose (ret r), c)].
Proof.
  unfold sancus_socket, socket_failed. cbv zeta. io_run.
  rewrite (proj2 (Z.ltb_ge (ret r) 0)) by lia. cbn [orb]. io_run.
  eexists; split; [done|]. eexists. cbn [trace]. by rewrite <- app_assoc.
Qed.

Lemma plain_socket_always_fails_witness :
  exists w', sancus_socket 2 1 0 false false (World [ok 5; ok 0] [] 0) = Ret (-1, w') /\
    exists ty, trace w' = [] ++ [(SysSocket 2 ty 0, ok 5); (SysClose (ret (ok 5)), ok 0)].
Proof. apply (plain_socket_always_fails 2 1 0 (ok 5) (ok 0) [] [] 0). vm_compute; discriminate. Defined.
