(* ===== verification/Serial.v ===== *)
(** * Serial

    Serial ports: include/sancus/serial.h and src/sancus/sancus_serial.c.  A
    [struct termios] is its bytes; the flag words that the two setup functions
    change are a record.  [cfsetispeed] and [cfsetospeed] are parameters. *)

From S2P Require Import Prelude Sys Fd.

(** [struct sancus_serial] @ include/sancus/serial.h:33-36. *)
Record sancus_serial := Serial { ser_fd : Z; oldtio : list byte }.

Definition O_RDWR : Z := 2.
Definition O_NOCTTY : Z := 0x100.

(** [sancus_serial_apply] @ src/sancus/sancus_serial.c:72-100. *)
Definition sancus_serial_apply (self : sancus_serial) (tio : list byte) : io Z :=
  _ ← lift (c_assert (ser_fd self >=? 0));
  s ← sys (SysTcsetattr (ser_fd self) tio);
  if ret s <? 0 then mret (-1) else
  g ← sys (SysTcgetattr (ser_fd self));
  if ret g <? 0 then mret (-1) else
  if decide (tio = data g) then mret 0 else mret (-1).

(** [sancus_serial_open] @ src/sancus/sancus_serial.c:37-56. [copy] tells
    whether the caller wants the attributes; they are the second result. *)
Definition sancus_serial_open (self : sancus_serial) (pathname : list byte) (cloexec copy : bool)
    : io (Z * option (list byte) * sancus_serial) :=
  fd ← sancus_open pathname (Z.lor (Z.lor O_RDWR O_NOCTTY) O_NONBLOCK) cloexec 0;
  if fd <? 0 then mret (fd, None, Serial fd (oldtio self)) else
  g ← sys (SysTcgetattr fd);
  if ret g <? 0 then
    r ← sancus_close2 (Some fd);
    fd ← lift (deref (r.2));
    mret (fd, None, Serial fd (oldtio self))
  else mret (fd, if copy : bool then Some (data g) else None, Serial fd (data g)).

(** [sancus_serial_close] @ src/sancus/sancus_serial.c:58-70. *)
Definition sancus_serial_close (self : sancus_serial) : io (Z * sancus_serial) :=
  _ ← lift (c_assert (ser_fd self >=? 0));
  rc ← sancus_serial_apply self (oldtio self);
  orig_errno ← get_errno;
  r ← sancus_close2 (Some (ser_fd self));
  fd ← lift (deref (r.2));
  _ ← set_errno orig_errno;
  mret (rc, Serial fd (oldtio self)).

(** ** Setting a port up *)

(** The flag words of [struct termios]; the rest, with the line speeds, is
    opaque. *)
Record termios (X : Type) := Termios { c_iflag : Z; c_oflag : Z; c_cflag : Z; c_lflag : Z; c_rest : X }.
Arguments Termios {X} _ _ _ _ _.
Arguments c_iflag {X} _.
Arguments c_oflag {X} _.
Arguments c_cflag {X} _.
Arguments c_lflag {X} _.
Arguments c_rest {X} _.

Definition flags (l : list Z) : Z := foldr Z.lor 0 l.

(** Linux values. *)
Definition RAW_IFLAGS : Z := flags [0x1; 0x2; 0x8; 0x20; 0x40; 0x80; 0x100; 0x400].
Definition OPOST : Z := 0x1.
Definition RAW_LFLAGS : Z := flags [0x8; 0x40; 0x2; 0x1; 0x8000].
Definition CSIZE : Z := 0x30.
Definition CS8 : Z := 0x30.
Definition CSTOPB : Z := 0x40.
Definition CREAD : Z := 0x80.
Definition PARENB : Z := 0x100.
Definition CLOCAL : Z := 0x800.

Section Setup.
Context {X : Type}.

(** [cfsetispeed] and [cfsetospeed] of the C library. *)
Variable cfsetispeed cfsetospeed : termios X -> Z -> termios X.

(** [sancus_serial_setup_raw] @ include/sancus/serial.h:56-65. *)
Definition sancus_serial_setup_raw (tio : termios X) : termios X :=
  Termios (Z.ldiff (c_iflag tio) RAW_IFLAGS)
          (Z.ldiff (c_oflag tio) OPOST)
          (Z.lor (Z.ldiff (c_cflag tio) (flags [CSIZE; PARENB])) CS8)
          (Z.ldiff (c_lflag tio) RAW_LFLAGS)
          (c_rest tio).

(** [sancus_serial_setup_8N1] @ include/sancus/serial.h:67-79. *)
Definition sancus_serial_setup_8N1 (tio : termios X) (baudrate : Z) : termios X :=
  let c := Z.lor (c_cflag tio) (flags [CLOCAL; CREAD]) in
  let c := Z.lor (Z.ldiff c (flags [CSIZE; PARENB; CSTOPB])) CS8 in
  let tio := Termios (c_iflag tio) (c_oflag tio) c (c_lflag tio) (c_rest tio) in
  if negb (baudrate =? 0) then cfsetospeed (cfsetispeed tio baudrate) baudrate else tio.

Lemma field_set c m k : Z.land k m = k -> Z.land (Z.lor (Z.ldiff c m) k) m = k.
Proof.
  intros Hk. rewrite Z.land_lor_distr_l, Hk.
  assert (Z.land (Z.ldiff c m) m = 0) as ->; [|done].
  apply Z.bits_inj'. intros i Hi. rewrite Z.land_spec, Z.ldiff_spec, Z.bits_0.
  by destruct (Z.testbit c i), (Z.testbit m i).
Qed.

(** Eight data bits, no parity, one stop bit, whatever was set before. *)
Lemma setup_8N1_field tio :
  Z.land (c_cflag (sancus_serial_setup_8N1 tio 0)) (flags [CSIZE; PARENB; CSTOPB]) = CS8 /\
  Z.land (c_cflag (sancus_serial_setup_raw tio)) (flags [CSIZE; PARENB]) = CS8.
Proof. split; by apply field_set. Qed.
End Setup.

(** ** Properties *)

#[export] Instance open_opens path flags cloexec mode :
  Opens kernel_ok (sancus_open path flags cloexec mode).
Proof. apply openat_opens. Qed.

(** What [sancus_close2] leaves. *)
Lemma close2_tail fd w v w' :
  sancus_close2 (Some fd) w = Ret (v, w') ->
  deref (v.2) = Ret (-1) /\ exists evs, trace w' = trace w ++ evs /\ opened evs = [] /\
    forall x, x ∈ closes evs <-> x = fd.
Proof. by intros (-> & H)%sancus_close2_inv. Qed.

(** [sancus_serial_open] leaks no descriptor: either it returns the
    descriptor of the port, still open and recorded with the attributes the
    port had, or a negative value with everything it opened closed again. *)
Theorem serial_open_no_leak (self : sancus_serial) (pathname : list byte) (cloexec copy : bool)
    (fd : Z) (tio : option (list byte)) (self' : sancus_serial) (w w' : world)
    (Hk : kernel_ok w)
    (H : sancus_serial_open self pathname cloexec copy w = Ret ((fd, tio, self'), w')) :
  ser_fd self' = fd /\
  exists evs, trace w' = trace w ++ evs /\ owns_or_closed fd evs /\
    (0 <= fd -> exists evs1 g, evs = evs1 ++ [(SysTcgetattr fd, g)] /\ 0 <= ret g /\
       oldtio self' = data g /\ tio = if copy then Some (data g) else None).
Proof.
  unfold sancus_serial_open in H. apply io_bind_inv in H as (fd0 & w1 & Ho & H).
  apply opens_safely in Ho as (evs & E & Hown); [|done].
  destruct (Z.ltb_spec fd0 0) as [Hneg|Hpos].
  { injection H as <- <- <- <-. split; [done|]. exists evs. by split_and!; [..|lia]. }
  destruct Hown as [(_ & Hop & Hcl)|[? _]]; [|lia].
  apply sys_inv in H as (g & rs & Es & H). destruct (Z.ltb_spec (ret g) 0).
  - apply io_bind_inv in H as (r & w2 & Hc & H).
    apply close2_tail in Hc as (Hd & evs2 & E2 & Ho2 & Hc2).
    rewrite (lift_bind _ (-1)) in H by done. injection H as <- <- <- <-. split; [done|].
    exists (evs ++ (SysTcgetattr fd0, g) :: evs2). rewrite E2. cbn [trace]. rewrite E, <- !app_assoc.
    split_and!; [done| |lia]. apply (owns_then_closed fd0); [done|exact Ho2|by apply Hc2|done].
  - injection H as <- <- <- <-. split; [done|]. exists (evs ++ [(SysTcgetattr fd0, g)]).
    cbn [trace]. rewrite E, <- app_assoc. split_and!; [done| |by intros _; eexists _, _].
    left. rewrite opened_app, closes_app, Hop, app_nil_r. by split_and!; [..|rewrite app_nil_r].
Qed.

Lemma serial_open_no_leak_witness :
  ser_fd (Serial (-1) []) = -1 /\
  exists evs, trace (World [] [(SysOpenat AT_FDCWD (lit "tty") 2306 0, ok 7); (SysTcgetattr 7, fails 25); (SysClose 7, ok 0)] 25)
      = [] ++ evs /\ owns_or_closed (-1) evs /\
    (0 <= -1 -> exists evs1 g, evs = evs1 ++ [(SysTcgetattr (-1), g)] /\ 0 <= ret g /\
       oldtio (Serial (-1) []) = data g /\ None = if true then Some (data g) else None).
Proof.
  apply (serial_open_no_leak (Serial 0 []) (lit "tty") false true (-1) None (Serial (-1) [])
    (World [ok 7; fails 25; ok 0] [] 0)).
  - split; [|done]. repeat constructor; intros H; vm_compute in H |- *; done.
  - by vm_compute.
Defined.

(** What [sancus_serial_close] does after it asked the kernel to take the
    attributes [old], with the answer [s]: it reads them back if the kernel
    took them, and then does nothing but close. *)
Definition readback (fd : Z) (old : list byte) (s : answer) (evs : list event) (rc : Z) : Prop :=
  exists back cs, evs = back ++ map (pair (SysClose fd)) cs /\ cs <> [] /\
    (if ret s <? 0 then back = [] else exists g, back = [(SysTcgetattr fd, g)]) /\
    (rc = 0 <-> exists g, back = [(SysTcgetattr fd, g)] /\ 0 <= ret g /\ data g = old).

(** [sancus_serial_close] first asks the kernel to restore the attributes
    that [sancus_serial_open] saved, then closes the port and forgets it.  It
    reports success exactly when the kernel accepted them and reads them back
    unchanged, and leaves [errno] as the restoring left it, whatever closing
    does. *)
Theorem serial_close_restores (self self' : sancus_serial) (rc : Z) (w w' : world)
    (Hfd : 0 <= ser_fd self) (H : sancus_serial_close self w = Ret ((rc, self'), w')) :
  self' = Serial (-1) (oldtio self) /\
  exists s evs, trace w' = trace w ++ (SysTcsetattr (ser_fd self) (oldtio self), s) :: evs /\
    opened evs = [] /\ (forall x, x ∈ closes evs <-> x = ser_fd self) /\
    readback (ser_fd self) (oldtio self) s evs rc /\
    (ret s < 0 -> rc = -1 /\ errno w' = err s).
Proof.
  destruct w as [sc t e]. unfold sancus_serial_close, sancus_serial_apply in H.
  rewrite (lift_bind _ tt) in H by (apply c_assert_true, Z.geb_le; lia).
  apply io_bind_inv in H as (rc0 & w1 & Ha & H). rewrite get_errno_bind in H.
  apply io_bind_inv in H as (r & w2 & Hc & H). pose proof (close2_events _ _ _ _ Hc) as (cs & Hcs & Ecs).
  apply close2_tail in Hc as (Hd & evs2 & E2 & Ho2 & Hc2).
  assert (evs2 = map (pair (SysClose (ser_fd self))) cs) as Eev by (rewrite E2 in Ecs; by apply app_inv_head in Ecs).
  rewrite (lift_bind _ (-1)), set_errno_bind in H by done. injection H as <- <- <-. split; [done|].
  rewrite (lift_bind _ tt) in Ha by (apply c_assert_true, Z.geb_le; lia).
  apply sys_inv in Ha as (s & rs & Es & Ha). cbn [script trace errno] in *. subst sc. exists s.
  unfold readback. destruct (Z.ltb_spec (ret s) 0).
  { injection Ha as <- <-. cbn [trace errno] in *. exists evs2. rewrite E2, <- app_assoc.
    split_and!; [done|done|exact Hc2| |by split]. exists [], cs. split_and!; [done..|]. split; [done|by intros (? & ? & _)]. }
  apply sys_inv in Ha as (g & rs' & Es & Ha). cbn [script trace errno] in *. subst rs.
  exists ((SysTcgetattr (ser_fd self), g) :: evs2).
  assert (w1 = World rs' ((t ++ [(SysTcsetattr (ser_fd self) (oldtio self), s)]) ++ [(SysTcgetattr (ser_fd self), g)])
    (if ret g <? 0 then err g else e) /\ (rc0 = 0 <-> 0 <= ret g /\ data g = oldtio self)) as [-> Hrc].
  { destruct (Z.ltb_spec (ret g) 0); [injection Ha as <- <-; split; [done|]; split; [done|lia]|].
    case_decide as Hd'; injection Ha as <- <-; (split; [done|]); [by rewrite Hd'|]. split; [done|]. intros [_ ?]. by destruct Hd'. }
  cbn [trace errno] in *. rewrite E2, <- !app_assoc. split_and!; [done|exact Ho2|exact Hc2| |lia].
  exists [(SysTcgetattr (ser_fd self), g)], cs. rewrite Eev. split_and!; [done|done|by eexists|]. rewrite Hrc. split.
  - intros [? ?]. by exists g.
  - intros (g' & [= <-] & ?). done.
Qed.
