(* ===== verification/SerialSession.v ===== *)
(** * SerialSession

    A serial port from its opening to its closing: the descriptors that are
    held and the attributes of the line are what they were before. *)

From stdpp Require Import gmap.
From S2P Require Import Prelude Sys Live Fd Serial.
#[local] Open Scope Z_scope.

(** A session: the port is opened with success as [fd], the program does
    [body], which may set the attributes as often as it likes, and closes the
    port with the result [rc]. *)
Inductive session (pathname : list byte) (cloexec copy : bool)
    : sancus_serial * world -> Z -> list event -> Z -> sancus_serial * world -> Prop :=
  | session_run self w fd tio port w1 body w2 rc port' w3 :
      sancus_serial_open self pathname cloexec copy w = Ret ((fd, tio, port), w1) -> 0 <= fd ->
      trace w2 = trace w1 ++ body ->
      sancus_serial_close port w2 = Ret ((rc, port'), w3) ->
      session pathname cloexec copy (self, w) fd body rc (port', w3).

(** What is held after a descriptor was opened, something else happened, and
    it was closed. *)
Lemma session_holds fd evs0 body evs2 l :
  opened evs0 = [fd] -> closes evs0 = [] -> opened evs2 = [] -> (forall x, x ∈ closes evs2 <-> x = fd) ->
  fresh l (evs0 ++ body ++ evs2) ->
  (fd ∉ live l (evs0 ++ body ++ evs2)) /\ live l (evs0 ++ body ++ evs2) ⊆ l ∪ list_to_set (opened body) /\
  (l ∖ list_to_set (closes body)) ⊆ live l (evs0 ++ body ++ evs2).
Proof.
  intros Ho Hc Ho2 Hc2 [Hf _]%fresh_app. rewrite !live_app, (live_quiet _ evs2) by done.
  pose proof (fresh_opened _ _ _ Hf Ho Hc) as Hnew.
  pose proof (live_bound l evs0) as Hb0. rewrite Ho in Hb0. pose proof (live_bound (live l evs0) body) as Hb.
  assert (forall x, x ∈@{gset Z} list_to_set (closes evs2) <-> x = fd) as Hset
    by (intros x; rewrite elem_of_list_to_set; apply Hc2).
  split_and!; [clear -Hset; set_solver|clear -Hset Hb0 Hb; set_solver|].
  intros x [Hx Hnc]%elem_of_difference. rewrite elem_of_list_to_set in Hnc. apply elem_of_difference. split.
  - apply live_keeps; [|done]. apply live_keeps; [done|]. rewrite Hc. apply not_elem_of_nil.
  - rewrite Hset. congruence.
Qed.

(** C39. A session with a serial port leaves things as they were.  When a
    program opens a port, does what it likes with it except close it, and
    closes it again, then afterwards the port's descriptor is not held, what
    else is held was held before or opened by the program, and what was held
    before and not closed by the program still is.  Whatever
    attributes were set in between, the close asks the kernel first to set those
    the port had right after it was opened, then only to read them back, if it
    took them, and to close; so they are the last that were set.  Closing
    reports success exactly when the kernel took them and reads back the same. *)
Theorem serial_session (self port' : sancus_serial) (pathname : list byte) (cloexec copy : bool)
    (fd rc : Z) (body : list event) (before : gset Z) (w w3 : world)
    (Hk : kernel_ok w) (Hs : session pathname cloexec copy (self, w) fd body rc (port', w3)) :
  exists evs evs1 g s evs2, trace w3 = trace w ++ evs /\
    (evs = evs1 ++ (SysTcgetattr fd, g) :: body ++ (SysTcsetattr fd (data g), s) :: evs2) /\ 0 <= ret g /\
    port' = Serial (-1) (data g) /\
    readback fd (data g) s evs2 rc /\
    (fresh before evs ->
       (fd ∉ live before evs) /\ live before evs ⊆ before ∪ list_to_set (opened body) /\
       (before ∖ list_to_set (closes body)) ⊆ live before evs).
Proof.
  inversion Hs as [? ? ? tio port w1 ? w2 ? ? ? Hopen Hfd Hbody Hclose]; subst.
  apply serial_open_no_leak in Hopen as (Hp & evs0 & E0 & Hown & Hg); [|done].
  destruct (Hg Hfd) as (evs1 & g & -> & Hg0 & Hold & _).
  apply serial_close_restores in Hclose as (-> & s & evs2 & E2 & Ho2 & Hc2 & Hrc & _); [|lia].
  rewrite Hp, Hold in *. destruct Hown as [(_ & Ho & Hc)|[? _]]; [|lia].
  exists (evs1 ++ (SysTcgetattr fd, g) :: body ++ (SysTcsetattr fd (data g), s) :: evs2), evs1, g, s, evs2.
  split_and!; [by rewrite E2, Hbody, E0, <- !app_assoc|done|done|done|done|].
  replace (evs1 ++ _) with ((evs1 ++ [(SysTcgetattr fd, g)]) ++ body ++ (SysTcsetattr fd (data g), s) :: evs2)
    by by rewrite <- app_assoc.
  by apply (session_holds fd).
Qed.

(** Another program sets the attributes, and closes a file of its own. *)
Lemma serial_session_witness :
  let open_evs := [(SysOpenat AT_FDCWD (lit "tty") 2306 0, ok 7); (SysTcgetattr 7, gives (lit "t"))] in
  let body := [(SysTcsetattr 7 (lit "r"), ok 0); (SysClose 5, ok 0)] in
  let close_evs := [(SysTcsetattr 7 (lit "t"), ok 0); (SysTcgetattr 7, gives (lit "t")); (SysClose 7, fails 5)] in
  exists evs evs1 g s evs2, trace (World [] (open_evs ++ body ++ close_evs) 0) = [] ++ evs /\
    (evs = evs1 ++ (SysTcgetattr 7, g) :: body ++ (SysTcsetattr 7 (data g), s) :: evs2) /\ 0 <= ret g /\
    Serial (-1) (lit "t") = Serial (-1) (data g) /\
    readback 7 (data g) s evs2 0 /\
    (fresh {[5; 6]} evs ->
       (7 ∉ live {[5; 6]} evs) /\ live {[5; 6]} evs ⊆ {[5; 6]} ∪ list_to_set (opened body) /\
       ({[5; 6]} ∖ list_to_set (closes body)) ⊆ live {[5; 6]} evs).
Proof.
  intros open_evs body close_evs.
  apply (serial_session (Serial 0 []) (Serial (-1) (lit "t")) (lit "tty") false false 7 0
    body {[5; 6]} (World [ok 7; gives (lit "t")] [] 0) (World [] (open_evs ++ body ++ close_evs) 0)).
  - split; [|done]. repeat constructor; intros H; vm_compute in H |- *; done.
  - apply (session_run _ _ _ _ _ 7 None (Serial 7 (lit "t")) (World [] open_evs 0) body
      (World [ok 0; gives (lit "t"); fails 5] (open_evs ++ body) 0)); [by vm_compute|vm_compute; discriminate|done|by vm_compute].
Defined.
