(* ===== verification/Ev.v ===== *)
(** * Ev

    The event loop interface of [include/sancus/ev.h].  At this commit it is
    a stub: starting and stopping a watcher do nothing and no watcher is ever
    active.  What the components use of the constants is the class [EvFlags];
    the header is one instance, in which [READ] is not a bit. *)

From S2P Require Import Prelude Sys Time.

(** [SANCUS_EV_READ] @ include/sancus/ev.h:11-12. *)
Definition SANCUS_EV_READ : Z := 0.
(** [SANCUS_EV_WRITE] @ include/sancus/ev.h:13-13. *)
Definition SANCUS_EV_WRITE : Z := 1.
(** [SANCUS_EV_ERROR] @ include/sancus/ev.h:14-15. *)
Definition SANCUS_EV_ERROR : Z := 2.

(** The bits of [revents], as the callbacks of the components test them. *)
Class EvFlags := { EV_READ : Z; EV_WRITE : Z; EV_ERROR : Z }.

(** The header's numbers; they are what definitions get by default. *)
#[export] Instance ev_h : EvFlags :=
  { EV_READ := SANCUS_EV_READ; EV_WRITE := SANCUS_EV_WRITE; EV_ERROR := SANCUS_EV_ERROR }.

Definition ENOSYS : Z := 38.

(** [struct sancus_ev_fd] @ include/sancus/ev.h:18-21.  The callback is known
    to the component that owns the watcher; [true] once it is set. *)
Record sancus_ev_fd := EvFd { ev_fd : Z; ev_cb : bool }.

(** [struct sancus_ev_loop] @ include/sancus/ev.h:49-51. *)
Record sancus_ev_loop := EvLoop { now : timespec }.

(** [sancus_ev_fd_init] @ include/sancus/ev.h:24-29. *)
Definition sancus_ev_fd_init (fd mode : Z) : sancus_ev_fd * Z := (EvFd fd true, - ENOSYS).

(** [sancus_ev_fd_start] @ include/sancus/ev.h:31-34. *)
Definition sancus_ev_fd_start (w : sancus_ev_fd) : Z := - ENOSYS.

(** [sancus_ev_fd_stop] @ include/sancus/ev.h:36-39. *)
Definition sancus_ev_fd_stop (w : sancus_ev_fd) : Z := - ENOSYS.

(** [sancus_ev_is_active] @ include/sancus/ev.h:41-44. *)
Definition sancus_ev_is_active (w : sancus_ev_fd) : bool := false.

(** [sancus_ev_now] @ include/sancus/ev.h:53-56. *)
Definition sancus_ev_now (loop : sancus_ev_loop) : timespec := now loop.

(** [revents & flag]. *)
Definition has_event (revents flag : Z) : bool := negb (Z.land revents flag =? 0).

(** [SANCUS_EV_READ] is zero, so no event ever has it. *)
Lemma no_read_event revents : has_event revents (@EV_READ ev_h) = false.
Proof. unfold has_event. cbn. unfold SANCUS_EV_READ. by rewrite Z.land_0_r. Qed.

(** Numbers that can be told apart, as an event library has them. *)
Definition bits_flags : EvFlags := {| EV_READ := 1; EV_WRITE := 2; EV_ERROR := 4 |}.

(** An event that says there is something to read, and no error. *)
Definition readable `{EvFlags} (revents : Z) : Prop :=
  has_event revents EV_ERROR = false /\ has_event revents EV_READ = true.
