(* ===== verification/Layout.v ===== *)
(** * Layout

    Pointers as addresses.  The callbacks of the event loop get the address of
    a watcher and go from there to the struct it is a member of, with
    [container_of] of common.h; the other files hand them the struct itself.
    Here structs have the layout that the x86-64 ABI gives them, so that this
    can be said: each member at the next multiple of its alignment.  What the
    event library makes of a watcher is open. *)

From stdpp Require Import strings.
From S2P Require Import Prelude.
#[local] Open Scope Z_scope.

(** ** Structs *)

Record member := Member { m_name : string; m_size : Z; m_align : Z }.

Definition align_up (n a : Z) : Z := (n + a - 1) / a * a.

(** The members of a struct, from the offset [off] on, with their offsets. *)
Fixpoint place (off : Z) (ms : list member) : list (member * Z) :=
  match ms with
  | [] => []
  | m :: ms => let o := align_up off (m_align m) in (m, o) :: place (o + m_size m) ms
  end.

(** The first offset behind them. *)
Definition ends (off : Z) (ms : list member) : Z :=
  default off (last ((fun p => p.2 + m_size p.1) <$> place off ms)).

Definition offsetof (ms : list member) (M : string) : option Z :=
  snd ∘ snd <$> list_find (fun p : member * Z => m_name p.1 = M) (place 0 ms).

(** ** common.h *)

(** [container_of] @ include/sancus/common.h:39-44.  [off] is
    [offsetof(T, M)]; pointers are 64 bits wide. *)
Definition container_of (P off : Z) : Z := u64 (P - off).

(** [ARRAY_SIZE] @ include/sancus/common.h:62-67, of the sizes of the array
    and of its first element. *)
Definition ARRAY_SIZE (sizeof_A sizeof_A0 : Z) : Z := sizeof_A / sizeof_A0.

(** ** The structs with a watcher *)

Section Structs.
(** The size and the alignment of [struct sancus_ev_fd]. *)
Context (sz al : Z).

(** [struct sancus_stream, its layout] @ include/sancus/stream.h:60-65.  The
    buffer is a pointer and three words. *)
Definition stream_layout : list member :=
  [Member "read_watcher" sz al; Member "read_buffer" 32 8; Member "settings" 8 8].

(** [struct sancus_tcp_conn, its layout] @ include/sancus/tcp_conn.h:56-63. *)
Definition tcp_conn_layout : list member :=
  [Member "io" sz al; Member "state" 4 4; Member "last_activity" 16 8; Member "settings" 8 8].

(** [struct sancus_tcp_server, its layout] @ include/sancus/tcp_server.h:67-71. *)
Definition tcp_server_layout : list member := [Member "connect" sz al; Member "settings" 8 8].

(** [struct sancus_nl_receiver, its layout] @ include/sancus/netlink.h:80-86. *)
Definition nl_receiver_layout : list member :=
  [Member "recv_watcher" sz al; Member "settings" 8 8; Member "portid" 4 4].

(** [read_cb, self] @ src/sancus/stream.c:46-46. *)
Definition read_cb_self (w : Z) : option Z := container_of w <$> offsetof stream_layout "read_watcher".

(** [io_cb, self] @ src/sancus/tcp_conn.c:48-48. *)
Definition io_cb_self (w : Z) : option Z := container_of w <$> offsetof tcp_conn_layout "io".

(** [connect_cb, self] @ src/sancus/tcp_server.c:50-51. *)
Definition connect_cb_self (w : Z) : option Z := container_of w <$> offsetof tcp_server_layout "connect".

(** [recv_cb, self] @ src/netlink/netlink_io.c:114-115. *)
Definition recv_cb_self (w : Z) : option Z := container_of w <$> offsetof nl_receiver_layout "recv_watcher".
End Structs.

(** ** Correctness *)

Definition member_ok (m : member) : Prop := 0 < m_size m /\ 0 < m_align m.

Lemma align_up_spec n a : 0 < a -> n <= align_up n a < n + a /\ (a | align_up n a).
Proof.
  intros Ha. unfold align_up. pose proof (Z.div_mod (n + a - 1) a ltac:(lia)).
  pose proof (Z.mod_pos_bound (n + a - 1) a Ha). split; [nia|apply Z.divide_factor_r].
Qed.

(** Members are aligned, and none starts before [off]. *)
Lemma place_aligned off ms :
  Forall member_ok ms -> Forall (fun p => off <= p.2 /\ (m_align p.1 | p.2)) (place off ms).
Proof.
  intros Hms. revert off. induction Hms as [|m ms [Hs Ha] _ IH]; intros off; cbn [place]; constructor; cbn [fst snd].
  - by pose proof (align_up_spec off _ Ha) as [[? _] ?].
  - pose proof (align_up_spec off _ Ha). eapply Forall_impl; [apply IH|]. cbn. intros p [? ?]. split; [lia|done].
Qed.

(** Members do not overlap: each ends before the next ones start. *)
Lemma place_apart off ms i j x y :
  Forall member_ok ms -> place off ms !! i = Some x -> place off ms !! j = Some y -> (i < j)%nat ->
  x.2 + m_size x.1 <= y.2.
Proof.
  intros Hms. revert off i j. induction Hms as [|m ms Hm Hms IH]; intros off i j Hx Hy Hij; [done|].
  destruct j as [|j]; [lia|]. cbn [place] in *. destruct i as [|i].
  - injection Hx as <-. cbn [fst snd].
    exact (proj1 (Forall_lookup_1 _ _ _ _ (place_aligned _ _ Hms) Hy)).
  - eapply (IH _ i j); [done..|lia].
Qed.

(** From the address of a member back to the object. *)
Lemma container_of_member p off : 0 <= p < 2 ^ 64 -> container_of (u64 (p + off)) off = p.
Proof.
  intros Hp. unfold container_of, uwrap.
  by rewrite Zminus_mod_idemp_l, Z.add_simpl_r, Z.mod_small.
Qed.

(** An array of [n] objects. *)
Lemma array_size_count n s : 0 < s -> ARRAY_SIZE (n * s) s = n.
Proof. intros. unfold ARRAY_SIZE. apply Z.div_mul. lia. Qed.

(** [find] takes the address of the member [M] of any object to the object. *)
Definition finds_self (ms : list member) (M : string) (find : Z -> option Z) : Prop :=
  exists off, offsetof ms M = Some off /\ forall p, 0 <= p < 2 ^ 64 -> find (u64 (p + off)) = Some p.

Lemma first_member_self m ms :
  0 < m_align m ->
  finds_self (m :: ms) (m_name m) (fun w => container_of w <$> offsetof (m :: ms) (m_name m)).
Proof.
  intros Ha. assert (offsetof (m :: ms) (m_name m) = Some 0) as E.
  { unfold offsetof. cbn [place list_find]. rewrite decide_True by done. cbn. f_equal.
    unfold align_up. by rewrite Z.div_small by lia. }
  exists 0. split; [done|]. intros p Hp. rewrite E. cbn. f_equal. by apply container_of_member.
Qed.

(** Every callback finds the object that its watcher is part of, whatever
    size and alignment the event library gives its watchers. *)
Theorem callbacks_find_self (sz al : Z) (Hal : 0 < al) :
  finds_self (stream_layout sz al) "read_watcher" (read_cb_self sz al) /\
  finds_self (tcp_conn_layout sz al) "io" (io_cb_self sz al) /\
  finds_self (tcp_server_layout sz al) "connect" (connect_cb_self sz al) /\
  finds_self (nl_receiver_layout sz al) "recv_watcher" (recv_cb_self sz al).
Proof. split_and!; by apply (first_member_self (Member _ sz al)). Qed.

(** Two watchers at different addresses belong to different objects. *)
Lemma callbacks_tell_apart p q off :
  0 <= p < 2 ^ 64 -> 0 <= q < 2 ^ 64 -> u64 (p + off) = u64 (q + off) -> p = q.
Proof. intros Hp Hq E. rewrite <- (container_of_member p off), <- (container_of_member q off), E; done. Qed.

(** With the watchers of ev.h, and where a member that is not the first lies. *)
Example conn_offsets :
  offsetof (tcp_conn_layout 16 8) "last_activity" = Some 24 /\
  offsetof (tcp_conn_layout 16 8) "settings" = Some 40 /\
  ends 0 (tcp_conn_layout 16 8) = 48 /\
  container_of (1000 + 24) 24 = 1000.
Proof. by vm_compute. Qed.
