(* ===== verification/Logger.v ===== *)
(** * Logger

    Loggers and their fd backend: include/sancus/logger.h and
    src/sancus/logger.c.  Loggers are shared and point to their parents, so
    they live in a store: [None] is [NULL].  A [va_list] and the format string
    it goes with are the text they denote ([None] an output error). *)

From stdpp Require Import gmap.
From S2P Require Import Prelude Buffer Time Bits CLib Text Sys Fd Clock.
#[local] Open Scope Z_scope.

(** ** Data *)

(** [enum sancus_log_level] @ include/sancus/logger.h:13-21. *)
Inductive sancus_log_level :=
  | SANCUS_LOG_ERROR_BIT
  | SANCUS_LOG_WARN_BIT
  | SANCUS_LOG_INFO_BIT
  | SANCUS_LOG_TRACE_BIT
  | SANCUS_LOG_DEBUG_BIT
  | SANCUS_LOG_NEXT_BIT.

(** [enum sancus_log_level, the values] @ include/sancus/logger.h:13-21. *)
Definition level_bit (l : sancus_log_level) : Z :=
  match l with
  | SANCUS_LOG_ERROR_BIT => 0
  | SANCUS_LOG_WARN_BIT => 1
  | SANCUS_LOG_INFO_BIT => 2
  | SANCUS_LOG_TRACE_BIT => 3
  | SANCUS_LOG_DEBUG_BIT => 4
  | SANCUS_LOG_NEXT_BIT => 8
  end.

(** [SANCUS_LOG_ERR] @ include/sancus/logger.h:24-24. *)
Definition SANCUS_LOG_ERR : Z := 1.
(** [SANCUS_LOG_QUIET] @ include/sancus/logger.h:32-32. *)
Definition SANCUS_LOG_QUIET : Z := Z.lor SANCUS_LOG_ERR 2.
(** [SANCUS_LOG_NORMAL] @ include/sancus/logger.h:33-33. *)
Definition SANCUS_LOG_NORMAL : Z := Z.lor SANCUS_LOG_QUIET 4.
(** [SANCUS_LOG_VERBOSE] @ include/sancus/logger.h:34-34. *)
Definition SANCUS_LOG_VERBOSE : Z := Z.lor SANCUS_LOG_NORMAL 16.

(** [sancus_logger_backend_f] @ include/sancus/logger.h:40-44. A function of
    the program closed over its context: the level and the three texts (an
    empty one is passed as [NULL] and 0). *)
Definition backend_f : Type := Z -> list byte -> list byte -> list byte -> io Z.

(** [sancus_logger_prefixer_f] @ include/sancus/logger.h:46-47. It is given
    the logger and a window of [size] bytes at [off] of an object, and returns
    the object as it leaves it. *)
Definition prefixer_f : Type := Z -> list byte -> Z -> Z -> outcome (Z * list byte).

(** [struct sancus_logger_backend] @ include/sancus/logger.h:49-52. *)
Record backend := Backend { bk_f : option backend_f }.

(** [struct sancus_logger] @ include/sancus/logger.h:61-70. *)
Record logger := Logger {
  l_parent : option Z;
  l_prefix : option (list byte);
  l_mask : Z;
  l_prefixer : option prefixer_f;
  l_backend : option backend
}.

(** The loggers of the program, by address. *)
Abbreviation loggers := (gmap Z logger).

(** ** Setting up *)

(** [SANCUS__LOGGER_INIT] @ include/sancus/logger.h:72-75. *)
Definition SANCUS__LOGGER_INIT (S : option (list byte)) (M : Z) : logger :=
  Logger None S (if M =? 0 then SANCUS_LOG_NORMAL else M) None None.

(** [sancus_logger_init2] @ include/sancus/logger.h:80-98. *)
Definition sancus_logger_init2 (h : loggers) (log parent : option Z) (f : option prefixer_f)
    (mask : Z) (prefix : option (list byte)) : loggers :=
  match log with
  | None => h
  | Some a =>
      let mask := if (mask =? 0) && bool_decide (parent = None) then SANCUS_LOG_NORMAL else mask in
      <[a := Logger parent prefix mask f None]> h
  end.

(** [sancus_logger_init] @ include/sancus/logger.h:100-105. *)
Definition sancus_logger_init (h : loggers) (log : option Z) (prefix : option (list byte)) (mask : Z) : loggers :=
  sancus_logger_init2 h log None None mask prefix.

(** Update the logger at an address. *)
Definition update (h : loggers) (a : Z) (f : logger -> outcome logger) : outcome loggers :=
  l ← deref (h !! a); l ← f l; Ret (<[a := l]> h).

(** [sancus_logger_get_parent] @ include/sancus/logger.h:107-111. *)
Definition sancus_logger_get_parent (h : loggers) (log : option Z) : outcome (option Z) :=
  match log with Some a => l ← deref (h !! a); Ret (l_parent l) | None => Ret None end.

(** [sancus_logger_set_prefix] @ include/sancus/logger.h:113-118. *)
Definition sancus_logger_set_prefix (h : loggers) (a : Z) (prefix : option (list byte)) : outcome loggers :=
  update h a (fun l => Ret (Logger (l_parent l) prefix (l_mask l) (l_prefixer l) (l_backend l))).

(** [sancus_logger_get_prefix] @ include/sancus/logger.h:120-124. *)
Definition sancus_logger_get_prefix (h : loggers) (log : option Z) : outcome (option (list byte)) :=
  match log with Some a => l ← deref (h !! a); Ret (l_prefix l) | None => Ret None end.

(** [sancus_logger_set_prefixer] @ include/sancus/logger.h:126-131. *)
Definition sancus_logger_set_prefixer (h : loggers) (a : Z) (f : option prefixer_f) : outcome loggers :=
  update h a (fun l => Ret (Logger (l_parent l) (l_prefix l) (l_mask l) f (l_backend l))).

Definition with_mask (l : logger) (m : Z) : logger :=
  Logger (l_parent l) (l_prefix l) m (l_prefixer l) (l_backend l).

(** [sancus_logger_set_mask] @ include/sancus/logger.h:135-140. *)
Definition sancus_logger_set_mask (h : loggers) (a mask : Z) : outcome loggers :=
  update h a (fun l => Ret (with_mask l mask)).

(** [sancus_logger_extend_mask] @ include/sancus/logger.h:142-147. *)
Definition sancus_logger_extend_mask (h : loggers) (a mask : Z) : outcome loggers :=
  update h a (fun l => m ← sancus_bit_cms (l_mask l) mask mask 0; Ret (with_mask l (u32 m))).

(** [sancus_logger_unset_mask] @ include/sancus/logger.h:149-154. *)
Definition sancus_logger_unset_mask (h : loggers) (a mask : Z) : outcome loggers :=
  update h a (fun l => m ← sancus_bit_cms (l_mask l) 0 mask 0; Ret (with_mask l (u32 m))).

(** ** Walking up the parents

    The walks end where a chain of parents ends; [fuel] bounds their length. *)

(** Enough for every chain without a cycle. *)
Definition walk {A} (h : loggers) (f : nat -> A) : A := f (S (size h)).

(** [sancus_logger_has_level, the recursion] @ include/sancus/logger.h:156-172. *)
Fixpoint has_level (fuel : nat) (h : loggers) (log : option Z) (mask : Z) : outcome Z :=
  match fuel with
  | O => OutOfFuel
  | S fuel =>
      let done (mask : Z) : outcome Z := Ret (Z.b2z (negb (mask =? 0))) in
      if (mask =? 0) || negb (Z.land mask SANCUS_LOG_ERR =? 0) then done 1
      else match log with
      | None => done (Z.land mask SANCUS_LOG_NORMAL)
      | Some a =>
          l ← deref (h !! a);
          if negb (l_mask l =? 0) then done (Z.land mask (l_mask l))
          else match l_parent l with
          | None => done (Z.land mask SANCUS_LOG_NORMAL)
          | Some p => has_level fuel h (Some p) mask
          end
      end
  end.

(** [sancus_logger_has_level] @ include/sancus/logger.h:156-172. *)
Definition sancus_logger_has_level (h : loggers) (log : option Z) (mask : Z) : outcome Z :=
  walk h (fun fuel => has_level fuel h log mask).

(** Where a line goes: the fd backend of the file, or one of the program. *)
Inductive dest := FdBackend | UserBackend (b : backend).

(** [log_find_backend, the loop] @ src/sancus/logger.c:42-49. *)
Fixpoint find_backend (fuel : nat) (h : loggers) (logger : option Z) (fallback : dest) : outcome dest :=
  match fuel with
  | O => OutOfFuel
  | S fuel =>
      match logger with
      | None => Ret fallback
      | Some a =>
          l ← deref (h !! a);
          match l_backend l with
          | Some (Backend (Some f)) => Ret (UserBackend (Backend (Some f)))
          | _ => find_backend fuel h (l_parent l) fallback
          end
      end
  end.

(** [log_find_backend] @ src/sancus/logger.c:38-50. *)
Definition log_find_backend (h : loggers) (logger : option Z) (fallback : dest) : outcome dest :=
  walk h (fun fuel => find_backend fuel h logger fallback).

(** [log_ctx_prefix, the recursion] @ src/sancus/logger.c:246-273. *)
Fixpoint ctx_prefix (fuel : nat) (h : loggers) (ctx : option Z) (m : list byte)
    (buf : option Z) (size : Z) : outcome (Z * list byte) :=
  match fuel with
  | O => OutOfFuel
  | S fuel =>
      match ctx, buf with
      | Some a, Some off =>
          if size >? 0 then
            l ← deref (h !! a);
            match l_prefixer l, l_prefix l, l_parent l with
            | Some f, _, _ => f a m off size
            | None, Some s, _ =>
                c ← load1 s 0;
                if bool_decide (c <> Byte.x00) then
                  n ← c_strlen s;
                  let n := if size <? n then size - 1 else n in
                  x ← load s 0 n;
                  m ← store m off x;
                  m ← store1 m (off + n) Byte.x00;
                  Ret (s64 n, m)
                else Ret (0, m)
            | None, None, Some p => ctx_prefix fuel h (Some p) m buf size
            | None, None, None => Ret (0, m)
            end
          else Ret (0, m)
      | _, _ => Ret (0, m)
      end
  end.

(** [log_ctx_prefix] @ src/sancus/logger.c:246-273. *)
Definition log_ctx_prefix (h : loggers) (ctx : option Z) (m : list byte) (buf : option Z) (size : Z)
    : outcome (Z * list byte) :=
  walk h (fun fuel => ctx_prefix fuel h ctx m buf size).

(** [sancus_logger_render_prefix] @ src/sancus/logger.c:275-278. *)
Definition sancus_logger_render_prefix := log_ctx_prefix.

(** [log_ctx_prefix2] @ src/sancus/logger.c:280-290. *)
Definition log_ctx_prefix2 (h : loggers) (ctx : option Z) (b : buffer) : outcome (Z * buffer) :=
  '(rc, m) ← log_ctx_prefix h ctx (b_buf b) (sancus_buffer_tail_ptr (Some b)) (sancus_buffer_tail_size (Some b));
  let b := set_buf b m in
  if rc >? 0 then
    '(_, b) ← sancus_buffer_sparse (Some b) (u64 rc);
    b ← deref b;
    Ret (rc, b)
  else Ret (rc, b).

(** ** The state of the file

    [default_backend], [fd_backend_data], the statics of [fd_logger_write] and
    the clock behind [sancus_now].  The mutex orders whole writes and has no
    state of its own here. *)

(** [default_backend, fd_backend_data, first, prev] @ src/sancus/logger.c:118-134.
    [fdb_timestamp] is true from the start, and no function of the file changes
    it ([LogStamp.stamps_never_off]). *)
Record lstate := LState {
  default_backend : dest;
  fdb_fd : Z;
  fdb_timestamp : bool;
  fdb_first : timespec;
  fdb_prev : timespec;
  now_clock : option sancus_clock
}.

(** The state before any call. *)
Definition lstate0 : lstate := LState FdBackend 2 true (mk_ts 0 0) (mk_ts 0 0) None.

(** [sancus_logger_set_default_backend] @ src/sancus/logger.c:27-36. *)
Definition sancus_logger_set_default_backend (st : lstate) (b : option backend) : Z * lstate :=
  let set d := (0, LState d (fdb_fd st) (fdb_timestamp st) (fdb_first st) (fdb_prev st) (now_clock st)) in
  match b with
  | None => set FdBackend
  | Some b => if bool_decide (is_Some (bk_f b)) then set (UserBackend b) else (- EINVAL, st)
  end.

(** [sancus_logger_set_fd_backend] @ src/sancus/logger.c:136-142. *)
Definition sancus_logger_set_fd_backend (st : lstate) (fd : Z) : Z * lstate :=
  if fd <? 0 then (- EINVAL, st)
  else (0, LState (default_backend st) fd (fdb_timestamp st) (fdb_first st) (fdb_prev st) (now_clock st)).

(** [LOG_PRELUDE_SIZE] @ src/sancus/logger.c:15-15. *)
Definition LOG_PRELUDE_SIZE : Z := 64.
(** [LOG_PREFIX_SIZE] @ src/sancus/logger.c:16-16. *)
Definition LOG_PREFIX_SIZE : Z := 128.
(** [LOG_MESSAGE_SIZE] @ src/sancus/logger.c:17-17. *)
Definition LOG_MESSAGE_SIZE : Z := 256.
(** [LOG_DATA_SIZE] @ src/sancus/logger.c:18-18. *)
Definition LOG_DATA_SIZE : Z := 256.

(** Append formatted text and drop the result, as the callers here do. *)
Definition appendf' (b : buffer) (text : list byte) : outcome buffer :=
  '(_, b) ← sancus_buffer_appendf (Some b) (Some text); deref b.

(** Append bytes and drop the result. *)
Definition append' (b : buffer) (x : list byte) : outcome buffer :=
  '(_, b) ← sancus_buffer_append (Some b) (Some x) (zlen x); deref b.

(** ** The fd backend *)

(** [TIMESPEC_FMT_MS, TIMESPEC_SPLIT_MS] @ include/sancus/time.h:29-39. The
    text [%s%ld.%03ld] of a duration. *)
Definition timespec_ms (t : timespec) : outcome (list byte) :=
  n ← (if tv_nsec t <? 0 then ck_s64 (- tv_nsec t) else Ret (tv_nsec t));
  Ret ((if tv_nsec t <? 0 then lit "-" else []) ++ fmt_d (tv_sec t) ++ lit "." ++ fmt_0d 3 (NS_TO_MS n)).

(** [fd_logger_write, first and prev] @ src/sancus/logger.c:182-193. The two
    durations, since the first line and since the previous one. *)
Definition log_deltas (st : lstate) (ts : timespec) : outcome (timespec * timespec * lstate) :=
  let st' first := LState (default_backend st) (fdb_fd st) (fdb_timestamp st) first ts (now_clock st) in
  restart ← (if sancus_time_is_zero (fdb_prev st) then Ret true
             else sancus_time_is_lt ts (fdb_first st));
  if restart : bool then Ret (TIMESPEC_INIT 0 0, TIMESPEC_INIT 0 0, st' ts)
  else
    '(dt0, _) ← sancus_time_sub ts (fdb_first st);
    '(dt1, _) ← sancus_time_sub ts (fdb_prev st);
    Ret (dt0, dt1, st' (fdb_first st)).

(** [fd_logger_write, the timestamp] @ src/sancus/logger.c:176-198. *)
Definition log_stamp (st : lstate) (prelude : buffer) : io (buffer * lstate) :=
  if fdb_timestamp st then
    r ← sancus_now (now_clock st) (Some (mk_ts 0 0));
    ts ← lift (deref r.2);
    d ← lift (log_deltas st ts);
    let '(dt0, dt1, st) := (d : timespec * timespec * lstate) in
    t0 ← lift (timespec_ms dt0);
    t1 ← lift (timespec_ms dt1);
    b ← lift (appendf' prelude (lit "[" ++ t0 ++ lit " +" ++ t1 ++ lit "] "));
    mret (b, st)
  else mret (prelude, st).

(** [fd_logger_write, levels] @ src/sancus/logger.c:163-163. *)
Definition levels : list byte := cstr (lit "EWITD").

(** [fd_logger_write, the level] @ src/sancus/logger.c:200-203. *)
Definition log_level_text (level : Z) : outcome (list byte) :=
  if level <? zlen levels then c ← load1 levels level; Ret (c :: lit "/")
  else Ret (fmt_u level ++ lit "/").

(** [log_iov] @ src/sancus/logger.c:144-147. *)
Definition log_iov (s : list byte) : iovec := Iovec s 0 (zlen s).

(** [log_iov2] @ src/sancus/logger.c:149-155. *)
Definition log_iov2 (b : buffer) : iovec := Iovec (b_buf b) (b_base b) (b_len b).

(** [fd_logger_write, the vector] @ src/sancus/logger.c:205-237. *)
Definition log_iovs (prelude : buffer) (prefix msg data : list byte) : list iovec :=
  let has (s : list byte) := negb (zlen s =? 0) in
  [log_iov2 prelude] ++
  (if has prefix then
     log_iov prefix :: (if has msg || has data then [log_iov (lit ": ")] else [])
   else []) ++
  (if has msg then
     log_iov msg :: (if has data then [log_iov (lit ": ")] else [])
   else []) ++
  (if has data then [log_iov data] else []) ++
  [log_iov [Byte.x0a]].

(** [fd_logger_write] @ src/sancus/logger.c:157-244.  The context is the data of
    the one backend of the file, which is never [NULL]. *)
Definition fd_logger_write (st : lstate) (level : Z) (prefix msg data : list byte) : io (Z * lstate) :=
  p ← log_stamp st (DECL_SANCUS_LBUFFER LOG_PRELUDE_SIZE);
  let '(prelude, st) := (p : buffer * lstate) in
  t ← lift (log_level_text level);
  prelude ← lift (appendf' prelude t);
  let iov := log_iovs prelude prefix msg data in
  r ← sancus_writev (fdb_fd st) iov (zlen iov);
  mret (s32 r, st).

(** ** Writing a line *)

Definition is_blank (b : byte) : bool :=
  bool_decide (b = Byte.x20) || bool_decide (b = Byte.x09) || bool_decide (b = Byte.x0a).

(** [log_buffer_trim, the loop] @ src/sancus/logger.c:59-71. [n] is the
    distance of [p] from [base]; the result is the final one. *)
Fixpoint trim_loop (n : nat) (m : list byte) (base : Z) : outcome Z :=
  match n with
  | O => Ret 0
  | S n' =>
      c ← load1 m (base + Z.of_nat n');
      if is_blank c then trim_loop n' m base else Ret (Z.of_nat n)
  end.

(** [log_buffer_trim] @ src/sancus/logger.c:52-79. The trimmed length and the
    bytes its [*ptr] leads to. *)
Definition log_buffer_trim (buf : option buffer) : outcome (Z * list byte) :=
  match buf with
  | None => Ret (0, [])
  | Some b =>
      l ← trim_loop (Z.to_nat (b_len b)) (b_buf b) (b_base b);
      x ← load (b_buf b) (b_base b) l;
      Ret (l, x)
  end.

(** [log_write, the call of the backend] @ src/sancus/logger.c:98-103. *)
Definition call_backend (st : lstate) (d : dest) (level : Z) (prefix msg data : list byte) : io (Z * lstate) :=
  match d with
  | FdBackend => fd_logger_write st level prefix msg data
  | UserBackend b => f ← lift (deref (bk_f b)); rc ← f level prefix msg data; mret (rc, st)
  end.

(** [log_write] @ src/sancus/logger.c:81-107. *)
Definition log_write (h : loggers) (st : lstate) (logger : option Z) (level : Z)
    (pbuf mbuf dbuf : option buffer) : io (Z * lstate) :=
  p ← lift (log_buffer_trim pbuf);
  m ← lift (log_buffer_trim mbuf);
  d ← lift (log_buffer_trim dbuf);
  if negb (u64 (p.1 + m.1 + d.1) =? 0) then
    b ← lift (log_find_backend h logger (default_backend st));
    call_backend st b level p.2 m.2 d.2
  else mret (0, st).

(** A C string argument that counts: neither [NULL] nor empty. *)
Definition c_given (s : option (list byte)) : outcome bool :=
  match s with
  | None => Ret false
  | Some s => c ← load1 s 0; Ret (bool_decide (c <> Byte.x00))
  end.

(** [log_fmt] @ src/sancus/logger.c:292-324. [out] is what [fmt] and its
    arguments print. *)
Definition log_fmt (buf : buffer) (func : option (list byte)) (line : Z)
    (fmt out : option (list byte)) : outcome (Z * buffer) :=
  has_func ← c_given func;
  has_fmt ← c_given fmt;
  buf ← (if has_func : bool then
           '(_, b) ← sancus_buffer_appendz (Some buf) func;
           b ← deref b;
           b ← (if negb (line =? 0) then appendf' b (lit ":" ++ fmt_u line) else Ret b);
           append' b (lit ": ")
         else Ret buf);
  '(rc, buf) ← (if has_fmt : bool then
                  '(rc, b) ← sancus_buffer__appendv (Some buf) true out;
                  b ← deref b; Ret (rc, b)
                else Ret (0, buf));
  if rc <? 0 then Ret (rc, buf)
  else
    '(_, b) ← sancus_buffer_stripany (Some buf) (Some (cstr (Byte.x0a :: Byte.x09 :: lit " :")));
    b ← deref b;
    Ret (rc, b).

(** [sancus_logger__vprintf] @ src/sancus/logger.c:326-348. *)
Definition sancus_logger__vprintf (h : loggers) (st : lstate) (ctx : option Z) (level : sancus_log_level)
    (func : option (list byte)) (line : Z) (fmt out : option (list byte)) : io (Z * lstate) :=
  let pbuf := DECL_SANCUS_LBUFFER LOG_PREFIX_SIZE in
  let mbuf := DECL_SANCUS_LBUFFER LOG_MESSAGE_SIZE in
  p ← lift (log_ctx_prefix2 h ctx pbuf);
  let '(rc, pbuf) := (p : Z * buffer) in
  if rc <? 0 then mret (s32 rc, st) else
  m ← lift (log_fmt mbuf func line fmt out);
  let '(rc, mbuf) := (m : Z * buffer) in
  if rc <? 0 then mret (s32 rc, st) else
  r ← log_write h st ctx (level_bit level) (Some pbuf) (Some mbuf) None;
  mret (s32 r.1, r.2).

(** [sancus_logger__printf] @ src/sancus/logger.c:350-363. *)
Definition sancus_logger__printf := sancus_logger__vprintf.

(** ** Dumping data as a C string *)

(** [dump_enc, CEC] @ src/sancus/logger.c:369-369. *)
Definition CEC : list byte := cstr (lit "abtnvfr").

(** [dump_enc, one byte] @ src/sancus/logger.c:377-410. What is appended for
    it; its length is what [count] grows by. *)
Definition dump_char (c : byte) : outcome (list byte) :=
  let hexa := cstr (lit "0123456789abcdef") in
  let z := b2z c in
  if (z >? 0x1f) && (z <? 0x7f) then
    if bool_decide (c = Byte.x22) || bool_decide (c = Byte.x5c) then Ret [Byte.x5c; c] else Ret [c]
  else if (z >=? 7) && (z <=? 13) then e ← load1 CEC (z - 7); Ret [Byte.x5c; e]
  else
    x ← load1 hexa (Z.shiftr (Z.land z (Z.shiftl 0x0f 4)) 4);
    y ← load1 hexa (Z.land z 0x0f);
    Ret (lit "\x" ++ [x; y]).

(** [dump_enc, the loop] @ src/sancus/logger.c:373-414. *)
Fixpoint dump_enc (buf : option buffer) (sp : list byte) (p : Z) (l : nat) (count : Z)
    : outcome (Z * option buffer) :=
  match l with
  | O => Ret (count, buf)
  | S l =>
      c ← load1 sp p;
      out ← dump_char c;
      let count := count + zlen out in
      '(rc, buf) ← match buf with
                   | Some b => sancus_buffer_append (Some b) (Some out) (zlen out)
                   | None => Ret (0, None)
                   end;
      if rc <? 0 then Ret (rc, buf) else dump_enc buf sp (p + 1) l count
  end.

Definition min_suffix : Z := 4 + 6.
Definition max_suffix : Z := min_suffix + 3.

(** [sancus_logger__vdumpf, the blocks] @ src/sancus/logger.c:455-469. [len]
    is what is left from [p] on; the flag tells that the rest is cut. *)
Fixpoint dump_blocks (fuel : nat) (buf : buffer) (data : list byte) (p len : Z)
    : outcome (bool * Z * buffer) :=
  if len >? 0 then
    match fuel with
    | O => OutOfFuel
    | S fuel =>
        let bytes := u64 (sancus_buffer_tail_size (Some buf) - min_suffix) / 4 in
        let bytes := if len >? bytes then bytes else len in
        if bytes =? 0 then Ret (true, p, buf)
        else
          '(_, b) ← dump_enc (Some buf) data p (Z.to_nat bytes) 0;
          b ← deref b;
          dump_blocks fuel b data (p + bytes) (len - bytes)
    end
  else Ret (false, p, buf).

(** [sancus_logger__vdumpf, making room] @ src/sancus/logger.c:481-485. *)
Fixpoint dump_unwind (n : nat) (buf : buffer) (data : list byte) : outcome (Z * buffer) :=
  match n with
  | O => Ret (0, buf)
  | S n' =>
      if sancus_buffer_tail_size (Some buf) <? max_suffix then
        '(rc, _) ← dump_enc None data (Z.of_nat n') 1 0;
        '(_, b) ← sancus_buffer_stripn (Some buf) (u64 rc);
        b ← deref b;
        dump_unwind n' b data
      else Ret (Z.of_nat n, buf)
  end.

(** [sancus_logger__vdumpf, done] @ src/sancus/logger.c:471-475. *)
Definition dump_done (buf : buffer) (total : Z) : outcome (Z * buffer) :=
  '(rc, b) ← sancus_buffer_appendf (Some buf) (Some ([Byte.x22] ++ lit " (" ++ fmt_u total ++ lit ")"));
  b ← deref b;
  Ret (rc, b).

(** [sancus_logger__vdumpf, the data] @ src/sancus/logger.c:451-491. *)
Definition dump_data (buf : buffer) (data : list byte) (len : Z) : outcome (Z * buffer) :=
  '(rc, b) ← sancus_buffer_append (Some buf) (Some [Byte.x22]) 1;
  buf ← deref b;
  if rc <? 0 then Ret (rc, buf) else
  '(cut, p, buf) ← dump_blocks (Z.to_nat len) buf data 0 len;
  if cut : bool then
    '(_, buf) ← dump_unwind (Z.to_nat p) buf data;
    '(rc, b) ← sancus_buffer_append (Some buf) (Some (lit "...")) 3;
    buf ← deref b;
    if rc <? 0 then Ret (rc, buf) else dump_done buf len
  else dump_done buf len.

(** [sancus_logger__vdumpf] @ src/sancus/logger.c:420-492. *)
Definition sancus_logger__vdumpf (h : loggers) (st : lstate) (ctx : option Z) (level : sancus_log_level)
    (func : option (list byte)) (line : Z) (data : option (list byte)) (len : Z)
    (fmt out : option (list byte)) : io (Z * lstate) :=
  let pbuf := DECL_SANCUS_LBUFFER LOG_PREFIX_SIZE in
  let mbuf := DECL_SANCUS_LBUFFER LOG_MESSAGE_SIZE in
  let buf := DECL_SANCUS_LBUFFER LOG_DATA_SIZE in
  if bool_decide (data = None) && (len >? 0) then mret (- EINVAL, st) else
  p ← lift (log_ctx_prefix2 h ctx pbuf);
  let '(rc, pbuf) := (p : Z * buffer) in
  if rc <? 0 then mret (s32 rc, st) else
  m ← lift (log_fmt mbuf func line fmt out);
  let '(rc, mbuf) := (m : Z * buffer) in
  if rc <? 0 then mret (s32 rc, st) else
  d ← lift (dump_data buf (default [] data) len);
  let '(rc, buf) := (d : Z * buffer) in
  if rc <? 0 then mret (s32 rc, st) else
  r ← log_write h st ctx (level_bit level) (Some pbuf) (Some mbuf) (Some buf);
  mret (s32 r.1, r.2).

(** [sancus_logger__dumpf] @ src/sancus/logger.c:494-508. *)
Definition sancus_logger__dumpf := sancus_logger__vdumpf.

(** ** Dumping data in hexadecimal *)

(** [sancus_logger__vhexdumpf, the bytes] @ src/sancus/logger.c:552-553. *)
Fixpoint hex_bytes (n : nat) (buf : buffer) (data : list byte) (p : Z) : outcome buffer :=
  match n with
  | O => Ret buf
  | S n =>
      c ← load1 data p;
      b ← appendf' buf (lit " " ++ fmt_02x (Z.land (b2z c) 0xff));
      hex_bytes n b data (p + 1)
  end.

(** [sancus_logger__vhexdumpf, align] @ src/sancus/logger.c:556-557. *)
Fixpoint hex_align (n : nat) (buf : buffer) : outcome buffer :=
  match n with
  | O => Ret buf
  | S n => b ← append' buf (lit "   "); hex_align n b
  end.

(** [sancus_logger__vhexdumpf, ascii] @ src/sancus/logger.c:565-570. *)
Fixpoint hex_ascii (n : nat) (buf : buffer) (data : list byte) (q : Z) : outcome buffer :=
  match n with
  | O => Ret buf
  | S n =>
      c ← load1 data q;
      let c := if (b2z c <? 0x20) || (b2z c >? 0x7e) then Byte.x2e else c in
      b ← append' buf [c];
      hex_ascii n b data (q + 1)
  end.

(** [sancus_logger__vhexdumpf, a row] @ src/sancus/logger.c:547-572. The row
    of [left] bytes at most that starts at [p]; returns how many it took. *)
Definition hex_row (buf : buffer) (width : Z) (data : list byte) (p left off : Z) : outcome (Z * buffer) :=
  let n := if negb (width =? 0) then Z.min width left else left in
  buf ← (if negb (width =? 0) then appendf' buf (fmt_08x off ++ lit " ") else Ret buf);
  buf ← hex_bytes (Z.to_nat n) buf data p;
  buf ← (if negb (width =? 0) then hex_align (Z.to_nat (width - n)) buf else Ret buf);
  buf ← append' buf (lit " |");
  buf ← hex_ascii (Z.to_nat n) buf data p;
  buf ← append' buf (lit "|");
  Ret (n, buf).

(** [sancus_logger__vhexdumpf, the rows] @ src/sancus/logger.c:546-579. *)
Fixpoint hex_rows (fuel : nat) (h : loggers) (st : lstate) (ctx : option Z) (level : Z)
    (pbuf mbuf buf : buffer) (width : Z) (data : list byte) (p left off rc : Z) : io (Z * lstate) :=
  if left >? 0 then
    match fuel with
    | O => fun _ => OutOfFuel
    | S fuel =>
        r ← lift (hex_row buf width data p left off);
        let '(n, buf) := (r : Z * buffer) in
        r ← log_write h st ctx level (Some pbuf) (Some mbuf) (Some buf);
        let '(rc, st) := (r : Z * lstate) in
        if rc <? 0 then mret (rc, st)
        else
          r ← lift (sancus_buffer_reset (Some buf));
          buf ← lift (deref r.2);
          hex_rows fuel h st ctx level pbuf mbuf buf width data (p + n) (left - n) (u32 (off + n)) rc
    end
  else mret (rc, st).

(** [sancus_logger__vhexdumpf] @ src/sancus/logger.c:510-583. *)
Definition sancus_logger__vhexdumpf (h : loggers) (st : lstate) (ctx : option Z) (level : sancus_log_level)
    (func : option (list byte)) (line width : Z) (data : option (list byte)) (data_len : Z)
    (fmt out : option (list byte)) : io (Z * lstate) :=
  let pbuf := DECL_SANCUS_LBUFFER LOG_PREFIX_SIZE in
  let mbuf := DECL_SANCUS_LBUFFER LOG_MESSAGE_SIZE in
  let buf := DECL_SANCUS_LBUFFER LOG_DATA_SIZE in
  if bool_decide (data = None) && (data_len >? 0) then mret (- EINVAL, st) else
  p ← lift (log_ctx_prefix2 h ctx pbuf);
  let '(rc, pbuf) := (p : Z * buffer) in
  if rc <? 0 then mret (s32 rc, st) else
  m ← lift (log_fmt mbuf func line fmt out);
  let '(rc, mbuf) := (m : Z * buffer) in
  if rc <? 0 then mret (s32 rc, st) else
  if data_len =? 0 then
    r ← log_write h st ctx (level_bit level) (Some pbuf) (Some mbuf) None;
    mret (s32 r.1, r.2)
  else
    r ← hex_rows (Z.to_nat data_len) h st ctx (level_bit level) pbuf mbuf buf width
          (default [] data) 0 data_len 0 rc;
    mret (s32 r.1, r.2).

(** [sancus_logger__hexdumpf] @ src/sancus/logger.c:585-599. *)
Definition sancus_logger__hexdumpf := sancus_logger__vhexdumpf.

(** ** Assertions and traps *)

(** [sancus__assert] @ src/sancus/logger.c:604-618.  [abort] is [Aborted], which
    keeps nothing of the world: that the line has been written by then is in
    the definition, but not in its result. *)
Definition sancus__assert (h : loggers) (st : lstate) (log : option Z) (ndebug : Z)
    (func : option (list byte)) (line e : Z) (fmt out : option (list byte)) : io (Z * lstate) :=
  if e =? 0 then
    r ← sancus_logger__vprintf h st log SANCUS_LOG_ERROR_BIT func line fmt out;
    if ndebug =? 0 then lift Aborted else mret (e, r.2)
  else mret (e, st).

Definition SIGTRAP : Z := 5.

(** [sancus__trap] @ src/sancus/logger.c:623-637. *)
Definition sancus__trap (h : loggers) (st : lstate) (log : option Z) (ndebug : Z)
    (func : option (list byte)) (line e : Z) (fmt out : option (list byte)) : io (Z * lstate) :=
  if negb (e =? 0) then
    r ← sancus_logger__vprintf h st log SANCUS_LOG_WARN_BIT func line fmt out;
    if ndebug =? 0 then
      t ← sys SysPtraceTraceme;
      if ret t =? -1 then _ ← sys (SysRaise SIGTRAP); mret (e, r.2) else mret (e, r.2)
    else mret (e, r.2)
  else mret (e, st).

(** [sancus_log__if_level, as the sancus_log_warn family uses it] @ include/sancus/logger.h:275-278. *)
Definition sancus_log__if_level (h : loggers) (st : lstate) (D : option Z) (L : Z)
    (F : lstate -> io (Z * lstate)) : io lstate :=
  v ← lift (sancus_logger_has_level h D L);
  if negb (v =? 0) then r ← F st; mret r.2 else mret st.

(** ** A run *)

Definition sample_loggers : loggers :=
  {[ 1 := Logger None (Some (cstr (lit "app"))) 0 None None;
     2 := Logger (Some 1) None 0 None None ]}.
