(* ===== verification/LogStamp.v ===== *)
(** * LogStamp

    The timestamps of the fd backend of [Logger]: the time since the first
    line and since the previous one, as the code computes and prints them,
    also when the clock has been set back. *)

From S2P Require Import Prelude Buffer Time Bits CLib Text Sys Fd Clock Logger.

(** ** Text in a buffer *)

Lemma append'_refines x b a :
  represents b a -> zlen x <= LONG_MAX ->
  exists b', append' b x = Ret b' /\ represents b' (spec_append false x a).2.
Proof.
  intros Hrep Hx. destruct (append_refines false x b a Hrep Hx) as (b' & E & Hrep').
  exists b'. split; [|done]. unfold append', sancus_buffer_append. rewrite E. by run.
Qed.

Lemma appendf'_refines x b a :
  represents b a -> exists b', appendf' b x = Ret b' /\ represents b' (spec_format false (Some x) a).2.
Proof.
  intros Hrep. destruct (format_refines false (Some x) b a Hrep) as (b' & E & Hrep').
  exists b'. split; [|done]. unfold appendf', sancus_buffer_appendf. rewrite E. by run.
Qed.

Lemma format_fits x d size :
  zlen d + zlen x < size -> size <= INT_MAX ->
  (spec_format false (Some x) (mk_bstr d 0 size size)).2 = mk_bstr (d ++ x) 0 size size.
Proof.
  intros Hx Hs. pose proof (zlen_nonneg x). pose proof (zlen_nonneg d).
  unfold spec_format, s_room. cbn [s_cap s_off s_data].
  rewrite (proj2 (Z.leb_gt _ 0)), Z.gtb_ltb by lia.
  rewrite (proj2 (Z.ltb_ge INT_MAX _)), (proj2 (Z.ltb_lt (zlen x) _)) by lia. done.
Qed.

(** ** Durations as text *)

(** Seconds and milliseconds of a number of nanoseconds, with its sign. *)
Definition ms_text (ns : Z) : list byte :=
  (if ns <? 0 then lit "-" else []) ++
  fmt_u (Z.abs ns / NSEC) ++ lit "." ++ fmt_0d 3 (Z.abs ns mod NSEC / 1000000).

Lemma timespec_ms_spec d : canonical d -> timespec_ms d = Ret (ms_text (ns_of d)).
Proof.
  destruct d as [s n]. intros Hc. unfold timespec_ms, ms_text, NS_TO_MS. cbn [tv_sec tv_nsec] in *.
  change (MS_TO_NS 1) with 1000000.
  assert (forall q k, 0 <= k < NSEC -> (q * NSEC + k) / NSEC = q /\ (q * NSEC + k) mod NSEC = k) as Hdm.
  { intros q k Hk. rewrite Z.div_add_l, Z.div_small by done. rewrite (Z.add_comm _ k), Z.mod_add by done.
    rewrite Z.mod_small by done. lia. }
  destruct Hc as [Hn|[Hs Hn]]; cbn [tv_sec tv_nsec] in *.
  - rewrite (proj2 (Z.ltb_ge n 0)) by lia. run. unfold fmt_d. rewrite Z.quot_div_nonneg by lia.
    destruct (ns_of_cases s n) as [[H0 ->]|[H0 ->]].
    + destruct (Hdm s n Hn) as [Hd Hm]. rewrite !(proj2 (Z.ltb_ge _ 0)) by (unfold NSEC in *; lia).
      rewrite Z.abs_eq, Hd, Hm by (unfold NSEC in *; lia). done.
    + destruct (Hdm (- s) n Hn) as [Hd Hm]. rewrite !(proj2 (Z.ltb_lt _ 0)) by (unfold NSEC in *; lia).
      rewrite Z.abs_neq by (unfold NSEC in *; lia). replace (- (s * NSEC - n)) with (- s * NSEC + n) by lia.
      by rewrite Hd, Hm.
  - subst s. rewrite (proj2 (Z.ltb_lt n 0)), ck_s64_ok by (unfold NSEC in *; bounds). run.
    rewrite ns_of_pos, Z.mul_0_l, Z.add_0_l, (proj2 (Z.ltb_lt n 0)) by lia.
    destruct (Hdm 0 (- n) ltac:(lia)) as [Hd Hm]. rewrite Z.abs_neq by lia. rewrite Z.mul_0_l, Z.add_0_l in Hd, Hm.
    rewrite Hd, Hm, Z.quot_div_nonneg by lia. done.
Qed.

Lemma ms_text_len ns : - LONG_MAX * NSEC <= ns <= LONG_MAX * NSEC -> zlen (ms_text ns) <= 24.
Proof.
  intros Hns. unfold ms_text. rewrite !zlen_app. change (zlen (lit ".")) with 1.
  assert (zlen (if ns <? 0 then lit "-" else []) <= 1) by (by destruct (ns <? 0)).
  assert (0 <= Z.abs ns / NSEC <= LONG_MAX) as Hq.
  { split; [apply Z.div_pos; unfold NSEC; lia|]. apply Z.div_le_upper_bound; unfold NSEC in *; lia. }
  pose proof (Z.mod_pos_bound (Z.abs ns) NSEC ltac:(done)) as Hm.
  assert (0 <= Z.abs ns mod NSEC / 1000000 < 1000) as Hms.
  { split; [apply Z.div_pos; lia|]. apply Z.div_lt_upper_bound; unfold NSEC in *; lia. }
  unfold fmt_0d, pad0, fmt_u.
  pose proof (length_dec_digits 20 19 (Z.abs ns / NSEC) ltac:(change (10 ^ Z.of_nat 19) with 10000000000000000000; bounds) ltac:(lia)).
  pose proof (length_dec_digits 20 3 (Z.abs ns mod NSEC / 1000000) ltac:(change (10 ^ Z.of_nat 3) with 1000; lia) ltac:(lia)).
  rewrite zlen_app. unfold zlen in *. rewrite length_replicate. lia.
Qed.

(** ** The time that is shown *)

(** Times the clock can have shown: not negative, and not 2^31 seconds apart. *)
Definition close_times (a b : timespec) : Prop :=
  nonneg a /\ nonneg b /\ moderate a /\ moderate b /\ - 2 ^ 31 < tv_sec a - tv_sec b < 2 ^ 31.

(** What [sancus_time_sub] makes of the time [a] of a line and an earlier
    line's time [b]: their difference, as long as the clock has not gone back
    in between.  When it has, [time_add]'s branch for operands of opposite
    sign takes the seconds and the fractions for apart: it is two seconds
    short of it within one second, and [2 k] seconds too far where the
    seconds are [k] apart, with the sign turned. *)
Definition shown_delta (a b : timespec) : Z :=
  let d := ns_of a - ns_of b in
  let k := tv_sec b - tv_sec a in
  if (0 <=? d) || (tv_sec b =? 0) then d
  else if k =? 0 then 2 * NSEC + d
  else - (2 * k * NSEC + d).

Lemma sub_shown a b : close_times a b ->
  exists d s, sancus_time_sub a b = Ret (d, s) /\ canonical d /\ ns_of d = shown_delta a b.
Proof.
  intros (Ha & Hb & [_ Hma] & [_ Hmb] & Hd). unfold sancus_time_sub. rewrite neg_nonneg by done.
  destruct a as [sa na], b as [sb nb]. unfold nonneg, shown_delta in *. cbn [tv_sec tv_nsec] in *.
  rewrite !ns_of_pos by lia. run. destruct (Z.eqb_spec sb 0) as [->|Hsb].
  - rewrite time_add_same_sign by (unfold canonical; cbn; lia). cbn [tv_sec tv_nsec].
    destruct (fix_between (sa + 0) (na + - nb) ltac:(bounds) ltac:(lia)) as [-> Hc].
    eexists _, _. split; [done|]. split; [exact Hc|]. rewrite orb_true_r. clear Hc.
    destruct (Z.leb_spec 0 (na + - nb)), (Z.eqb_spec (sa + 0) 0); cbn [orb]; rewrite ns_of_pos; lia.
  - rewrite time_add_mixed by lia. cbn zeta. rewrite orb_false_r.
    assert (forall s n, - 2 ^ 63 + 2 <= s <= 2 ^ 63 - 2 -> - NSEC < n < NSEC -> 0 <= n \/ s = 0 ->
      sancus_time_fix (mk_ts s n) = Ret (mk_ts s n, Z.sgn (ns_of (mk_ts s n))) /\ canonical (mk_ts s n)) as Hfix.
    { intros s n Hs Hn Hc. pose proof (fix_between s n Hs Hn) as Hf. cbn zeta in Hf.
      by replace ((0 <=? n) || (s =? 0)) with true in Hf
        by (symmetry; apply orb_true_iff; rewrite Z.leb_le, Z.eqb_eq; tauto). }
    destruct (Z.leb_spec 0 (na - nb)); [|destruct (Z.eqb_spec (sa - sb) (-1)); [|destruct (Z.leb_spec 1 (sa - sb))]];
      (edestruct Hfix as [-> Hc]; [bounds|lia|lia|]); eexists _, _; (split; [done|]; split; [exact Hc|]); ts_cases.
Qed.

Lemma shown_delta_exact a b : ns_of b <= ns_of a -> shown_delta a b = ns_of a - ns_of b.
Proof. intros. unfold shown_delta. by rewrite (proj2 (Z.leb_le _ _)) by lia. Qed.

Lemma shown_delta_bound a b : close_times a b -> - LONG_MAX * NSEC <= shown_delta a b <= LONG_MAX * NSEC.
Proof.
  intros (Ha & Hb & _ & _ & Hd). destruct a as [sa na], b as [sb nb]. unfold nonneg, shown_delta in *. cbn [tv_sec tv_nsec] in *.
  rewrite !ns_of_pos by lia. unfold NSEC in *. cbv_bounds.
  destruct (_ || _); [lia|]. destruct (_ =? 0); lia.
Qed.

(** A step back by a millisecond is shown as 1.999 seconds forward. *)
Example step_back_shown : ms_text (shown_delta (mk_ts 101 1000000) (mk_ts 101 2000000)) = lit "1.999".
Proof. reflexivity. Qed.

Example steps_back_shown :
  ms_text (shown_delta (mk_ts 101 500000000) (mk_ts 102 200000000)) = lit "-1.300" /\
  ms_text (shown_delta (mk_ts 101 200000000) (mk_ts 102 500000000)) = lit "-0.700".
Proof. by split. Qed.

(** ** The stamp of a line *)

(** Whether the line starts the count anew: the first one, and one whose time
    is behind the time the count started at. *)
Definition restarts (st : lstate) (ts : timespec) : bool :=
  sancus_time_is_zero (fdb_prev st) || (ns_of ts <? ns_of (fdb_first st)).

(** The time shown for a line written at [ts]. *)
Definition since (st : lstate) (ts t0 : timespec) : Z := if restarts st ts then 0 else shown_delta ts t0.

Definition stamp (st : lstate) (ts : timespec) : list byte :=
  lit "[" ++ ms_text (since st ts (fdb_first st)) ++ lit " +" ++ ms_text (since st ts (fdb_prev st)) ++ lit "] ".

(** What the line leaves for the next one. *)
Definition stamped_state (st : lstate) (ts : timespec) : lstate :=
  LState (default_backend st) (fdb_fd st) (fdb_timestamp st)
    (if restarts st ts then ts else fdb_first st) ts (now_clock st).

(** The clock shows a time that is near the ones remembered, if there are any. *)
Definition in_time (st : lstate) (ts : timespec) : Prop :=
  nonneg ts /\
  (sancus_time_is_zero (fdb_prev st) = false -> close_times ts (fdb_first st) /\ close_times ts (fdb_prev st)).

(** The answer of the system clock. *)
Definition clock_shows (g : answer) (ts : timespec) : Prop := ret g = 0 /\ outs g = [tv_sec ts; tv_nsec ts].

(** The fd backend with its timestamps, by the system clock. *)
Record stamping (st : lstate) : Prop := {
  stamping_on : fdb_timestamp st = true;
  stamping_clock : now_clock st = None
}.

(** Timestamps are on from the start, and nothing turns them off. *)
Lemma stamps_never_off st :
  fdb_timestamp st = true ->
  (forall b, fdb_timestamp (sancus_logger_set_default_backend st b).2 = true) /\
  (forall fd, fdb_timestamp (sancus_logger_set_fd_backend st fd).2 = true) /\
  (forall ts, fdb_timestamp (stamped_state st ts) = true).
Proof.
  intros H. split_and!; [intros [b|]|intros fd|done].
  - unfold sancus_logger_set_default_backend. by destruct (bool_decide _).
  - done.
  - unfold sancus_logger_set_fd_backend. by destruct (fd <? 0).
Qed.

Lemma stamping_start : stamping lstate0.
Proof. by split. Qed.

Lemma stamping_next st ts : stamping st -> stamping (stamped_state st ts).
Proof. by intros []. Qed.

Lemma log_deltas_spec st ts :
  in_time st ts ->
  exists d0 d1, log_deltas st ts = Ret (d0, d1, stamped_state st ts) /\
    canonical d0 /\ canonical d1 /\ ns_of d0 = since st ts (fdb_first st) /\ ns_of d1 = since st ts (fdb_prev st).
Proof.
  intros [Hts Hclose]. unfold log_deltas, since, stamped_state, restarts in *.
  assert (canonical (TIMESPEC_INIT 0 0)) as Hz by by left.
  destruct (sancus_time_is_zero (fdb_prev st)); cbn [orb]; run; [by eexists _, _|].
  destruct (Hclose eq_refl) as [Hf Hp].
  assert (sancus_time_is_lt ts (fdb_first st) = Ret (ns_of ts <? ns_of (fdb_first st))) as ->.
  { destruct Hf as ([] & [] & ? & ? & ?). destruct (cmp_sign ts (fdb_first st)) as (c & Hc & Hs); try done; [by left|by left|lia|].
    unfold sancus_time_is_lt. rewrite Hc. run. f_equal. destruct (Z.ltb_spec c 0), (Z.ltb_spec (ns_of ts) (ns_of (fdb_first st))); done || lia. }
  run. destruct (ns_of ts <? ns_of (fdb_first st)); [by eexists _, _|].
  destruct (sub_shown _ _ Hf) as (d0 & s0 & -> & Hc0 & Hv0). run.
  destruct (sub_shown _ _ Hp) as (d1 & s1 & -> & Hc1 & Hv1). run.
  by eexists _, _.
Qed.

Lemma stamp_len st ts : in_time st ts -> zlen (stamp st ts) <= 53.
Proof.
  intros [_ Hclose]. unfold stamp, since, restarts. rewrite !zlen_app.
  change (zlen (lit "[")) with 1. change (zlen (lit " +")) with 2. change (zlen (lit "] ")) with 2.
  destruct (sancus_time_is_zero (fdb_prev st)); cbn [orb].
  { change (zlen (ms_text 0)) with 5. lia. }
  destruct (Hclose eq_refl) as [Hf Hp].
  destruct (_ <? _); [change (zlen (ms_text 0)) with 5; lia|].
  pose proof (ms_text_len _ (shown_delta_bound _ _ Hf)). pose proof (ms_text_len _ (shown_delta_bound _ _ Hp)). lia.
Qed.

(** The stamp is put into the prelude, and the time remembered. *)
Lemma log_stamp_spec st ts g rs t e :
  stamping st -> clock_shows g ts -> in_time st ts ->
  exists b, log_stamp st (DECL_SANCUS_LBUFFER LOG_PRELUDE_SIZE) (World (g :: rs) t e) =
      Ret ((b, stamped_state st ts), World rs (t ++ [(SysGettime, g)]) e) /\
    represents b (mk_bstr (stamp st ts) 0 LOG_PRELUDE_SIZE LOG_PRELUDE_SIZE).
Proof.
  intros [Hst Hclk] [Hg Ho] Hin. destruct (log_deltas_spec st ts Hin) as (d0 & d1 & Ed & Hc0 & Hc1 & Hv0 & Hv1).
  pose proof (stamp_len st ts Hin).
  pose proof (lbuffer_represents LOG_PRELUDE_SIZE ltac:(unfold LOG_PRELUDE_SIZE; bounds)) as Hrep.
  destruct (appendf'_refines (stamp st ts) _ _ Hrep) as (b & Eb & Hb).
  rewrite format_fits in Hb by (change (zlen []) with 0; unfold LOG_PRELUDE_SIZE; bounds).
  exists b. split; [|exact Hb]. unfold log_stamp. rewrite Hst, Hclk.
  rewrite (io_bind_eq _ _ _ _ _ (now_system g rs t e _ _ _ Hg Ho)). cbn [snd].
  rewrite (lift_bind _ ts) by (by destruct ts). rewrite (lift_bind _ _ _ _ Ed).
  rewrite (lift_bind _ _ _ _ (timespec_ms_spec d0 Hc0)), (lift_bind _ _ _ _ (timespec_ms_spec d1 Hc1)), Hv0, Hv1.
  fold (stamp st ts). by rewrite (lift_bind _ _ _ _ Eb).
Qed.
