(* ===== verification/LogLine.v ===== *)
(** * LogLine

    What [Logger] does with a call: which mask, prefix and backend up the chain
    of parents count, what becomes of the message, and the line the fd backend
    writes, with its timestamp. *)

From stdpp Require Import gmap.
From S2P Require Import Prelude Buffer Time Bits CLib Text Sys Fd Clock Logger LogStamp.
#[local] Open Scope Z_scope.

(** ** Chains of parents *)

(** [chain h log ls]: following the parents from [log] ends, after the loggers
    [ls] with their addresses. *)
Inductive chain (h : loggers) : option Z -> list (Z * logger) -> Prop :=
  | chain_nil : chain h None []
  | chain_cons a l ls : h !! a = Some l -> chain h (l_parent l) ls -> chain h (Some a) ((a, l) :: ls).

Lemma chain_fun h log x y : chain h log x -> chain h log y -> x = y.
Proof.
  intros Hx. revert y. induction Hx as [|a l ls Hl Hls IH]; intros y Hy; inversion Hy; subst; [done|].
  simplify_eq. f_equal. by apply IH.
Qed.

Lemma chain_suffix h log x a l y : chain h log (x ++ (a, l) :: y) -> chain h (Some a) ((a, l) :: y).
Proof.
  revert log. induction x as [|[b k] x IH]; intros log Hc; simpl in Hc.
  - by inversion Hc; subst.
  - inversion Hc; subst. by eapply IH.
Qed.

Lemma chain_nodup h log x : chain h log x -> NoDup x.*1.
Proof.
  induction 1 as [|a l ls Hl Hls IH]; simpl; [apply NoDup_nil_2|]. apply NoDup_cons. split; [|done].
  intros ([b k] & -> & Hin)%list_elem_of_fmap. apply list_elem_of_split in Hin as (x1 & x2 & E).
  cbn [fst] in *. subst ls.
  pose proof (chain_suffix _ _ _ _ _ _ Hls) as Hs.
  assert (chain h (Some b) ((b, l) :: x1 ++ (b, k) :: x2)) as Hc by by constructor.
  pose proof (chain_fun _ _ _ _ Hs Hc) as E. apply (f_equal length) in E.
  simpl in E. rewrite length_app in E. simpl in E. lia.
Qed.

(** A chain is no longer than the store is large, so [walk] is enough. *)
Lemma chain_size h log x : chain h log x -> (length x <= size h)%nat.
Proof.
  intros Hc. rewrite <- (length_fmap fst), <- (size_list_to_set (C := gset Z)) by by eapply chain_nodup.
  rewrite <- (size_dom (D := gset Z) h). apply subseteq_size. intros a.
  rewrite elem_of_list_to_set, elem_of_dom. induction Hc as [|b l ls Hl Hls IH]; simpl.
  - by intros ?%elem_of_nil.
  - intros [->|?]%elem_of_cons; [by eexists|by apply IH].
Qed.

(** ** Levels *)

(** The mask that counts: the nearest one that is set, [NORMAL] without any. *)
Fixpoint effective_mask (ls : list (Z * logger)) : Z :=
  match ls with
  | [] => SANCUS_LOG_NORMAL
  | (_, l) :: ls => if l_mask l =? 0 then effective_mask ls else l_mask l
  end.

Lemma has_level_spec fuel h log ls mask :
  chain h log ls -> (length ls < fuel)%nat ->
  has_level fuel h log mask =
    Ret (if (mask =? 0) || negb (Z.land mask SANCUS_LOG_ERR =? 0) then 1
         else Z.b2z (negb (Z.land mask (effective_mask ls) =? 0))).
Proof.
  intros Hc. revert fuel. induction Hc as [|a l ls Hl Hls IH]; intros fuel Hf;
    (destruct fuel as [|fuel]; [simpl in Hf; lia|]); cbn [has_level effective_mask];
    destruct (_ || _) eqn:E; try done.
  rewrite Hl. simpl deref. run. destruct (l_mask l =? 0); cbn [negb]; [|done].
  destruct (l_parent l) as [p|] eqn:Ep.
  - rewrite IH by (simpl in Hf; lia). done.
  - by inversion Hls.
Qed.

Lemma has_level_chain h log ls mask :
  chain h log ls ->
  sancus_logger_has_level h log mask =
    Ret (if (mask =? 0) || negb (Z.land mask SANCUS_LOG_ERR =? 0) then 1
         else Z.b2z (negb (Z.land mask (effective_mask ls) =? 0))).
Proof. intros Hc. apply has_level_spec; [done|]. pose proof (chain_size _ _ _ Hc). lia. Qed.

Lemma chain_lookup h log pre a l post : chain h log (pre ++ (a, l) :: post) -> h !! a = Some l.
Proof. intros Hc%chain_suffix. by inversion Hc. Qed.

(** Writing the mask of one logger of the chain. *)
Lemma chain_set_mask h log pre a l post m :
  chain h log (pre ++ (a, l) :: post) ->
  exists post', chain (<[a := with_mask l m]> h) log (pre ++ (a, with_mask l m) :: post').
Proof.
  intros Hc. pose proof (chain_nodup _ _ _ Hc) as Hnd. pose proof (chain_lookup _ _ _ _ _ _ Hc) as Hl.
  revert log Hc. induction pre as [|[b k] pre IH]; intros log Hc; simpl in *; apply NoDup_cons in Hnd as [Hn Hnd].
  - exists post. inversion Hc; subst. constructor; [by rewrite lookup_insert_eq|].
    clear -Hn H4. simpl. induction H4 as [|b k ls Hk Hls IH]; [constructor|].
    simpl in Hn. apply not_elem_of_cons in Hn as [? ?]. constructor; [by rewrite lookup_insert_ne|by apply IH].
  - inversion Hc; subst. destruct (IH Hnd _ H4) as [post' IH']. exists post'.
    constructor; [|done]. rewrite lookup_insert_ne; [done|]. intros ->. apply Hn.
    rewrite fmap_app. apply elem_of_app. right. by left.
Qed.

(** [sancus_logger_has_level] answers for the mask that counts, the one of
    the nearest logger up the chain that has one and the normal mask when none
    has; errors, and an empty request, are always let through.  Setting the
    mask of a logger decides for every descendant below which no other mask is
    in between. *)
Theorem has_level_effective (h : loggers) (log : option Z) (ls : list (Z * logger)) (mask : Z)
    (Hc : chain h log ls) :
  let answer m := if (mask =? 0) || negb (Z.land mask SANCUS_LOG_ERR =? 0) then 1
                  else Z.b2z (negb (Z.land mask m =? 0)) in
  sancus_logger_has_level h log mask = Ret (answer (effective_mask ls)) /\
  (forall pre a l post m, ls = pre ++ (a, l) :: post -> Forall (fun p => l_mask p.2 = 0) pre -> m <> 0 ->
     exists h', sancus_logger_set_mask h a m = Ret h' /\
       sancus_logger_has_level h' log mask = Ret (answer m)).
Proof.
  cbv zeta. split; [by apply has_level_chain|]. intros pre a l post m -> Hpre Hm.
  unfold sancus_logger_set_mask, update. rewrite (chain_lookup _ _ _ _ _ _ Hc). simpl deref. run.
  eexists. split; [done|]. destruct (chain_set_mask _ _ _ _ _ _ m Hc) as [post' Hc'].
  rewrite (has_level_chain _ _ _ _ Hc').
  assert (effective_mask (pre ++ (a, with_mask l m) :: post') = m) as ->; [|done]. clear -Hpre Hm.
  induction Hpre as [|[b k] pre Hk Hpre IH]; simpl in *.
  - by rewrite (proj2 (Z.eqb_neq m 0) Hm).
  - by rewrite Hk.
Qed.

Definition sample_chain : list (Z * logger) :=
  [(2, Logger (Some 1) None 0 None None); (1, Logger None (Some (cstr (lit "app"))) 0 None None)].

Lemma sample_chain_ok : chain sample_loggers (Some 2) sample_chain.
Proof. repeat (constructor; [reflexivity|]). constructor. Defined.

Lemma has_level_effective_witness :
  let answer m := if (16 =? 0) || negb (Z.land 16 SANCUS_LOG_ERR =? 0) then 1
                  else Z.b2z (negb (Z.land 16 m =? 0)) in
  sancus_logger_has_level sample_loggers (Some 2) 16 = Ret (answer (effective_mask sample_chain)) /\
  (forall pre a l post m, sample_chain = pre ++ (a, l) :: post -> Forall (fun p => l_mask p.2 = 0) pre -> m <> 0 ->
     exists h', sancus_logger_set_mask sample_loggers a m = Ret h' /\
       sancus_logger_has_level h' (Some 2) 16 = Ret (answer m)).
Proof. exact (has_level_effective sample_loggers (Some 2) sample_chain 16 sample_chain_ok).
Defined.

(** ** Prefixes *)

(** The prefix that counts, when no logger of the chain computes its own. *)
Fixpoint nearest_prefix (ls : list (Z * logger)) : option (list byte) :=
  match ls with
  | [] => None
  | (_, l) :: ls => match l_prefix l with Some s => Some s | None => nearest_prefix ls end
  end.

Definition static_prefix (ls : list (Z * logger)) : Prop := Forall (fun p => l_prefixer p.2 = None) ls.

(** A string argument that stands for the text [s]; [NULL] is the empty one. *)
Definition text_is (p : option (list byte)) (s : list byte) : Prop :=
  (p = None /\ s = []) \/ (p = Some (cstr s) /\ no_nul s).

(** The chain's prefix is the text [s]. *)
Definition prefix_is (ls : list (Z * logger)) (s : list byte) : Prop :=
  text_is (nearest_prefix ls) s.

Lemma load1_cstr_given s c : load1 (cstr s) 0 = Ret c -> no_nul s -> bool_decide (c <> Byte.x00) = bool_decide (s <> []).
Proof.
  destruct s as [|b s]; intros [= <-] Hs; [done|]. rewrite !bool_decide_true; [done|done|].
  intros ->. apply Hs. by left.
Qed.

Lemma ctx_prefix_spec fuel h ctx ls s m off size :
  chain h ctx ls -> static_prefix ls -> prefix_is ls s -> (length ls < fuel)%nat ->
  0 < size -> zlen s <= LONG_MAX ->
  ctx_prefix fuel h ctx m (Some off) size =
    if decide (s = []) then Ret (0, m)
    else
      let n := if size <? zlen s then size - 1 else zlen s in
      m ← store m off (sub s 0 n); m ← store1 m (off + n) Byte.x00; Ret (n, m).
Proof.
  intros Hc Hst Hp. revert fuel. induction Hc as [|a l ls Hl Hls IH]; intros fuel Hf Hsz Hs;
    (destruct fuel as [|fuel]; [simpl in Hf; lia|]); cbn [ctx_prefix].
  { destruct Hp as [[_ ->]|[[=] _]]. done. }
  apply Forall_cons in Hst as [Hpx Hst]. cbn [snd] in Hpx.
  rewrite Z.gtb_ltb, (proj2 (Z.ltb_lt 0 size)), Hl by done. simpl deref. run. rewrite Hpx.
  unfold prefix_is, text_is in Hp, IH. cbn [nearest_prefix] in Hp. destruct (l_prefix l) as [s'|].
  - destruct Hp as [[[=] _]|[[= ->] Hn]].
    destruct (load1_ok (cstr s) 0) as (c & Hc & _).
    { unfold cstr. rewrite zlen_app. change (zlen [Byte.x00]) with 1. pose proof (zlen_nonneg s). lia. }
    rewrite Hc. run. rewrite (load1_cstr_given s c Hc Hn). case_bool_decide as Hne.
    + rewrite decide_False by done. rewrite c_strlen_plain by done. run. cbv zeta.
      set (n := if size <? zlen s then size - 1 else zlen s).
      assert (0 <= n <= zlen s) by (unfold n; pose proof (zlen_nonneg s); crush_cond).
      rewrite load_ok by (unfold cstr; rewrite ?zlen_app; change (zlen [Byte.x00]) with 1; lia). run.
      unfold cstr at 1. rewrite sub_app_l by lia. by rewrite swrap_id by bounds.
    + by rewrite decide_True.
  - destruct (l_parent l) as [p|] eqn:Ep.
    + rewrite IH by (done || (simpl in Hf; lia)). done.
    + inversion Hls; subst. destruct Hp as [[_ ->]|[[=] _]]. done.
Qed.

Lemma render_prefix_spec h ctx ls s m off size :
  chain h ctx ls -> static_prefix ls -> prefix_is ls s -> s <> [] -> zlen s <= LONG_MAX ->
  0 <= off -> 0 < size -> off + size = zlen m ->
  log_ctx_prefix h ctx m (Some off) size =
    if zlen s =? size then Undef
    else Ret (Z.min (zlen s) (size - 1), splice m off (cstr (sub s 0 (size - 1)))).
Proof.
  intros Hc Hst Hp Hne Hs Hoff Hsz Hm. unfold log_ctx_prefix, walk.
  rewrite (ctx_prefix_spec _ _ _ ls s) by (done || (pose proof (chain_size _ _ _ Hc); lia)).
  rewrite decide_False by done. cbv zeta. pose proof (zlen_nonneg s).
  destruct (Z.eqb_spec (zlen s) size) as [E|E].
  { rewrite (proj2 (Z.ltb_ge size (zlen s))) by lia. rewrite sub_all, store_ok by lia. run.
    unfold store1. rewrite store_oob; [done|]. rewrite zlen_splice by lia. change (zlen [Byte.x00]) with 1. lia. }
  set (n := if size <? zlen s then size - 1 else zlen s).
  assert (n = Z.min (zlen s) (size - 1)) as -> by (unfold n; crush_cond).
  assert (sub s 0 (Z.min (zlen s) (size - 1)) = sub s 0 (size - 1)) as ->.
  { destruct (decide (zlen s <= size - 1)); [by rewrite !sub_whole by lia|]. f_equal. lia. }
  pose proof (zlen_sub_min s (size - 1) ltac:(lia)) as Hz.
  rewrite store_ok by lia. run. unfold store1. rewrite store_ok.
  - run. rewrite <- Hz. unfold cstr. by rewrite splice_app by (change (zlen [Byte.x00]) with 1; lia).
  - lia.
  - rewrite zlen_splice by lia. change (zlen [Byte.x00]) with 1. lia.
Qed.

(** [sancus_logger_render_prefix] walks up to the nearest prefix and leaves
    the longest part of it that fits, terminated, in the [size] bytes it is
    given, returning its length, except when the prefix is exactly [size]
    bytes long: the terminator is then written one byte behind the buffer. *)
Theorem prefix_exact_fit_overflows (h : loggers) (ctx : option Z) (ls : list (Z * logger))
    (s m : list byte) (off size : Z)
    (Hc : chain h ctx ls) (Hst : static_prefix ls) (Hp : prefix_is ls s) (Hne : s <> [])
    (Hs : zlen s <= LONG_MAX) (Hoff : 0 <= off) (Hsz : 0 < size) (Hm : off + size = zlen m) :
  (sancus_logger_render_prefix h ctx m (Some off) size = Undef <-> zlen s = size) /\
  (zlen s <> size -> sancus_logger_render_prefix h ctx m (Some off) size =
     Ret (Z.min (zlen s) (size - 1), splice m off (cstr (sub s 0 (size - 1))))).
Proof.
  unfold sancus_logger_render_prefix. rewrite (render_prefix_spec h ctx ls s) by done.
  destruct (Z.eqb_spec (zlen s) size); by split.
Qed.

Lemma prefix_exact_fit_overflows_witness :
  (sancus_logger_render_prefix sample_loggers (Some 2) [Byte.xff; Byte.xff; Byte.xff] (Some 0) 3 = Undef <->
     zlen (lit "app") = 3) /\
  (zlen (lit "app") <> 3 -> sancus_logger_render_prefix sample_loggers (Some 2) [Byte.xff; Byte.xff; Byte.xff] (Some 0) 3 =
     Ret (Z.min (zlen (lit "app")) (3 - 1), splice [Byte.xff; Byte.xff; Byte.xff] 0 (cstr (sub (lit "app") 0 (3 - 1))))).
Proof.
  apply (prefix_exact_fit_overflows sample_loggers (Some 2) sample_chain (lit "app")).
  - exact sample_chain_ok.
  - repeat constructor.
  - right. split; [reflexivity|]. unfold no_nul. apply (bool_decide_unpack _). vm_compute. exact I.
  - discriminate.
  - vm_compute; discriminate.
  - lia.
  - lia.
  - reflexivity.
Defined.

(** What [log_ctx_prefix2] puts in a fresh buffer. *)
Definition rendered (s : list byte) (size : Z) : list byte := sub s 0 (size - 1).

Lemma ctx_prefix2_spec h ctx ls s size :
  chain h ctx ls -> static_prefix ls -> prefix_is ls s -> zlen s <> size ->
  0 < size <= INT_MAX -> zlen s <= LONG_MAX ->
  exists b, log_ctx_prefix2 h ctx (DECL_SANCUS_LBUFFER size) = Ret (zlen (rendered s size), b) /\
    represents b (mk_bstr (rendered s size) 0 size size).
Proof.
  intros Hc Hst Hp Hne Hsz Hs. pose proof (lbuffer_represents size ltac:(bounds)) as Hrep.
  destruct (room_tail _ _ Hrep) as [Ht _]. unfold s_room in Ht. cbn [s_cap s_off s_data] in Ht.
  change (zlen []) with 0 in Ht. rewrite !Z.sub_0_r in Ht.
  pose proof (rep_store _ _ Hrep) as Hm. cbn [s_store] in Hm.
  unfold log_ctx_prefix2. rewrite Ht. cbn [sancus_buffer_tail_ptr b_base b_len DECL_SANCUS_LBUFFER].
  set (b0 := DECL_SANCUS_LBUFFER size) in *. change (b_buf _) with (b_buf b0).
  pose proof (zlen_nonneg s). pose proof (zlen_sub_min s (size - 1) ltac:(lia)) as Hz. fold (rendered s size) in Hz.
  destruct (decide (s = [])) as [->|Hs0].
  - unfold log_ctx_prefix, walk.
    rewrite (ctx_prefix_spec _ _ _ ls []) by (done || lia || (pose proof (chain_size _ _ _ Hc); lia)).
    rewrite decide_True by done. run. unfold rendered in *. rewrite sub_whole in * by (change (zlen []) with 0; lia).
    cbn [Z.gtb Z.compare]. eexists. split; [done|]. by rewrite set_buf_id.
  - rewrite (render_prefix_spec h ctx ls s) by (done || lia). rewrite (proj2 (Z.eqb_neq _ _)) by done. run.
    fold (rendered s size).
    assert (0 < zlen s) by (destruct (decide (zlen s = 0)) as [E|]; [by apply zlen_zero in E|lia]).
    set (p := rendered s size) in *. rewrite <- Hz.
    pose proof (zlen_nonneg p).
    pose proof (represents_grow b0 _ (cstr p) (zlen p) Hrep) as Hg.
    unfold cstr in Hg at 1 2. rewrite zlen_app in Hg. change (zlen [Byte.x00]) with 1 in Hg.
    cbn [b_base b_len b0 DECL_SANCUS_LBUFFER] in Hg. rewrite !Z.add_0_l in Hg.
    specialize (Hg ltac:(lia) ltac:(unfold s_room; cbn; change (zlen []) with 0; lia) ltac:(lia)).
    replace (sub (cstr p) 0 (zlen p)) with p in Hg by (unfold cstr; by rewrite sub_app_l, sub_all by lia).
    destruct (Z.gtb_spec (zlen p) 0) as [Hpos|Hneg].
    + unfold sancus_buffer_sparse. cbv zeta. change (0 + 0) with 0.
      assert (sancus_buffer_tail_size (Some (set_buf b0 (splice (b_buf b0) 0 (cstr p)))) = size) as ->
        by (etransitivity; [|exact Ht]; reflexivity).
      rewrite (uwrap_id 64 (zlen p)) by bounds. rewrite (proj2 (Z.ltb_ge size (zlen p))) by lia.
      simpl deref. run. eexists. split; [done|exact Hg].
    + change (0 + 0) with 0. assert (zlen p = 0) as Hp0 by lia. eexists. split; [done|]. rewrite Hp0 in Hg.
      change (set_len _ (u64 0)) with (set_buf b0 (splice (b_buf b0) 0 (cstr p))) in Hg. exact Hg.
Qed.

(** ** Messages *)

Lemma c_given_spec p s : text_is p s -> c_given p = Ret (bool_decide (s <> [])).
Proof.
  intros [[-> ->]|[-> Hs]]; [done|]. cbn [c_given].
  destruct (load1_ok (cstr s) 0) as (c & Hc & _).
  { unfold cstr. rewrite zlen_app. change (zlen [Byte.x00]) with 1. pose proof (zlen_nonneg s). lia. }
  rewrite Hc. run. by rewrite (load1_cstr_given s c Hc Hs).
Qed.

(** What [log_fmt] strips from the end of a message. *)
Definition msg_strip : list byte := Byte.x0a :: Byte.x09 :: lit " :".

(** [log_fmt] on bounded strings. *)
Definition spec_head (func : list byte) (line : Z) (a : bstr) : bstr :=
  if bool_decide (func <> []) then
    let a := (spec_append false func a).2 in
    let a := if negb (line =? 0) then (spec_format false (Some (lit ":" ++ fmt_u line)) a).2 else a in
    (spec_append false (lit ": ") a).2
  else a.

Definition spec_log_fmt (func : list byte) (line : Z) (fmt : list byte) (out : option (list byte)) (a : bstr)
    : Z * bstr :=
  let a := spec_head func line a in
  let r := if bool_decide (fmt <> []) then spec_format true out a else (0, a) in
  if r.1 <? 0 then r else (r.1, (spec_stripchars true msg_strip r.2).2).

Lemma head_refines fp func line b a :
  represents b a -> text_is fp func -> zlen func <= LONG_MAX ->
  exists b', (if bool_decide (func <> []) then
           '(_, b) ← sancus_buffer_appendz (Some b) fp;
           b ← deref b;
           b ← (if negb (line =? 0) then appendf' b (lit ":" ++ fmt_u line) else Ret b);
           append' b (lit ": ")
         else Ret b) = Ret b' /\ represents b' (spec_head func line a).
Proof.
  intros Hrep Hf Hl. unfold spec_head. case_bool_decide as Hne; [|by exists b].
  destruct Hf as [[_ ->]|[-> Hn]]; [done|].
  destruct (appendz_refines false func b a Hrep Hn Hl) as (b1 & E1 & R1).
  unfold sancus_buffer_appendz. rewrite E1. run. simpl deref. run. destruct (negb (line =? 0)).
  - destruct (appendf'_refines (lit ":" ++ fmt_u line) b1 _ R1) as (b2 & E2 & R2).
    rewrite E2. run. by apply append'_refines.
  - run. by apply append'_refines.
Qed.

Lemma log_fmt_refines fp func line gp fmt out b a :
  represents b a -> text_is fp func -> zlen func <= LONG_MAX -> text_is gp fmt ->
  exists b', log_fmt b fp line gp out = Ret ((spec_log_fmt func line fmt out a).1, b') /\
    represents b' (spec_log_fmt func line fmt out a).2.
Proof.
  intros Hrep Hf Hl Hg. unfold log_fmt, spec_log_fmt.
  rewrite (c_given_spec _ _ Hf), (c_given_spec _ _ Hg). run. cbv zeta.
  destruct (head_refines fp func line b a Hrep Hf Hl) as (b1 & E1 & R1). rewrite E1. run.
  assert (exists b2 r, (if bool_decide (fmt <> []) then
       '(rc, b) ← sancus_buffer__appendv (Some b1) true out; b ← deref b; Ret (rc, b)
     else Ret (0, b1)) = Ret (r.1, b2) /\ represents b2 r.2 /\
     r = (if bool_decide (fmt <> []) then spec_format true out (spec_head func line a)
          else (0, spec_head func line a))) as (b2 & r & E2 & R2 & Er).
  { destruct (bool_decide (fmt <> [])).
    - destruct (format_refines true out b1 _ R1) as (b2 & E2 & R2). unfold sancus_buffer__appendf in E2.
      rewrite E2. run. simpl deref. run. by eexists _, (spec_format true out (spec_head func line a)).
    - by exists b1, (0, spec_head func line a). }
  rewrite E2, <- Er. run. cbn [fst snd]. destruct (r.1 <? 0); [by exists b2|].
  destruct (stripchars_refines true msg_strip b2 _ R2) as (b3 & E3 & R3).
  - unfold no_nul. apply (bool_decide_unpack _). vm_compute. exact I.
  - vm_compute; discriminate.
  - unfold sancus_buffer_stripany. fold msg_strip. rewrite E3. run. simpl deref. run. by exists b3.
Qed.

(** ** Trimming *)

Lemma trim_loop_spec n m base :
  0 <= base -> base + Z.of_nat n <= zlen m ->
  trim_loop n m base = Ret (zlen (rstrip is_blank (sub m base (Z.of_nat n)))).
Proof.
  intros Hb. induction n as [|n IH]; intros Hn; cbn [trim_loop]; [by rewrite sub_nil by lia|].
  destruct (load1_ok m (base + Z.of_nat n)) as (c & Hc & Hl); [lia|]. rewrite Hc. run.
  rewrite Nat2Z.inj_succ, <- Z.add_1_r, (sub_snoc _ _ _ c), rstrip_snoc by (lia || done).
  destruct (is_blank c); [apply IH; lia|].
  rewrite zlen_app, zlen_sub by lia. done.
Qed.

Lemma rstrip_sub {A} (p : A -> bool) (l : list A) : sub l 0 (zlen (rstrip p l)) = rstrip p l.
Proof.
  destruct (rstrip_prefix p l) as (r & Hr & _). rewrite Hr at 1.
  by rewrite sub_app_l, sub_all by (pose proof (zlen_nonneg (rstrip p l)); lia).
Qed.

Lemma trim_refines b a :
  represents b a ->
  log_buffer_trim (Some b) =
    Ret (zlen (rstrip is_blank (s_data a)), rstrip is_blank (s_data a)).
Proof.
  intros Hrep. pose proof (rep_wf _ _ Hrep) as Hwf. unfold buffer_wf in Hwf.
  pose proof (rep_data _ _ Hrep) as Hd. unfold log_buffer_trim.
  rewrite trim_loop_spec by lia. run. rewrite Z2Nat.id by lia. fold (content b). rewrite Hd.
  destruct (rstrip_prefix is_blank (s_data a)) as (r & Hr & _).
  pose proof (rep_len _ _ Hrep) as Hlen. pose proof (f_equal zlen Hr) as Hz. rewrite zlen_app in Hz.
  pose proof (zlen_nonneg r). pose proof (zlen_nonneg (rstrip is_blank (s_data a))).
  rewrite load_ok by lia. run. do 2 f_equal. rewrite <- (rstrip_sub is_blank (s_data a)) at 2.
  rewrite <- Hd at 2. unfold content. by rewrite sub_sub, Z.add_0_r by lia.
Qed.

(** A message that [log_fmt] stripped has nothing left to trim. *)
Lemma trim_stripped d : rstrip is_blank (stripped true msg_strip d) = stripped true msg_strip d.
Proof.
  induction d as [|x d IH] using rev_ind; [done|]. rewrite stripped_snoc.
  case_bool_decide as Hx; [done|]. rewrite rstrip_snoc. destruct (is_blank x) eqn:Hb; [|done].
  exfalso. apply Hx. unfold is_blank in Hb. rewrite !orb_true_iff, !bool_decide_eq_true in Hb.
  by destruct Hb as [[->| ->]| ->]; apply (bool_decide_unpack _); vm_compute.
Qed.

(** ** Lines of the fd backend *)

(** Prefix, message and data, separated by colons, and the end of the line. *)
Definition line_body (p m d : list byte) : list byte :=
  (if decide (p = []) then [] else p ++ (if decide (m = [] /\ d = []) then [] else lit ": ")) ++
  (if decide (m = []) then [] else m ++ (if decide (d = []) then [] else lit ": ")) ++
  d ++ [Byte.x0a].

Lemma zlen_eqb_nil (s : list byte) : (zlen s =? 0) = bool_decide (s = []).
Proof.
  destruct s as [|x s]; [done|]. rewrite bool_decide_false by done. apply Z.eqb_neq.
  rewrite zlen_cons. pose proof (zlen_nonneg s). lia.
Qed.

Lemma iov_wf_log s : s <> [] -> iov_wf (log_iov s) /\ iov_view (log_iov s) = s.
Proof.
  intros Hs. unfold iov_wf, iov_view; cbn. rewrite sub_all. split; [|done].
  destruct s as [|x s]; [done|]. rewrite zlen_cons. pose proof (zlen_nonneg s). lia.
Qed.

Lemma iov_wf_buffer b a : represents b a -> s_data a <> [] -> iov_wf (log_iov2 b) /\ iov_view (log_iov2 b) = s_data a.
Proof.
  intros Hrep Hne. pose proof (rep_wf _ _ Hrep) as Hwf. unfold buffer_wf in Hwf.
  unfold iov_view, iov_wf; cbn. split; [|apply Hrep].
  pose proof (rep_len _ _ Hrep). destruct (s_data a) as [|x s]; [done|].
  rewrite zlen_cons in H. pose proof (zlen_nonneg s). lia.
Qed.

(** The vector of a line: at most the seven entries there is room for, none of
    them empty, and together the line. *)
Lemma log_iovs_ok b a p m d :
  represents b a -> s_data a <> [] ->
  let vs := log_iovs b p m d in
  Forall iov_wf vs /\ iov_all vs = s_data a ++ line_body p m d /\ (length vs <= 7)%nat.
Proof.
  intros Hrep Hne. cbv zeta. destruct (iov_wf_buffer b a Hrep Hne) as [Hw Hv].
  unfold log_iovs, line_body. rewrite !zlen_eqb_nil.
  pose proof (iov_wf_log p). pose proof (iov_wf_log m). pose proof (iov_wf_log d).
  destruct (iov_wf_log (lit ": ")) as [Hsw Hsv]; [done|].
  destruct (iov_wf_log [Byte.x0a]) as [Hnw Hnv]; [done|].
  set (sep := log_iov (lit ": ")) in *. set (nl := log_iov [Byte.x0a]) in *.
  repeat (case_bool_decide; subst; try done); repeat (case_decide; try (exfalso; tauto));
    cbn [negb orb];
    cbn [app]; unfold iov_all; cbn [mbind list_bind];
    repeat match goal with H : ?x <> [] -> _ |- _ => first [specialize (H ltac:(assumption)); destruct H | clear H] end;
    (split_and!; [repeat (apply Forall_cons_2; [assumption|]); try apply Forall_nil_2| |simpl; lia]);
    repeat match goal with H : iov_view _ = _ |- _ => rewrite H; clear H end;
    rewrite ?app_nil_r, <- ?app_assoc; done.
Qed.

(** A kernel that takes the whole vector at once. *)
Lemma writev_at_once fd vs r rs t e :
  Forall iov_wf vs -> vs <> [] -> ret r = zlen (iov_all vs) ->
  exists xs, sancus_writev fd vs (zlen vs) (World (r :: rs) t e) =
      Ret (ret r, World rs (t ++ [(SysWritev fd xs, r)]) e) /\ concat xs = iov_all vs.
Proof.
  intros Hwf Hne Hr.
  assert (0 < ret r).
  { rewrite Hr. pose proof (zlen_nonneg (iov_all vs)). destruct (decide (zlen (iov_all vs) = 0)); [|lia].
    exfalso. apply Hne. apply iov_all_pos; [done|lia]. }
  assert (forall vs, Forall iov_wf vs -> at_boundary (zlen (iov_all vs)) vs = true) as Hb.
  { clear. induction 1 as [|v vs Hv Hvs IH]; [done|]. cbn [at_boundary].
    rewrite iov_all_cons, zlen_app, zlen_view by done. apply orb_true_iff. right.
    pose proof (zlen_nonneg (iov_all vs)). rewrite (proj2 (Z.leb_le _ _)) by lia. cbn [andb].
    replace (_ - _) with (zlen (iov_all vs)) by lia. done. }
  destruct (gather_ok vs Hwf) as (xs & Eg & Ec).
  destruct (consume_boundary (ret r) (ret r) vs Hwf) as (vs' & Econ & Hwf' & _ & Eall); [by rewrite Hr, Hb|lia|].
  rewrite <- Hr, Z.sub_diag, sub_nil in Eall by lia.
  assert (vs' = []) as -> by (apply iov_all_pos; [done|by rewrite Eall]).
  exists xs. split; [|done]. unfold sancus_writev. rewrite (proj2 (Z.ltb_ge (zlen vs) 0)) by apply zlen_nonneg.
  unfold patience. cbn [script length writev_loop]. destruct vs as [|v vs0]; [done|].
  rewrite (lift_bind _ xs) by done. rewrite sys_bind. cbv zeta.
  rewrite Z.gtb_ltb, (proj2 (Z.ltb_lt 0 (ret r))) by lia. rewrite (lift_bind _ []) by done.
  rewrite (proj2 (Z.ltb_ge (ret r) 0)) by lia. by rewrite Z.add_0_l.
Qed.

(** The letter of a level, or its number. *)
Definition level_text (level : Z) : list byte :=
  default (fmt_u level ++ lit "/") ((fun c => c :: lit "/") <$> (if level <? 6 then levels !! Z.to_nat level else None)).

Lemma log_level_text_spec level : 0 <= level -> log_level_text level = Ret (level_text level).
Proof.
  intros Hl. unfold log_level_text, level_text. change (zlen levels) with 6.
  destruct (Z.ltb_spec level 6); [|done].
  destruct (load1_ok levels level) as (c & -> & ->); [change (zlen levels) with 6; lia|done].
Qed.

(** The tag of a level of the enumeration is short and never empty. *)
Lemma level_text_len level : 0 <= level < 9 -> zlen (level_text level) = 2.
Proof.
  intros Hl.
  assert (level = 0 \/ level = 1 \/ level = 2 \/ level = 3 \/ level = 4 \/ level = 5 \/ level = 6 \/ level = 7 \/ level = 8) as Hc by lia.
  by destruct Hc as [->|[->|[->|[->|[->|[->|[->|[->| ->]]]]]]]].
Qed.

(** A line of the fd backend that the kernel takes at once. *)
Lemma fd_write_spec st level p m d ts g r rs t e :
  stamping st -> clock_shows g ts -> in_time st ts -> 0 <= level < 9 ->
  let line := stamp st ts ++ level_text level ++ line_body p m d in
  ret r = zlen line -> zlen line <= INT_MAX ->
  exists xs, fd_logger_write st level p m d (World (g :: r :: rs) t e) =
      Ret ((zlen line, stamped_state st ts),
           World rs (t ++ [(SysGettime, g); (SysWritev (fdb_fd st) xs, r)]) e) /\ concat xs = line.
Proof.
  intros Hst Hg Hin Hl line Hr Hmax. unfold fd_logger_write.
  destruct (log_stamp_spec st ts g (r :: rs) t e Hst Hg Hin) as (b & Es & Hb0).
  rewrite (io_bind_eq _ _ _ _ _ Es), (lift_bind _ _ _ _ (log_level_text_spec level ltac:(lia))).
  destruct (appendf'_refines (level_text level) _ _ Hb0) as (b1 & E & Hb).
  rewrite (lift_bind _ _ _ _ E). cbv zeta. pose proof (level_text_len level Hl) as Hll. pose proof (stamp_len st ts Hin).
  rewrite format_fits in Hb by (unfold LOG_PRELUDE_SIZE; bounds).
  assert (stamp st ts ++ level_text level <> []) as Hne by done.
  destruct (log_iovs_ok b1 _ p m d Hb Hne) as (Hwf & Hall & _). cbn [s_data] in Hall.
  rewrite <- app_assoc in Hall. fold line in Hall.
  destruct (writev_at_once (fdb_fd st) _ r rs (t ++ [(SysGettime, g)]) e Hwf) as (xs & Ew & Hxs); [done|by rewrite Hall|].
  exists xs. split; [|by rewrite Hxs]. cbn [stamped_state fdb_fd].
  rewrite (io_bind_eq _ _ _ _ _ Ew), io_mret, swrap_id, Hr, <- app_assoc; [done|lia|].
  rewrite Hr. pose proof (zlen_nonneg line). bounds.
Qed.

(** ** Finding the backend *)

Definition has_backend (l : logger) : bool :=
  match l_backend l with Some (Backend (Some _)) => true | _ => false end.

(** The nearest backend of the chain, or the default one. *)
Fixpoint nearest_backend (ls : list (Z * logger)) (fallback : dest) : dest :=
  match ls with
  | [] => fallback
  | (_, l) :: ls =>
      match l_backend l with
      | Some (Backend (Some f)) => UserBackend (Backend (Some f))
      | _ => nearest_backend ls fallback
      end
  end.

Lemma find_backend_spec fuel h log ls fallback :
  chain h log ls -> (length ls < fuel)%nat ->
  find_backend fuel h log fallback = Ret (nearest_backend ls fallback).
Proof.
  intros Hc. revert fuel. induction Hc as [|a l ls Hl Hls IH]; intros fuel Hf;
    (destruct fuel as [|fuel]; [simpl in Hf; lia|]); cbn [find_backend nearest_backend]; [done|].
  rewrite Hl. simpl deref. run. simpl in Hf. destruct (l_backend l) as [[[f|]]|]; [done|..]; apply IH; lia.
Qed.

Lemma find_backend_chain h log ls fallback :
  chain h log ls -> log_find_backend h log fallback = Ret (nearest_backend ls fallback).
Proof. intros Hc. apply find_backend_spec; [done|]. pose proof (chain_size _ _ _ Hc). lia. Qed.

(** ** A printed line *)

(** [log_write] of texts that are not all blank. *)
Lemma log_write_spec h st ctx ls level pb mb ob p m d w :
  chain h ctx ls -> represents pb p -> represents mb m -> log_buffer_trim ob = Ret (zlen d, d) ->
  zlen (s_data p) + zlen (s_data m) + zlen d <= INT_MAX ->
  let tp := rstrip is_blank (s_data p) in
  let tm := rstrip is_blank (s_data m) in
  tp ++ tm ++ d <> [] ->
  log_write h st ctx level (Some pb) (Some mb) ob w =
    call_backend st (nearest_backend ls (default_backend st)) level tp tm d w.
Proof.
  intros Hc Hp Hm Hd Hmax tp tm Hne. unfold log_write.
  rewrite (lift_bind _ _ _ _ (trim_refines pb p Hp)), (lift_bind _ _ _ _ (trim_refines mb m Hm)).
  rewrite (lift_bind _ _ _ _ Hd). cbn [fst snd]. fold tp tm.
  assert (forall s : list byte, zlen (rstrip is_blank s) <= zlen s) as Hle.
  { intros s. destruct (rstrip_prefix is_blank s) as (r & E & _). rewrite E at 2. rewrite zlen_app.
    pose proof (zlen_nonneg r). lia. }
  pose proof (Hle (s_data p)). pose proof (Hle (s_data m)). fold tp in H. fold tm in H0.
  pose proof (zlen_nonneg tp). pose proof (zlen_nonneg tm). pose proof (zlen_nonneg d).
  rewrite uwrap_id by bounds.
  assert (negb (zlen tp + zlen tm + zlen d =? 0) = true) as ->.
  { apply negb_true_iff, Z.eqb_neq. intros E. apply Hne.
    by rewrite (zlen_zero tp), (zlen_zero tm), (zlen_zero d) by lia. }
  rewrite (lift_bind _ _ _ _ (find_backend_chain h ctx ls _ Hc)). done.
Qed.

(** The text in front of a message. *)
Definition head_text (func : list byte) (line : Z) : list byte :=
  if decide (func = []) then []
  else func ++ (if line =? 0 then [] else lit ":" ++ fmt_u line) ++ lit ": ".

(** A message that fits is not cut. *)
Lemma spec_log_fmt_fits func line fmt text size :
  zlen (head_text func line) + zlen text < size -> size <= INT_MAX -> (fmt = [] -> text = []) ->
  spec_log_fmt func line fmt (Some text) (mk_bstr [] 0 size size) =
    (zlen text, mk_bstr (stripped true msg_strip (head_text func line ++ text)) 0 size size).
Proof.
  intros Hfit Hmax Hempty. pose proof (zlen_nonneg text).
  assert (spec_head func line (mk_bstr [] 0 size size) = mk_bstr (head_text func line) 0 size size) as Eh.
  { unfold spec_head, head_text in *. case_bool_decide; case_decide; try done.
    rewrite !zlen_app in Hfit. change (zlen (lit ": ")) with 2 in Hfit.
    pose proof (zlen_nonneg (if line =? 0 then [] else lit ":" ++ fmt_u line)).
    assert (forall x d, zlen d + zlen x < size ->
      (spec_append false x (mk_bstr d 0 size size)).2 = mk_bstr (d ++ x) 0 size size /\
      (spec_format false (Some x) (mk_bstr d 0 size size)).2 = mk_bstr (d ++ x) 0 size size) as Hstep.
    { intros x d Hx. pose proof (zlen_nonneg x). pose proof (zlen_nonneg d).
      unfold spec_append, spec_format, s_room. cbn [s_cap s_off s_data].
      rewrite (proj2 (Z.leb_le (zlen x) _)), (proj2 (Z.leb_gt _ 0)), Z.gtb_ltb by lia.
      rewrite (proj2 (Z.ltb_ge INT_MAX _)), (proj2 (Z.ltb_lt (zlen x) _)) by lia. done. }
    cbv zeta. destruct (Hstep func []) as [-> _]; [change (zlen []) with 0; lia|]. cbn [app].
    destruct (Z.eqb_spec line 0); cbn [negb] in *.
    - change (zlen []) with 0 in *. destruct (Hstep (lit ": ") func) as [-> _]; [change (zlen (lit ": ")) with 2; lia|done].
    - destruct (Hstep (lit ":" ++ fmt_u line) func) as [_ ->]; [lia|].
      destruct (Hstep (lit ": ") (func ++ lit ":" ++ fmt_u line)) as [-> _];
        [change (zlen (lit ": ")) with 2; rewrite zlen_app; lia|]. by rewrite <- !app_assoc. }
  unfold spec_log_fmt. rewrite Eh. cbv zeta.
  assert ((if bool_decide (fmt <> []) then spec_format true (Some text) (mk_bstr (head_text func line) 0 size size)
           else (0, mk_bstr (head_text func line) 0 size size))
    = (zlen text, mk_bstr (head_text func line ++ text) 0 size size)) as ->.
  { case_bool_decide as Hf.
    - unfold spec_format, s_room. cbn [s_cap s_off s_data].
      rewrite (proj2 (Z.leb_gt _ 0)), Z.gtb_ltb, (proj2 (Z.ltb_ge INT_MAX _)), (proj2 (Z.ltb_lt (zlen text) _)) by
        (pose proof (zlen_nonneg (head_text func line)); lia). done.
    - assert (fmt = []) as -> by (by destruct fmt). rewrite Hempty by done. by rewrite app_nil_r. }
  cbn [fst snd]. rewrite (proj2 (Z.ltb_ge (zlen text) 0)) by lia. done.
Qed.

(** The message of a call: what the caller prints, with what [log_fmt] strips
    from its end removed. *)
Definition message (func : list byte) (line : Z) (text : list byte) : list byte :=
  stripped true msg_strip (head_text func line ++ text).

(** A call whose prefix and message the buffers hold. *)
Record call_ok (h : loggers) (ctx : option Z) (ls : list (Z * logger)) (fp gp : option (list byte))
    (func fmt text pfx : list byte) (line : Z) : Prop := {
  co_chain : chain h ctx ls;
  co_static : static_prefix ls;
  co_prefix : prefix_is ls pfx;
  co_not_128 : zlen pfx <> LOG_PREFIX_SIZE;
  co_prefix_len : zlen pfx <= LONG_MAX;
  co_func : text_is fp func;
  co_fmt : text_is gp fmt;
  co_text : fmt = [] -> text = [];
  co_fits : zlen (head_text func line) + zlen text < LOG_MESSAGE_SIZE
}.

(** What is printed in front of the message: the first 127 bytes of the
    prefix, without trailing blanks. *)
Definition shown_prefix (pfx : list byte) : list byte := rstrip is_blank (sub pfx 0 127).

Lemma shown_prefix_len pfx : zlen (shown_prefix pfx) <= 127.
Proof.
  unfold shown_prefix. destruct (rstrip_prefix is_blank (sub pfx 0 127)) as (k & Hk & _).
  apply (f_equal zlen) in Hk. rewrite zlen_app, zlen_sub_min in Hk by lia. pose proof (zlen_nonneg k). lia.
Qed.

Lemma message_len func line text :
  zlen (head_text func line) + zlen text < LOG_MESSAGE_SIZE -> zlen (message func line text) <= 255.
Proof.
  unfold LOG_MESSAGE_SIZE. intros Hfit.
  unfold message. destruct (stripped_prefix true msg_strip (head_text func line ++ text)) as (k & Hk & ->).
  rewrite zlen_app in Hk. rewrite zlen_sub; rewrite ?zlen_app; lia.
Qed.

(** The two buffers every entry point prepares. *)
Lemma call_prepares h ctx ls fp gp func fmt text pfx line :
  call_ok h ctx ls fp gp func fmt text pfx line ->
  exists pb mb rc,
    log_ctx_prefix2 h ctx (DECL_SANCUS_LBUFFER LOG_PREFIX_SIZE) = Ret (rc, pb) /\ 0 <= rc /\
    represents pb (mk_bstr (sub pfx 0 127) 0 LOG_PREFIX_SIZE LOG_PREFIX_SIZE) /\
    log_fmt (DECL_SANCUS_LBUFFER LOG_MESSAGE_SIZE) fp line gp (Some text) = Ret (zlen text, mb) /\
    represents mb (mk_bstr (message func line text) 0 LOG_MESSAGE_SIZE LOG_MESSAGE_SIZE).
Proof.
  intros [Hc Hst Hp Hn Hl Hf Hg Hempty Hfit].
  destruct (ctx_prefix2_spec h ctx ls pfx LOG_PREFIX_SIZE Hc Hst Hp Hn) as (pb & Ep & Rp);
    [unfold LOG_PREFIX_SIZE; bounds|done|].
  pose proof (lbuffer_represents LOG_MESSAGE_SIZE ltac:(unfold LOG_MESSAGE_SIZE; bounds)) as Rm0.
  assert (zlen func <= LONG_MAX) as Hfunc.
  { unfold head_text in Hfit. case_decide; [subst func; vm_compute; discriminate|].
    rewrite !zlen_app in Hfit. pose proof (zlen_nonneg text). pose proof (zlen_nonneg (lit ": ")).
    pose proof (zlen_nonneg (if line =? 0 then [] else lit ":" ++ fmt_u line)).
    unfold LOG_MESSAGE_SIZE in Hfit. bounds. }
  destruct (log_fmt_refines fp func line gp fmt (Some text) _ _ Rm0 Hf Hfunc Hg) as (mb & Em & Rm).
  rewrite (spec_log_fmt_fits _ _ _ _ _ Hfit) in Em, Rm by (done || (unfold LOG_MESSAGE_SIZE; bounds)).
  cbn [fst snd] in *. exists pb, mb, (zlen (rendered pfx LOG_PREFIX_SIZE)).
  split_and!; [done|apply zlen_nonneg|exact Rp|done|done].
Qed.

(** [sancus_logger__vprintf] hands one line to the backend that is nearest. *)
Lemma vprintf_spec h st ctx ls level fp func line gp fmt text pfx w :
  call_ok h ctx ls fp gp func fmt text pfx line ->
  let p := shown_prefix pfx in
  let m := message func line text in
  p ++ m <> [] ->
  sancus_logger__vprintf h st ctx level fp line gp (Some text) w =
    (r ← call_backend st (nearest_backend ls (default_backend st)) (level_bit level) p m [];
     mret (s32 r.1, r.2) : io (Z * lstate)) w.
Proof.
  intros Hok p m Hne. unfold sancus_logger__vprintf. cbv zeta.
  destruct (call_prepares _ _ _ _ _ _ _ _ _ _ Hok) as (pb & mb & rc & Ep & Hrc & Rp & Em & Rm).
  rewrite (lift_bind _ _ _ _ Ep), (proj2 (Z.ltb_ge _ 0)) by lia. pose proof (zlen_nonneg text).
  rewrite (lift_bind _ _ _ _ Em), (proj2 (Z.ltb_ge (zlen text) 0)) by lia.
  pose proof (message_len _ _ _ (co_fits _ _ _ _ _ _ _ _ _ _ Hok)).
  pose proof (log_write_spec h st ctx ls (level_bit level) pb mb None _ _ [] w
    (co_chain _ _ _ _ _ _ _ _ _ _ Hok) Rp Rm eq_refl) as Hw. cbn [s_data] in Hw.
  rewrite zlen_sub_min in Hw by lia. change (zlen []) with 0 in Hw. fold (shown_prefix pfx) in Hw. fold p m in Hw.
  replace (rstrip is_blank m) with m in Hw by (symmetry; apply trim_stripped).
  rewrite app_nil_r in Hw. fold m in H0. specialize (Hw ltac:(bounds) Hne). unfold mbind, io_bind. rewrite Hw. done.
Qed.

(** A call whose line the kernel takes at once. *)
Lemma printf_line (h : loggers) (st : lstate) (ctx : option Z) (ls : list (Z * logger))
    (level : sancus_log_level) (fp gp : option (list byte)) (func fmt text pfx : list byte) (line : Z)
    (ts : timespec) (g r : answer) (rs : list answer) (t : list event) (e : Z)
    (Hok : call_ok h ctx ls fp gp func fmt text pfx line) (Hb : Forall (fun q => has_backend q.2 = false) ls)
    (Hd : default_backend st = FdBackend) (Hst : stamping st) (Hg : clock_shows g ts) (Hin : in_time st ts) :
  let p := shown_prefix pfx in
  let m := message func line text in
  let out := stamp st ts ++ level_text (level_bit level) ++ line_body p m [] in
  p ++ m <> [] -> ret r = zlen out ->
  exists xs, sancus_logger__printf h st ctx level fp line gp (Some text) (World (g :: r :: rs) t e) =
      Ret ((zlen out, stamped_state st ts),
           World rs (t ++ [(SysGettime, g); (SysWritev (fdb_fd st) xs, r)]) e) /\ concat xs = out.
Proof.
  intros p m out Hne Hr. unfold sancus_logger__printf.
  rewrite (vprintf_spec h st ctx ls level fp func line gp fmt text pfx) by done. fold p m.
  assert (nearest_backend ls (default_backend st) = FdBackend) as ->.
  { rewrite Hd. clear -Hb. induction Hb as [|[a l] ls Hl Hb IH]; [done|]. cbn [nearest_backend].
    unfold has_backend in Hl. cbn [snd] in Hl. by destruct (l_backend l) as [[[f|]]|]. }
  cbn [call_backend]. pose proof (shown_prefix_len pfx) as Hpl. fold p in Hpl.
  pose proof (message_len _ _ _ (co_fits _ _ _ _ _ _ _ _ _ _ Hok)) as Hml. fold m in Hml.
  assert (zlen out <= 1000) as Hmax.
  { unfold out, line_body. rewrite !zlen_app. pose proof (stamp_len st ts Hin).
    assert (zlen (level_text (level_bit level)) <= 2) by (by destruct level).
    change (zlen [Byte.x0a]) with 1. change (zlen []) with 0.
    repeat case_decide; rewrite ?zlen_app; change (zlen []) with 0; change (zlen (lit ": ")) with 2; lia. }
  destruct (fd_write_spec st (level_bit level) p m [] ts g r rs t e Hst Hg Hin) as (xs & Ew & Hxs);
    [by destruct level|exact Hr|change (zlen out <= INT_MAX); bounds|]. exists xs. split; [|exact Hxs].
  rewrite (io_bind_eq _ _ _ _ _ Ew), io_mret. cbn [fst snd]. fold out. pose proof (zlen_nonneg out).
  by rewrite swrap_id by bounds.
Qed.

(** C17. A [sancus_log_*] call on a logger without backends of its own, with
    the fd backend as default, asks the clock for the time and then writes one
    line with one [writev]: the timestamp, the letter of the level, the
    nearest prefix up the chain (its first 127 bytes), the function and line of
    the caller, and the message, trimmed and separated by colons; the result is
    the line's length, and the time is remembered for the next line.  This
    is for calls with something to print, and with static prefixes, where the prefix is not of
    exactly 128 bytes (which overruns its buffer) and function, line and
    message take fewer than 256 bytes together; for the system clock, at a
    time within 2^31 s of the lines before; and for a kernel that takes the
    line at once ([sancus_writev] deals with the rest). *)
Theorem printf_writes_line (h : loggers) (st : lstate) (ctx : option Z) (ls : list (Z * logger))
    (level : sancus_log_level) (fp gp : option (list byte)) (func fmt text pfx : list byte) (line : Z)
    (ts : timespec) (g r : answer) (rs : list answer) (t : list event) (e : Z)
    (Hok : call_ok h ctx ls fp gp func fmt text pfx line) (Hb : Forall (fun q => has_backend q.2 = false) ls)
    (Hd : default_backend st = FdBackend) (Hst : stamping st) (Hg : clock_shows g ts) (Hin : in_time st ts) :
  let p := shown_prefix pfx in
  let m := message func line text in
  let out := stamp st ts ++ level_text (level_bit level) ++ line_body p m [] in
  p ++ m <> [] -> ret r = zlen out ->
  exists xs, sancus_logger__printf h st ctx level fp line gp (Some text) (World (g :: r :: rs) t e) =
      Ret ((zlen out, stamped_state st ts),
           World rs (t ++ [(SysGettime, g); (SysWritev (fdb_fd st) xs, r)]) e) /\ concat xs = out.
Proof. intros p m out. by apply (printf_line h st ctx ls level fp gp func fmt text pfx line). Qed.

Lemma sample_call : call_ok sample_loggers (Some 2) sample_chain (Some (cstr (lit "main")))
    (Some (cstr (lit "x=%d "))) (lit "main") (lit "x=%d ") (lit "x=1 ") (lit "app") 7.
Proof.
  assert (forall s, bool_decide (no_nul s) = true -> text_is (Some (cstr s)) s) as Ht.
  { intros s H%bool_decide_eq_true. by right. }
  constructor.
  - exact sample_chain_ok.
  - repeat constructor.
  - by apply (Ht (lit "app")).
  - vm_compute; discriminate.
  - vm_compute; discriminate.
  - by apply Ht.
  - by apply Ht.
  - discriminate.
  - vm_compute; reflexivity.
Defined.

(** The clock at a time. *)
Definition clock_at (s ns : Z) : answer := Answer 0 0 [] [s; ns].

Lemma printf_writes_line_witness :
  let out := lit "[0.000 +0.000] W/app: main:7: x=1" ++ [Byte.x0a] in
  exists xs, sancus_logger__printf sample_loggers lstate0 (Some 2) SANCUS_LOG_WARN_BIT
      (Some (cstr (lit "main"))) 7 (Some (cstr (lit "x=%d "))) (Some (lit "x=1 "))
      (World [clock_at 100 0; ok 34] [] 0) =
      Ret ((34, LState FdBackend 2 true (mk_ts 100 0) (mk_ts 100 0) None),
           World [] ([] ++ [(SysGettime, clock_at 100 0); (SysWritev 2 xs, ok 34)]) 0) /\ concat xs = out.
Proof.
  eapply (printf_writes_line sample_loggers lstate0 (Some 2) sample_chain SANCUS_LOG_WARN_BIT
    (Some (cstr (lit "main"))) (Some (cstr (lit "x=%d "))) (lit "main") (lit "x=%d ") (lit "x=1 ") (lit "app") 7
    (mk_ts 100 0) (clock_at 100 0) (ok 34) [] [] 0 sample_call);
    first [reflexivity|by repeat constructor|by split|vm_compute; discriminate|split; [by split|discriminate]].
Defined.

(** ** Timestamps *)

(** C20. Every line of the fd backend starts with the time since the first line
    and since the previous one, in seconds and milliseconds; both are zero, and
    the count starts anew, on the first line and when the clock has gone back
    behind the time the count started at.  A clock that has gone back less
    than that makes the second time wrong ([shown_delta]: the true difference
    when it is not negative, two seconds more than the true one when it is,
    within the same second, and with its sign turned across seconds).  The
    time of the line is remembered for the next one, and the rest of the line
    is the level, prefix, message and data.  The clock is the system's, and
    not 2^31 s away from the first or the previous line. *)
Theorem timestamped_line (st : lstate) (ts : timespec) (level : Z) (p m d : list byte)
    (g r : answer) (rs : list answer) (t : list event) (e : Z)
    (Hst : stamping st) (Hg : clock_shows g ts) (Hin : in_time st ts) (Hl : 0 <= level < 9) :
  let first := since st ts (fdb_first st) in
  let prev := since st ts (fdb_prev st) in
  let line := (lit "[" ++ ms_text first ++ lit " +" ++ ms_text prev ++ lit "] ") ++
              level_text level ++ line_body p m d in
  (restarts st ts = true -> first = 0 /\ prev = 0) /\
  (restarts st ts = false -> first = ns_of ts - ns_of (fdb_first st)) /\
  (restarts st ts = false -> ns_of (fdb_prev st) <= ns_of ts -> prev = ns_of ts - ns_of (fdb_prev st)) /\
  (ret r = zlen line -> zlen line <= INT_MAX ->
   exists xs, fd_logger_write st level p m d (World (g :: r :: rs) t e) =
      Ret ((zlen line, stamped_state st ts),
           World rs (t ++ [(SysGettime, g); (SysWritev (fdb_fd st) xs, r)]) e) /\ concat xs = line).
Proof.
  intros first prev line. split_and!.
  - intros H. unfold first, prev, since. by rewrite H.
  - intros H. unfold first, since. rewrite H. apply shown_delta_exact.
    unfold restarts in H. apply orb_false_iff in H as [_ H%Z.ltb_ge]. lia.
  - intros H Hle. unfold prev, since. rewrite H. by apply shown_delta_exact.
  - by apply (fd_write_spec st level p m d ts g r rs t e).
Qed.

(** The second line of a program, 1.5 s after the first and 20 ms after a
    later one; and a line a millisecond before the previous one. *)
Definition later_state : lstate := LState FdBackend 2 true (mk_ts 100 0) (mk_ts 101 480000000) None.

Lemma timestamped_line_witness :
  (exists xs, fd_logger_write later_state 0 [] (lit "hi") [] (World [clock_at 101 500000000; ok 20] [] 0) =
      Ret ((20, LState FdBackend 2 true (mk_ts 100 0) (mk_ts 101 500000000) None),
           World [] [(SysGettime, clock_at 101 500000000); (SysWritev 2 xs, ok 20)] 0) /\
    concat xs = lit "[1.500 +0.020] E/hi" ++ [Byte.x0a]) /\
  (exists xs, fd_logger_write later_state 0 [] (lit "hi") [] (World [clock_at 101 479000000; ok 20] [] 0) =
      Ret ((20, LState FdBackend 2 true (mk_ts 100 0) (mk_ts 101 479000000) None),
           World [] [(SysGettime, clock_at 101 479000000); (SysWritev 2 xs, ok 20)] 0) /\
    concat xs = lit "[1.479 +1.999] E/hi" ++ [Byte.x0a]).
Proof.
  assert (forall ns, 0 <= ns < NSEC -> in_time later_state (mk_ts 101 ns)) as Hin.
  { intros ns Hns. split; [by split|]. intros _. split; (split_and!; [by split|by split|by split|by split|done|done]). }
  split.
  - destruct (timestamped_line later_state (mk_ts 101 500000000) 0 [] (lit "hi") []
      (clock_at 101 500000000) (ok 20) [] [] 0) as (_ & _ & _ & H); [by split|by split|by apply Hin|lia|].
    by apply H.
  - destruct (timestamped_line later_state (mk_ts 101 479000000) 0 [] (lit "hi") []
      (clock_at 101 479000000) (ok 20) [] [] 0) as (_ & _ & _ & H); [by split|by split|by apply Hin|lia|].
    by apply H.
Defined.
