(* ===== verification/LogDump.v ===== *)
(** * LogDump

    The two dumps of [Logger]: data as a quoted C string that is cut to fit,
    and data in rows of hexadecimal. *)

From stdpp Require Import gmap.
From S2P Require Import Prelude Buffer Time Bits CLib Text Sys Fd Clock Logger LogStamp LogLine.
#[local] Open Scope Z_scope.

(** ** Dumped data *)

(** The escape a dump uses for a byte: the one of [Text.escape], but NUL in
    hexadecimal. *)
Definition dump_escape (c : byte) : list byte := if decide (c = Byte.x00) then lit "\x00" else escape c.

Definition dump_all (s : list byte) : list byte := s ≫= dump_escape.

Lemma dump_char_spec c : dump_char c = Ret (dump_escape c).
Proof. destruct c; reflexivity. Qed.

Lemma dump_escape_len c : 1 <= zlen (dump_escape c) <= 4.
Proof. destruct c; vm_compute; split; discriminate. Qed.

Lemma unescape_dump_escape c r : unescape (dump_escape c ++ r) = c :: unescape r.
Proof. destruct c; reflexivity. Qed.

Lemma unescape_dump_all s : unescape (dump_all s) = s.
Proof.
  induction s as [|c s IH]; [done|]. change (dump_all (c :: s)) with (dump_escape c ++ dump_all s).
  by rewrite unescape_dump_escape, IH.
Qed.

Lemma dump_all_app a b : dump_all (a ++ b) = dump_all a ++ dump_all b.
Proof. apply bind_app. Qed.

Lemma dump_all_len s : zlen s <= zlen (dump_all s) <= 4 * zlen s.
Proof.
  induction s as [|c s IH]; [done|]. change (dump_all (c :: s)) with (dump_escape c ++ dump_all s).
  rewrite zlen_app, zlen_cons. pose proof (dump_escape_len c). lia.
Qed.

(** Appending what there is room for. *)
Lemma spec_append_fits x a t : zlen x <= s_room a -> spec_append t x a = (zlen x, with_data a (s_data a ++ x)).
Proof. intros H. unfold spec_append. by rewrite (proj2 (Z.leb_le _ _) H). Qed.

Lemma room_with_data a x : s_room (with_data a (s_data a ++ x)) = s_room a - zlen x.
Proof. unfold s_room. cbn. rewrite zlen_app. lia. Qed.

Lemma dump_enc_spec b a data p l count :
  represents b a -> 0 <= p -> p + Z.of_nat l <= zlen data ->
  zlen (dump_all (sub data p (Z.of_nat l))) <= s_room a ->
  exists b', dump_enc (Some b) data p l count =
      Ret (count + zlen (dump_all (sub data p (Z.of_nat l))), Some b') /\
    represents b' (with_data a (s_data a ++ dump_all (sub data p (Z.of_nat l)))).
Proof.
  revert b a p count. induction l as [|l IH]; intros b a p count Hrep Hp Hl Hfit; cbn [dump_enc].
  - rewrite sub_nil by lia. change (dump_all []) with (@nil byte). rewrite app_nil_r. change (zlen []) with 0.
    rewrite Z.add_0_r. exists b. split; [done|]. by destruct a.
  - destruct (load1_ok data p) as (c & Hc & Hlk); [lia|]. rewrite Hc. run. rewrite dump_char_spec. run.
    rewrite (sub_cons _ _ _ c) in Hfit |- * by (lia || done).
    replace (Z.of_nat (S l) - 1) with (Z.of_nat l) in * by lia.
    change (dump_all (c :: ?s)) with (dump_escape c ++ dump_all s) in *. rewrite zlen_app in *.
    pose proof (dump_escape_len c). pose proof (zlen_nonneg (dump_all (sub data (p + 1) (Z.of_nat l)))).
    destruct (append_refines false (dump_escape c) b a Hrep ltac:(bounds)) as (b1 & E1 & R1).
    rewrite spec_append_fits in E1, R1 by lia. cbn [fst snd] in *.
    cbv zeta. unfold sancus_buffer_append. rewrite E1. run. rewrite (proj2 (Z.ltb_ge _ 0)) by lia.
    destruct (IH b1 _ (p + 1) (count + zlen (dump_escape c)) R1) as (b2 & E2 & R2);
      [lia|lia|rewrite room_with_data; lia|].
    rewrite E2. exists b2. split; [by rewrite Z.add_assoc|]. by rewrite app_assoc.
Qed.

(** The data buffer after the bytes up to [k]. *)
Definition dump_state (data : list byte) (k : Z) : bstr :=
  mk_bstr (Byte.x22 :: dump_all (sub data 0 k)) 0 LOG_DATA_SIZE LOG_DATA_SIZE.

Lemma dump_state_room data k : s_room (dump_state data k) = 255 - zlen (dump_all (sub data 0 k)).
Proof. unfold s_room, dump_state, LOG_DATA_SIZE. cbn [s_cap s_off s_data]. rewrite zlen_cons. lia. Qed.

Lemma dump_state_grow data k n :
  0 <= k -> 0 <= n -> with_data (dump_state data k) (s_data (dump_state data k) ++ dump_all (sub data k n))
    = dump_state data (k + n).
Proof.
  intros. unfold with_data, dump_state. cbn. by rewrite sub_app_add, dump_all_app, Z.add_0_l by lia.
Qed.

Lemma dump_blocks_spec fuel b data p len :
  represents b (dump_state data p) -> 10 <= s_room (dump_state data p) ->
  0 <= p -> 0 <= len -> p + len <= zlen data -> len <= Z.of_nat fuel -> len <= LONG_MAX ->
  exists cut k b', dump_blocks fuel b data p len = Ret (cut, k, b') /\
    represents b' (dump_state data k) /\ 10 <= s_room (dump_state data k) /\ p <= k <= p + len /\
    (cut = true -> k < p + len /\ s_room (dump_state data k) < 14) /\ (cut = false -> k = p + len).
Proof.
  revert b p len. induction fuel as [|fuel IH]; intros b p len Hrep Hroom Hp Hlen Hd Hf Hm.
  { replace len with 0 by lia. cbn [dump_blocks]. eexists false, p, b.
    split_and!; [done|done|done|lia|lia|done|lia]. }
  cbn [dump_blocks]. rewrite Z.gtb_ltb. destruct (Z.ltb_spec 0 len); cycle 1.
  { eexists false, p, b. split_and!; [done|done|done|lia|lia|done|lia]. }
  destruct (room_tail _ _ Hrep) as [-> Hr]. unfold min_suffix. change (4 + 6) with 10.
  set (room := s_room (dump_state data p)) in *. rewrite uwrap_id by bounds. cbv zeta.
  set (q := (room - 10) / 4). assert (0 <= q /\ 4 * q <= room - 10) as [Hq Hq4].
  { split; [apply Z.div_pos; lia|]. apply Z.mul_div_le. lia. }
  rewrite Z.gtb_ltb. set (n := if q <? len then q else len).
  assert (0 <= n <= q /\ n <= len) as [Hn Hnl] by (unfold n; destruct (Z.ltb_spec q len); lia).
  destruct (Z.eqb_spec n 0) as [Hn0|Hn0].
  { eexists true, p, b. split_and!; [done|done|lia|lia|lia| |done].
    intros _. split; [lia|]. assert (q = 0) as Hq0 by (unfold n in *; destruct (Z.ltb_spec q len); lia).
    unfold q in Hq0. pose proof (Z.mod_pos_bound (room - 10) 4 ltac:(lia)).
    pose proof (Z.div_mod (room - 10) 4 ltac:(lia)). lia. }
  assert (zlen (sub data p n) = n) as Hz by (apply zlen_sub; lia).
  pose proof (dump_all_len (sub data p n)) as Hda.
  destruct (dump_enc_spec b _ data p (Z.to_nat n) 0 Hrep) as (b1 & E1 & R1); rewrite ?Z2Nat.id by lia; [lia|lia|fold room; lia|].
  rewrite Z2Nat.id in E1, R1 by lia. rewrite E1. run. simpl deref. run.
  rewrite dump_state_grow in R1 by lia.
  assert (s_room (dump_state data (p + n)) = room - zlen (dump_all (sub data p n))) as Hr'.
  { rewrite <- dump_state_grow, room_with_data by lia. done. }
  destruct (IH b1 (p + n) (len - n) R1) as (cut & k & b2 & E2 & R2 & Hr2 & Hk & Ht & Hff); [lia..|].
  exists cut, k, b2. split_and!; [done|done|lia|lia|lia|intros Hc; specialize (Ht Hc); lia|intros Hc; specialize (Hff Hc); lia].
Qed.

Lemma dump_enc_one data n c :
  0 <= n -> data !! Z.to_nat n = Some c ->
  dump_enc None data n 1 0 = Ret (zlen (dump_escape c), None).
Proof.
  intros Hn Hc. cbn [dump_enc]. rewrite (load1_lookup _ _ _ Hn Hc). run. rewrite dump_char_spec. by run.
Qed.

(** Taking bytes back until the ellipsis and the suffix fit. *)
Lemma dump_unwind_spec n b data :
  represents b (dump_state data (Z.of_nat n)) -> Z.of_nat n <= zlen data -> 0 <= s_room (dump_state data (Z.of_nat n)) ->
  exists k b', dump_unwind n b data = Ret (k, b') /\ represents b' (dump_state data k) /\
    0 <= k <= Z.of_nat n /\ 13 <= s_room (dump_state data k) /\
    (k < Z.of_nat n -> s_room (dump_state data (k + 1)) < 13).
Proof.
  revert b. induction n as [|n IH]; intros b Hrep Hn Hr; cbn [dump_unwind].
  { exists 0, b. split_and!; [done|done|lia|lia| |lia]. by rewrite dump_state_room. }
  destruct (room_tail _ _ Hrep) as [-> Hroom]. change max_suffix with 13.
  destruct (Z.ltb_spec (s_room (dump_state data (Z.of_nat (S n)))) 13) as [Hlt|Hge].
  2:{ exists (Z.of_nat (S n)), b. split_and!; [done|done|lia|lia|lia|lia]. }
  destruct (lookup_lt_is_Some_2 data n) as [c Hc]; [unfold zlen in Hn; lia|].
  rewrite (dump_enc_one _ _ c) by (lia || by rewrite Nat2Z.id). run.
  pose proof (dump_escape_len c). rewrite uwrap_id by bounds.
  assert (dump_all (sub data 0 (Z.of_nat (S n))) = dump_all (sub data 0 (Z.of_nat n)) ++ dump_escape c) as Hsn.
  { replace (Z.of_nat (S n)) with (Z.of_nat n + 1) by lia.
    rewrite (sub_snoc _ _ _ c), dump_all_app by (lia || by rewrite Z.add_0_l, Nat2Z.id).
    f_equal. unfold dump_all. simpl. apply app_nil_r. }
  pose proof (stripn_refines b _ (zlen (dump_escape c)) Hrep ltac:(lia)) as Hs.
  assert (spec_shrink (dump_state data (Z.of_nat (S n)))
            (sub (s_data (dump_state data (Z.of_nat (S n)))) 0
               (zlen (s_data (dump_state data (Z.of_nat (S n)))) - zlen (dump_escape c)))
          = Ret (zlen (s_data (dump_state data (Z.of_nat n))), dump_state data (Z.of_nat n))) as Esp.
  { cbn [s_data dump_state]. rewrite Hsn, app_comm_cons, zlen_app.
    replace (_ + _ - _) with (zlen (Byte.x22 :: dump_all (sub data 0 (Z.of_nat n)))) by lia.
    rewrite sub_app_l, sub_all by (pose proof (zlen_nonneg (Byte.x22 :: dump_all (sub data 0 (Z.of_nat n)))); lia).
    unfold spec_shrink. rewrite decide_False by done. cbn [s_off s_store s_cap dump_state].
    rewrite dump_state_room in Hr. rewrite Hsn, zlen_app in Hr. unfold LOG_DATA_SIZE.
    rewrite zlen_cons, (proj2 (Z.ltb_lt _ 256)) by lia. done. }
  rewrite Esp in Hs. destruct (sancus_buffer_stripn _ _) as [[v ob]| | |]; try done.
  destruct Hs as (b1 & [= -> ->] & R1). cbn [fst snd] in *. run. simpl deref. run.
  destruct (IH b1 R1) as (k & b2 & E2 & R2 & Hk & Hr2 & Hmax); [lia| |].
  { rewrite dump_state_room in *. rewrite Hsn, zlen_app in Hr. lia. }
  exists k, b2. split_and!; [done|done|lia|lia|lia|]. intros _.
  destruct (decide (k = Z.of_nat n)) as [->|]; [|apply Hmax; lia].
  by replace (Z.of_nat n + 1) with (Z.of_nat (S n)) by lia.
Qed.

(** The suffix of a dump. *)
Definition dump_suffix (n : Z) : list byte := [Byte.x22] ++ lit " (" ++ fmt_u n ++ lit ")".

Definition with_tail (a : bstr) (x : list byte) : bstr := with_data a (s_data a ++ x).

Lemma dump_done_spec b a n :
  represents b a -> 0 < s_room a -> zlen (dump_suffix n) <= INT_MAX ->
  exists rc b', dump_done b n = Ret (rc, b') /\
    (zlen (dump_suffix n) < s_room a -> 0 <= rc /\ represents b' (with_tail a (dump_suffix n))) /\
    (s_room a <= zlen (dump_suffix n) -> rc = - ENOBUFS).
Proof.
  intros Hrep Hr Hmax. unfold dump_done. fold (dump_suffix n).
  destruct (format_refines false (Some (dump_suffix n)) b a Hrep) as (b1 & E1 & R1).
  unfold sancus_buffer_appendf. rewrite E1. run. simpl deref. run. eexists _, b1. split; [done|].
  unfold spec_format in *. rewrite (proj2 (Z.leb_gt _ 0)), Z.gtb_ltb, (proj2 (Z.ltb_ge INT_MAX _)) in * by lia.
  destruct (Z.ltb_spec (zlen (dump_suffix n)) (s_room a)); cbn [fst snd] in *.
  - split; [|lia]. intros _. split; [apply zlen_nonneg|done].
  - split; [lia|done].
Qed.

Definition ellipsis (cut : bool) : list byte := if cut then lit "..." else [].

Lemma dump_data_spec data n :
  0 <= n <= zlen data -> n <= LONG_MAX -> zlen (dump_suffix n) <= INT_MAX ->
  exists cut k rc b, dump_data (DECL_SANCUS_LBUFFER LOG_DATA_SIZE) data n = Ret (rc, b) /\
    0 <= k <= n /\ (cut = false -> k = n) /\
    (cut = true -> s_room (dump_state data k) < 14 \/ s_room (dump_state data (k + 1)) < 13) /\
    let room := s_room (dump_state data k) - zlen (ellipsis cut) in
    10 <= room /\
    (zlen (dump_suffix n) < room ->
       0 <= rc /\ represents b (with_tail (dump_state data k) (ellipsis cut ++ dump_suffix n))) /\
    (room <= zlen (dump_suffix n) -> rc = - ENOBUFS).
Proof.
  intros Hn Hm Hsuf. unfold dump_data.
  pose proof (lbuffer_represents LOG_DATA_SIZE ltac:(unfold LOG_DATA_SIZE; bounds)) as R0.
  destruct (append_refines false [Byte.x22] _ _ R0 ltac:(vm_compute; discriminate)) as (b1 & E1 & R1).
  rewrite spec_append_fits in E1, R1 by (vm_compute; discriminate). cbn [fst snd] in *.
  change (zlen [Byte.x22]) with 1 in E1. unfold sancus_buffer_append. rewrite E1. run. simpl deref. run.
  cbn [Z.ltb Z.compare].
  assert (with_data (mk_bstr [] 0 LOG_DATA_SIZE LOG_DATA_SIZE) (s_data (mk_bstr [] 0 LOG_DATA_SIZE LOG_DATA_SIZE) ++ [Byte.x22])
    = dump_state data 0) as Es by (unfold dump_state; by rewrite sub_nil by lia).
  rewrite Es in R1.
  destruct (dump_blocks_spec (Z.to_nat n) b1 data 0 n R1) as (cut & k & b2 & E2 & R2 & Hr2 & Hk & Hcut & Hall);
    [rewrite dump_state_room, sub_nil by lia; vm_compute; discriminate|lia..|].
  rewrite E2. run. destruct cut.
  - destruct (Hcut eq_refl) as [Hk' Hr14].
    destruct (dump_unwind_spec (Z.to_nat k) b2 data) as (k2 & b3 & E3 & R3 & Hk2 & Hr3 & Hmax);
      rewrite ?Z2Nat.id by lia; [done|lia|lia|]. rewrite E3. run. rewrite Z2Nat.id in Hk2, Hmax by lia.
    destruct (append_refines false (lit "...") b3 _ R3 ltac:(vm_compute; discriminate)) as (b4 & E4 & R4).
    change (zlen (lit "...")) with 3 in E4.
    rewrite spec_append_fits in E4, R4 by (change (zlen (lit "...")) with 3; lia). cbn [fst snd] in *.
    change (zlen (lit "...")) with 3 in E4.
    rewrite E4. run. simpl deref. run. cbn [Z.ltb Z.compare].
    destruct (dump_done_spec b4 _ n R4) as (rc & b5 & E5 & Hok & Hbad);
      [rewrite room_with_data; change (zlen (lit "...")) with 3; lia|done|].
    rewrite room_with_data in Hok, Hbad. rewrite E5. exists true, k2, rc, b5.
    cbn zeta. change (zlen (ellipsis true)) with 3. split_and!; [done|lia|lia|done| |lia| |exact Hbad].
    + intros _. destruct (decide (k2 = k)) as [->|]; [by left|right; apply Hmax; lia].
    + intros Hfit. destruct (Hok Hfit) as [? Hrep]. split; [done|].
      unfold with_tail, with_data in *. cbn [s_data] in *. by rewrite <- app_assoc in Hrep.
  - rewrite (Hall eq_refl) in *.
    destruct (dump_done_spec b2 _ n R2) as (rc & b5 & E5 & Hok & Hbad); [lia|done|].
    rewrite E5. exists false, (0 + n), rc, b5. cbn zeta. change (zlen (ellipsis false)) with 0. rewrite !Z.sub_0_r.
    split_and!; [done|lia|lia|lia|done|done|exact Hok|exact Hbad].
Qed.

(** ** A dumped line *)

(** What the backend is given: the quoted escapes of the first [k] bytes, with
    an ellipsis when bytes were cut, and the length. *)
Definition dump_text (data : list byte) (cut : bool) (k n : Z) : list byte :=
  Byte.x22 :: dump_all (sub data 0 k) ++ ellipsis cut ++ dump_suffix n.

Lemma dump_text_trim data cut k n : rstrip is_blank (dump_text data cut k n) = dump_text data cut k n.
Proof.
  assert (dump_text data cut k n =
    (Byte.x22 :: dump_all (sub data 0 k) ++ ellipsis cut ++ [Byte.x22] ++ lit " (" ++ fmt_u n) ++ [Byte.x29]) as ->.
  { unfold dump_text, dump_suffix. cbn [app]. f_equal. rewrite <- !app_assoc. cbn [app]. by rewrite <- !app_assoc. }
  by rewrite rstrip_snoc.
Qed.

Lemma vdumpf_spec h st ctx ls level fp func line gp fmt text pfx data n w :
  call_ok h ctx ls fp gp func fmt text pfx line ->
  0 <= n <= zlen data -> n <= LONG_MAX -> zlen (dump_suffix n) <= 32 ->
  exists cut k, 0 <= k <= n /\ (cut = false -> k = n) /\
    (cut = true -> s_room (dump_state data k) < 14 \/ s_room (dump_state data (k + 1)) < 13) /\
    let room := s_room (dump_state data k) - zlen (ellipsis cut) in
    10 <= room /\
    sancus_logger__dumpf h st ctx level fp line (Some data) n gp (Some text) w =
      if zlen (dump_suffix n) <? room then
        (r ← call_backend st (nearest_backend ls (default_backend st)) (level_bit level)
               (shown_prefix pfx) (message func line text) (dump_text data cut k n);
         mret (s32 r.1, r.2) : io (Z * lstate)) w
      else Ret ((- ENOBUFS, st), w).
Proof.
  intros Hok Hn Hm Hsuf. unfold sancus_logger__dumpf, sancus_logger__vdumpf. cbv zeta.
  rewrite bool_decide_false by done. cbn [andb default].
  destruct (call_prepares _ _ _ _ _ _ _ _ _ _ Hok) as (pb & mb & rc & Ep & Hrc & Rp & Em & Rm).
  rewrite (lift_bind _ _ _ _ Ep), (proj2 (Z.ltb_ge rc 0)) by lia. pose proof (zlen_nonneg text).
  rewrite (lift_bind _ _ _ _ Em), (proj2 (Z.ltb_ge (zlen text) 0)) by lia.
  destruct (dump_data_spec data n Hn Hm) as (cut & k & rd & db & Ed & Hk & Hall & Hcut & Hroom & Hfit & Hbad); [bounds|].
  change (default [] (Some data)) with data. rewrite (lift_bind _ _ _ _ Ed).
  exists cut, k. split_and!; [lia|lia|done|done|done|].
  destruct (Z.ltb_spec (zlen (dump_suffix n)) (s_room (dump_state data k) - zlen (ellipsis cut))).
  2:{ rewrite (Hbad ltac:(lia)). done. }
  destruct (Hfit ltac:(lia)) as [Hrd Rd]. rewrite (proj2 (Z.ltb_ge rd 0)) by lia.
  pose proof (message_len _ _ _ (co_fits _ _ _ _ _ _ _ _ _ _ Hok)).
  assert (s_data (with_tail (dump_state data k) (ellipsis cut ++ dump_suffix n)) = dump_text data cut k n) as Et
    by reflexivity.
  pose proof (trim_refines _ _ Rd) as Htr. rewrite Et, dump_text_trim in Htr.
  pose proof (log_write_spec h st ctx ls (level_bit level) pb mb (Some db) _ _ _ w
    (co_chain _ _ _ _ _ _ _ _ _ _ Hok) Rp Rm Htr) as Hw. cbn [s_data] in Hw.
  rewrite zlen_sub_min in Hw by lia. fold (shown_prefix pfx) in Hw.
  replace (rstrip is_blank (message func line text)) with (message func line text) in Hw by (symmetry; apply trim_stripped).
  pose proof (rep_len _ _ Rd) as Hlen. rewrite Et in Hlen. pose proof (rep_wf _ _ Rd) as Hwf. unfold buffer_wf in Hwf.
  rewrite (rep_cap _ _ Rd) in Hwf. cbn [s_cap with_tail with_data dump_state] in Hwf. unfold LOG_DATA_SIZE in Hwf.
  specialize (Hw ltac:(bounds)). rewrite app_assoc in Hw.
  specialize (Hw ltac:(intros [_ ?]%app_nil; discriminate)). unfold mbind, io_bind. rewrite Hw. done.
Qed.

(** The decimal length has at most five digits below 100000 and at least six
    from there on. *)
Lemma dump_suffix_len n :
  0 <= n <= ULONG_MAX ->
  zlen (dump_suffix n) <= 24 /\ (n < 100000 -> zlen (dump_suffix n) <= 9) /\ (100000 <= n -> 10 <= zlen (dump_suffix n)).
Proof.
  intros Hn. unfold dump_suffix. rewrite !zlen_app. change (zlen [Byte.x22]) with 1.
  change (zlen (lit " (")) with 2. change (zlen (lit ")")) with 1. unfold fmt_u.
  assert (zlen (dec_digits 20 n) <= 20).
  { pose proof (length_dec_digits 20 20 n). unfold zlen. 
    assert (0 <= n < 10 ^ Z.of_nat 20) by (change (10 ^ Z.of_nat 20) with 100000000000000000000; bounds).
    specialize (H H0 ltac:(lia)). lia. }
  split_and!; [lia| |]; intros H1.
  - pose proof (length_dec_digits 20 5 n ltac:(change (10 ^ Z.of_nat 5) with 100000; lia) ltac:(lia)). unfold zlen. lia.
  - destruct (fmt_u_spec n Hn) as (Hv & Hd & _). unfold fmt_u in *.
    assert (forall ds, Forall (fun b => is_digit b = true) ds -> 0 <= dec_val ds < 10 ^ zlen ds) as Hb.
    { clear. intros ds. induction ds as [|b ds IH] using rev_ind; intros Hd; [done|].
      apply Forall_app in Hd as [Hd Hb%Forall_inv]. specialize (IH Hd). apply is_digit_range in Hb.
      rewrite dec_val_snoc, zlen_app, Z.pow_add_r by (apply zlen_nonneg || done). change (zlen [b]) with 1.
      unfold digit_val. lia. }
    specialize (Hb _ Hd). rewrite Hv in Hb. destruct (decide (zlen (dec_digits 20 n) <= 5)); [|lia].
    assert (10 ^ zlen (dec_digits 20 n) <= 10 ^ 5) by (apply Z.pow_le_mono_r; lia).
    change (10 ^ 5) with 100000 in *. lia.
Qed.

(** C18. [sancus_logger__dumpf] of fewer than 100000 bytes always reaches the
    backend: with the quoted escapes of the bytes up to some [k] and the true
    length, nothing overflowing; data whose escapes take no more than 241
    bytes is complete, and unescaping the text gives it back.  (Prefixes are
    static and not of exactly 128 bytes, and function, line and message take
    fewer than 256 bytes together.) *)
Theorem dump_roundtrip (h : loggers) (st : lstate) (ctx : option Z) (ls : list (Z * logger))
    (level : sancus_log_level) (fp gp : option (list byte)) (func fmt text pfx : list byte) (line : Z)
    (data : list byte) (w : world)
    (Hok : call_ok h ctx ls fp gp func fmt text pfx line) (Hn : zlen data < 100000) :
  exists cut k, 0 <= k <= zlen data /\ unescape (dump_all (sub data 0 k)) = sub data 0 k /\
    sancus_logger__dumpf h st ctx level fp line (Some data) (zlen data) gp (Some text) w =
      (r ← call_backend st (nearest_backend ls (default_backend st)) (level_bit level)
             (shown_prefix pfx) (message func line text) (dump_text data cut k (zlen data));
       mret (s32 r.1, r.2) : io (Z * lstate)) w /\
    zlen (dump_text data cut k (zlen data)) <= 255 /\
    (zlen (dump_all data) <= 241 -> cut = false /\ sub data 0 k = data).
Proof.
  pose proof (zlen_nonneg data). destruct (dump_suffix_len (zlen data) ltac:(bounds)) as (H1 & H2 & _).
  destruct (vdumpf_spec h st ctx ls level fp func line gp fmt text pfx data (zlen data) w Hok)
    as (cut & k & Hk & Hall & Hcut & Hroom & E); [lia|bounds|lia|].
  cbv zeta in Hroom, E. exists cut, k. rewrite (proj2 (Z.ltb_lt _ _)) in E by lia.
  split_and!; [lia|lia|apply unescape_dump_all|exact E| |].
  - rewrite dump_state_room in Hroom. unfold dump_text. rewrite zlen_cons, !zlen_app. lia.
  - intros Hfit. destruct cut.
    + exfalso. specialize (Hcut eq_refl). rewrite !dump_state_room in Hcut.
      assert (forall j, zlen (dump_all (sub data 0 j)) <= zlen (dump_all data)) as Hle.
      { intros j. rewrite <- (take_drop (Z.to_nat j) data) at 2. rewrite dump_all_app, zlen_app.
        unfold sub. rewrite drop_0. pose proof (zlen_nonneg (dump_all (drop (Z.to_nat j) data))). lia. }
      pose proof (Hle k). pose proof (Hle (k + 1)). lia.
    + split; [done|]. rewrite (Hall eq_refl). apply sub_all.
Qed.

(** A backend that keeps nothing and agrees. *)
Definition null_backend : backend := Backend (Some (fun _ _ _ _ => mret 0)).

Definition dump_state0 : lstate := LState (UserBackend null_backend) 2 true (mk_ts 0 0) (mk_ts 0 0) None.

Lemma dump_roundtrip_witness :
  exists cut k, 0 <= k <= zlen [Byte.x00; Byte.x61] /\
    unescape (dump_all (sub [Byte.x00; Byte.x61] 0 k)) = sub [Byte.x00; Byte.x61] 0 k /\
    sancus_logger__dumpf sample_loggers dump_state0 (Some 2) SANCUS_LOG_WARN_BIT (Some (cstr (lit "main"))) 7
        (Some [Byte.x00; Byte.x61]) (zlen [Byte.x00; Byte.x61]) (Some (cstr (lit "x=%d "))) (Some (lit "x=1 "))
        (World [] [] 0) =
      Ret ((0, dump_state0), World [] [] 0) /\
    zlen (dump_text [Byte.x00; Byte.x61] cut k (zlen [Byte.x00; Byte.x61])) <= 255 /\
    (zlen (dump_all [Byte.x00; Byte.x61]) <= 241 -> cut = false /\ sub [Byte.x00; Byte.x61] 0 k = [Byte.x00; Byte.x61]).
Proof.
  exact (dump_roundtrip sample_loggers dump_state0 (Some 2) sample_chain SANCUS_LOG_WARN_BIT
    (Some (cstr (lit "main"))) (Some (cstr (lit "x=%d "))) (lit "main") (lit "x=%d ") (lit "x=1 ") (lit "app") 7
    [Byte.x00; Byte.x61] (World [] [] 0) sample_call eq_refl).
Defined.

(** The suffix has room for five digits only: printable data of 100000
    bytes or more is not logged at all, the call fails with [-ENOBUFS] before
    it reaches any backend. *)
Theorem dump_long_count_fails (h : loggers) (st : lstate) (ctx : option Z) (ls : list (Z * logger))
    (level : sancus_log_level) (fp gp : option (list byte)) (func fmt text pfx : list byte) (line : Z)
    (data : list byte) (w : world)
    (Hok : call_ok h ctx ls fp gp func fmt text pfx line)
    (Hplain : Forall (fun c => dump_escape c = [c]) data) (Hn : 100000 <= zlen data <= LONG_MAX) :
  sancus_logger__dumpf h st ctx level fp line (Some data) (zlen data) gp (Some text) w =
    Ret ((- ENOBUFS, st), w).
Proof.
  destruct (dump_suffix_len (zlen data) ltac:(bounds)) as (H1 & _ & H2).
  destruct (vdumpf_spec h st ctx ls level fp func line gp fmt text pfx data (zlen data) w Hok)
    as (cut & k & Hk & Hall & Hcut & Hroom & E); [lia|bounds|lia|].
  assert (forall j, 0 <= j -> zlen (dump_all (sub data 0 j)) = Z.min (zlen data) j) as Hd.
  { intros j Hj. rewrite <- zlen_sub_min by done. assert (Forall (fun c => dump_escape c = [c]) (sub data 0 j)) as Hp
      by (unfold sub; by apply Forall_take, Forall_drop).
    revert Hp. generalize (sub data 0 j). clear. induction 1 as [|c s Hc Hs IH]; [done|].
    change (dump_all (c :: s)) with (dump_escape c ++ dump_all s). rewrite Hc, zlen_app, IH, (zlen_cons c s). change (zlen [c]) with 1. lia. }
  cbv zeta in *. rewrite !dump_state_room, !Hd in * by lia. rewrite E.
  destruct cut; cbn [ellipsis] in *; [change (zlen (lit "...")) with 3 in *|change (zlen []) with 0 in *; specialize (Hall eq_refl); lia].
  specialize (Hcut eq_refl). rewrite (proj2 (Z.ltb_ge _ _)); [done|lia].
Qed.

Lemma dump_long_count_fails_witness :
  let data := replicate (Z.to_nat 100000) Byte.x61 in
  sancus_logger__dumpf sample_loggers lstate0 (Some 2) SANCUS_LOG_WARN_BIT (Some (cstr (lit "main"))) 7
    (Some data) (zlen data) (Some (cstr (lit "x=%d "))) (Some (lit "x=1 ")) (World [] [] 0) =
    Ret ((- ENOBUFS, lstate0), World [] [] 0).
Proof.
  cbv zeta.
  apply (dump_long_count_fails sample_loggers lstate0 (Some 2) sample_chain SANCUS_LOG_WARN_BIT
    (Some (cstr (lit "main"))) (Some (cstr (lit "x=%d "))) (lit "main") (lit "x=%d ") (lit "x=1 ") (lit "app") 7
    _ (World [] [] 0) sample_call).
  - apply Forall_replicate. reflexivity.
  - unfold zlen. rewrite length_replicate, Z2Nat.id; [|lia]. split; [reflexivity|vm_compute; discriminate].
Defined.

(** ** A hexdump *)

Definition printable (c : byte) : byte := if (b2z c <? 0x20) || (b2z c >? 0x7e) then Byte.x2e else c.

Definition hex_cell (c : byte) : list byte := lit " " ++ fmt_02x (b2z c).

(** A row of [hexdump -C]: the offset, the bytes, padded to the width, and
    their characters. *)
Definition row_text (width off : Z) (bs : list byte) : list byte :=
  (fmt_08x off ++ lit " ") ++ (bs ≫= hex_cell) ++ concat (replicate (Z.to_nat (width - zlen bs)) (lit "   ")) ++
  lit " |" ++ map printable bs ++ lit "|".

Lemma zlen_hex_cells bs : zlen (bs ≫= hex_cell) = 3 * zlen bs.
Proof.
  induction bs as [|c bs IH]; [done|]. change ((c :: bs) ≫= hex_cell) with (hex_cell c ++ (bs ≫= hex_cell)).
  rewrite zlen_app, IH, zlen_cons. unfold hex_cell, fmt_02x. rewrite zlen_app. unfold zlen at 1 2.
  rewrite length_hex_fixed. simpl length. lia.
Qed.

Lemma zlen_spaces n : zlen (concat (replicate n (lit "   "))) = 3 * Z.of_nat n.
Proof.
  induction n as [|n IH]; [done|]. cbn [replicate concat]. rewrite zlen_app, IH. change (zlen (lit "   ")) with 3. lia.
Qed.

Lemma zlen_map {A B} (f : A -> B) (l : list A) : zlen (map f l) = zlen l.
Proof. unfold zlen. by rewrite length_map. Qed.

Lemma byte_and_ff c : Z.land (b2z c) 0xff = b2z c.
Proof. destruct c; reflexivity. Qed.

(** The buffer of a row, with [d] in it. *)
Definition row_state (d : list byte) : bstr := mk_bstr d 0 LOG_DATA_SIZE LOG_DATA_SIZE.

Lemma appendf'_row b d x :
  represents b (row_state d) -> zlen d + zlen x < 256 ->
  exists b', appendf' b x = Ret b' /\ represents b' (row_state (d ++ x)).
Proof.
  intros Hrep Hx. destruct (appendf'_refines x b _ Hrep) as (b' & E & Hr).
  exists b'. split; [done|]. unfold row_state in Hr. by rewrite format_fits in Hr by (unfold LOG_DATA_SIZE; bounds).
Qed.

Lemma append'_row b d x :
  represents b (row_state d) -> zlen d + zlen x < 256 ->
  exists b', append' b x = Ret b' /\ represents b' (row_state (d ++ x)).
Proof.
  intros Hrep Hx. pose proof (zlen_nonneg d). destruct (append'_refines x b _ Hrep ltac:(bounds)) as (b' & E & Hr).
  exists b'. split; [done|]. rewrite spec_append_fits in Hr; [exact Hr|].
  unfold s_room, row_state, LOG_DATA_SIZE. cbn. lia.
Qed.

Lemma hex_bytes_row n b d data p :
  represents b (row_state d) -> 0 <= p -> p + Z.of_nat n <= zlen data -> zlen d + 3 * Z.of_nat n < 256 ->
  exists b', hex_bytes n b data p = Ret b' /\
    represents b' (row_state (d ++ (sub data p (Z.of_nat n) ≫= hex_cell))).
Proof.
  revert b d p. induction n as [|n IH]; intros b d p Hrep Hp Hd Hfit; cbn [hex_bytes].
  { rewrite sub_nil by lia. cbn. rewrite app_nil_r. by exists b. }
  destruct (load1_ok data p) as (c & Hc & Hl); [lia|]. rewrite Hc. run. rewrite byte_and_ff. fold (hex_cell c).
  assert (zlen (hex_cell c) = 3) as Hz by (unfold hex_cell, fmt_02x, zlen; rewrite length_app, length_hex_fixed; done).
  destruct (appendf'_row b d (hex_cell c) Hrep) as (b1 & -> & R1); [lia|]. run.
  destruct (IH b1 _ (p + 1) R1) as (b2 & -> & R2); [lia|lia|rewrite zlen_app; lia|].
  exists b2. split; [done|]. rewrite (sub_cons data p _ c) by (lia || done).
  replace (Z.of_nat (S n) - 1) with (Z.of_nat n) by lia. cbn [mbind list_bind]. by rewrite <- app_assoc in R2.
Qed.

Lemma hex_align_row n b d :
  represents b (row_state d) -> zlen d + 3 * Z.of_nat n < 256 ->
  exists b', hex_align n b = Ret b' /\ represents b' (row_state (d ++ concat (replicate n (lit "   ")))).
Proof.
  revert b d. induction n as [|n IH]; intros b d Hrep Hfit; cbn [hex_align replicate concat].
  { rewrite app_nil_r. by exists b. }
  destruct (append'_row b d (lit "   ") Hrep) as (b1 & -> & R1); [change (zlen (lit "   ")) with 3; lia|]. run.
  destruct (IH b1 _ R1) as (b2 & -> & R2); [rewrite zlen_app; change (zlen (lit "   ")) with 3; lia|].
  exists b2. by rewrite <- app_assoc in R2.
Qed.

Lemma hex_ascii_row n b d data q :
  represents b (row_state d) -> 0 <= q -> q + Z.of_nat n <= zlen data -> zlen d + Z.of_nat n < 256 ->
  exists b', hex_ascii n b data q = Ret b' /\
    represents b' (row_state (d ++ map printable (sub data q (Z.of_nat n)))).
Proof.
  revert b d q. induction n as [|n IH]; intros b d q Hrep Hq Hd Hfit; cbn [hex_ascii].
  { rewrite sub_nil by lia. cbn. rewrite app_nil_r. by exists b. }
  destruct (load1_ok data q) as (c & Hc & Hl); [lia|]. rewrite Hc. run. cbv zeta. fold (printable c).
  destruct (append'_row b d [printable c] Hrep) as (b1 & -> & R1); [change (zlen [printable c]) with 1; lia|]. run.
  destruct (IH b1 _ (q + 1) R1) as (b2 & -> & R2); [lia|lia|rewrite zlen_app; change (zlen [printable c]) with 1; lia|].
  exists b2. split; [done|]. rewrite (sub_cons data q _ c) by (lia || done).
  replace (Z.of_nat (S n) - 1) with (Z.of_nat n) by lia. cbn [map]. by rewrite <- app_assoc in R2.
Qed.

Lemma zlen_row_text width off bs : 0 <= zlen bs <= width -> zlen (row_text width off bs) = 12 + 4 * zlen bs + 3 * (width - zlen bs).
Proof.
  intros Hw. unfold row_text. rewrite !zlen_app, zlen_hex_cells, zlen_spaces, zlen_map, Z2Nat.id by lia.
  assert (zlen (fmt_08x off) = 8) as -> by (unfold fmt_08x, zlen; by rewrite length_hex_fixed).
  change (zlen (lit " ")) with 1. change (zlen (lit " |")) with 2. change (zlen (lit "|")) with 1. lia.
Qed.

Lemma hex_row_spec b width data p left off :
  represents b (row_state []) -> 1 <= width <= 60 -> 0 <= p -> 0 < left -> p + left <= zlen data ->
  let n := Z.min width left in
  exists b', hex_row b width data p left off = Ret (n, b') /\
    represents b' (row_state (row_text width off (sub data p n))).
Proof.
  intros Hrep Hw Hp Hl Hd n. unfold hex_row. rewrite (proj2 (Z.eqb_neq width 0)) by lia. cbn [negb]. cbv zeta. fold n.
  assert (1 <= n <= width /\ n <= left) as [Hn Hnl] by (unfold n; lia).
  assert (zlen (sub data p n) = n) as Hz by (apply zlen_sub; lia).
  set (d1 := fmt_08x off ++ lit " ").
  assert (zlen d1 = 9) as H1 by (unfold d1, fmt_08x, zlen; rewrite length_app, length_hex_fixed; done).
  destruct (appendf'_row b [] d1 Hrep) as (b1 & -> & R1); [change (zlen []) with 0; lia|]. run. cbn [app] in R1.
  destruct (hex_bytes_row (Z.to_nat n) b1 d1 data p R1) as (b2 & -> & R2); rewrite ?Z2Nat.id by lia; [lia..|]. run.
  rewrite Z2Nat.id in R2 by lia. set (d2 := sub data p n ≫= hex_cell) in *.
  assert (zlen d2 = 3 * n) as H2 by (unfold d2; rewrite zlen_hex_cells; lia).
  destruct (hex_align_row (Z.to_nat (width - n)) b2 _ R2) as (b3 & -> & R3); [rewrite zlen_app; lia|]. run.
  set (d3 := concat _) in R3. assert (zlen d3 = 3 * (width - n)) as H3 by (unfold d3; rewrite zlen_spaces; lia).
  destruct (append'_row b3 _ (lit " |") R3) as (b4 & -> & R4); [change (zlen (lit " |")) with 2; rewrite !zlen_app; lia|]. run.
  destruct (hex_ascii_row (Z.to_nat n) b4 _ data p R4) as (b5 & -> & R5); rewrite ?Z2Nat.id by lia;
    [lia|lia|rewrite !zlen_app; change (zlen (lit " |")) with 2; lia|]. run.
  rewrite Z2Nat.id in R5 by lia.
  destruct (append'_row b5 _ (lit "|") R5) as (b6 & -> & R6);
    [rewrite !zlen_app, zlen_map; change (zlen (lit " |")) with 2; change (zlen (lit "|")) with 1; lia|]. run.
  exists b6. split; [done|]. unfold row_text. rewrite Hz. fold d1 d2 d3. rewrite <- !app_assoc in R6. exact R6.
Qed.

(** A row of 64 bytes does not fit: the last 11 characters and the closing bar
    are left out, without an error. *)
Lemma wide_row_is_cut :
  exists b, hex_row (DECL_SANCUS_LBUFFER LOG_DATA_SIZE) 64 (replicate 64 Byte.x61) 0 64 0 = Ret (64, b) /\
    zlen (row_text 64 0 (replicate 64 Byte.x61)) = 268 /\
    content b = sub (row_text 64 0 (replicate 64 Byte.x61)) 0 256.
Proof. eexists. split; [vm_compute; reflexivity|]. split; vm_compute; reflexivity. Qed.

Lemma row_text_trim width off bs : rstrip is_blank (row_text width off bs) = row_text width off bs.
Proof. unfold row_text. rewrite !app_assoc. change (lit "|") with [Byte.x7c]. by rewrite rstrip_snoc. Qed.

(** The rows one after the other, each handed to [call]; an error stops. *)
Fixpoint spec_rows (fuel : nat) (call : lstate -> list byte -> io (Z * lstate)) (st : lstate)
    (width off : Z) (bs : list byte) (rc : Z) : io (Z * lstate) :=
  match fuel, bs with
  | S fuel, _ :: _ =>
      r ← call st (row_text width off (sub bs 0 width));
      if r.1 <? 0 then mret r
      else spec_rows fuel call r.2 width (u32 (off + zlen (sub bs 0 width))) (drop (Z.to_nat width) bs) r.1
  | _, _ => mret (rc, st)
  end.

Lemma reset_row b d : represents b (row_state d) ->
  exists b', sancus_buffer_reset (Some b) = Ret (0, Some b') /\ represents b' (row_state []).
Proof.
  intros Hrep. pose proof (truncate_refines b _ 0 Hrep ltac:(lia)) as Ht. rewrite sub_nil in Ht by lia.
  change (spec_shrink (row_state d) []) with (Ret (0, row_state [])) in Ht.
  unfold sancus_buffer_reset. destruct (sancus_buffer_truncate _ _) as [[v ob]| | |]; try done.
  destruct Ht as (b' & [= -> ->] & Hr). by exists b'.
Qed.

Lemma hex_rows_spec fuel h st ctx ls level pb mb buf p m width data pos left off rc w :
  chain h ctx ls -> represents pb p -> represents mb m -> zlen (s_data p) + zlen (s_data m) <= 1000 ->
  represents buf (row_state []) -> 1 <= width <= 60 ->
  0 <= pos -> 0 <= left -> pos + left <= zlen data -> left <= Z.of_nat fuel ->
  let call st x := call_backend st (nearest_backend ls (default_backend st)) level
                     (rstrip is_blank (s_data p)) (rstrip is_blank (s_data m)) x in
  hex_rows fuel h st ctx level pb mb buf width data pos left off rc w =
    spec_rows fuel call st width off (sub data pos left) rc w.
Proof.
  intros Hc Hp Hm Hmax Hb Hw. revert st buf pos left off rc w Hb.
  induction fuel as [|fuel IH]; intros st buf pos left off rc w Hb Hpos Hl Hd Hf call.
  { replace left with 0 by lia. cbn [hex_rows spec_rows Z.gtb Z.compare]. done. }
  cbn [hex_rows]. rewrite Z.gtb_ltb. destruct (Z.ltb_spec 0 left); cycle 1.
  { replace left with 0 by lia. rewrite sub_nil by lia. done. }
  destruct (hex_row_spec buf width data pos left off Hb Hw Hpos ltac:(lia) Hd) as (b1 & E1 & R1).
  set (n := Z.min width left) in *. assert (1 <= n <= width /\ n <= left) as [Hn Hnl] by (unfold n; lia).
  rewrite (lift_bind _ _ _ _ E1).
  assert (zlen (sub data pos n) = n) as Hz by (apply zlen_sub; lia).
  set (x := row_text width off (sub data pos n)) in *.
  assert (12 <= zlen x <= 252) as Hx by (unfold x; rewrite zlen_row_text; lia).
  pose proof (trim_refines _ _ R1) as Htr. cbn [s_data row_state] in Htr. unfold x in Htr. rewrite row_text_trim in Htr. fold x in Htr.
  pose proof (log_write_spec h st ctx ls level pb mb (Some b1) p m x w Hc Hp Hm Htr ltac:(bounds)) as Hlw. cbv zeta in Hlw.
  specialize (Hlw ltac:(intros [_ [_ E]%app_nil]%app_nil; rewrite E in Hx; change (zlen []) with 0 in Hx; lia)).
  fold (call st x) in Hlw.
  assert (exists c bs, sub data pos left = c :: bs) as (c & bs & Ebs).
  { destruct (lookup_lt_is_Some_2 data (Z.to_nat pos)) as [c Hlk]; [unfold zlen in Hd; lia|].
    exists c. eexists. by apply sub_cons. }
  assert (sub (sub data pos left) 0 width = sub data pos n) as Hrow.
  { unfold n. destruct (Z.min_spec width left) as [[? ->]|[? ->]].
    - by rewrite sub_sub, Z.add_0_r by lia.
    - rewrite (sub_whole _ width); [done|]. rewrite zlen_sub; lia. }
  assert (drop (Z.to_nat width) (sub data pos left) = sub data (pos + n) (left - n)) as Hrest.
  { unfold n. destruct (Z.min_spec width left) as [[? ->]|[? ->]].
    - assert (sub data pos left = sub data pos width ++ sub data (pos + width) (left - width)) as ->
        by (rewrite <- sub_app_add by lia; f_equal; lia).
      assert (zlen (sub data pos width) = width) as Hzw by (apply zlen_sub; lia).
      rewrite drop_app_le by (unfold zlen in Hzw; lia). rewrite drop_ge by (unfold zlen in Hzw; lia). done.
    - rewrite Z.sub_diag, (sub_nil _ _ 0) by lia. apply drop_ge.
      assert (zlen (sub data pos left) = left) as Hzl by (apply zlen_sub; lia). unfold zlen in Hzl. lia. }
  rewrite Ebs. cbn [spec_rows]. rewrite <- Ebs, Hrow, Hrest, Hz. fold x.
  apply io_bind_ext; [exact Hlw|]. intros [rc' st'] w' _. cbn [fst snd]. destruct (rc' <? 0); [done|].
  destruct (reset_row _ _ R1) as (b2 & E2 & R2). rewrite (lift_bind _ _ _ _ E2). cbn [snd].
  rewrite (lift_bind _ b2) by done. by rewrite (IH st' b2 (pos + n) (left - n)) by (done || lia).
Qed.

(** C19. [sancus_logger__hexdumpf] with a width of 1 to 60 hands its data, of at
    least a byte, to the backend in rows of [width] bytes, the last one shorter,
    each exactly the row of [hexdump -C] with its offset, until the data is
    used up or the backend reports an error, which is then the result.
    A row takes [12 + 4 * width] bytes of the 256 that its buffer has: with
    a width of 64 it is cut, without an error ([wide_row_is_cut]).  Width 0 puts everything into
    one row without an offset, which is not treated here.  As for
    [sancus_logger__printf], prefixes are static and not of exactly 128 bytes,
    and function, line and message take fewer than 256 bytes. *)
Theorem hexdump_rows (h : loggers) (st : lstate) (ctx : option Z) (ls : list (Z * logger))
    (level : sancus_log_level) (fp gp : option (list byte)) (func fmt text pfx : list byte) (line width : Z)
    (data : list byte) (w : world)
    (Hok : call_ok h ctx ls fp gp func fmt text pfx line) (Hw : 1 <= width <= 60) (Hne : data <> []) :
  let call st x := call_backend st (nearest_backend ls (default_backend st)) (level_bit level)
                     (shown_prefix pfx) (message func line text) x in
  sancus_logger__hexdumpf h st ctx level fp line width (Some data) (zlen data) gp (Some text) w =
    (r ← spec_rows (length data) call st width 0 data (zlen text); mret (s32 r.1, r.2) : io (Z * lstate)) w.
Proof.
  intros call. unfold sancus_logger__hexdumpf, sancus_logger__vhexdumpf. cbv zeta.
  rewrite bool_decide_false by done. cbn [andb].
  destruct (call_prepares _ _ _ _ _ _ _ _ _ _ Hok) as (pb & mb & rc & Ep & Hrc & Rp & Em & Rm).
  rewrite (lift_bind _ _ _ _ Ep), (proj2 (Z.ltb_ge rc 0)) by lia. pose proof (zlen_nonneg text).
  rewrite (lift_bind _ _ _ _ Em), (proj2 (Z.ltb_ge (zlen text) 0)) by lia.
  rewrite zlen_eqb_nil, bool_decide_false by done. change (default [] (Some data)) with data.
  pose proof (lbuffer_represents LOG_DATA_SIZE ltac:(unfold LOG_DATA_SIZE; bounds)) as Rd.
  pose proof (message_len _ _ _ (co_fits _ _ _ _ _ _ _ _ _ _ Hok)).
  pose proof (hex_rows_spec (length data) h st ctx ls (level_bit level) pb mb (DECL_SANCUS_LBUFFER LOG_DATA_SIZE) _ _ width data 0 (zlen data) 0 (zlen text) w
    (co_chain _ _ _ _ _ _ _ _ _ _ Hok) Rp Rm) as Hr. cbn [s_data] in Hr.
  rewrite zlen_sub_min in Hr by lia. specialize (Hr ltac:(lia) Rd Hw ltac:(lia) (zlen_nonneg data) ltac:(lia)).
  specialize (Hr ltac:(unfold zlen; lia)). cbv zeta in Hr. rewrite sub_all in Hr.
  fold (shown_prefix pfx) in Hr. replace (rstrip is_blank (message func line text)) with (message func line text) in Hr
    by (symmetry; apply trim_stripped).
  replace (Z.to_nat (zlen data)) with (length data) by (unfold zlen; lia).
  apply io_bind_ext; [exact Hr|done].
Qed.

Lemma hexdump_rows_witness :
  exists r, sancus_logger__hexdumpf sample_loggers lstate0 (Some 2) SANCUS_LOG_WARN_BIT
      (Some (cstr (lit "main"))) 7 4 (Some (lit "abcde")) 5 (Some (cstr (lit "x=%d "))) (Some (lit "x=1 "))
      (World [clock_at 100 0; ok 64; clock_at 100 2000000; ok 61] [] 0) =
    Ret ((61, LState FdBackend 2 true (mk_ts 100 0) (mk_ts 100 2000000) None), r) /\
    accepted (trace r) =
      lit "[0.000 +0.000] W/app: main:7: x=1: 00000000  61 62 63 64 |abcd|" ++ [Byte.x0a] ++
      lit "[0.002 +0.002] W/app: main:7: x=1: 00000004  65          |e|" ++ [Byte.x0a].
Proof.
  eexists. pose proof (hexdump_rows sample_loggers lstate0 (Some 2) sample_chain SANCUS_LOG_WARN_BIT
    (Some (cstr (lit "main"))) (Some (cstr (lit "x=%d "))) (lit "main") (lit "x=%d ") (lit "x=1 ") (lit "app") 7 4
    (lit "abcde") (World [clock_at 100 0; ok 64; clock_at 100 2000000; ok 61] [] 0) sample_call ltac:(lia) ltac:(discriminate)) as H.
  cbv zeta in H. split; [etransitivity; [exact H|vm_compute; reflexivity]|vm_compute; reflexivity].
Defined.
