(* ===== verification/LogTree.v ===== *)
(** * LogTree

    Setting up loggers.  Whatever is initialised and set in whatever order,
    as long as only loggers without children are given a parent, and never
    themselves, the loggers form trees, and so every walk of [Logger] up the
    parents ends. *)

From stdpp Require Import gmap.
From S2P Require Import Prelude Bits Logger LogLine.
#[local] Open Scope Z_scope.

(** ** The calls *)

Inductive call :=
  | Init2 (log parent : option Z) (f : option prefixer_f) (mask : Z) (prefix : option (list byte))
  | Init (log : option Z) (prefix : option (list byte)) (mask : Z)
  | SetPrefix (a : Z) (prefix : option (list byte))
  | SetPrefixer (a : Z) (f : option prefixer_f)
  | SetMask (a mask : Z)
  | ExtendMask (a mask : Z)
  | UnsetMask (a mask : Z).

Definition run_call (h : loggers) (c : call) : outcome loggers :=
  match c with
  | Init2 log parent f mask prefix => Ret (sancus_logger_init2 h log parent f mask prefix)
  | Init log prefix mask => Ret (sancus_logger_init h log prefix mask)
  | SetPrefix a prefix => sancus_logger_set_prefix h a prefix
  | SetPrefixer a f => sancus_logger_set_prefixer h a f
  | SetMask a mask => sancus_logger_set_mask h a mask
  | ExtendMask a mask => sancus_logger_extend_mask h a mask
  | UnsetMask a mask => sancus_logger_unset_mask h a mask
  end.

(** [NULL], or a logger. *)
Definition known (h : loggers) (log : option Z) : Prop :=
  match log with Some a => is_Some (h !! a) | None => True end.

(** No logger has [a] as its parent. *)
Definition childless (h : loggers) (a : Z) : Prop := map_Forall (fun _ l => l_parent l <> Some a) h.

(** What a caller has to respect: masks are [unsigned], pointers point to
    loggers, and what is initialised with a parent is a new logger, or one
    that no other has as its parent, under another one than itself. *)
Definition call_ok (h : loggers) (c : call) : Prop :=
  match c with
  | Init2 log parent f mask prefix =>
      in_u 32 mask = true /\ known h parent /\
      (forall a, log = Some a -> parent <> Some a /\ childless h a)
  | Init log prefix mask => in_u 32 mask = true
  | SetPrefix a _ | SetPrefixer a _ => is_Some (h !! a)
  | SetMask a mask | ExtendMask a mask | UnsetMask a mask => is_Some (h !! a) /\ in_u 32 mask = true
  end.

(** The loggers a program can have. *)
Inductive built : loggers -> Prop :=
  | built_none : built ∅
  | built_call h c h' : built h -> call_ok h c -> run_call h c = Ret h' -> built h'.

(** ** Trees *)

Record tree (h : loggers) : Prop := {
  tree_chain : forall a, is_Some (h !! a) -> exists ls, chain h (Some a) ls;
  tree_mask : map_Forall (fun _ l => in_u 32 (l_mask l) = true) h
}.

Lemma known_chain h log : tree h -> known h log -> exists ls, chain h log ls.
Proof. intros Ht. destruct log as [a|]; simpl; [by apply tree_chain|]. exists []. constructor. Qed.

(** A logger without children can only be at the bottom of a path. *)
Lemma chain_avoids h a log ls : childless h a -> chain h log ls -> log <> Some a -> a ∉ ls.*1.
Proof.
  intros Ha. induction 1 as [|b k ls Hk Hls IH]; simpl; [by intros _ ?%not_elem_of_nil|].
  intros Hne. apply not_elem_of_cons. split; [congruence|]. apply IH. by apply (Ha b k).
Qed.

Lemma chain_insert_ne h log ls a l : chain h log ls -> a ∉ ls.*1 -> chain (<[a := l]> h) log ls.
Proof.
  induction 1 as [|b k ls Hk Hls IH]; simpl; [by constructor|].
  intros [Hne Hin]%not_elem_of_cons. constructor; [by rewrite lookup_insert_ne|by apply IH].
Qed.

(** Putting a logger under a parent that it is not above keeps every walk finite. *)
Lemma chain_insert h a l lp log ls :
  chain h (l_parent l) lp -> a ∉ lp.*1 -> chain h log ls -> exists ls', chain (<[a := l]> h) log ls'.
Proof.
  intros Hp Ha. induction 1 as [|b k ls Hk Hls [ls' IH]]; [by exists []; constructor|].
  destruct (decide (b = a)) as [->|Hne].
  - exists ((a, l) :: lp). constructor; [by rewrite lookup_insert_eq|]. by apply chain_insert_ne.
  - exists ((b, k) :: ls'). constructor; [by rewrite lookup_insert_ne|done].
Qed.

Lemma tree_insert h a l lp :
  tree h -> chain h (l_parent l) lp -> a ∉ lp.*1 -> in_u 32 (l_mask l) = true -> tree (<[a := l]> h).
Proof.
  intros [Hc Hm] Hp Ha Hl. split; [|by apply map_Forall_insert_2].
  intros b Hb. destruct (decide (b = a)) as [->|Hne].
  - exists ((a, l) :: lp). constructor; [by rewrite lookup_insert_eq|]. by apply chain_insert_ne.
  - rewrite lookup_insert_ne in Hb by done. destruct (Hc b Hb) as [ls Hls]. by eapply chain_insert.
Qed.

(** An update that leaves the parent in its place. *)
Lemma tree_update h a f :
  tree h -> is_Some (h !! a) ->
  (forall l, in_u 32 (l_mask l) = true ->
     exists l', f l = Ret l' /\ l_parent l' = l_parent l /\ in_u 32 (l_mask l') = true) ->
  exists h', update h a f = Ret h' /\ tree h'.
Proof.
  intros Ht [l Hl] Hf. destruct (Hf l (tree_mask _ Ht _ _ Hl)) as (l' & E & Hp & Hm).
  unfold update. rewrite Hl. simpl deref. run. rewrite E. run. eexists. split; [done|].
  destruct (tree_chain _ Ht a) as [ls Hls]; [by eexists|]. pose proof (chain_nodup _ _ _ Hls) as Hnd.
  inversion Hls; subst. simplify_eq. simpl in Hnd. apply NoDup_cons in Hnd as [Hn _].
  eapply tree_insert; [done|by rewrite Hp|done|done].
Qed.

Lemma u32_in_u z : in_u 32 (u32 z) = true.
Proof. unfold in_u. pose proof (uwrap_range 32 z). rewrite andb_true_iff, !Z.leb_le. lia. Qed.

Lemma in_u32_range m : in_u 32 m = true -> 0 <= m < 2 ^ 64.
Proof. unfold in_u. rewrite andb_true_iff, !Z.leb_le. lia. Qed.

(** Every call a caller may make returns, and leaves trees. *)
Lemma call_keeps_tree h c :
  tree h -> call_ok h c -> exists h', run_call h c = Ret h' /\ tree h'.
Proof.
  intros Ht Hc. destruct c as [log parent f mask prefix|log prefix mask|a p|a f|a m|a m|a m];
    cbn [run_call call_ok] in *.
  - eexists. split; [done|]. destruct log as [a|]; [|done]. destruct Hc as (Hm & Hp & Hn).
    destruct (known_chain h parent Ht Hp) as [lp Hlp].
    destruct (Hn a eq_refl). eapply tree_insert; [done|exact Hlp|by eapply chain_avoids|]. simpl. by destruct (_ && _).
  - eexists. split; [done|]. destruct log as [a|]; [|done].
    eapply (tree_insert h a _ []); [done|constructor|by apply not_elem_of_nil|]. simpl. by destruct (_ && _).
  - apply tree_update; [done..|]. intros l Hl. by eexists.
  - apply tree_update; [done..|]. intros l Hl. by eexists.
  - destruct Hc. apply tree_update; [done..|]. intros l Hl. by eexists.
  - destruct Hc. apply tree_update; [done..|]. intros l Hl%in_u32_range.
    destruct (cms_testbit (l_mask l) m m 0) as (r & -> & _); [lia..|]. run.
    eexists. split_and!; [done..|apply u32_in_u].
  - destruct Hc. apply tree_update; [done..|]. intros l Hl%in_u32_range.
    destruct (cms_testbit (l_mask l) 0 m 0) as (r & -> & _); [lia..|]. run.
    eexists. split_and!; [done..|apply u32_in_u].
Qed.

Lemma built_tree h : built h -> tree h.
Proof.
  induction 1 as [|h c h' Hb IH Hc Hr].
  - split; [intros a [l Hl]; by rewrite lookup_empty in Hl|apply map_Forall_empty].
  - destruct (call_keeps_tree h c IH Hc) as (h2 & E & Ht). congruence.
Qed.

(** The nearest backend belongs to a logger of the chain, or is the fallback. *)
Lemma nearest_backend_cases ls fb :
  nearest_backend ls fb = fb \/
  exists a l f, (a, l) ∈ ls /\ l_backend l = Some (Backend (Some f)) /\
                nearest_backend ls fb = UserBackend (Backend (Some f)).
Proof.
  induction ls as [|[a l] ls IH]; cbn [nearest_backend]; [by left|].
  destruct (l_backend l) as [[[f|]]|] eqn:Eb; [right; exists a, l, f; split_and!; [by left|done|done]|..];
    (destruct IH as [->|(b & k & f & Hin & ? & ?)]; [by left|right];
     exists b, k, f; split_and!; [by right|done|done]).
Qed.

Lemma parent_known h log : tree h -> known h log ->
  exists p, sancus_logger_get_parent h log = Ret p /\ known h p.
Proof.
  intros Ht Hk. destruct log as [a|]; [|by exists None].
  destruct (tree_chain _ Ht a Hk) as [ls Hls]. inversion Hls as [|? l ls' Hl Hp]; subst.
  simpl. rewrite Hl. simpl deref. run. eexists. split; [done|].
  inversion Hp; subst; simpl; [done|by eexists].
Qed.

(** C15. The loggers of a program that sets them up with any sequence of
    initialisations and changes of masks, prefixes and prefixers are well
    formed: every path of parents ends at a root, and masks are [unsigned];
    each further call returns and keeps it so.  The program passes masks that
    are [unsigned] and pointers to loggers, and where
    [sancus_logger_init2] gives a parent to a logger, this is a new logger or
    one that no other has as its parent, and its parent is not itself (a
    logger put under itself is asked for ever: [own_parent_never_answers]).
    The parent of a logger is then a logger, or none; asking any of them for a
    level, or for the backend, ends with an answer: a truth value, and the
    backend of a logger of the program or the fallback. *)
Theorem loggers_well_formed (h : loggers) (Hb : built h) :
  tree h /\
  (forall c, call_ok h c -> exists h', run_call h c = Ret h' /\ tree h') /\
  (forall log, known h log ->
     (exists p, sancus_logger_get_parent h log = Ret p /\ known h p) /\
     (forall mask, exists r, sancus_logger_has_level h log mask = Ret r /\ (r = 0 \/ r = 1)) /\
     (forall fb, exists d, log_find_backend h log fb = Ret d /\
        (d = fb \/ exists a l f, h !! a = Some l /\ l_backend l = Some (Backend (Some f)) /\
                                 d = UserBackend (Backend (Some f))))).
Proof.
  pose proof (built_tree h Hb) as Ht. split; [done|]. split; [intros c; by apply call_keeps_tree|].
  intros log Hk. destruct (known_chain h log Ht Hk) as [ls Hls]. split_and!.
  - by apply parent_known.
  - intros mask. rewrite (has_level_chain _ _ _ _ Hls). eexists. split; [done|].
    destruct (_ || _); [by right|]. destruct (negb _); simpl; auto.
  - intros fb. rewrite (find_backend_chain _ _ _ fb Hls). eexists. split; [done|].
    destruct (nearest_backend_cases ls fb) as [?|(a & l & f & (x & y & ->)%list_elem_of_split & ? & ?)];
      [by left|right].
    exists a, l, f. split_and!; [by eapply chain_lookup|done|done].
Qed.

(** A root, a child without a mask, and a mask for the root. *)
Definition two_loggers : loggers :=
  sancus_logger_init2 (sancus_logger_init ∅ (Some 8) None 5) (Some 16) (Some 8) None 0 None.

Lemma two_loggers_built : built two_loggers.
Proof.
  eapply (built_call (sancus_logger_init ∅ (Some 8) None 5) (Init2 (Some 16) (Some 8) None 0 None)); [|split_and!; [done|eexists; reflexivity|]|reflexivity].
  - eapply (built_call ∅ (Init (Some 8) None 5)); [constructor|done|reflexivity].
  - intros a [= <-]. split; [done|]. intros k l Hl.
    unfold sancus_logger_init, sancus_logger_init2 in Hl. apply lookup_insert_Some in Hl as [[_ <-]|[_ Hl]]; [done|by rewrite lookup_empty in Hl].
Qed.

Lemma loggers_well_formed_witness :
  (exists h', run_call two_loggers (SetMask 8 4) = Ret h' /\ tree h') /\
  exists r, sancus_logger_has_level two_loggers (Some 16) 4 = Ret r /\ (r = 0 \/ r = 1).
Proof.
  destruct (loggers_well_formed two_loggers two_loggers_built) as (_ & Hc & Hw). split.
  - apply Hc. split; [eexists; reflexivity|done].
  - destruct (Hw (Some 16)) as (_ & Hl & _); [eexists; reflexivity|]. apply Hl.
Defined.

(** The condition on [sancus_logger_init2] is needed: a logger that is its own
    parent, without a mask, is never asked through. *)
Lemma own_parent_never_answers h a f prefix fuel :
  has_level fuel (sancus_logger_init2 h (Some a) (Some a) f 0 prefix) (Some a) 4 = OutOfFuel.
Proof.
  induction fuel as [|fuel IH]; [done|]. cbn [has_level].
  change ((4 =? 0) || negb (Z.land 4 SANCUS_LOG_ERR =? 0)) with false. cbv iota.
  unfold sancus_logger_init2 in *. rewrite lookup_insert_eq. simpl deref. run. exact IH.
Qed.
