(* ===== verification/LogMacros.v ===== *)
(** * LogMacros

    The macros of include/sancus/logger.h that programs log with.  They come
    as a family for each severity and each kind of message (a line, a dump, a
    hexdump), in three layers, and each is a definition here; a dispatcher per
    layer takes the severity and the message as values.  [func] and [line] are
    [__func__] and [__LINE__]; a format and its arguments are the text they
    print. *)

From stdpp Require Import gmap.
From S2P Require Import Prelude CLib Sys Logger LogLine.
#[local] Open Scope Z_scope.

(** [likely] @ include/sancus/common.h:47-52.  [builtin_expect] tells whether
    [HAVE___BUILTIN_EXPECT] is defined. *)
Definition likely (builtin_expect : bool) (e : Z) : Z :=
  if builtin_expect then Z.b2z (negb (e =? 0)) else e.

(** [unlikely] @ include/sancus/common.h:55-60. *)
Definition unlikely (builtin_expect : bool) (e : Z) : Z :=
  if builtin_expect then Z.b2z (negb (e =? 0)) else e.

(** As a condition both are their argument, either way. *)
Lemma expect_truth b e : (likely b e = 0 <-> e = 0) /\ (unlikely b e = 0 <-> e = 0).
Proof. unfold likely, unlikely. destruct b; [|done]. by destruct (Z.eqb_spec e 0). Qed.

(** [BIT, as the levels use it] @ include/sancus/logger.h:24-30. *)
Definition level_mask (l : sancus_log_level) : Z := Z.shiftl 1 (level_bit l).

(** [SANCUS_LOG_WARN] @ include/sancus/logger.h:25-25. *)
Definition SANCUS_LOG_WARN : Z := level_mask SANCUS_LOG_WARN_BIT.
(** [SANCUS_LOG_INFO] @ include/sancus/logger.h:26-26. *)
Definition SANCUS_LOG_INFO : Z := level_mask SANCUS_LOG_INFO_BIT.
(** [SANCUS_LOG_TRACE] @ include/sancus/logger.h:27-27. *)
Definition SANCUS_LOG_TRACE : Z := level_mask SANCUS_LOG_TRACE_BIT.
(** [SANCUS_LOG_DEBUG] @ include/sancus/logger.h:28-28. *)
Definition SANCUS_LOG_DEBUG : Z := level_mask SANCUS_LOG_DEBUG_BIT.
(** [SANCUS_LOG_NEXT] @ include/sancus/logger.h:30-30. *)
Definition SANCUS_LOG_NEXT : Z := level_mask SANCUS_LOG_NEXT_BIT.

(** [SANCUS_LOGGER_INIT, DECL_SANCUS_LOGGER] @ include/sancus/logger.h:77-78. *)
Definition SANCUS_LOGGER_INIT (S : option (list byte)) (M : Z) : logger := SANCUS__LOGGER_INIT S M.

(** The families. *)
Inductive severity := error | warn | info | trace | debug | notice.

#[export] Instance severity_eq_dec : EqDecision severity.
Proof. solve_decision. Defined.

(** The kinds of message, with their arguments. *)
Inductive message :=
  | Line (fmt out : option (list byte))
  | Dump (data : option (list byte)) (len : Z) (fmt out : option (list byte))
  | Hexdump (width : Z) (data : option (list byte)) (len : Z) (fmt out : option (list byte)).

(** [the level and the place of sancus_log__error .. sancus_log__notice] @ include/sancus/logger.h:251-273. *)
Definition macro_site (sev : severity) (func : list byte) (line : Z) : sancus_log_level * option (list byte) * Z :=
  match sev with
  | error => (SANCUS_LOG_ERROR_BIT, None, 0)
  | warn => (SANCUS_LOG_WARN_BIT, None, 0)
  | info => (SANCUS_LOG_INFO_BIT, None, 0)
  | trace => (SANCUS_LOG_TRACE_BIT, Some func, line)
  | debug => (SANCUS_LOG_DEBUG_BIT, Some func, 0)
  | notice => (SANCUS_LOG_DEBUG_BIT, None, 0)
  end.

Section Macros.
Context (h : loggers) (func : list byte) (line : Z).

(** [sancus_log__error] @ include/sancus/logger.h:251-251. *)
Definition sancus_log__error (D : option Z) (fmt out : option (list byte)) (st : lstate) : io (Z * lstate) :=
  sancus_logger__printf h st D SANCUS_LOG_ERROR_BIT None 0 fmt out.

(** [sancus_log__error_dump] @ include/sancus/logger.h:252-252. *)
Definition sancus_log__error_dump (D : option Z) (data : option (list byte)) (len : Z) (fmt out : option (list byte)) (st : lstate) : io (Z * lstate) :=
  sancus_logger__dumpf h st D SANCUS_LOG_ERROR_BIT None 0 data len fmt out.

(** [sancus_log__error_hexdump] @ include/sancus/logger.h:253-253. *)
Definition sancus_log__error_hexdump (D : option Z) (width : Z) (data : option (list byte)) (len : Z) (fmt out : option (list byte)) (st : lstate) : io (Z * lstate) :=
  sancus_logger__hexdumpf h st D SANCUS_LOG_ERROR_BIT None 0 width data len fmt out.

(** [sancus_log__warn] @ include/sancus/logger.h:255-255. *)
Definition sancus_log__warn (D : option Z) (fmt out : option (list byte)) (st : lstate) : io (Z * lstate) :=
  sancus_logger__printf h st D SANCUS_LOG_WARN_BIT None 0 fmt out.

(** [sancus_log__warn_dump] @ include/sancus/logger.h:256-256. *)
Definition sancus_log__warn_dump (D : option Z) (data : option (list byte)) (len : Z) (fmt out : option (list byte)) (st : lstate) : io (Z * lstate) :=
  sancus_logger__dumpf h st D SANCUS_LOG_WARN_BIT None 0 data len fmt out.

(** [sancus_log__warn_hexdump] @ include/sancus/logger.h:257-257. *)
Definition sancus_log__warn_hexdump (D : option Z) (width : Z) (data : option (list byte)) (len : Z) (fmt out : option (list byte)) (st : lstate) : io (Z * lstate) :=
  sancus_logger__hexdumpf h st D SANCUS_LOG_WARN_BIT None 0 width data len fmt out.

(** [sancus_log__info] @ include/sancus/logger.h:259-259. *)
Definition sancus_log__info (D : option Z) (fmt out : option (list byte)) (st : lstate) : io (Z * lstate) :=
  sancus_logger__printf h st D SANCUS_LOG_INFO_BIT None 0 fmt out.

(** [sancus_log__info_dump] @ include/sancus/logger.h:260-260. *)
Definition sancus_log__info_dump (D : option Z) (data : option (list byte)) (len : Z) (fmt out : option (list byte)) (st : lstate) : io (Z * lstate) :=
  sancus_logger__dumpf h st D SANCUS_LOG_INFO_BIT None 0 data len fmt out.

(** [sancus_log__info_hexdump] @ include/sancus/logger.h:261-261. *)
Definition sancus_log__info_hexdump (D : option Z) (width : Z) (data : option (list byte)) (len : Z) (fmt out : option (list byte)) (st : lstate) : io (Z * lstate) :=
  sancus_logger__hexdumpf h st D SANCUS_LOG_INFO_BIT None 0 width data len fmt out.

(** [sancus_log__trace] @ include/sancus/logger.h:263-263. *)
Definition sancus_log__trace (D : option Z) (fmt out : option (list byte)) (st : lstate) : io (Z * lstate) :=
  sancus_logger__printf h st D SANCUS_LOG_TRACE_BIT (Some func) line fmt out.

(** [sancus_log__trace_dump] @ include/sancus/logger.h:264-264. *)
Definition sancus_log__trace_dump (D : option Z) (data : option (list byte)) (len : Z) (fmt out : option (list byte)) (st : lstate) : io (Z * lstate) :=
  sancus_logger__dumpf h st D SANCUS_LOG_TRACE_BIT (Some func) line data len fmt out.

(** [sancus_log__trace_hexdump] @ include/sancus/logger.h:265-265. *)
Definition sancus_log__trace_hexdump (D : option Z) (width : Z) (data : option (list byte)) (len : Z) (fmt out : option (list byte)) (st : lstate) : io (Z * lstate) :=
  sancus_logger__hexdumpf h st D SANCUS_LOG_TRACE_BIT (Some func) line width data len fmt out.

(** [sancus_log__debug] @ include/sancus/logger.h:267-267. *)
Definition sancus_log__debug (D : option Z) (fmt out : option (list byte)) (st : lstate) : io (Z * lstate) :=
  sancus_logger__printf h st D SANCUS_LOG_DEBUG_BIT (Some func) 0 fmt out.

(** [sancus_log__debug_dump] @ include/sancus/logger.h:268-268. *)
Definition sancus_log__debug_dump (D : option Z) (data : option (list byte)) (len : Z) (fmt out : option (list byte)) (st : lstate) : io (Z * lstate) :=
  sancus_logger__dumpf h st D SANCUS_LOG_DEBUG_BIT (Some func) 0 data len fmt out.

(** [sancus_log__debug_hexdump] @ include/sancus/logger.h:269-269. *)
Definition sancus_log__debug_hexdump (D : option Z) (width : Z) (data : option (list byte)) (len : Z) (fmt out : option (list byte)) (st : lstate) : io (Z * lstate) :=
  sancus_logger__hexdumpf h st D SANCUS_LOG_DEBUG_BIT (Some func) 0 width data len fmt out.

(** [sancus_log__notice] @ include/sancus/logger.h:271-271. *)
Definition sancus_log__notice (D : option Z) (fmt out : option (list byte)) (st : lstate) : io (Z * lstate) :=
  sancus_logger__printf h st D SANCUS_LOG_DEBUG_BIT None 0 fmt out.

(** [sancus_log__notice_dump] @ include/sancus/logger.h:272-272. *)
Definition sancus_log__notice_dump (D : option Z) (data : option (list byte)) (len : Z) (fmt out : option (list byte)) (st : lstate) : io (Z * lstate) :=
  sancus_logger__dumpf h st D SANCUS_LOG_DEBUG_BIT None 0 data len fmt out.

(** [sancus_log__notice_hexdump] @ include/sancus/logger.h:273-273. *)
Definition sancus_log__notice_hexdump (D : option Z) (width : Z) (data : option (list byte)) (len : Z) (fmt out : option (list byte)) (st : lstate) : io (Z * lstate) :=
  sancus_logger__hexdumpf h st D SANCUS_LOG_DEBUG_BIT None 0 width data len fmt out.

(** [sancus_log__error .. sancus_log__notice_hexdump] @ include/sancus/logger.h:251-273.
    The macro of a severity and a kind of message. *)
Definition sancus_log__ (sev : severity) (D : option Z) (msg : message) (st : lstate) : io (Z * lstate) :=
  match sev, msg with
  | error, Line fmt out => sancus_log__error D fmt out st
  | error, Dump data len fmt out => sancus_log__error_dump D data len fmt out st
  | error, Hexdump width data len fmt out => sancus_log__error_hexdump D width data len fmt out st
  | warn, Line fmt out => sancus_log__warn D fmt out st
  | warn, Dump data len fmt out => sancus_log__warn_dump D data len fmt out st
  | warn, Hexdump width data len fmt out => sancus_log__warn_hexdump D width data len fmt out st
  | info, Line fmt out => sancus_log__info D fmt out st
  | info, Dump data len fmt out => sancus_log__info_dump D data len fmt out st
  | info, Hexdump width data len fmt out => sancus_log__info_hexdump D width data len fmt out st
  | trace, Line fmt out => sancus_log__trace D fmt out st
  | trace, Dump data len fmt out => sancus_log__trace_dump D data len fmt out st
  | trace, Hexdump width data len fmt out => sancus_log__trace_hexdump D width data len fmt out st
  | debug, Line fmt out => sancus_log__debug D fmt out st
  | debug, Dump data len fmt out => sancus_log__debug_dump D data len fmt out st
  | debug, Hexdump width data len fmt out => sancus_log__debug_hexdump D width data len fmt out st
  | notice, Line fmt out => sancus_log__notice D fmt out st
  | notice, Dump data len fmt out => sancus_log__notice_dump D data len fmt out st
  | notice, Hexdump width data len fmt out => sancus_log__notice_hexdump D width data len fmt out st
  end.

(** [sancus_log_error2] @ include/sancus/logger.h:280-280. *)
Definition sancus_log_error2 (D : option Z) (L : Z) (fmt out : option (list byte)) (st : lstate) : io lstate :=
  sancus_log__if_level h st D L (sancus_log__error D fmt out).

(** [sancus_log_error_dump2] @ include/sancus/logger.h:281-281. *)
Definition sancus_log_error_dump2 (D : option Z) (L : Z) (data : option (list byte)) (len : Z) (fmt out : option (list byte)) (st : lstate) : io lstate :=
  sancus_log__if_level h st D L (sancus_log__error_dump D data len fmt out).

(** [sancus_log_error_hexdump2] @ include/sancus/logger.h:282-282. *)
Definition sancus_log_error_hexdump2 (D : option Z) (L : Z) (width : Z) (data : option (list byte)) (len : Z) (fmt out : option (list byte)) (st : lstate) : io lstate :=
  sancus_log__if_level h st D L (sancus_log__error_hexdump D width data len fmt out).

(** [sancus_log_warn2] @ include/sancus/logger.h:284-284. *)
Definition sancus_log_warn2 (D : option Z) (L : Z) (fmt out : option (list byte)) (st : lstate) : io lstate :=
  sancus_log__if_level h st D L (sancus_log__warn D fmt out).

(** [sancus_log_warn_dump2] @ include/sancus/logger.h:285-285. *)
Definition sancus_log_warn_dump2 (D : option Z) (L : Z) (data : option (list byte)) (len : Z) (fmt out : option (list byte)) (st : lstate) : io lstate :=
  sancus_log__if_level h st D L (sancus_log__warn_dump D data len fmt out).

(** [sancus_log_warn_hexdump2] @ include/sancus/logger.h:286-286. *)
Definition sancus_log_warn_hexdump2 (D : option Z) (L : Z) (width : Z) (data : option (list byte)) (len : Z) (fmt out : option (list byte)) (st : lstate) : io lstate :=
  sancus_log__if_level h st D L (sancus_log__warn_hexdump D width data len fmt out).

(** [sancus_log_info2] @ include/sancus/logger.h:288-288. *)
Definition sancus_log_info2 (D : option Z) (L : Z) (fmt out : option (list byte)) (st : lstate) : io lstate :=
  sancus_log__if_level h st D L (sancus_log__info D fmt out).

(** [sancus_log_info_dump2] @ include/sancus/logger.h:289-289. *)
Definition sancus_log_info_dump2 (D : option Z) (L : Z) (data : option (list byte)) (len : Z) (fmt out : option (list byte)) (st : lstate) : io lstate :=
  sancus_log__if_level h st D L (sancus_log__info_dump D data len fmt out).

(** [sancus_log_info_hexdump2] @ include/sancus/logger.h:290-290. *)
Definition sancus_log_info_hexdump2 (D : option Z) (L : Z) (width : Z) (data : option (list byte)) (len : Z) (fmt out : option (list byte)) (st : lstate) : io lstate :=
  sancus_log__if_level h st D L (sancus_log__info_hexdump D width data len fmt out).

(** [sancus_log_trace2] @ include/sancus/logger.h:292-292. *)
Definition sancus_log_trace2 (D : option Z) (L : Z) (fmt out : option (list byte)) (st : lstate) : io lstate :=
  sancus_log__if_level h st D L (sancus_log__trace D fmt out).

(** [sancus_log_trace_dump2] @ include/sancus/logger.h:293-293. *)
Definition sancus_log_trace_dump2 (D : option Z) (L : Z) (data : option (list byte)) (len : Z) (fmt out : option (list byte)) (st : lstate) : io lstate :=
  sancus_log__if_level h st D L (sancus_log__trace_dump D data len fmt out).

(** [sancus_log_trace_hexdump2] @ include/sancus/logger.h:294-294. *)
Definition sancus_log_trace_hexdump2 (D : option Z) (L : Z) (width : Z) (data : option (list byte)) (len : Z) (fmt out : option (list byte)) (st : lstate) : io lstate :=
  sancus_log__if_level h st D L (sancus_log__trace_hexdump D width data len fmt out).

(** [sancus_log_debug2] @ include/sancus/logger.h:296-296. *)
Definition sancus_log_debug2 (D : option Z) (L : Z) (fmt out : option (list byte)) (st : lstate) : io lstate :=
  sancus_log__if_level h st D L (sancus_log__debug D fmt out).

(** [sancus_log_debug_dump2] @ include/sancus/logger.h:297-297. *)
Definition sancus_log_debug_dump2 (D : option Z) (L : Z) (data : option (list byte)) (len : Z) (fmt out : option (list byte)) (st : lstate) : io lstate :=
  sancus_log__if_level h st D L (sancus_log__debug_dump D data len fmt out).

(** [sancus_log_debug_hexdump2] @ include/sancus/logger.h:298-298. *)
Definition sancus_log_debug_hexdump2 (D : option Z) (L : Z) (width : Z) (data : option (list byte)) (len : Z) (fmt out : option (list byte)) (st : lstate) : io lstate :=
  sancus_log__if_level h st D L (sancus_log__debug_hexdump D width data len fmt out).

(** [sancus_log_notice2] @ include/sancus/logger.h:300-300. *)
Definition sancus_log_notice2 (D : option Z) (L : Z) (fmt out : option (list byte)) (st : lstate) : io lstate :=
  sancus_log__if_level h st D L (sancus_log__notice D fmt out).

(** [sancus_log_notice_dump2] @ include/sancus/logger.h:301-301. *)
Definition sancus_log_notice_dump2 (D : option Z) (L : Z) (data : option (list byte)) (len : Z) (fmt out : option (list byte)) (st : lstate) : io lstate :=
  sancus_log__if_level h st D L (sancus_log__notice_dump D data len fmt out).

(** [sancus_log_notice_hexdump2] @ include/sancus/logger.h:302-302. *)
Definition sancus_log_notice_hexdump2 (D : option Z) (L : Z) (width : Z) (data : option (list byte)) (len : Z) (fmt out : option (list byte)) (st : lstate) : io lstate :=
  sancus_log__if_level h st D L (sancus_log__notice_hexdump D width data len fmt out).

(** [sancus_log_error2 .. sancus_log_notice_hexdump2] @ include/sancus/logger.h:280-302. *)
Definition sancus_log_2 (sev : severity) (D : option Z) (L : Z) (msg : message) (st : lstate) : io lstate :=
  match sev, msg with
  | error, Line fmt out => sancus_log_error2 D L fmt out st
  | error, Dump data len fmt out => sancus_log_error_dump2 D L data len fmt out st
  | error, Hexdump width data len fmt out => sancus_log_error_hexdump2 D L width data len fmt out st
  | warn, Line fmt out => sancus_log_warn2 D L fmt out st
  | warn, Dump data len fmt out => sancus_log_warn_dump2 D L data len fmt out st
  | warn, Hexdump width data len fmt out => sancus_log_warn_hexdump2 D L width data len fmt out st
  | info, Line fmt out => sancus_log_info2 D L fmt out st
  | info, Dump data len fmt out => sancus_log_info_dump2 D L data len fmt out st
  | info, Hexdump width data len fmt out => sancus_log_info_hexdump2 D L width data len fmt out st
  | trace, Line fmt out => sancus_log_trace2 D L fmt out st
  | trace, Dump data len fmt out => sancus_log_trace_dump2 D L data len fmt out st
  | trace, Hexdump width data len fmt out => sancus_log_trace_hexdump2 D L width data len fmt out st
  | debug, Line fmt out => sancus_log_debug2 D L fmt out st
  | debug, Dump data len fmt out => sancus_log_debug_dump2 D L data len fmt out st
  | debug, Hexdump width data len fmt out => sancus_log_debug_hexdump2 D L width data len fmt out st
  | notice, Line fmt out => sancus_log_notice2 D L fmt out st
  | notice, Dump data len fmt out => sancus_log_notice_dump2 D L data len fmt out st
  | notice, Hexdump width data len fmt out => sancus_log_notice_hexdump2 D L width data len fmt out st
  end.

(** [sancus_log_error] @ include/sancus/logger.h:304-304. *)
Definition sancus_log_error (D : option Z) (fmt out : option (list byte)) (st : lstate) : io lstate :=
  r ← sancus_log__error D fmt out st; mret r.2.

(** [sancus_log_error_dump] @ include/sancus/logger.h:305-305. *)
Definition sancus_log_error_dump (D : option Z) (data : option (list byte)) (len : Z) (fmt out : option (list byte)) (st : lstate) : io lstate :=
  r ← sancus_log__error_dump D data len fmt out st; mret r.2.

(** [sancus_log_error_hexdump] @ include/sancus/logger.h:306-306. *)
Definition sancus_log_error_hexdump (D : option Z) (width : Z) (data : option (list byte)) (len : Z) (fmt out : option (list byte)) (st : lstate) : io lstate :=
  r ← sancus_log__error_hexdump D width data len fmt out st; mret r.2.

(** [sancus_log_warn] @ include/sancus/logger.h:308-308. *)
Definition sancus_log_warn (D : option Z) (fmt out : option (list byte)) (st : lstate) : io lstate :=
  sancus_log_warn2 D SANCUS_LOG_WARN fmt out st.

(** [sancus_log_warn_dump] @ include/sancus/logger.h:309-309. *)
Definition sancus_log_warn_dump (D : option Z) (data : option (list byte)) (len : Z) (fmt out : option (list byte)) (st : lstate) : io lstate :=
  sancus_log_warn_dump2 D SANCUS_LOG_WARN data len fmt out st.

(** [sancus_log_warn_hexdump] @ include/sancus/logger.h:310-310. *)
Definition sancus_log_warn_hexdump (D : option Z) (width : Z) (data : option (list byte)) (len : Z) (fmt out : option (list byte)) (st : lstate) : io lstate :=
  sancus_log_warn_hexdump2 D SANCUS_LOG_WARN width data len fmt out st.

(** [sancus_log_info] @ include/sancus/logger.h:312-312. *)
Definition sancus_log_info (D : option Z) (fmt out : option (list byte)) (st : lstate) : io lstate :=
  sancus_log_info2 D SANCUS_LOG_INFO fmt out st.

(** [sancus_log_info_dump] @ include/sancus/logger.h:313-313. *)
Definition sancus_log_info_dump (D : option Z) (data : option (list byte)) (len : Z) (fmt out : option (list byte)) (st : lstate) : io lstate :=
  sancus_log_info_dump2 D SANCUS_LOG_INFO data len fmt out st.

(** [sancus_log_info_hexdump] @ include/sancus/logger.h:314-314. *)
Definition sancus_log_info_hexdump (D : option Z) (width : Z) (data : option (list byte)) (len : Z) (fmt out : option (list byte)) (st : lstate) : io lstate :=
  sancus_log_info_hexdump2 D SANCUS_LOG_INFO width data len fmt out st.

(** [sancus_log_trace] @ include/sancus/logger.h:316-316. *)
Definition sancus_log_trace (D : option Z) (fmt out : option (list byte)) (st : lstate) : io lstate :=
  sancus_log_trace2 D SANCUS_LOG_TRACE fmt out st.

(** [sancus_log_trace_dump] @ include/sancus/logger.h:317-317. *)
Definition sancus_log_trace_dump (D : option Z) (data : option (list byte)) (len : Z) (fmt out : option (list byte)) (st : lstate) : io lstate :=
  sancus_log_trace_dump2 D SANCUS_LOG_TRACE data len fmt out st.

(** [sancus_log_trace_hexdump] @ include/sancus/logger.h:318-318. *)
Definition sancus_log_trace_hexdump (D : option Z) (width : Z) (data : option (list byte)) (len : Z) (fmt out : option (list byte)) (st : lstate) : io lstate :=
  sancus_log_trace_hexdump2 D SANCUS_LOG_TRACE width data len fmt out st.

(** [sancus_log_debug] @ include/sancus/logger.h:320-320. *)
Definition sancus_log_debug (D : option Z) (fmt out : option (list byte)) (st : lstate) : io lstate :=
  sancus_log_debug2 D SANCUS_LOG_DEBUG fmt out st.

(** [sancus_log_debug_dump] @ include/sancus/logger.h:321-321. *)
Definition sancus_log_debug_dump (D : option Z) (data : option (list byte)) (len : Z) (fmt out : option (list byte)) (st : lstate) : io lstate :=
  sancus_log_debug_dump2 D SANCUS_LOG_DEBUG data len fmt out st.

(** [sancus_log_debug_hexdump] @ include/sancus/logger.h:322-322. *)
Definition sancus_log_debug_hexdump (D : option Z) (width : Z) (data : option (list byte)) (len : Z) (fmt out : option (list byte)) (st : lstate) : io lstate :=
  sancus_log_debug_hexdump2 D SANCUS_LOG_DEBUG width data len fmt out st.

(** [sancus_log_notice] @ include/sancus/logger.h:324-324. *)
Definition sancus_log_notice (D : option Z) (fmt out : option (list byte)) (st : lstate) : io lstate :=
  sancus_log_notice2 D SANCUS_LOG_DEBUG fmt out st.

(** [sancus_log_notice_dump] @ include/sancus/logger.h:325-325. *)
Definition sancus_log_notice_dump (D : option Z) (data : option (list byte)) (len : Z) (fmt out : option (list byte)) (st : lstate) : io lstate :=
  sancus_log_notice_dump2 D SANCUS_LOG_DEBUG data len fmt out st.

(** [sancus_log_notice_hexdump] @ include/sancus/logger.h:326-326. *)
Definition sancus_log_notice_hexdump (D : option Z) (width : Z) (data : option (list byte)) (len : Z) (fmt out : option (list byte)) (st : lstate) : io lstate :=
  sancus_log_notice_hexdump2 D SANCUS_LOG_DEBUG width data len fmt out st.

(** [sancus_log_error .. sancus_log_notice_hexdump] @ include/sancus/logger.h:304-326. *)
Definition sancus_log_ (sev : severity) (D : option Z) (msg : message) (st : lstate) : io lstate :=
  match sev, msg with
  | error, Line fmt out => sancus_log_error D fmt out st
  | error, Dump data len fmt out => sancus_log_error_dump D data len fmt out st
  | error, Hexdump width data len fmt out => sancus_log_error_hexdump D width data len fmt out st
  | warn, Line fmt out => sancus_log_warn D fmt out st
  | warn, Dump data len fmt out => sancus_log_warn_dump D data len fmt out st
  | warn, Hexdump width data len fmt out => sancus_log_warn_hexdump D width data len fmt out st
  | info, Line fmt out => sancus_log_info D fmt out st
  | info, Dump data len fmt out => sancus_log_info_dump D data len fmt out st
  | info, Hexdump width data len fmt out => sancus_log_info_hexdump D width data len fmt out st
  | trace, Line fmt out => sancus_log_trace D fmt out st
  | trace, Dump data len fmt out => sancus_log_trace_dump D data len fmt out st
  | trace, Hexdump width data len fmt out => sancus_log_trace_hexdump D width data len fmt out st
  | debug, Line fmt out => sancus_log_debug D fmt out st
  | debug, Dump data len fmt out => sancus_log_debug_dump D data len fmt out st
  | debug, Hexdump width data len fmt out => sancus_log_debug_hexdump D width data len fmt out st
  | notice, Line fmt out => sancus_log_notice D fmt out st
  | notice, Dump data len fmt out => sancus_log_notice_dump D data len fmt out st
  | notice, Hexdump width data len fmt out => sancus_log_notice_hexdump D width data len fmt out st
  end.

(** [strerror] of the C library. *)
Context (strerror : Z -> list byte).

(** [sancus_log_perror2] @ include/sancus/logger.h:330-330. [F] and its
    arguments print [out]; the format is never empty. *)
Definition sancus_log_perror2 (D : option Z) (E : Z) (F : list byte) (out : list byte) (st : lstate) : io lstate :=
  sancus_log_ error D
    (Line (Some (cstr (F ++ lit ": %s (%d)")))
          (Some (out ++ lit ": " ++ strerror E ++ lit " (" ++ fmt_d E ++ lit ")"))) st.

(** [sancus_log_perror] @ include/sancus/logger.h:331-331. *)
Definition sancus_log_perror (D : option Z) (F out : list byte) (st : lstate) : io lstate :=
  e ← get_errno; sancus_log_perror2 D e F out st.

(** [NDEBUG]: 1 when it is defined; and whether [__builtin_expect] is there. *)
Context (ndebug : Z) (builtin_expect : bool).

(** [sancus__assert2] @ include/sancus/logger.h:235-239. *)
Definition sancus__assert2 (L : option Z) (E : Z) (fmt out : option (list byte)) (st : lstate) : io (Z * lstate) :=
  r ← sancus__assert h st L ndebug (Some func) line E fmt out; mret (likely builtin_expect r.1, r.2).

(** [sancus__trap2] @ include/sancus/logger.h:237-241. *)
Definition sancus__trap2 (L : option Z) (E : Z) (fmt out : option (list byte)) (st : lstate) : io (Z * lstate) :=
  sancus__trap h st L ndebug (Some func) line E fmt out.

(** [sancus_assertf] @ include/sancus/logger.h:243-243. *)
Definition sancus_assertf (L : option Z) (E : Z) (fmt out : list byte) (st : lstate) : io (Z * lstate) :=
  sancus__assert2 L E (Some (cstr (lit "assertion failed: " ++ fmt))) (Some (lit "assertion failed: " ++ out)) st.

(** [sancus_assert] @ include/sancus/logger.h:244-244. [text] is [#E]. *)
Definition sancus_assert (L : option Z) (E : Z) (text : list byte) (st : lstate) : io (Z * lstate) :=
  sancus__assert2 L E (Some (cstr (lit "assertion `%s` failed.")))
    (Some (lit "assertion `" ++ text ++ lit "` failed.")) st.

(** [sancus_trapf] @ include/sancus/logger.h:246-246. *)
Definition sancus_trapf (L : option Z) (E : Z) (fmt out : list byte) (st : lstate) : io (Z * lstate) :=
  sancus__trap2 L E (Some (cstr (lit "trap triggered: " ++ fmt))) (Some (lit "trap triggered: " ++ out)) st.

(** [sancus_trap] @ include/sancus/logger.h:247-247. *)
Definition sancus_trap (L : option Z) (E : Z) (text : list byte) (st : lstate) : io (Z * lstate) :=
  sancus__trap2 L E (Some (cstr (lit "trap `%s` triggered.")))
    (Some (lit "trap `" ++ text ++ lit "` triggered.")) st.
End Macros.

(** ** What is logged *)

(** The first layer calls the function of the kind, at the level and the place
    of the severity. *)
Lemma log__site h func line sev D msg st :
  sancus_log__ h func line sev D msg st =
    let '(level, func, line) := macro_site sev func line in
    match msg with
    | Line fmt out => sancus_logger__printf h st D level func line fmt out
    | Dump data len fmt out => sancus_logger__dumpf h st D level func line data len fmt out
    | Hexdump width data len fmt out => sancus_logger__hexdumpf h st D level func line width data len fmt out
    end.
Proof. by destruct sev, msg. Qed.

(** The second asks for the level before. *)
Lemma log_2_if_level h func line sev D L msg st :
  sancus_log_2 h func line sev D L msg st = sancus_log__if_level h st D L (sancus_log__ h func line sev D msg).
Proof. by destruct sev, msg. Qed.

(** Whether a message of a severity gets through the mask [m]. *)
Definition shown (m : Z) (sev : severity) : bool :=
  bool_decide (sev = error) || negb (Z.land (level_mask (macro_site sev [] 0).1.1) m =? 0).

Lemma has_level_shown h D ls sev :
  chain h D ls -> sev <> error ->
  sancus_logger_has_level h D (level_mask (macro_site sev [] 0).1.1) =
    Ret (Z.b2z (shown (effective_mask ls) sev)).
Proof.
  intros Hc Hs. rewrite (has_level_chain _ _ _ _ Hc). unfold shown.
  rewrite (bool_decide_eq_false_2 _ Hs). by destruct sev.
Qed.

(** A macro is the unconditional call, or nothing. *)
Lemma log_filtered h func line D ls sev msg st w :
  chain h D ls ->
  sancus_log_ h func line sev D msg st w =
    if shown (effective_mask ls) sev
    then (r ← sancus_log__ h func line sev D msg st; mret r.2) w
    else Ret (st, w).
Proof.
  intros Hc. destruct (decide (sev = error)) as [->|Hs]; [by destruct msg|].
  assert (sancus_log_ h func line sev D msg st =
    sancus_log_2 h func line sev D (level_mask (macro_site sev [] 0).1.1) msg st) as -> by (by destruct sev, msg).
  rewrite log_2_if_level. unfold sancus_log__if_level.
  rewrite (lift_bind _ _ _ _ (has_level_shown h D ls sev Hc Hs)).
  by destruct (shown (effective_mask ls) sev).
Qed.

(** C21. The macros filter by the mask that counts.  Whatever the kind of
    message, a macro of a severity does what the unconditional call at its
    level, function and line does if the mask of the nearest logger up the chain
    that has one lets it through, and otherwise does nothing at all: nothing is
    formatted, written or asked of the kernel.  Errors always pass; of the named
    masks quiet lets through warnings too, normal, which counts where no logger
    has a mask, information as well, and verbose debug messages and notices but no
    traces. *)
Theorem log_macros_filter (h : loggers) (func : list byte) (line : Z) (D : option Z)
    (ls : list (Z * logger)) (Hc : chain h D ls) :
  (forall sev msg st w,
     sancus_log_ h func line sev D msg st w =
       if shown (effective_mask ls) sev
       then (r ← sancus_log__ h func line sev D msg st; mret r.2) w
       else Ret (st, w)) /\
  (Forall (fun p => l_mask p.2 = 0) ls -> effective_mask ls = SANCUS_LOG_NORMAL) /\
  map (shown SANCUS_LOG_QUIET) [error; warn; info; trace; debug; notice] =
    [true; true; false; false; false; false] /\
  map (shown SANCUS_LOG_NORMAL) [error; warn; info; trace; debug; notice] =
    [true; true; true; false; false; false] /\
  map (shown SANCUS_LOG_VERBOSE) [error; warn; info; trace; debug; notice] =
    [true; true; true; false; true; true].
Proof.
  split_and!; [|clear Hc; induction 1 as [|[a l] ls' Hl _ IH]|done..].
  - intros sev msg st w. by apply log_filtered.
  - done.
  - cbn [effective_mask]. cbn [snd] in Hl. rewrite Hl. exact IH.
Qed.

Lemma log_macros_filter_witness :
  (forall sev msg st w,
     sancus_log_ sample_loggers (cstr (lit "main")) 12 sev (Some 2) msg st w =
       if shown (effective_mask sample_chain) sev
       then (r ← sancus_log__ sample_loggers (cstr (lit "main")) 12 sev (Some 2) msg st; mret r.2) w
       else Ret (st, w)) /\
  (Forall (fun p => l_mask p.2 = 0) sample_chain -> effective_mask sample_chain = SANCUS_LOG_NORMAL) /\
  map (shown SANCUS_LOG_QUIET) [error; warn; info; trace; debug; notice] =
    [true; true; false; false; false; false] /\
  map (shown SANCUS_LOG_NORMAL) [error; warn; info; trace; debug; notice] =
    [true; true; true; false; false; false] /\
  map (shown SANCUS_LOG_VERBOSE) [error; warn; info; trace; debug; notice] =
    [true; true; true; false; true; true].
Proof. exact (log_macros_filter sample_loggers (cstr (lit "main")) 12 (Some 2) sample_chain sample_chain_ok). Defined.

(** An assertion that holds is silent and costs nothing; one that does not is
    logged and aborts, unless [NDEBUG] is defined: then it is 0. *)
Lemma sancus_assert_spec h func line ndebug be L E text st w :
  (E <> 0 -> exists v, v <> 0 /\ sancus_assert h func line ndebug be L E text st w = Ret ((v, st), w)) /\
  (forall r w', sancus_logger__vprintf h st L SANCUS_LOG_ERROR_BIT (Some func) line
       (Some (cstr (lit "assertion `%s` failed."))) (Some (lit "assertion `" ++ text ++ lit "` failed.")) w = Ret (r, w') ->
     sancus_assert h func line ndebug be L 0 text st w =
       if ndebug =? 0 then Aborted else Ret ((0, r.2), w')).
Proof.
  unfold sancus_assert, sancus__assert2, sancus__assert. split.
  - intros HE. exists (likely be E). destruct (expect_truth be E) as [Hl _]. split; [tauto|].
    by rewrite (proj2 (Z.eqb_neq E 0) HE).
  - intros r w' H. change (0 =? 0) with true. cbv iota.
    unfold mbind at 1, io_bind at 1. rewrite (io_bind_eq _ _ _ _ _ H).
    destruct (ndebug =? 0); [done|]. by destruct be.
Qed.
