(* ===== verification/LogSession.v ===== *)
(** * LogSession

    A program that logs.  Each place in it that calls one of the macros of
    [LogMacros] is a value; the theorem composes what the macros filter, what
    the logger makes of a call and what the fd backend writes, over any number
    of calls by any loggers of the program. *)

From stdpp Require Import gmap.
From S2P Require Import Prelude Buffer Time Sys Logger LogStamp LogLine LogMacros.
#[local] Open Scope Z_scope.

(** ** Calls *)

(** A place that logs a line: the severity is the macro, [site_text] what the
    format and the arguments print. *)
Record site := Site {
  site_sev : severity; site_log : option Z; site_func : list byte; site_line : Z;
  site_fmt : list byte; site_text : list byte
}.

(** The macro, as written there. *)
Definition log_site (h : loggers) (s : site) (st : lstate) : io lstate :=
  sancus_log_ h (cstr (site_func s)) (site_line s) (site_sev s) (site_log s)
    (Line (Some (cstr (site_fmt s))) (Some (site_text s))) st.

(** One after the other, with the state of logger.c in between. *)
Fixpoint log_all (h : loggers) (ss : list site) (st : lstate) : io lstate :=
  match ss with
  | [] => mret st
  | s :: ss => st ← log_site h s st; log_all h ss st
  end.

(** What the macro passes on of the place. *)
Definition site_level (s : site) : sancus_log_level := (macro_site (site_sev s) [] 0).1.1.
Definition shown_func (s : site) : list byte :=
  match (macro_site (site_sev s) [] 0).1.2 with Some _ => site_func s | None => [] end.
Definition shown_line (s : site) : Z := (macro_site (site_sev s) [] (site_line s)).2.

(** ** Lines *)

(** [site_out h s out]: the loggers [h] make [out] of the call, which the
    backend writes behind a timestamp.  What is filtered, and what is blank,
    is nothing. *)
Inductive site_out (h : loggers) (s : site) : list byte -> Prop :=
  | out_hidden ls :
      chain h (site_log s) ls -> shown (effective_mask ls) (site_sev s) = false -> site_out h s []
  | out_shown ls pfx :
      call_ok h (site_log s) ls (macro_site (site_sev s) (cstr (site_func s)) (site_line s)).1.2
        (Some (cstr (site_fmt s))) (shown_func s) (site_fmt s) (site_text s) pfx (shown_line s) ->
      Forall (fun q => has_backend q.2 = false) ls ->
      shown (effective_mask ls) (site_sev s) = true ->
      let p := shown_prefix pfx in
      let m := LogLine.message (shown_func s) (shown_line s) (site_text s) in
      site_out h s (if decide (p ++ m = []) then []
                    else level_text (level_bit (site_level s)) ++ line_body p m []).

(** A line as it is written: what the clock answers, and [writev], and the
    bytes. *)
Record entry := Entry { en_clock : answer; en_write : answer; en_line : list byte }.

(** [session st outs es st']: from the state [st] of the file on, the backend
    writes the texts [outs] as the lines [es], each behind the stamp of the
    time the clock shows, and leaves [st'].  The kernel takes every line at
    once. *)
Inductive session : lstate -> list (list byte) -> list entry -> lstate -> Prop :=
  | session_done st : session st [] [] st
  | session_blank st outs es st' : session st outs es st' -> session st ([] :: outs) es st'
  | session_line st out outs ts g r es st' :
      out <> [] -> clock_shows g ts -> in_time st ts -> ret r = zlen (stamp st ts ++ out) ->
      session (stamped_state st ts) outs es st' ->
      session st (out :: outs) (Entry g r (stamp st ts ++ out) :: es) st'.

(** What the kernel is asked for a line on the descriptor [fd]. *)
Definition entry_events (fd : Z) (en : entry) (evs : list event) : Prop :=
  exists xs, evs = [(SysGettime, en_clock en); (SysWritev fd xs, en_write en)] /\ concat xs = en_line en.

Definition entry_answers (en : entry) : list answer := [en_clock en; en_write en].

(** The fd backend is the default one, and writes timestamps. *)
Definition to_fd (st : lstate) : Prop := default_backend st = FdBackend /\ stamping st.

(** A call with nothing to say asks the kernel nothing. *)
Lemma vprintf_blank h st ctx ls level fp func line gp fmt text pfx w :
  call_ok h ctx ls fp gp func fmt text pfx line ->
  shown_prefix pfx ++ LogLine.message func line text = [] ->
  sancus_logger__vprintf h st ctx level fp line gp (Some text) w = Ret ((0, st), w).
Proof.
  intros Hok [Hp Hm]%app_eq_nil. unfold sancus_logger__vprintf. cbv zeta.
  destruct (call_prepares _ _ _ _ _ _ _ _ _ _ Hok) as (pb & mb & rc & Ep & Hrc & Rp & Em & Rm).
  rewrite (lift_bind _ _ _ _ Ep), (proj2 (Z.ltb_ge _ 0)) by lia. pose proof (zlen_nonneg text).
  rewrite (lift_bind _ _ _ _ Em), (proj2 (Z.ltb_ge (zlen text) 0)) by lia.
  unfold log_write.
  rewrite io_bind_assoc, (lift_bind _ _ _ _ (trim_refines pb _ Rp)).
  rewrite io_bind_assoc, (lift_bind _ _ _ _ (trim_refines mb _ Rm)). cbn [s_data].
  fold (shown_prefix pfx). rewrite Hp. unfold LogLine.message in Hm |- *. by rewrite trim_stripped, Hm.
Qed.

(** One call: nothing, or a line. *)
Lemma log_site_blank h st s w : site_out h s [] -> log_site h s st w = Ret (st, w).
Proof.
  intros Hout. unfold log_site. remember [] as out eqn:Eo.
  destruct Hout as [ls Hc Hm|ls pfx Hok Hb Hm p m]; rewrite (log_filtered _ _ _ _ ls), Hm by (done || apply Hok); [done|].
  destruct (decide (p ++ m = [])) as [Hnil|Hne].
  - assert (sancus_log__ h (cstr (site_func s)) (site_line s) (site_sev s) (site_log s)
        (Line (Some (cstr (site_fmt s))) (Some (site_text s))) st =
      sancus_logger__vprintf h st (site_log s) (site_level s)
        (macro_site (site_sev s) (cstr (site_func s)) (site_line s)).1.2 (shown_line s)
        (Some (cstr (site_fmt s))) (Some (site_text s))) as ->
      by (rewrite log__site; unfold site_level, shown_line; by destruct (site_sev s)).
    by rewrite (io_bind_eq _ _ _ _ _ (vprintf_blank _ _ _ _ _ _ _ _ _ _ _ _ _ Hok Hnil)).
  - exfalso. apply (f_equal length) in Eo. unfold line_body in Eo. rewrite !length_app in Eo. simpl in Eo. lia.
Qed.

Lemma log_site_line h st s out ts g r rs t e :
  to_fd st -> site_out h s out -> out <> [] -> clock_shows g ts -> in_time st ts ->
  ret r = zlen (stamp st ts ++ out) ->
  exists evs, log_site h s st (World (g :: r :: rs) t e) = Ret (stamped_state st ts, World rs (t ++ evs) e) /\
    entry_events (fdb_fd st) (Entry g r (stamp st ts ++ out)) evs.
Proof.
  intros [Hd Hst] Hout Hne Hg Hin. unfold log_site.
  destruct Hout as [ls Hc Hm|ls pfx Hok Hb Hm p m]; [done|]. intros Hr.
  destruct (decide (p ++ m = [])) as [Hnil|Hpm]; [done|].
  rewrite (log_filtered _ _ _ _ ls), Hm by apply Hok.
  assert (sancus_log__ h (cstr (site_func s)) (site_line s) (site_sev s) (site_log s)
      (Line (Some (cstr (site_fmt s))) (Some (site_text s))) st =
    sancus_logger__vprintf h st (site_log s) (site_level s)
      (macro_site (site_sev s) (cstr (site_func s)) (site_line s)).1.2 (shown_line s)
      (Some (cstr (site_fmt s))) (Some (site_text s))) as ->
    by (rewrite log__site; unfold site_level, shown_line; by destruct (site_sev s)).
  destruct (printf_line h st _ ls (site_level s) _ _ _ _ _ pfx _ ts g r rs t e Hok Hb Hd Hst Hg Hin Hpm Hr) as (xs & E & Hxs).
  exists [(SysGettime, g); (SysWritev (fdb_fd st) xs, r)]. unfold sancus_logger__printf in E.
  rewrite (io_bind_eq _ _ _ _ _ E). split; [done|]. by exists xs.
Qed.

Lemma log_all_spec h st ss outs es st' rs t e :
  to_fd st -> Forall2 (site_out h) ss outs -> session st outs es st' ->
  exists evss, log_all h ss st (World ((es ≫= entry_answers) ++ rs) t e) = Ret (st', World rs (t ++ concat evss) e) /\
    Forall2 (entry_events (fdb_fd st)) es evss.
Proof.
  intros Hfd Hss Hses. revert ss t Hss Hfd.
  induction Hses as [st|st outs es st' _ IH|st out outs ts g r es st' Hne Hg Hin Hr _ IH]; intros ss t Hss Hfd.
  - inversion Hss; subst. exists []. rewrite app_nil_r. by split.
  - inversion Hss as [|s ? ss1 ? Hs Hss1]; subst. destruct (IH ss1 t Hss1 Hfd) as (evss & E & F).
    exists evss. cbn [log_all]. by rewrite (io_bind_eq _ _ _ _ _ (log_site_blank h st s _ Hs)).
  - inversion Hss as [|s ? ss1 ? Hs Hss1]; subst. cbn [mbind list_bind entry_answers en_clock en_write app].
    destruct (log_site_line h st s out ts g r ((es ≫= entry_answers) ++ rs) t e Hfd Hs Hne Hg Hin Hr) as (evs & E1 & F1).
    destruct (IH ss1 (t ++ evs) Hss1) as (evss & E2 & F2); [by destruct Hfd; split; [|apply stamping_next]|].
    exists (evs :: evss). cbn [log_all]. rewrite (io_bind_eq _ _ _ _ _ E1). cbn [concat].
    rewrite app_assoc. split; [exact E2|by constructor].
Qed.

Lemma entries_accepted fd es evss :
  Forall2 (entry_events fd) es evss -> Forall (fun en => ret (en_write en) = zlen (en_line en)) es ->
  accepted (concat evss) = concat (map en_line es).
Proof.
  induction 1 as [|en evs es evss (xs & -> & Hxs) _ IH]; intros Hes; [done|].
  apply Forall_cons in Hes as [Hr Hes]. cbn [concat map]. rewrite accepted_app, IH by done. f_equal.
  unfold accepted. cbn [mbind list_bind taken]. rewrite Hxs, Hr, app_nil_r. cbn. by apply sub_all.
Qed.

Lemma session_taken st outs es st' :
  session st outs es st' -> Forall (fun en => ret (en_write en) = zlen (en_line en)) es.
Proof. induction 1; by repeat constructor. Qed.

(** ** Correctness *)

(** C16. A program that logs any number of lines, through any of its loggers
    and at any severities, writes exactly the lines that are not filtered and
    not blank, in the order of the calls, each behind the timestamp of its
    time: for each line the clock is asked once and then the line written with
    one [writev] on the descriptor of the backend, and what it shows of the
    time counts from the lines before it; calls that are filtered or blank ask
    the kernel nothing and change nothing.  The bytes the kernel accepts are
    the lines one after the other, and the state of the logger is the one
    the last line left.  (The loggers have no backends of their own, prefixes
    that are static and not of exactly 128 bytes, and the messages fit their
    buffer; the clock is the system's and shows no times 2^31 s apart; the
    kernel takes each line at once.) *)
Theorem log_session_writes (h : loggers) (st st' : lstate) (ss : list site) (outs : list (list byte))
    (es : list entry) (rs : list answer) (t : list event) (e : Z)
    (Hst : to_fd st) (Hss : Forall2 (site_out h) ss outs) (Hses : session st outs es st') :
  exists evss, log_all h ss st (World ((es ≫= entry_answers) ++ rs) t e) = Ret (st', World rs (t ++ concat evss) e) /\
    Forall2 (entry_events (fdb_fd st)) es evss /\
    accepted (concat evss) = concat (map en_line es).
Proof.
  destruct (log_all_spec h st ss outs es st' rs t e Hst Hss Hses) as (evss & E & F).
  exists evss. split_and!; [done..|]. eapply entries_accepted; [done|by eapply session_taken].
Qed.

(** A line is something that is transmitted: a client needs no more of it. *)
Lemma line_delivers h st ctx ls level fp gp func fmt text pfx line ts :
  call_ok h ctx ls fp gp func fmt text pfx line -> Forall (fun q => has_backend q.2 = false) ls -> to_fd st ->
  in_time st ts -> shown_prefix pfx ++ LogLine.message func line text <> [] ->
  let out := stamp st ts ++ level_text (level_bit level) ++ line_body (shown_prefix pfx) (LogLine.message func line text) [] in
  Delivers (fun w => exists g r rs, script w = g :: r :: rs /\ clock_shows g ts /\ ret r = zlen out)
    (r ← sancus_logger__printf h st ctx level fp line gp (Some text); mret r.1) out.
Proof.
  intros Hok Hb [Hd Hst] Hin Hne out [? t e] n w' (g & r & rs & Hs & Hg & Hr) E. simpl in Hs. subst.
  destruct (printf_line h st _ ls level _ _ _ _ _ pfx _ ts g r rs t e Hok Hb Hd Hst Hg Hin Hne Hr) as (xs & Ep & Hxs).
  rewrite (io_bind_eq _ _ _ _ _ Ep) in E. injection E as <- <-. fold out. pose proof (zlen_nonneg out).
  exists [(SysGettime, g); (SysWritev (fdb_fd st) xs, r)], (zlen out). split_and!; [done| |lia..|by left].
  unfold accepted. cbn [mbind list_bind taken]. rewrite Hxs, Hr, app_nil_r. fold out. done.
Qed.

(** A warning, a debug message and an error of a logger under "app". *)
Definition sample_site (sev : severity) (text : list byte) : site :=
  Site sev (Some 2) (lit "main") 7 (lit "%s") text.

Lemma sample_site_ok sev text :
  zlen text < 200 -> sev = warn \/ sev = error ->
  call_ok sample_loggers (Some 2) sample_chain (macro_site sev (cstr (lit "main")) 7).1.2 (Some (cstr (lit "%s")))
    (shown_func (sample_site sev text)) (lit "%s") text (lit "app") (shown_line (sample_site sev text)).
Proof.
  intros Hl Hs. destruct sample_call as [Hc Hst Hp Hn Hpl _ _ _ _].
  constructor; [done..|by destruct Hs as [-> | ->]; left| |done|].
  - right. split; [done|]. no_nul_lit.
  - assert (zlen (head_text (shown_func (sample_site sev text)) (shown_line (sample_site sev text))) = 0) as ->
      by (by destruct Hs as [-> | ->]). unfold LOG_MESSAGE_SIZE. lia.
Defined.

(** The warning at 100 s, the error 1.5 s later. *)
Lemma log_session_writes_witness :
  exists evss, log_all sample_loggers
      [sample_site warn (lit "low "); sample_site debug (lit "x=1"); sample_site error (lit "gone")] lstate0
      (World ([clock_at 100 0; ok 26; clock_at 101 500000000; ok 27] ++ []) [] 0) =
      Ret (LState FdBackend 2 true (mk_ts 100 0) (mk_ts 101 500000000) None, World [] ([] ++ concat evss) 0) /\
    Forall2 (entry_events 2)
      [Entry (clock_at 100 0) (ok 26) (lit "[0.000 +0.000] W/app: low" ++ [Byte.x0a]);
       Entry (clock_at 101 500000000) (ok 27) (lit "[1.500 +1.500] E/app: gone" ++ [Byte.x0a])] evss /\
    accepted (concat evss) = lit "[0.000 +0.000] W/app: low" ++ [Byte.x0a] ++ lit "[1.500 +1.500] E/app: gone" ++ [Byte.x0a].
Proof.
  apply (log_session_writes sample_loggers lstate0 (LState FdBackend 2 true (mk_ts 100 0) (mk_ts 101 500000000) None)
    [sample_site warn (lit "low "); sample_site debug (lit "x=1"); sample_site error (lit "gone")]
    [lit "W/app: low" ++ [Byte.x0a]; []; lit "E/app: gone" ++ [Byte.x0a]]
    [Entry (clock_at 100 0) (ok 26) (lit "[0.000 +0.000] W/app: low" ++ [Byte.x0a]);
     Entry (clock_at 101 500000000) (ok 27) (lit "[1.500 +1.500] E/app: gone" ++ [Byte.x0a])] [] [] 0); [by repeat split| |].
  - constructor; [|constructor; [|constructor; [|constructor]]].
    + apply (out_shown sample_loggers (sample_site warn (lit "low ")) sample_chain (lit "app"));
        [apply sample_site_ok; [done|by left]|by repeat constructor|done].
    + by apply (out_hidden _ _ sample_chain); [exact sample_chain_ok|].
    + apply (out_shown sample_loggers (sample_site error (lit "gone")) sample_chain (lit "app"));
        [apply sample_site_ok; [done|by right]|by repeat constructor|done].
  - apply (session_line lstate0 _ _ (mk_ts 100 0) (clock_at 100 0) (ok 26)); [done|by split|by repeat split|done|].
    apply session_blank.
    apply (session_line (stamped_state lstate0 (mk_ts 100 0)) _ _ (mk_ts 101 500000000) (clock_at 101 500000000) (ok 27));
      [done|by split| |done|apply session_done].
    split; [by split|]. intros _. split; (split_and!; [by split|by split|by split|by split|done|done]).
Defined.
