(* ===== verification/Netlink.v ===== *)
(** * Netlink

    Netlink messages and attributes: [src/netlink/netlink_msg.c] and
    [src/netlink/netlink_attr.c].  A buffer is an array of bytes, a pointer
    into it an index, and the fields of [struct nlmsghdr] (length 4, type 2,
    flags 2, sequence 4, port 4) and [struct nlattr] (length 2, type 2) are
    little-endian integers at fixed offsets, as in [linux/netlink.h]. *)

From S2P Require Import Prelude CLib Types.

(** ** [netlink.h] and [linux/netlink.h] *)

Definition sizeof_nlmsghdr : Z := 16.
Definition sizeof_nlattr : Z := 4.
Definition NLA_TYPE_MASK : Z := 0x3fff.

(** [SANCUS_NL_CB_ERROR] @ include/sancus/netlink.h:36-36. *)
Definition SANCUS_NL_CB_ERROR : Z := -1.
(** [SANCUS_NL_CB_STOP] @ include/sancus/netlink.h:37-37. *)
Definition SANCUS_NL_CB_STOP : Z := 0.
(** [SANCUS_NL_CB_OK] @ include/sancus/netlink.h:38-38. *)
Definition SANCUS_NL_CB_OK : Z := 1.

(** [SANCUS_NL_ALIGN] @ include/sancus/netlink.h:154-156. *)
Definition SANCUS_NL_ALIGN (len : Z) : Z := Z.land (u32 (len + (4 - 1))) (0xffff - 4 + 1).

(** [SANCUS_NL_MSG_HDRLEN] @ include/sancus/netlink.h:157-157. *)
Definition SANCUS_NL_MSG_HDRLEN : Z := SANCUS_NL_ALIGN sizeof_nlmsghdr.

(** [SANCUS_NL_ATTR_HDRLEN] @ include/sancus/netlink.h:232-232. *)
Definition SANCUS_NL_ATTR_HDRLEN : Z := SANCUS_NL_ALIGN sizeof_nlattr.

(** [enum sancus_nl_attr_data_type] @ include/sancus/netlink.h:215-230. *)
Inductive sancus_nl_attr_data_type :=
  | TYPE_UNSPEC | TYPE_U8 | TYPE_U16 | TYPE_U32 | TYPE_U64 | TYPE_STRING | TYPE_FLAG | TYPE_MSECS
  | TYPE_NESTED | TYPE_NESTED_COMPAT | TYPE_NUL_STRING | TYPE_BINARY | TYPE_MAX.

Definition type_code (t : sancus_nl_attr_data_type) : Z :=
  match t with
  | TYPE_UNSPEC => 0 | TYPE_U8 => 1 | TYPE_U16 => 2 | TYPE_U32 => 3 | TYPE_U64 => 4
  | TYPE_STRING => 5 | TYPE_FLAG => 6 | TYPE_MSECS => 7 | TYPE_NESTED => 8
  | TYPE_NESTED_COMPAT => 9 | TYPE_NUL_STRING => 10 | TYPE_BINARY => 11 | TYPE_MAX => 12
  end.

(** Fields. *)
Definition nlmsg_len (m : list byte) (p : Z) : outcome Z := load_le m p 4.
Definition nlmsg_type (m : list byte) (p : Z) : outcome Z := load_le m (p + 4) 2.
Definition nlmsg_pid (m : list byte) (p : Z) : outcome Z := load_le m (p + 12) 4.
Definition nla_len (m : list byte) (a : Z) : outcome Z := load_le m a 2.
Definition nla_type (m : list byte) (a : Z) : outcome Z := load_le m (a + 2) 2.

(** ** [netlink_msg.c] *)

(** [sancus_nl_msg_ok] @ src/netlink/netlink_msg.c:47-52. *)
Definition sancus_nl_msg_ok (m : list byte) (nlh len : Z) : outcome bool :=
  if len >=? sizeof_nlmsghdr then
    n ← nlmsg_len m nlh;
    Ret ((n >=? sizeof_nlmsghdr) && (s32 n <=? len))
  else Ret false.

(** [sancus_nl_msg_next] @ src/netlink/netlink_msg.c:54-58.  The new pointer
    and the new [*len].  The pointer moves in steps of [struct nlmsghdr]. *)
Definition sancus_nl_msg_next (m : list byte) (nlh len : Z) : outcome (Z * Z) :=
  n ← nlmsg_len m nlh;
  len ← ck_s32 (len - s32 (SANCUS_NL_ALIGN n));
  Ret (nlh + sizeof_nlmsghdr * SANCUS_NL_ALIGN n, len).

(** [sancus_nl_msg_portid_ok] @ src/netlink/netlink_msg.c:60-63. *)
Definition sancus_nl_msg_portid_ok (m : list byte) (nlh portid : Z) : outcome bool :=
  pid ← nlmsg_pid m nlh;
  Ret (if negb (pid =? 0) && negb (portid =? 0) then pid =? portid else true).

(** [sancus_nl_msg_get_payload] @ src/netlink/netlink_msg.c:65-68. *)
Definition sancus_nl_msg_get_payload (nlh : Z) : Z := nlh + SANCUS_NL_MSG_HDRLEN.

(** [sancus_nl_msg_get_payload_offset] @ src/netlink/netlink_msg.c:70-73. *)
Definition sancus_nl_msg_get_payload_offset (nlh offset : Z) : Z :=
  nlh + SANCUS_NL_MSG_HDRLEN + SANCUS_NL_ALIGN offset.

(** [sancus_nl_msg_get_payload_tail] @ src/netlink/netlink_msg.c:75-78. *)
Definition sancus_nl_msg_get_payload_tail (m : list byte) (nlh : Z) : outcome Z :=
  n ← nlmsg_len m nlh; Ret (nlh + SANCUS_NL_ALIGN n).



(** ** [netlink_attr.c], reading *)

(** [sancus_nl_attr_get_type] @ src/netlink/netlink_attr.c:49-52. *)
Definition sancus_nl_attr_get_type (m : list byte) (attr : Z) : outcome Z :=
  t ← nla_type m attr; Ret (u16 (Z.land t (u16 NLA_TYPE_MASK))).

(** [sancus_nl_attr_get_len] @ src/netlink/netlink_attr.c:54-57. *)
Definition sancus_nl_attr_get_len (m : list byte) (attr : Z) : outcome Z := nla_len m attr.

(** [sancus_nl_attr_get_payload_len] @ src/netlink/netlink_attr.c:59-62. *)
Definition sancus_nl_attr_get_payload_len (m : list byte) (attr : Z) : outcome Z :=
  n ← nla_len m attr; Ret (u16 (u32 (n - SANCUS_NL_ATTR_HDRLEN))).

(** [sancus_nl_attr_get_payload, sancus_nl_attr_get_string] @ src/netlink/netlink_attr.c:64-67. *)
Definition sancus_nl_attr_get_payload (attr : Z) : Z := attr + SANCUS_NL_ATTR_HDRLEN.

(** [sancus_nl_attr_get_string] @ src/netlink/netlink_attr.c:214-217. *)
Definition sancus_nl_attr_get_string (attr : Z) : Z := sancus_nl_attr_get_payload attr.

(** [sancus_nl_attr_ok] @ src/netlink/netlink_attr.c:69-74. *)
Definition sancus_nl_attr_ok (m : list byte) (attr len : Z) : outcome bool :=
  if len >=? sizeof_nlattr then
    n ← nla_len m attr;
    Ret ((n >=? sizeof_nlattr) && (s32 n <=? len))
  else Ret false.

(** [sancus_nl_attr_next] @ src/netlink/netlink_attr.c:76-79. *)
Definition sancus_nl_attr_next (m : list byte) (attr : Z) : outcome Z :=
  n ← nla_len m attr; Ret (attr + SANCUS_NL_ALIGN n).

(** [-1] with [errno] set, or a value. *)
Abbreviation errno_or := (sum Z Z).

(** [sancus_nl_attr_type_valid] @ src/netlink/netlink_attr.c:81-88. *)
Definition sancus_nl_attr_type_valid (m : list byte) (attr max : Z) : outcome errno_or :=
  t ← sancus_nl_attr_get_type m attr;
  Ret (if t >? max then inl EOPNOTSUPP else inr 1).

(** [sancus_nl_attr_data_type_minlen] @ src/netlink/netlink_attr.c:90-98. *)
Definition sancus_nl_attr_data_type_minlen (t : sancus_nl_attr_data_type) : Z :=
  match t with
  | TYPE_U8 => 1 | TYPE_U16 => 2 | TYPE_U32 => 4 | TYPE_U64 => 8
  | TYPE_STRING => 1 | TYPE_NUL_STRING => 1
  | _ => 0
  end.

(** [validate_attr] @ src/netlink/netlink_attr.c:100-156. *)
Definition validate_attr (m : list byte) (attr : Z) (type : sancus_nl_attr_data_type) (expected_len : Z)
    : outcome errno_or :=
  len ← sancus_nl_attr_get_payload_len m attr;
  let payload := sancus_nl_attr_get_payload attr in
  if len <? expected_len then Ret (inl ERANGE) else
  match type with
  | TYPE_FLAG => Ret (if len >? 0 then inl ERANGE else inr 0)
  | TYPE_STRING => Ret (if len =? 0 then inl ERANGE else inr 0)
  | TYPE_NUL_STRING =>
      if len =? 0 then Ret (inl ERANGE)
      else
        c ← load1 m (payload + (len - 1));
        Ret (if bool_decide (c <> Byte.x00) then inl EINVAL else inr 0)
  | TYPE_NESTED =>
      Ret (if len =? 0 then inr 0 else if len <? SANCUS_NL_ATTR_HDRLEN then inl ERANGE else inr 0)
  | _ => Ret (inr 0)
  end.

(** [sancus_nl_attr_validate_minlen] @ src/netlink/netlink_attr.c:158-169. *)
Definition sancus_nl_attr_validate_minlen (m : list byte) (attr : Z) (type : sancus_nl_attr_data_type)
    : outcome errno_or :=
  if type_code type >=? type_code TYPE_MAX then Ret (inl EINVAL)
  else validate_attr m attr type (sancus_nl_attr_data_type_minlen type).

(** [sancus_nl_attr_validate_explen] @ src/netlink/netlink_attr.c:171-180. *)
Definition sancus_nl_attr_validate_explen (m : list byte) (attr : Z) (type : sancus_nl_attr_data_type) (explen : Z)
    : outcome errno_or :=
  if type_code type >=? type_code TYPE_MAX then Ret (inl EINVAL)
  else validate_attr m attr type explen.

(** [sancus_nl_attr_foreach, the condition] @ include/sancus/netlink.h:313-316. *)
Definition foreach_cond (m : list byte) (nlh attr : Z) : outcome bool :=
  tail ← sancus_nl_msg_get_payload_tail m nlh;
  sancus_nl_attr_ok m attr (s32 (tail - attr)).

(** [sancus_nl_attr_parse, the loop] @ src/netlink/netlink_attr.c:188-191.
    [cb] sees the buffer and the attribute's position and updates [data]. *)
Fixpoint parse_loop {S} (fuel : nat) (m : list byte) (nlh attr : Z)
    (cb : Z -> S -> outcome (Z * S)) (ret : Z) (data : S) : outcome (Z * S) :=
  match fuel with
  | O => OutOfFuel
  | Datatypes.S fuel =>
      more ← foreach_cond m nlh attr;
      if (more : bool) then
        '(ret, data) ← cb attr data;
        if ret <=? SANCUS_NL_CB_STOP then Ret (ret, data)
        else
          attr ← sancus_nl_attr_next m attr;
          parse_loop fuel m nlh attr cb ret data
      else Ret (ret, data)
  end.

(** Every attribute takes four bytes of the first 64 KiB of the message. *)
Definition parse_fuel : nat := Z.to_nat 16385.

(** [sancus_nl_attr_parse] @ src/netlink/netlink_attr.c:182-192. *)
Definition sancus_nl_attr_parse {S} (m : list byte) (nlh offset : Z)
    (cb : Z -> S -> outcome (Z * S)) (data : S) : outcome (Z * S) :=
  parse_loop parse_fuel m nlh (sancus_nl_msg_get_payload_offset nlh offset) cb SANCUS_NL_CB_OK data.

(** [sancus_nl_attr_get_u8, get_u16, get_u32, get_u64] @ src/netlink/netlink_attr.c:194-212.
    [n] is the size in bytes.  The loads are of any address: that an address
    must be aligned for its type is not modelled, here nor for the fields. *)
Definition sancus_nl_attr_get_u (n : nat) (m : list byte) (attr : Z) : outcome Z :=
  load_le m (sancus_nl_attr_get_payload attr) n.

(** ** [netlink_attr.c], writing *)

(** [__sancus_nl_attr_put_nocheck] @ src/netlink/netlink_attr.c:228-240.
    [data] is the object the argument points to. *)
Definition __sancus_nl_attr_put_nocheck (m : list byte) (nlh type len : Z) (data : list byte) : outcome (list byte) :=
  attr ← sancus_nl_msg_get_payload_tail m nlh;
  let payload_len := u32 (SANCUS_NL_ALIGN sizeof_nlattr + len) in
  m ← store_le m (attr + 2) 2 type;
  m ← store_le m attr 2 (u16 payload_len);
  x ← load data 0 len;
  m ← store m (sancus_nl_attr_get_payload attr) x;
  n ← nlmsg_len m nlh;
  store_le m nlh 4 (u32 (n + SANCUS_NL_ALIGN payload_len)).

(** [__sancus_nl_attr_put_check] @ src/netlink/netlink_attr.c:252-261. *)
Definition __sancus_nl_attr_put_check (m : list byte) (nlh buflen type len : Z) (data : list byte)
    : outcome (bool * list byte) :=
  n ← nlmsg_len m nlh;
  if u32 (u32 (n + SANCUS_NL_ATTR_HDRLEN) + SANCUS_NL_ALIGN len) >? buflen then Ret (false, m)
  else m ← __sancus_nl_attr_put_nocheck m nlh type len data; Ret (true, m).

(** [sancus_nl_attr_put] @ src/netlink/netlink_attr.c:263-267.  What is passed
    on is [&data], the address of the parameter: [data_repr] is the pointer's
    own representation, eight bytes. *)
Definition sancus_nl_attr_put (m : list byte) (nlh buflen type len : Z) (data_repr : list byte)
    : outcome (bool * list byte) :=
  __sancus_nl_attr_put_check m nlh buflen type len data_repr.




(** ** Alignment *)

Definition up4 (n : Z) : Z := 4 * ((n + 3) / 4).

Lemma up4_bounds n : n <= up4 n < n + 4.
Proof. unfold up4. pose proof (Z.div_mod (n + 3) 4). pose proof (Z.mod_pos_bound (n + 3) 4). lia. Qed.

Lemma up4_id n : n mod 4 = 0 -> up4 n = n.
Proof.
  intros H. unfold up4. pose proof (Z.div_mod n 4).
  replace (n + 3) with (3 + (n / 4) * 4) by lia. rewrite Z.div_add, (Z.div_small 3) by lia. lia.
Qed.

Lemma up4_mod n : up4 n mod 4 = 0.
Proof. unfold up4. rewrite Z.mul_comm. apply Z.mod_mul. lia. Qed.

Lemma ALIGN_eq n : SANCUS_NL_ALIGN n = 4 * ((u32 (n + 3) mod 65536) / 4).
Proof.
  unfold SANCUS_NL_ALIGN. replace (n + (4 - 1)) with (n + 3) by lia. generalize (u32 (n + 3)). intros x.
  change (0xffff - 4 + 1) with (Z.land (Z.ones 16) (Z.lnot (Z.ones 2))).
  rewrite Z.land_assoc, Z.land_ones, <- Z.ldiff_land, Z.ldiff_ones_r by lia.
  rewrite Z.shiftr_div_pow2, Z.shiftl_mul_pow2 by lia.
  change (2 ^ 16) with 65536. change (2 ^ 2) with 4. lia.
Qed.

Lemma ALIGN_range n : 0 <= SANCUS_NL_ALIGN n <= 65532 /\ SANCUS_NL_ALIGN n mod 4 = 0.
Proof.
  rewrite ALIGN_eq. pose proof (Z.mod_pos_bound (u32 (n + 3)) 65536 ltac:(lia)).
  set (x := u32 (n + 3) mod 65536) in *. pose proof (Z.div_mod x 4). pose proof (Z.mod_pos_bound x 4).
  split; [lia|]. rewrite Z.mul_comm. apply Z.mod_mul. lia.
Qed.

Lemma ALIGN_small n : 0 <= n <= 65532 -> SANCUS_NL_ALIGN n = up4 n.
Proof. intros. rewrite ALIGN_eq, uwrap_id by bounds. by rewrite Z.mod_small by lia. Qed.

(** The mask keeps 16 bits: just under 64 KiB the size is lost. *)
Lemma ALIGN_wraps n : 65533 <= n <= 65536 -> SANCUS_NL_ALIGN n = 0.
Proof.
  intros. rewrite ALIGN_eq, uwrap_id by bounds.
  assert (n = 65533 \/ n = 65534 \/ n = 65535 \/ n = 65536) as [->|[->|[->| ->]]] by lia; done.
Qed.

Lemma HDRLEN_16 : SANCUS_NL_MSG_HDRLEN = 16. Proof. done. Qed.
Lemma ATTR_HDRLEN_4 : SANCUS_NL_ATTR_HDRLEN = 4. Proof. done. Qed.

Lemma load_le_ok m i n : 0 <= i -> i + Z.of_nat n <= zlen m ->
  exists v, load_le m i n = Ret v /\ 0 <= v < 256 ^ Z.of_nat n.
Proof.
  intros. unfold load_le. rewrite load_ok by lia. eexists; split; [by run|].
  pose proof (le_val_range (sub m i (Z.of_nat n))) as R. by rewrite zlen_sub in R by lia.
Qed.

Lemma load_le_at m i n v :
  0 <= i -> i + Z.of_nat n <= zlen m -> sub m i (Z.of_nat n) = le_bytes n v -> 0 <= v < 256 ^ Z.of_nat n ->
  load_le m i n = Ret v.
Proof.
  intros ? ? E Hv. unfold load_le. rewrite load_ok, E by lia. run.
  by rewrite le_val_bytes, Z.mod_small by done.
Qed.

(** ** Parsing is safe *)

Lemma foreach_cond_ok m nlh a n :
  0 <= nlh -> nlh + 16 <= zlen m -> nlmsg_len m nlh = Ret n -> nlh + SANCUS_NL_ALIGN n <= zlen m ->
  nlh <= a <= nlh + 2 ^ 20 -> (a - nlh) mod 4 = 0 ->
  exists more, foreach_cond m nlh a = Ret more /\
    (more = true -> exists k, nla_len m a = Ret k /\ 4 <= k /\ a + k <= nlh + SANCUS_NL_ALIGN n /\
       SANCUS_NL_ALIGN k = up4 k /\ a + up4 k <= nlh + SANCUS_NL_ALIGN n).
Proof.
  intros Hnlh Hhdr Hn Hm Ha Hmod. unfold foreach_cond, sancus_nl_msg_get_payload_tail. rewrite Hn. run.
  pose proof (ALIGN_range n) as [Hr Hrm]. unfold sancus_nl_attr_ok.
  rewrite swrap_id by bounds. rewrite Z.geb_leb. destruct (Z.leb_spec sizeof_nlattr (nlh + SANCUS_NL_ALIGN n - a)) as [Hle|];
    [|by exists false].
  change sizeof_nlattr with 4 in *.
  destruct (load_le_ok m a 2) as (k & Hk & Hkr); [lia|change (Z.of_nat 2) with 2; lia|].
  change (256 ^ Z.of_nat 2) with 65536 in Hkr. unfold nla_len. rewrite Hk. run.
  rewrite swrap_id by bounds. eexists; split; [done|]. rewrite Z.geb_leb, andb_true_iff, !Z.leb_le.
  intros [H4 Hfit]. exists k. rewrite (ALIGN_small k) by lia. split_and!; [done|lia|lia|done|].
  pose proof (up4_bounds k). pose proof (up4_mod k).
  pose proof (Z.div_mod (a - nlh) 4). pose proof (Z.div_mod (up4 k) 4). pose proof (Z.div_mod (SANCUS_NL_ALIGN n) 4). lia.
Qed.

Lemma parse_loop_ok {S} fuel m nlh a n (cb : Z -> S -> outcome (Z * S)) ret data :
  0 <= nlh -> nlh + 16 <= zlen m -> nlmsg_len m nlh = Ret n -> nlh + SANCUS_NL_ALIGN n <= zlen m ->
  nlh + 16 <= a <= nlh + 2 ^ 20 -> (a - nlh) mod 4 = 0 ->
  (forall x s k, nla_len m x = Ret k -> nlh + 16 <= x -> 4 <= k -> x + k <= nlh + SANCUS_NL_ALIGN n -> returns (cb x s)) ->
  Z.max 0 (nlh + SANCUS_NL_ALIGN n - a) < 4 * Z.of_nat fuel ->
  returns (parse_loop fuel m nlh a cb ret data).
Proof.
  intros Hnlh Hhdr Hn Hm Ha Hmod Hcb. revert a ret data Ha Hmod.
  induction fuel as [|fuel IH]; intros a ret data Ha Hmod Hf; [lia|]. cbn [parse_loop].
  destruct (foreach_cond_ok m nlh a n) as (more & -> & Hmore); [done || lia..|]. run.
  destruct more; [|by eexists]. destruct (Hmore eq_refl) as (k & Hk & H4 & Hfit & HA & Hnext).
  destruct (Hcb a data k) as [[r d] ->]; [done|lia..|]. run.
  destruct (r <=? SANCUS_NL_CB_STOP); [by eexists|].
  unfold sancus_nl_attr_next. rewrite Hk. run. rewrite HA.
  pose proof (up4_bounds k). pose proof (ALIGN_range n) as [? _]. apply IH; [lia| |lia].
  replace (a + up4 k - nlh) with (a - nlh + up4 k) by lia.
  by rewrite Z.add_mod, Hmod, up4_mod by lia.
Qed.

(** C5. [sancus_nl_attr_parse] is safe on untrusted bytes: whatever a buffer
    holds, if it has room for a header and for the length the header claims
    as the code aligns it (rounded up to a multiple of four, in 16 bits), the
    loop over the attributes ends within its fuel, reads nothing outside the
    buffer, and hands the callback only attributes that lie inside that
    aligned length; so it returns whenever the callback returns on those.
    Room for the length as it is claimed is not enough: the loop goes on in
    the padding, which it takes for part of the message
    ([attr_parse_reads_padding]). *)
Theorem attr_parse_safe {S : Type} (m : list byte) (nlh n offset : Z) (cb : Z -> S -> outcome (Z * S)) (data : S)
    (Hnlh : 0 <= nlh) (Hhdr : nlh + sizeof_nlmsghdr <= zlen m)
    (Hn : nlmsg_len m nlh = Ret n) (Hm : nlh + SANCUS_NL_ALIGN n <= zlen m)
    (Hcb : forall a s k, nla_len m a = Ret k -> nlh + sizeof_nlmsghdr <= a -> 4 <= k ->
       a + k <= nlh + SANCUS_NL_ALIGN n -> returns (cb a s)) :
  returns (sancus_nl_attr_parse m nlh offset cb data).
Proof.
  unfold sancus_nl_attr_parse, sancus_nl_msg_get_payload_offset. rewrite HDRLEN_16.
  change sizeof_nlmsghdr with 16 in *. pose proof (ALIGN_range offset) as [Ho Hom].
  pose proof (ALIGN_range n) as [Hr _].
  apply (parse_loop_ok _ _ _ _ n); try done; [lia| |].
  - replace (nlh + 16 + SANCUS_NL_ALIGN offset - nlh) with (16 + SANCUS_NL_ALIGN offset) by lia.
    by rewrite Z.add_mod, Hom by lia.
  - unfold parse_fuel. rewrite Z2Nat.id by lia. lia.
Qed.

(** A message of 24 bytes whose first attribute claims to be longer. *)
Lemma attr_parse_safe_witness :
  returns (sancus_nl_attr_parse (le_bytes 4 24 ++ replicate 12 Byte.x00 ++ le_bytes 2 200 ++ replicate 6 Byte.xff)
    0 0 (fun _ n => Ret (SANCUS_NL_CB_OK, n + 1)) 0).
Proof.
  apply (attr_parse_safe (le_bytes 4 24 ++ replicate 12 Byte.x00 ++ le_bytes 2 200 ++ replicate 6 Byte.xff)
    0 24 0 (fun _ n => Ret (SANCUS_NL_CB_OK, n + 1)) 0); try done; try (vm_compute; discriminate).
  intros. by eexists.
Defined.

(** A message of 25 bytes in a buffer of 25: after an attribute that ends at
    24 there is one byte left, but the end of the message is rounded up to 28,
    so a further attribute is looked for at 24 and its length read from the
    bytes 24 and 25. *)
Lemma attr_parse_reads_padding (S : Type) (cb : Z -> S -> outcome (Z * S)) (data data' : S) :
  cb 16 data = Ret (SANCUS_NL_CB_OK, data') ->
  sancus_nl_attr_parse (le_bytes 4 25 ++ replicate 12 Byte.x00 ++ le_bytes 2 8 ++ replicate 7 Byte.x00) 0 0 cb data = Undef.
Proof.
  intros Hcb. unfold sancus_nl_attr_parse.
  replace parse_fuel with (Datatypes.S (Datatypes.S (Z.to_nat 16383))) by (unfold parse_fuel; lia).
  generalize (Z.to_nat 16383). intros fuel. cbn [parse_loop].
  set (m := le_bytes 4 25 ++ _). change (sancus_nl_msg_get_payload_offset 0 0) with 16.
  assert (foreach_cond m 0 16 = Ret true) as -> by by vm_compute. run. rewrite Hcb. run.
  assert (sancus_nl_attr_next m 16 = Ret 24) as -> by by vm_compute. run.
  by assert (foreach_cond m 0 24 = Undef) as -> by by vm_compute.
Qed.

(** ** Attributes in memory *)

Definition attr : Type := Z * list byte.

(** The bytes from [a] on hold the attribute. *)
Definition attr_at (m : list byte) (a : Z) (x : attr) : Prop :=
  0 <= a /\ sub m a (4 + zlen x.2) = le_bytes 2 (4 + zlen x.2) ++ le_bytes 2 x.1 ++ x.2.

Definition attr_size (x : attr) : Z := up4 (4 + zlen x.2).

(** Attributes one after the other, from [a] to [tail]. *)
Fixpoint attrs_at (m : list byte) (a : Z) (xs : list attr) (tail : Z) : Prop :=
  match xs with
  | [] => a = tail
  | x :: xs => attr_at m a x /\ attrs_at m (a + attr_size x) xs tail
  end.

Definition attr_wf (x : attr) : Prop := 0 <= x.1 <= NLA_TYPE_MASK /\ zlen x.2 <= 65528.

(** A message with [hdr] bytes of extra headers and the attributes [xs]. *)
Definition msg_at (m : list byte) (nlh hdr : Z) (xs : list attr) (n : Z) : Prop :=
  0 <= nlh /\ nlmsg_len m nlh = Ret n /\ 16 + hdr <= n <= 65532 /\ n mod 4 = 0 /\ hdr mod 4 = 0 /\
  0 <= hdr /\ nlh + n <= zlen m /\ Forall attr_wf xs /\ attrs_at m (nlh + 16 + hdr) xs (nlh + n).

Lemma attr_at_bound m a x : attr_at m a x -> a + 4 + zlen x.2 <= zlen m.
Proof.
  intros [Ha E]. apply (f_equal zlen) in E. rewrite !zlen_app, !zlen_le_bytes in E.
  unfold sub in E. unfold zlen in *. rewrite length_take, length_drop in E. lia.
Qed.

Lemma sub_prefix {A} (m : list A) a n k x y :
  0 <= a -> 0 <= k -> k <= n -> sub m a n = x ++ y -> zlen x = k -> sub m a k = x.
Proof.
  intros Ha Hk Hkn E Hx. pose proof (sub_sub m a n 0 k Ha ltac:(lia) Hk Hkn) as H.
  rewrite Z.add_0_r in H. rewrite <- H, E, sub_app_l by lia. rewrite <- Hx. apply sub_all.
Qed.

Lemma sub_middle {A} (m : list A) a n j k x y z :
  0 <= a -> 0 <= j -> 0 <= k -> j + k <= n -> sub m a n = x ++ y ++ z -> zlen x = j -> zlen y = k ->
  sub m (a + j) k = y.
Proof.
  intros Ha Hj Hk Hn E Hx Hy. rewrite <- (sub_sub m a n j k), E by lia.
  rewrite sub_app_r by lia. rewrite Hx, Z.sub_diag, sub_app_l by lia. rewrite <- Hy. apply sub_all.
Qed.

Lemma sub_suffix {A} (m : list A) a n j k x y :
  0 <= a -> 0 <= j -> 0 <= k -> j + k <= n -> sub m a n = x ++ y -> zlen x = j -> zlen y = k ->
  sub m (a + j) k = y.
Proof. intros. eapply (sub_middle m a n j k x y []); try done. by rewrite app_nil_r. Qed.

(** Reading back a field of an attribute. *)
Lemma attr_at_read m a x :
  attr_at m a x -> attr_wf x ->
  nla_len m a = Ret (4 + zlen x.2) /\ sancus_nl_attr_get_type m a = Ret x.1 /\
  sancus_nl_attr_get_payload_len m a = Ret (zlen x.2) /\
  load m (sancus_nl_attr_get_payload a) (zlen x.2) = Ret x.2.
Proof.
  intros Hat [Ht Hd]. pose proof (attr_at_bound _ _ _ Hat) as Hb. destruct Hat as [Ha E].
  pose proof (zlen_nonneg x.2). unfold NLA_TYPE_MASK in Ht.
  assert (nla_len m a = Ret (4 + zlen x.2)) as Hl.
  { apply load_le_at; [lia|change (Z.of_nat 2) with 2; lia| |change (256 ^ Z.of_nat 2) with 65536; lia].
    by eapply sub_prefix; [..|exact E|]; try (change (Z.of_nat 2) with 2; lia). }
  assert (nla_type m a = Ret x.1) as Hty.
  { apply load_le_at; [lia|change (Z.of_nat 2) with 2; lia| |change (256 ^ Z.of_nat 2) with 65536; lia].
    eapply sub_middle; [..|exact E| |]; try (change (Z.of_nat 2) with 2; lia); by rewrite zlen_le_bytes. }
  split_and!; [done| | |].
  - unfold sancus_nl_attr_get_type. rewrite Hty. run. f_equal. unfold NLA_TYPE_MASK.
    change (u16 0x3fff) with (Z.ones 14). rewrite Z.land_ones by lia. change (2 ^ 14) with 16384.
    rewrite Z.mod_small by lia. apply uwrap_id. change (2 ^ 16) with 65536. lia.
  - unfold sancus_nl_attr_get_payload_len. rewrite Hl, ATTR_HDRLEN_4. run. f_equal.
    rewrite (uwrap_id 32) by bounds. rewrite uwrap_id by bounds. lia.
  - unfold sancus_nl_attr_get_payload. rewrite ATTR_HDRLEN_4, load_ok by lia. f_equal.
    rewrite (app_assoc (le_bytes 2 _)) in E.
    eapply (sub_suffix m a _ 4); [..|exact E| |]; try lia; try done.
Qed.

(** ** Writing *)

Lemma attr_size_pos x : 4 <= attr_size x.
Proof. unfold attr_size. pose proof (up4_bounds (4 + zlen x.2)). pose proof (zlen_nonneg x.2). lia. Qed.

(** Memory that agrees with [m] below [b]. *)
Definition agree (m m' : list byte) (lo hi : Z) : Prop :=
  zlen m' = zlen m /\ forall i k, lo <= i -> 0 <= k -> i + k <= hi -> sub m' i k = sub m i k.

Lemma agree_refl m lo hi : agree m m lo hi.
Proof. by split. Qed.


Lemma attr_at_agree m m' lo hi a x :
  agree m m' lo hi -> lo <= a -> a + attr_size x <= hi -> attr_at m a x -> attr_at m' a x.
Proof.
  intros [_ H] Ha Hh [H0 E]. split; [done|]. rewrite H; [done|lia| |].
  - pose proof (zlen_nonneg x.2). lia.
  - unfold attr_size in Hh. pose proof (up4_bounds (4 + zlen x.2)). lia.
Qed.

Lemma attrs_at_le m a xs tail : attrs_at m a xs tail -> a <= tail.
Proof.
  revert a. induction xs as [|x xs IH]; intros a; simpl; [lia|]. intros [_ H%IH].
  pose proof (attr_size_pos x). lia.
Qed.

Lemma attrs_at_agree m m' lo hi a xs tail :
  agree m m' lo hi -> lo <= a -> tail <= hi -> attrs_at m a xs tail -> attrs_at m' a xs tail.
Proof.
  intros H Ha Ht. revert a Ha. induction xs as [|x xs IH]; intros a Ha; simpl; [done|].
  intros [Hx Hxs]. pose proof (attrs_at_le _ _ _ _ Hxs). pose proof (attr_size_pos x).
  split; [eapply attr_at_agree; [done|lia..|done]|apply IH; [lia|done]].
Qed.

Lemma attrs_at_snoc m a xs b x : attrs_at m a xs b -> attr_at m b x -> attrs_at m a (xs ++ [x]) (b + attr_size x).
Proof.
  revert a. induction xs as [|y xs IH]; intros a; simpl; [by intros ->|].
  intros [? ?] ?. split; [done|]. by apply IH.
Qed.

Lemma store_le_ok m i n v : 0 <= i -> i + Z.of_nat n <= zlen m -> store_le m i n v = Ret (splice m i (le_bytes n v)).
Proof. intros. apply store_ok; rewrite ?zlen_le_bytes; lia. Qed.

(** The three stores of an attribute are one. *)
Lemma attr_stores (m x y d : list byte) a :
  0 <= a -> zlen x = 2 -> zlen y = 2 -> a + 4 + zlen d <= zlen m ->
  splice (splice (splice m (a + 2) y) a x) (a + 4) d = splice m a (x ++ y ++ d).
Proof.
  intros Ha Hx Hy Hm. pose proof (zlen_nonneg d). rewrite (splice_comm m x y a (a + 2)) by lia.
  replace (a + 2) with (a + zlen x) by lia. rewrite splice_app by lia.
  replace (a + 4) with (a + zlen (x ++ y)) by (rewrite zlen_app; lia).
  rewrite splice_app by (rewrite ?zlen_app; lia). by rewrite <- app_assoc.
Qed.

(** What [put_nocheck] writes. *)
Lemma put_nocheck_eq m nlh n ty d t :
  0 <= nlh -> nlmsg_len m nlh = Ret n -> 16 <= n <= 65532 -> n mod 4 = 0 ->
  attr_wf (ty, d) -> nlh + n + attr_size (ty, d) <= zlen m ->
  __sancus_nl_attr_put_nocheck m nlh ty (zlen d) (d ++ t) =
    Ret (splice (splice m (nlh + n) (le_bytes 2 (4 + zlen d) ++ le_bytes 2 ty ++ d))
           nlh (le_bytes 4 (n + attr_size (ty, d)))).
Proof.
  intros Hnlh Hn Hr Hmod [Hty Hd] Hm. cbn [fst snd] in *. pose proof (zlen_nonneg d) as Hd0.
  unfold attr_size in *. cbn [snd] in *. pose proof (up4_bounds (4 + zlen d)) as Hup.
  unfold __sancus_nl_attr_put_nocheck, sancus_nl_msg_get_payload_tail. rewrite Hn. run.
  rewrite (ALIGN_small n), (up4_id n) by (done || lia). cbv zeta.
  change (SANCUS_NL_ALIGN sizeof_nlattr) with 4.
  rewrite (uwrap_id 32 (4 + _)), (uwrap_id 16 (4 + _)) by bounds. set (a := nlh + n) in *.
  rewrite store_le_ok by (change (Z.of_nat 2) with 2; lia). run.
  assert (zlen (splice m (a + 2) (le_bytes 2 ty)) = zlen m) as L1
    by (apply zlen_splice; rewrite ?zlen_le_bytes; lia).
  rewrite store_le_ok by (change (Z.of_nat 2) with 2; lia). run.
  assert (zlen (splice (splice m (a + 2) (le_bytes 2 ty)) a (le_bytes 2 (4 + zlen d))) = zlen m) as L2
    by (rewrite <- L1; apply zlen_splice; rewrite ?zlen_le_bytes; lia).
  rewrite load_ok by (rewrite ?zlen_app; pose proof (zlen_nonneg t); lia). run.
  rewrite sub_app_l, sub_all by lia. unfold sancus_nl_attr_get_payload. rewrite ATTR_HDRLEN_4.
  rewrite store_ok by lia. run.
  rewrite attr_stores by (rewrite ?zlen_le_bytes; lia).
  set (m3 := splice m a _).
  assert (zlen m3 = zlen m) as L3 by (apply zlen_splice; rewrite ?zlen_app, ?zlen_le_bytes; lia).
  assert (nlmsg_len m3 nlh = Ret n) as ->.
  { rewrite <- Hn. unfold nlmsg_len, load_le. rewrite !load_ok by (change (Z.of_nat 4) with 4; lia).
    unfold m3. by rewrite sub_splice_disjoint by
      (rewrite ?zlen_app, ?zlen_le_bytes; change (Z.of_nat 4) with 4; unfold a; lia). }
  run. rewrite (ALIGN_small (4 + zlen d)), (uwrap_id 32) by bounds.
  by rewrite store_le_ok by (change (Z.of_nat 4) with 4; lia).
Qed.

Lemma put_nocheck_ok m nlh n ty d t :
  0 <= nlh -> nlmsg_len m nlh = Ret n -> 16 <= n <= 65532 -> n mod 4 = 0 ->
  attr_wf (ty, d) -> nlh + n + attr_size (ty, d) <= zlen m ->
  exists m', __sancus_nl_attr_put_nocheck m nlh ty (zlen d) (d ++ t) = Ret m' /\
    nlmsg_len m' nlh = Ret (n + attr_size (ty, d)) /\
    attr_at m' (nlh + n) (ty, d) /\ agree m m' (nlh + 4) (nlh + n).
Proof.
  intros Hnlh Hn Hr Hmod Hwf Hm. rewrite (put_nocheck_eq m nlh n) by done.
  eexists; split; [done|]. destruct Hwf as [Hty Hd]. cbn [fst snd] in *. pose proof (zlen_nonneg d).
  unfold attr_size in *. cbn [snd] in *. pose proof (up4_bounds (4 + zlen d)).
  set (rec := le_bytes 2 (4 + zlen d) ++ le_bytes 2 ty ++ d).
  assert (zlen rec = 4 + zlen d) as Lr by (unfold rec; rewrite !zlen_app, !zlen_le_bytes; lia).
  set (m3 := splice m (nlh + n) rec).
  assert (zlen m3 = zlen m) as L3 by (apply zlen_splice; lia).
  set (lenb := le_bytes 4 _). assert (zlen lenb = 4) as Ll by apply zlen_le_bytes.
  split_and!.
  - apply load_le_at; [lia|rewrite zlen_splice by lia; change (Z.of_nat 4) with 4; lia
      | |change (256 ^ Z.of_nat 4) with 4294967296; lia].
    pose proof (sub_splice_same m3 nlh lenb) as S. rewrite Ll in S. apply S; lia.
  - split; [lia|]. cbn [fst snd]. rewrite sub_splice_disjoint by lia. fold rec.
    pose proof (sub_splice_same m (nlh + n) rec) as S. rewrite Lr in S. apply S; lia.
  - split; [by rewrite zlen_splice by lia|]. intros i k ? ? ?.
    rewrite sub_splice_disjoint by lia. unfold m3. by rewrite sub_splice_disjoint by lia.
Qed.

(** Adding an attribute to a message, when it fits. *)
Lemma put_check_ok m nlh hdr xs n buflen ty d t :
  msg_at m nlh hdr xs n -> attr_wf (ty, d) -> buflen <= 65532 -> nlh + buflen <= zlen m ->
  exists m', __sancus_nl_attr_put_check m nlh buflen ty (zlen d) (d ++ t) =
      Ret (n + attr_size (ty, d) <=? buflen, m') /\ agree m m' (nlh + 4) (nlh + n) /\
    (if n + attr_size (ty, d) <=? buflen
     then msg_at m' nlh hdr (xs ++ [(ty, d)]) (n + attr_size (ty, d)) else m' = m).
Proof.
  intros (Hnlh & Hn & Hr & Hmod & Hhm & Hhdr & Hm & Hwfs & Hats) Hwf Hbl Hbm.
  pose proof (attr_size_pos (ty, d)) as Hs. pose proof Hwf as [_ Hd]. cbn [snd] in Hd.
  pose proof (zlen_nonneg d).
  assert (attr_size (ty, d) = 4 + SANCUS_NL_ALIGN (zlen d)) as Es.
  { rewrite ALIGN_small by lia. unfold attr_size, up4. cbn [snd].
    replace (4 + zlen d + 3) with (zlen d + 3 + 1 * 4) by lia. rewrite Z.div_add by lia. lia. }
  unfold __sancus_nl_attr_put_check. rewrite Hn, ATTR_HDRLEN_4. run.
  pose proof (ALIGN_range (zlen d)) as [? _].
  rewrite (uwrap_id 32 (n + 4)), (uwrap_id 32) by bounds.
  replace (n + 4 + SANCUS_NL_ALIGN (zlen d)) with (n + attr_size (ty, d)) by lia. rewrite Z.gtb_ltb.
  destruct (Z.ltb_spec buflen (n + attr_size (ty, d))), (Z.leb_spec (n + attr_size (ty, d)) buflen);
    try lia; [by exists m; auto using agree_refl|].
  destruct (put_nocheck_ok m nlh n ty d t) as (m' & -> & Hn' & Hat & Hag); [done || lia..|]. run.
  pose proof Hag as [Hl _]. exists m'. split_and!; [done|done|].
  split_and!; try done; try lia.
  - assert (attr_size (ty, d) mod 4 = 0) as E by apply up4_mod. by rewrite Z.add_mod, Hmod, E by lia.
  - apply Forall_app; split; [done|by constructor].
  - replace (nlh + (n + attr_size (ty, d))) with (nlh + n + attr_size (ty, d)) by lia.
    apply attrs_at_snoc; [|done]. eapply attrs_at_agree; [exact Hag|lia..|done].
Qed.

(** ** Building and parsing messages *)





(** The calls that add an attribute. *)
Inductive put :=
  | PutU (n : nat) (type v : Z)
  | PutString (type : Z) (s : list byte)
  | PutNulString (type : Z) (s : list byte).




Definition put_attr (p : put) : attr :=
  match p with
  | PutU n ty v => (ty, le_bytes n v)
  | PutString ty s => (ty, s)
  | PutNulString ty s => (ty, cstr s)
  end.


(** Which attributes fit behind the first [n] bytes, and which were refused. *)
Fixpoint fitting (n buflen : Z) (ps : list put) : list attr * list bool :=
  match ps with
  | [] => ([], [])
  | p :: ps =>
      if n + attr_size (put_attr p) <=? buflen then
        let '(xs, bs) := fitting (n + attr_size (put_attr p)) buflen ps in (put_attr p :: xs, true :: bs)
      else let '(xs, bs) := fitting n buflen ps in (xs, false :: bs)
  end.



Lemma zlen_replicate {A} n (x : A) : zlen (replicate n x) = Z.of_nat n.
Proof. unfold zlen. by rewrite length_replicate. Qed.




Example fitting_refuses :
  fitting 20 44 [PutU 1 3 7; PutString 9 (lit "eth0"); PutU 8 4 1000; PutNulString 5 (lit "a")] =
    ([(3, [Byte.x07]); (9, lit "eth0"); (5, cstr (lit "a"))], [true; true; false; true]).
Proof. by vm_compute. Qed.

(** ** Sizes near 64 KiB, and the wrong pointer *)

(** A payload of 65533 to 65535 bytes is always let through, however
    small the buffer, because aligning its size gives 0; the copy then
    overruns any buffer that does not have room for it by chance. *)
Theorem put_check_overflow (m : list byte) (nlh n buflen ty len : Z) (data : list byte)
    (Hn : nlmsg_len m nlh = Ret n) (Hnlh : 0 <= nlh) (Hr : 16 <= n <= 65532) (Hmod : n mod 4 = 0)
    (Hlen : 65533 <= len <= 65535) (Hdata : len <= zlen data)
    (Hbuf : n + 4 <= buflen) (Hm : zlen m < nlh + n + 4 + len) :
  __sancus_nl_attr_put_check m nlh buflen ty len data = Undef.
Proof.
  unfold __sancus_nl_attr_put_check. rewrite Hn, ATTR_HDRLEN_4. run.
  rewrite (ALIGN_wraps len), (uwrap_id 32 (n + 4)), (uwrap_id 32) by bounds. rewrite Z.gtb_ltb.
  rewrite (proj2 (Z.ltb_ge buflen _)) by lia.
  unfold __sancus_nl_attr_put_nocheck, sancus_nl_msg_get_payload_tail. rewrite Hn. run.
  rewrite (ALIGN_small n), (up4_id n) by (done || lia). cbv zeta.
  assert (forall m i n v m', store_le m i n v = Ret m' -> zlen m' = zlen m) as Hst.
  { intros ? ? ? ? ? (? & ? & ->)%store_ret_inv. by apply zlen_splice. }
  destruct (store_le m (nlh + n + 2) 2 ty) as [m1| | |] eqn:E1; try done.
  2:{ unfold store_le, store in E1. by destruct (in_bounds _ _ _). }
  2:{ unfold store_le, store in E1. by destruct (in_bounds _ _ _). }
  run. destruct (store_le m1 _ 2 _) as [m2| | |] eqn:E2; try done.
  2:{ unfold store_le, store in E2. by destruct (in_bounds _ _ _). }
  2:{ unfold store_le, store in E2. by destruct (in_bounds _ _ _). }
  run. rewrite load_ok by lia. run. apply Hst in E1, E2.
  rewrite store_oob; [done|]. unfold sancus_nl_attr_get_payload. rewrite ATTR_HDRLEN_4, zlen_sub by lia. lia.
Qed.

Lemma put_check_overflow_witness :
  __sancus_nl_attr_put_check (le_bytes 4 16 ++ replicate 60 Byte.x00) 0 64 1 65533 (replicate (Z.to_nat 65533) Byte.x41) = Undef.
Proof.
  apply (put_check_overflow _ 0 16 64 1 65533 (replicate (Z.to_nat 65533) Byte.x41));
    try done; try (rewrite zlen_replicate; done); vm_compute; by try split.
Defined.

(** [sancus_nl_attr_put] never stores the caller's data: what goes into
    the message are the bytes of the pointer itself, and a payload of more
    than eight bytes is read from behind it. *)
Theorem attr_put_stores_pointer (m : list byte) (nlh hdr n buflen ty len : Z) (xs : list attr) (data_repr : list byte)
    (Hmsg : msg_at m nlh hdr xs n) (Hty : 0 <= ty <= NLA_TYPE_MASK) (Hrepr : zlen data_repr = 8)
    (Hlen : 0 <= len <= 65528) (Hbuf : n + up4 (4 + len) <= buflen <= 65532) (Hm : nlh + buflen <= zlen m) :
  if len <=? 8
  then exists m', sancus_nl_attr_put m nlh buflen ty len data_repr = Ret (true, m') /\
         msg_at m' nlh hdr (xs ++ [(ty, sub data_repr 0 len)]) (n + up4 (4 + len))
  else sancus_nl_attr_put m nlh buflen ty len data_repr = Undef.
Proof.
  unfold sancus_nl_attr_put. destruct (Z.leb_spec len 8).
  - assert (zlen (sub data_repr 0 len) = len) as El by (apply zlen_sub; lia).
    assert (data_repr = sub data_repr 0 len ++ sub data_repr len (8 - len)) as Ed.
    { rewrite <- (sub_all data_repr) at 1. rewrite Hrepr. replace 8 with (len + (8 - len)) at 1 by lia.
      rewrite sub_app_add by lia. by rewrite Z.add_0_l. }
    destruct (put_check_ok m nlh hdr xs n buflen ty (sub data_repr 0 len) (sub data_repr len (8 - len)) Hmsg)
      as (m' & E & _ & H'); [split; cbn [fst snd]; lia|lia|lia|].
    rewrite <- Ed, El in E. unfold attr_size in E, H'. cbn [snd] in E, H'. rewrite El in E, H'.
    rewrite (proj2 (Z.leb_le _ buflen)) in E, H' by lia. by exists m'.
  - destruct Hmsg as (Hnlh & Hn & Hr & Hmod & _ & Hhdr & Hnm & _).
    pose proof (up4_bounds (4 + len)). unfold __sancus_nl_attr_put_check. rewrite Hn, ATTR_HDRLEN_4. run.
    assert (4 + SANCUS_NL_ALIGN len = up4 (4 + len)) as EA.
    { rewrite ALIGN_small by lia. unfold up4. replace (4 + len + 3) with (len + 3 + 1 * 4) by lia.
      rewrite Z.div_add by lia. lia. }
    rewrite (uwrap_id 32 (n + 4)), (uwrap_id 32) by bounds. rewrite Z.gtb_ltb, (proj2 (Z.ltb_ge buflen _)) by lia.
    unfold __sancus_nl_attr_put_nocheck, sancus_nl_msg_get_payload_tail. rewrite Hn. run.
    rewrite (ALIGN_small n), (up4_id n) by (done || lia). cbv zeta.
    rewrite store_le_ok by (change (Z.of_nat 2) with 2; lia). run.
    rewrite store_le_ok by (rewrite ?zlen_splice; rewrite ?zlen_le_bytes; change (Z.of_nat 2) with 2; lia). run.
    unfold load. destruct (in_bounds data_repr 0 len) eqn:E; [|done]. apply in_bounds_spec in E. lia.
Qed.

Lemma attr_put_stores_pointer_witness :
  exists m', sancus_nl_attr_put (le_bytes 4 16 ++ replicate 60 Byte.x00) 0 64 1 4 (le_bytes 8 0x7ffc1000) = Ret (true, m') /\
    msg_at m' 0 0 ([] ++ [(1, sub (le_bytes 8 0x7ffc1000) 0 4)]) (16 + up4 (4 + 4)).
Proof.
  apply (attr_put_stores_pointer (le_bytes 4 16 ++ replicate 60 Byte.x00) 0 0 16 64 1 4 [] (le_bytes 8 0x7ffc1000)).
  - unfold msg_at. split_and!; try done; try (vm_compute; discriminate).
  - split; vm_compute; discriminate.
  - done.
  - split; vm_compute; discriminate.
  - split; vm_compute; discriminate.
  - vm_compute; discriminate.
Defined.

(** ** Validation *)

(** What makes a payload acceptable as a value of a type. *)
Definition verdict (t : sancus_nl_attr_data_type) (d : list byte) : errno_or :=
  match t with
  | TYPE_MAX => inl EINVAL
  | TYPE_U8 => if 1 <=? zlen d then inr 0 else inl ERANGE
  | TYPE_U16 => if 2 <=? zlen d then inr 0 else inl ERANGE
  | TYPE_U32 => if 4 <=? zlen d then inr 0 else inl ERANGE
  | TYPE_U64 => if 8 <=? zlen d then inr 0 else inl ERANGE
  | TYPE_STRING => if bool_decide (d = []) then inl ERANGE else inr 0
  | TYPE_FLAG => if bool_decide (d = []) then inr 0 else inl ERANGE
  | TYPE_NUL_STRING =>
      match last d with
      | None => inl ERANGE
      | Some c => if decide (c = Byte.x00) then inr 0 else inl EINVAL
      end
  | TYPE_NESTED => if bool_decide (d = []) || (4 <=? zlen d) then inr 0 else inl ERANGE
  | TYPE_UNSPEC | TYPE_MSECS | TYPE_NESTED_COMPAT | TYPE_BINARY => inr 0
  end.

Lemma payload_lookup m a x i b :
  attr_at m a x -> attr_wf x -> x.2 !! i = Some b ->
  m !! Z.to_nat (sancus_nl_attr_get_payload a + Z.of_nat i) = Some b.
Proof.
  intros Hat Hwf Hi. destruct (attr_at_read _ _ _ Hat Hwf) as (_ & _ & _ & Hl).
  apply load_ret_inv in Hl as (Hp & Hd & Hb & E). rewrite E in Hi.
  rewrite lookup_sub in Hi by lia. case_decide; [|done].
  replace (Z.to_nat (sancus_nl_attr_get_payload a + Z.of_nat i)) with
    (Z.to_nat (sancus_nl_attr_get_payload a) + i)%nat by lia. done.
Qed.

Lemma zlen_nil_iff {A} (d : list A) : (zlen d =? 0) = bool_decide (d = []).
Proof.
  destruct (Z.eqb_spec (zlen d) 0) as [E|E].
  - apply zlen_zero in E as ->. done.
  - rewrite bool_decide_false; [done|]. by intros ->.
Qed.

Lemma validate_minlen_eq m a x t :
  attr_at m a x -> attr_wf x -> sancus_nl_attr_validate_minlen m a t = Ret (verdict t x.2).
Proof.
  intros Hat Hwf. destruct (attr_at_read _ _ _ Hat Hwf) as (_ & _ & Hp & _).
  pose proof (zlen_nonneg x.2) as Hd.
  unfold sancus_nl_attr_validate_minlen, validate_attr. rewrite Hp. run. cbv zeta.
  destruct t; cbn [type_code sancus_nl_attr_data_type_minlen verdict]; try done;
    rewrite ?ATTR_HDRLEN_4;
    try (change (_ >=? 12) with false; cbv iota; rewrite Z.ltb_antisym; rewrite ?(proj2 (Z.leb_le 0 (zlen x.2)) Hd);
         try done; try (destruct (_ <=? zlen x.2); done)).
  - rewrite zlen_nil_iff. destruct (Z.leb_spec 1 (zlen x.2)); simpl; [by case_bool_decide|].
    rewrite bool_decide_true; [done|]. apply zlen_zero. lia.
  - cbn [negb]. rewrite Z.gtb_ltb, <- zlen_nil_iff. by crush_cond.
  - cbn [negb]. rewrite <- zlen_nil_iff. by crush_cond.
  - destruct (last x.2) as [c|] eqn:E.
    + assert (1 <= zlen x.2) as H1.
      { destruct (decide (zlen x.2 = 0)) as [E0|]; [|lia]. apply zlen_zero in E0. by rewrite E0 in E. }
      rewrite (proj2 (Z.leb_le 1 _)), (proj2 (Z.eqb_neq _ 0)) by lia. cbn [negb].
      rewrite last_lookup in E. pose proof (payload_lookup _ _ _ _ _ Hat Hwf E) as El.
      rewrite (load1_lookup _ _ c).
      * run. by destruct (decide (c = Byte.x00)) as [->|]; [|rewrite bool_decide_true].
      * unfold sancus_nl_attr_get_payload. rewrite ATTR_HDRLEN_4. destruct Hat. lia.
      * rewrite <- El. do 2 f_equal. unfold zlen in *. lia.
    + apply last_None in E. rewrite E. done.
Qed.

Lemma c_strlen_lookup s n : s !! n = Some Byte.x00 -> exists l, c_strlen s = Ret l /\ l <= Z.of_nat n.
Proof.
  revert n. induction s as [|b s IH]; intros n Hn; [done|]. cbn [c_strlen].
  case_decide as Hb; [exists 0; split; [done|lia]|].
  destruct n as [|n]; [injection Hn as ->; done|]. destruct (IH n Hn) as (l & -> & ?). run.
  eexists; split; [done|lia].
Qed.

(** C37. Validation decides exactly what its table says: an attribute passes as
    a number when its payload is long enough, as a flag when it is empty, as
    a string when it is not, as a terminated string when its last byte is NUL,
    as nested when it is empty or can hold a header.  What has passed can be
    read: the number is the first bytes of the payload, the string ends
    inside it. *)
Theorem validate_then_read (m : list byte) (a : Z) (x : attr) (Hat : attr_at m a x) (Hwf : attr_wf x) :
  (forall t, sancus_nl_attr_validate_minlen m a t = Ret (verdict t x.2)) /\
  (forall t n, (t, n) ∈ [(TYPE_U8, 1%nat); (TYPE_U16, 2%nat); (TYPE_U32, 4%nat); (TYPE_U64, 8%nat)] ->
     verdict t x.2 = inr 0 -> sancus_nl_attr_get_u n m a = Ret (le_val (sub x.2 0 (Z.of_nat n)))) /\
  (verdict TYPE_NUL_STRING x.2 = inr 0 ->
     exists l, c_strlen (drop (Z.to_nat (sancus_nl_attr_get_string a)) m) = Ret l /\ l < zlen x.2).
Proof.
  destruct (attr_at_read _ _ _ Hat Hwf) as (_ & _ & _ & Hl).
  apply load_ret_inv in Hl as (Hp & Hd & Hb & E). split_and!.
  - intros t. by apply validate_minlen_eq.
  - intros t n Hin Hv. assert (Z.of_nat n <= zlen x.2) as Hn.
    { repeat (apply elem_of_cons in Hin as [[= -> ->]|Hin]; [cbn in Hv;
        match type of Hv with context [?k <=? ?z] => destruct (Z.leb_spec k z); [lia|done] end|]).
      by apply elem_of_nil in Hin. }
    unfold sancus_nl_attr_get_u, load_le. rewrite load_ok by lia. run. do 2 f_equal.
    rewrite E, sub_sub, Z.add_0_r by lia. done.
  - cbn [verdict]. destruct (last x.2) as [c|] eqn:El; [|done]. case_decide as Hc; [subst c|done]. intros _.
    rewrite last_lookup in El. pose proof (lookup_lt_Some _ _ _ El).
    pose proof (payload_lookup _ _ _ _ _ Hat Hwf El) as Hlk. unfold sancus_nl_attr_get_string.
    destruct (c_strlen_lookup (drop (Z.to_nat (sancus_nl_attr_get_payload a)) m) (pred (length x.2))) as (l & -> & Hle).
    + rewrite lookup_drop, <- Hlk. f_equal. lia.
    + exists l. split; [done|]. unfold zlen. lia.
Qed.

Lemma validate_then_read_witness :
  sancus_nl_attr_validate_minlen (le_bytes 2 8 ++ le_bytes 2 7 ++ le_bytes 4 513) 0 TYPE_U32 =
    Ret (verdict TYPE_U32 (le_bytes 4 513)).
Proof.
  apply (validate_then_read (le_bytes 2 8 ++ le_bytes 2 7 ++ le_bytes 4 513) 0 (7, le_bytes 4 513)).
  - split; [done|]. by vm_compute.
  - split; [split|]; vm_compute; discriminate.
Defined.
