(* ===== verification/NetlinkIo.v ===== *)
(** * NetlinkIo

    The netlink receiver of [src/netlink/netlink_io.c]: receiving a datagram,
    taking its messages apart and the life of the receiver's socket.  The
    user's callbacks are arguments: they get the receiver and return it,
    changed or not, and may do system calls of their own. *)

From S2P Require Import Prelude Sys Fd Ev Netlink.

(** [enum sancus_nl_receiver_error] @ include/sancus/netlink.h:50-53. *)
Inductive sancus_nl_receiver_error :=
  | SANCUS_NL_RECEIVER_WATCHER_ERROR
  | SANCUS_NL_RECEIVER_RECVFROM_ERROR.

(** [struct sancus_nl_receiver] @ include/sancus/netlink.h:80-86.  Its settings
    are the callbacks below. *)
Record sancus_nl_receiver := Receiver { recv_watcher : sancus_ev_fd; portid : Z }.

(** [struct sancus_nl_receiver_settings] @ include/sancus/netlink.h:63-71.
    [on_message] gets the datagram and the message's position in it; nothing
    in the sources reads [attribute_offset], which is the callbacks' to use. *)
Record sancus_nl_receiver_settings := Settings {
  on_message : sancus_nl_receiver -> list byte -> Z -> io (bool * sancus_nl_receiver);
  on_error : sancus_nl_receiver -> sancus_nl_receiver_error -> io sancus_nl_receiver;
  attribute_offset : Z
}.

(** [SANCUS_NL_SOCKET_BUFFER_SIZE] @ include/sancus/netlink.h:132-132. *)
Definition SANCUS_NL_SOCKET_BUFFER_SIZE (getpagesize : Z) : Z :=
  if getpagesize <? 8192 then getpagesize else 8192.

(** [sancus_nl_receiver_fd] @ include/sancus/netlink.h:139-139. *)
Definition sancus_nl_receiver_fd (S : sancus_nl_receiver) : Z := ev_fd (recv_watcher S).

(** [sancus_nl_receiver_is_active] @ include/sancus/netlink.h:146-146. *)
Definition sancus_nl_receiver_is_active (S : sancus_nl_receiver) : bool :=
  (ev_fd (recv_watcher S) >? 0) && sancus_ev_is_active (recv_watcher S).

Definition MSG_TRUNC : Z := 0x20.
Definition NLMSG_MIN_TYPE : Z := 0x10.
Definition AF_NETLINK : Z := 16.
Definition SOCK_RAW : Z := 3.
Definition sizeof_sockaddr_nl : Z := 12.

(** [sancus_nl_recvfrom] @ src/netlink/netlink_io.c:48-78.  [buf] is the
    array received into; the kernel also stores the message flags and the
    length of the sender's address. *)
Definition sancus_nl_recvfrom (fd : Z) (buf : list byte) : io (Z * list byte) :=
  r ← sys (SysRecv fd (zlen buf));
  if ret r =? -1 then mret (-1, buf)
  else
    buf ← lift (store buf 0 (data r));
    let msg_flags := nth 0 (outs r) 0 in
    let msg_namelen := nth 1 (outs r) 0 in
    if negb (Z.land msg_flags MSG_TRUNC =? 0) then
      _ ← set_errno ENOSPC; mret (-1, buf)
    else if negb (msg_namelen =? sizeof_sockaddr_nl) then
      _ ← set_errno EINVAL; mret (-1, buf)
    else mret (ret r, buf).

(** [extract_netlink_message, the loop] @ src/netlink/netlink_io.c:91-106. *)
Fixpoint extract_loop (fuel : nat) (st : sancus_nl_receiver_settings) (self : sancus_nl_receiver)
    (buf : list byte) (nlh len : Z) (ret : Z) : io (Z * sancus_nl_receiver) :=
  match fuel with
  | O => fun _ => OutOfFuel
  | S fuel =>
      ok ← lift (sancus_nl_msg_ok buf nlh len);
      if (ok : bool) then
        pok ← lift (sancus_nl_msg_portid_ok buf nlh (u32 (portid self)));
        if negb pok then _ ← set_errno ESRCH; mret (-1, self)
        else
          ty ← lift (nlmsg_type buf nlh);
          if ty >=? NLMSG_MIN_TYPE then
            '(b, self) ← on_message st self buf nlh;
            if negb b then mret (0, self)
            else
              '(nlh, len) ← lift (sancus_nl_msg_next buf nlh len);
              extract_loop fuel st self buf nlh len 1
          else
            '(nlh, len) ← lift (sancus_nl_msg_next buf nlh len);
            extract_loop fuel st self buf nlh len ret
      else mret (ret, self)
  end.

(** [extract_netlink_message] @ src/netlink/netlink_io.c:81-107. *)
Definition extract_netlink_message (fuel : nat) (st : sancus_nl_receiver_settings) (self : sancus_nl_receiver)
    (buf : list byte) (recvbytes : Z) : io (Z * sancus_nl_receiver) :=
  extract_loop fuel st self buf 0 (s32 recvbytes) 0.

(** [recv_cb, the read branch] @ src/netlink/netlink_io.c:118-127.  [buf] is
    the array on the stack as it was before the call. *)
Definition recv_read (fuel : nat) (st : sancus_nl_receiver_settings) (self : sancus_nl_receiver)
    (buf : list byte) : io sancus_nl_receiver :=
  '(ret, buf) ← sancus_nl_recvfrom (ev_fd (recv_watcher self)) buf;
  if ret <? 0 then
    on_error st self SANCUS_NL_RECEIVER_RECVFROM_ERROR
  else
    '(x, self) ← extract_netlink_message fuel st self buf ret;
    if x =? 0 then
      '(_, fd) ← sancus_close2 (Some (ev_fd (recv_watcher self)));
      mret (Receiver (EvFd (default (-1) fd) (ev_cb (recv_watcher self))) (portid self))
    else mret self.

(** [sancus_nl_receiver_start] @ src/netlink/netlink_io.c:142-146. *)
Definition sancus_nl_receiver_start (self : sancus_nl_receiver) : io unit :=
  _ ← lift (c_assert (negb (sancus_ev_is_active (recv_watcher self))));
  let _ := sancus_ev_fd_start (recv_watcher self) in
  mret tt.

(** [sancus_nl_receiver_stop] @ src/netlink/netlink_io.c:148-152. *)
Definition sancus_nl_receiver_stop (self : sancus_nl_receiver) : io unit :=
  if sancus_ev_is_active (recv_watcher self)
  then let _ := sancus_ev_fd_stop (recv_watcher self) in mret tt
  else mret tt.

(** [sancus_nl_receiver_close] @ src/netlink/netlink_io.c:154-160. *)
Definition sancus_nl_receiver_close (self : sancus_nl_receiver) : io sancus_nl_receiver :=
  _ ← lift (c_assert (ev_fd (recv_watcher self) >=? 0));
  _ ← lift (c_assert (negb (sancus_ev_is_active (recv_watcher self))));
  '(_, fd) ← sancus_close2 (Some (ev_fd (recv_watcher self)));
  mret (Receiver (EvFd (default (-1) fd) (ev_cb (recv_watcher self))) (portid self)).

(** [recv_cb] @ src/netlink/netlink_io.c:112-135. *)
Definition recv_cb `{EvFlags} (fuel : nat) (st : sancus_nl_receiver_settings) (self : sancus_nl_receiver)
    (stack : list byte) (revents : Z) : io sancus_nl_receiver :=
  self ← (if has_event revents EV_READ then recv_read fuel st self stack else mret self);
  if has_event revents EV_ERROR then
    _ ← sancus_nl_receiver_stop self;
    self ← sancus_nl_receiver_close self;
    on_error st self SANCUS_NL_RECEIVER_WATCHER_ERROR
  else mret self.

(** [sancus_nl_receiver_listen] @ src/netlink/netlink_io.c:162-192.  [old] is
    the receiver as it was; it is changed when the result is 1, or when
    binding fails. *)
Definition sancus_nl_receiver_listen (old : sancus_nl_receiver) (bus groups pid : Z) : io (Z * sancus_nl_receiver) :=
  fd ← sancus_socket AF_NETLINK SOCK_RAW bus false true;
  if fd <? 0 then mret (-1, old)
  else
    let '(w, _) := sancus_ev_fd_init fd SANCUS_EV_READ in
    let self := Receiver w pid in
    r ← sys (SysBindNetlink fd (u32 pid) groups);
    if ret r <? 0 then
      e ← get_errno;
      '(_, fd) ← sancus_close2 (Some (ev_fd (recv_watcher self)));
      _ ← set_errno e;
      mret (-1, Receiver (EvFd (default (-1) fd) (ev_cb (recv_watcher self))) (portid self))
    else mret (1, self).

(** ** Taking a datagram apart *)

(** A message header at the start of the buffer. *)
Definition header_at (buf : list byte) (n ty pid : Z) : Prop :=
  16 <= zlen buf /\ nlmsg_len buf 0 = Ret n /\ nlmsg_type buf 0 = Ret ty /\ nlmsg_pid buf 0 = Ret pid.

Definition port_ok (self : sancus_nl_receiver) (pid : Z) : bool :=
  (pid =? 0) || (u32 (portid self) =? 0) || (pid =? u32 (portid self)).

Lemma portid_ok_at buf self n ty pid :
  header_at buf n ty pid -> sancus_nl_msg_portid_ok buf 0 (u32 (portid self)) = Ret (port_ok self pid).
Proof.
  intros (_ & _ & _ & Hp). unfold sancus_nl_msg_portid_ok, port_ok. rewrite Hp. run. f_equal.
  destruct (pid =? 0), (u32 (portid self) =? 0); done.
Qed.

Lemma msg_ok_at buf n ty pid len :
  header_at buf n ty pid -> 16 <= n -> s32 n <= len -> 16 <= len -> sancus_nl_msg_ok buf 0 len = Ret true.
Proof.
  intros (_ & Hn & _) H16 Hle Hlen. unfold sancus_nl_msg_ok. change sizeof_nlmsghdr with 16.
  rewrite Z.geb_leb, (proj2 (Z.leb_le 16 len)), Hn by lia. run.
  by rewrite Z.geb_leb, !(proj2 (Z.leb_le _ _)) by lia.
Qed.

(** Where the loop goes on after a message of [n] bytes, and with how much left. *)
Lemma msg_next_at buf n ty pid len :
  header_at buf n ty pid -> 0 <= n <= 65532 -> 0 <= len <= INT_MAX ->
  sancus_nl_msg_next buf 0 len = Ret (16 * up4 n, len - up4 n).
Proof.
  intros (_ & Hl & _) Hn Hlen. pose proof (up4_bounds n).
  unfold sancus_nl_msg_next. rewrite Hl. run. rewrite ALIGN_small by lia.
  rewrite (swrap_id 32 (up4 n)) by bounds. unfold ck_s32.
  assert (in_s 32 (len - up4 n) = true) as -> by (unfold in_s; rewrite andb_true_iff, !Z.leb_le; bounds).
  by run.
Qed.

(** One round of the loop, for a message the user is to see. *)
Lemma extract_step fuel st self buf n ty pid len r w :
  header_at buf n ty pid -> 16 <= n -> s32 n <= len -> 16 <= len -> port_ok self pid = true -> NLMSG_MIN_TYPE <= ty ->
  extract_loop (S fuel) st self buf 0 len r w =
    ('(b, self) ← on_message st self buf 0;
     if negb b then mret (0, self)
     else '(nlh, len) ← lift (sancus_nl_msg_next buf 0 len);
          extract_loop fuel st self buf nlh len 1) w.
Proof.
  intros Hh H16 Hle Hlen Hp Hty. cbn [extract_loop].
  rewrite (lift_bind _ true) by by eapply msg_ok_at. cbv beta iota.
  rewrite (lift_bind _ true) by (rewrite (portid_ok_at _ _ _ _ _ Hh); by f_equal). cbn [negb]. cbv beta iota.
  destruct Hh as (_ & _ & Ht & _). rewrite (lift_bind _ ty) by done.
  by rewrite Z.geb_leb, (proj2 (Z.leb_le _ _)) by done.
Qed.

(** A datagram that holds one message is handed to [on_message] once, at
    its start, and the callback's verdict is the result; a message from
    another port than the receiver's is not shown at all. *)
Theorem extract_single_message (fuel : nat) (st : sancus_nl_receiver_settings) (self : sancus_nl_receiver)
    (buf : list byte) (n ty pid recvbytes : Z) (w : world)
    (Hh : header_at buf n ty pid) (Hn : 16 <= n <= 65532) (Hty : NLMSG_MIN_TYPE <= ty)
    (Hr : n <= recvbytes < up4 n + 16) :
  extract_netlink_message (S (S fuel)) st self buf recvbytes w =
    if port_ok self pid
    then ('(b, self) ← on_message st self buf 0; mret (if (b : bool) then 1 else 0, self)) w
    else Ret ((-1, self), World (script w) (trace w) ESRCH).
Proof.
  pose proof (up4_bounds n). unfold extract_netlink_message. rewrite (swrap_id 32 recvbytes) by bounds.
  destruct (port_ok self pid) eqn:Hp.
  - rewrite (extract_step _ _ _ _ n ty pid) by (done || (rewrite ?swrap_id by bounds; lia)).
    unfold mbind, io_bind. destruct (on_message st self buf 0 w) as [[[b self1] w1]| | |]; try done.
    destruct b; [|done]. cbn [negb]. rewrite (msg_next_at _ n ty pid) by (done || bounds).
    unfold lift. run. cbn [extract_loop]. unfold sancus_nl_msg_ok.
    rewrite Z.geb_leb, (proj2 (Z.leb_gt _ _)) by (unfold sizeof_nlmsghdr; lia). done.
  - cbn [extract_loop]. rewrite (lift_bind _ true) by
      (eapply msg_ok_at; [done|lia|rewrite ?swrap_id by bounds; lia|lia]). cbv beta iota.
    rewrite (lift_bind _ false) by (rewrite (portid_ok_at _ _ _ _ _ Hh); by f_equal). done.
Qed.

Definition demo_settings : sancus_nl_receiver_settings := Settings (fun s _ _ => mret (true, s)) (fun s _ => mret s) 0.

(** A header of a message with [n] bytes. *)
Definition demo_header (n ty pid : Z) : list byte :=
  le_bytes 4 n ++ le_bytes 2 ty ++ le_bytes 2 0 ++ le_bytes 4 1 ++ le_bytes 4 pid.

Lemma demo_header_at n ty pid t :
  0 <= n < 2 ^ 32 -> 0 <= ty < 2 ^ 16 -> 0 <= pid < 2 ^ 32 -> header_at (demo_header n ty pid ++ t) n ty pid.
Proof.
  intros Hn Ht Hp. unfold header_at, nlmsg_len, nlmsg_type, nlmsg_pid.
  assert (zlen (demo_header n ty pid) = 16) as Hl by done. pose proof (zlen_nonneg t).
  assert (16 <= zlen (demo_header n ty pid ++ t)) as Hz by (rewrite zlen_app; lia).
  split_and!; [done| | |]; (apply load_le_at; [lia|change (Z.of_nat 4) with 4; change (Z.of_nat 2) with 2; lia|done|by cbv_bounds]).
Qed.

Lemma extract_single_message_witness :
  extract_netlink_message 2 demo_settings (Receiver (EvFd 3 true) 42) (demo_header 17 20 42 ++ replicate 16 Byte.x00) 20 (World [] [] 0)
  = if port_ok (Receiver (EvFd 3 true) 42) 42
    then ('(b, self) ← on_message demo_settings (Receiver (EvFd 3 true) 42) (demo_header 17 20 42 ++ replicate 16 Byte.x00) 0;
          mret (if (b : bool) then 1 else 0, self)) (World [] [] 0)
    else Ret ((-1, Receiver (EvFd 3 true) 42), World [] [] ESRCH).
Proof.
  apply (extract_single_message 0 demo_settings (Receiver (EvFd 3 true) 42) _ 17 20 42 20 (World [] [] 0));
    [apply demo_header_at; vm_compute; by split|vm_compute; by try split..].
Defined.

(** After a first message of [n] bytes the loop goes on [16] times [n] bytes
    further, because the pointer moves by whole headers: when that is behind
    the buffer, a second message makes it read there. *)
Lemma second_message_overruns fuel st self buf n ty pid recvbytes w w1 :
  header_at buf n ty pid -> 16 <= n <= 65532 -> NLMSG_MIN_TYPE <= ty -> port_ok self pid = true ->
  up4 n + 16 <= recvbytes <= zlen buf -> recvbytes <= 65536 -> zlen buf < 16 * up4 n + 4 ->
  on_message st self buf 0 w = Ret ((true, self), w1) ->
  extract_netlink_message (S (S fuel)) st self buf recvbytes w = Undef.
Proof.
  intros Hh Hn Hty Hp Hr Hr2 Hb Hon. pose proof (up4_bounds n).
  unfold extract_netlink_message. rewrite (swrap_id 32 recvbytes) by bounds.
  rewrite (extract_step _ _ _ _ n ty pid) by (done || (rewrite ?swrap_id by bounds; lia)).
  rewrite (io_bind_eq _ _ _ _ _ Hon). cbn [negb].
  rewrite (lift_bind _ _ _ _ (msg_next_at buf n ty pid recvbytes Hh ltac:(lia) ltac:(bounds))).
  cbn [extract_loop]. unfold sancus_nl_msg_ok, lift.
  rewrite Z.geb_leb, (proj2 (Z.leb_le _ _)) by (unfold sizeof_nlmsghdr; lia).
  unfold nlmsg_len, load_le, load.
  destruct (in_bounds buf (16 * up4 n) (Z.of_nat 4)) eqn:E; [|done].
  apply in_bounds_spec in E. change (Z.of_nat 4) with 4 in E. lia.
Qed.

(** C40. A control message (of a type below [NLMSG_MIN_TYPE], which is not
    shown to the user) from a port the receiver accepts, whose header claims
    [2^31] bytes, hangs the receiver: compared as an [int] the length is
    negative and passes for small enough, its aligned size is 0, and the loop
    looks at the same message for ever, without a call that could end it. *)
Theorem extract_hangs_on_huge_length (fuel : nat) (st : sancus_nl_receiver_settings) (self : sancus_nl_receiver)
    (buf : list byte) (ty pid recvbytes : Z) (w : world)
    (Hh : header_at buf (2 ^ 31) ty pid) (Hty : ty < NLMSG_MIN_TYPE) (Hp : port_ok self pid = true)
    (Hr : 16 <= recvbytes <= INT_MAX) :
  extract_netlink_message fuel st self buf recvbytes w = OutOfFuel.
Proof.
  unfold extract_netlink_message. rewrite (swrap_id 32 recvbytes) by bounds.
  generalize 0 at 2. intros r. revert r.
  induction fuel as [|fuel IH]; intros r; [done|]. cbn [extract_loop].
  rewrite (lift_bind _ true) by (eapply msg_ok_at; [done|done| |lia]; change (s32 (2 ^ 31)) with (- 2 ^ 31); lia).
  cbv beta iota. rewrite (lift_bind _ true) by (rewrite (portid_ok_at _ _ _ _ _ Hh); by f_equal).
  cbn [negb]. cbv beta iota. destruct Hh as (_ & Hl & Ht & _). rewrite (lift_bind _ ty) by done.
  rewrite Z.geb_leb, (proj2 (Z.leb_gt _ _)) by done.
  rewrite (lift_bind _ (0, recvbytes)); [apply IH|].
  unfold sancus_nl_msg_next. rewrite Hl. run. change (SANCUS_NL_ALIGN (2 ^ 31)) with 0.
  change (s32 0) with 0. rewrite Z.sub_0_r. unfold ck_s32.
  assert (in_s 32 recvbytes = true) as -> by (unfold in_s; rewrite andb_true_iff, !Z.leb_le; bounds). by run.
Qed.

Lemma extract_hangs_on_huge_length_witness :
  extract_netlink_message 100 demo_settings (Receiver (EvFd 3 true) 0) (demo_header (2 ^ 31) 1 0 ++ []) 16 (World [] [] 0) = OutOfFuel.
Proof.
  apply (extract_hangs_on_huge_length 100 demo_settings (Receiver (EvFd 3 true) 0) (demo_header (2 ^ 31) 1 0 ++ []) 1 0 16 (World [] [] 0));
    [apply demo_header_at; vm_compute; by split|done|done|vm_compute; by split].
Defined.

(** ** The socket's life *)

(** [sancus_nl_receiver_listen] leaks no socket: on success the receiver
    holds the one it opened, still open; on failure everything it opened has
    been closed again. *)
Theorem receiver_listen_no_leak (old self : sancus_nl_receiver) (bus groups pid v : Z) (w w' : world)
    (H : sancus_nl_receiver_listen old bus groups pid w = Ret ((v, self), w')) :
  exists evs, trace w' = trace w ++ evs /\
    ((v = 1 /\ portid self = pid /\ owns_or_closed (ev_fd (recv_watcher self)) evs /\ 0 <= ev_fd (recv_watcher self)) \/
     (v = -1 /\ owns_or_closed v evs)).
Proof.
  unfold sancus_nl_receiver_listen in H. apply io_bind_inv in H as (fd & w1 & Hs & H).
  apply opens_safely in Hs as (evs1 & E1 & Ho1); [|done]. destruct (Z.ltb_spec fd 0) as [|Hfd].
  { injection H as <- <- <-. exists evs1. split; [done|]. right. split; [done|].
    destruct Ho1 as [[? _]|[_ Ho]]; [lia|]. by right. }
  destruct Ho1 as [(_ & Ho1 & Hc1)|[? _]]; [|lia].
  cbn [sancus_ev_fd_init] in H. apply sys_inv in H as (r & rs & Er & H).
  destruct (Z.ltb_spec (ret r) 0).
  - rewrite get_errno_bind in H. apply io_bind_inv in H as ([rc fd'] & w2 & Hc & H).
    apply sancus_close2_inv in Hc as (Hfd' & evs2 & E2 & Ho2 & Hc2). cbn [snd trace recv_watcher ev_fd] in *. subst fd'.
    rewrite set_errno_bind in H. injection H as <- <- <-. cbn [trace].
    exists (evs1 ++ (SysBindNetlink fd (u32 pid) groups, r) :: evs2).
    split; [by rewrite E2, E1, <- !app_assoc|]. right. split; [done|].
    apply (owns_then_closed fd); [done|done|by apply Hc2|done].
  - injection H as <- <- <-. exists (evs1 ++ [(SysBindNetlink fd (u32 pid) groups, r)]).
    split; [by rewrite E1, app_assoc|]. left. split_and!; [done|done| |done].
    left. rewrite opened_app, closes_app, Ho1. split_and!; [done|done|]. by rewrite app_nil_r.
Qed.

Lemma receiver_listen_no_leak_witness :
  exists evs, trace (World [] [(SysSocket 16 (Z.lor 3 SOCK_NONBLOCK) 0, ok 5); (SysGetfl 5, ok 2050);
      (SysBindNetlink 5 7 1, fails 98); (SysClose 5, ok 0)] 98) = [] ++ evs /\
    ((-1 = 1 /\ portid (Receiver (EvFd (-1) true) 7) = 7 /\
      owns_or_closed (ev_fd (recv_watcher (Receiver (EvFd (-1) true) 7))) evs /\
      0 <= ev_fd (recv_watcher (Receiver (EvFd (-1) true) 7))) \/
     (-1 = -1 /\ owns_or_closed (-1) evs)).
Proof.
  apply (receiver_listen_no_leak (Receiver (EvFd (-1) false) 0) (Receiver (EvFd (-1) true) 7) 0 1 7 (-1)
    (World [ok 5; ok 2050; fails 98; ok 0] [] 0)). by vm_compute.
Defined.

(** A datagram without a message for the user closes the socket: the result
    0 of [extract_netlink_message] stands for that as well as for the
    callback's wish to stop. *)
Lemma control_message_closes st self buf n pid ty recvbytes fuel w :
  header_at buf n ty pid -> 16 <= n <= 65532 -> ty < NLMSG_MIN_TYPE -> port_ok self pid = true ->
  n <= recvbytes < up4 n + 16 ->
  extract_netlink_message (S (S fuel)) st self buf recvbytes w = Ret ((0, self), w).
Proof.
  intros Hh Hn Hty Hp Hr. pose proof (up4_bounds n). unfold extract_netlink_message. rewrite (swrap_id 32 recvbytes) by bounds.
  cbn [extract_loop]. rewrite (lift_bind _ true) by
    (eapply msg_ok_at; [done|lia|rewrite ?swrap_id by bounds; lia|lia]). cbv beta iota.
  rewrite (lift_bind _ true) by (rewrite (portid_ok_at _ _ _ _ _ Hh); by f_equal). cbn [negb]. cbv beta iota.
  rewrite (lift_bind _ ty) by apply Hh. rewrite Z.geb_leb, (proj2 (Z.leb_gt _ _)) by done.
  rewrite (lift_bind _ _ _ _ (msg_next_at buf n ty pid recvbytes Hh ltac:(lia) ltac:(bounds))).
  unfold sancus_nl_msg_ok. rewrite Z.geb_leb, (proj2 (Z.leb_gt _ _)) by (unfold sizeof_nlmsghdr; lia). done.
Qed.

(** With the event constants of [ev.h] the callback never reads. *)
Lemma recv_cb_never_reads fuel st self stack revents :
  has_event revents EV_ERROR = false -> recv_cb fuel st self stack revents = fun w => Ret (self, w).
Proof. intros H. unfold recv_cb. by rewrite no_read_event, H. Qed.
