(* ===== verification/NetlinkRun.v ===== *)
(** * NetlinkRun

    The netlink receiver as a whole: taking a datagram apart ends, and what a
    program builds with [Netlink]'s operations and sends is what the other
    side's callback is shown. *)

From S2P Require Import Prelude Sys Fd Ev Types Netlink NetlinkIo.

(** ** Taking a datagram apart ends *)

(** A computation that comes to its end with a result. *)
Definition yields {A} (m : io A) (w : world) : Prop := exists a w', m w = Ret (a, w').

Lemma yields_bind {A B} (m : io A) (f : A -> io B) w :
  yields m w -> (forall a w', m w = Ret (a, w') -> yields (f a) w') -> yields (m ≫= f) w.
Proof. intros (a & w' & E) Hf. unfold yields. rewrite (io_bind_eq _ _ _ _ _ E). by apply Hf. Qed.

Lemma yields_lift {A B} (m : outcome A) (f : A -> io B) w :
  returns m -> (forall a, m = Ret a -> yields (f a) w) -> yields (lift m ≫= f) w.
Proof. intros [a ->] Hf. apply yields_bind; [by exists a, w|]. intros a' w' [= <- <-]. by apply Hf. Qed.

(** The places where the loop looks for a message header, with the length
    left: the datagram's start, and from a message that is accepted on as many
    whole headers as its aligned length has bytes. *)
Inductive visits (buf : list byte) (recvbytes : Z) : Z -> Z -> Prop :=
  | visit_first : visits buf recvbytes 0 recvbytes
  | visit_next p len n :
      visits buf recvbytes p len -> sancus_nl_msg_ok buf p len = Ret true -> nlmsg_len buf p = Ret n ->
      visits buf recvbytes (p + sizeof_nlmsghdr * SANCUS_NL_ALIGN n) (len - SANCUS_NL_ALIGN n).

Lemma visits_at buf recvbytes p len :
  visits buf recvbytes p len -> p = 16 * (recvbytes - len) /\ len <= recvbytes.
Proof.
  induction 1 as [|p len n _ [Hp ?] _ _]; [lia|]. pose proof (ALIGN_range n). change sizeof_nlmsghdr with 16. lia.
Qed.

(** An array [16] times as long as the datagram holds all of them. *)
Lemma visits_inside buf recvbytes p len :
  16 * recvbytes <= zlen buf -> visits buf recvbytes p len -> 16 <= len -> p + 16 <= zlen buf.
Proof. intros ? [-> ?]%visits_at ?. lia. Qed.

(** What a message that is accepted says about the next one: it is further on
    by the aligned length, which leaves that much less. *)
Lemma msg_ok_inv buf nlh len :
  sancus_nl_msg_ok buf nlh len = Ret true ->
  exists n, nlmsg_len buf nlh = Ret n /\ 16 <= n /\ s32 n <= len /\ 16 <= len.
Proof.
  unfold sancus_nl_msg_ok. rewrite Z.geb_leb. destruct (Z.leb_spec sizeof_nlmsghdr len); [|done].
  destruct (nlmsg_len buf nlh) as [n| | |]; try discriminate. run. intros [= H2].
  rewrite Z.geb_leb, andb_true_iff, !Z.leb_le in H2. unfold sizeof_nlmsghdr in *. exists n. split_and!; try done; lia.
Qed.

Lemma load_le_returns m i n : 0 <= i -> i + Z.of_nat n <= zlen m -> returns (load_le m i n).
Proof. intros. unfold load_le. rewrite load_ok by lia. by eexists. Qed.

Lemma msg_ok_returns buf nlh len :
  (16 <= len -> 0 <= nlh /\ nlh + 16 <= zlen buf) -> returns (sancus_nl_msg_ok buf nlh len).
Proof.
  intros H. unfold sancus_nl_msg_ok. rewrite Z.geb_leb. destruct (Z.leb_spec sizeof_nlmsghdr len) as [Hl|]; [|by eexists].
  destruct (H Hl). destruct (load_le_returns buf nlh 4) as [n E]; [lia|lia|].
  unfold nlmsg_len. rewrite E. by eexists.
Qed.

Lemma portid_ok_returns buf nlh portid :
  0 <= nlh -> nlh + 16 <= zlen buf -> returns (sancus_nl_msg_portid_ok buf nlh portid).
Proof.
  intros. unfold sancus_nl_msg_portid_ok, nlmsg_pid.
  destruct (load_le_returns buf (nlh + 12) 4) as [v ->]; [lia|lia|]. by eexists.
Qed.

Lemma msg_next_eq buf nlh len n :
  nlmsg_len buf nlh = Ret n -> 16 <= len <= INT_MAX ->
  sancus_nl_msg_next buf nlh len = Ret (nlh + 16 * SANCUS_NL_ALIGN n, len - SANCUS_NL_ALIGN n).
Proof.
  intros Hn Hlen. unfold sancus_nl_msg_next. rewrite Hn. run. pose proof (ALIGN_range n) as [? _].
  rewrite swrap_id by bounds. unfold ck_s32.
  assert (in_s 32 (len - SANCUS_NL_ALIGN n) = true) as -> by (unfold in_s; rewrite andb_true_iff, !Z.leb_le; bounds).
  by run.
Qed.

Section Termination.
Context (st : sancus_nl_receiver_settings) (buf : list byte) (recvbytes : Z).
(** Each call of the user's callback for a message comes to its end. *)
Hypothesis callback_yields : forall self p len w,
  visits buf recvbytes p len -> sancus_nl_msg_ok buf p len = Ret true -> yields (on_message st self buf p) w.
(** No message claims [2^31] bytes or more that are aligned to 0. *)
Hypothesis lengths_count : forall p len n,
  visits buf recvbytes p len -> sancus_nl_msg_ok buf p len = Ret true -> nlmsg_len buf p = Ret n -> 2 ^ 31 <= n ->
  SANCUS_NL_ALIGN n <> 0.
(** The headers looked at lie in the array. *)
Hypothesis headers_inside : forall p len,
  visits buf recvbytes p len -> 16 <= len -> p + 16 <= zlen buf.

Lemma extract_loop_yields fuel self p len r w :
  visits buf recvbytes p len -> recvbytes <= 65532 -> len < 4 * Z.of_nat fuel -> (0 < fuel)%nat ->
  yields (extract_loop fuel st self buf p len r) w.
Proof.
  revert self p len r w. induction fuel as [|fuel IH]; intros self p len r w Hv Hr Hf Hpos; [lia|].
  pose proof (visits_at _ _ _ _ Hv) as [Hp Hle]. cbn [extract_loop].
  apply yields_lift; [apply msg_ok_returns; intros; split; [lia|by eapply headers_inside]|].
  intros [] Hok; [|by eexists _, _].
  pose proof (msg_ok_inv _ _ _ Hok) as (n & Hn & H16 & Hfit & Hl). pose proof (headers_inside _ _ Hv Hl) as Hin.
  assert (forall self r w, yields ('(nlh, len) ← lift (sancus_nl_msg_next buf p len); extract_loop fuel st self buf nlh len r) w) as Hgo.
  { intros self' r' w'. rewrite (msg_next_eq _ _ _ n) by (done || bounds). apply yields_lift; [by eexists|].
    intros [p' l'] [= <- <-].
    assert (SANCUS_NL_ALIGN n <> 0) as Hne.
    { destruct (Z.leb_spec (2 ^ 31) n); [by eapply lengths_count|].
      rewrite swrap_id in Hfit by bounds. rewrite ALIGN_small by lia. pose proof (up4_bounds n). lia. }
    pose proof (ALIGN_range n) as [? Hm]. apply Z.mod_divide in Hm as [k Hk]; [|lia].
    apply IH; [by eapply (visit_next _ _ _ _ n)|done|lia|lia]. }
  apply yields_lift; [apply portid_ok_returns; lia|]. intros [] _; [|by eexists _, _].
  cbn [negb]. apply yields_lift; [apply load_le_returns; lia|]. intros ty _.
  destruct (ty >=? NLMSG_MIN_TYPE); [|apply Hgo].
  apply yields_bind; [by eapply callback_yields|]. intros [[] self'] w' _; [apply Hgo|by eexists _, _].
Qed.
End Termination.

(** C13. Taking a datagram apart ends with a result, the callback's verdict
    or an error and never undefined behaviour, after at most one round for
    every four bytes received, if three things hold of the places where the
    loop looks for a message, which are the datagram's start and, after each
    message accepted, the place [16] times its aligned length further on (the
    code moves the pointer by whole headers): a header looked for while at
    least 16 bytes are left lies inside the array; no message accepted claims [2^31]
    bytes or more that are aligned to 0; and the callback's call for a message
    accepted there ends.  The first of these holds of any datagram in an array
    [16] times its size ([visits_inside]) and of a datagram that is one message
    ([visits_single]); without it the
    loop reads behind the array ([second_message_overruns]), without the
    second it hangs ([extract_hangs_on_huge_length]). *)
Theorem extract_terminates (fuel : nat) (st : sancus_nl_receiver_settings) (self : sancus_nl_receiver)
    (buf : list byte) (recvbytes : Z) (w : world)
    (Hr : 0 <= recvbytes <= 65532) (Hfuel : recvbytes < 4 * Z.of_nat fuel)
    (Hin : forall p len, visits buf recvbytes p len -> 16 <= len -> p + 16 <= zlen buf)
    (Hlen : forall p len n, visits buf recvbytes p len -> sancus_nl_msg_ok buf p len = Ret true ->
       nlmsg_len buf p = Ret n -> 2 ^ 31 <= n -> SANCUS_NL_ALIGN n <> 0)
    (Hcb : forall self p len w, visits buf recvbytes p len -> sancus_nl_msg_ok buf p len = Ret true ->
       yields (on_message st self buf p) w) :
  yields (extract_netlink_message fuel st self buf recvbytes) w.
Proof.
  unfold extract_netlink_message. rewrite swrap_id by bounds.
  apply extract_loop_yields with recvbytes; [done|done|done|constructor|lia|lia|lia].
Qed.

Lemma load_le_inv m i n v : load_le m i n = Ret v -> 0 <= i /\ i + Z.of_nat n <= zlen m /\ v = le_val (sub m i (Z.of_nat n)).
Proof.
  unfold load_le. destruct (load m i (Z.of_nat n)) as [x| | |] eqn:E; try discriminate. run. intros [= <-].
  apply load_ret_inv in E as (? & ? & ? & ->). done.
Qed.

(** Where the loop looks in a datagram whose first message is all there is. *)
Lemma visits_single buf recvbytes n ty pid p len :
  header_at buf n ty pid -> 16 <= n <= 65532 -> recvbytes < up4 n + 16 ->
  visits buf recvbytes p len -> 16 <= len -> p = 0 /\ len = recvbytes.
Proof.
  intros (_ & Hn & _) Hr Hlt Hv. pose proof (up4_bounds n). destruct Hv as [|p len k Hv Hok Hk]; [done|]. intros Hl.
  exfalso. revert Hl. cut (visits buf recvbytes p len -> 16 <= len -> p = 0 /\ len = recvbytes).
  { intros Hc. pose proof (msg_ok_inv _ _ _ Hok) as (_ & _ & _ & _ & H16). destruct (Hc Hv H16) as [-> ->].
    rewrite Hn in Hk. injection Hk as <-. rewrite ALIGN_small by lia. lia. }
  clear Hok Hk. induction 1 as [|q l j Hq IH Hok Hj]; [done|]. intros Hl.
  pose proof (msg_ok_inv _ _ _ Hok) as (_ & _ & _ & _ & H16). destruct (IH Hq H16) as [-> ->].
  rewrite Hn in Hj. injection Hj as <-. rewrite ALIGN_small in Hl by lia. lia.
Qed.

(** Two messages of 16 and 17 bytes, received into an array that is long
    enough for the second to be looked for [256] bytes on, where it claims
    more than [2^31] bytes. *)
Definition demo_datagram : list byte :=
  demo_header 16 20 0 ++ replicate 240 Byte.x00 ++ demo_header 0x80ff0010 20 0 ++ replicate 300 Byte.x00.

Lemma demo_datagram_visits p len :
  visits demo_datagram 33 p len -> (p = 0 /\ len = 33) \/ (p = 256 /\ len = 17) \/ len < 16.
Proof.
  induction 1 as [|p len n Hv IH Hok Hn]; [by left|].
  destruct IH as [[-> ->]|[[-> ->]|Hlt]].
  - assert (n = 16) as -> by (vm_compute in Hn; congruence). right; left. by vm_compute.
  - assert (n = 0x80ff0010) as -> by (vm_compute in Hn; congruence). right; right. by vm_compute.
  - apply msg_ok_inv in Hok as (? & _ & _ & _ & ?). lia.
Qed.

Lemma extract_terminates_witness :
  yields (extract_netlink_message 9 demo_settings (Receiver (EvFd 3 true) 0) demo_datagram 33) (World [] [] 0).
Proof.
  apply (extract_terminates 9 demo_settings (Receiver (EvFd 3 true) 0)); [by split|done| | |].
  - intros p len Hv ?. change (zlen demo_datagram) with 572.
    destruct (demo_datagram_visits p len Hv) as [[-> ->]|[[-> ->]|?]]; lia.
  - intros p len n Hv Hok Hn Hbig.
    destruct (demo_datagram_visits p len Hv) as [[-> ->]|[[-> ->]|Hlt]].
    + assert (n = 16) as -> by (vm_compute in Hn; congruence). lia.
    + assert (n = 0x80ff0010) as -> by (vm_compute in Hn; congruence). by vm_compute.
    + apply msg_ok_inv in Hok as (? & _ & _ & _ & ?). lia.
  - intros self p len w _ _. by eexists _, _.
Defined.

(** ** From the sender to the callback *)












