(* ===== verification/ReceiverLife.v ===== *)
(** * ReceiverLife

    The life of a netlink receiver of [NetlinkIo], from a successful listen on:
    the program starts, stops and closes it, the event loop calls [recv_cb]
    while it is open, and in between the program does what it likes. *)

From stdpp Require Import gmap.
From S2P Require Import Prelude Sys Live Fd Ev Netlink NetlinkIo.
#[local] Open Scope Z_scope.

#[local] Abbreviation kept := (kept sancus_nl_receiver_fd).

(** A callback opens nothing; it may close the receiver it is given. *)
Class ReceiverPolite (st : sancus_nl_receiver_settings) : Prop := {
  polite_message : forall s buf nlh w b s' w', on_message st s buf nlh w = Ret ((b, s'), w') -> kept s s' w w';
  polite_receive_error : forall s x w s' w', on_error st s x w = Ret (s', w') -> kept s s' w w'
}.

(** Giving the socket back. *)
Lemma close_kept s w (x : Z * option Z) w' :
  sancus_close2 (Some (sancus_nl_receiver_fd s)) w = Ret (x, w') ->
  kept s (Receiver (EvFd (default (-1) x.2) (ev_cb (recv_watcher s))) (portid s)) w w'.
Proof.
  intros (-> & evs & E & Ho & Hc)%sancus_close2_inv. exists evs. split; [done|]. split; [done|].
  right. split; [cbn; lia|by apply Hc].
Qed.

Lemma recvfrom_quiet fd buf w x w' s : sancus_nl_recvfrom fd buf w = Ret (x, w') -> kept s s w w'.
Proof.
  unfold sancus_nl_recvfrom. intros (r & rs & Er & H)%sys_inv.
  assert (trace w' = trace w ++ [(SysRecv fd (zlen buf), r)]) as E; [|by eapply kept_quiet].
  destruct (ret r =? -1); [by injection H as _ <-|]. apply lift_inv in H as (b & _ & H).
  destruct (negb _); [rewrite set_errno_bind in H; by injection H as _ <-|].
  destruct (negb _); [rewrite set_errno_bind in H; by injection H as _ <-|]. by injection H as _ <-.
Qed.

Section Life.
Context {F : EvFlags} (st : sancus_nl_receiver_settings) `{!ReceiverPolite st}.

Lemma extract_kept fuel s buf nlh len r w v s' w' :
  extract_loop fuel st s buf nlh len r w = Ret ((v, s'), w') -> kept s s' w w'.
Proof.
  revert s nlh len r w. induction fuel as [|fuel IH]; intros s nlh len r w H; [done|]. cbn [extract_loop] in H.
  apply lift_inv in H as (okay & _ & H). destruct okay; [|injection H as _ <- <-; apply kept_refl].
  apply lift_inv in H as (pok & _ & H). destruct pok; cbn [negb] in H.
  2:{ rewrite set_errno_bind in H. injection H as _ <- <-.
      apply (kept_quiet _ _ _ _ []); [cbn; by rewrite app_nil_r|done..]. }
  apply lift_inv in H as (ty & _ & H). destruct (ty >=? NLMSG_MIN_TYPE).
  - apply io_bind_inv in H as ([b s1] & w1 & Hon & H). apply polite_message in Hon.
    destruct b; cbn [negb] in H; [|by injection H as _ <- <-].
    apply lift_inv in H as ([p l] & _ & H). eapply kept_trans; [exact Hon|by eapply IH].
  - apply lift_inv in H as ([p l] & _ & H). by eapply IH.
Qed.

Lemma recv_read_kept fuel s buf w s' w' : recv_read fuel st s buf w = Ret (s', w') -> kept s s' w w'.
Proof.
  intros ([n b] & w1 & Hr & H)%io_bind_inv. apply (recvfrom_quiet _ _ _ _ _ s) in Hr.
  eapply kept_trans; [exact Hr|]. destruct (n <? 0); [by eapply polite_receive_error|].
  apply io_bind_inv in H as ([x s1] & w2 & Hx & H). apply extract_kept in Hx.
  eapply kept_trans; [exact Hx|]. destruct (x =? 0); [|injection H as <- <-; apply kept_refl].
  apply io_bind_inv in H as ([rc fd] & w3 & Hc & H). injection H as <- <-. by apply close_kept in Hc.
Qed.

Lemma receiver_close_kept s w s' w' : sancus_nl_receiver_close s w = Ret (s', w') -> kept s s' w w'.
Proof.
  intros ([] & _ & H)%lift_inv. apply lift_inv in H as ([] & _ & H).
  apply io_bind_inv in H as ([rc fd] & w1 & Hc & H). injection H as <- <-. by apply close_kept in Hc.
Qed.

Lemma recv_cb_kept fuel s stack revents w s' w' : recv_cb fuel st s stack revents w = Ret (s', w') -> kept s s' w w'.
Proof.
  intros (s1 & w1 & Hr & H)%io_bind_inv.
  assert (kept s s1 w w1) as Hk.
  { destruct (has_event revents EV_READ); [by eapply recv_read_kept|]. injection Hr as <- <-. apply kept_refl. }
  eapply kept_trans; [exact Hk|]. destruct (has_event revents EV_ERROR); [|injection H as <- <-; apply kept_refl].
  apply io_bind_inv in H as ([] & w2 & Hs & H). injection Hs as <-.
  apply io_bind_inv in H as (s2 & w3 & Hc & H). apply receiver_close_kept in Hc.
  eapply kept_trans; [exact Hc|]. by eapply polite_receive_error.
Qed.

(** The steps, with what the program opens itself. *)
Inductive receiver_step : sancus_nl_receiver * world -> gset Z -> sancus_nl_receiver * world -> Prop :=
  | receive_start s w w' : sancus_nl_receiver_start s w = Ret (tt, w') -> receiver_step (s, w) ∅ (s, w')
  | receive_stop s w w' : sancus_nl_receiver_stop s w = Ret (tt, w') -> receiver_step (s, w) ∅ (s, w')
  | receive_close s w s' w' : sancus_nl_receiver_close s w = Ret (s', w') -> receiver_step (s, w) ∅ (s', w')
  | receive_event fuel s stack revents w s' w' :
      0 <= sancus_nl_receiver_fd s -> recv_cb fuel st s stack revents w = Ret (s', w') ->
      receiver_step (s, w) ∅ (s', w')
  | receive_other s w w' evs :
      trace w' = trace w ++ evs -> sancus_nl_receiver_fd s ∉ closes evs ->
      receiver_step (s, w) (list_to_set (opened evs)) (s, w').

Definition receiver_run := run receiver_step.

Lemma receiver_step_holds x T y :
  receiver_step x T y -> exists evs, trace y.2 = trace x.2 ++ evs /\ holds_on sancus_nl_receiver_fd x.1 y.1 T evs.
Proof.
  intros H. assert (kept x.1 y.1 x.2 y.2 \/ exists evs, y.1 = x.1 /\ trace y.2 = trace x.2 ++ evs /\
    T = list_to_set (opened evs) /\ sancus_nl_receiver_fd x.1 ∉ closes evs) as [(evs & E & Hk)|(evs & -> & E & -> & Hc)].
  - destruct H as [s w w' H|s w w' H|s w s' w' H|fuel s stack revents w s' w' _ H|s w w' evs E Hc]; cbn [fst snd].
    + injection H as <-. left. apply kept_refl.
    + injection H as <-. left. apply kept_refl.
    + left. by eapply receiver_close_kept.
    + left. by eapply recv_cb_kept.
    + right. by exists evs.
  - exists evs. split; [done|by apply keeps_holds].
  - exists evs. split; [done|by apply others_hold].
Qed.
End Life.

(** C12. A receiver holds its socket and nothing else.  From a successful
    listen on, in whatever order the program starts, stops and closes the
    receiver, the event library reports events, whatever the datagrams hold
    and whatever the callbacks say, every descriptor that is open was open
    before, was opened by the program itself, or is the receiver's socket; and
    that stays open for as long as the receiver is.  The kernel hands out no
    descriptor that is held, and the callbacks open none and return a receiver
    whose socket they closed as closed ([ReceiverPolite]). *)
Theorem receiver_holds_only_its_socket {F : EvFlags} (st : sancus_nl_receiver_settings) (Hst : ReceiverPolite st)
    (old self s : sancus_nl_receiver) (bus groups pid : Z) (before T : gset Z) (w w' w'' : world)
    (Hinit : sancus_nl_receiver_listen old bus groups pid w = Ret ((1, self), w'))
    (Hrun : receiver_run st (self, w') T (s, w'')) :
  exists evs, trace w'' = trace w ++ evs /\
    (fresh before evs ->
       live before evs ⊆ before ∪ T ∪ held_by sancus_nl_receiver_fd s /\
       (0 <= sancus_nl_receiver_fd s -> sancus_nl_receiver_fd s ∈ live before evs)).
Proof.
  apply receiver_listen_no_leak in Hinit as (evs0 & E & [(_ & _ & Ho & Hfd)|[? _]]); [|done].
  destruct Ho as [(_ & Ho & Hc)|[? _]]; [|lia].
  destruct (opened_held sancus_nl_receiver_fd self evs0 before Hfd Ho Hc) as [Hl Hin].
  by apply (run_holds _ _ (receiver_step_holds st) _ _ _ Hrun before before (trace w) evs0).
Qed.

#[export] Instance demo_settings_polite : ReceiverPolite demo_settings.
Proof.
  split.
  - intros s buf nlh w b s' w' H. injection H as _ <- <-. apply kept_refl.
  - intros s x w s' w' H. injection H as <- <-. apply kept_refl.
Qed.

(** A receiver that gets a message, a control message, at which it closes, and
    a program that then opens a file under the same number. *)
Lemma receiver_holds_only_its_socket_witness :
  let evs0 := [(SysSocket 16 (Z.lor 3 SOCK_NONBLOCK) 0, ok 5); (SysGetfl 5, ok 2050); (SysBindNetlink 5 7 1, ok 0)] in
  let a1 := Answer 16 0 (demo_header 16 20 7) [0; 12] in
  let a2 := Answer 16 0 (demo_header 16 3 7) [0; 12] in
  let evs := evs0 ++ [(SysRecv 5 16, a1)] ++ [(SysRecv 5 16, a2); (SysClose 5, ok 0)] ++ [(SysOpenat AT_FDCWD [] 0 0, ok 5)] in
  exists evs', trace (World [] evs 0) = trace (World [ok 5; ok 2050; ok 0; a1; a2; ok 0; ok 5] [] 0) ++ evs' /\
    (fresh {[1]} evs' ->
       live {[1]} evs' ⊆ {[1]} ∪ (∅ ∪ ∅ ∪ ∅ ∪ list_to_set (opened [(SysOpenat AT_FDCWD [] 0 0, ok 5)]))
         ∪ held_by sancus_nl_receiver_fd (Receiver (EvFd (-1) true) 7) /\
       (0 <= -1 -> -1 ∈ live {[1]} evs')).
Proof.
  intros evs0 a1 a2 evs.
  apply (receiver_holds_only_its_socket (F := bits_flags) demo_settings _ (Receiver (EvFd (-1) false) 0)
    (Receiver (EvFd 5 true) 7) (Receiver (EvFd (-1) true) 7) 0 1 7 {[1]} _ (World [ok 5; ok 2050; ok 0; a1; a2; ok 0; ok 5] [] 0)
    (World [a1; a2; ok 0; ok 5] evs0 0)); [by vm_compute|].
  apply (run_more _ _ _ (Receiver (EvFd (-1) true) 7, World [ok 5] (evs0 ++ [(SysRecv 5 16, a1)] ++ [(SysRecv 5 16, a2); (SysClose 5, ok 0)]) 0)).
  - apply (run_more _ _ _ (Receiver (EvFd 5 true) 7, World [a2; ok 0; ok 5] (evs0 ++ [(SysRecv 5 16, a1)]) 0)).
    + apply (run_more _ _ _ (Receiver (EvFd 5 true) 7, World [a1; a2; ok 0; ok 5] evs0 0)); [apply run_none|].
      apply (receive_event (F := bits_flags) demo_settings 2 _ (replicate 16 Byte.x00) 1); [by vm_compute|by vm_compute].
    + apply (receive_event (F := bits_flags) demo_settings 2 _ (replicate 16 Byte.x00) 1); [by vm_compute|by vm_compute].
  - apply receive_other; [done|]. cbn. apply not_elem_of_nil.
Defined.
