(* ===== verification/BufferLegacy.v ===== *)
(** * BufferLegacy

    The read buffer of [include/sancus/buffer_legacy.h] and
    [src/sancus/buffer_legacy.c]: a window of an array that is filled from a
    descriptor at its end and consumed at its start. *)

From S2P Require Import Prelude Sys Fd.

(** [struct sancus_buffer] @ include/sancus/buffer_legacy.h:40-44.  [buf] is
    the array, [None] is [NULL]. *)
Record lbuffer := LBuffer { buf : option (list byte); base : Z; len : Z; size : Z }.

(** The array; [NULL] has no bytes. *)
Definition arr (b : lbuffer) : list byte := default [] (buf b).

(** [sancus_buffer_bind] @ src/sancus/buffer_legacy.c:39-47. *)
Definition sancus_buffer_bind (m : option (list byte)) (sz : Z) : outcome lbuffer :=
  _ ← c_assert ((bool_decide (is_Some m) && (sz >? 0)) || (negb (bool_decide (is_Some m)) && (sz =? 0)));
  Ret (LBuffer m 0 0 (u32 sz)).

(** [sancus_buffer_available] @ include/sancus/buffer_legacy.h:54-54. *)
Definition sancus_buffer_available (b : lbuffer) : Z := u64 (u64 (size b - base b) - len b).

(** [sancus_buffer_len] @ include/sancus/buffer_legacy.h:59-59. *)
Definition sancus_buffer_len (b : lbuffer) : Z := len b.

(** [sancus_buffer_data] @ include/sancus/buffer_legacy.h:64-64.  A position. *)
Definition sancus_buffer_data (b : lbuffer) : Z := base b.

(** [sancus_buffer_reset] @ include/sancus/buffer_legacy.h:84-84. *)
Definition sancus_buffer_reset (b : lbuffer) : lbuffer := LBuffer (buf b) 0 0 (size b).

(** [sancus_buffer_read] @ src/sancus/buffer_legacy.c:49-57.  The kernel's
    bytes go where the second argument of [sancus_read] points. *)
Definition sancus_buffer_read (b : lbuffer) (fd : Z) : io (Z * lbuffer) :=
  '(l, x) ← sancus_read fd (sancus_buffer_available b);
  m ← lift (match x with [] => Ret (buf b) | _ =>
              m ← deref (buf b); m ← store m (sancus_buffer_data b + sancus_buffer_len b) x; Ret (Some m) end);
  let b := LBuffer m (base b) (len b) (size b) in
  if l >? 0 then mret (l, LBuffer (buf b) (base b) (u64 (len b + u32 l)) (size b))
  else mret (l, b).

(** [sancus_buffer_rebase] @ src/sancus/buffer_legacy.c:59-69. *)
Definition sancus_buffer_rebase (b : lbuffer) : outcome lbuffer :=
  if base b >? 0 then
    m ← (if len b >? 0 then
           m ← deref (buf b);
           x ← load m (base b) (len b);
           m ← store m 0 x;
           Ret (Some m)
         else Ret (buf b));
    Ret (LBuffer m 0 (len b) (size b))
  else Ret b.

(** [sancus_buffer_skip] @ src/sancus/buffer_legacy.c:71-88. *)
Definition sancus_buffer_skip (b : lbuffer) (step : Z) : outcome (Z * lbuffer) :=
  if step >=? len b then
    let b := sancus_buffer_reset b in Ret (size b, b)
  else
    let b := if step >? 0 then LBuffer (buf b) (u64 (base b + step)) (u64 (len b - step)) (size b) else b in
    b ← (if sancus_buffer_available b <? size b ÷ 10 then sancus_buffer_rebase b else Ret b);
    Ret (sancus_buffer_available b, b).

(** ** Invariant *)

Definition wf (b : lbuffer) : Prop :=
  0 <= base b /\ 0 <= len b /\ base b + len b <= size b /\ size b <= UINT_MAX /\ zlen (arr b) = size b.

(** The bytes waiting to be consumed. *)
Definition content (b : lbuffer) : list byte := sub (arr b) (base b) (len b).

Lemma bind_wf m sz b : sancus_buffer_bind m sz = Ret b -> zlen (default [] m) = sz -> sz <= UINT_MAX -> wf b /\ content b = [].
Proof.
  unfold sancus_buffer_bind. intros H Hl Hm. inv_bind H. injection H as <-. pose proof (zlen_nonneg (default [] m)).
  unfold wf, content, arr. cbn [buf base len size]. rewrite uwrap_id by bounds. split_and!; try done; lia.
Qed.

Lemma available_ok b : wf b -> sancus_buffer_available b = size b - base b - len b.
Proof. intros (? & ? & ? & ? & ?). unfold sancus_buffer_available. rewrite (uwrap_id 64 (_ - base b)), uwrap_id by bounds. lia. Qed.

Lemma buf_some b : wf b -> 0 < size b -> exists m, buf b = Some m /\ zlen m = size b.
Proof. intros (_ & _ & _ & _ & Hz) Hs. unfold arr in Hz. destruct (buf b) as [m|]; [by exists m|]. unfold zlen in Hz; simpl in Hz. lia. Qed.

Lemma rebase_ok b : wf b -> exists b', sancus_buffer_rebase b = Ret b' /\ wf b' /\ content b' = content b /\
  base b' = 0 /\ len b' = len b /\ size b' = size b.
Proof.
  intros Hwf. pose proof Hwf as (Hb & Hl & Hbl & Hs & Hz). unfold sancus_buffer_rebase. rewrite !Z.gtb_ltb.
  destruct (Z.ltb_spec 0 (base b)); [|exists b; split_and!; try done; lia].
  destruct (Z.ltb_spec 0 (len b)).
  - destruct (buf_some b Hwf) as (m & Em & Hm); [lia|]. rewrite Em. simpl deref. run.
    rewrite load_ok by lia. run. assert (zlen (sub m (base b) (len b)) = len b) as Hsub by (apply zlen_sub; lia).
    rewrite store_ok by lia. run. eexists; split; [done|]. unfold wf, content, arr. rewrite Em.
    cbn [buf base len size default]. split_and!; try done; try lia.
    + simpl. rewrite zlen_splice; lia.
    + simpl. rewrite <- Hsub at 2. apply sub_splice_same; lia.
  - run. eexists; split; [done|]. unfold wf, content, arr. cbn [buf base len size]. split_and!; try done; try lia.
    by rewrite !sub_nil by lia.
Qed.

Lemma skip_ok b n : wf b -> 0 <= n ->
  exists b', sancus_buffer_skip b n = Ret (sancus_buffer_available b', b') /\ wf b' /\
    content b' = drop (Z.to_nat n) (content b) /\ size b' = size b /\ (len b' = 0 -> base b' = 0).
Proof.
  intros Hwf Hn. pose proof Hwf as (Hb & Hl & Hbl & Hs & Hz). unfold sancus_buffer_skip.
  rewrite Z.geb_leb, Z.gtb_ltb. assert (zlen (content b) = len b) as Hc by (apply zlen_sub; lia).
  destruct (Z.leb_spec (len b) n).
  - exists (sancus_buffer_reset b). assert (wf (sancus_buffer_reset b)) as Hr
      by (unfold wf, arr; cbn [buf base len size sancus_buffer_reset]; unfold arr in Hz; split_and!; try done; lia).
    split_and!; [|done| |done..].
    + rewrite available_ok by done. cbn. do 2 f_equal. lia.
    + rewrite drop_ge by (unfold zlen in Hc; lia). unfold content. cbn. by rewrite sub_nil by lia.
  - set (b1 := if 0 <? n then _ else b).
    assert (wf b1 /\ content b1 = drop (Z.to_nat n) (content b) /\ size b1 = size b /\ len b1 = len b - n)
      as (Hw1 & Hc1 & Hs1 & Hl1).
    { unfold b1. destruct (Z.ltb_spec 0 n).
      - rewrite !uwrap_id by bounds. unfold wf, content, arr in *. cbn [buf base len size]. split_and!; try done; try lia.
        unfold sub. rewrite Z2Nat.inj_sub, Z2Nat.inj_add by lia. rewrite <- drop_drop, skipn_firstn_comm. done.
      - replace n with 0 by lia. split_and!; try done; lia. }
    destruct (sancus_buffer_available b1 <? size b1 ÷ 10).
    + destruct (rebase_ok b1 Hw1) as (b2 & -> & Hw2 & Hc2 & Hb2 & _ & Hs2). run. exists b2.
      split_and!; [done|done|congruence..|done].
    + run. exists b1. split_and!; [done..|lia].
Qed.

(** The kernel gives no more than asked for, and as many bytes as it says. *)
Definition read_answer_ok (count : Z) (r : answer) : Prop :=
  is_eintr r = false /\ answer_ok r /\ ret r <= count /\ (0 <= ret r -> zlen (data r) = ret r).

Definition received (r : answer) : list byte := if ret r <? 0 then [] else data r.

Lemma read_ok b fd r rs t e : wf b -> read_answer_ok (size b - base b - len b) r ->
  exists b' w', sancus_buffer_read b fd (World (r :: rs) t e) =
      Ret ((if ret r <? 0 then - err r else ret r, b'), w') /\
    wf b' /\ content b' = content b ++ received r /\ size b' = size b /\ base b' = base b /\ script w' = rs.
Proof.
  intros Hwf (He & Hok & Hle & Hd). pose proof Hwf as (Hb & Hl & Hbl & Hs & Hz). unfold sancus_buffer_read, received.
  rewrite available_ok by done.
  destruct (read_loop_retry (S (S (length rs))) fd (size b - base b - len b) [] r rs t e)
    as (t' & e' & E & _); [done|done|simpl; lia|]. cbn [app] in E.
  rewrite (io_bind_eq (sancus_read fd (size b - base b - len b)) _ (World (r :: rs) t e) _ _ E). clear E.
  destruct (Z.ltb_spec (ret r) 0) as [Hneg|Hpos].
  - cbv beta iota. rewrite (lift_bind _ (buf b)) by done. cbv zeta. specialize (Hok Hneg).
    rewrite Z.gtb_ltb, (proj2 (Z.ltb_ge _ _)) by lia.
    eexists _, _. split; [done|]. rewrite app_nil_r. by destruct b.
  - cbv beta iota. specialize (Hd Hpos). rewrite Z.gtb_ltb. destruct (data r) as [|x xs] eqn:Ex.
    + rewrite (@zlen_nil byte) in Hd. rewrite (lift_bind _ (buf b)) by done. cbv zeta.
      rewrite (proj2 (Z.ltb_ge _ _)) by lia. eexists _, _. split; [done|]. rewrite app_nil_r. by destruct b.
    + pose proof (zlen_nonneg xs). rewrite <- Ex in *. assert (0 < ret r) by (rewrite <- Hd, Ex, zlen_cons; lia).
      destruct (buf_some b Hwf) as (m & Em & Hm); [lia|]. rewrite Em. simpl deref.
      unfold sancus_buffer_data, sancus_buffer_len.
      rewrite (lift_bind _ (Some (splice m (base b + len b) (data r)))) by (run; by rewrite store_ok by lia).
      cbv zeta. rewrite (proj2 (Z.ltb_lt _ _)) by lia. cbn [buf base len size].
      rewrite (uwrap_id 32), uwrap_id by bounds. eexists _, _. split; [done|].
      unfold wf, content, arr. rewrite Em. cbn [buf base len size]. simpl default. split_and!; try done; try lia.
      * rewrite zlen_splice; lia.
      * rewrite sub_app_add by lia. rewrite sub_splice_disjoint by lia. f_equal.
        rewrite <- Hd. apply sub_splice_same; lia.
Qed.

(** ** First in, first out *)

(** The operations, with the bytes they receive and consume. *)
Inductive step : lbuffer -> list byte -> list byte -> lbuffer -> Prop :=
  | step_read b fd r rs t e l b' w' :
      read_answer_ok (size b - base b - len b) r ->
      sancus_buffer_read b fd (World (r :: rs) t e) = Ret ((l, b'), w') ->
      step b (received r) [] b'
  | step_skip b n av b' :
      0 <= n -> sancus_buffer_skip b n = Ret (av, b') -> step b [] (take (Z.to_nat n) (content b)) b'
  | step_rebase b b' : sancus_buffer_rebase b = Ret b' -> step b [] [] b'
  | step_reset b : step b [] (content b) (sancus_buffer_reset b).

(** A run: all it received and all it consumed, in order. *)
Inductive run_steps : lbuffer -> list byte -> list byte -> lbuffer -> Prop :=
  | run_nil b : run_steps b [] [] b
  | run_snoc b i o b1 i1 o1 b2 :
      run_steps b i o b1 -> step b1 i1 o1 b2 -> run_steps b (i ++ i1) (o ++ o1) b2.

Lemma step_fifo b i o b' : wf b -> step b i o b' -> wf b' /\ content b ++ i = o ++ content b'.
Proof.
  intros Hwf Hst. destruct Hst as [b fd r rs t e l b' w' Hr H|b n av b' Hn H|b b' H|b].
  - destruct (read_ok b fd r rs t e Hwf Hr) as (b1 & w1 & E & Hw & Hc & _). rewrite E in H. injection H as <- <- <-.
    by rewrite Hc.
  - destruct (skip_ok b n Hwf Hn) as (b1 & E & Hw & Hc & _). rewrite E in H. injection H as _ <-.
    by rewrite Hc, app_nil_r, take_drop.
  - destruct (rebase_ok b Hwf) as (b1 & E & Hw & Hc & _). rewrite E in H. injection H as <-.
    by rewrite Hc, app_nil_r.
  - pose proof Hwf as (Hb & Hl & Hbl & Hs & Hz). split.
    + unfold wf, arr in *. cbn. split_and!; try done; lia.
    + rewrite app_nil_r. unfold content at 3. cbn. rewrite sub_nil by lia. by rewrite app_nil_r.
Qed.

(** C8. The read buffer is a queue: after any run of reads, skips, rebases
    and resets from a fresh one, what the kernel delivered is what was
    consumed followed by what is waiting, no byte lost, doubled or out of
    order, however the window was moved; the window stays inside the array;
    and a further skip or rebase is defined.  (The reads are ones whose first
    answer is not [EINTR], which [sancus_read] repeats.) *)
Theorem buffer_is_fifo (m : option (list byte)) (b0 b : lbuffer) (i o : list byte)
    (Hm : zlen (default [] m) <= UINT_MAX) (Hb : sancus_buffer_bind m (zlen (default [] m)) = Ret b0)
    (Hrun : run_steps b0 i o b) :
  wf b /\ i = o ++ content b /\
  (forall n, 0 <= n -> returns (sancus_buffer_skip b n)) /\ returns (sancus_buffer_rebase b).
Proof.
  apply bind_wf in Hb as [Hw0 Hc0]; [|done|done].
  assert (wf b /\ content b0 ++ i = o ++ content b) as [Hw Hio].
  { clear Hm Hc0 m. induction Hrun as [b|b i o b1 i1 o1 b2 Hrun IH Hst]; [by rewrite app_nil_r|].
    destruct (IH Hw0) as [Hw1 E1]. destruct (step_fifo _ _ _ _ Hw1 Hst) as [Hw2 E2].
    split; [done|]. rewrite app_assoc, E1, <- app_assoc, E2. by rewrite app_assoc. }
  rewrite Hc0 in Hio. split_and!; [done|done| |].
  - intros n Hn. destruct (skip_ok b n Hw Hn) as (b' & -> & _). by eexists.
  - destruct (rebase_ok b Hw) as (b' & -> & _). by eexists.
Qed.

(** Six bytes read into an array of ten, two consumed. *)
Lemma buffer_is_fifo_witness :
  wf (LBuffer (Some (lit "abcdef" ++ replicate 4 Byte.x00)) 2 4 10) /\
  [] ++ lit "abcdef" ++ [] = ([] ++ [] ++ lit "ab") ++ content (LBuffer (Some (lit "abcdef" ++ replicate 4 Byte.x00)) 2 4 10) /\
  (forall n, 0 <= n -> returns (sancus_buffer_skip (LBuffer (Some (lit "abcdef" ++ replicate 4 Byte.x00)) 2 4 10) n)) /\
  returns (sancus_buffer_rebase (LBuffer (Some (lit "abcdef" ++ replicate 4 Byte.x00)) 2 4 10)).
Proof.
  apply (buffer_is_fifo (Some (replicate 10 Byte.x00)) (LBuffer (Some (replicate 10 Byte.x00)) 0 0 10)).
  - vm_compute; discriminate.
  - by vm_compute.
  - apply (run_snoc _ (lit "abcdef") ([] ++ []) (LBuffer (Some (lit "abcdef" ++ replicate 4 Byte.x00)) 0 6 10) [] (lit "ab")).
    + apply (run_snoc _ [] [] (LBuffer (Some (replicate 10 Byte.x00)) 0 0 10) (lit "abcdef") []); [apply run_nil|].
      apply (step_read _ 0 (gives (lit "abcdef")) [] [] 0 6 _ (World [] [(SysRead 0 10, gives (lit "abcdef"))] 0)).
      * repeat split; vm_compute; intros; try discriminate; done.
      * by vm_compute.
    + apply (step_skip (LBuffer (Some (lit "abcdef" ++ replicate 4 Byte.x00)) 0 6 10) 2 4); by vm_compute.
Defined.
