(* ===== verification/Stream.v ===== *)
(** * Stream

    The buffered reader of [include/sancus/stream.h] and
    [src/sancus/stream.c].  The user's callbacks are arguments: they get the
    stream and return it, changed or not, and may do system calls. *)

From S2P Require Import Prelude Sys Fd Ev BufferLegacy.

(** [enum sancus_stream_error] @ include/sancus/stream.h:37-41. *)
Inductive sancus_stream_error :=
  | SANCUS_STREAM_READ_ERROR
  | SANCUS_STREAM_READ_EOF
  | SANCUS_STREAM_READ_FULL.

(** [struct sancus_stream] @ include/sancus/stream.h:60-65. *)
Record sancus_stream := Stream { read_watcher : sancus_ev_fd; read_buffer : lbuffer }.

(** [struct sancus_stream_settings] @ include/sancus/stream.h:46-55.  [on_read]
    sees the waiting bytes. *)
Record sancus_stream_settings := StreamSettings {
  on_error : sancus_stream -> sancus_stream_error -> io (bool * sancus_stream);
  on_close : sancus_stream -> io sancus_stream;
  on_read : sancus_stream -> list byte -> io (Z * sancus_stream)
}.

(** The bytes a callback is shown: [len] of them from [data] on. *)
Definition waiting (self : sancus_stream) : outcome (list byte) :=
  m ← deref (buf (read_buffer self));
  load m (sancus_buffer_data (read_buffer self)) (sancus_buffer_len (read_buffer self)).

Definition with_buffer (self : sancus_stream) (b : lbuffer) : sancus_stream := Stream (read_watcher self) b.

(** [sancus_stream_start] @ src/sancus/stream.c:116-121. *)
Definition sancus_stream_start (self : sancus_stream) : io unit :=
  _ ← lift (c_assert (negb (sancus_ev_is_active (read_watcher self))));
  let _ := sancus_ev_fd_start (read_watcher self) in
  mret tt.

(** [sancus_stream_stop] @ src/sancus/stream.c:123-127. *)
Definition sancus_stream_stop (self : sancus_stream) : io unit :=
  if sancus_ev_is_active (read_watcher self)
  then let _ := sancus_ev_fd_stop (read_watcher self) in mret tt
  else mret tt.

(** [sancus_stream_close] @ src/sancus/stream.c:129-137. *)
Definition sancus_stream_close (st : sancus_stream_settings) (self : sancus_stream) : io sancus_stream :=
  if (ev_fd (read_watcher self) >=? 0) && negb (sancus_ev_is_active (read_watcher self)) then
    '(_, fd) ← sancus_close2 (Some (ev_fd (read_watcher self)));
    on_close st (Stream (EvFd (default (-1) fd) (ev_cb (read_watcher self))) (read_buffer self))
  else mret self.

(** [sancus_stream_process] @ src/sancus/stream.c:101-114. *)
Definition sancus_stream_process (st : sancus_stream_settings) (self : sancus_stream) : io (Z * sancus_stream) :=
  let l := sancus_buffer_len (read_buffer self) in
  if l >? 0 then
    x ← lift (waiting self);
    '(l, self) ← on_read st self x;
    if l >? 0 then
      '(_, b) ← lift (sancus_buffer_skip (read_buffer self) l);
      mret (l, with_buffer self b)
    else mret (l, self)
  else mret (l, self).

(** [sancus_stream_init] @ src/sancus/stream.c:139-159. *)
Definition sancus_stream_init (fd : Z) (m : option (list byte)) (read_buf_size : Z) : outcome (Z * sancus_stream) :=
  _ ← c_assert (fd >=? 0);
  _ ← c_assert (negb (bool_decide (is_Some m)) || (read_buf_size >? 0));
  let '(w, _) := sancus_ev_fd_init fd SANCUS_EV_READ in
  b ← sancus_buffer_bind m read_buf_size;
  Ret (1, Stream w b).

(** [read_cb, label read_buffer_available] @ src/sancus/stream.c:55-62.
    [true]: close the stream. *)
Fixpoint make_room (fuel : nat) (st : sancus_stream_settings) (self : sancus_stream) : io (bool * sancus_stream) :=
  match fuel with
  | O => fun _ => OutOfFuel
  | S fuel =>
      if sancus_buffer_available (read_buffer self) =? 0 then
        '(close, self) ← on_error st self SANCUS_STREAM_READ_FULL;
        if negb close then make_room fuel st self else mret (true, self)
      else mret (false, self)
  end.

(** [read_cb, handing out what was read] @ src/sancus/stream.c:67-77. *)
Fixpoint hand_out (fuel : nat) (st : sancus_stream_settings) (self : sancus_stream) : io (bool * sancus_stream) :=
  match fuel with
  | O => fun _ => OutOfFuel
  | S fuel =>
      if sancus_buffer_len (read_buffer self) =? 0 then mret (false, self)
      else
        x ← lift (waiting self);
        '(l, self) ← on_read st self x;
        if l >? 0 then
          '(_, b) ← lift (sancus_buffer_skip (read_buffer self) l);
          let self := with_buffer self b in
          if negb (sancus_ev_is_active (read_watcher self)) then mret (false, self)
          else hand_out fuel st self
        else mret (negb (l =? 0), self)
  end.

(** [read_cb, label try_read] @ src/sancus/stream.c:64-87. *)
Fixpoint try_read (fuel : nat) (st : sancus_stream_settings) (self : sancus_stream) : io (bool * sancus_stream) :=
  match fuel with
  | O => fun _ => OutOfFuel
  | S fuel =>
      '(l, b) ← sancus_buffer_read (read_buffer self) (ev_fd (read_watcher self));
      let self := with_buffer self b in
      if l >? 0 then hand_out fuel st self
      else if l =? 0 then on_error st self SANCUS_STREAM_READ_EOF
      else
        e ← get_errno;
        if e =? EINTR then try_read fuel st self
        else if e =? EAGAIN then mret (false, self)
        else on_error st self SANCUS_STREAM_READ_ERROR
  end.

(** [read_cb, the read branch] @ src/sancus/stream.c:51-96. *)
Definition read_ready (fuel : nat) (st : sancus_stream_settings) (self : sancus_stream) : io sancus_stream :=
  '(close, self) ← make_room fuel st self;
  '(close, self) ← (if (close : bool) then mret (true, self) else try_read fuel st self);
  if (close : bool) then
    _ ← sancus_stream_stop self;
    sancus_stream_close st self
  else mret self.

(** [read_cb] @ src/sancus/stream.c:44-96. *)
Definition read_cb `{EvFlags} (fuel : nat) (st : sancus_stream_settings) (self : sancus_stream) (revents : Z) : io sancus_stream :=
  _ ← lift (c_assert (negb (has_event revents EV_ERROR)));
  if has_event revents EV_READ then read_ready fuel st self else mret self.

(** ** Correctness *)

Lemma waiting_ok self : wf (read_buffer self) -> 0 < len (read_buffer self) -> waiting self = Ret (content (read_buffer self)).
Proof.
  intros Hwf Hl. pose proof Hwf as (? & ? & ? & ? & Hz). unfold waiting.
  destruct (buf_some _ Hwf) as (m & Em & Hm); [lia|]. rewrite Em. simpl deref. run.
  unfold sancus_buffer_data, sancus_buffer_len. rewrite load_ok by lia. unfold content, arr. by rewrite Em.
Qed.

(** One delivery. *)
Lemma read_ready_delivers (fuel : nat) (st : sancus_stream_settings) (self : sancus_stream)
    (r : answer) (rs : list answer) (t : list event) (e : Z) (w1 : world) (b1 : lbuffer) (n : Z)
    (Hwf : wf (read_buffer self)) (Hroom : len (read_buffer self) + base (read_buffer self) < size (read_buffer self))
    (Hr : read_answer_ok (size (read_buffer self) - base (read_buffer self) - len (read_buffer self)) r) (Hpos : 0 < ret r)
    (Hread : sancus_buffer_read (read_buffer self) (ev_fd (read_watcher self)) (World (r :: rs) t e) = Ret ((ret r, b1), w1))
    (w2 : world)
    (Hon : on_read st (with_buffer self b1) (content (read_buffer self) ++ data r) w1 = Ret ((n, with_buffer self b1), w2)) :
  if 0 <=? n
  then exists b2, read_ready (S (S fuel)) st self (World (r :: rs) t e) = Ret (with_buffer self b2, w2) /\
         wf b2 /\ content b2 = drop (Z.to_nat n) (content (read_buffer self) ++ data r) /\
         size b2 = size (read_buffer self) /\ (len b2 = 0 -> base b2 = 0)
  else read_ready (S (S fuel)) st self (World (r :: rs) t e) = sancus_stream_close st (with_buffer self b1) w2.
Proof.
  destruct (read_ok (read_buffer self) (ev_fd (read_watcher self)) r rs t e Hwf Hr) as (b1' & w1' & E & Hw1 & Hc1 & Hs1 & Hb1 & _).
  unfold received in Hc1. rewrite (proj2 (Z.ltb_ge (ret r) 0)) in E, Hc1 by lia.
  rewrite Hread in E. injection E as <- <-. rewrite <- Hc1 in Hon |- *.
  unfold read_ready. cbn [make_room]. rewrite available_ok by done.
  rewrite (proj2 (Z.eqb_neq _ 0)) by lia. rewrite io_bind_ret. cbv beta iota.
  assert (len b1 <> 0) as Hl1.
  { destruct Hr as (_ & _ & _ & Hd). intros E0. apply (f_equal zlen) in Hc1. unfold content in Hc1 at 1.
    rewrite E0, sub_nil, zlen_app in Hc1 by lia. rewrite Hd in Hc1 by lia.
    pose proof (zlen_nonneg (content (read_buffer self))). rewrite (@zlen_nil byte) in Hc1. lia. }
  assert (try_read (S (S fuel)) st self (World (r :: rs) t e) =
    hand_out (S fuel) st (with_buffer self b1) w1) as Etry.
  { cbn [try_read]. rewrite (io_bind_eq _ _ _ _ _ Hread). cbv beta iota zeta.
    by rewrite Z.gtb_ltb, (proj2 (Z.ltb_lt _ _)) by done. }
  assert (exists cl s2 w2', hand_out (S fuel) st (with_buffer self b1) w1 = Ret ((cl, s2), w2') /\ w2' = w2 /\
    if 0 <=? n then cl = false /\ exists b2, s2 = with_buffer self b2 /\ wf b2 /\ content b2 = drop (Z.to_nat n) (content b1) /\
                                       size b2 = size (read_buffer self) /\ (len b2 = 0 -> base b2 = 0)
    else cl = true /\ s2 = with_buffer self b1) as (cl & s2 & w2' & Eh & -> & Hres).
  { cbn [hand_out with_buffer read_buffer]. unfold sancus_buffer_len. rewrite (proj2 (Z.eqb_neq _ 0)) by done.
    rewrite (lift_bind _ (content b1)) by (apply (waiting_ok (with_buffer self b1)); [done|destruct Hw1 as (_ & ? & _); simpl; lia]).
    rewrite (io_bind_eq _ _ _ _ _ Hon). cbv beta iota. rewrite Z.gtb_ltb. destruct (Z.ltb_spec 0 n).
    - cbn [with_buffer read_buffer]. destruct (skip_ok b1 n Hw1) as (b2 & Es & Hw2 & Hc2 & Hs2 & Ht2); [lia|].
      rewrite (lift_bind _ _ _ _ Es). cbv beta iota zeta. cbn [sancus_ev_is_active negb]. rewrite (proj2 (Z.leb_le 0 n)) by lia.
      eexists _, _, _. split_and!; [done|done|done|]. exists b2. split_and!; try done. congruence.
    - destruct (Z.eqb_spec n 0) as [->|].
      + change (0 <=? 0) with true. cbv iota.
        eexists _, _, _. split_and!; [done|done|done|]. exists b1. by split_and!.
      + rewrite (proj2 (Z.leb_gt 0 n)) by lia. by eexists _, _, _. }
  rewrite Eh in Etry. rewrite (io_bind_eq _ _ _ _ _ Etry). cbv beta iota.
  destruct (0 <=? n); [destruct Hres as (-> & b2 & -> & ?); by exists b2|by destruct Hres as (-> & ->)].
Qed.

(** When data arrives on a stream with room left, the user's [on_read] is
    called with the bytes that were waiting followed by the new ones, and
    exactly the number of bytes it says it used leave the front of the
    buffer; 0 keeps them all, a negative answer closes the stream. *)
Theorem stream_delivers_in_order (fuel : nat) (st : sancus_stream_settings) (self : sancus_stream)
    (r : answer) (rs : list answer) (t : list event) (e : Z) (w1 : world) (b1 : lbuffer) (n : Z)
    (Hwf : wf (read_buffer self)) (Hroom : len (read_buffer self) + base (read_buffer self) < size (read_buffer self))
    (Hr : read_answer_ok (size (read_buffer self) - base (read_buffer self) - len (read_buffer self)) r) (Hpos : 0 < ret r)
    (Hread : sancus_buffer_read (read_buffer self) (ev_fd (read_watcher self)) (World (r :: rs) t e) = Ret ((ret r, b1), w1))
    (w2 : world)
    (Hon : on_read st (with_buffer self b1) (content (read_buffer self) ++ data r) w1 = Ret ((n, with_buffer self b1), w2)) :
  if 0 <=? n
  then exists b2, read_ready (S (S fuel)) st self (World (r :: rs) t e) = Ret (with_buffer self b2, w2) /\
         wf b2 /\ content b2 = drop (Z.to_nat n) (content (read_buffer self) ++ data r)
  else read_ready (S (S fuel)) st self (World (r :: rs) t e) = sancus_stream_close st (with_buffer self b1) w2.
Proof.
  pose proof (read_ready_delivers fuel st self r rs t e w1 b1 n Hwf Hroom Hr Hpos Hread w2 Hon) as H.
  destruct (0 <=? n); [destruct H as (b2 & ? & ? & ? & _); by exists b2|done].
Qed.

Definition keep_all : sancus_stream_settings :=
  StreamSettings (fun s _ => mret (true, s)) (fun s => mret s) (fun s x => mret (2, s)).

(** "abc" arrives; the user takes two bytes. *)
Lemma stream_delivers_in_order_witness :
  exists b2, read_ready 2 keep_all (Stream (EvFd 3 true) (LBuffer (Some (replicate 8 Byte.x00)) 0 0 8))
      (World [gives (lit "abc")] [] 0) =
    Ret (with_buffer (Stream (EvFd 3 true) (LBuffer (Some (replicate 8 Byte.x00)) 0 0 8)) b2,
         World [] [(SysRead 3 8, gives (lit "abc"))] 0) /\
    wf b2 /\ content b2 = drop (Z.to_nat 2) ([] ++ data (gives (lit "abc"))).
Proof.
  apply (stream_delivers_in_order 0 keep_all (Stream (EvFd 3 true) (LBuffer (Some (replicate 8 Byte.x00)) 0 0 8))
    (gives (lit "abc")) [] [] 0 (World [] [(SysRead 3 8, gives (lit "abc"))] 0)
    (LBuffer (Some (lit "abc" ++ replicate 5 Byte.x00)) 0 3 8) 2).
  - repeat split; vm_compute; discriminate.
  - by vm_compute.
  - repeat split; vm_compute; intros; try discriminate; done.
  - by vm_compute.
  - by vm_compute.
  - by vm_compute.
Defined.

(** A stream is closed at most once: closing an open stream closes its
    descriptor and tells the user; closing it again does nothing. *)
Theorem stream_close_once (st : sancus_stream_settings) (self : sancus_stream) (r : answer) (rs : list answer)
    (t : list event) (e : Z) (self1 : sancus_stream) (w1 w2 : world)
    (Hfd : 0 <= ev_fd (read_watcher self)) (Hr : ret r = 0)
    (Hcl : on_close st (Stream (EvFd (-1) (ev_cb (read_watcher self))) (read_buffer self))
             (World rs (t ++ [(SysClose (ev_fd (read_watcher self)), r)]) e) = Ret (self1, w1))
    (Hkeep : ev_fd (read_watcher self1) = -1) :
  sancus_stream_close st self (World (r :: rs) t e) = Ret (self1, w1) /\
  sancus_stream_close st self1 w2 = Ret (self1, w2).
Proof.
  unfold sancus_stream_close. rewrite !Z.geb_leb, (proj2 (Z.leb_le 0 _)), Hkeep by done. split; [|done].
  cbn [sancus_ev_is_active negb andb]. 
  assert (sancus_close2 (Some (ev_fd (read_watcher self))) (World (r :: rs) t e) =
    Ret ((0, Some (-1)), World rs (t ++ [(SysClose (ev_fd (read_watcher self)), r)]) e)) as E.
  { unfold sancus_close2, sancus_close, patience. cbn [script length]. unfold mbind at 1, io_bind at 1.
    cbn [close_loop]. rewrite sys_bind. rewrite Hr. done. }
  by rewrite (io_bind_eq _ _ _ _ _ E).
Qed.

Lemma stream_close_once_witness :
  sancus_stream_close keep_all (Stream (EvFd 3 true) (LBuffer None 0 0 0)) (World [ok 0] [] 0) =
    Ret (Stream (EvFd (-1) true) (LBuffer None 0 0 0), World [] [(SysClose 3, ok 0)] 0) /\
  sancus_stream_close keep_all (Stream (EvFd (-1) true) (LBuffer None 0 0 0)) (World [] [] 0) =
    Ret (Stream (EvFd (-1) true) (LBuffer None 0 0 0), World [] [] 0).
Proof.
  apply (stream_close_once keep_all (Stream (EvFd 3 true) (LBuffer None 0 0 0)) (ok 0) [] [] 0
    (Stream (EvFd (-1) true) (LBuffer None 0 0 0)) (World [] [(SysClose 3, ok 0)] 0) (World [] [] 0));
    by vm_compute.
Defined.

(** With the event constants of [ev.h] the stream never reads. *)
Lemma read_cb_never_reads fuel st self revents :
  has_event revents EV_ERROR = false -> read_cb fuel st self revents = fun w => Ret (self, w).
Proof. intros H. unfold read_cb. by rewrite H, no_read_event. Qed.
