(* ===== verification/StreamRun.v ===== *)
(** * StreamRun

    Every branch of a stream's read event, and whole runs of events: what
    [Stream] does for one delivery, composed with the queue of [BufferLegacy].
    They hold for all event numbers by which readability can be told; with the
    numbers of ev.h [read_cb] never gets here.  The watchers are the ones of
    ev.h, which are never active, so that [on_read] is called once per event
    (with a library that keeps them active, the loop of [stream.c:67-77]
    would go on until the callback takes nothing more). *)

From S2P Require Import Prelude Sys Fd Ev BufferLegacy Stream.

(** [sancus_stream_fd] @ include/sancus/stream.h:93-96. *)
Definition sancus_stream_fd (self : sancus_stream) : Z := ev_fd (read_watcher self).

(** [sancus_stream_reset_readbuffer] @ include/sancus/stream.h:110-110. *)
Definition sancus_stream_reset_readbuffer (self : sancus_stream) : sancus_stream :=
  with_buffer self (sancus_buffer_reset (read_buffer self)).

(** ** One event *)

(** Stop and close, if a callback asked for it. *)
Definition close_if (st : sancus_stream_settings) (m : io (bool * sancus_stream)) : io sancus_stream :=
  '(close, self) ← m;
  if (close : bool) then _ ← sancus_stream_stop self; sancus_stream_close st self else mret self.

Lemma close_if_eq st m c self w w' :
  m w = Ret ((c, self), w') ->
  close_if st m w = if (c : bool) then sancus_stream_close st self w' else Ret (self, w').
Proof. intros E. unfold close_if. rewrite (io_bind_eq _ _ _ _ _ E). by destruct c. Qed.

(** One answer that is no [EINTR]. *)
Lemma read_once fd count r rs t e :
  is_eintr r = false ->
  sancus_read fd count (World (r :: rs) t e) =
    Ret (if ret r <? 0 then (- err r, []) else (ret r, data r),
         World rs (t ++ [(SysRead fd count, r)]) (if ret r <? 0 then err r else e)).
Proof.
  intros Hr. unfold sancus_read, patience. cbn [script length read_loop]. io_run.
  rewrite Z.geb_leb. unfold is_eintr in Hr.
  destruct (Z.leb_spec 0 (ret r)), (Z.ltb_spec (ret r) 0); try lia; io_run; [done|].
  simpl in Hr. rewrite Hr. by io_run.
Qed.

(** A read that brings nothing leaves the buffer as it was. *)
Lemma read_nothing b fd r rs t e :
  wf b -> is_eintr r = false -> ret r <= 0 -> answer_ok r -> (ret r = 0 -> data r = []) ->
  sancus_buffer_read b fd (World (r :: rs) t e) =
    Ret ((if ret r <? 0 then - err r else 0, b),
         World rs (t ++ [(SysRead fd (size b - base b - len b), r)]) (if ret r <? 0 then err r else e)).
Proof.
  intros Hwf Hr Hle Hok Hd. unfold sancus_buffer_read. rewrite available_ok by done.
  rewrite (io_bind_eq _ _ _ _ _ (read_once _ _ _ _ _ _ Hr)). destruct b as [m bs ln sz]. cbn [buf base len size].
  destruct (Z.ltb_spec (ret r) 0) as [Hn|Hn]; cbv beta iota.
  - rewrite (lift_bind _ m) by done. cbv zeta. specialize (Hok Hn).
    rewrite Z.gtb_ltb, (proj2 (Z.ltb_ge _ _)) by lia. done.
  - assert (ret r = 0) as E by lia. rewrite E, (Hd E). by rewrite (lift_bind _ m) by done.
Qed.

(** A read event runs the read branch. *)
Lemma read_cb_readable {F : EvFlags} fuel st self revents w :
  readable revents -> read_cb fuel st self revents w = read_ready fuel st self w.
Proof. intros [He Hr]. unfold read_cb. by rewrite He, Hr, (lift_bind _ tt) by done. Qed.

(** No room for more. *)
Definition full (self : sancus_stream) : bool := sancus_buffer_available (read_buffer self) =? 0.

(** [refused st k x y]: from [x] on, the user is told [k] times that the buffer
    is full, and each time does not ask to close; then things are as in [y]. *)
Inductive refused (st : sancus_stream_settings) : nat -> sancus_stream * world -> sancus_stream * world -> Prop :=
  | refused_none x : refused st 0 x x
  | refused_more k self w self1 w1 y :
      full self = true -> on_error st self SANCUS_STREAM_READ_FULL w = Ret ((false, self1), w1) ->
      refused st k (self1, w1) y -> refused st (S k) (self, w) y.

Lemma make_room_refused st k x y fuel :
  refused st k x y -> make_room (k + fuel) st x.1 x.2 = make_room fuel st y.1 y.2.
Proof.
  induction 1 as [|k self w self1 w1 y Hf Hon _ IH]; [done|]. cbn [fst snd] in *. rewrite <- IH.
  cbn [Nat.add make_room]. unfold full in Hf. rewrite Hf. by rewrite (io_bind_eq _ _ _ _ _ Hon).
Qed.

(** A full buffer: asked until there is room, or the user wants to close. *)
Lemma full_branches (fuel k : nat) (st : sancus_stream_settings) (self self1 : sancus_stream) (w0 w1 : world) :
  refused st k (self, w0) (self1, w1) ->
  ((k <= fuel)%nat -> full self1 = true -> forall self2 w2,
     on_error st self1 SANCUS_STREAM_READ_FULL w1 = Ret ((true, self2), w2) ->
     read_ready (S fuel) st self w0 = sancus_stream_close st self2 w2) /\
  ((k <= fuel)%nat -> full self1 = false -> read_ready (S fuel) st self w0 = read_ready (S fuel) st self1 w1) /\
  ((fuel < k)%nat -> read_ready (S fuel) st self w0 = OutOfFuel).
Proof.
  intros Hre. pose proof (fun f => make_room_refused st k _ _ f Hre) as Hmr. cbn [fst snd] in Hmr.
  unfold full. split_and!.
  - intros Hk Hf self2 w2 Hon. unfold read_ready.
    assert (make_room (S fuel) st self w0 = Ret ((true, self2), w2)) as E.
    { replace (S fuel) with (k + S (fuel - k))%nat by lia. rewrite Hmr. cbn [make_room].
      by rewrite Hf, (io_bind_eq _ _ _ _ _ Hon). }
    rewrite (io_bind_eq _ _ _ _ _ E). cbv beta iota. by rewrite io_bind_ret.
  - intros Hk Hf. unfold read_ready.
    assert (forall f, make_room (S f) st self1 w1 = Ret ((false, self1), w1)) as E1 by (intros f; cbn [make_room]; by rewrite Hf).
    assert (make_room (S fuel) st self w0 = Ret ((false, self1), w1)) as E
      by (replace (S fuel) with (k + S (fuel - k))%nat by lia; by rewrite Hmr).
    by rewrite (io_bind_eq _ _ _ _ _ E), (io_bind_eq _ _ _ _ _ (E1 fuel)).
  - intros Hk. unfold read_ready.
    assert (make_room (S fuel) st self w0 = OutOfFuel) as E; [|unfold mbind at 1, io_bind at 1; by rewrite E].
    clear Hmr. revert fuel Hk. remember (self, w0) as x eqn:Ex. remember (self1, w1) as y eqn:Ey.
    revert self w0 Ex. induction Hre as [|k self' w self2 w2 y Hf Hon _ IH]; intros self w0 Ex fuel Hk; [lia|].
    injection Ex as -> ->. cbn [make_room]. unfold full in Hf. rewrite Hf, (io_bind_eq _ _ _ _ _ Hon). cbn [negb].
    destruct fuel as [|fuel]; [done|]. by apply (IH Ey self2 w2 eq_refl); lia.
Qed.

(** The branches of an event without data, when there is room. *)
Lemma event_branches (fuel : nat) (st : sancus_stream_settings) (self : sancus_stream)
    (r : answer) (rs : list answer) (t : list event) (e : Z)
    (Hwf : wf (read_buffer self)) (Hr : is_eintr r = false) (Hle : ret r <= 0) (Hok : answer_ok r)
    (Hd : ret r = 0 -> data r = []) :
  let b := read_buffer self in
  let w' := World rs (t ++ [(SysRead (sancus_stream_fd self) (size b - base b - len b), r)])
                  (if ret r <? 0 then err r else e) in
  len b + base b < size b ->
  read_ready (S fuel) st self (World (r :: rs) t e) =
    if ret r =? 0 then close_if st (on_error st self SANCUS_STREAM_READ_EOF) w'
    else if err r =? EAGAIN then Ret (self, w')
    else close_if st (on_error st self SANCUS_STREAM_READ_ERROR) w'.
Proof.
  intros b w' Hroom. unfold read_ready. cbn [make_room]. rewrite available_ok by done.
  rewrite (proj2 (Z.eqb_neq _ 0)) by (subst b; lia). rewrite io_bind_ret. cbv beta iota.
  pose proof (read_nothing b (sancus_stream_fd self) r rs t e Hwf Hr Hle Hok Hd) as E. fold w' in E.
  assert (Eb : with_buffer self b = self) by (by destruct self).
  assert (try_read (S fuel) st self (World (r :: rs) t e) =
    if ret r =? 0 then on_error st self SANCUS_STREAM_READ_EOF w'
    else if err r =? EAGAIN then Ret ((false, self), w')
    else on_error st self SANCUS_STREAM_READ_ERROR w') as Et.
  { cbn [try_read]. change (ev_fd (read_watcher self)) with (sancus_stream_fd self). fold b.
    rewrite (io_bind_eq _ _ _ _ _ E). cbv beta iota zeta. rewrite Eb.
    destruct (Z.eqb_spec (ret r) 0) as [E0|E0].
    - by rewrite E0.
    - unfold w'. rewrite (proj2 (Z.ltb_lt (ret r) 0)) by lia. specialize (Hok ltac:(lia)).
      rewrite Z.gtb_ltb, (proj2 (Z.ltb_ge _ _)), (proj2 (Z.eqb_neq _ 0)) by lia.
      unfold is_eintr in Hr. rewrite (proj2 (Z.ltb_lt (ret r) 0)) in Hr by lia. cbn [andb] in Hr.
      rewrite get_errno_bind. cbn [errno]. rewrite Hr. by destruct (err r =? EAGAIN). }
  unfold close_if, mbind, io_bind. rewrite Et.
  destruct (ret r =? 0); [done|]. by destruct (err r =? EAGAIN).
Qed.

(** C28. What a stream does with a read event that brings no data, branch by
    branch.  As long as there is no room the user is told that the buffer is
    full: an answer that asks to close stops and closes the stream; after one
    that does not, the event goes on as soon as there is room, as if there had
    been room from the start, and otherwise the user is told again, without
    end if neither happens ([fuel] bounds how often).  With room, at the end of
    the file and at an error other than [EINTR] and [EAGAIN], the user is told
    which, and the stream is stopped and closed exactly if the callback asks
    for it; [EAGAIN] changes nothing.  ([EINTR] is never seen: the read was
    repeated.) *)
Theorem stream_event_branches {F : EvFlags} (revents : Z) (fuel : nat) (st : sancus_stream_settings) (self : sancus_stream)
    (Hrev : readable revents) :
  (forall k self1 w0 w1, refused st k (self, w0) (self1, w1) ->
     ((k <= fuel)%nat -> full self1 = true -> forall self2 w2,
        on_error st self1 SANCUS_STREAM_READ_FULL w1 = Ret ((true, self2), w2) ->
        read_cb (S fuel) st self revents w0 = sancus_stream_close st self2 w2) /\
     ((k <= fuel)%nat -> full self1 = false ->
        read_cb (S fuel) st self revents w0 = read_cb (S fuel) st self1 revents w1) /\
     ((fuel < k)%nat -> read_cb (S fuel) st self revents w0 = OutOfFuel)) /\
  (forall r rs t e, wf (read_buffer self) -> is_eintr r = false -> ret r <= 0 -> answer_ok r -> (ret r = 0 -> data r = []) ->
     let b := read_buffer self in
     let w' := World rs (t ++ [(SysRead (sancus_stream_fd self) (size b - base b - len b), r)])
                     (if ret r <? 0 then err r else e) in
     len b + base b < size b ->
     read_cb (S fuel) st self revents (World (r :: rs) t e) =
       if ret r =? 0 then close_if st (on_error st self SANCUS_STREAM_READ_EOF) w'
       else if err r =? EAGAIN then Ret (self, w')
       else close_if st (on_error st self SANCUS_STREAM_READ_ERROR) w').
Proof.
  split.
  - intros k self1 w0 w1 Hre. rewrite !read_cb_readable by done. by apply full_branches.
  - intros r rs t e Hwf Hr Hle Hok Hd b w' Hroom. rewrite read_cb_readable by done. by apply event_branches.
Qed.

(** A client that forgets what is in a buffer that is full, so that the event
    goes on, and asks to close at the end of the file. *)
Definition forgetful : sancus_stream_settings :=
  StreamSettings (fun s x => match x with
                             | SANCUS_STREAM_READ_FULL => mret (false, sancus_stream_reset_readbuffer s)
                             | _ => mret (true, s)
                             end)
    (fun s => mret s) (fun s x => mret (0, s)).

Lemma stream_event_branches_witness :
  let self := Stream (EvFd 3 true) (LBuffer (Some (replicate 8 Byte.x61)) 0 8 8) in
  let self1 := Stream (EvFd 3 true) (LBuffer (Some (replicate 8 Byte.x61)) 0 0 8) in
  read_cb (H := bits_flags) 2 forgetful self 1 (World [ok 0] [] 7) = read_cb (H := bits_flags) 2 forgetful self1 1 (World [ok 0] [] 7) /\
  read_cb (H := bits_flags) 2 forgetful self1 1 (World [ok 0] [] 7) =
    close_if forgetful (on_error forgetful self1 SANCUS_STREAM_READ_EOF) (World [] [(SysRead 3 8, ok 0)] 7).
Proof.
  intros self self1. split.
  - destruct (stream_event_branches (F := bits_flags) 1 1 forgetful self) as [H _]; [by split|].
    destruct (H 1%nat self1 (World [ok 0] [] 7) (World [ok 0] [] 7)) as (_ & H1 & _); [|apply H1; [lia|done]].
    eapply refused_more; [done|reflexivity|]. apply refused_none.
  - destruct (stream_event_branches (F := bits_flags) 1 1 forgetful self1) as [_ H]; [by split|].
    apply (H (ok 0) [] [] 7); repeat split; vm_compute; intros; try discriminate; done.
Defined.

(** ** Runs *)

Section Consumer.
(** A client that looks at the waiting bytes and says how many it used. *)
Context (st : sancus_stream_settings) (use : list byte -> Z).
Context (use_range : forall x, 0 <= use x <= zlen x).
Context (on_read_use : forall s x w, on_read st s x w = Ret ((use x, s), w)).

(** The reference: a queue to which each delivery is added and from which the
    client takes. *)
Fixpoint drain (q : list byte) (cs : list (list byte)) : list byte * list byte :=
  match cs with
  | [] => ([], q)
  | c :: cs =>
      let n := Z.to_nat (use (q ++ c)) in
      let '(taken, rest) := drain (drop n (q ++ c)) cs in
      (take n (q ++ c) ++ taken, rest)
  end.

Lemma drain_conserves q cs : (drain q cs).1 ++ (drain q cs).2 = q ++ concat cs.
Proof.
  revert q. induction cs as [|c cs IH]; intros q; cbn [drain concat]; [by rewrite app_nil_r|].
  specialize (IH (drop (Z.to_nat (use (q ++ c))) (q ++ c))).
  destruct (drain _ cs) as [taken rest]. cbn [fst snd] in *.
  by rewrite <- app_assoc, IH, app_assoc, take_drop, <- app_assoc.
Qed.

Definition room (self : sancus_stream) : Z :=
  size (read_buffer self) - base (read_buffer self) - len (read_buffer self).

(** Read events for which there was room, and what they brought. *)
Inductive arrivals {F : EvFlags} : sancus_stream * world -> list (list byte) -> sancus_stream * world -> Prop :=
  | arrive_nil x : arrivals x [] x
  | arrive_data revents fuel self r rs t e self1 w1 cs y :
      readable revents -> 0 < room self -> read_answer_ok (room self) r -> 0 < ret r ->
      read_cb (S (S fuel)) st self revents (World (r :: rs) t e) = Ret (self1, w1) ->
      arrivals (self1, w1) cs y -> arrivals (self, World (r :: rs) t e) (data r :: cs) y
  | arrive_again revents fuel self r rs t e self1 w1 cs y :
      readable revents -> 0 < room self -> ret r < 0 -> err r = EAGAIN ->
      read_cb (S fuel) st self revents (World (r :: rs) t e) = Ret (self1, w1) ->
      arrivals (self1, w1) cs y -> arrivals (self, World (r :: rs) t e) cs y.

(** One event returns and does what the queue does. *)
Lemma arrive_one fuel self r rs t e :
  wf (read_buffer self) -> 0 < room self -> read_answer_ok (room self) r -> 0 < ret r ->
  let x := content (read_buffer self) ++ data r in
  exists b2 w2, read_ready (S (S fuel)) st self (World (r :: rs) t e) = Ret (with_buffer self b2, w2) /\
    wf b2 /\ content b2 = drop (Z.to_nat (use x)) x /\ script w2 = rs /\
    size b2 = size (read_buffer self) /\ (len b2 = 0 -> base b2 = 0).
Proof.
  intros Hwf Hroom Hr Hpos x. unfold room in *.
  destruct (read_ok (read_buffer self) (ev_fd (read_watcher self)) r rs t e Hwf Hr)
    as (b1 & w1 & E & _ & _ & _ & _ & Hs).
  rewrite (proj2 (Z.ltb_ge (ret r) 0)) in E by lia.
  pose proof (read_ready_delivers fuel st self r rs t e w1 b1 (use x) Hwf ltac:(lia) Hr Hpos E w1
    (on_read_use _ _ _)) as H.
  rewrite (proj2 (Z.leb_le 0 (use x))) in H by apply use_range.
  destruct H as (b2 & H & Hw & Hc & ?). by exists b2, w1.
Qed.

Lemma arrivals_drain {F : EvFlags} x cs y :
  arrivals x cs y -> wf (read_buffer x.1) ->
  wf (read_buffer y.1) /\ content (read_buffer y.1) = (drain (content (read_buffer x.1)) cs).2.
Proof.
  induction 1 as [x|revents fuel self r rs t e self1 w1 cs y Hrev Hroom Hr Hpos E _ IH
                  |revents fuel self r rs t e self1 w1 cs y Hrev Hroom Hneg He E _ IH]; intros Hwf; cbn [fst snd] in *;
    [done|rewrite read_cb_readable in E by done..].
  - destruct (arrive_one fuel self r rs t e Hwf Hroom Hr Hpos) as (b2 & w2 & E' & Hw & Hc & _).
    rewrite E' in E. injection E as <- <-. destruct (IH Hw) as [Hwy Hy]. split; [done|].
    cbn [read_buffer with_buffer] in Hy. rewrite Hy, Hc. cbn [drain].
    destruct (drain (drop _ (content (read_buffer self) ++ data r)) cs) as [taken rest]. reflexivity.
  - assert (E' : read_ready (S fuel) st self (World (r :: rs) t e) = Ret (self,
      World rs (t ++ [(SysRead (sancus_stream_fd self) (room self), r)]) (err r))).
    { assert (Hne : is_eintr r = false) by (unfold is_eintr; by rewrite He, andb_false_r).
      unfold room in *.
      pose proof (event_branches fuel st self r rs t e Hwf Hne ltac:(lia) ltac:(intros _; by rewrite He)
        ltac:(lia)) as Hb.
      rewrite Hb by lia. rewrite (proj2 (Z.eqb_neq (ret r) 0)), (proj2 (Z.ltb_lt (ret r) 0)), He by lia.
      done. }
    rewrite E' in E. injection E as <- <-. by apply IH.
Qed.
End Consumer.

(** C10. A stream is a queue between the kernel and its client.  Over any run
    of read events for which the buffer had room, with [EAGAIN] in between, the
    bytes left in the buffer are those that a plain queue holds after the same
    deliveries, however the window moved; what the client took before, followed
    by them, is everything the kernel delivered, in order; and one more event
    with room returns.  The client is any function of the waiting bytes that
    says how many it used; the watcher is the one of ev.h, which is never
    active, so that it is asked once per event. *)
Theorem stream_run_equals_queue {F : EvFlags} (st : sancus_stream_settings) (use : list byte -> Z)
    (Hrange : forall x, 0 <= use x <= zlen x)
    (Huse : forall s x w, on_read st s x w = Ret ((use x, s), w))
    (self self' : sancus_stream) (w w' : world) (cs : list (list byte))
    (Hwf : wf (read_buffer self)) (Hrun : arrivals st (self, w) cs (self', w')) :
  let '(taken, rest) := drain use (content (read_buffer self)) cs in
  content (read_buffer self') = rest /\
  taken ++ rest = content (read_buffer self) ++ concat cs /\
  (forall revents fuel r rs t e, readable revents -> 0 < room self' -> read_answer_ok (room self') r ->
     0 < ret r -> returns (read_cb (S (S fuel)) st self' revents (World (r :: rs) t e))).
Proof.
  destruct (arrivals_drain st use Hrange Huse _ _ _ Hrun Hwf) as [Hw Hc].
  pose proof (drain_conserves use (content (read_buffer self)) cs) as Hd. cbn [fst] in *.
  destruct (drain use _ cs) as [taken rest]. split_and!; [done|done|].
  intros revents fuel r rs t e Hrev Hroom Hr Hpos. rewrite read_cb_readable by done.
  destruct (arrive_one st use Hrange Huse fuel self' r rs t e Hw Hroom Hr Hpos) as (b2 & w2 & E & _).
  by eexists.
Qed.

(** A client that takes two bytes at a time. *)
Definition by_two : sancus_stream_settings :=
  StreamSettings (fun s _ => mret (true, s)) (fun s => mret s) (fun s x => mret (Z.min 2 (zlen x), s)).

Lemma stream_run_equals_queue_witness :
  let self := Stream (EvFd 3 true) (LBuffer (Some (replicate 8 Byte.x00)) 0 0 8) in
  let self' := Stream (EvFd 3 true) (LBuffer (Some (lit "abcdef" ++ replicate 2 Byte.x00)) 4 2 8) in
  let '(taken, rest) := drain (fun x => Z.min 2 (zlen x)) (content (read_buffer self)) [lit "abc"; lit "def"] in
  content (read_buffer self') = rest /\
  taken ++ rest = content (read_buffer self) ++ concat [lit "abc"; lit "def"] /\
  (forall revents fuel r rs t e, @readable bits_flags revents -> 0 < room self' -> read_answer_ok (room self') r ->
     0 < ret r -> returns (read_cb (H := bits_flags) (S (S fuel)) by_two self' revents (World (r :: rs) t e))).
Proof.
  apply (stream_run_equals_queue (F := bits_flags) by_two (fun x => Z.min 2 (zlen x))
    ltac:(intros x; pose proof (zlen_nonneg x); lia) ltac:(done)
    (Stream (EvFd 3 true) (LBuffer (Some (replicate 8 Byte.x00)) 0 0 8))
    (Stream (EvFd 3 true) (LBuffer (Some (lit "abcdef" ++ replicate 2 Byte.x00)) 4 2 8))
    (World [gives (lit "abc"); fails EAGAIN; gives (lit "def")] [] 0)
    (World [] [(SysRead 3 8, gives (lit "abc")); (SysRead 3 5, fails EAGAIN); (SysRead 3 5, gives (lit "def"))] EAGAIN)).
  - repeat split; vm_compute; discriminate.
  - eapply (arrive_data _ 1 0); [done|by vm_compute|repeat split; vm_compute; intros; try discriminate; done|by vm_compute|by vm_compute|].
    eapply (arrive_again _ 1 0); [done|by vm_compute|by vm_compute|by vm_compute|by vm_compute|].
    eapply (arrive_data _ 1 0); [done|by vm_compute|repeat split; vm_compute; intros; try discriminate; done|by vm_compute|by vm_compute|].
    apply arrive_nil.
Defined.

(** The buffer may be reported full although its front is free: eight bytes
    arrive, two are used, two more arrive.  Nothing moves the window before the
    next read. *)
Lemma full_with_space_in_front :
  exists b, wf b /\ base b = 2 /\ content b = lit "cdefghij" /\
    run_steps (LBuffer (Some (replicate 10 Byte.x00)) 0 0 10) (lit "abcdefghij") (lit "ab") b /\
    forall fuel w, read_ready (S fuel) keep_all (Stream (EvFd 3 true) b) w =
      sancus_stream_close keep_all (Stream (EvFd 3 true) b) w.
Proof.
  exists (LBuffer (Some (lit "abcdefghij")) 2 8 10). split_and!; [repeat split; vm_compute; discriminate|done|done| |].
  - eapply (run_snoc _ (lit "abcdefgh" ++ []) (([] ++ []) ++ lit "ab") (LBuffer (Some (lit "abcdefgh" ++ replicate 2 Byte.x00)) 2 6 10) (lit "ij") []).
    + eapply (run_snoc _ ([] ++ lit "abcdefgh") ([] ++ []) (LBuffer (Some (lit "abcdefgh" ++ replicate 2 Byte.x00)) 0 8 10) [] (lit "ab")).
      * eapply run_snoc; [apply run_nil|].
        apply (step_read _ 3 (gives (lit "abcdefgh")) [] [] 0 8 _ (World [] [(SysRead 3 10, gives (lit "abcdefgh"))] 0));
          [repeat split; vm_compute; intros; try discriminate; done|by vm_compute].
      * apply (step_skip (LBuffer (Some (lit "abcdefgh" ++ replicate 2 Byte.x00)) 0 8 10) 2 2); by vm_compute.
    + apply (step_read _ 3 (gives (lit "ij")) [] [] 0 2 _ (World [] [(SysRead 3 2, gives (lit "ij"))] 0));
        [repeat split; vm_compute; intros; try discriminate; done|by vm_compute].
  - done.
Qed.
