(* ===== verification/StreamLife.v ===== *)
(** * StreamLife

    The life of a stream of [Stream]: the program starts, stops, closes and
    resets it and hands out what is waiting, the event loop calls [read_cb]
    while it is open, the callbacks do as they please, and in between the
    program does what it likes. *)

From stdpp Require Import gmap.
From S2P Require Import Prelude Sys Live Fd Ev BufferLegacy Stream StreamRun.
#[local] Open Scope Z_scope.

#[local] Abbreviation keeps := (keeps sancus_stream_fd).

(** What [read] promises: no more bytes than were asked for, and as many as it
    says. *)
Definition read_event_ok (ev : event) : Prop :=
  match ev with
  | (SysRead _ n, r) => answer_ok r /\ ret r <= n /\ (0 <= ret r -> zlen (data r) = ret r)
  | _ => True
  end.

(** A stretch in which the descriptor stays or is given back for good, and the
    buffer stays inside its array if the kernel's reads do. *)
Definition sane (s s' : sancus_stream) (w w' : world) : Prop :=
  exists evs, trace w' = trace w ++ evs /\ keeps s s' evs /\
    (Forall read_event_ok evs -> wf (read_buffer s) ->
       wf (read_buffer s') /\ size (read_buffer s') = size (read_buffer s)).

Class StreamPolite (st : sancus_stream_settings) : Prop := {
  polite_stream_error : forall s x w b s' w', on_error st s x w = Ret ((b, s'), w') -> sane s s' w w';
  polite_stream_close : forall s w s' w', on_close st s w = Ret (s', w') -> sane s s' w w';
  polite_stream_read : forall s x w n s' w', on_read st s x w = Ret ((n, s'), w') -> sane s s' w w'
}.

(** Nothing but the buffer changes. *)
Lemma sane_buffer s b w :
  (wf (read_buffer s) -> wf b /\ size b = size (read_buffer s)) -> sane s (with_buffer s b) w w.
Proof.
  intros H. exists []. rewrite app_nil_r. split; [done|]. split; [|auto].
  split; [done|]. left. split; [done|apply not_elem_of_nil].
Qed.

Lemma sane_refl s w : sane s s w w.
Proof. destruct s as [x b]. by apply (sane_buffer (Stream x b) b). Qed.

Lemma sane_trans s1 s2 s3 w1 w2 w3 : sane s1 s2 w1 w2 -> sane s2 s3 w2 w3 -> sane s1 s3 w1 w3.
Proof.
  intros (evs1 & E1 & K1 & B1) (evs2 & E2 & K2 & B2). exists (evs1 ++ evs2).
  split; [by rewrite E2, E1, app_assoc|]. split; [by eapply keeps_trans|].
  intros [F1 F2]%Forall_app Hw. destruct (B1 F1 Hw) as [Hw2 Hs2]. destruct (B2 F2 Hw2) as [Hw3 Hs3].
  split; [done|congruence].
Qed.

(** ** The pieces of the code *)

Lemma read_loop_inv fuel fd count w l x w' :
  read_loop fuel fd count w = Ret ((l, x), w') ->
  exists evs, trace w' = trace w ++ evs /\ opened evs = [] /\ closes evs = [] /\
    (Forall read_event_ok evs -> (l < 0 /\ x = []) \/ (0 <= l <= count /\ zlen x = l)).
Proof.
  revert w. induction fuel as [|fuel IH]; intros w H; [done|]. cbn [read_loop] in H.
  apply sys_inv in H as (r & rs & _ & H). rewrite Z.geb_leb in H.
  destruct (Z.leb_spec 0 (ret r)) as [Hr|Hr].
  - injection H as <- <- <-. exists [(SysRead fd count, r)]. split_and!; [done|done|done|].
    intros [(_ & Hle & Hd) _]%Forall_cons. right. auto.
  - rewrite get_errno_bind in H. cbn [errno] in H. rewrite (proj2 (Z.ltb_lt (ret r) 0)) in H by lia.
    destruct (negb (err r =? EINTR)).
    + injection H as <- <- <-. exists [(SysRead fd count, r)]. split_and!; [done|done|done|].
      intros [(Hok & _) _]%Forall_cons. left. specialize (Hok Hr). split; [lia|done].
    + apply IH in H as (evs & E & Ho & Hc & Hl). exists ((SysRead fd count, r) :: evs).
      split_and!; [by rewrite E; cbn; rewrite <- app_assoc|done|done|]. intros [_ Hf]%Forall_cons. auto.
Qed.

Lemma buffer_read_sane s fd w l b w' :
  sancus_buffer_read (read_buffer s) fd w = Ret ((l, b), w') -> sane s (with_buffer s b) w w'.
Proof.
  intros ([n x] & w1 & Hr & H)%io_bind_inv. apply read_loop_inv in Hr as (evs & E & Ho & Hc & Hn).
  apply lift_inv in H as (m & Hm & H). cbv zeta in H.
  assert (w' = w1 /\ b = LBuffer m (base (read_buffer s)) (if n >? 0 then u64 (len (read_buffer s) + u32 n) else len (read_buffer s)) (size (read_buffer s)))
    as [-> ->] by (destruct (n >? 0); by injection H as _ <- <-). clear H.
  exists evs. split; [done|]. split; [exact (keeps_nothing _ s evs Ho Hc)|].
  intros Hf Hwf. pose proof (available_ok _ Hwf) as Ha. rewrite Ha in Hn. specialize (Hn Hf).
  destruct Hwf as (Hb & Hl & Hbl & Hs & Hz). cbn [with_buffer read_buffer size]. split; [|done].
  unfold wf, arr. cbn [buf base len size].
  assert (zlen (default [] m) = size (read_buffer s)) as Hm'.
  { destruct x as [|c x]; [injection Hm as <-; exact Hz|]. apply bind_ret_inv in Hm as (m0 & Hm0 & Hm).
    apply bind_ret_inv in Hm as (m1 & Hm1 & Hm). injection Hm as <-. apply store_ret_inv in Hm1 as (H1 & H2 & ->).
    unfold arr in Hz. destruct (buf (read_buffer s)); [|done]. injection Hm0 as ->. simpl in *. by rewrite zlen_splice. }
  rewrite Z.gtb_ltb. destruct (Z.ltb_spec 0 n).
  - destruct Hn as [[? _]|[Hn _]]; [lia|]. rewrite (uwrap_id 32), uwrap_id by bounds. split_and!; try done; lia.
  - split_and!; done.
Qed.

Section Life.
Context {F : EvFlags} (st : sancus_stream_settings) `{!StreamPolite st}.

Lemma skip_sane s n x b w : 0 < n -> sancus_buffer_skip (read_buffer s) n = Ret (x, b) -> sane s (with_buffer s b) w w.
Proof.
  intros Hn H. apply sane_buffer. intros Hwf.
  destruct (skip_ok (read_buffer s) n Hwf ltac:(lia)) as (b' & E & Hw & _ & Hs & _).
  rewrite E in H. by injection H as _ <-.
Qed.

Lemma make_room_sane fuel s w c s' w' : make_room fuel st s w = Ret ((c, s'), w') -> sane s s' w w'.
Proof.
  revert s w. induction fuel as [|fuel IH]; intros s w H; [done|]. cbn [make_room] in H.
  destruct (_ =? 0); [|injection H as _ <- <-; apply sane_refl].
  apply io_bind_inv in H as ([cl s1] & w1 & He & H). apply polite_stream_error in He.
  eapply sane_trans; [exact He|]. destruct cl; cbn [negb] in H; [injection H as _ <- <-; apply sane_refl|by eapply IH].
Qed.

Lemma hand_out_sane fuel s w c s' w' : hand_out fuel st s w = Ret ((c, s'), w') -> sane s s' w w'.
Proof.
  revert s w. induction fuel as [|fuel IH]; intros s w H; [done|]. cbn [hand_out] in H.
  destruct (_ =? 0); [injection H as _ <- <-; apply sane_refl|]. apply lift_inv in H as (x & _ & H).
  apply io_bind_inv in H as ([n s1] & w1 & Hr & H). apply polite_stream_read in Hr.
  eapply sane_trans; [exact Hr|]. rewrite Z.gtb_ltb in H. destruct (Z.ltb_spec 0 n); [|injection H as _ <- <-; apply sane_refl].
  apply lift_inv in H as ([y b] & Hs & H). cbv zeta in H.
  eapply sane_trans; [by eapply skip_sane|].
  destruct (negb _); [injection H as _ <- <-; apply sane_refl|by eapply IH].
Qed.

Lemma try_read_sane fuel s w c s' w' : try_read fuel st s w = Ret ((c, s'), w') -> sane s s' w w'.
Proof.
  revert s w. induction fuel as [|fuel IH]; intros s w H; [done|]. cbn [try_read] in H.
  apply io_bind_inv in H as ([l b] & w1 & Hr & H). apply buffer_read_sane in Hr. cbv zeta in H.
  eapply sane_trans; [exact Hr|].
  destruct (l >? 0); [by eapply hand_out_sane|]. destruct (l =? 0); [by eapply polite_stream_error|].
  rewrite get_errno_bind in H. destruct (_ =? EINTR); [by eapply IH|].
  destruct (_ =? EAGAIN); [injection H as _ <- <-; apply sane_refl|by eapply polite_stream_error].
Qed.

Lemma stream_close_sane s w s' w' : sancus_stream_close st s w = Ret (s', w') -> sane s s' w w'.
Proof.
  unfold sancus_stream_close. intros H. destruct (_ && _); [|injection H as <- <-; apply sane_refl].
  apply io_bind_inv in H as ([rc fd] & w1 & Hc & H). apply sancus_close2_inv in Hc as (Ef & evs & E & Ho & Hc).
  cbn in Ef. subst fd. apply polite_stream_close in H. eapply sane_trans; [|exact H].
  exists evs. split; [done|]. split; [|auto]. split; [done|]. right. split; [cbn; lia|by apply Hc].
Qed.

Lemma read_cb_sane fuel s revents w s' w' : read_cb fuel st s revents w = Ret (s', w') -> sane s s' w w'.
Proof.
  intros ([] & _ & H)%lift_inv. destruct (has_event revents EV_READ); [|injection H as <- <-; apply sane_refl].
  apply io_bind_inv in H as ([c1 s1] & w1 & Hm & H). apply make_room_sane in Hm. eapply sane_trans; [exact Hm|].
  apply io_bind_inv in H as ([c2 s2] & w2 & Ht & H).
  assert (sane s1 s2 w1 w2) as Ht' by (destruct c1; [injection Ht as _ <- <-; apply sane_refl|by eapply try_read_sane]).
  eapply sane_trans; [exact Ht'|]. destruct c2; [|injection H as <- <-; apply sane_refl].
  apply io_bind_inv in H as ([] & w3 & Hs & H). injection Hs as <-. by eapply stream_close_sane.
Qed.

Lemma process_sane s w n s' w' : sancus_stream_process st s w = Ret ((n, s'), w') -> sane s s' w w'.
Proof.
  unfold sancus_stream_process. cbv zeta. destruct (_ >? 0); [|intros H; injection H as _ <- <-; apply sane_refl].
  intros (x & _ & H)%lift_inv. apply io_bind_inv in H as ([l s1] & w1 & Hr & H). apply polite_stream_read in Hr.
  eapply sane_trans; [exact Hr|]. rewrite Z.gtb_ltb in H. destruct (Z.ltb_spec 0 l); [|injection H as _ <- <-; apply sane_refl].
  apply lift_inv in H as ([y b] & Hs & H). injection H as _ <- <-. by eapply skip_sane.
Qed.
(** The steps, with what the program opens itself. *)
Inductive stream_step : sancus_stream * world -> gset Z -> sancus_stream * world -> Prop :=
  | stream_starts s w w' : sancus_stream_start s w = Ret (tt, w') -> stream_step (s, w) ∅ (s, w')
  | stream_stops s w w' : sancus_stream_stop s w = Ret (tt, w') -> stream_step (s, w) ∅ (s, w')
  | stream_closes s w s' w' : sancus_stream_close st s w = Ret (s', w') -> stream_step (s, w) ∅ (s', w')
  | stream_processes s w n s' w' : sancus_stream_process st s w = Ret ((n, s'), w') -> stream_step (s, w) ∅ (s', w')
  | stream_resets s w : stream_step (s, w) ∅ (sancus_stream_reset_readbuffer s, w)
  | stream_event fuel s revents w s' w' :
      0 <= sancus_stream_fd s -> read_cb fuel st s revents w = Ret (s', w') -> stream_step (s, w) ∅ (s', w')
  | stream_other s w w' evs :
      trace w' = trace w ++ evs -> sancus_stream_fd s ∉ closes evs ->
      stream_step (s, w) (list_to_set (opened evs)) (s, w').

Definition stream_run := run stream_step.

Lemma stream_step_sane x T y :
  stream_step x T y -> sane x.1 y.1 x.2 y.2 \/
  (y.1 = x.1 /\ exists evs, trace y.2 = trace x.2 ++ evs /\ T = list_to_set (opened evs) /\ sancus_stream_fd x.1 ∉ closes evs).
Proof.
  destruct 1 as [s w w' H|s w w' H|s w s' w' H|s w n s' w' H|s w|fuel s revents w s' w' _ H|s w w' evs E Hc]; cbn [fst snd];
    [left..|right; split; [done|by exists evs]].
  - injection H as <-. apply sane_refl.
  - injection H as <-. apply sane_refl.
  - by eapply stream_close_sane.
  - by eapply process_sane.
  - apply sane_buffer. intros (? & ? & ? & ? & ?). split; [|done].
    unfold wf, arr in *. cbn [buf base len size sancus_buffer_reset]. split_and!; done || lia.
  - by eapply read_cb_sane.
Qed.

Lemma stream_step_holds x T y :
  stream_step x T y -> exists evs, trace y.2 = trace x.2 ++ evs /\ holds_on sancus_stream_fd x.1 y.1 T evs.
Proof.
  intros [(evs & E & Hk & _)|(-> & evs & E & -> & Hc)]%stream_step_sane; exists evs; (split; [done|]);
    [by apply keeps_holds|by apply others_hold].
Qed.

(** Over any number of steps. *)
Lemma stream_run_sane x T y :
  stream_run x T y -> exists evs, trace y.2 = trace x.2 ++ evs /\
    (sancus_stream_fd y.1 = sancus_stream_fd x.1 \/ sancus_stream_fd y.1 < 0) /\
    (Forall read_event_ok evs -> wf (read_buffer x.1) ->
       wf (read_buffer y.1) /\ size (read_buffer y.1) = size (read_buffer x.1)).
Proof.
  induction 1 as [x|x T y T' z _ (evs1 & E1 & Hf1 & Hb1) Hs].
  { exists []. rewrite app_nil_r. split_and!; [done|by left|done]. }
  assert (exists evs2, trace z.2 = trace y.2 ++ evs2 /\
    (sancus_stream_fd z.1 = sancus_stream_fd y.1 \/ sancus_stream_fd z.1 < 0) /\
    (Forall read_event_ok evs2 -> wf (read_buffer y.1) ->
       wf (read_buffer z.1) /\ size (read_buffer z.1) = size (read_buffer y.1))) as (evs2 & E2 & Hf2 & Hb2).
  { apply stream_step_sane in Hs as [(evs2 & E2 & (_ & Hk) & Hb)|(-> & evs2 & E2 & _)]; exists evs2;
      (split; [done|]); [split; [tauto|done]|split; [by left|done]]. }
  exists (evs1 ++ evs2). split; [by rewrite E2, E1, app_assoc|].
  split; [destruct Hf1 as [<-|]; [done|right; lia]|]. intros [F1 F2]%Forall_app Hw.
  destruct (Hb1 F1 Hw) as [Hw1 Hs1]. destruct (Hb2 F2 Hw1) as [Hw2 Hs2]. split; [done|congruence].
Qed.
End Life.

Lemma stream_init_ok fd m sz s :
  sancus_stream_init fd m sz = Ret (1, s) -> zlen (default [] m) = sz -> sz <= UINT_MAX ->
  0 <= fd /\ sancus_stream_fd s = fd /\ wf (read_buffer s) /\ size (read_buffer s) = sz.
Proof.
  unfold sancus_stream_init. intros ([] & Ha & H)%bind_ret_inv Hm Hsz. apply c_assert_ret in Ha.
  apply bind_ret_inv in H as ([] & _ & H). cbn [sancus_ev_fd_init] in H.
  apply bind_ret_inv in H as (b & Hb & H). injection H as <-. pose proof (bind_wf _ _ _ Hb Hm Hsz) as [Hwf _].
  split_and!; [lia|done|done|]. cbn [read_buffer]. pose proof (zlen_nonneg (default [] m)).
  unfold sancus_buffer_bind in Hb. apply bind_ret_inv in Hb as ([] & _ & Hb). injection Hb as <-. cbn [size].
  apply uwrap_id. bounds.
Qed.

(** C14. A stream stays within what it was given, its descriptor and its array.
    In whatever order the program starts, stops, closes, resets and drains it
    and the event library reports events, as long as the callbacks are polite
    (they open nothing that they keep, close no descriptor but the stream's and
    leave its window inside the array): the stream has either its descriptor,
    which is then open, and nothing is held but what was held before and what the
    program opened itself; or it is closed, and then the descriptor is not held
    either, unless the program itself has opened a file that got its number.  If
    the kernel never stores more than it was asked for, the window of waiting
    bytes is inside the array, which has kept its size. *)
Theorem stream_stays_within {F : EvFlags} (st : sancus_stream_settings) (Hst : StreamPolite st)
    (fd sz : Z) (m : option (list byte)) (s0 s : sancus_stream) (before T : gset Z) (w w' : world)
    (Hinit : sancus_stream_init fd m sz = Ret (1, s0)) (Hm : zlen (default [] m) = sz) (Hsz : sz <= UINT_MAX)
    (Hfd : fd ∈ before) (Hrun : stream_run st (s0, w) T (s, w')) :
  exists evs, trace w' = trace w ++ evs /\
    (Forall read_event_ok evs -> wf (read_buffer s) /\ size (read_buffer s) = sz) /\
    (fresh before evs ->
       (sancus_stream_fd s = fd /\ fd ∈ live before evs /\ live before evs ⊆ before ∪ T) \/
       (sancus_stream_fd s < 0 /\ live before evs ⊆ (before ∖ {[fd]}) ∪ T)).
Proof.
  destruct (stream_init_ok fd m sz s0 Hinit Hm Hsz) as (H0 & Ef & Hwf & Es).
  destruct (stream_run_sane st _ _ _ Hrun) as (evs & E & Hk & Hb). cbn [fst snd] in *.
  exists evs. split; [done|]. split; [intros Hf; rewrite <- Es; auto|]. intros Hfr.
  destruct (run_holds _ _ (stream_step_holds st) _ _ _ Hrun (before ∖ {[fd]}) before (trace w) []) as (evs' & E' & Hh);
    [by rewrite app_nil_r| |cbn; by rewrite Ef|].
  { cbn. unfold held_by. rewrite Ef, (proj2 (Z.leb_le 0 fd)) by done. intros x Hx.
    destruct (decide (x = fd)) as [->|]; set_solver. }
  cbn [fst snd] in *. assert (evs' = evs) as -> by (by rewrite E in E'; apply app_inv_head in E').
  destruct (Hh Hfr) as [Hl Hin]. unfold held_by in Hl. rewrite Ef in Hk.
  destruct Hk as [Hk|Hk].
  - left. rewrite Hk in *. rewrite (proj2 (Z.leb_le 0 fd)) in Hl by done. split_and!; [done|auto|clear -Hl Hfd; set_solver].
  - right. rewrite (proj2 (Z.leb_gt 0 _)) in Hl by done. split; [done|clear -Hl; set_solver].
Qed.

(** A stream that hands out two bytes at a time, and is closed at the end of the
    file. *)
#[export] Instance keep_all_polite : StreamPolite keep_all.
Proof.
  split.
  - intros s x w b s' w' H. injection H as _ <- <-. apply sane_refl.
  - intros s w s' w' H. injection H as <- <-. apply sane_refl.
  - intros s x w n s' w' H. injection H as _ <- <-. apply sane_refl.
Qed.

Lemma stream_stays_within_witness :
  let a := gives (lit "abc") in
  let evs0 := [(SysRead 3 4, a)] in
  let evs1 := [(SysRead 3 1, ok 0); (SysClose 3, ok 0)] in
  let s := Stream (EvFd (-1) true) (LBuffer (Some (lit "abc" ++ [Byte.x00])) 2 1 4) in
  exists evs, evs0 ++ evs1 = [] ++ evs /\
    (Forall read_event_ok evs -> wf (read_buffer s) /\ size (read_buffer s) = 4) /\
    (fresh {[3]} evs ->
       (sancus_stream_fd s = 3 /\ 3 ∈ live {[3]} evs /\ live {[3]} evs ⊆ {[3]} ∪ (∅ ∪ ∅ ∪ ∅)) \/
       (sancus_stream_fd s < 0 /\ live {[3]} evs ⊆ ({[3]} ∖ {[3]}) ∪ (∅ ∪ ∅ ∪ ∅))).
Proof.
  intros a evs0 evs1 s.
  apply (stream_stays_within (F := bits_flags) keep_all _ 3 4 (Some (replicate 4 Byte.x00))
    (Stream (EvFd 3 true) (LBuffer (Some (replicate 4 Byte.x00)) 0 0 4)) s {[3]} (∅ ∪ ∅ ∪ ∅)
    (World [a; ok 0; ok 0] [] 0) (World [] (evs0 ++ evs1) 0)); [by vm_compute|done|vm_compute; discriminate|set_solver|].
  set (s1 := Stream (EvFd 3 true) (LBuffer (Some (lit "abc" ++ [Byte.x00])) 2 1 4)).
  apply (run_more _ _ _ (s1, World [ok 0; ok 0] evs0 0)).
  - apply (run_more _ _ _ (Stream (EvFd 3 true) (LBuffer (Some (replicate 4 Byte.x00)) 0 0 4), World [a; ok 0; ok 0] [] 0)); [apply run_none|].
    apply (stream_event (F := bits_flags) keep_all 5 _ 1); [by vm_compute|by vm_compute].
  - apply (stream_event (F := bits_flags) keep_all 5 s1 1); [by vm_compute|by vm_compute].
Defined.
