(* ===== verification/Pipe.v ===== *)
(** * Pipe

    Both ends of a connection.  A writer that uses [sancus_write], [sancus_writev]
    or the logger, anything that promises [Sys.Delivers], and a stream that
    reads at the other end, with the bytes that the kernel has taken from the
    one and not given to the other in between. *)

From S2P Require Import Prelude Sys Fd Ev BufferLegacy Stream StreamRun.

(** ** The connection *)

(** The bytes on their way, and the stream that reads them. *)
Record pipe := Pipe { in_flight : list byte; reader : sancus_stream }.

(** What the ends saw: a call that was to transmit [bs] returned [n]; the
    client of the stream used [x]. *)
Inductive action := Wrote (bs : list byte) (n : Z) | Used (x : list byte).

Definition writes : list action -> list (list byte * Z) :=
  omap (fun a => match a with Wrote bs n => Some (bs, n) | Used _ => None end).

Definition uses : list action -> list byte :=
  mbind (fun a => match a with Wrote _ _ => [] | Used x => x end).

Section Pipe.
Context {F : EvFlags} (st : sancus_stream_settings) (use : list byte -> Z).

(** One call of the writer, in a process of its own, or one read event.  The
    kernel hands the bytes on in order, as many at a time as it likes. *)
Inductive pipe_step : pipe -> action -> pipe -> Prop :=
  | pipe_write p pre m bs (HD : Delivers pre m bs) w n w' evs :
      pre w -> m w = Ret (n, w') -> trace w' = trace w ++ evs ->
      pipe_step p (Wrote bs n) (Pipe (in_flight p ++ accepted evs) (reader p))
  | pipe_read q self revents fuel r rs t e self1 w1 :
      readable revents -> 0 < room self -> read_answer_ok (room self) r -> 0 < ret r ->
      read_cb (S (S fuel)) st self revents (World (r :: rs) t e) = Ret (self1, w1) ->
      let x := content (read_buffer self) ++ data r in
      pipe_step (Pipe (data r ++ q) self) (Used (take (Z.to_nat (use x)) x)) (Pipe q self1).

Inductive pipe_run : pipe -> list action -> pipe -> Prop :=
  | pipe_done p : pipe_run p [] p
  | pipe_more p a p1 acts p2 : pipe_step p a p1 -> pipe_run p1 acts p2 -> pipe_run p (a :: acts) p2.

(** The bytes that have been sent and not used. *)
Definition pending (p : pipe) : list byte := content (read_buffer (reader p)) ++ in_flight p.

(** What the kernel took of a call: a prefix, all of it without an error. *)
Definition sent (wr : list byte * Z) (k : list byte) : Prop :=
  k `prefix_of` wr.1 /\ (0 <= wr.2 -> k = wr.1 /\ wr.2 = zlen wr.1).

Context (use_range : forall x, 0 <= use x <= zlen x).
Context (on_read_use : forall s x w, on_read st s x w = Ret ((use x, s), w)).

Lemma delivered_sent w n w' bs evs :
  delivered w n w' bs -> trace w' = trace w ++ evs -> sent (bs, n) (accepted evs).
Proof.
  intros (evs' & k & -> & Ha & Hk & Hres) E%app_inv_head. subst evs'. unfold sent. cbn [fst snd].
  rewrite Ha. split.
  - exists (drop (Z.to_nat k) bs). unfold sub. cbn. by rewrite drop_0, take_drop.
  - intros Hn. destruct Hres as [[-> ->]|]; [|lia]. by rewrite sub_all.
Qed.

(** A step keeps what is pending in order. *)
Lemma step_pending p a p1 :
  wf (read_buffer (reader p)) -> pipe_step p a p1 ->
  wf (read_buffer (reader p1)) /\
  exists ks, Forall2 sent (writes [a]) ks /\ uses [a] ++ pending p1 = pending p ++ concat ks.
Proof.
  intros Hwf. unfold pending. destruct 1 as [p pre m bs HD w n w' evs Hpre Hm Hev|q self revents fuel r rs t e self1 w1 Hrev Hroom Hr Hpos E x];
    cbn [reader in_flight] in *.
  - split; [done|]. exists [accepted evs]. split.
    + cbn. constructor; [|constructor]. eapply delivered_sent; [by eapply HD|done].
    + cbn. by rewrite app_nil_r, app_assoc.
  - rewrite read_cb_readable in E by done.
    destruct (arrive_one st use use_range on_read_use fuel self r rs t e Hwf Hroom Hr Hpos)
      as (b2 & w2 & E' & Hw & Hc & _). rewrite E' in E. injection E as <- <-. cbn [read_buffer with_buffer].
    split; [done|]. exists []. split; [constructor|]. fold x in Hc. cbn. rewrite Hc, !app_nil_r.
    rewrite app_assoc, take_drop. unfold x. by rewrite <- app_assoc.
Qed.

Lemma run_pending p acts p' :
  wf (read_buffer (reader p)) -> pipe_run p acts p' ->
  exists ks, Forall2 sent (writes acts) ks /\ uses acts ++ pending p' = pending p ++ concat ks.
Proof.
  intros Hwf. induction 1 as [p|p a p1 acts p2 Hs _ IH].
  - exists []. split; [constructor|]. by rewrite app_nil_r.
  - destruct (step_pending _ _ _ Hwf Hs) as (Hwf1 & k1 & F1 & E1). destruct (IH Hwf1) as (k2 & F2 & E2).
    exists (k1 ++ k2). change (a :: acts) with ([a] ++ acts). split.
    + unfold writes. rewrite omap_app. by apply Forall2_app.
    + unfold uses in *. rewrite bind_app, <- app_assoc, E2, app_assoc, E1, concat_app. by rewrite <- app_assoc.
Qed.
End Pipe.

(** ** A client that uses all it is shown *)

(** Nothing waits, and the whole array is free. *)
Definition fresh (self : sancus_stream) : Prop :=
  wf (read_buffer self) /\ base (read_buffer self) = 0 /\ len (read_buffer self) = 0 /\ 0 < size (read_buffer self).

Lemma fresh_room self : fresh self -> room self = size (read_buffer self).
Proof. intros (_ & Hb & Hl & _). unfold room. lia. Qed.

Lemma fresh_content self : fresh self -> content (read_buffer self) = [].
Proof. intros (_ & Hb & Hl & _). unfold content. by rewrite Hl, sub_nil by lia. Qed.

Section UseAll.
Context {F : EvFlags} (st : sancus_stream_settings).
Context (on_read_all : forall s x w, on_read st s x w = Ret ((zlen x, s), w)).

(** What it leaves is fresh again. *)
Lemma fresh_arrive fuel self r rs t e :
  fresh self -> read_answer_ok (room self) r -> 0 < ret r ->
  exists self1 w1, read_ready (S (S fuel)) st self (World (r :: rs) t e) = Ret (self1, w1) /\ fresh self1.
Proof.
  intros Hf Hr Hpos. pose proof Hf as (Hwf & Hb & Hl & Hs). pose proof (fresh_room _ Hf) as Hroom.
  destruct (arrive_one st zlen ltac:(intros x; pose proof (zlen_nonneg x); lia) on_read_all
    fuel self r rs t e Hwf ltac:(lia) Hr Hpos) as (b2 & w2 & E & Hw & Hc & _ & Hs2 & Ht).
  exists (with_buffer self b2), w2. split; [done|].
  rewrite drop_ge in Hc by (unfold zlen; lia). pose proof Hw as (? & ? & ? & ? & ?).
  assert (len b2 = 0) as Hl2.
  { apply (f_equal zlen) in Hc. unfold content in Hc. rewrite zlen_sub in Hc by lia. done. }
  split_and!; [done|by apply Ht|done|]. cbn [read_buffer with_buffer]. lia.
Qed.

Lemma fresh_step q self x p1 :
  fresh self -> pipe_step st zlen (Pipe q self) (Used x) p1 ->
  fresh (reader p1) /\ q = x ++ in_flight p1 /\ x <> [].
Proof.
  intros Hf H. inversion H as [|q1 self' revents fuel r rs t e self1 w1 Hrev Hroom Hr Hpos E x']; subst.
  cbn [in_flight reader]. rewrite read_cb_readable in E by done.
  destruct (fresh_arrive fuel self r rs t e Hf Hr Hpos) as (s2 & w2 & E' & Hf2).
  rewrite E' in E. injection E as <- <-. subst x'. rewrite (fresh_content _ Hf). cbn [app].
  unfold zlen. rewrite Nat2Z.id, firstn_all. split_and!; [done..|].
  destruct Hr as (_ & _ & _ & Hd). intros E. rewrite E in Hd. rewrite (@zlen_nil byte) in Hd. lia.
Qed.

Lemma fresh_run p acts p' :
  fresh (reader p) -> pipe_run st zlen p acts p' -> writes acts = [] ->
  fresh (reader p') /\ in_flight p = uses acts ++ in_flight p' /\ (length acts <= length (uses acts))%nat.
Proof.
  intros Hf. induction 1 as [p|[q self] a p1 acts p2 Hs _ IH]; intros Hw; [done|].
  destruct a as [|x]; [done|]. destruct (fresh_step _ _ _ _ Hf Hs) as (Hf1 & E & Hx).
  destruct (IH Hf1 Hw) as (Hf2 & E2 & Hl). split; [done|]. cbn [in_flight] in *.
  change (uses (Used x :: acts)) with (x ++ uses acts). rewrite E, E2, length_app. split; [by rewrite app_assoc|].
  destruct x; [done|]. simpl. lia.
Qed.

(** As long as something is on its way, an event can deliver it. *)
Lemma fresh_progress p revents :
  fresh (reader p) -> readable revents -> in_flight p <> [] ->
  exists x p1, pipe_step st zlen p (Used x) p1.
Proof.
  destruct p as [[|b q] self]; intros Hf Hrev Hne; [done|]. cbn [reader] in Hf.
  pose proof Hf as (_ & _ & _ & Hs). pose proof (fresh_room _ Hf) as Hroom.
  assert (Hr : read_answer_ok (room self) (gives [b])) by (split_and!; [done..|change (1 <= room self); lia|done]).
  destruct (fresh_arrive 0 self (gives [b]) [] [] 0 Hf Hr ltac:(done)) as (s1 & w1 & E & _).
  eexists _, _. apply (pipe_read _ _ q self revents 0 (gives [b]) [] [] 0 s1 w1); [done|lia|done|done|].
  by rewrite read_cb_readable.
Qed.

Lemma fresh_drains revents n p :
  (length (in_flight p) <= n)%nat -> fresh (reader p) -> readable revents ->
  exists acts p', pipe_run st zlen p acts p' /\ writes acts = [] /\ in_flight p' = [].
Proof.
  intros Hn Hf Hrev. revert p Hn Hf. induction n as [|n IH]; intros [q self] Hn Hf; cbn [in_flight reader] in *.
  - exists [], (Pipe q self). split_and!; [constructor|done|]. destruct q; [done|simpl in Hn; lia].
  - destruct (decide (q = [])) as [->|Hq]; [exists [], (Pipe [] self); by repeat constructor|].
    destruct (fresh_progress (Pipe q self) revents Hf Hrev Hq) as (x & p1 & Hs).
    destruct (fresh_step _ _ _ _ Hf Hs) as (Hf1 & E & Hx). destruct (IH p1) as (acts & p' & Hr & Hw & He); [|done|].
    { rewrite E, length_app in Hn. destruct x; [done|]. simpl in Hn. lia. }
    exists (Used x :: acts), p'. split_and!; [by econstructor|done..].
Qed.
End UseAll.

(** ** Correctness *)

(** C7. What is written is read.  Calls of a writer that transmits, with
    [sancus_write] or whatever else makes its promise, and read events of a
    stream at the other end may alternate in any way, the kernel may take and
    give the bytes in any pieces and the client use as many as it likes at a
    time: what the client used, followed by what waits in the buffer and what
    is on its way, is always what was pending at the start followed by what the
    kernel took of each call in their order, nothing lost, doubled or moved.
    Of a call it took a prefix; when no call failed, every byte of all of them. *)
Theorem written_is_read {F : EvFlags} (st : sancus_stream_settings) (use : list byte -> Z)
    (Hrange : forall x, 0 <= use x <= zlen x)
    (Huse : forall s x w, on_read st s x w = Ret ((use x, s), w))
    (p p' : pipe) (acts : list action)
    (Hwf : wf (read_buffer (reader p))) (Hrun : pipe_run st use p acts p') :
  (exists ks, Forall2 sent (writes acts) ks /\ uses acts ++ pending p' = pending p ++ concat ks) /\
  (Forall (fun wr => 0 <= wr.2) (writes acts) ->
   uses acts ++ pending p' = pending p ++ concat (map fst (writes acts))).
Proof.
  destruct (run_pending st use Hrange Huse p acts p' Hwf Hrun) as (ks & Hks & E).
  split; [by exists ks|]. intros Hn. rewrite E. do 2 f_equal. clear -Hks Hn.
  induction Hks as [|[bs n] k ws ks [_ Hk] _ IH]; [done|]. apply Forall_cons in Hn as [H0 Hn].
  cbn. f_equal; [by apply Hk|by apply IH].
Qed.

(** "hello" is written in two pieces; three bytes arrive and two are used. *)
Lemma written_is_read_witness :
  let self := Stream (EvFd 3 true) (LBuffer (Some (replicate 8 Byte.x00)) 0 0 8) in
  let self' := Stream (EvFd 3 true) (LBuffer (Some (lit "hel" ++ replicate 5 Byte.x00)) 2 1 8) in
  let acts := [Wrote (lit "hello") 5; Used (lit "he")] in
  (exists ks, Forall2 sent (writes acts) ks /\
     uses acts ++ pending (Pipe (lit "lo") self') = pending (Pipe [] self) ++ concat ks) /\
  (Forall (fun wr => 0 <= wr.2) (writes acts) ->
   uses acts ++ pending (Pipe (lit "lo") self') = pending (Pipe [] self) ++ concat (map fst (writes acts))).
Proof.
  apply (written_is_read (F := bits_flags) by_two (fun x => Z.min 2 (zlen x))
    ltac:(intros x; pose proof (zlen_nonneg x); lia) ltac:(done)).
  - repeat split; vm_compute; discriminate.
  - eapply pipe_more; [|eapply pipe_more; [|apply pipe_done]].
    + apply (pipe_write (F := bits_flags) _ _ (Pipe [] _) _ (sancus_write 4 (lit "hello") 5) (lit "hello") (write_delivers 4 (lit "hello"))
        (World [ok 2; ok 3] [] 0) 5
        (World [] [(SysWrite 4 (lit "hello"), ok 2); (SysWrite 4 (lit "llo"), ok 3)] 0)
        [(SysWrite 4 (lit "hello"), ok 2); (SysWrite 4 (lit "llo"), ok 3)]).
      * split_and!; [vm_compute; discriminate|vm_compute; repeat split; discriminate|repeat constructor; vm_compute; discriminate].
      * by vm_compute.
      * done.
    + apply (pipe_read (F := bits_flags) by_two (fun x => Z.min 2 (zlen x)) (lit "lo")
        (Stream (EvFd 3 true) (LBuffer (Some (replicate 8 Byte.x00)) 0 0 8)) 1 0 (gives (lit "hel")) [] [] 0
        (Stream (EvFd 3 true) (LBuffer (Some (lit "hel" ++ replicate 5 Byte.x00)) 2 1 8))
        (World [] [(SysRead 3 8, gives (lit "hel"))] 0));
        [done|by vm_compute|repeat split; vm_compute; intros; try discriminate; done|by vm_compute|by vm_compute].
Defined.

(** C11. A client that uses all it is shown catches up.  Once the writer
    rests, however the kernel cuts what is on its way into pieces: there are no
    more read events than bytes, while a byte is left an event can deliver
    one, and when none is left the client has used them all and the buffer is
    empty; and it can get there.  The reader starts with an empty buffer. *)
Theorem reader_catches_up {F : EvFlags} (st : sancus_stream_settings) (p : pipe) (revents : Z)
    (Hall : forall s x w, on_read st s x w = Ret ((zlen x, s), w))
    (Hf : fresh (reader p)) (Hrev : readable revents) :
  (forall acts p', pipe_run st zlen p acts p' -> writes acts = [] ->
     (length acts <= length (in_flight p))%nat /\
     (in_flight p' <> [] -> exists x p2, pipe_step st zlen p' (Used x) p2) /\
     (in_flight p' = [] -> uses acts = in_flight p /\ pending p' = [])) /\
  (exists acts p', pipe_run st zlen p acts p' /\ writes acts = [] /\ in_flight p' = []).
Proof.
  split; [|by eapply (fresh_drains st Hall revents (length (in_flight p)))].
  intros acts p' Hrun Hw. destruct (fresh_run st Hall p acts p' Hf Hrun Hw) as (Hf' & E & Hl).
  split_and!; [rewrite E, length_app; lia|by eapply fresh_progress|].
  intros Hnil. rewrite Hnil, app_nil_r in E. split; [done|]. unfold pending.
  by rewrite Hnil, (fresh_content _ Hf').
Qed.

Definition take_all : sancus_stream_settings :=
  StreamSettings (fun s _ => mret (true, s)) (fun s => mret s) (fun s x => mret (zlen x, s)).

(** Eleven bytes for an array of four. *)
Lemma reader_catches_up_witness :
  let p := Pipe (lit "hello world") (Stream (EvFd 3 true) (LBuffer (Some (replicate 4 Byte.x00)) 0 0 4)) in
  exists acts p', pipe_run (F := bits_flags) take_all zlen p acts p' /\ writes acts = [] /\ in_flight p' = [].
Proof.
  apply (reader_catches_up (F := bits_flags) take_all
    (Pipe (lit "hello world") (Stream (EvFd 3 true) (LBuffer (Some (replicate 4 Byte.x00)) 0 0 4))) 1); [done| |done].
  repeat split; vm_compute; discriminate.
Defined.
