(* ===== verification/Tcp.v ===== *)
(** * Tcp

    Client connections ([src/sancus/tcp_conn.c]) and servers
    ([src/sancus/tcp_server.c]) over IPv4, IPv6 and local sockets.
    [inet_pton] is the C library's and a parameter; the user's callbacks are
    arguments that return the object, changed or not. *)

From S2P Require Import Prelude Sys Fd Time Ev.

Definition AF_LOCAL : Z := 1.
Definition AF_INET : Z := 2.
Definition AF_INET6 : Z := 10.
Definition SOCK_STREAM : Z := 1.
Definition SOL_SOCKET : Z := 1.
Definition SO_REUSEADDR : Z := 2.
Definition SO_KEEPALIVE : Z := 9.
Definition SO_LINGER : Z := 13.

(** Network byte order. *)
Definition htons (port : Z) : list byte := rev (le_bytes 2 port).

(** [struct sockaddr_in], [sockaddr_in6], [sockaddr_un] as bytes. *)
Definition sockaddr_in (port : Z) (addr : list byte) : list byte :=
  le_bytes 2 AF_INET ++ htons port ++ addr ++ replicate 8 Byte.x00.
Definition sockaddr_in6 (port : Z) (addr : list byte) : list byte :=
  le_bytes 2 AF_INET6 ++ htons port ++ replicate 4 Byte.x00 ++ addr ++ replicate 4 Byte.x00.
Definition sizeof_sun_path : Z := 108.
Definition sockaddr_un (path : list byte) : list byte := le_bytes 2 AF_LOCAL ++ path.

(** [init_local of tcp_conn.c and tcp_server.c] @ src/sancus/tcp_conn.c:125-138.
    The path field, and 1, or 0 when the path is too long. *)
Definition init_local (path : option (list byte)) : outcome (Z * list byte) :=
  let sun_path := replicate (Z.to_nat sizeof_sun_path) Byte.x00 in
  let path' := default [Byte.x00] path in
  l ← match path with None => Ret 0 | Some s => c_strlen s end;
  if l >? sizeof_sun_path - 1 then Ret (0, sun_path)
  else
    x ← load path' 0 (l + 1);
    sun_path ← store sun_path 0 x;
    Ret (1, sun_path).

(** [init_local of tcp_server.c] @ src/sancus/tcp_server.c:103-116. *)
Definition server_init_local := init_local.

Section Net.
(** [inet_pton (family, text)]: 1 and the address in network order, or 0. *)
Context (inet_pton : Z -> list byte -> Z * list byte).

(** [init_ipv4 of tcp_conn.c] @ src/sancus/tcp_conn.c:111-116. *)
Definition conn_init_ipv4 (addr : list byte) (port : Z) : Z * list byte :=
  let '(e, a) := inet_pton AF_INET addr in (e, sockaddr_in port a).

(** [init_ipv6 of tcp_conn.c] @ src/sancus/tcp_conn.c:118-123. *)
Definition conn_init_ipv6 (addr : list byte) (port : Z) : Z * list byte :=
  let '(e, a) := inet_pton AF_INET6 addr in (e, sockaddr_in6 port a).

(** [addr[i] == c], the bytes before it not being NUL. *)
Definition at_is (s : list byte) (i : Z) (c : byte) : outcome bool :=
  b ← load1 s i; Ret (bool_decide (b = c)).

(** [a && b], [a || b] of C. *)
Definition c_and (a b : outcome bool) : outcome bool := x ← a; if (x : bool) then b else Ret false.
Definition c_or (a b : outcome bool) : outcome bool := x ← a; if (x : bool) then Ret true else b.

(** [init_ipv4 of tcp_server.c] @ src/sancus/tcp_server.c:74-86. *)
Definition server_init_ipv4 (addr : option (list byte)) (port : Z) : outcome (Z * list byte) :=
  any ← match addr with
        | None => Ret true
        | Some s =>
            c_or (at_is s 0 Byte.x00)
              (c_and (c_or (at_is s 0 Byte.x30) (at_is s 0 Byte.x2a)) (at_is s 1 Byte.x00))
        end;
  if (any : bool) then Ret (1, sockaddr_in port (replicate 4 Byte.x00))
  else
    s ← deref addr;
    let '(e, a) := inet_pton AF_INET s in Ret (e, sockaddr_in port a).

(** [init_ipv6 of tcp_server.c] @ src/sancus/tcp_server.c:88-101. *)
Definition server_init_ipv6 (addr : option (list byte)) (port : Z) : outcome (Z * list byte) :=
  any ← match addr with
        | None => Ret true
        | Some s =>
            c_or (at_is s 0 Byte.x00)
              (c_or (c_and (at_is s 0 Byte.x2a) (at_is s 1 Byte.x00))
                    (c_and (at_is s 0 Byte.x3a) (c_and (at_is s 1 Byte.x3a) (at_is s 2 Byte.x00))))
        end;
  if (any : bool) then Ret (1, sockaddr_in6 port (replicate 16 Byte.x00))
  else
    s ← deref addr;
    let '(e, a) := inet_pton AF_INET6 s in Ret (e, sockaddr_in6 port a).

(** ** Connections *)

(** [enum sancus_tcp_conn_error] @ include/sancus/tcp_conn.h:34-37. *)
Inductive sancus_tcp_conn_error := SANCUS_TCP_CONN_WATCHER_ERROR | SANCUS_TCP_CONN_CONNECT_ERROR.

(** [enum sancus_tcp_conn_state] @ include/sancus/tcp_conn.h:39-44. *)
Inductive sancus_tcp_conn_state :=
  | SANCUS_TCP_CONN_INPROGRESS
  | SANCUS_TCP_CONN_CONNECTED
  | SANCUS_TCP_CONN_RUNNING
  | SANCUS_TCP_CONN_FAILED.

(** [struct sancus_tcp_conn] @ include/sancus/tcp_conn.h:56-63. *)
Record sancus_tcp_conn := TcpConn {
  conn_io : sancus_ev_fd; state : sancus_tcp_conn_state; last_activity : timespec
}.

(** [struct sancus_tcp_conn_settings] @ include/sancus/tcp_conn.h:46-54. *)
Record sancus_tcp_conn_settings := ConnSettings {
  conn_on_read : sancus_tcp_conn -> io sancus_tcp_conn;
  conn_on_connect : sancus_tcp_conn -> io sancus_tcp_conn;
  conn_on_error : sancus_tcp_conn -> sancus_tcp_conn_error -> io sancus_tcp_conn
}.

(** [sancus_tcp_conn_touch] @ include/sancus/tcp_conn.h:66-66. *)
Definition sancus_tcp_conn_touch (c : sancus_tcp_conn) (l : sancus_ev_loop) : sancus_tcp_conn :=
  TcpConn (conn_io c) (state c) (sancus_ev_now l).

(** [sancus_tcp_conn_elapsed] @ include/sancus/tcp_conn.h:67-67. *)
Definition sancus_tcp_conn_elapsed (c : sancus_tcp_conn) (l : sancus_ev_loop) : outcome timespec :=
  sancus_time_elapsed (last_activity c) (sancus_ev_now l).

Definition set_state (c : sancus_tcp_conn) (s : sancus_tcp_conn_state) : sancus_tcp_conn :=
  TcpConn (conn_io c) s (last_activity c).

(** [io_cb, label connect_done] @ src/sancus/tcp_conn.c:83-95. *)
Definition connect_done (st : sancus_tcp_conn_settings) (loop : sancus_ev_loop) (self : sancus_tcp_conn) : io sancus_tcp_conn :=
  let fd := ev_fd (conn_io self) in
  let _ := sancus_ev_fd_stop (conn_io self) in
  let '(w, _) := sancus_ev_fd_init fd SANCUS_EV_READ in
  let _ := sancus_ev_fd_start w in
  self ← conn_on_connect st (TcpConn w (state self) (last_activity self));
  mret (sancus_tcp_conn_touch (set_state self SANCUS_TCP_CONN_RUNNING) loop).

(** [io_cb] @ src/sancus/tcp_conn.c:46-106. *)
Definition io_cb `{EvFlags} (st : sancus_tcp_conn_settings) (loop : sancus_ev_loop) (self : sancus_tcp_conn) (revents : Z)
    : io sancus_tcp_conn :=
  if has_event revents EV_ERROR then conn_on_error st self SANCUS_TCP_CONN_WATCHER_ERROR
  else
    match state self with
    | SANCUS_TCP_CONN_INPROGRESS =>
        _ ← lift (c_assert (has_event revents EV_WRITE));
        if has_event revents EV_READ then
          r ← sys (SysGetsockerr (ev_fd (conn_io self)));
          let error := nth 0 (outs r) 0 in
          if negb (ret r <? 0) && (error =? 0) then connect_done st loop self
          else
            _ ← (if ret r <? 0 then mret tt else set_errno error);
            conn_on_error st (set_state self SANCUS_TCP_CONN_FAILED) SANCUS_TCP_CONN_CONNECT_ERROR
        else
          _ ← lift (c_assert (has_event revents EV_WRITE));
          connect_done st loop self
    | SANCUS_TCP_CONN_CONNECTED =>
        _ ← lift (c_assert (has_event revents EV_WRITE));
        connect_done st loop self
    | SANCUS_TCP_CONN_RUNNING =>
        if has_event revents EV_READ then
          self ← conn_on_read st self;
          mret (sancus_tcp_conn_touch self loop)
        else mret self
    | SANCUS_TCP_CONN_FAILED => lift Aborted
    end.

(** [init_tcp of tcp_conn.c] @ src/sancus/tcp_conn.c:140-170.  [old] is the
    object as it was; its [last_activity] is not touched. *)
Definition conn_init_tcp (old : sancus_tcp_conn) (family : Z) (sa : list byte) (cloexec : bool) : io (Z * sancus_tcp_conn) :=
  fd ← sancus_socket family SOCK_STREAM 0 cloexec true;
  if fd <? 0 then mret (-1, old)
  else
    let '(w, _) := sancus_ev_fd_init fd (Z.lor SANCUS_EV_READ SANCUS_EV_WRITE) in
    r ← sys (SysConnect fd sa);
    if ret r <? 0 then
      e ← get_errno;
      if e =? EINPROGRESS then mret (1, TcpConn w SANCUS_TCP_CONN_INPROGRESS (last_activity old))
      else
        '(_, fd) ← sancus_close2 (Some (ev_fd w));
        _ ← set_errno e;
        mret (-1, TcpConn (EvFd (default (-1) fd) (ev_cb w)) (state old) (last_activity old))
    else mret (1, TcpConn w SANCUS_TCP_CONN_CONNECTED (last_activity old)).

(** [sancus_tcp_conn_start] @ src/sancus/tcp_conn.c:175-184. *)
Definition sancus_tcp_conn_start (self : sancus_tcp_conn) (loop : sancus_ev_loop) : sancus_tcp_conn :=
  if negb (sancus_ev_is_active (conn_io self)) then
    let _ := sancus_ev_fd_start (conn_io self) in
    if sancus_time_is_zero (last_activity self) then sancus_tcp_conn_touch self loop else self
  else self.

(** [sancus_tcp_conn_stop] @ src/sancus/tcp_conn.c:186-190. *)
Definition sancus_tcp_conn_stop (self : sancus_tcp_conn) : io unit :=
  if sancus_ev_is_active (conn_io self) then let _ := sancus_ev_fd_stop (conn_io self) in mret tt else mret tt.

(** [sancus_tcp_conn_close] @ src/sancus/tcp_conn.c:192-198. *)
Definition sancus_tcp_conn_close (self : sancus_tcp_conn) : io sancus_tcp_conn :=
  _ ← lift (c_assert (ev_fd (conn_io self) >=? 0));
  _ ← lift (c_assert (negb (sancus_ev_is_active (conn_io self))));
  '(_, fd) ← sancus_close2 (Some (ev_fd (conn_io self)));
  mret (TcpConn (EvFd (default (-1) fd) (ev_cb (conn_io self))) (state self) (last_activity self)).

(** [sancus_tcp_ipv4_connect] @ src/sancus/tcp_conn.c:200-213. *)
Definition sancus_tcp_ipv4_connect (self : sancus_tcp_conn) (addr : list byte) (port : Z) (cloexec : bool)
    : io (Z * sancus_tcp_conn) :=
  let '(e, sin) := conn_init_ipv4 addr port in
  if negb (e =? 1) then mret (e, self) else conn_init_tcp self AF_INET sin cloexec.

(** [sancus_tcp_ipv6_connect] @ src/sancus/tcp_conn.c:215-228. *)
Definition sancus_tcp_ipv6_connect (self : sancus_tcp_conn) (addr : list byte) (port : Z) (cloexec : bool)
    : io (Z * sancus_tcp_conn) :=
  let '(e, sin6) := conn_init_ipv6 addr port in
  if negb (e =? 1) then mret (e, self) else conn_init_tcp self AF_INET6 sin6 cloexec.

(** [sancus_tcp_local_connect] @ src/sancus/tcp_conn.c:230-242. *)
Definition sancus_tcp_local_connect (self : sancus_tcp_conn) (path : option (list byte)) (cloexec : bool)
    : io (Z * sancus_tcp_conn) :=
  '(e, sun) ← lift (init_local path);
  if negb (e =? 1) then mret (e, self) else conn_init_tcp self AF_LOCAL (sockaddr_un sun) cloexec.

(** ** Servers *)

(** [struct sancus_tcp_server] @ include/sancus/tcp_server.h:67-71. *)
Record sancus_tcp_server := TcpServer { connect : sancus_ev_fd }.

(** [struct sancus_tcp_server_settings] @ include/sancus/tcp_server.h:50-59. *)
Record sancus_tcp_server_settings := ServerSettings {
  pre_bind : option (sancus_tcp_server -> io sancus_tcp_server);
  server_on_connect : sancus_tcp_server -> Z -> list byte -> io (bool * sancus_tcp_server);
  server_on_error : sancus_tcp_server -> io sancus_tcp_server
}.

(** [connect_cb, the read branch] @ src/sancus/tcp_server.c:56-68. *)
Definition accept_ready (st : sancus_tcp_server_settings) (self : sancus_tcp_server) : io sancus_tcp_server :=
  '(fd, addr) ← sancus_accept (ev_fd (connect self));
  if fd <? 0 then server_on_error st self
  else
    '(keep, self) ← server_on_connect st self fd addr;
    if negb keep then _ ← sancus_close2 (Some fd); mret self else mret self.

(** [connect_cb] @ src/sancus/tcp_server.c:48-69. *)
Definition connect_cb `{EvFlags} (st : sancus_tcp_server_settings) (self : sancus_tcp_server) (revents : Z)
    : io sancus_tcp_server :=
  _ ← lift (c_assert (negb (has_event revents EV_ERROR)));
  if has_event revents EV_READ then accept_ready st self else mret self.

(** [init_tcp of tcp_server.c] @ src/sancus/tcp_server.c:118-156. *)
Definition server_init_tcp (st : sancus_tcp_server_settings) (old : sancus_tcp_server) (family : Z) (sa : list byte)
    (cloexec : bool) (backlog : Z) : io (Z * sancus_tcp_server) :=
  fd ← sancus_socket family SOCK_STREAM 0 cloexec true;
  if fd <? 0 then mret (-1, old)
  else
    _ ← (if negb (family =? AF_LOCAL) then
           _ ← sys (SysSetsockopt fd SOL_SOCKET SO_REUSEADDR);
           _ ← sys (SysSetsockopt fd SOL_SOCKET SO_KEEPALIVE);
           _ ← sys (SysSetsockopt fd SOL_SOCKET SO_LINGER);
           mret tt
         else mret tt);
    let '(w, _) := sancus_ev_fd_init fd SANCUS_EV_READ in
    let self := TcpServer w in
    self ← match pre_bind st with Some f => f self | None => mret self end;
    b ← sys (SysBind fd sa);
    failed ← (if ret b <? 0 then mret true else l ← sys (SysListen fd (s32 backlog)); mret (ret l <? 0));
    if (failed : bool) then
      e ← get_errno;
      '(_, fd) ← sancus_close2 (Some (ev_fd (connect self)));
      _ ← set_errno e;
      mret (-1, TcpServer (EvFd (default (-1) fd) (ev_cb (connect self))))
    else mret (1, self).

(** [sancus_tcp_server_start] @ src/sancus/tcp_server.c:162-166. *)
Definition sancus_tcp_server_start (self : sancus_tcp_server) : io unit :=
  _ ← lift (c_assert (negb (sancus_ev_is_active (connect self))));
  let _ := sancus_ev_fd_start (connect self) in mret tt.

(** [sancus_tcp_server_stop] @ src/sancus/tcp_server.c:168-172. *)
Definition sancus_tcp_server_stop (self : sancus_tcp_server) : io unit :=
  if sancus_ev_is_active (connect self) then let _ := sancus_ev_fd_stop (connect self) in mret tt else mret tt.

(** [sancus_tcp_server_close] @ src/sancus/tcp_server.c:174-180. *)
Definition sancus_tcp_server_close (self : sancus_tcp_server) : io sancus_tcp_server :=
  _ ← lift (c_assert (ev_fd (connect self) >=? 0));
  _ ← lift (c_assert (negb (sancus_ev_is_active (connect self))));
  '(_, fd) ← sancus_close2 (Some (ev_fd (connect self)));
  mret (TcpServer (EvFd (default (-1) fd) (ev_cb (connect self)))).

(** [sancus_tcp_ipv4_listen] @ src/sancus/tcp_server.c:182-195. *)
Definition sancus_tcp_ipv4_listen (st : sancus_tcp_server_settings) (self : sancus_tcp_server)
    (addr : option (list byte)) (port : Z) (cloexec : bool) (backlog : Z) : io (Z * sancus_tcp_server) :=
  '(e, sin) ← lift (server_init_ipv4 addr port);
  if negb (e =? 1) then mret (e, self) else server_init_tcp st self AF_INET sin cloexec backlog.

(** [sancus_tcp_ipv6_listen] @ src/sancus/tcp_server.c:197-210. *)
Definition sancus_tcp_ipv6_listen (st : sancus_tcp_server_settings) (self : sancus_tcp_server)
    (addr : option (list byte)) (port : Z) (cloexec : bool) (backlog : Z) : io (Z * sancus_tcp_server) :=
  '(e, sin6) ← lift (server_init_ipv6 addr port);
  if negb (e =? 1) then mret (e, self) else server_init_tcp st self AF_INET6 sin6 cloexec backlog.

(** [sancus_tcp_local_listen] @ src/sancus/tcp_server.c:212-226. *)
Definition sancus_tcp_local_listen (st : sancus_tcp_server_settings) (self : sancus_tcp_server)
    (path : option (list byte)) (cloexec : bool) (backlog : Z) : io (Z * sancus_tcp_server) :=
  '(e, sun) ← lift (server_init_local path);
  if negb (e =? 1) then mret (e, self)
  else
    _ ← sys (SysUnlink (default [] path));
    server_init_tcp st self AF_LOCAL (sockaddr_un sun) cloexec backlog.
End Net.

(** ** No leaks *)

(** [sancus_socket] in the terms the callers need. *)
Lemma socket_inv family type protocol cloexec nonblock w v w' :
  sancus_socket family type protocol cloexec nonblock w = Ret (v, w') ->
  exists evs, trace w' = trace w ++ evs /\
    ((0 <= v /\ opened evs = [v] /\ closes evs = []) \/ (v < 0 /\ owns_or_closed (-1) evs)).
Proof.
  intros H. apply opens_safely in H as (evs & E & [Ho|[Hv Ho]]); [| |done]; exists evs; split; auto.
  right. split; [done|]. by right.
Qed.

Lemma owned_quiet fd evs1 evs2 :
  0 <= fd -> opened evs1 = [fd] -> closes evs1 = [] -> opened evs2 = [] -> closes evs2 = [] ->
  owns_or_closed fd (evs1 ++ evs2).
Proof.
  intros ? H1 Hc H2 H3. left. by rewrite opened_app, closes_app, H1, H2, Hc, H3.
Qed.

Lemma owned_then_closed fd v evs1 evs2 evs3 :
  opened evs1 = [fd] -> opened evs2 = [] -> opened evs3 = [] -> fd ∈ closes evs3 -> v < 0 ->
  owns_or_closed v (evs1 ++ evs2 ++ evs3).
Proof.
  intros H1 H2 H3 Hc Hv. apply (owns_then_closed fd); [done| | |done].
  - by rewrite opened_app, H2, H3.
  - rewrite closes_app. apply elem_of_app. by right.
Qed.

(** What a constructor that returns 1 or -1 promises about descriptors. *)
Definition owns_on_success (v fd : Z) (evs : list event) : Prop :=
  (v = 1 /\ 0 <= fd /\ owns_or_closed fd evs) \/ (v = -1 /\ owns_or_closed v evs).

Lemma conn_init_tcp_no_leak old family sa cloexec v self w w' :
  conn_init_tcp old family sa cloexec w = Ret ((v, self), w') ->
  exists evs, trace w' = trace w ++ evs /\ owns_on_success v (ev_fd (conn_io self)) evs.
Proof.
  unfold conn_init_tcp. intros (fd & w1 & Hs & H)%io_bind_inv.
  apply socket_inv in Hs as (evs1 & E1 & [(Hfd & Ho1 & Hc1)|[Hfd Ho1]]).
  2:{ rewrite (proj2 (Z.ltb_lt fd 0)) in H by lia. injection H as <- <- <-. exists evs1. split; [done|]. by right. }
  rewrite (proj2 (Z.ltb_ge fd 0)) in H by lia. cbn [sancus_ev_fd_init] in H.
  apply sys_inv in H as (r & rs & Er & H). destruct (ret r <? 0).
  - rewrite get_errno_bind in H. cbn [errno] in H. destruct (err r =? EINPROGRESS).
    + injection H as <- <- <-. exists (evs1 ++ [(SysConnect fd sa, r)]). cbn [trace].
      split; [by rewrite E1, app_assoc|]. left. split_and!; [done|done|by apply owned_quiet].
    + apply io_bind_inv in H as ([rc fd'] & w2 & Hc & H).
      apply sancus_close2_inv in Hc as (_ & evs2 & E2 & Ho2 & Hc2). cbn [trace ev_fd] in *.
      rewrite set_errno_bind in H. injection H as <- <- <-. cbn [trace].
      exists (evs1 ++ [(SysConnect fd sa, r)] ++ evs2). split; [by rewrite E2, E1, <- !app_assoc|].
      right. split; [done|]. apply (owned_then_closed fd); [done|done|done|by apply Hc2|done].
  - injection H as <- <- <-. exists (evs1 ++ [(SysConnect fd sa, r)]). cbn [trace].
    split; [by rewrite E1, app_assoc|]. left. split_and!; [done|done|by apply owned_quiet].
Qed.

(** Where a connection goes, and the call that makes it.  A path is its text. *)
Inductive target := Ipv4 (addr : list byte) (port : Z) | Ipv6 (addr : list byte) (port : Z) | Local (path : option (list byte)).

Definition connect_to (inet_pton : Z -> list byte -> Z * list byte) (old : sancus_tcp_conn) (tgt : target) (cloexec : bool)
    : io (Z * sancus_tcp_conn) :=
  match tgt with
  | Ipv4 addr port => sancus_tcp_ipv4_connect inet_pton old addr port cloexec
  | Ipv6 addr port => sancus_tcp_ipv6_connect inet_pton old addr port cloexec
  | Local path => sancus_tcp_local_connect old (cstr <$> path) cloexec
  end.

(** What reading the address says: 1 is success.  A path has to leave room for
    its end in [sun_path]. *)
Definition address_code (inet_pton : Z -> list byte -> Z * list byte) (tgt : target) : Z :=
  match tgt with
  | Ipv4 addr _ => (inet_pton AF_INET addr).1
  | Ipv6 addr _ => (inet_pton AF_INET6 addr).1
  | Local path => if zlen (default [] path) <=? sizeof_sun_path - 1 then 1 else 0
  end.

Definition target_ok (tgt : target) : Prop :=
  match tgt with Local (Some s) => no_nul s | _ => True end.

Lemma init_local_code path :
  target_ok (Local path) -> exists sun, init_local (cstr <$> path) = Ret (address_code (fun _ _ => (0, [])) (Local path), sun).
Proof.
  unfold init_local, address_code. destruct path as [s|]; cbn [fmap option_fmap option_map default target_ok].
  - intros Hs. rewrite c_strlen_plain by done. run. rewrite Z.gtb_ltb.
    pose proof (zlen_nonneg s). destruct (Z.ltb_spec (sizeof_sun_path - 1) (zlen s)).
    { rewrite (proj2 (Z.leb_gt (zlen (id s)) _)) by (unfold id; lia). by eexists. }
    rewrite (proj2 (Z.leb_le (zlen (id s)) _)) by (unfold id; lia). unfold id, cstr.
    assert (zlen (s ++ [Byte.x00]) = zlen s + 1) as Hz by (by rewrite zlen_app).
    rewrite load_ok by lia. run.
    rewrite store_ok; [run; by eexists|lia|]. rewrite zlen_sub by lia.
    unfold zlen at 2. rewrite length_replicate. unfold sizeof_sun_path in *. lia.
  - intros _. by eexists.
Qed.

(** C33. Connecting leaks no socket, over IPv4, IPv6 or a local path.  An
    address that [inet_pton] does not accept, and a path of more than 107
    bytes, opens nothing and asks the kernel nothing, whatever the reason is
    becomes the result, and the connection is left alone.  With an address
    that is accepted, on success the connection holds the socket that was opened,
    still open; on a failure everything opened has been closed. *)
Theorem tcp_connect_no_leak (inet_pton : Z -> list byte -> Z * list byte) (old self : sancus_tcp_conn)
    (tgt : target) (cloexec : bool) (v : Z) (w w' : world)
    (Hok : target_ok tgt) (H : connect_to inet_pton old tgt cloexec w = Ret ((v, self), w')) :
  if address_code inet_pton tgt =? 1
  then exists evs, trace w' = trace w ++ evs /\ owns_on_success v (ev_fd (conn_io self)) evs
  else w' = w /\ self = old /\ v = address_code inet_pton tgt.
Proof.
  destruct tgt as [addr port|addr port|path]; cbn [connect_to address_code] in *.
  - unfold sancus_tcp_ipv4_connect, conn_init_ipv4 in H. destruct (inet_pton AF_INET addr) as [e a]. cbn [fst].
    destruct (Z.eqb_spec e 1); cbn [negb] in H; [by eapply conn_init_tcp_no_leak|]. by injection H as <- <- <-.
  - unfold sancus_tcp_ipv6_connect, conn_init_ipv6 in H. destruct (inet_pton AF_INET6 addr) as [e a]. cbn [fst].
    destruct (Z.eqb_spec e 1); cbn [negb] in H; [by eapply conn_init_tcp_no_leak|]. by injection H as <- <- <-.
  - destruct (init_local_code path Hok) as [sun E]. unfold sancus_tcp_local_connect in H.
    rewrite (lift_bind _ _ _ _ E) in H. cbn [address_code] in H. set (e := if _ <=? _ then 1 else 0) in *.
    destruct (Z.eqb_spec e 1); cbn [negb] in H; [by eapply conn_init_tcp_no_leak|]. by injection H as <- <- <-.
Qed.

Definition no_time : timespec := mk_ts 0 0.

(** An address that is accepted, and one that is not. *)
Lemma tcp_connect_no_leak_witness :
  let old := TcpConn (EvFd (-1) false) SANCUS_TCP_CONN_FAILED no_time in
  let self := TcpConn (EvFd 5 true) SANCUS_TCP_CONN_INPROGRESS no_time in
  let w' := World [] [(SysSocket 2 (Z.lor 1 SOCK_NONBLOCK) 0, ok 5); (SysGetfl 5, ok 2050);
      (SysConnect 5 (sockaddr_in 80 [Byte.x7f; Byte.x00; Byte.x00; Byte.x01]), fails EINPROGRESS)] EINPROGRESS in
  (exists evs, trace w' = trace (World [ok 5; ok 2050; fails EINPROGRESS] [] 0) ++ evs /\
    owns_on_success 1 (ev_fd (conn_io self)) evs) /\
  (World [ok 5] [] 0 = World [ok 5] [] 0 /\ old = old /\ 0 = 0).
Proof.
  split.
  - apply (tcp_connect_no_leak (fun _ _ => (1, [Byte.x7f; Byte.x00; Byte.x00; Byte.x01]))
      (TcpConn (EvFd (-1) false) SANCUS_TCP_CONN_FAILED no_time) _ (Ipv4 (cstr (lit "127.0.0.1")) 80) false 1
      (World [ok 5; ok 2050; fails EINPROGRESS] [] 0)); by vm_compute.
  - apply (tcp_connect_no_leak (fun _ _ => (0, []))
      (TcpConn (EvFd (-1) false) SANCUS_TCP_CONN_FAILED no_time) _ (Ipv4 (cstr (lit "nowhere")) 80) false 0
      (World [ok 5] [] 0)); by vm_compute.
Defined.

(** A [pre_bind] callback that does no more than tweak the socket. *)
Definition pre_bind_ok (st : sancus_tcp_server_settings) : Prop :=
  forall f s w s' w', pre_bind st = Some f -> f s w = Ret (s', w') ->
    connect s' = connect s /\ exists evs, trace w' = trace w ++ evs /\ opened evs = [] /\ closes evs = [].

(** The same for servers. *)
Lemma server_init_tcp_no_leak st old family sa cloexec backlog v self w w' :
  pre_bind_ok st -> server_init_tcp st old family sa cloexec backlog w = Ret ((v, self), w') ->
  exists evs, trace w' = trace w ++ evs /\ owns_on_success v (ev_fd (connect self)) evs.
Proof.
  intros Hpre. unfold server_init_tcp. intros (fd & w1 & Hs & H)%io_bind_inv.
  apply socket_inv in Hs as (evs1 & E1 & [(Hfd & Ho1 & Hc1)|[Hfd Ho1]]).
  2:{ rewrite (proj2 (Z.ltb_lt fd 0)) in H by lia. injection H as <- <- <-. exists evs1. split; [done|]. by right. }
  rewrite (proj2 (Z.ltb_ge fd 0)) in H by lia.
  apply io_bind_inv in H as ([] & w2 & Hopt & H).
  assert (exists evs2, trace w2 = trace w1 ++ evs2 /\ opened evs2 = [] /\ closes evs2 = []) as (evs2 & E2 & Ho2 & Hc2).
  { destruct (negb (family =? AF_LOCAL)).
    - apply sys_inv in Hopt as (r1 & rs1 & _ & Hopt). apply sys_inv in Hopt as (r2 & rs2 & _ & Hopt).
      apply sys_inv in Hopt as (r3 & rs3 & _ & Hopt). injection Hopt as <-. cbn [trace].
      eexists. rewrite <- !app_assoc. done.
    - injection Hopt as <-. exists []. by rewrite app_nil_r. }
  cbn [sancus_ev_fd_init] in H. apply io_bind_inv in H as (self1 & wp & Hp & H).
  assert (ev_fd (connect self1) = fd /\ exists evsp, trace wp = trace w2 ++ evsp /\ opened evsp = [] /\ closes evsp = [])
    as (Efd & evsp & Ep & Hop & Hcp).
  { destruct (pre_bind st) as [f|] eqn:Ef.
    - apply (Hpre f) in Hp as (-> & Hp); [|done]. by split.
    - injection Hp as <- <-. split; [done|]. exists []. rewrite app_nil_r. done. }
  apply sys_inv in H as (b & rs & _ & H). apply io_bind_inv in H as (failed & w3 & Hl & H).
  assert (exists evs3, trace w3 = trace w2 ++ evs3 /\ opened evs3 = [] /\ closes evs3 = []) as (evs3 & E3 & Ho3 & Hc3).
  { assert (exists e, trace w3 = trace wp ++ e /\ opened e = [] /\ closes e = []) as (e & Ee & Ho & Hc).
    { destruct (ret b <? 0); [injection Hl as <- <-; by eexists|].
      apply sys_inv in Hl as (l & rs2 & _ & Hl). injection Hl as <- <-. cbn [trace]. eexists. by rewrite <- !app_assoc. }
    exists (evsp ++ e). split_and!; [by rewrite Ee, Ep, app_assoc|by rewrite opened_app, Hop, Ho|].
    by rewrite closes_app, Hc, app_nil_r. }
  destruct failed.
  - rewrite get_errno_bind in H. apply io_bind_inv in H as ([rc fd'] & w4 & Hc & H).
    apply sancus_close2_inv in Hc as (_ & evs4 & E4 & Ho4 & Hc4). cbn [connect ev_fd] in *.
    rewrite set_errno_bind in H. injection H as <- <- <-. cbn [trace].
    exists (evs1 ++ (evs2 ++ evs3) ++ evs4). split; [by rewrite E4, E3, E2, E1, <- !app_assoc|].
    right. split; [done|]. apply (owned_then_closed fd); [done| |done|apply Hc4; congruence|done]. by rewrite opened_app, Ho2, Ho3.
  - injection H as <- <- <-. exists (evs1 ++ (evs2 ++ evs3)). split; [by rewrite E3, E2, E1, <- !app_assoc|].
    left. rewrite Efd. split_and!; [done|done|]. left.
    rewrite !opened_app, !closes_app, Ho1, Ho2, Ho3, Hc1, Hc2, Hc3. done.
Qed.

(** ** The connection's state machine *)

(** A connection that is still in progress is taken for connected at the
    first event, whatever became of it: [SANCUS_EV_READ] is 0, so the branch
    that asks the socket for its error is never taken; no system call is
    made, the user is told of a connection, and the state is RUNNING. *)
Theorem refused_connect_reported_as_connected (st : sancus_tcp_conn_settings) (loop : sancus_ev_loop)
    (self self1 : sancus_tcp_conn) (revents : Z) (w w1 : world)
    (Hst : state self = SANCUS_TCP_CONN_INPROGRESS)
    (Hne : has_event revents EV_ERROR = false) (Hwr : has_event revents EV_WRITE = true)
    (Hon : conn_on_connect st (TcpConn (EvFd (ev_fd (conn_io self)) true) SANCUS_TCP_CONN_INPROGRESS (last_activity self)) w
           = Ret (self1, w1)) :
  io_cb st loop self revents w =
    Ret (TcpConn (conn_io self1) SANCUS_TCP_CONN_RUNNING (now loop), w1).
Proof.
  unfold io_cb, connect_done. rewrite Hne, Hst, Hwr, no_read_event. cbn [c_assert].
  rewrite !(lift_bind _ tt) by done. cbn [sancus_ev_fd_init]. by rewrite (io_bind_eq _ _ _ _ _ Hon).
Qed.

Definition quiet_conn : sancus_tcp_conn_settings :=
  ConnSettings (fun c => mret c) (fun c => mret c) (fun c _ => mret c).

Lemma refused_connect_reported_as_connected_witness :
  io_cb quiet_conn (EvLoop (mk_ts 9 0)) (TcpConn (EvFd 5 true) SANCUS_TCP_CONN_INPROGRESS no_time) 1 (World [] [] 0) =
    Ret (TcpConn (EvFd 5 true) SANCUS_TCP_CONN_RUNNING (mk_ts 9 0), World [] [] 0).
Proof.
  apply (refused_connect_reported_as_connected quiet_conn (EvLoop (mk_ts 9 0))
    (TcpConn (EvFd 5 true) SANCUS_TCP_CONN_INPROGRESS no_time)
    (TcpConn (EvFd 5 true) SANCUS_TCP_CONN_INPROGRESS no_time) 1 (World [] [] 0) (World [] [] 0)); done.
Defined.

(** FAILED is final: any event but an error of the watcher is a defect of the
    caller, and RUNNING is never left. *)
Lemma io_cb_final st loop self revents w :
  has_event revents EV_ERROR = false ->
  (state self = SANCUS_TCP_CONN_FAILED -> io_cb st loop self revents w = Aborted) /\
  (state self = SANCUS_TCP_CONN_RUNNING -> io_cb st loop self revents w = Ret (self, w)).
Proof. intros He. unfold io_cb. rewrite He, no_read_event. by split; intros ->. Qed.

(** A server never accepts, for the same reason. *)
Lemma connect_cb_never_accepts st self revents :
  has_event revents EV_ERROR = false -> connect_cb st self revents = fun w => Ret (self, w).
Proof. intros H. unfold connect_cb. by rewrite H, no_read_event. Qed.

(** ** Local addresses *)

(** A path of at most 107 bytes is copied with its terminator, a longer one
    is refused; nothing is written outside the field. *)
Lemma init_local_ok s t :
  no_nul s ->
  init_local (Some (cstr s ++ t)) =
    Ret (if zlen s <=? 107 then (1, splice (replicate (Z.to_nat 108) Byte.x00) 0 (cstr s))
         else (0, replicate (Z.to_nat 108) Byte.x00)).
Proof.
  intros Hs. pose proof (zlen_nonneg s). unfold init_local. rewrite (c_strlen_cstr s t Hs). run.
  change (sizeof_sun_path - 1) with 107. rewrite Z.gtb_ltb.
  change (default [Byte.x00] (Some (cstr s ++ t))) with (cstr s ++ t).
  destruct (Z.ltb_spec 107 (zlen s)), (Z.leb_spec (zlen s) 107); try lia; [done|].
  assert (zlen (cstr s) = zlen s + 1) as Ec by (unfold cstr; rewrite zlen_app; done).
  rewrite load_ok by (rewrite ?zlen_app, ?Ec; pose proof (zlen_nonneg t); lia). run.
  rewrite <- Ec, sub_app_l, sub_all by lia. rewrite store_ok; [done|lia|].
  change (zlen (replicate (Z.to_nat sizeof_sun_path) Byte.x00)) with 108. lia.
Qed.
