(* ===== verification/TcpLife.v ===== *)
(** * TcpLife

    The life of a connection of [Tcp], from a successful connect on, as a
    step relation: the program may start, stop and close it, and the event
    loop may call [io_cb] while the descriptor is open, and in between the
    program does what it likes.  The specification is an automaton of four
    phases, for a component that owns one descriptor.  The refinement holds for whatever numbers the
    event library has for its events; what the numbers of ev.h make of a
    connection is a theorem of its own. *)

From stdpp Require Import gmap relations.
From S2P Require Import Prelude Sys Live Fd Time Ev Tcp.
#[local] Open Scope Z_scope.

(** ** Descriptors *)

(** [sancus_tcp_conn_fd] @ include/sancus/tcp_conn.h:65-65. *)
Definition sancus_tcp_conn_fd (c : sancus_tcp_conn) : Z := ev_fd (conn_io c).

(** ** The specification *)

Inductive phase := Pending | Established | Failed | Closed.

(** What may happen to a connection: it is established or fails once, and is
    closed once. *)
Inductive life : phase -> phase -> Prop :=
  | life_connect : life Pending Established
  | life_fail : life Pending Failed
  | life_abandon : life Pending Closed
  | life_drop : life Failed Closed
  | life_close : life Established Closed.

(** How a connection stands for a phase. *)
Inductive shows : sancus_tcp_conn -> phase -> Prop :=
  | shows_pending c :
      0 <= sancus_tcp_conn_fd c ->
      state c = SANCUS_TCP_CONN_INPROGRESS \/ state c = SANCUS_TCP_CONN_CONNECTED -> shows c Pending
  | shows_established c :
      0 <= sancus_tcp_conn_fd c -> state c = SANCUS_TCP_CONN_RUNNING -> shows c Established
  | shows_failed c :
      0 <= sancus_tcp_conn_fd c -> state c = SANCUS_TCP_CONN_FAILED -> shows c Failed
  | shows_closed c : sancus_tcp_conn_fd c < 0 -> shows c Closed.

Create HintDb life.
#[local] Hint Constructors life shows rtc : life.

Lemma shows_total c : exists p, shows c p.
Proof.
  destruct (Z.ltb_spec (sancus_tcp_conn_fd c) 0); [eauto with life|].
  destruct (state c) eqn:E; eauto with life.
Qed.

(** The phase a connection is in. *)
Definition phase_of (c : sancus_tcp_conn) : phase :=
  if sancus_tcp_conn_fd c <? 0 then Closed
  else match state c with
       | SANCUS_TCP_CONN_INPROGRESS | SANCUS_TCP_CONN_CONNECTED => Pending
       | SANCUS_TCP_CONN_RUNNING => Established
       | SANCUS_TCP_CONN_FAILED => Failed
       end.

Lemma shows_phase c p : shows c p -> p = phase_of c.
Proof.
  unfold phase_of. destruct 1 as [c Hf [Hs|Hs]|c Hf Hs|c Hf Hs|c Hf];
    rewrite ?(proj2 (Z.ltb_ge _ _) Hf), ?(proj2 (Z.ltb_lt _ _) Hf), ?Hs; done.
Qed.

Lemma phase_shows c : shows c (phase_of c).
Proof. destruct (shows_total c) as [p Hp]. by rewrite <- (shows_phase c p). Qed.

(** Nothing leads away from the end, and no phase is met again. *)
Lemma life_closed p : rtc life Closed p -> p = Closed.
Proof. inversion 1 as [|? ? ? Hl]; [done|]. inversion Hl. Qed.

Lemma life_established p : rtc life Established p -> p = Established \/ p = Closed.
Proof.
  inversion 1 as [|? ? ? Hl Hr]; [by left|]. right.
  inversion Hl; subst. by apply life_closed.
Qed.

Lemma life_failed p : rtc life Failed p -> p = Failed \/ p = Closed.
Proof.
  inversion 1 as [|? ? ? Hl Hr]; [by left|]. right.
  inversion Hl; subst. by apply life_closed.
Qed.

Lemma life_antisym p q : rtc life p q -> rtc life q p -> p = q.
Proof.
  intros H1 H2. destruct p, q; try done; exfalso;
    repeat match goal with
    | H : rtc life Closed _ |- _ => apply life_closed in H; done
    | H : rtc life Established _ |- _ => apply life_established in H as [H|H]; try done; clear H
    | H : rtc life Failed _ |- _ => apply life_failed in H as [H|H]; try done; clear H
    end.
Qed.

(** ** Callbacks

    What the life of a connection asks of the user: a callback may close the
    connection it is given, and otherwise leaves its watcher and state; it
    opens no descriptor that it keeps. *)

#[local] Abbreviation kept := (kept sancus_tcp_conn_fd).

Definition polite (cb : sancus_tcp_conn -> io sancus_tcp_conn) : Prop :=
  forall c w c' w', 0 <= sancus_tcp_conn_fd c -> cb c w = Ret (c', w') ->
    kept c c' w w' /\ state c' = state c.

Class Polite (st : sancus_tcp_conn_settings) : Prop := {
  polite_read : polite (conn_on_read st);
  polite_connect : polite (conn_on_connect st);
  polite_error : forall e, polite (fun c => conn_on_error st c e)
}.

Lemma polite_nothing : polite (fun c => mret c).
Proof.
  intros c w c' w' Hc H. injection H as <- <-. split; [apply kept_refl|done].
Qed.

Lemma conn_close_inv c w c' w' :
  sancus_tcp_conn_close c w = Ret (c', w') ->
  kept c c' w w' /\ c' = TcpConn (EvFd (-1) (ev_cb (conn_io c))) (state c) (last_activity c).
Proof.
  unfold sancus_tcp_conn_close, sancus_tcp_conn_fd. rewrite Z.geb_leb.
  destruct (Z.leb_spec 0 (ev_fd (conn_io c))); [|done]. cbn [c_assert sancus_ev_is_active negb].
  rewrite !(lift_bind _ tt) by done. intros ([rc fd] & w1 & Hc & H')%io_bind_inv.
  apply sancus_close2_inv in Hc as (Hfd & evs & E & Ho & Hcl). cbn in Hfd. subst fd.
  injection H' as <- <-. split; [|done]. exists evs. split; [done|]. split; [done|].
  right. split; [cbn; lia|by apply Hcl].
Qed.

(** Closing is polite. *)
Lemma polite_close : polite sancus_tcp_conn_close.
Proof.
  intros c w c' w' Hc H. by apply conn_close_inv in H as (Hk & ->).
Qed.

(** A client that does nothing, and one that gives up on errors. *)
#[export] Instance quiet_polite : Polite quiet_conn.
Proof. split; intros; apply polite_nothing. Qed.

Definition closing_conn : sancus_tcp_conn_settings :=
  ConnSettings (fun c => mret c) (fun c => mret c) (fun c _ => sancus_tcp_conn_close c).

#[export] Instance closing_polite : Polite closing_conn.
Proof. split; intros; [apply polite_nothing|apply polite_nothing|apply polite_close]. Qed.

(** An assertion that let the run go on. *)
Lemma assert_inv {B} b (f : unit -> io B) w x : (lift (c_assert b) ≫= f) w = Ret x -> b = true /\ f tt w = Ret x.
Proof. by destruct b. Qed.

(** ** The steps *)

Section Life.
Context (st : sancus_tcp_conn_settings).

(** A step, with what the program opens in it. *)
Inductive conn_step {F : EvFlags} : sancus_tcp_conn * world -> gset Z -> sancus_tcp_conn * world -> Prop :=
  | step_start c loop w : conn_step (c, w) ∅ (sancus_tcp_conn_start c loop, w)
  | step_stop c w w' : sancus_tcp_conn_stop c w = Ret (tt, w') -> conn_step (c, w) ∅ (c, w')
  | step_close c w c' w' : sancus_tcp_conn_close c w = Ret (c', w') -> conn_step (c, w) ∅ (c', w')
  | step_event c loop revents w c' w' :
      0 <= sancus_tcp_conn_fd c -> io_cb st loop c revents w = Ret (c', w') ->
      conn_step (c, w) ∅ (c', w')
  | step_other c w w' evs :
      trace w' = trace w ++ evs -> sancus_tcp_conn_fd c ∉ closes evs ->
      conn_step (c, w) (list_to_set (opened evs)) (c, w').

Definition conn_run {F : EvFlags} := run conn_step.

Context `{Hst : !Polite st} {F : EvFlags}.

(** From a phase one gets to another, and keeps the descriptor or gives it
    back. *)
Definition steps_life (c c' : sancus_tcp_conn) (w w' : world) (p : phase) : Prop :=
  kept c c' w w' /\ exists p', shows c' p' /\ rtc life p p'.

(** A polite callback keeps the phase or closes. *)
Lemma callback_steps cb c w c' w' p :
  polite cb -> 0 <= sancus_tcp_conn_fd c -> shows c p -> cb c w = Ret (c', w') -> steps_life c c' w w' p.
Proof.
  intros Hcb Hfd Hp H. apply Hcb in H as (Hk & Es); [|done]. split; [done|].
  destruct Hk as (evs & _ & _ & [[Ef _]|[Ef _]]).
  - exists p. split; [|apply rtc_refl].
    inversion Hp; subst; [apply shows_pending|apply shows_established|apply shows_failed|lia];
      rewrite ?Ef, ?Es; done.
  - exists Closed. split; [by apply shows_closed|]. inversion Hp; subst; eauto with life.
Qed.

(** The time of the last activity is no part of a phase. *)
Lemma touch_steps c c' loop w w' p :
  steps_life c c' w w' p -> steps_life c (sancus_tcp_conn_touch c' loop) w w' p.
Proof.
  intros (Hk & p' & Hp & Hl). split; [exact Hk|]. exists p'. split; [|done]. inversion Hp; subst; eauto with life.
Qed.

Lemma connect_done_steps loop c w c' w' :
  shows c Pending -> connect_done st loop c w = Ret (c', w') -> steps_life c c' w w' Pending.
Proof.
  intros Hp Hd. assert (0 <= sancus_tcp_conn_fd c) as Hfd by by inversion Hp.
  unfold connect_done in Hd. cbn [sancus_ev_fd_init] in Hd.
  apply io_bind_inv in Hd as (c1 & w1 & Hon & Hd). injection Hd as <- <-.
  apply polite_connect in Hon as (Hk & _); [|done]. split; [exact Hk|].
  destruct Hk as (evs & _ & _ & [[Ef _]|[Ef _]]).
  - exists Established. split; [apply shows_established; [|done]|eauto with life].
    change (0 <= sancus_tcp_conn_fd c1). rewrite Ef. exact Hfd.
  - exists Closed. split; [by apply shows_closed|eauto with life].
Qed.

(** Asking for the error of the socket, whatever is done with it. *)
Lemma asked_steps c c' w w' p sc r :
  opened [(sc, r)] = [] -> closes [(sc, r)] = [] ->
  (exists w1, trace w1 = trace w ++ [(sc, r)] /\ steps_life c c' w1 w' p) -> steps_life c c' w w' p.
Proof.
  intros Ho Hc (w1 & E1 & Hk & Hp). split; [|done].
  eapply kept_trans; [by apply (kept_quiet _ _ _ _ [(sc, r)])|exact Hk].
Qed.

(** Every event on an open connection is a step of its life. *)
Lemma io_cb_simulates c loop revents w c' w' p :
  0 <= sancus_tcp_conn_fd c -> shows c p -> io_cb st loop c revents w = Ret (c', w') ->
  steps_life c c' w w' p.
Proof.
  intros Hfd Hp H. unfold io_cb in H. destruct (has_event revents EV_ERROR).
  { eapply (callback_steps (fun c => conn_on_error st c SANCUS_TCP_CONN_WATCHER_ERROR));
      [exact (polite_error _)|done|done|exact H]. }
  inversion Hp as [? _ [Es|Es]|? _ Es|? _ Es|]; subst; [| | | |lia]; rewrite Es in H.
  - apply assert_inv in H as [_ H]. destruct (has_event revents EV_READ).
    2:{ apply assert_inv in H as [_ H]. by eapply connect_done_steps. }
    apply sys_inv in H as (r & rs & _ & H). apply (asked_steps _ _ _ _ _ (SysGetsockerr (ev_fd (conn_io c))) r); [done|done|].
    match type of H with _ ?w0 = _ => exists w0 end. split; [done|]. destruct (negb _ && _); [by eapply connect_done_steps|].
    apply io_bind_inv in H as ([] & w1 & He & H).
    assert (trace w1 = trace w ++ [(SysGetsockerr (ev_fd (conn_io c)), r)]) as E1
      by (destruct (ret r <? 0); injection He as <-; done).
    assert (steps_life (set_state c SANCUS_TCP_CONN_FAILED) c' w1 w' Failed) as ((evs & E & Hk) & p' & Hp' & Hl).
    { eapply (callback_steps (fun c => conn_on_error st c SANCUS_TCP_CONN_CONNECT_ERROR));
        [exact (polite_error _)|done|by apply shows_failed|exact H]. }
    split; [exists evs; split; [by rewrite E, E1|exact Hk]|]. exists p'. split; [done|].
    eapply rtc_l; [apply life_fail|done].
  - apply assert_inv in H as [_ H]. by eapply connect_done_steps.
  - destruct (has_event revents EV_READ).
    + apply io_bind_inv in H as (c1 & w1 & Hon & H). injection H as <- <-. apply touch_steps.
      eapply callback_steps; [exact polite_read|done|done|exact Hon].
    + injection H as <- <-. split; [apply kept_refl|]. exists Established. split; [done|apply rtc_refl].
  - done.
Qed.

(** A step does something to the connection, or the program does something
    else. *)
Lemma conn_step_simulates x T y p :
  conn_step x T y -> shows x.1 p ->
  steps_life x.1 y.1 x.2 y.2 p \/
  (y.1 = x.1 /\ exists evs, trace y.2 = trace x.2 ++ evs /\ T = list_to_set (opened evs) /\
     sancus_tcp_conn_fd x.1 ∉ closes evs).
Proof.
  intros H Hp. destruct H as [c loop w|c w w' Hs|c w c' w' Hc|c loop revents w c' w' Hfd Hev|c w w' evs E Hc];
    cbn [fst snd] in *; [left..|].
  - unfold sancus_tcp_conn_start. cbn [sancus_ev_is_active negb].
    destruct (sancus_time_is_zero (last_activity c)); (split; [exact (kept_refl _ c w)|]); exists p;
      (split; [|apply rtc_refl]); [inversion Hp; subst; eauto with life|done].
  - injection Hs as <-. split; [apply kept_refl|]. exists p. split; [done|apply rtc_refl].
  - apply conn_close_inv in Hc as (Hk & ->). split; [done|]. exists Closed.
    split; [apply shows_closed; cbn; lia|]. inversion Hp; subst; eauto with life.
  - by eapply io_cb_simulates.
  - right. split; [done|]. by exists evs.
Qed.

Lemma conn_step_holds x T y :
  conn_step x T y -> exists evs, trace y.2 = trace x.2 ++ evs /\ holds_on sancus_tcp_conn_fd x.1 y.1 T evs.
Proof.
  intros H. destruct (shows_total x.1) as [p Hp].
  destruct (conn_step_simulates _ _ _ _ H Hp) as [[(evs & E & Hk) _]|(-> & evs & E & -> & Hc)]; exists evs;
    (split; [done|]); [by apply keeps_holds|by apply others_hold].
Qed.

(** Any number of steps. *)
Lemma life_simulates x T y : conn_run x T y -> forall p, shows x.1 p -> exists p', shows y.1 p' /\ rtc life p p'.
Proof.
  induction 1 as [x|x T y T' z _ IH Hs]; intros p Hp; [exists p; split; [done|apply rtc_refl]|].
  destruct (IH p Hp) as (p1 & Hp1 & Hl1).
  destruct (conn_step_simulates _ _ _ _ Hs Hp1) as [(_ & p2 & Hp2 & Hl2)|[-> _]]; [|by exists p1].
  exists p2. split; [done|by etrans].
Qed.

(** ** What becomes of a pending connection *)

(** The kernel is asked for the error of the socket, and whether it has one. *)
Definition asks (c : sancus_tcp_conn) (revents : Z) : Prop :=
  state c = SANCUS_TCP_CONN_INPROGRESS /\ has_event revents EV_READ = true.

Definition answered (c : sancus_tcp_conn) (w w' : world) (refused : bool) : Prop :=
  exists r rest, trace w' = trace w ++ (SysGetsockerr (sancus_tcp_conn_fd c), r) :: rest /\
    refused = (ret r <? 0) || negb (nth 0 (outs r) 0 =? 0).

(** An event takes it out of its phase: the callback closes it, or it is
    established, which it is not when the kernel reports an error, or it has
    failed, which it has only then. *)
Definition settles (c : sancus_tcp_conn) (revents : Z) (w : world) (c' : sancus_tcp_conn) (w' : world) : Prop :=
  phase_of c' = Closed \/
  (phase_of c' = Established /\ (asks c revents -> answered c w w' false)) \/
  (phase_of c' = Failed /\ asks c revents /\ answered c w w' true).

Lemma connect_done_settles loop c w c' w' :
  0 <= sancus_tcp_conn_fd c -> connect_done st loop c w = Ret (c', w') ->
  (phase_of c' = Closed \/ phase_of c' = Established) /\ exists evs, trace w' = trace w ++ evs.
Proof.
  intros Hfd Hd. unfold connect_done in Hd. cbn [sancus_ev_fd_init] in Hd.
  apply io_bind_inv in Hd as (c1 & w1 & Hon & Hd). injection Hd as <- <-.
  apply polite_connect in Hon as ((evs & E & _ & Hk) & _); [|done]. split; [|by exists evs].
  destruct Hk as [[Ef _]|[Ef _]]; [right|left]; symmetry; apply shows_phase.
  - apply shows_established; [|done]. change (0 <= sancus_tcp_conn_fd c1). rewrite Ef. exact Hfd.
  - by apply shows_closed.
Qed.

Lemma pending_settles c loop revents w c' w' :
  phase_of c = Pending -> has_event revents EV_ERROR = false ->
  io_cb st loop c revents w = Ret (c', w') -> settles c revents w c' w'.
Proof.
  intros Hp He H. pose proof (phase_shows c) as Hs. rewrite Hp in Hs. unfold io_cb in H. rewrite He in H.
  inversion Hs as [? Hfd [Es|Es]| | |]; subst; rewrite Es in H; apply assert_inv in H as [_ H]; unfold settles, asks; rewrite Es.
  - destruct (has_event revents EV_READ) eqn:Er.
    2:{ apply assert_inv in H as [_ H]. apply connect_done_settles in H as [[?|?] _]; [by left|right; left|done].
        split; [done|]. by intros [_ ?]. }
    apply sys_inv in H as (r & rs & _ & H). destruct (negb (ret r <? 0) && (nth 0 (outs r) 0 =? 0)) eqn:Eok.
    + apply connect_done_settles in H as [[?|?] (evs & E)]; [by left|right; left|done]. split; [done|]. intros _.
      exists r, evs. cbn [trace] in E. rewrite <- app_assoc in E. split; [exact E|].
      apply andb_true_iff in Eok as [->%negb_true_iff ->]. done.
    + apply io_bind_inv in H as ([] & w1 & Hset & H).
      assert (trace w1 = trace w ++ [(SysGetsockerr (sancus_tcp_conn_fd c), r)]) as E1
        by (destruct (ret r <? 0); injection Hset as <-; done).
      apply polite_error in H as ((evs & E & _ & Hk) & Est); [|done].
      destruct Hk as [[Ef _]|[Ef _]]; [right; right|left; symmetry; apply shows_phase; by apply shows_closed].
      split_and!; [symmetry; apply shows_phase; apply shows_failed; [by rewrite Ef|by rewrite Est]|done|done|].
      exists r, evs. split; [by rewrite E, E1, <- app_assoc|].
      destruct (ret r <? 0); [done|]. cbn [negb andb orb] in *. by rewrite Eok.
  - apply connect_done_settles in H as [[?|?] _]; [by left|right; left|done]. split; [done|]. by intros [? _].
Qed.
End Life.

(** A successful connect leaves a pending connection. *)
Lemma conn_init_pending old family sa cloexec self w w' :
  conn_init_tcp old family sa cloexec w = Ret ((1, self), w') ->
  shows self Pending /\
  exists evs, trace w' = trace w ++ evs /\ opened evs = [sancus_tcp_conn_fd self] /\ closes evs = [].
Proof.
  intros H. pose proof (conn_init_tcp_no_leak _ _ _ _ _ _ _ _ H) as (evs & E & [(_ & Hfd & Ho)|[? _]]); [|done].
  split; [|exists evs; destruct Ho as [(_ & Ho)|[? _]]; [done|lia]]. apply shows_pending; [done|].
  unfold conn_init_tcp in H. apply io_bind_inv in H as (fd & w1 & _ & H).
  destruct (fd <? 0); [done|]. cbn [sancus_ev_fd_init] in H.
  apply sys_inv in H as (r & rs & _ & H). destruct (ret r <? 0).
  - rewrite get_errno_bind in H. cbn [errno] in H.
    destruct (err r =? EINPROGRESS); [injection H as <- <-; by left|].
    apply io_bind_inv in H as ([] & w2 & _ & H). rewrite set_errno_bind in H. done.
  - injection H as <- <-. by right.
Qed.

(** ** Properties *)

(** C9. A connection refines its specification.  Let the program start, stop
    and close it and do other things, the event library report events, and the
    callbacks be polite (they may close the connection, and otherwise leave its
    watcher and state, and open nothing that they keep), in any order.  From a
    successful connect on the connection is pending, then established or
    failed, then closed, and between any two moments of the run it has only gone
    forward.  An event without error settles a pending connection: unless the
    callback closes it, it is established, or has failed exactly when the kernel
    was asked and reported an error.  At every moment its socket is open unless
    it is closed, and every descriptor that is open was open before, was opened
    by the program itself, or is that socket.  The kernel hands out no
    descriptor that is held. *)
Theorem tcp_life_refines {F : EvFlags} (st : sancus_tcp_conn_settings) (Hst : Polite st)
    (old self c1 c2 : sancus_tcp_conn) (family : Z) (sa : list byte) (cloexec : bool)
    (before T1 T2 : gset Z) (w w' w1 w2 : world)
    (Hinit : conn_init_tcp old family sa cloexec w = Ret ((1, self), w'))
    (Hrun1 : conn_run st (self, w') T1 (c1, w1)) (Hrun2 : conn_run st (c1, w1) T2 (c2, w2)) :
  rtc life Pending (phase_of c1) /\ rtc life (phase_of c1) (phase_of c2) /\
  (forall loop revents c' w'', phase_of c1 = Pending -> has_event revents EV_ERROR = false ->
     io_cb st loop c1 revents w1 = Ret (c', w'') -> settles c1 revents w1 c' w'') /\
  exists evs, trace w1 = trace w ++ evs /\
    (fresh before evs ->
       live before evs ⊆ before ∪ T1 ∪ held_by sancus_tcp_conn_fd c1 /\
       (0 <= sancus_tcp_conn_fd c1 -> sancus_tcp_conn_fd c1 ∈ live before evs)).
Proof.
  destruct (conn_init_pending _ _ _ _ _ _ _ Hinit) as (Hp & evs0 & E & Ho & Hc).
  destruct (life_simulates st _ _ _ Hrun1 Pending Hp) as (p1 & Hp1%shows_phase & Hl1).
  destruct (life_simulates st _ _ _ Hrun2 _ (phase_shows c1)) as (p2 & Hp2%shows_phase & Hl2). subst p1 p2.
  split_and!; [done|done|intros; by eapply pending_settles|].
  assert (0 <= sancus_tcp_conn_fd self) as Hfd by by inversion Hp.
  destruct (opened_held sancus_tcp_conn_fd self evs0 before Hfd Ho Hc) as [Hlv Hin].
  by apply (run_holds _ _ (conn_step_holds st) _ _ _ Hrun1 before before (trace w) evs0).
Qed.

(** A connect that is refused, found out by a library that reports the socket
    as readable too; the client closes, and opens a file under the same
    number. *)
Lemma tcp_life_refines_witness :
  let asked := Answer 0 0 [] [111] in
  let evs := [(SysSocket 2 (Z.lor 1 SOCK_NONBLOCK) 0, ok 5); (SysGetfl 5, ok 2050);
    (SysConnect 5 [], fails EINPROGRESS)] in
  let c1 := TcpConn (EvFd 5 true) SANCUS_TCP_CONN_INPROGRESS no_time in
  let c := TcpConn (EvFd (-1) true) SANCUS_TCP_CONN_FAILED no_time in
  let w1 := World [asked; ok 0; ok 5] evs EINPROGRESS in
  rtc life Pending (phase_of c1) /\ rtc life (phase_of c1) (phase_of c) /\
  settles (F := bits_flags) c1 3 w1 c (World [ok 5] (evs ++ [(SysGetsockerr 5, asked); (SysClose 5, ok 0)]) 111) /\
  exists evs', trace w1 = trace (World [ok 5; ok 2050; fails EINPROGRESS; asked; ok 0; ok 5] [] 0) ++ evs' /\
    (fresh ∅ evs' ->
       live ∅ evs' ⊆ ∅ ∪ ∅ ∪ held_by sancus_tcp_conn_fd c1 /\ (0 <= 5 -> 5 ∈ live ∅ evs')).
Proof.
  intros asked evs c1 c w1.
  pose proof (tcp_life_refines (F := bits_flags) closing_conn _ (TcpConn (EvFd (-1) false) SANCUS_TCP_CONN_FAILED no_time)
    c1 c1 c AF_INET [] false ∅ ∅ (∅ ∪ ∅ ∪ list_to_set (opened [(SysOpenat AT_FDCWD [] 0 0, ok 5)]))
    (World [ok 5; ok 2050; fails EINPROGRESS; asked; ok 0; ok 5] [] 0) w1 w1
    (World [] (evs ++ [(SysGetsockerr 5, asked); (SysClose 5, ok 0)] ++ [(SysOpenat AT_FDCWD [] 0 0, ok 5)]) 111)
    ltac:(by vm_compute) (run_none _ _)) as H.
  destruct H as (H1 & H2 & H3 & H4).
  { apply (run_more _ _ _ (c, World [ok 5] (evs ++ [(SysGetsockerr 5, asked); (SysClose 5, ok 0)]) 111)).
    - apply (run_more _ _ _ (c1, w1)); [apply run_none|].
      apply (step_event _ _ (EvLoop (mk_ts 9 0)) 3); [by vm_compute|by vm_compute].
    - apply step_other; [done|]. cbn. apply not_elem_of_nil. }
  split_and!; [done|done|by apply (H3 (EvLoop (mk_ts 9 0)))|done].
Defined.

(** The events of a connection, one after the other. *)
Fixpoint run_events (st : sancus_tcp_conn_settings) (self : sancus_tcp_conn)
    (es : list (sancus_ev_loop * Z)) : io sancus_tcp_conn :=
  match es with
  | [] => mret self
  | (loop, revents) :: es => self ← io_cb st loop self revents; run_events st self es
  end.

Lemma run_events_running st self es w :
  state self = SANCUS_TCP_CONN_RUNNING ->
  Forall (fun e => has_event e.2 EV_ERROR = false) es ->
  run_events st self es w = Ret (self, w).
Proof.
  intros Hs. induction 1 as [|[loop revents] es He _ IH]; [done|]. cbn [run_events].
  by rewrite (io_bind_eq _ _ _ _ _ (proj2 (io_cb_final st loop self revents w He) Hs)).
Qed.

(** C29. With the numbers of ev.h a pending connection is established by the
    first writable event, whatever it was waiting for, and by no later one: [on_connect] runs exactly
    once, and of all the events that follow, readable or not, none has any
    effect until an error; no data ever arrives. *)
Theorem first_event_establishes (st : sancus_tcp_conn_settings) (self self1 : sancus_tcp_conn)
    (loop : sancus_ev_loop) (revents : Z) (es : list (sancus_ev_loop * Z)) (w w1 : world)
    (Hp : shows self Pending)
    (Hwr : has_event revents EV_WRITE = true)
    (Hne : Forall (fun e => has_event e.2 EV_ERROR = false) ((loop, revents) :: es))
    (Hon : conn_on_connect st (TcpConn (EvFd (sancus_tcp_conn_fd self) true) (state self) (last_activity self)) w
           = Ret (self1, w1)) :
  run_events st self ((loop, revents) :: es) w =
    Ret (TcpConn (conn_io self1) SANCUS_TCP_CONN_RUNNING (now loop), w1).
Proof.
  apply Forall_cons in Hne as [He Hne]. cbn [run_events snd] in *.
  assert (io_cb st loop self revents w =
    Ret (TcpConn (conn_io self1) SANCUS_TCP_CONN_RUNNING (now loop), w1)) as E.
  { unfold io_cb. rewrite He. inversion Hp as [? _ [Hs|Hs]| | |]; subst; rewrite Hs, Hwr; cbn [c_assert];
      rewrite !(lift_bind _ tt) by done; rewrite ?no_read_event, ?(lift_bind _ tt) by done;
      unfold connect_done; cbn [sancus_ev_fd_init]; by rewrite (io_bind_eq _ _ _ _ _ Hon). }
  rewrite (io_bind_eq _ _ _ _ _ E). by apply run_events_running.
Qed.

Lemma first_event_establishes_witness :
  run_events quiet_conn (TcpConn (EvFd 5 true) SANCUS_TCP_CONN_CONNECTED no_time)
      [(EvLoop (mk_ts 9 0), 1); (EvLoop (mk_ts 10 0), 0); (EvLoop (mk_ts 11 0), 1)] (World [] [] 0) =
    Ret (TcpConn (EvFd 5 true) SANCUS_TCP_CONN_RUNNING (mk_ts 9 0), World [] [] 0).
Proof.
  apply (first_event_establishes quiet_conn (TcpConn (EvFd 5 true) SANCUS_TCP_CONN_CONNECTED no_time)
    (TcpConn (EvFd 5 true) SANCUS_TCP_CONN_CONNECTED no_time) (EvLoop (mk_ts 9 0)) 1
    [(EvLoop (mk_ts 10 0), 0); (EvLoop (mk_ts 11 0), 1)]);
    [apply shows_pending; [by vm_compute|by right]|done|by repeat constructor|done].
Defined.
