(* ===== verification/ServerLife.v ===== *)
(** * ServerLife

    The life of a server of [Tcp], from a successful listen on: the program
    starts, stops and closes it, the event loop calls [connect_cb] while it is
    open, and in between the program does what it likes with the connections it
    took.  Which descriptors it holds is replayed by [Live]. *)

From stdpp Require Import gmap.
From S2P Require Import Prelude Sys Live Fd Ev Tcp.
#[local] Open Scope Z_scope.

(** [enum sancus_tcp_server_error] @ include/sancus/tcp_server.h:39-41. *)
Inductive sancus_tcp_server_error := SANCUS_TCP_SERVER_ACCEPT_ERROR.

(** [sancus_tcp_server_fd] @ include/sancus/tcp_server.h:157-157. *)
Definition sancus_tcp_server_fd (s : sancus_tcp_server) : Z := ev_fd (connect s).

(** [sancus_tcp_server_is_active] @ include/sancus/tcp_server.h:164-164. *)
Definition sancus_tcp_server_is_active (s : sancus_tcp_server) : bool :=
  (sancus_tcp_server_fd s >? 0) && sancus_ev_is_active (connect s).

(** ** Accepting *)

(** [sancus_accept] hands out at most the descriptor it returns. *)
Lemma accept_inv fd w v w' :
  sancus_accept fd w = Ret (v, w') ->
  exists evs, trace w' = trace w ++ evs /\ closes evs = [] /\
    opened evs = (if 0 <=? v.1 then [v.1] else []).
Proof.
  unfold sancus_accept, patience. generalize (S (length (script w))). intros fuel. revert w.
  induction fuel as [|fuel IH]; intros w; [done|]. cbn [accept_retry].
  intros (r & rs & _ & H)%sys_inv. rewrite get_errno_bind in H. cbn [errno] in H.
  destruct ((ret r <? 0) && _) eqn:Er.
  - apply IH in H as (evs & E & Hc & Ho). cbn [trace] in E. exists ((SysAccept fd, r) :: evs).
    split; [by rewrite E, <- app_assoc|]. split; [done|]. rewrite opened_cons, Ho.
    apply andb_true_iff in Er as [Er%Z.ltb_lt _]. cbn. by rewrite (proj2 (Z.leb_gt 0 (ret r))) by lia.
  - injection H as <- <-. exists [(SysAccept fd, r)]. split; [done|]. split; [done|].
    cbn. by destruct (0 <=? ret r).
Qed.

Lemma server_close_inv s w s' w' :
  sancus_tcp_server_close s w = Ret (s', w') ->
  0 <= sancus_tcp_server_fd s /\ sancus_tcp_server_fd s' = -1 /\
  exists evs, trace w' = trace w ++ evs /\ opened evs = [] /\ sancus_tcp_server_fd s ∈ closes evs.
Proof.
  unfold sancus_tcp_server_close, sancus_tcp_server_fd. rewrite Z.geb_leb.
  destruct (Z.leb_spec 0 (ev_fd (connect s))); [|done]. cbn [c_assert sancus_ev_is_active negb].
  rewrite !(lift_bind _ tt) by done. intros ([rc fd] & w1 & Hc & H')%io_bind_inv.
  apply sancus_close2_inv in Hc as (Hfd & evs & E & Ho & Hcl). cbn in Hfd. subst fd.
  injection H' as <- <-. split_and!; [done|done|]. exists evs. split_and!; [done|done|by apply Hcl].
Qed.

(** ** Callbacks

    A callback opens nothing that it keeps; it may give back descriptors of the
    program's, and it may close the server it is given. *)

Class ServerPolite (st : sancus_tcp_server_settings) : Prop := {
  polite_pre_bind : pre_bind_ok st;
  polite_accept : forall s fd addr w b s' w', server_on_connect st s fd addr w = Ret ((b, s'), w') ->
    exists evs, trace w' = trace w ++ evs /\ keeps sancus_tcp_server_fd s s' evs;
  polite_accept_error : forall s w s' w', server_on_error st s w = Ret (s', w') ->
    exists evs, trace w' = trace w ++ evs /\ keeps sancus_tcp_server_fd s s' evs
}.

(** ** The steps *)

Section Life.
Context {F : EvFlags} (st : sancus_tcp_server_settings).

(** The connection that an event makes the program take over, if it does. *)
Definition takes (s : sancus_tcp_server) (revents : Z) (w : world) : gset Z :=
  if has_event revents EV_READ then
    match sancus_accept (sancus_tcp_server_fd s) w with
    | Ret ((fd, addr), w1) =>
        if fd <? 0 then ∅
        else match server_on_connect st s fd addr w1 with
             | Ret ((true, _), _) => {[fd]}
             | _ => ∅
             end
    | _ => ∅
    end
  else ∅.

(** A step, with what the program takes over or opens itself in it. *)
Inductive server_step : sancus_tcp_server * world -> gset Z -> sancus_tcp_server * world -> Prop :=
  | serve_start s w w' : sancus_tcp_server_start s w = Ret (tt, w') -> server_step (s, w) ∅ (s, w')
  | serve_stop s w w' : sancus_tcp_server_stop s w = Ret (tt, w') -> server_step (s, w) ∅ (s, w')
  | serve_close s w s' w' : sancus_tcp_server_close s w = Ret (s', w') -> server_step (s, w) ∅ (s', w')
  | serve_event s revents w s' w' :
      0 <= sancus_tcp_server_fd s -> connect_cb st s revents w = Ret (s', w') ->
      server_step (s, w) (takes s revents w) (s', w')
  | serve_client s w w' evs :
      trace w' = trace w ++ evs -> sancus_tcp_server_fd s ∉ closes evs ->
      server_step (s, w) (list_to_set (opened evs)) (s, w').

Definition server_run := run server_step.

Context `{Hst : !ServerPolite st}.

(** The event: whatever [accept] hands out is taken over or given back. *)
Lemma accept_holds s revents w s' w' :
  0 <= sancus_tcp_server_fd s -> connect_cb st s revents w = Ret (s', w') ->
  exists evs, trace w' = trace w ++ evs /\ holds_on sancus_tcp_server_fd s s' (takes s revents w) evs.
Proof.
  intros Hfd H. unfold connect_cb in H. apply io_bind_inv in H as ([] & w0 & Ha & H).
  assert (w0 = w) as -> by (destruct (has_event revents EV_ERROR); [done|by injection Ha]). clear Ha.
  unfold takes. destruct (has_event revents EV_READ).
  2:{ injection H as <- <-. exists []. rewrite app_nil_r. split; [done|by apply keeps_holds, keeps_nothing]. }
  unfold accept_ready in H. apply io_bind_inv in H as ([fd addr] & w1 & Ha & H).
  change (ev_fd (connect s)) with (sancus_tcp_server_fd s) in Ha. rewrite Ha. apply accept_inv in Ha as (evs1 & E1 & Hc1 & Ho1). cbn [fst] in Ho1.
  destruct (Z.ltb_spec fd 0) as [Hneg|Hpos].
  - rewrite (proj2 (Z.leb_gt 0 fd)) in Ho1 by lia. apply polite_accept_error in H as (evs2 & E2 & Hk).
    exists (evs1 ++ evs2). split; [by rewrite E2, E1, app_assoc|]. intros l [Hf1 Hf2]%fresh_app Hs.
    rewrite live_app, (live_quiet l evs1), Hc1 by done. rewrite live_quiet, Hc1 in Hf2 by done.
    replace (l ∖ list_to_set []) with l in * by set_solver. by apply keeps_holds.
  - rewrite (proj2 (Z.leb_le 0 fd)) in Ho1 by lia.
    apply io_bind_inv in H as ([keep s1] & w2 & Hon & H). rewrite Hon.
    apply polite_accept in Hon as (evs2 & E2 & Ho2 & Hk). destruct keep; cbn [negb] in H.
    + injection H as <- <-. exists (evs1 ++ evs2). split; [by rewrite E2, E1, app_assoc|].
      intros l [Hf1 Hf2]%fresh_app Hs. rewrite live_app. pose proof (live_bound l evs1) as Hb. rewrite Ho1 in Hb.
      assert (sancus_tcp_server_fd s ∈ live l evs1) as Hin by (apply live_keeps; [auto|rewrite Hc1; apply not_elem_of_nil]).
      destruct (keeps_holds sancus_tcp_server_fd s s1 ∅ evs2 (conj Ho2 Hk) (live l evs1) Hf2 (fun _ => Hin)) as (H1 & H2 & H3).
      split_and!; [clear -Hb H1; set_solver|done|done].
    + apply io_bind_inv in H as ([rc fd'] & w3 & Hcl & H). injection H as <- <-.
      apply sancus_close2_inv in Hcl as (_ & evs3 & E3 & Ho3 & Hc3).
      exists (evs1 ++ evs2 ++ evs3). split; [by rewrite E3, E2, E1, <- !app_assoc|].
      intros l [Hf1 [Hf2 Hf3]%fresh_app]%fresh_app Hs. rewrite !live_app.
      pose proof (live_bound l evs1) as Hb. rewrite Ho1 in Hb.
      assert (sancus_tcp_server_fd s ∈ live l evs1) as Hin by (apply live_keeps; [auto|rewrite Hc1; apply not_elem_of_nil]).
      destruct (keeps_holds sancus_tcp_server_fd s s1 ∅ evs2 (conj Ho2 Hk) (live l evs1) Hf2 (fun _ => Hin)) as (H1 & H2 & H3).
      pose proof (fresh_opened l evs1 fd Hf1 Ho1 Hc1) as Hfr.
      rewrite (live_quiet _ evs3) by done.
      assert (forall x, x ∈@{gset Z} list_to_set (closes evs3) <-> x = fd) as Hset
        by (intros x; rewrite elem_of_list_to_set; apply Hc3).
      assert (sancus_tcp_server_fd s <> fd) as Hne by (intros E; apply Hfr; rewrite <- E; auto).
      split_and!; [clear -Hb H1 Hset; set_solver|clear -H2 Hset; destruct H2 as [->|[? ?]]; [by left|right; set_solver]|].
      intros Hs1. specialize (H3 Hs1). destruct H2 as [E|[? _]]; [|lia]. rewrite E in *.
      clear -H3 Hset Hne. set_solver.
Qed.

Lemma server_step_holds x T y :
  server_step x T y -> exists evs, trace y.2 = trace x.2 ++ evs /\ holds_on sancus_tcp_server_fd x.1 y.1 T evs.
Proof.
  destruct 1 as [s w w' H|s w w' H|s w s' w' H|s revents w s' w' Hfd H|s w w' evs E Hc]; cbn [fst snd].
  - injection H as <-. exists []. rewrite app_nil_r. split; [done|by apply keeps_holds, keeps_nothing].
  - injection H as <-. exists []. rewrite app_nil_r. split; [done|by apply keeps_holds, keeps_nothing].
  - apply server_close_inv in H as (Hfd & Hfd' & evs & E & Ho & Hc). exists evs. split; [done|].
    apply keeps_holds. split; [done|]. right. split; [lia|done].
  - by apply accept_holds.
  - exists evs. split; [done|by apply others_hold].
Qed.

End Life.

(** ** Properties *)

(** A successful listen holds its socket and nothing else. *)
Lemma listen_holds st `{!ServerPolite st} old self family sa cloexec backlog w w' l0 :
  server_init_tcp st old family sa cloexec backlog w = Ret ((1, self), w') ->
  exists evs, trace w' = trace w ++ evs /\ live l0 evs ⊆ l0 ∪ held_by sancus_tcp_server_fd self /\
    sancus_tcp_server_fd self ∈ live l0 evs.
Proof.
  intros H. apply server_init_tcp_no_leak in H as (evs & E & [(_ & Hfd & Ho)|[? _]]); [|done|apply polite_pre_bind].
  exists evs. destruct Ho as [(_ & Ho & Hc)|[? _]]; [|lia]. split; [done|by apply opened_held].
Qed.

(** C30. A server holds its listening socket and nothing else.  From a
    successful listen on, in whatever order the program starts, stops and
    closes the server, the event library reports events, and the program goes
    about its business, every descriptor that is open was open before, is
    the one the server listens on, or is a connection that [on_connect] took
    over or a descriptor the program opened itself: a connection that was
    declined is not held.  The listening socket
    stays open as long as the server is.  The kernel hands out no descriptor
    that is held; the callbacks open none and return a server whose socket they
    closed as closed, and [pre_bind] closes nothing ([ServerPolite]). *)
Theorem server_holds_only_its_socket {F : EvFlags} (st : sancus_tcp_server_settings) (Hst : ServerPolite st)
    (old self s : sancus_tcp_server) (family : Z) (sa : list byte) (cloexec : bool) (backlog : Z)
    (before T : gset Z) (w w' w'' : world)
    (Hinit : server_init_tcp st old family sa cloexec backlog w = Ret ((1, self), w'))
    (Hrun : server_run st (self, w') T (s, w'')) :
  exists evs, trace w'' = trace w ++ evs /\
    (fresh before evs ->
       live before evs ⊆ before ∪ T ∪ held_by sancus_tcp_server_fd s /\
       (0 <= sancus_tcp_server_fd s -> sancus_tcp_server_fd s ∈ live before evs)).
Proof.
  destruct (listen_holds st old self family sa cloexec backlog w w' before Hinit) as (evs0 & E & Hl & Hin).
  by apply (run_holds _ _ (server_step_holds st) _ _ _ Hrun before before (trace w) evs0).
Qed.

(** A server that takes its first connection and declines the others. *)
Definition take_seven : sancus_tcp_server_settings :=
  ServerSettings None (fun s fd _ => mret (fd =? 7, s)) (fun s => mret s).

#[export] Instance take_seven_polite : ServerPolite take_seven.
Proof.
  assert (forall s, keeps sancus_tcp_server_fd s s []) as Hk by
    (intros s; split; [done|]; left; split; [done|apply not_elem_of_nil]).
  split.
  - intros f s w s' w' Hf. discriminate.
  - intros s fd addr w b s' w' H. injection H as <- <- <-. exists []. by rewrite app_nil_r.
  - intros s w s' w' H. injection H as <- <-. exists []. by rewrite app_nil_r.
Qed.

(** It listens on 3, takes 7 and declines 8. *)
Lemma server_holds_only_its_socket_witness :
  let opts := [ok 0; ok 0; ok 0; ok 0; ok 0] in
  let w := World ([ok 3; ok 2050] ++ opts ++ [ok 7; ok 8; ok 0]) [] 0 in
  let evs0 := [(SysSocket 2 (Z.lor 1 SOCK_NONBLOCK) 0, ok 3); (SysGetfl 3, ok 2050);
    (SysSetsockopt 3 1 2, ok 0); (SysSetsockopt 3 1 9, ok 0); (SysSetsockopt 3 1 13, ok 0);
    (SysBind 3 [], ok 0); (SysListen 3 5, ok 0)] in
  let w'' := World [] (evs0 ++ [(SysAccept 3, ok 7); (SysAccept 3, ok 8); (SysClose 8, ok 0)]) 0 in
  exists evs, trace w'' = trace w ++ evs /\
    (fresh ∅ evs -> live ∅ evs ⊆ ∅ ∪ (∅ ∪ {[7]} ∪ ∅) ∪ held_by sancus_tcp_server_fd (TcpServer (EvFd 3 true)) /\
       (0 <= 3 -> 3 ∈ live ∅ evs)).
Proof.
  intros opts w evs0 w''.
  apply (server_holds_only_its_socket (F := bits_flags) take_seven _ (TcpServer (EvFd (-1) false))
    (TcpServer (EvFd 3 true)) (TcpServer (EvFd 3 true)) AF_INET [] false 5 ∅ _ w
    (World [ok 7; ok 8; ok 0] evs0 0) w''); [by vm_compute|].
  apply (run_more _ _ _ (TcpServer (EvFd 3 true), World [ok 8; ok 0] (evs0 ++ [(SysAccept 3, ok 7)]) 0)).
  - apply (run_more _ _ _ (TcpServer (EvFd 3 true), World [ok 7; ok 8; ok 0] evs0 0)); [apply run_none|].
    apply (serve_event (F := bits_flags) take_seven (TcpServer (EvFd 3 true)) 1 (World [ok 7; ok 8; ok 0] evs0 0)); by vm_compute.
  - apply (serve_event (F := bits_flags) take_seven (TcpServer (EvFd 3 true)) 1
      (World [ok 8; ok 0] (evs0 ++ [(SysAccept 3, ok 7)]) 0)); by vm_compute.
Defined.
